(* ===== verification/_CoqProject ===== *)
-Q . S2P
Prelude.v
GoStrings.v
GoPath.v
GoErrors.v
Base64.v
Effects.v
World.v
GoOS.v
GoOSFacts.v
Sha1.v
Runtime.v
ApiTypes.v
ApiWebhook.v
MavenMetadata.v
Http.v
Transport.v
Stashes.v
ArtifactFiles.v
ArtifactFilesFacts.v
Extraction.v
TarFacts.v
MavenDownload.v
MavenResolver.v
SentFacts.v
Reconcile.v
MavenArtifactController.v
ImageRepositoryController.v
Frames.v
Steps.v
MavenFacts.v
Packed.v
MavenPublish.v
ImageFacts.v
PanicFacts.v
PullSecrets.v
Composition.v
MavenReconcileFacts.v
ImageReconcileFacts.v
ErrorFacts.v
Server.v
TestRegistry.v
Main.v
GoHeap.v
GoDeep.v
DeepCopies.v
Dies.v
DieFacts.v
DieTypes.v
MemoryLaboratory.v
MemoryProperties.v
Laboratory.v
SentSyncs.v
ReconcileDisk.v
StashTypes.v
Cluster.v
MavenProperties.v
ArtifactProperties.v
ImageProperties.v
ClusterProperties.v
