(* ===== verification/Prelude.v ===== *)
(** * A verification development for tanzu-source-controller

    The program is a Kubernetes controller.  It watches two kinds of custom
    resource, [ImageRepository] and [MavenArtifact]; for each it fetches what
    the resource names (an image from a registry, a file from a Maven
    repository), packs it into a compressed tarball below the artifact root,
    and records path, URL and SHA-1 in the status of the resource.  A file
    server in the same process serves the tarballs.  The development is a
    shallow embedding of that program in functions that can be run, with the
    theorems that make its parts correct.

    ** The parts and their files

    The language and its standard library.
    - GoStrings, GoPath: [strings], [fmt.Sprintf], [path] and [path/filepath].
    - GoErrors: error values with wrapping; error texts stay symbolic.
    - Effects: the monad [M S A] of functions that read and write a state
      [S] and return, fail with an error or panic; [try], [defer], loops, and
      the rules of [within] (a relation every run respects, whatever its
      outcome) and [calm] (no run panics).
    - World, GoOS: the file system as a map from absolute paths to nodes, the
      log of requests, and the environment [Env], which may make any system
      call fail.  GoOSFacts: what each call changes, and that the tree stays
      well formed ([fs_wf]).
    - Sha1: [crypto/sha1] on 32-bit words.  Base64: [encoding/base64], both
      ways.  Http: [http.Client.Do] with its redirect loop.  Transport: PEM,
      certificates, and Go slices with the arrays they share
      (controllers/transport.go).
    Third-party interfaces.
    - Runtime: condition manager, stash and sub-reconcilers of
      reconciler.io/runtime, as classes of operations with classes of laws,
      and instances that satisfy them.  [WithFinalizer] adds the finalizer
      to a live resource before its syncs and clears it from a deleted one
      after a successful finalization; both are patches to the API server
      that may fail.
    The API group (apis/source/v1alpha1, pkg/mavenmetadata).
    - ApiTypes: the resources and their lifecycle.  ApiWebhook: defaulting
      and validation.  MavenMetadata: what is read off [maven-metadata.xml].
    The controllers (controllers/).
    - Stashes: what one sub-reconciler leaves for the next.  MavenDownload:
      requests and downloads.  MavenResolver: internal.go, from coordinates
      to the file to download.  ArtifactFiles: tarballs, extraction, copies
      and the cache file.  Reconcile: the state of a reconcile and what both
      controllers share.  MavenArtifactController and
      ImageRepositoryController: the sub-reconcilers and their composition.
    The program.
    - Cluster: main.go from the two reconcilers on.  The resources at the API
      server, the disk, and the variables the two reconcilers keep between
      calls, as a state machine: [step] reconciles one resource, or replaces
      or removes it.
    - Server: server/artifact.go with the file server of [net/http].
      Main: main.go.  TestRegistry: testing/, the registries the tests start.
    Objects in memory.
    - GoHeap: a heap of typed cells, in which pointers and slices may be
      shared, and the layout of the API's structs on it.  GoDeep: when a value
      in memory stands for one without pointers ([deep]), and what a copy is
      ([copies]).  DeepCopies: apis/source/v1alpha1/zz_generated.deepcopy.go.
    - Dies, DieTypes: dies/source/v1alpha1, the builders of test fixtures.
      Dies has each generated method once, for any type; DieTypes
      instantiates them for the nine types and adds the setters and the
      methods written by hand.

    ** The theorems

    - MavenProperties, ImageProperties: what a whole reconcile does to the
      resource, to the disk and on the wire, on every outcome; deletion;
      isolation of one tenant's directory, certificates and requests from
      the others'; error statuses; which pull secrets are read, and in which
      order.
    - ArtifactProperties: extraction, tarballs, cache, the errors that are
      lost when a system call fails, redirects, downloads, resolution,
      admission, serving, the test registry and start-up, one component at a
      time.
    - ClusterProperties: what a resource has published outlives every sequence
      of steps of the others; the stash stays well typed.
    - MemoryProperties: deep copies refine the identity and are independent of
      their originals; the methods of a die refine the functions they are
      named for, in place or in a new die; what nested dies build.
    - The lemmas are in ArtifactFilesFacts, TarFacts (the tarball holds
      exactly the files below its directory), Extraction (an archive that is
      extracted leaves exactly its files), Packed (from the file downloaded to
      the tarball served), StashTypes (each key of the stash has one type),
      SentFacts and SentSyncs (what is sent), Frames, MavenFacts and ImageFacts
      (what each sync changes), PullSecrets (the reads of the pull secrets),
      Steps and MavenPublish (what a sync that succeeds leaves), PanicFacts,
      Composition (the syncs in order), MavenReconcileFacts and
      ImageReconcileFacts (results of whole reconciles), ErrorFacts,
      ReconcileDisk; DieFacts has the calculus of dies ([represents],
      [becomes], [acts]).
    - Laboratory, MemoryLaboratory: concrete instances of every class, on which
      the instances of the theorems run.

    ** Bounds and fuel

    The redirect loop runs with [client_fuel] = 11 hops; the policy stops it
    after ten, and [redirects_terminate] shows that more fuel changes nothing.
    [os.MkdirTemp] tries 10000 names, [mkdir_temp_tries] = 9999 of them again, as
    Go's does.  Every other recursion is structural.

    ** Parameters

    Code that is not in the repository: the answers of the network, the
    registry and the Kubernetes API, XML, gzip, tar and zip encodings, URL
    parsing, the clock and random names, the manager of controller-runtime;
    for objects in memory the deep copies and dies of Kubernetes' own types,
    JSON and YAML, reflection; for the test registries the servers they wrap.
    Each is a class; what a theorem needs of one is a named hypothesis or a
    law of the class.

    ** Not modelled

    Logging; sockets, TLS and the shutdown of the servers; the interleaving
    of two reconciles that run at the same time (in Cluster a reconcile is one
    step; what reconciles share is the disk, the slice of certificates and the
    cleaned root); symbolic links; the
    registration of types with a scheme.  The controllers work on values; the
    heap is used where sharing matters, in the copies, the dies and the slices
    of certificates; there a nil slice and an empty one stand for the same
    value.  The finalizers in the metadata of a resource are no part of its
    modelled state, only their patches are.  A failing [os.RemoveAll] removes
    nothing, where the system's may have removed a part. *)

From stdpp Require Export base option list strings gmap.
From Stdlib Require Export Ascii ZArith Lia.

#[global] Open Scope string_scope.
#[global] Open Scope stdpp_scope.
#[global] Open Scope list_scope.
#[global] Open Scope Z_scope.

(** ** Bytes and strings

    A Go string is a sequence of bytes, as [string] is a sequence of [ascii]. *)

#[export] Instance ascii_eq_dec' : EqDecision ascii := Ascii.ascii_dec.

(** Does the byte [c] occur in [s]? *)
Fixpoint byte_in (c : ascii) (s : string) : bool :=
  match s with
  | EmptyString => false
  | String a s' => bool_decide (a = c) || byte_in c s'
  end.

(** Every byte of [s] satisfies [p]. *)
Fixpoint bytes_all (p : ascii -> bool) (s : string) : bool :=
  match s with
  | EmptyString => true
  | String a s' => p a && bytes_all p s'
  end.

Create HintDb src.
Create HintDb sent.
Create HintDb opaque.
Create Rewrite HintDb str.

Lemma append_nil_l (s : string) : "" +:+ s = s.
Proof. reflexivity. Qed.

Lemma append_cons (a : ascii) (s t : string) : String a s +:+ t = String a (s +:+ t).
Proof. reflexivity. Qed.

Lemma append_nil_r (s : string) : s +:+ "" = s.
Proof. induction s as [|a s IH]; [done|]. by rewrite append_cons, IH. Qed.

Lemma append_assoc (s t u : string) : (s +:+ t) +:+ u = s +:+ (t +:+ u).
Proof. induction s as [|a s IH]; [done|]. by rewrite !append_cons, IH. Qed.

Lemma length_append (s t : string) :
  String.length (s +:+ t) = (String.length s + String.length t)%nat.
Proof. induction s as [|a s IH]; [done|]. rewrite append_cons; simpl; lia. Qed.

Lemma append_inj_l (s t u : string) : s +:+ t = s +:+ u -> t = u.
Proof.
  induction s as [|a s IH]; [done|]. rewrite !append_cons. intros [= H]. by apply IH.
Qed.

Lemma append_inj_r (s t u : string) : t +:+ s = u +:+ s -> t = u.
Proof.
  revert u. induction t as [|a t IH]; intros [|b u]; rewrite ?append_cons, ?append_nil_l; try done.
  - intros H. apply (f_equal String.length) in H. simpl in H. rewrite length_append in H. lia.
  - intros H. apply (f_equal String.length) in H. simpl in H. rewrite length_append in H. lia.
  - intros [= -> H]. f_equal. by apply IH.
Qed.

Lemma append_eq_nil (s t : string) : s +:+ t = "" -> s = "" /\ t = "".
Proof. destruct s; [done|]. by rewrite append_cons. Qed.

Lemma byte_in_append (c : ascii) (s t : string) :
  byte_in c (s +:+ t) = byte_in c s || byte_in c t.
Proof.
  induction s as [|a s IH]; [done|]. rewrite append_cons; simpl. by rewrite IH, orb_assoc.
Qed.

Lemma bytes_all_append p (s t : string) :
  bytes_all p (s +:+ t) = bytes_all p s && bytes_all p t.
Proof.
  induction s as [|a s IH]; [done|]. rewrite append_cons; simpl. by rewrite IH, andb_assoc.
Qed.

#[export] Hint Rewrite append_nil_l append_nil_r append_cons append_assoc
  byte_in_append bytes_all_append : str.

(** ** Automation *)

(** Case analysis on the scrutinee of the innermost [match] or [if] of the goal. *)
Ltac case_goal :=
  match goal with
  | |- context [match ?x with _ => _ end] =>
      lazymatch x with
      | context [match _ with _ => _ end] => fail
      | _ => let E := fresh "E" in destruct x eqn:E
      end
  end.

(** The same for a hypothesis. *)
Ltac case_hyp H :=
  match type of H with
  | context [match ?x with _ => _ end] =>
      lazymatch x with
      | context [match _ with _ => _ end] => fail
      | _ => let E := fresh "E" in destruct x eqn:E
      end
  end.

(** Split the boolean hypotheses into propositions. *)
Ltac bool_hyps :=
  repeat match goal with
  | H : _ && _ = true |- _ => apply andb_true_iff in H as [? ?]
  | H : _ || _ = false |- _ => apply orb_false_iff in H as [? ?]
  | H : negb _ = true |- _ => apply negb_true_iff in H
  | H : negb _ = false |- _ => apply negb_false_iff in H
  | H : bool_decide _ = true |- _ => apply bool_decide_eq_true in H
  | H : bool_decide _ = false |- _ => apply bool_decide_eq_false in H
  | H : (_ =? _)%Z = true |- _ => apply Z.eqb_eq in H
  | H : (_ =? _)%Z = false |- _ => apply Z.eqb_neq in H
  | H : (_ <? _)%Z = true |- _ => apply Z.ltb_lt in H
  | H : (_ <? _)%Z = false |- _ => apply Z.ltb_ge in H
  | H : (_ <=? _)%Z = true |- _ => apply Z.leb_le in H
  | H : (_ <=? _)%Z = false |- _ => apply Z.leb_gt in H
  | H : String.eqb _ _ = true |- _ => apply String.eqb_eq in H
  | H : String.eqb _ _ = false |- _ => apply String.eqb_neq in H
  end.

(** ** Lists *)

(** [prefix] of lists as a decidable test and as the rest. *)
Fixpoint drop_prefix {A} `{EqDecision A} (p l : list A) : option (list A) :=
  match p, l with
  | [], _ => Some l
  | x :: p', y :: l' => if decide (x = y) then drop_prefix p' l' else None
  | _ :: _, [] => None
  end.

Lemma drop_prefix_Some {A} `{EqDecision A} (p l r : list A) :
  drop_prefix p l = Some r <-> l = p ++ r.
Proof.
  revert l. induction p as [|x p IH]; intros [|y l]; simpl; split; intros H; simplify_eq/=; auto.
  - case_decide; [subst|done]. apply IH in H. by subst.
  - case_decide; [|done]. by apply IH.
Qed.

Lemma drop_prefix_None {A} `{EqDecision A} (p l : list A) :
  drop_prefix p l = None <-> ~ p `prefix_of` l.
Proof.
  split.
  - intros H [r ->]. assert (drop_prefix p (p ++ r) = Some r) by by apply drop_prefix_Some.
    congruence.
  - intros H. destruct (drop_prefix p l) as [r|] eqn:E; [|done].
    apply drop_prefix_Some in E as ->. destruct H. by exists r.
Qed.

(** ** Properties of finitely many integers, by evaluation *)

Lemma below_all (p : Z -> bool) (n : nat) :
  forallb (fun k => p (Z.of_nat k)) (seq 0 n) = true -> forall z, 0 <= z < Z.of_nat n -> p z = true.
Proof.
  rewrite forallb_forall. intros H z Hz. rewrite <- (Z2Nat.id z) by lia.
  apply H, in_seq. lia.
Qed.
