(* ===== verification/GoStrings.v ===== *)
(** * The parts of Go's [strings] and [fmt] packages the controllers use

    Strings are byte strings.  [Split] and [Cut] take a one-byte separator,
    [Replace] a non-empty old string, [ToLower] is the ASCII part: these are
    the only uses in the source. *)

From S2P Require Import Prelude.

(** Text in double quotes, for literals that contain them. *)
Definition quote_mark : string := String (ascii_of_nat 34) "".
Definition dq (s : string) : string := quote_mark +:+ s +:+ quote_mark.

(** ** Prefixes and suffixes *)

Fixpoint HasPrefix (s p : string) {struct p} : bool :=
  match p, s with
  | EmptyString, _ => true
  | String a p', String b s' => bool_decide (a = b) && HasPrefix s' p'
  | String _ _, EmptyString => false
  end.

Fixpoint HasSuffix (s p : string) : bool :=
  bool_decide (s = p) ||
  match s with
  | EmptyString => false
  | String _ s' => HasSuffix s' p
  end.

Lemma HasPrefix_spec s p : HasPrefix s p = true <-> exists r, s = p +:+ r.
Proof.
  revert s. induction p as [|a p IH]; intros [|b s]; simpl.
  - split; [by exists ""|done].
  - split; [by exists (String b s)|done].
  - split; [done|]. intros [r H]. by rewrite append_cons in H.
  - rewrite andb_true_iff, bool_decide_eq_true, IH. split.
    + intros [-> [r ->]]. by exists r.
    + intros [r H]. rewrite append_cons in H. injection H as -> ->. eauto.
Qed.

Definition TrimSuffix (s p : string) : string :=
  if HasSuffix s p then String.substring 0 (String.length s - String.length p) s else s.

Lemma HasSuffix_spec s p : HasSuffix s p = true <-> exists r, s = r +:+ p.
Proof.
  induction s as [|a s IH]; simpl; rewrite orb_true_iff, bool_decide_eq_true.
  - split.
    + intros [H|H]; [|done]. exists "". by rewrite append_nil_l.
    + intros [r H]. symmetry in H. apply append_eq_nil in H as [-> ->]. auto.
  - rewrite IH. split.
    + intros [<-|[r ->]]; [by exists ""|]. exists (String a r). by rewrite append_cons.
    + intros [[|b r] H].
      * rewrite append_nil_l in H. auto.
      * rewrite append_cons in H. injection H as -> ->. eauto.
Qed.

Lemma HasPrefix_append p r : HasPrefix (p +:+ r) p = true.
Proof. apply HasPrefix_spec. by exists r. Qed.

Lemma HasSuffix_append r p : HasSuffix (r +:+ p) p = true.
Proof. apply HasSuffix_spec. by exists r. Qed.

(** [strings.ContainsAny(s, chars)]: some byte of [s] is one of [chars]. *)
Fixpoint ContainsAny (s chars : string) : bool :=
  match s with
  | EmptyString => false
  | String a s' => byte_in a chars || ContainsAny s' chars
  end.

Lemma ContainsAny_false s chars :
  ContainsAny s chars = false <-> bytes_all (fun a => negb (byte_in a chars)) s = true.
Proof.
  induction s as [|a s IH]; simpl; [done|].
  rewrite orb_false_iff, andb_true_iff, negb_true_iff, IH. done.
Qed.

(** ** Splitting at a byte *)

(** [strings.Split(s, sep)] for a one-byte [sep]: always at least one piece. *)
Fixpoint Split (s : string) (sep : ascii) : list string :=
  match s with
  | EmptyString => [""]
  | String a s' =>
      if bool_decide (a = sep) then "" :: Split s' sep
      else match Split s' sep with
           | w :: ws => String a w :: ws
           | [] => [String a ""]
           end
  end.

(** [strings.Join(elems, sep)] *)
Fixpoint JoinWith (sep : string) (l : list string) : string :=
  match l with
  | [] => ""
  | [w] => w
  | w :: ws => w +:+ (sep +:+ JoinWith sep ws)
  end.

(** [strings.Cut(s, sep)]: the text before and after the first [sep]. *)
Fixpoint Cut (s : string) (sep : ascii) : string * string * bool :=
  match s with
  | EmptyString => ("", "", false)
  | String a s' =>
      if bool_decide (a = sep) then ("", s', true)
      else let '(b, r, f) := Cut s' sep in (String a b, r, f)
  end.

Lemma Split_cons s sep : exists w ws, Split s sep = w :: ws.
Proof.
  destruct s as [|a s]; simpl; [eauto|]. case_bool_decide; [eauto|].
  destruct (Split s sep); eauto.
Qed.

Lemma Split_not_nil s sep : Split s sep <> [].
Proof. destruct (Split_cons s sep) as (w & ws & ->). done. Qed.

Lemma Split_no_sep s sep : byte_in sep s = false -> Split s sep = [s].
Proof.
  induction s as [|a s IH]; simpl; [done|]. intros [H1 H2]%orb_false_iff. bool_hyps.
  rewrite bool_decide_eq_false_2 by done. by rewrite IH.
Qed.

Lemma Split_pieces s sep : Forall (fun w => byte_in sep w = false) (Split s sep).
Proof.
  induction s as [|a s IH]; simpl; [repeat constructor|].
  case_bool_decide; [by constructor|].
  destruct (Split_cons s sep) as (w & ws & E). rewrite E in *.
  inversion IH; subst. constructor; [|done]. simpl.
  by rewrite bool_decide_eq_false_2.
Qed.

Lemma Split_append w s sep :
  byte_in sep w = false ->
  Split (w +:+ String sep s) sep = w :: Split s sep.
Proof.
  induction w as [|a w IH]; simpl.
  - intros _. rewrite ?append_nil_l. simpl. by rewrite bool_decide_eq_true_2.
  - intros [H1 H2]%orb_false_iff. bool_hyps. rewrite ?append_cons. simpl.
    rewrite bool_decide_eq_false_2 by done. by rewrite IH.
Qed.

Lemma Split_app s t sep : Split (s +:+ String sep t) sep = Split s sep ++ Split t sep.
Proof.
  induction s as [|a s IH].
  - rewrite append_nil_l. simpl. by rewrite bool_decide_eq_true_2.
  - rewrite append_cons. simpl. rewrite IH. case_bool_decide; [done|].
    by destruct (Split_cons s sep) as (w & ws & ->).
Qed.

Lemma Split_JoinWith w ws sep :
  Split (JoinWith (String sep "") (w :: ws)) sep = mjoin ((fun v => Split v sep) <$> w :: ws).
Proof.
  revert w. induction ws as [|w' ws IH]; intros w; [by rewrite fmap_cons; simpl; rewrite app_nil_r|].
  change (JoinWith (String sep "") (w :: w' :: ws))
    with (w +:+ String sep (JoinWith (String sep "") (w' :: ws))).
  by rewrite Split_app, IH.
Qed.

Lemma Join_Split s sep : JoinWith (String sep "") (Split s sep) = s.
Proof.
  induction s as [|a s IH]; [done|]. simpl. case_bool_decide as H.
  - subst. destruct (Split_cons s sep) as (w & ws & E). rewrite E in *.
    change (JoinWith (String sep "") ("" :: w :: ws))
      with ("" +:+ (String sep "" +:+ JoinWith (String sep "") (w :: ws))).
    by rewrite IH, append_nil_l, append_cons, append_nil_l.
  - destruct (Split_cons s sep) as (w & ws & E). rewrite E in *. rewrite <- IH.
    destruct ws; [done|]. simpl. by rewrite append_cons.
Qed.

Lemma Split_Join ws w sep :
  Forall (fun w => byte_in sep w = false) (w :: ws) ->
  Split (JoinWith (String sep "") (w :: ws)) sep = w :: ws.
Proof.
  revert w. induction ws as [|w' ws IH]; intros w H; inversion H; subst.
  - by apply Split_no_sep.
  - change (JoinWith (String sep "") (w :: w' :: ws))
      with (w +:+ (String sep "" +:+ JoinWith (String sep "") (w' :: ws))).
    rewrite append_cons, append_nil_l, Split_append by done. by rewrite IH.
Qed.

Lemma JoinWith_cons sep w w' ws :
  JoinWith sep (w :: w' :: ws) = w +:+ (sep +:+ JoinWith sep (w' :: ws)).
Proof. done. Qed.

Lemma JoinWith_app sep w ws v vs :
  JoinWith sep ((w :: ws) ++ v :: vs) = JoinWith sep (w :: ws) +:+ (sep +:+ JoinWith sep (v :: vs)).
Proof.
  revert w. induction ws as [|w' ws IH]; intros w; [done|].
  change ((w :: w' :: ws) ++ v :: vs) with (w :: (w' :: ws) ++ v :: vs).
  change ((w' :: ws) ++ v :: vs) with (w' :: (ws ++ v :: vs)) at 1.
  rewrite !JoinWith_cons.
  change (w' :: ws ++ v :: vs) with ((w' :: ws) ++ v :: vs).
  by rewrite IH, !append_assoc.
Qed.

Lemma Cut_found w s sep :
  byte_in sep w = false -> Cut (w +:+ String sep s) sep = (w, s, true).
Proof.
  induction w as [|a w IH]; simpl.
  - intros _. rewrite ?append_nil_l. simpl. by rewrite bool_decide_eq_true_2.
  - intros [H1 H2]%orb_false_iff. bool_hyps. rewrite ?append_cons. simpl.
    rewrite bool_decide_eq_false_2 by done. by rewrite IH.
Qed.

(** ** Replacing *)

(** [skip] counts the bytes of an occurrence of [old] still to be dropped. *)
Fixpoint replace_from (old new : string) (n : Z) (skip : nat) (s : string) : string :=
  match s with
  | EmptyString => ""
  | String a s' =>
      match skip with
      | S k => replace_from old new n k s'
      | O =>
          if (n =? 0) then s
          else if HasPrefix s old
               then new +:+ replace_from old new (n - 1) (String.length old - 1) s'
               else String a (replace_from old new n 0 s')
      end
  end.

(** [strings.Replace(s, old, new, n)], a negative [n] replaces every occurrence. *)
Definition Replace (s old new : string) (n : Z) : string := replace_from old new n 0 s.

Definition ReplaceAll (s old new : string) : string := Replace s old new (-1).

(** Replacing one byte by another acts byte by byte. *)
Lemma ReplaceAll_byte (a b : ascii) (s : string) :
  ReplaceAll (String a s) (String b "") "/" =
  if bool_decide (b = a) then String "/" (ReplaceAll s (String b "") "/")
  else String a (ReplaceAll s (String b "") "/").
Proof.
  unfold ReplaceAll, Replace.
  assert (forall n s, n < 0 ->
    replace_from (String b "") "/" n 0 s = replace_from (String b "") "/" (-1) 0 s) as Hn.
  { intros n s'. revert n. induction s' as [|c s' IH]; intros n Hn; [done|]. simpl.
    destruct (n =? 0) eqn:E; [bool_hyps; lia|]. simpl. case_match.
    - by rewrite (IH (n - 1)), (IH (-1 - 1)) by lia.
    - by rewrite IH by lia. }
  simpl. rewrite andb_true_r. case_bool_decide; [|done].
  rewrite ?append_cons, ?append_nil_l. f_equal. by apply Hn.
Qed.

Lemma ReplaceAll_removes (b : ascii) (s : string) :
  b <> "/"%char -> byte_in b (ReplaceAll s (String b "") "/") = false.
Proof.
  intros Hb. induction s as [|a s IH]; [done|]. rewrite ReplaceAll_byte.
  case_bool_decide; simpl; rewrite IH, orb_false_r; by apply bool_decide_eq_false_2.
Qed.

(** ASCII part of [strings.ToLower]. *)
Definition to_lower_byte (a : ascii) : ascii :=
  let n := nat_of_ascii a in
  if ((65 <=? n) && (n <=? 90))%nat then ascii_of_nat (n + 32) else a.

Fixpoint ToLower (s : string) : string :=
  match s with
  | EmptyString => ""
  | String a s' => String (to_lower_byte a) (ToLower s')
  end.

(** ** [fmt.Sprintf] with [%s] and [%v] of strings *)

Fixpoint Sprintf (format : string) (args : list string) : string :=
  match format with
  | String "%" (String v f') =>
      if bool_decide (v = "%"%char) then String "%" (Sprintf f' args)
      else match args with
           | a :: args' => a +:+ Sprintf f' args'
           | [] => String "%" (String "!" (String v ("(MISSING)" +:+ Sprintf f' [])))
           end
  | String c f' => String c (Sprintf f' args)
  | EmptyString => ""
  end.

Example Sprintf_ex : Sprintf "%s-%s.%s" ["a"; "1.0"; "jar"] = "a-1.0.jar".
Proof. reflexivity. Qed.
Example Replace_ex : Replace "2.7.0-SNAPSHOT" "-SNAPSHOT" "" 1 = "2.7.0".
Proof. reflexivity. Qed.

(** Replacing one occurrence removes the first, if there is one. *)
Lemma replace_from_done old new s : replace_from old new 0 0 s = s.
Proof. by destruct s. Qed.
