(* ===== verification/GoPath.v ===== *)
(** * Go's [path] package, and [path/filepath] on a Unix system

    Paths are strings; the algorithms work on their slash-separated elements.
    [Clean] follows the four documented rules (merge slashes, drop ".",
    resolve inner "..", drop ".." at the root).  On the Linux images the
    controller runs in, [filepath.Join], [Base] and [Clean] are [path]'s. *)

From S2P Require Import Prelude GoStrings.

Abbreviation slash := "/"%char.

Definition IsAbs (p : string) : bool := HasPrefix p "/".

(** An element that names a directory entry. *)
Definition normal (c : string) : Prop :=
  c <> "" /\ c <> "." /\ c <> ".." /\ byte_in slash c = false.

#[export] Instance normal_dec c : Decision (normal c).
Proof. unfold normal. apply _. Defined.

(** One element pushed on the stack [out] (last element first). *)
Definition clean_step (rooted : bool) (out : list string) (c : string) : list string :=
  if decide (c = "") then out
  else if decide (c = ".") then out
  else if decide (c = "..") then
    match out with
    | top :: rest => if decide (top = "..") then c :: out else rest
    | [] => if rooted then [] else [c]
    end
  else c :: out.

Definition norm_from (rooted : bool) (out l : list string) : list string :=
  foldl (clean_step rooted) out l.

(** The elements that remain of [l] after cleaning. *)
Definition norm (rooted : bool) (l : list string) : list string :=
  rev (norm_from rooted [] l).

(** [path.Clean] *)
Definition Clean (p : string) : string :=
  if decide (p = "") then "."
  else
    let l := norm (IsAbs p) (Split p slash) in
    if IsAbs p then "/" +:+ JoinWith "/" l
    else if decide (l = []) then "." else JoinWith "/" l.

(** [path.Join] *)
Definition Join (elems : list string) : string :=
  match filter (fun e => e <> "") elems with
  | [] => ""
  | l => Clean (JoinWith "/" l)
  end.

(** [path.Base]: the last non-empty element. *)
Definition Base (p : string) : string :=
  if decide (p = "") then "."
  else match rev (filter (fun e => e <> "") (Split p slash)) with
       | [] => "/"
       | c :: _ => c
       end.

(** [path.Dir]: everything up to the last slash, cleaned. *)
Definition Dir (p : string) : string :=
  match rev (Split p slash) with
  | _ :: (_ :: _) as init => Clean (JoinWith "/" (rev init) +:+ "/")
  | _ => Clean ""
  end.

(** Drop the longest common prefix. *)
Fixpoint drop_common (b t : list string) : list string * list string :=
  match b, t with
  | x :: b', y :: t' => if decide (x = y) then drop_common b' t' else (b, t)
  | _, _ => (b, t)
  end.

(** [filepath.Rel], [None] for its error. *)
Definition Rel (basepath targpath : string) : option string :=
  let b := norm (IsAbs basepath) (Split basepath slash) in
  let t := norm (IsAbs targpath) (Split targpath slash) in
  if decide (Clean basepath = Clean targpath) then Some "."
  else if decide (IsAbs basepath = IsAbs targpath) then
    match drop_common b t with
    | (".." :: _, _) => None
    | (b', t') => Some (JoinWith "/" (((fun _ => "..") <$> b') ++ t'))
    end
  else None.

Example Clean_ex1 : Clean "/a/./b//../c/" = "/a/c". Proof. reflexivity. Qed.
Example Clean_ex2 : Clean "../../x/.." = "../..". Proof. reflexivity. Qed.
Example Clean_ex3 : Clean "/../a" = "/a". Proof. reflexivity. Qed.
Example Clean_ex4 : Clean "a/.." = ".". Proof. reflexivity. Qed.
Example Join_ex1 : Join ["a"; ""; "/b"] = "a/b". Proof. reflexivity. Qed.
Example Base_ex1 : Base "/a/b//" = "b". Proof. reflexivity. Qed.
Example Base_ex2 : Base "///" = "/". Proof. reflexivity. Qed.
Example Dir_ex1 : Dir "/a/b" = "/a". Proof. reflexivity. Qed.
Example Dir_ex2 : Dir "a" = ".". Proof. reflexivity. Qed.
Example Dir_ex3 : Dir "/a" = "/". Proof. reflexivity. Qed.
Example Rel_ex1 : Rel "/t/artifact" "/t/artifact/x/y" = Some "x/y". Proof. reflexivity. Qed.
Example Rel_ex2 : Rel "a/b" "a/c/d" = Some "../c/d". Proof. reflexivity. Qed.

(** ** The stack *)

Lemma clean_step_normal r out c : normal c -> clean_step r out c = c :: out.
Proof. intros (? & ? & ? & _). unfold clean_step. by rewrite !decide_False. Qed.

Lemma clean_step_pop r top out : top <> ".." -> clean_step r (top :: out) ".." = out.
Proof. intros H. unfold clean_step. simpl. by rewrite decide_False. Qed.

Lemma norm_from_app r out l1 l2 :
  norm_from r out (l1 ++ l2) = norm_from r (norm_from r out l1) l2.
Proof. apply foldl_app. Qed.

Lemma norm_from_normal r out l : Forall normal l -> norm_from r out l = rev l ++ out.
Proof.
  intros H. revert out. induction H as [|c l Hc Hl IH]; intros out; [done|].
  change (norm_from r out (c :: l)) with (norm_from r (clean_step r out c) l).
  rewrite clean_step_normal, IH by done. simpl. by rewrite <- app_assoc.
Qed.

Lemma norm_app_normal r l1 l2 : Forall normal l2 -> norm r (l1 ++ l2) = norm r l1 ++ l2.
Proof.
  intros H. unfold norm. rewrite norm_from_app, norm_from_normal by done.
  by rewrite rev_app_distr, rev_involutive.
Qed.

Lemma norm_normal r l : Forall normal l -> norm r l = l.
Proof. intros H. by rewrite <- (app_nil_l l), norm_app_normal. Qed.

(** The stack of a run holds named elements on top of "..", and no ".." at
    the root. *)
Definition stack_ok (r : bool) (out : list string) : Prop :=
  exists ns ds, out = ns ++ ds /\ Forall normal ns /\ Forall (eq "..") ds /\ (r = true -> ds = []).

Lemma stack_ok_step r out c :
  byte_in slash c = false -> stack_ok r out -> stack_ok r (clean_step r out c).
Proof.
  intros Hc (ns & ds & -> & Hns & Hds & Hr). unfold clean_step.
  repeat case_decide; subst.
  - by exists ns, ds.
  - by exists ns, ds.
  - destruct ns as [|n ns]; simpl.
    + destruct ds as [|d ds].
      * destruct r; [by exists [], []|]. exists [], [".."]. repeat constructor. done.
      * inversion Hds; subst. rewrite decide_True by done.
        destruct r; [by specialize (Hr eq_refl)|].
        exists [], (".." :: ".." :: ds). repeat constructor; done.
    + inversion Hns as [|? ? Hn ?]; subst. destruct Hn as (? & ? & ? & ?).
      rewrite decide_False by done. by exists ns, ds.
  - exists (c :: ns), ds. repeat split; try done. constructor; [|done]. by repeat split.
Qed.

Lemma norm_from_ok r out l :
  Forall (fun w => byte_in slash w = false) l -> stack_ok r out ->
  stack_ok r (norm_from r out l).
Proof.
  intros H. revert out. induction H as [|c l Hc Hl IH]; intros out Hout; [done|].
  simpl. apply IH. by apply stack_ok_step.
Qed.

Lemma stack_ok_nil r : stack_ok r [].
Proof. by exists [], []. Qed.

(** Cleaned elements: ".." first (never under the root), then names. *)
Lemma norm_shape r s :
  exists n ns, norm r (Split s slash) = replicate n ".." ++ ns /\ Forall normal ns /\
    (r = true -> n = 0%nat).
Proof.
  destruct (norm_from_ok r [] (Split s slash)) as (ns & ds & E & Hns & Hds & Hr).
  - apply Split_pieces.
  - apply stack_ok_nil.
  - unfold norm. rewrite E, rev_app_distr.
    exists (length ds), (rev ns). split; [|split].
    + f_equal. rewrite rev_alt. clear -Hds. rewrite <- rev_alt.
      induction Hds as [|d ds <- Hds IH]; [done|]. simpl. rewrite IH.
      by rewrite <- (replicate_cons_app (length ds) "..").
    + by apply Forall_rev.
    + intros ->. by rewrite Hr.
Qed.

Lemma norm_rooted_normal s : Forall normal (norm true (Split s slash)).
Proof.
  destruct (norm_shape true s) as (n & ns & -> & H & Hn). by rewrite (Hn eq_refl).
Qed.

Lemma norm_no_slash r s : Forall (fun w => byte_in slash w = false) (norm r (Split s slash)).
Proof.
  destruct (norm_shape r s) as (n & ns & -> & H & _). apply Forall_app. split.
  - apply Forall_replicate. done.
  - eapply Forall_impl; [exact H|]. by intros ? (_ & _ & _ & ?).
Qed.

(** ** Cleaned paths, element by element *)

Lemma Split_root_join l :
  Forall (fun w => byte_in slash w = false) l ->
  Split ("/" +:+ JoinWith "/" l) slash = "" :: (if decide (l = []) then [""] else l).
Proof.
  intros H. rewrite append_cons, append_nil_l. simpl. f_equal.
  destruct l as [|w ws]; [done|]. rewrite decide_False by done. by apply Split_Join.
Qed.

Lemma Split_Clean p :
  p <> "" ->
  Split (Clean p) slash =
  let l := norm (IsAbs p) (Split p slash) in
  if IsAbs p then "" :: (if decide (l = []) then [""] else l)
  else if decide (l = []) then ["."] else l.
Proof.
  intros Hp. unfold Clean. rewrite decide_False by done. simpl.
  pose proof (norm_no_slash (IsAbs p) p) as H. destruct (IsAbs p).
  - by apply Split_root_join.
  - case_decide as E; [done|]. destruct (norm false (Split p slash)) as [|w ws]; [done|].
    by apply Split_Join.
Qed.

Lemma IsAbs_no_slash p : byte_in slash p = false -> IsAbs p = false.
Proof.
  unfold IsAbs. destruct p as [|a p]; [done|]. simpl. intros H. bool_hyps.
  by rewrite bool_decide_eq_false_2.
Qed.

Lemma normal_not_abs c : normal c -> IsAbs c = false.
Proof. intros (_ & _ & _ & ?). by apply IsAbs_no_slash. Qed.

Lemma IsAbs_append p q : p <> "" -> IsAbs (p +:+ q) = IsAbs p.
Proof. destruct p as [|a p]; [done|]. intros _. rewrite append_cons. unfold IsAbs. by destruct p. Qed.

Lemma norm_nonempty r s : Forall (fun w => w <> "") (norm r (Split s slash)).
Proof.
  destruct (norm_shape r s) as (n & ns & -> & H & _). apply Forall_app. split.
  - by apply Forall_replicate.
  - eapply Forall_impl; [exact H|]. by intros ? (? & _).
Qed.

Lemma IsAbs_Clean p : IsAbs (Clean p) = IsAbs p.
Proof.
  unfold Clean. case_decide; [by subst|]. destruct (IsAbs p) eqn:E; [done|].
  case_decide as El; [done|].
  pose proof (norm_no_slash false p) as H1. pose proof (norm_nonempty false p) as H2.
  destruct (norm false (Split p slash)) as [|w ws]; [done|].
  inversion H1; inversion H2; subst.
  destruct ws as [|w' ws]; [by apply IsAbs_no_slash|].
  rewrite JoinWith_cons, IsAbs_append by done. by apply IsAbs_no_slash.
Qed.

(** ** The directory entry a path denotes

    [key cwd p] lists the names from the root to the entry [p] denotes for a
    process whose working directory is [cwd] (no symbolic links). *)

Definition key (cwd : list string) (p : string) : list string :=
  norm true ((if IsAbs p then [] else cwd) ++ Split p slash).

(** Cleaning first under an existing stack changes nothing. *)
Lemma norm_from_norm out l :
  Forall (fun w => byte_in slash w = false) l ->
  norm_from true out (norm false l) = norm_from true out l.
Proof.
  induction l as [|c l IH] using rev_ind; intros Hl; [done|].
  apply Forall_app in Hl as [Hl Hc]. inversion Hc; subst. specialize (IH Hl).
  assert (stack_ok false (norm_from false [] l)) as Hok.
  { apply norm_from_ok; [done|apply stack_ok_nil]. }
  unfold norm in *. rewrite !norm_from_app, <- IH.
  change (norm_from false (norm_from false [] l) [c])
    with (clean_step false (norm_from false [] l) c).
  change (norm_from true (norm_from true out (rev (norm_from false [] l))) [c])
    with (clean_step true (norm_from true out (rev (norm_from false [] l))) c).
  destruct Hok as (ns & ds & -> & Hns & Hds & _). unfold clean_step at 1.
  repeat case_decide; subst.
  - unfold clean_step. by rewrite decide_True.
  - unfold clean_step. by rewrite decide_False, decide_True.
  - destruct ns as [|n ns]; simpl.
    + destruct ds as [|d ds]; [done|]. inversion Hds; subst.
      rewrite decide_True by done. simpl. by rewrite (norm_from_app _ _ (_ ++ _) [_]).
    + inversion Hns as [|? ? Hn ?]; subst. pose proof Hn as (? & ? & ? & ?).
      rewrite decide_False by done. rewrite norm_from_app. simpl.
      by rewrite (clean_step_normal _ _ n), clean_step_pop by done.
  - simpl. rewrite norm_from_app. simpl. done.
Qed.

Lemma key_Clean cwd p : key cwd (Clean p) = key cwd p.
Proof.
  destruct (decide (p = "")) as [->|Hp].
  { unfold key, norm. simpl. by rewrite !norm_from_app. }
  unfold key. rewrite IsAbs_Clean, Split_Clean by done. simpl.
  destruct (IsAbs p) eqn:E; simpl.
  - unfold norm at 1. simpl.
    assert (Forall normal (norm true (Split p slash))) as H by apply norm_rooted_normal.
    case_decide as En; [by rewrite En|]. by rewrite norm_from_normal, app_nil_r, rev_involutive.
  - unfold norm at 1. rewrite norm_from_app.
    assert (forall out, norm_from true out
      (if decide (norm false (Split p slash) = []) then ["."] else norm false (Split p slash))
      = norm_from true out (norm false (Split p slash))) as ->.
    { intros out. case_decide as En; [by rewrite En|done]. }
    rewrite norm_from_norm by apply Split_pieces. unfold norm. by rewrite norm_from_app.
Qed.

Lemma Split_normals xs :
  Forall normal xs -> mjoin ((fun v => Split v slash) <$> xs) = xs.
Proof.
  induction 1 as [|x xs (? & ? & ? & Hx) Hxs IH]; [done|].
  rewrite fmap_cons. simpl. by rewrite Split_no_sep, IH.
Qed.

(** Joining names below [d] appends them to the entry [d] denotes. *)
Lemma key_Join cwd d xs : Forall normal xs -> key cwd (Join (d :: xs)) = key cwd d ++ xs.
Proof.
  intros Hxs. unfold Join.
  assert (filter (fun e => e <> "") xs = xs) as Hf.
  { clear -Hxs. induction Hxs as [|x xs (? & _) ? IH]; [done|].
    by rewrite filter_cons_True, IH. }
  destruct (decide (d = "")) as [->|Hd].
  - rewrite filter_cons_False, Hf by naive_solver. destruct xs as [|x xs].
    { by rewrite app_nil_r. }
    rewrite key_Clean. unfold key.
    assert (IsAbs (JoinWith "/" (x :: xs)) = false) as ->.
    { inversion Hxs as [|? ? Hx ?]; subst. destruct xs; [by apply normal_not_abs|].
      rewrite JoinWith_cons, IsAbs_append by apply Hx. by apply normal_not_abs. }
    rewrite Split_JoinWith, Split_normals, norm_app_normal by done.
    simpl. f_equal. unfold norm. by rewrite norm_from_app.
  - rewrite filter_cons_True, Hf by done. rewrite key_Clean. unfold key.
    assert (IsAbs (JoinWith "/" (d :: xs)) = IsAbs d) as ->.
    { destruct xs; [done|]. by rewrite JoinWith_cons, IsAbs_append. }
    rewrite Split_JoinWith, fmap_cons. simpl.
    by rewrite Split_normals, app_assoc, norm_app_normal.
Qed.

Lemma key_slash cwd d r :
  d <> "" -> Forall normal (Split r slash) ->
  key cwd (d +:+ String slash r) = key cwd d ++ Split r slash.
Proof.
  intros Hd Hr. unfold key.
  by rewrite IsAbs_append, Split_app, app_assoc, norm_app_normal.
Qed.

Lemma key_normal cwd p : Forall (fun c => byte_in slash c = false) cwd -> Forall normal (key cwd p).
Proof.
  intros Hc. unfold key, norm. apply Forall_rev.
  destruct (norm_from_ok true [] ((if IsAbs p then [] else cwd) ++ Split p slash))
    as (ns & ds & -> & Hns & _ & Hr).
  - apply Forall_app. split; [by destruct (IsAbs p)|apply Split_pieces].
  - apply stack_ok_nil.
  - rewrite (Hr eq_refl), app_nil_r. done.
Qed.

(** A cleaned path that continues a path ending in a name only adds names. *)
Lemma names_after_name n ns D x R :
  replicate n ".." ++ ns = (D ++ [x]) ++ R -> Forall normal ns -> normal x -> Forall normal R.
Proof.
  revert D. induction n as [|n IH]; intros D H Hns Hx.
  - simpl in H. subst. by apply Forall_app in Hns as [_ ?].
  - destruct D as [|c D]; simpl in H; injection H as <- H.
    + by destruct Hx as (_ & _ & ? & _).
    + by eapply IH.
Qed.

Lemma clean_under q d r x :
  Clean q = d +:+ String slash r -> last (Split d slash) = Some x -> normal x ->
  Forall normal (Split r slash).
Proof.
  intros Hq Hl Hx. apply last_Some in Hl as [D HD].
  assert (q <> "") as Hne.
  { intros ->. unfold Clean in Hq. simpl in Hq.
    destruct d as [|a d]; rewrite ?append_nil_l, ?append_cons in Hq; [done|].
    injection Hq as _ Hq. symmetry in Hq. by apply append_eq_nil in Hq as [_ ?]. }
  pose proof (Split_Clean q Hne) as H. rewrite Hq, Split_app, HD in H. simpl in H.
  destruct (norm_shape (IsAbs q) q) as (n & ns & En & Hns & Hn). rewrite En in H.
  destruct (IsAbs q).
  - rewrite (Hn eq_refl) in H. simpl in H.
    destruct D as [|d0 D]; simpl in H; injection H as H0 H.
    + subst. by destruct Hx as (? & _).
    + case_decide.
      * destruct D as [|? D]; simpl in H; injection H as Hd H; [by destruct Hx; subst|].
        by destruct D.
      * by apply (names_after_name 0 ns D x).
  - case_decide as E.
    + destruct D as [|? D]; simpl in H; injection H as Hd H.
      * by destruct Hx as (_ & ? & _); subst.
      * by destruct D.
    + eapply names_after_name; [symmetry; exact H|done|done].
Qed.

(** ** [Base] *)

(** What [Join] leaves of a path that ends in names. *)
Lemma Split_Join_names d xs x :
  Forall normal (xs ++ [x]) -> exists init, Split (Join (d :: xs ++ [x])) slash = init ++ [x].
Proof.
  intros Hxs.
  assert (filter (fun e => e <> "") (xs ++ [x]) = xs ++ [x]) as Hf.
  { clear -Hxs. induction Hxs as [|y ys (? & _) ? IH]; [done|]. by rewrite filter_cons_True, IH. }
  assert (exists q pre, Join (d :: xs ++ [x]) = Clean q /\ q <> "" /\
            Split q slash = pre ++ xs ++ [x]) as (q & pre & -> & Hq & Hsplit).
  { unfold Join. destruct (decide (d = "")) as [->|Hd].
    - rewrite filter_cons_False, Hf by naive_solver.
      destruct (xs ++ [x]) as [|y ys] eqn:E; [by destruct xs|].
      exists (JoinWith "/" (y :: ys)), []. split; [done|].
      inversion Hxs as [|? ? Hy ?]; subst. split.
      + destruct ys; [apply Hy|]. rewrite JoinWith_cons. intros [? _]%append_eq_nil.
        by destruct Hy.
      + rewrite Split_JoinWith. by apply Split_normals.
    - rewrite filter_cons_True, Hf by done. exists (JoinWith "/" (d :: xs ++ [x])), (Split d slash).
      split; [done|]. split.
      + destruct (xs ++ [x]); [done|]. rewrite JoinWith_cons. by intros [? _]%append_eq_nil.
      + rewrite Split_JoinWith, fmap_cons. simpl. by rewrite Split_normals. }
  rewrite Split_Clean by done. rewrite Hsplit, norm_app_normal by done. simpl. rewrite app_assoc.
  destruct (IsAbs q).
  - rewrite decide_False by (by destruct (norm true pre ++ xs)).
    by exists ("" :: norm true pre ++ xs).
  - rewrite decide_False by (by destruct (norm false pre ++ xs)). eauto.
Qed.

Lemma Join_not_nil d xs x : Forall normal (xs ++ [x]) -> Join (d :: xs ++ [x]) <> "".
Proof.
  intros H E. destruct (Split_Join_names d xs x H) as [init Hi]. rewrite E in Hi.
  apply (f_equal last) in Hi. rewrite last_snoc in Hi. simplify_eq/=.
  apply Forall_app in H as [_ H]. inversion H as [|? ? Hx ?]. by destruct Hx.
Qed.

(** Cleaning keeps what cleaning would leave. *)
Lemma norm_dots n : norm false (replicate n "..") = replicate n "..".
Proof.
  unfold norm. assert (norm_from false [] (replicate n "..") = replicate n "..") as ->.
  { assert (forall m, norm_from false (replicate m "..") (replicate n "..") = replicate (n + m) "..") as H.
    { induction n as [|n IH]; intros m; [done|].
      change (replicate (S n) "..") with (".." :: replicate n "..").
      change (norm_from false (replicate m "..") (".." :: replicate n ".."))
        with (norm_from false (clean_step false (replicate m "..") "..") (replicate n "..")).
      assert (clean_step false (replicate m "..") ".." = replicate (S m) "..") as -> by by destruct m.
      rewrite IH. by replace (S n + m)%nat with (n + S m)%nat by lia. }
    specialize (H 0%nat). by rewrite Nat.add_0_r in H. }
  induction n as [|n IH]; [done|]. simpl. rewrite IH.
  change [".."] with (replicate 1 ".."). by rewrite <- replicate_add, Nat.add_comm.
Qed.

Lemma norm_Clean p :
  norm (IsAbs (Clean p)) (Split (Clean p) slash) = norm (IsAbs p) (Split p slash).
Proof.
  destruct (decide (p = "")) as [->|Hp]; [done|]. rewrite IsAbs_Clean, Split_Clean by done. simpl.
  destruct (norm_shape (IsAbs p) p) as (n & ns & -> & Hns & Hn). destruct (IsAbs p).
  - rewrite (Hn eq_refl). simpl. case_decide as En; [by rewrite En|].
    change (norm true ("" :: ns)) with (norm true ns). by apply norm_normal.
  - case_decide as En; [by rewrite En|]. by rewrite norm_app_normal, norm_dots.
Qed.

Lemma norm_Join d xs :
  Forall normal xs -> xs <> [] ->
  IsAbs (Join (d :: xs)) = IsAbs d /\
  norm (IsAbs d) (Split (Join (d :: xs)) slash) = norm (IsAbs d) (Split d slash) ++ xs.
Proof.
  intros Hxs Hne.
  assert (filter (fun e => e <> "") xs = xs) as Hf.
  { clear -Hxs. induction Hxs as [|y ys (? & _) ? IH]; [done|]. by rewrite filter_cons_True, IH. }
  assert (exists q, Join (d :: xs) = Clean q /\ IsAbs q = IsAbs d /\
            norm (IsAbs d) (Split q slash) = norm (IsAbs d) (Split d slash) ++ xs)
    as (q & Hq & Ha & Hs).
  { unfold Join. destruct (decide (d = "")) as [->|Hd].
    - rewrite filter_cons_False, Hf by naive_solver. destruct xs as [|y ys]; [done|].
      inversion Hxs as [|? ? Hy Hys]; subst. eexists. split; [done|].
      rewrite Split_JoinWith, Split_normals by done. split; [|by rewrite norm_normal].
      destruct ys; [by apply normal_not_abs|].
      rewrite JoinWith_cons, IsAbs_append by apply Hy. by apply normal_not_abs.
    - rewrite filter_cons_True, Hf by done. eexists. split; [done|]. split.
      + destruct xs; [done|]. by rewrite JoinWith_cons, IsAbs_append.
      + rewrite Split_JoinWith, fmap_cons. simpl. by rewrite Split_normals, norm_app_normal. }
  rewrite Hq. pose proof (norm_Clean q) as Hc. rewrite IsAbs_Clean, Ha in Hc.
  rewrite IsAbs_Clean. split; [done|]. congruence.
Qed.

Lemma drop_common_app b r : drop_common b (b ++ r) = ([], r).
Proof. induction b as [|x b IH]; simpl; [by destruct r|]. by rewrite decide_True. Qed.

(** The relative path to what lies below. *)
Lemma Rel_below d xs :
  Forall normal xs -> xs <> [] -> Rel d (Join (d :: xs)) = Some (JoinWith "/" xs).
Proof.
  intros Hxs Hne. destruct (norm_Join d xs Hxs Hne) as [Ha Hn]. unfold Rel.
  rewrite decide_False.
  - rewrite decide_True by done. rewrite Ha, Hn, drop_common_app. done.
  - intros Hc. apply (f_equal (fun p => norm (IsAbs p) (Split p slash))) in Hc.
    rewrite !norm_Clean, Ha, Hn in Hc.
    apply (f_equal length) in Hc. rewrite length_app in Hc. destruct xs; simpl in Hc; [done|lia].
Qed.

(** The entry above a path that ends in a name. *)
Lemma key_Dir cwd p init x :
  Split p slash = init ++ [x] -> normal x -> key cwd p = key cwd (Dir p) ++ [x].
Proof.
  intros H Hx. unfold Dir. rewrite H, rev_app_distr. simpl.
  destruct (rev init) as [|y ys] eqn:Er.
  - assert (init = []) as -> by (rewrite <- (rev_involutive init), Er; done).
    assert (IsAbs p = false) as Hp.
    { rewrite <- (Join_Split p slash), H. simpl. by apply normal_not_abs. }
    unfold key. rewrite Hp, H. simpl. rewrite norm_app_normal by auto.
    unfold norm. by rewrite norm_from_app.
  - rewrite <- Er, rev_involutive, key_Clean.
    assert (init <> []) as Hi by (by intros ->).
    destruct init as [|i init]; [done|].
    assert (p = JoinWith "/" (i :: init) +:+ String slash x) as Hp.
    { rewrite <- (Join_Split p slash), H. change ((i :: init) ++ [x]) with ((i :: init) ++ x :: []).
      rewrite JoinWith_app. done. }
    assert (Split (JoinWith "/" (i :: init)) slash = i :: init) as Hs.
    { apply Split_Join. pose proof (Split_pieces p slash) as Hps. rewrite H in Hps.
      by apply Forall_app in Hps as [? _]. }
    change (JoinWith "/" (i :: init) +:+ "/") with (JoinWith "/" (i :: init) +:+ String slash "").
    unfold key. rewrite Split_app, Hs, H.
    assert (IsAbs p = IsAbs (JoinWith "/" (i :: init) +:+ String slash "")) as ->.
    { rewrite Hp. by destruct (JoinWith "/" (i :: init)). }
    rewrite !app_assoc, norm_app_normal by auto. f_equal.
    unfold norm. by rewrite (norm_from_app true [] _ (Split "" slash)).
Qed.

(** A suffix lengthens the last element. *)
Lemma Split_suffix p init x sfx :
  byte_in slash sfx = false -> Split p slash = init ++ [x] ->
  Split (p +:+ sfx) slash = init ++ [x +:+ sfx].
Proof.
  intros Hs. revert init x. induction p as [|a p IH]; intros init x H.
  - rewrite append_nil_l, Split_no_sep by done. destruct init as [|? [|]]; simplify_eq/=. done.
  - rewrite append_cons. simpl in H |- *.
    destruct (Split_cons p slash) as (w & ws & Ew). rewrite Ew in H, IH.
    case_bool_decide as Ha.
    + destruct init as [|i init]; [done|]. injection H as <- H. simpl. f_equal. by apply IH.
    + destruct init as [|i init].
      * injection H as <- ->. rewrite (IH [] w) by done. done.
      * injection H as <- ->. rewrite (IH (w :: init) x) by done. done.
Qed.

Lemma Dir_init p q init x y :
  Split p slash = init ++ [x] -> Split q slash = init ++ [y] -> Dir p = Dir q.
Proof. intros Hp Hq. unfold Dir. rewrite Hp, Hq, !rev_app_distr. done. Qed.

(** The entries of a path below [d], of its directory, and with a suffix. *)
Lemma key_Dir_Join cwd d xs x :
  Forall normal (xs ++ [x]) -> key cwd (Dir (Join (d :: xs ++ [x]))) = key cwd d ++ xs.
Proof.
  intros H. destruct (Split_Join_names d xs x H) as [init Hi].
  pose proof (key_Join cwd d _ H) as Hk. apply Forall_app in H as [_ H].
  rewrite (key_Dir cwd _ _ _ Hi) in Hk by (by inversion H).
  rewrite app_assoc in Hk. by apply app_inj_tail in Hk as [? _].
Qed.

Lemma key_suffix cwd d xs x sfx :
  Forall normal (xs ++ [x]) -> byte_in slash sfx = false -> normal (x +:+ sfx) ->
  key cwd (Join (d :: xs ++ [x]) +:+ sfx) = key cwd d ++ xs ++ [x +:+ sfx] /\
  key cwd (Dir (Join (d :: xs ++ [x]) +:+ sfx)) = key cwd d ++ xs.
Proof.
  intros H Hs Hx. destruct (Split_Join_names d xs x H) as [init Hi].
  pose proof (Split_suffix _ _ _ _ Hs Hi) as Hi'.
  assert (key cwd (Dir (Join (d :: xs ++ [x]) +:+ sfx)) = key cwd d ++ xs) as Hd.
  { rewrite (Dir_init _ _ _ _ _ Hi' Hi). by apply key_Dir_Join. }
  split; [|done]. by rewrite (key_Dir cwd _ _ _ Hi' Hx), Hd, app_assoc.
Qed.

Lemma normal_append a b : normal a -> byte_in slash b = false -> byte_in "." a = false -> normal (a +:+ b).
Proof.
  intros (H1 & H2 & H3 & H4) Hb Ha. repeat split.
  - by intros [? _]%append_eq_nil.
  - intros E. destruct a as [|c a]; [done|]. rewrite append_cons in E. injection E as -> _. done.
  - intros E. destruct a as [|c a]; [done|]. rewrite append_cons in E. injection E as -> _. done.
  - by rewrite byte_in_append, H4, Hb.
Qed.

(** Joining names writes them with slashes, and such a path can be joined on. *)
Lemma Join_names x xs : Forall normal (x :: xs) -> Join (x :: xs) = JoinWith "/" (x :: xs).
Proof.
  intros H. unfold Join.
  assert (filter (fun e => e <> "") (x :: xs) = x :: xs) as ->.
  { induction H as [|y ys (? & _) ? IH]; [done|]. by rewrite filter_cons_True, IH. }
  unfold Clean. assert (JoinWith "/" (x :: xs) <> "") as Hne.
  { destruct xs; [by inversion H as [|? ? (? & _) ?]|]. rewrite JoinWith_cons.
    intros [-> _]%append_eq_nil. by inversion H as [|? ? (? & _) ?]. }
  rewrite decide_False by done.
  assert (IsAbs (JoinWith "/" (x :: xs)) = false) as ->.
  { inversion H as [|? ? Hx ?]; subst. destruct xs; [by apply normal_not_abs|].
    rewrite JoinWith_cons, IsAbs_append by apply Hx. by apply normal_not_abs. }
  rewrite Split_JoinWith, Split_normals, norm_normal by done. by rewrite decide_False.
Qed.

Lemma Join_path d x xs :
  Forall normal (x :: xs) -> Join [d; JoinWith "/" (x :: xs)] = Join (d :: x :: xs).
Proof.
  intros H. assert (filter (fun e => e <> "") (x :: xs) = x :: xs) as Hf.
  { induction H as [|y ys (? & _) ? IH]; [done|]. by rewrite filter_cons_True, IH. }
  assert (JoinWith "/" (x :: xs) <> "") as Hne.
  { destruct xs; [by inversion H as [|? ? (? & _) ?]|]. rewrite JoinWith_cons.
    intros [-> _]%append_eq_nil. by inversion H as [|? ? (? & _) ?]. }
  unfold Join. destruct (decide (d = "")) as [->|Hd].
  - rewrite !(filter_cons_False _ "") by naive_solver.
    rewrite filter_cons_True by done. by rewrite Hf.
  - rewrite !(filter_cons_True _ d) by done. rewrite Hf, filter_cons_True, filter_nil by done. done.
Qed.

Lemma Base_normal c : normal c -> Base c = c.
Proof.
  intros (? & _ & _ & Hs). unfold Base. rewrite decide_False by done.
  rewrite Split_no_sep by done. by rewrite filter_cons_True.
Qed.

Lemma Base_fixed c :
  Base c = c -> c <> "" -> c <> "." -> c <> ".." -> normal c \/ c = "/".
Proof.
  unfold Base. intros H ? ? ?. rewrite decide_False in H by done.
  destruct (rev (filter _ (Split c slash))) as [|b l] eqn:E; [by right|].
  left. subst b. repeat split; try done.
  assert (c ∈ filter (fun e => e <> "") (Split c slash)) as Hin.
  { apply list_elem_of_In, in_rev. rewrite E. by left. }
  apply list_elem_of_filter in Hin as [_ Hin].
  pose proof (Split_pieces c slash) as Hp. rewrite Forall_forall in Hp. by apply Hp.
Qed.
