(* ===== verification/GoErrors.v ===== *)
(** * Error values

    Go errors are values; what a client can do with them is print them, walk
    their [Unwrap] chain ([errors.Is]) and assert their concrete type.  Error
    texts stay symbolic: [fmt_Errorf] keeps the format string of the source
    and its arguments, so that which argument is wrapped is decided by the
    verb ([%w] wraps, [%s], [%v] and [%q] do not). *)

From S2P Require Import Prelude GoStrings.

(** [syscall.Errno], the values the file operations produce. *)
Inductive Errno := ENOENT | EEXIST | ENOTDIR | EISDIR | EACCES | EIO | ENOSPC.

#[export] Instance Errno_eq_dec : EqDecision Errno.
Proof. solve_decision. Defined.

(** The sentinel errors the source compares against with [errors.Is]. *)
Inductive sentinel := DeadlineExceeded | ErrNotExist.

#[export] Instance sentinel_eq_dec : EqDecision sentinel.
Proof. solve_decision. Defined.

Inductive error :=
| errors_New (text : string)
| fmt_Errorf (format : string) (args : list arg)
| downloadError (err : error) (httpStatuscode : Z)  (* controllers/internal.go *)
| url_Error (op url : string) (err : error)         (* net/url.Error, wraps [err] *)
| fs_PathError (op path : string) (err : Errno)     (* io/fs.PathError *)
| context_DeadlineExceeded
| foreign_Error (kind text : string)                (* errors of other packages *)
with arg :=
| AStr (s : string)
| AInt (z : Z)
| AErr (e : error)        (* the error value itself *)
| AErrText (e : error).   (* the string [e.Error()] *)

(** The verbs of a format string, in order; ["%%"] consumes no argument. *)
Fixpoint verbs (format : string) : list ascii :=
  match format with
  | String "%" (String v f') => if bool_decide (v = "%"%char) then verbs f' else v :: verbs f'
  | String _ f' => verbs f'
  | EmptyString => []
  end.

(** [errors.Is(e, t)] *)
Fixpoint errors_Is (e : error) (t : sentinel) {struct e} : bool :=
  match e with
  | context_DeadlineExceeded => bool_decide (t = DeadlineExceeded)
  | fs_PathError _ _ n => bool_decide (t = ErrNotExist) && bool_decide (n = ENOENT)
  | url_Error _ _ e' => errors_Is e' t
  | fmt_Errorf f args =>
      (fix wrapped (args : list arg) (vs : list ascii) : bool :=
         match args, vs with
         | a :: args', v :: vs' =>
             match a with
             | AErr e' => bool_decide (v = "w"%char) && errors_Is e' t
             | _ => false
             end || wrapped args' vs'
         | _, _ => false
         end) args (verbs f)
  | _ => false
  end.

(** [err.( *downloadError)] *)
Definition as_downloadError (e : error) : option (error * Z) :=
  match e with
  | downloadError err code => Some (err, code)
  | _ => None
  end.

(** An error built without [%w] hides what it was built from. *)
Lemma errors_Is_Errorf_no_wrap f args t :
  "w"%char ∉ verbs f -> errors_Is (fmt_Errorf f args) t = false.
Proof.
  simpl. generalize (verbs f). intros vs. revert vs.
  induction args as [|a args IH]; intros [|v vs] Hv; try done.
  apply not_elem_of_cons in Hv as [Hv1 Hv2].
  rewrite (IH vs) by done. rewrite orb_false_r. destruct a; try done.
  by rewrite bool_decide_eq_false_2 by done.
Qed.

(** Neither does [downloadError], which has no [Unwrap] method. *)
Lemma errors_Is_downloadError e c t : errors_Is (downloadError e c) t = false.
Proof. done. Qed.

Example errors_Is_w :
  errors_Is (fmt_Errorf "x: %w" [AErr context_DeadlineExceeded]) DeadlineExceeded = true.
Proof. reflexivity. Qed.
