(* ===== verification/Base64.v ===== *)
(** * encoding/base64, the standard encoding with padding

    The encoder behind PEM files and basic authentication, the decoder, and
    that the decoder reads back what the encoder writes. *)

From S2P Require Import Prelude GoStrings.

(** ** Encoding *)

Definition base64_alphabet : string :=
  "ABCDEFGHIJKLMNOPQRSTUVWXYZabcdefghijklmnopqrstuvwxyz0123456789+/".

Definition base64_digit (z : Z) : ascii :=
  default "="%char (String.get (Z.to_nat z) base64_alphabet).

Definition byte_Z (a : ascii) : Z := Z.of_nat (nat_of_ascii a).

(** Three bytes make four digits. *)
Definition base64_group (n : Z) : list ascii :=
  (fun k => base64_digit (Z.land (Z.shiftr n k) 63)) <$> [18; 12; 6; 0].

Fixpoint base64 (s : list ascii) : list ascii :=
  match s with
  | a :: b :: c :: s' =>
      base64_group (Z.shiftl (byte_Z a) 16 + Z.shiftl (byte_Z b) 8 + byte_Z c) ++ base64 s'
  | [a; b] =>
      take 3 (base64_group (Z.shiftl (byte_Z a) 16 + Z.shiftl (byte_Z b) 8)) ++ ["="%char]
  | [a] => take 2 (base64_group (Z.shiftl (byte_Z a) 16)) ++ ["="; "="]%char
  | [] => []
  end.

Definition EncodeToString (s : string) : string :=
  String.string_of_list_ascii (base64 (String.list_ascii_of_string s)).

Example base64_man : String.string_of_list_ascii (base64 (String.list_ascii_of_string "Many")) = "TWFueQ==".
Proof. reflexivity. Qed.

(** ** Decoding *)

(** The value of a digit, by its place in the alphabet. *)
Definition base64_value (c : ascii) : option Z :=
  (fun x => Z.of_nat x.1) <$> list_find (eq c) (String.list_ascii_of_string base64_alphabet).

Definition Z_byte (z : Z) : ascii := ascii_of_nat (Z.to_nat (z mod 256)).

(** The three bytes of four digits. *)
Definition base64_bytes (x y z w : Z) : list ascii :=
  let n := Z.shiftl x 18 + Z.shiftl y 12 + Z.shiftl z 6 + w in
  (fun k => Z_byte (Z.shiftr n k)) <$> [16; 8; 0].

(** Quanta of four digits; only the last may be padded, and nothing follows
    the padding. *)
Fixpoint decode_quanta (l : list ascii) : option (list ascii) :=
  match l with
  | [] => Some []
  | a :: b :: c :: d :: l' =>
      x ← base64_value a; y ← base64_value b;
      match base64_value c, base64_value d with
      | Some z, Some w => rest ← decode_quanta l'; Some (base64_bytes x y z w ++ rest)
      | Some z, None => if decide (d = "="%char /\ l' = []) then Some (take 2 (base64_bytes x y z 0)) else None
      | None, _ =>
          if decide (c = "="%char /\ d = "="%char /\ l' = []) then Some (take 1 (base64_bytes x y 0 0)) else None
      end
  | _ => None
  end.

(** Line ends are skipped wherever they are. *)
Definition line_end (c : ascii) : bool := bool_decide (c = ascii_of_nat 10 \/ c = ascii_of_nat 13).

(** [base64.StdEncoding.DecodeString]; [None] for a [CorruptInputError]. *)
Definition DecodeString (s : string) : option string :=
  String.string_of_list_ascii <$>
    decode_quanta (List.filter (fun c => negb (line_end c)) (String.list_ascii_of_string s)).

Example decode_man : DecodeString "TWFueQ==" = Some "Many" /\ DecodeString "TWFueQ=" = None /\ DecodeString "TWF=eQ==" = None.
Proof. vm_compute. repeat split; reflexivity. Qed.

(** ** Decoding reads back what was encoded *)

Lemma base64_value_digit z : 0 <= z < 64 -> base64_value (base64_digit z) = Some z.
Proof.
  intros H.
  pose proof (below_all (fun z => bool_decide (base64_value (base64_digit z) = Some z)) 64 ltac:(by vm_compute) z H) as Hz.
  by apply bool_decide_eq_true in Hz.
Qed.

Lemma base64_digit_not_end z : 0 <= z < 64 -> line_end (base64_digit z) = false.
Proof.
  intros H. apply negb_true_iff.
  apply (below_all (fun z => negb (line_end (base64_digit z))) 64); [by vm_compute|lia].
Qed.

Lemma land_63 n : Z.land n 63 = n mod 64.
Proof. change 63 with (Z.ones 6). by rewrite Z.land_ones. Qed.

Lemma digit_range n : 0 <= Z.land n 63 < 64.
Proof. rewrite land_63. by apply Z.mod_pos_bound. Qed.

Lemma byte_Z_range a : 0 <= byte_Z a < 256.
Proof. unfold byte_Z. pose proof (nat_ascii_bounded a). lia. Qed.

Lemma Z_byte_Z a : Z_byte (byte_Z a) = a.
Proof.
  unfold Z_byte. rewrite Z.mod_small by apply byte_Z_range. unfold byte_Z. rewrite Nat2Z.id.
  apply ascii_nat_embedding.
Qed.

Lemma Z_byte_mod m n : m mod 256 = n mod 256 -> Z_byte m = Z_byte n.
Proof. unfold Z_byte. by intros ->. Qed.

(** A group of three bytes, and its four digits. *)
Definition group (a b c : Z) : Z := Z.shiftl a 16 + Z.shiftl b 8 + c.
Definition digit (n k : Z) : Z := Z.land (Z.shiftr n k) 63.

Lemma group_eq a b c : group a b c = a * 65536 + b * 256 + c.
Proof. unfold group. rewrite !Z.shiftl_mul_pow2 by lia. lia. Qed.

Lemma digit_eq n k : 0 <= k -> digit n k = n / 2 ^ k mod 64.
Proof. intros Hk. unfold digit. by rewrite land_63, Z.shiftr_div_pow2. Qed.

Lemma digits_join n :
  0 <= n < 2 ^ 24 ->
  Z.shiftl (digit n 18) 18 + Z.shiftl (digit n 12) 12 + Z.shiftl (digit n 6) 6 + digit n 0 = n.
Proof.
  intros Hn. rewrite !digit_eq, !Z.shiftl_mul_pow2 by lia.
  change (2 ^ 18) with 262144. change (2 ^ 12) with 4096. change (2 ^ 6) with 64. change (2 ^ 0) with 1.
  change (2 ^ 24) with 16777216 in Hn. Z.to_euclidean_division_equations. lia.
Qed.

(** The digits of a group give back its bytes. *)
Lemma base64_bytes_group a b c :
  0 <= a < 256 -> 0 <= b < 256 -> 0 <= c < 256 ->
  let n := group a b c in
  base64_bytes (digit n 18) (digit n 12) (digit n 6) (digit n 0) = [Z_byte a; Z_byte b; Z_byte c].
Proof.
  intros Ha Hb Hc n. pose proof (group_eq a b c) as Hn. fold n in Hn. unfold base64_bytes.
  rewrite digits_join by (change (2 ^ 24) with 16777216; lia). simpl.
  rewrite !Z.shiftr_div_pow2 by lia. change (2 ^ 16) with 65536. change (2 ^ 8) with 256. change (2 ^ 0) with 1.
  rewrite (Z_byte_mod (n / 65536) a), (Z_byte_mod (n / 256) b), (Z_byte_mod (n / 1) c); [done|..].
  all: Z.to_euclidean_division_equations; lia.
Qed.

Lemma base64_group_digits n :
  base64_group n = [base64_digit (digit n 18); base64_digit (digit n 12); base64_digit (digit n 6); base64_digit (digit n 0)].
Proof. done. Qed.

Lemma value_digit n k : base64_value (base64_digit (digit n k)) = Some (digit n k).
Proof. apply base64_value_digit, digit_range. Qed.

Lemma value_pad : base64_value "="%char = None.
Proof. by vm_compute. Qed.

(** The digit after the last byte of a short group is zero. *)
Lemma digit_group_1 a : digit (group a 0 0) 6 = 0 /\ digit (group a 0 0) 0 = 0.
Proof.
  rewrite !digit_eq, group_eq by lia. change (2 ^ 6) with 64. change (2 ^ 0) with 1.
  split; Z.to_euclidean_division_equations; lia.
Qed.

Lemma digit_group_2 a b : digit (group a b 0) 0 = 0.
Proof.
  rewrite digit_eq, group_eq by lia. change (2 ^ 0) with 1. Z.to_euclidean_division_equations; lia.
Qed.

Lemma decode_quanta_base64 l : decode_quanta (base64 l) = Some l.
Proof.
  enough (forall n l, (length l <= n)%nat -> decode_quanta (base64 l) = Some l) as H by by eapply H.
  clear l. induction n as [|n IH]; intros [|a [|b [|c l]]] Hl; try done; simpl in Hl; try lia.
  - cbn [base64]. replace (Z.shiftl (byte_Z a) 16) with (group (byte_Z a) 0 0)
      by (unfold group; rewrite Z.shiftl_0_l; lia).
    rewrite base64_group_digits. cbn [take app decode_quanta]. rewrite !value_digit, ?value_pad. cbn [mbind option_bind].
    pose proof (base64_bytes_group (byte_Z a) 0 0 ltac:(apply byte_Z_range) ltac:(lia) ltac:(lia)) as Hg.
    cbv zeta in Hg. destruct (digit_group_1 (byte_Z a)) as [H1 H2]. rewrite H1, H2 in Hg.
    by rewrite decide_True, Hg, Z_byte_Z.
  - cbn [base64]. replace (Z.shiftl (byte_Z a) 16 + Z.shiftl (byte_Z b) 8) with (group (byte_Z a) (byte_Z b) 0)
      by (unfold group; lia).
    rewrite base64_group_digits. cbn [take app decode_quanta]. rewrite !value_digit, ?value_pad. cbn [mbind option_bind].
    pose proof (base64_bytes_group (byte_Z a) (byte_Z b) 0 ltac:(apply byte_Z_range) ltac:(apply byte_Z_range) ltac:(lia)) as Hg.
    cbv zeta in Hg. rewrite digit_group_2 in Hg. by rewrite decide_True, Hg, !Z_byte_Z.
  - change (base64 (a :: b :: c :: l)) with (base64_group (group (byte_Z a) (byte_Z b) (byte_Z c)) ++ base64 l).
    rewrite base64_group_digits. cbn [app decode_quanta]. rewrite !value_digit. cbn [mbind option_bind].
    rewrite IH by lia. cbn [mbind option_bind].
    rewrite base64_bytes_group by apply byte_Z_range. by rewrite !Z_byte_Z.
Qed.

Lemma base64_no_line_end l : Forall (fun c => line_end c = false) (base64 l).
Proof.
  enough (forall n l, (length l <= n)%nat -> Forall (fun c => line_end c = false) (base64 l)) as H by by eapply H.
  assert (forall n, Forall (fun c => line_end c = false) (base64_group n)) as Hg.
  { intros m. rewrite base64_group_digits. repeat constructor; apply base64_digit_not_end, digit_range. }
  clear l. induction n as [|n IH]; intros [|a [|b [|c l]]] Hl; cbn [length] in Hl; try lia; [constructor..| | |];
    cbn [base64]; (apply Forall_app_2; [by auto using Forall_take|]).
  - repeat constructor.
  - repeat constructor.
  - apply IH. lia.
Qed.

Lemma filter_all {A : Type} (p : A -> bool) l : Forall (fun x => p x = true) l -> List.filter p l = l.
Proof. induction 1 as [|x l Hx _ IH]; simpl; [done|]. by rewrite Hx, IH. Qed.

(** The round trip. *)
Lemma DecodeString_EncodeToString s : DecodeString (EncodeToString s) = Some s.
Proof.
  unfold DecodeString, EncodeToString. rewrite String.list_ascii_of_string_of_list_ascii.
  rewrite filter_all by (eapply Forall_impl; [apply base64_no_line_end|]; by intros c ->).
  rewrite decode_quanta_base64. simpl. by rewrite String.string_of_list_ascii_of_string.
Qed.
