(* ===== verification/Effects.v ===== *)
(** * Effectful Go functions

    A Go function that may return an error or panic, and that reads and writes
    a state of type [S], is a computation [M S A].  [Fail e] is a non-nil
    error result, [Panicked] a run-time panic that unwinds the caller. *)

From Stdlib Require Import Setoid Morphisms.
From S2P Require Import Prelude GoErrors.

Inductive outcome (A : Type) :=
| Ret (a : A)
| Fail (e : error)
| Panicked (why : string).
Arguments Ret {A} a.
Arguments Fail {A} e.
Arguments Panicked {A} why.

Definition is_panic {A} (r : outcome A) : bool :=
  match r with Panicked _ => true | _ => false end.

Definition M (S A : Type) : Type := S -> outcome A * S.

#[export] Instance M_ret {S} : MRet (M S) := fun A a s => (Ret a, s).
#[export] Instance M_bind {S} : MBind (M S) := fun A B f m s =>
  match m s with
  | (Ret a, s') => f a s'
  | (Fail e, s') => (Fail e, s')
  | (Panicked w, s') => (Panicked w, s')
  end.

Section Operations.
Context {S : Type}.

Definition throw {A} (e : error) : M S A := fun s => (Fail e, s).
Definition panic {A} (why : string) : M S A := fun s => (Panicked why, s).
Definition get : M S S := fun s => (Ret s, s).
Definition gets {A} (f : S -> A) : M S A := fun s => (Ret (f s), s).
Definition modify (f : S -> S) : M S unit := fun s => (Ret tt, f s).

(** [v, err := m()]: the error becomes a value the caller inspects. *)
Definition try {A} (m : M S A) : M S (A + error) := fun s =>
  match m s with
  | (Ret a, s') => (Ret (inl a), s')
  | (Fail e, s') => (Ret (inr e), s')
  | (Panicked w, s') => (Panicked w, s')
  end.

(** [defer c()] followed by the rest of the function body: [c] runs however
    the body ends, and its result is dropped. *)
Definition defer {A} (c : M S unit) (m : M S A) : M S A := fun s =>
  let '(r, s') := m s in
  let '(_, s'') := c s' in
  (r, s'').

(** The outcome of a call whose error result is ignored. *)
Definition ignore_err {A} (m : M S A) : M S unit := fun s =>
  match m s with
  | (Panicked w, s') => (Panicked w, s')
  | (_, s') => (Ret tt, s')
  end.
End Operations.

(** Run a computation on a part of the state. *)
Definition zoom {S W A} (view : S -> W) (set : W -> S -> S) (m : M W A) : M S A :=
  fun s => let '(r, w) := m (view s) in (r, set w s).

(** [for _, x := range l { body x }] with early return on error. *)
Fixpoint for_each {S X} (l : list X) (body : X -> M S unit) : M S unit :=
  match l with
  | [] => mret tt
  | x :: l' => _ ← body x; for_each l' body
  end.

(** ** Equality of computations *)

Definition meq {S A} (m1 m2 : M S A) : Prop := forall s, m1 s = m2 s.

#[export] Instance meq_equiv {S A} : Equivalence (@meq S A).
Proof.
  split.
  - intros m s. done.
  - intros m1 m2 H s. done.
  - intros m1 m2 m3 H1 H2 s. by rewrite H1.
Qed.

#[export] Instance bind_proper {S A B} :
  Proper (pointwise_relation A (@meq S B) ==> @meq S A ==> @meq S B) (@mbind (M S) _ A B).
Proof.
  intros f g Hfg m n Hmn s. unfold mbind, M_bind. rewrite Hmn.
  destruct (n s) as [[a|e|w] s']; [apply Hfg|done|done].
Qed.

#[export] Instance try_proper {S A} : Proper (@meq S A ==> @meq S (A + error)) try.
Proof. intros m n H s. unfold try. by rewrite H. Qed.

#[export] Instance defer_proper {S A} : Proper (@meq S unit ==> @meq S A ==> @meq S A) defer.
Proof. intros c d Hc m n H s. unfold defer. rewrite H. destruct (n s). by rewrite Hc. Qed.

Lemma bind_ret_l {S A B} (a : A) (f : A -> M S B) : meq (x ← mret a; f x) (f a).
Proof. done. Qed.

Lemma bind_ret_r {S A} (m : M S A) : meq (x ← m; mret x) m.
Proof. intros s. unfold mbind, M_bind. by destruct (m s) as [[a|e|w] s']. Qed.

Lemma bind_assoc {S A B C} (m : M S A) (f : A -> M S B) (g : B -> M S C) :
  meq (y ← (x ← m; f x); g y) (x ← m; y ← f x; g y).
Proof. intros s. unfold mbind, M_bind. by destruct (m s) as [[a|e|w] s']. Qed.

(** ** What a computation may do to the state

    [within R m]: whatever the outcome, the final state is related to the
    initial one by [R]. *)

Definition within {S A} (R : relation S) (m : M S A) : Prop := forall s, R s (m s).2.

Section Within.
Context {S : Type} (R : relation S) `{!PreOrder R}.

Lemma within_ret {A} (a : A) : within R (mret a).
Proof. intros s. done. Qed.

Lemma within_throw {A} e : within R (@throw S A e).
Proof. intros s. simpl. done. Qed.

Lemma within_panic {A} w : within R (@panic S A w).
Proof. intros s. simpl. done. Qed.

Lemma within_get : within R get.
Proof. intros s. simpl. done. Qed.

Lemma within_gets {A} (f : S -> A) : within R (gets f).
Proof. intros s. simpl. done. Qed.

Lemma within_bind {A B} (m : M S A) (f : A -> M S B) :
  within R m -> (forall a, within R (f a)) -> within R (x ← m; f x).
Proof.
  intros Hm Hf s. specialize (Hm s). unfold mbind, M_bind.
  destruct (m s) as [[a|e|w] s']; simpl in *; [|done|done].
  transitivity s'; [done|apply Hf].
Qed.

(** As [within_bind], knowing something of the values returned. *)
Lemma within_bind_post {A B} (Phi : A -> Prop) (m : M S A) (f : A -> M S B) :
  within R m -> (forall s a s', m s = (Ret a, s') -> Phi a) ->
  (forall a, Phi a -> within R (f a)) -> within R (x ← m; f x).
Proof.
  intros Hm HPhi Hf s. specialize (Hm s). unfold mbind, M_bind.
  destruct (m s) as [[a|e|w] s'] eqn:Em; simpl in *; [|done|done].
  transitivity s'; [done|]. by apply Hf, (HPhi s _ s').
Qed.

Lemma within_try {A} (m : M S A) : within R m -> within R (try m).
Proof. intros H s. specialize (H s). unfold try. by destruct (m s) as [[a|e|w] s']. Qed.

Lemma within_ignore {A} (m : M S A) : within R m -> within R (ignore_err m).
Proof. intros H s. specialize (H s). unfold ignore_err. by destruct (m s) as [[a|e|w] s']. Qed.

Lemma within_defer {A} c (m : M S A) : within R c -> within R m -> within R (defer c m).
Proof.
  intros Hc Hm s. specialize (Hm s). unfold defer. destruct (m s) as [r s'].
  specialize (Hc s'). destruct (c s') as [r' s'']. simpl in *. by transitivity s'.
Qed.

Lemma within_for_each {X} (l : list X) body :
  (forall x, within R (body x)) -> within R (for_each l body).
Proof.
  intros H. induction l as [|x l IH]; [apply within_ret|]. simpl. by apply within_bind.
Qed.
End Within.

Lemma within_impl {S A} (R R' : relation S) (m : M S A) :
  (forall s s', R s s' -> R' s s') -> within R m -> within R' m.
Proof. intros H Hm s. apply H, Hm. Qed.

Lemma within_zoom {S W A} (R : relation W) (R' : relation S) view set (m : M W A) :
  (forall s w, R (view s) w -> R' s (set w s)) ->
  within R m -> within R' (zoom view set m).
Proof.
  intros H Hm s. specialize (Hm (view s)). unfold zoom.
  destruct (m (view s)) as [r w]. simpl in *. by apply H.
Qed.

#[export] Hint Resolve within_ret within_throw within_panic within_get within_gets
  within_bind within_try within_ignore within_defer within_for_each : src.

(** ** What a computation returns

    [ensures P m Q]: from a state satisfying [P], the outcome and the final
    state satisfy [Q]. *)

Definition ensures {S A} (P : S -> Prop) (m : M S A) (Q : outcome A -> S -> Prop) : Prop :=
  forall s, P s -> Q (m s).1 (m s).2.

(** One step of a sequence of calls. *)
Lemma bind_Ret {S A B} (m : M S A) (f : A -> M S B) s a s' :
  m s = (Ret a, s') -> (x ← m; f x) s = f a s'.
Proof. intros H. unfold mbind, M_bind. by rewrite H. Qed.

Lemma bind_Fail {S A B} (m : M S A) (f : A -> M S B) s e s' :
  m s = (Fail e, s') -> (x ← m; f x) s = (Fail e, s').
Proof. intros H. unfold mbind, M_bind. by rewrite H. Qed.

(** Inversion of a successful sequence of calls. *)
Lemma bind_Ret_inv {S A B} (m : M S A) (f : A -> M S B) s b s' :
  (x ← m; f x) s = (Ret b, s') ->
  exists a s1, m s = (Ret a, s1) /\ f a s1 = (Ret b, s').
Proof.
  unfold mbind, M_bind. destruct (m s) as [[a|e|w] s1]; [eauto|done|done].
Qed.

Lemma bind_Panic_inv {S A B} (m : M S A) (f : A -> M S B) s w s' :
  (x ← m; f x) s = (Panicked w, s') ->
  m s = (Panicked w, s') \/ exists a s1, m s = (Ret a, s1) /\ f a s1 = (Panicked w, s').
Proof.
  unfold mbind, M_bind. destruct (m s) as [[a|e|w1] s1].
  - intros H. right. eauto.
  - done.
  - intros [= -> ->]. by left.
Qed.

Lemma try_inv {S A} (m : M S A) s r s' :
  try m s = (Ret r, s') ->
  match r with inl a => m s = (Ret a, s') | inr e => m s = (Fail e, s') end.
Proof. unfold try. destruct (m s) as [[a|e|w] s1]; intros [= <- <-]; done. Qed.

Lemma try_never_fails {S A} (m : M S A) s e s' : try m s <> (Fail e, s').
Proof. unfold try. by destruct (m s) as [[a|e1|w] s1]. Qed.

Lemma defer_inv {S A} (c : M S unit) (m : M S A) s r s' :
  defer c m s = (r, s') -> exists s1 r1, m s = (r, s1) /\ c s1 = (r1, s').
Proof. unfold defer. destruct (m s) as [r0 s1]. destruct (c s1) as [r1 s2] eqn:E. intros [= <- <-]. eauto. Qed.

Ltac inv_bind H :=
  let a := fresh "v" in let s := fresh "st" in let H1 := fresh "Hstep" in
  apply bind_Ret_inv in H as (a & s & H1 & H).

(** The rest of a sequence runs on the state the first step returns. *)
Lemma bind_outcome {S : Type} {A B : Type} (Q : outcome B * S -> Prop) (m : M S A) (k : A -> M S B) s :
  (forall a s1, m s = (Ret a, s1) -> Q (k a s1)) ->
  (forall e s1, m s = (Fail e, s1) -> Q (Fail e, s1)) ->
  (forall w s1, m s = (Panicked w, s1) -> Q (Panicked w, s1)) -> Q ((x ← m; k x) s).
Proof. intros H1 H2 H3. unfold mbind, M_bind. destruct (m s) as [[a|e|w] s1] eqn:Em; auto. Qed.

(** ** Computations that do not panic *)

Definition calm {S A} (m : M S A) : Prop := forall s, is_panic (m s).1 = false.

Section Calm.
Context {S : Type}.

Lemma calm_ret {A} (a : A) : calm (S := S) (mret a).
Proof. done. Qed.
Lemma calm_throw {A} e : calm (@throw S A e).
Proof. done. Qed.
Lemma calm_gets {A} (f : S -> A) : calm (gets f).
Proof. done. Qed.
Lemma calm_modify (f : S -> S) : calm (modify f).
Proof. done. Qed.

Lemma calm_bind {A B} (m : M S A) (f : A -> M S B) :
  calm m -> (forall a, calm (f a)) -> calm (x ← m; f x).
Proof.
  intros Hm Hf s. specialize (Hm s). unfold mbind, M_bind.
  destruct (m s) as [[a|e|w] s']; [apply Hf|done|done].
Qed.

Lemma calm_try {A} (m : M S A) : calm m -> calm (try m).
Proof. intros H s. specialize (H s). unfold try. by destruct (m s) as [[a|e|w] s']. Qed.

Lemma calm_ignore {A} (m : M S A) : calm m -> calm (ignore_err m).
Proof. intros H s. specialize (H s). unfold ignore_err. by destruct (m s) as [[a|e|w] s']. Qed.

Lemma calm_defer {A} c (m : M S A) : calm m -> calm (defer c m).
Proof. intros H s. specialize (H s). unfold defer. destruct (m s). by destruct (c _). Qed.

Lemma calm_for_each {X} (l : list X) body : (forall x, calm (body x)) -> calm (S := S) (for_each l body).
Proof. intros H. induction l as [|x l IH]; [done|]. by apply calm_bind. Qed.

Lemma calm_zoom {W A} (view : S -> W) set (m : M W A) : calm m -> calm (zoom view set m).
Proof. intros H s. specialize (H (view s)). unfold zoom. by destruct (m (view s)). Qed.
End Calm.

Create HintDb calm.
#[export] Hint Resolve calm_ret calm_throw calm_gets calm_modify : calm.

Ltac calm_auto :=
  lazymatch goal with
  | |- calm (mbind _ _) => apply calm_bind; [calm_auto|intros; calm_auto]
  | |- calm (try _) => apply calm_try; calm_auto
  | |- calm (ignore_err _) => apply calm_ignore; calm_auto
  | |- calm (defer _ _) => apply calm_defer; calm_auto
  | |- calm (for_each _ _) => apply calm_for_each; intros; calm_auto
  | |- calm (zoom _ _ _) => apply calm_zoom; calm_auto
  | |- calm (match ?x with _ => _ end) => destruct x; calm_auto
  | |- _ => try solve [auto with calm]
  end.
