(* ===== verification/World.v ===== *)
(** * The world the controllers act on

    [World] is the mutable state shared by every call: the file system, the
    log of HTTP requests sent, and a step counter.  [Env] collects what the
    program observes but does not decide; every answer is indexed by the step
    at which it is asked, so that a file operation may fail at one step and
    succeed at the next, and a server may change its mind. *)

From S2P Require Import Prelude GoStrings GoPath GoErrors Effects.

(** ** Files *)

Record file := mkFile { f_data : string; f_mode : Z; f_mtime : Z }.

Inductive node := DirNode | FileNode (f : file).

#[export] Instance file_eq_dec : EqDecision file.
Proof. solve_decision. Defined.
#[export] Instance node_eq_dec : EqDecision node.
Proof. solve_decision. Defined.

(** The entries below the root, by the names on the way to them. *)
Abbreviation fsmap := (@gmap (list string) (@list_eq_dec string String.eq_dec) (@list_countable string String.eq_dec String.countable) node).

(** A failing system call; a failing write leaves [fault_written] bytes. *)
Record fault := mkFault { fault_errno : Errno; fault_written : nat }.

(** ** HTTP *)

(** [net/url.URL]: the parts the source reads, and the rest of the text. *)
Record URL := mkURL { Scheme : string; Host : string; Rest : string }.

Record Request := mkRequest {
  rq_Method : string;
  rq_URL : URL;
  rq_BasicAuth : option (string * string);
  rq_Timeout : option Z  (* the deadline of the request's context *)
}.

(** [x509.CertPool]: the system pool with the PEM blocks appended to it. *)
Record CertPool := mkCertPool { pool_pem : list string }.

(** [http.Transport]: only its trusted roots differ between requests. *)
Record Transport := mkTransport { RootCAs : CertPool }.

Inductive location :=
| NoLocation                              (* no Location header *)
| BadLocation (raw : string) (e : error)  (* one that does not parse *)
| Location (raw : string) (u : URL).      (* resolved against the request's URL *)

(** One request on the wire.  [body_err] is the error that ends the body. *)
Inductive exchange :=
| TransportError (e : error)
| Response (StatusCode : Z) (loc : location) (body : string) (body_err : option error).

(** ** Kubernetes objects the controllers read *)

(** [corev1.Secret]: a nil [Data] map differs from an empty one. *)
Record Secret := mkSecret { secret_Name : string; Data : option (gmap string string) }.

Record ServiceAccount := mkServiceAccount { sa_ImagePullSecrets : list string }.

Inductive KubeRef :=
| SecretRef_of (namespace name : string)
| ServiceAccountRef_of (namespace name : string).

(** ** The environment *)

Class Env := {
  (** the process *)
  env_cwd : list string;
  env_cwd_names : Forall normal env_cwd;
  env_TempDir : string;
  env_TempDir_not_empty : env_TempDir <> "";
  env_umask : Z;
  env_clock : nat -> Z;
  env_random : nat -> nat;
  env_fault : nat -> option fault;
  (** net/url and net/http *)
  url_Parse : string -> URL + error;
  URL_String : URL -> string;
  URL_stripPassword : URL -> string;  (* its text, with the password masked *)
  env_roundtrip : nat -> Transport -> Request -> exchange;
  (** crypto/x509 *)
  x509_SystemCertPool : nat -> CertPool + error;
  x509_pem_ok : string -> bool;  (* the block holds at least one certificate *)
  (** the Kubernetes API *)
  kube_Secret : nat -> string -> string -> Secret + error;
  kube_ServiceAccount : nat -> string -> string -> ServiceAccount + error;
  apierrs_IsNotFound : error -> bool
}.

Record World := mkWorld {
  w_fs : fsmap;
  w_tick : nat;
  w_sent : list (Transport * Request);
  w_tracked : list KubeRef
}.

Definition tick_world (w : World) : World :=
  mkWorld (w_fs w) (S (w_tick w)) (w_sent w) (w_tracked w).
Definition set_fs (fs : fsmap) (w : World) : World :=
  mkWorld fs (w_tick w) (w_sent w) (w_tracked w).

Abbreviation IO := (M World).

Section Ask.
Context `{E : Env}.

(** One observation of the environment. *)
Definition ask {A} (f : nat -> A) : IO A := fun w => (Ret (f (w_tick w)), tick_world w).

Definition of_sum {S A} (r : A + error) : M S A :=
  match r with inl a => mret a | inr e => throw e end.

(** [c.TrackAndGet(ctx, key, &obj)]: the key is tracked, then read. *)
Definition track (r : KubeRef) : IO unit := fun w =>
  (Ret tt, mkWorld (w_fs w) (w_tick w) (w_sent w) (w_tracked w ++ [r])).

Definition TrackAndGet_Secret (ns name : string) : IO Secret :=
  _ ← track (SecretRef_of ns name);
  r ← ask (fun t => kube_Secret t ns name);
  of_sum r.

Definition TrackAndGet_ServiceAccount (ns name : string) : IO ServiceAccount :=
  _ ← track (ServiceAccountRef_of ns name);
  r ← ask (fun t => kube_ServiceAccount t ns name);
  of_sum r.
End Ask.

(** ** States that contain the world

    Code that keeps more state than the world (a compressor, a resource being
    reconciled) runs the calls of the world through [io]. *)

Class HasWorld (S : Type) := {
  the_world : S -> World;
  set_world : World -> S -> S;
  the_set_world w s : the_world (set_world w s) = w
}.

#[export] Instance world_has_world : HasWorld World := {
  the_world w := w;
  set_world w _ := w;
  the_set_world w s := eq_refl
}.

Definition io {S A : Type} `{H : HasWorld S} (m : IO A) : M S A := zoom the_world set_world m.

(** Relations that concern the file system only. *)
Definition on_fs {S : Type} `{H : HasWorld S} (R : relation fsmap) : relation S :=
  fun s s' => R (w_fs (the_world s)) (w_fs (the_world s')).

#[export] Instance on_fs_preorder {S : Type} `{H : HasWorld S} R : PreOrder R -> PreOrder (on_fs (S := S) R).
Proof.
  intros [Hr Ht]. split.
  - intros w. apply Hr.
  - intros w1 w2 w3 H1 H2. by eapply Ht.
Qed.

Lemma within_io {S A : Type} `{H : HasWorld S} (R : relation fsmap) (m : IO A) :
  within (on_fs R) m -> within (on_fs (S := S) R) (io m).
Proof.
  apply within_zoom. intros s w Hw. unfold on_fs. by rewrite the_set_world.
Qed.
#[export] Hint Resolve within_io : src.

(** [touches P]: only entries in [P] may differ. *)
Definition touches (P : list string -> Prop) : relation fsmap :=
  fun a b => forall k, ~ P k -> b !! k = a !! k.

#[export] Instance touches_preorder P : PreOrder (touches P).
Proof.
  split.
  - intros a k _. done.
  - intros a b c H1 H2 k Hk. by rewrite H2, H1.
Qed.

Lemma touches_mono (P Q : list string -> Prop) a b :
  (forall k, P k -> Q k) -> touches P a b -> touches Q a b.
Proof. intros H Hab k Hk. apply Hab. naive_solver. Qed.

Lemma within_touches_mono {A} (P Q : list string -> Prop) (m : IO A) :
  (forall k, P k -> Q k) -> within (on_fs (touches P)) m -> within (on_fs (touches Q)) m.
Proof. intros H. apply within_impl. intros w w'. by apply touches_mono. Qed.

Lemma within_ask {A : Type} (R : relation fsmap) `{!PreOrder R} (f : nat -> A) :
  within (on_fs R) (ask f).
Proof. intros w. unfold on_fs. simpl. done. Qed.

Lemma within_of_sum {A S : Type} (R : relation S) `{!PreOrder R} (r : A + error) :
  within R (of_sum r).
Proof. destruct r; [by apply within_ret|by apply within_throw]. Qed.

#[export] Hint Resolve within_ask within_of_sum : src.

(** Follow the structure of a computation; calls are left to [src]. *)
Ltac within_auto :=
  lazymatch goal with
  | |- within _ (mbind _ _) => apply within_bind; [apply _|within_auto|intros; within_auto]
  | |- within _ (try _) => apply within_try; within_auto
  | |- within _ (ignore_err _) => apply within_ignore; within_auto
  | |- within _ (defer _ _) => apply within_defer; [apply _|within_auto|within_auto]
  | |- within _ (for_each _ _) => apply within_for_each; [apply _|intros; within_auto]
  | |- within _ (io _) => apply within_io; within_auto
  | |- within _ (mret _) => apply within_ret; apply _
  | |- within _ (throw _) => apply within_throw; apply _
  | |- within _ (panic _) => apply within_panic; apply _
  | |- within _ (gets _) => apply within_gets; apply _
  | |- within _ (of_sum _) => apply within_of_sum; apply _
  | |- within _ (ask _) => apply within_ask; apply _
  | |- within _ (match ?x with _ => _ end) => destruct x; within_auto
  | |- _ => try solve [auto with src typeclass_instances]
  end.
