(* ===== verification/GoOS.v ===== *)
(** * Go's [os] package on a Unix file system without symbolic links

    Each system call is one step of the world and may fail with the fault the
    environment has for that step.  An open file is named by its path: no
    function of the controllers renames or removes a file it holds open. *)

From stdpp Require Import sorting.
From Stdlib Require Import DecimalString.
From S2P Require Import Prelude GoStrings GoPath GoErrors Effects World.

(** ** Pure operations on the tree *)

(** The root exists and is a directory. *)
Definition lookup_node (fs : fsmap) (k : list string) : option node :=
  match k with [] => Some DirNode | _ => fs !! k end.

(** Walk to the last element: every element before it must be a directory. *)
Fixpoint check_dirs (fs : fsmap) (pre rest : list string) : option Errno :=
  match rest with
  | [] => None
  | [_] => None
  | c :: rest' =>
      match fs !! (pre ++ [c]) with
      | Some DirNode => check_dirs fs (pre ++ [c]) rest'
      | Some (FileNode _) => Some ENOTDIR
      | None => Some ENOENT
      end
  end.

(** [mkdir(2)] *)
Definition p_mkdir (k : list string) (fs : fsmap) : (unit + Errno) * fsmap :=
  match check_dirs fs [] k with
  | Some e => (inr e, fs)
  | None =>
      match lookup_node fs k with
      | Some _ => (inr EEXIST, fs)
      | None => (inl tt, <[k := DirNode]> fs)
      end
  end.

(** [open(2)] with [O_CREAT|O_TRUNC] and write access. *)
Definition p_create (k : list string) (mode now : Z) (fs : fsmap) : (unit + Errno) * fsmap :=
  match check_dirs fs [] k with
  | Some e => (inr e, fs)
  | None =>
      match lookup_node fs k with
      | Some DirNode => (inr EISDIR, fs)
      | Some (FileNode f) => (inl tt, <[k := FileNode (mkFile "" (f_mode f) now)]> fs)
      | None => (inl tt, <[k := FileNode (mkFile "" mode now)]> fs)
      end
  end.

(** [stat(2)] *)
Definition p_stat (k : list string) (fs : fsmap) : (node + Errno) * fsmap :=
  match check_dirs fs [] k with
  | Some e => (inr e, fs)
  | None => (match lookup_node fs k with Some n => inl n | None => inr ENOENT end, fs)
  end.

(** [read(2)] to the end of an open file. *)
Definition p_read (k : list string) (fs : fsmap) : (string + Errno) * fsmap :=
  match lookup_node fs k with
  | Some (FileNode f) => (inl (f_data f), fs)
  | Some DirNode => (inr EISDIR, fs)
  | None => (inr EIO, fs)
  end.

(** Append to an open file; a file unlinked meanwhile takes the bytes with it. *)
Definition p_append (k : list string) (data : string) (now : Z) (fs : fsmap) : fsmap :=
  match fs !! k with
  | Some (FileNode f) => <[k := FileNode (mkFile (f_data f +:+ data) (f_mode f) now)]> fs
  | _ => fs
  end.

Definition p_chtimes (k : list string) (t : Z) (fs : fsmap) : (unit + Errno) * fsmap :=
  match check_dirs fs [] k with
  | Some e => (inr e, fs)
  | None =>
      match lookup_node fs k with
      | Some (FileNode f) => (inl tt, <[k := FileNode (mkFile (f_data f) (f_mode f) t)]> fs)
      | Some DirNode => (inl tt, fs)
      | None => (inr ENOENT, fs)
      end
  end.

(** [rename(2)] of a regular file, after [os.Rename]'s test that the new name
    is no directory.  The source renames only files it has just written; a
    directory as the old name is refused here. *)
Definition p_rename (a b : list string) (fs : fsmap) : (unit + Errno) * fsmap :=
  match lookup_node fs b with
  | Some DirNode => (inr EEXIST, fs)
  | _ =>
      match check_dirs fs [] a, check_dirs fs [] b with
      | Some e, _ => (inr e, fs)
      | None, Some e => (inr e, fs)
      | None, None =>
          match lookup_node fs a with
          | Some (FileNode f) => (inl tt, <[b := FileNode f]> (delete a fs))
          | Some DirNode => (inr EISDIR, fs)
          | None => (inr ENOENT, fs)
          end
      end
  end.

(** Everything at or below [k] goes. *)
Definition p_remove_all (k : list string) (fs : fsmap) : (unit + Errno) * fsmap :=
  match check_dirs fs [] k with
  | Some ENOTDIR => (inr ENOTDIR, fs)
  | Some _ => (inl tt, fs)
  | None => (inl tt, filter (fun e => ~ k `prefix_of` e.1) fs)
  end.

(** Byte-wise lexicographic order on the elements: the order in which
    [filepath.WalkDir] visits a tree. *)
Fixpoint path_leb (a b : list string) : bool :=
  match a, b with
  | [], _ => true
  | _, [] => false
  | x :: a', y :: b' =>
      match String.compare x y with
      | Lt => true
      | Gt => false
      | Eq => path_leb a' b'
      end
  end.

Definition entry_le (x y : list string * node) : Prop := path_leb x.1 y.1 = true.
#[export] Instance entry_le_dec : RelDecision entry_le.
Proof. intros x y. unfold entry_le. apply _. Defined.

(** What lies strictly below [k], relative to [k], in walking order. *)
Definition entries_below (k : list string) (fs : fsmap) : list (list string * node) :=
  merge_sort entry_le
    (omap (fun '(q, n) => match drop_prefix k q with
                          | Some (c :: r) => Some (c :: r, n)
                          | _ => None
                          end) (map_to_list fs)).

(** ** System calls *)

(** Decimal digits, for random file names. *)
Definition decimal (n : nat) : string := NilEmpty.string_of_uint (Nat.to_uint n).

(** [os.IsExist], [os.IsNotExist] on the errors below. *)
Definition IsExist (e : error) : bool :=
  match e with fs_PathError _ _ EEXIST => true | _ => false end.

(** The text before and after the ["*"] of a temporary name pattern. *)
Definition prefixAndSuffix (pattern : string) : string * string :=
  let '(b, a, _) := Cut pattern "*"%char in (b, a).

(** [os.MkdirTemp] gives up after this many taken names. *)
Definition mkdir_temp_tries : nat := Z.to_nat 9999.

Definition joinPath (dir name : string) : string :=
  if HasSuffix dir "/" then dir +:+ name else dir +:+ String slash name.

Section Calls.
Context `{E : Env}.

Definition at_path (p : string) : list string := key env_cwd p.

Definition fs_call {A} (op p : string) (f : nat -> fsmap -> (A + Errno) * fsmap) : IO A :=
  fun w =>
    let t := w_tick w in
    match env_fault t with
    | Some ft => (Fail (fs_PathError op p (fault_errno ft)), tick_world w)
    | None =>
        let '(r, fs) := f t (w_fs w) in
        (match r with inl a => Ret a | inr n => Fail (fs_PathError op p n) end,
         set_fs fs (tick_world w))
    end.

Definition os_Stat (p : string) : IO node := fs_call "stat" p (fun _ => p_stat (at_path p)).

Definition os_Mkdir (p : string) : IO unit := fs_call "mkdir" p (fun _ => p_mkdir (at_path p)).

(** [os.MkdirAll]: one level after the other, existing directories pass. *)
Fixpoint mkdir_levels (p : string) (pre rest : list string) : IO unit :=
  match rest with
  | [] => mret tt
  | c :: rest' =>
      _ ← fs_call "mkdir" p (fun _ fs =>
            match fs !! (pre ++ [c]) with
            | Some DirNode => (inl tt, fs)
            | Some (FileNode _) => (inr ENOTDIR, fs)
            | None => p_mkdir (pre ++ [c]) fs
            end);
      mkdir_levels p (pre ++ [c]) rest'
  end.

Definition os_MkdirAll (p : string) : IO unit := mkdir_levels p [] (at_path p).

(** [os.OpenFile(p, O_CREATE|O_WRONLY|O_TRUNC, perm)] *)
Definition os_OpenFile (p : string) (perm : Z) : IO unit :=
  fs_call "open" p (fun t => p_create (at_path p) (Z.ldiff perm env_umask) (env_clock t)).

Definition os_Create (p : string) : IO unit := os_OpenFile p 438 (* 0666 *).

(** [os.Open]: any existing entry opens. *)
Definition os_Open (p : string) : IO node := fs_call "open" p (fun _ => p_stat (at_path p)).

(** [file.Stat()] of an open file. *)
Definition file_Stat (p : string) : IO node :=
  fs_call "stat" p (fun _ fs =>
    (match lookup_node fs (at_path p) with Some n => inl n | None => inr EIO end, fs)).

(** Read an open file to its end. *)
Definition read_all (p : string) : IO string := fs_call "read" p (fun _ => p_read (at_path p)).

(** [io.Copy] of [data] into the file open at [p]; a fault leaves a part. *)
Definition write_all (p data : string) : IO unit := fun w =>
  let t := w_tick w in
  let put d := set_fs (p_append (at_path p) d (env_clock t) (w_fs w)) (tick_world w) in
  match env_fault t with
  | Some ft =>
      (Fail (fs_PathError "write" p (fault_errno ft)), put (String.substring 0 (fault_written ft) data))
  | None => (Ret tt, put data)
  end.

Definition os_ReadFile (p : string) : IO string := _ ← os_Open p; read_all p.

Definition os_WriteFile (p data : string) (perm : Z) : IO unit :=
  _ ← os_OpenFile p perm; write_all p data.

Definition os_Rename (a b : string) : IO unit :=
  fs_call "rename" a (fun _ => p_rename (at_path a) (at_path b)).

Definition os_RemoveAll (p : string) : IO unit :=
  if decide (p = "") then mret tt
  else fs_call "unlinkat" p (fun _ => p_remove_all (at_path p)).

Definition os_Chtimes (p : string) (t : Z) : IO unit :=
  fs_call "chtimes" p (fun _ => p_chtimes (at_path p) t).

Fixpoint mkdir_temp (tries : nat) (dir prefix suffix : string) : IO string :=
  r ← ask env_random;
  let name := joinPath dir (prefix +:+ decimal r +:+ suffix) in
  e ← try (os_Mkdir name);
  match e with
  | inl _ => mret name
  | inr err =>
      if IsExist err
      then match tries with
           | O => throw (fs_PathError "mkdirtemp" (joinPath dir (prefix +:+ "*" +:+ suffix)) EEXIST)
           | S n => mkdir_temp n dir prefix suffix
           end
      else throw err
  end.

Definition os_MkdirTemp (dir pattern : string) : IO string :=
  let '(prefix, suffix) := prefixAndSuffix pattern in
  mkdir_temp mkdir_temp_tries dir prefix suffix.

(** [filepath.WalkDir(root, fn)]: [fn] is called with the entry, or with the
    error met when it was inspected or listed. *)
Definition WalkDir {S : Type} `{H : HasWorld S} (root : string)
    (fn : string -> node + error -> M S unit) : M S unit :=
  r ← try (io (os_Stat root));
  match r with
  | inr e => fn root (inr e)
  | inl n =>
      below ← gets (fun s => entries_below (at_path root) (w_fs (the_world s)));
      for_each (([], n) :: match n with DirNode => below | FileNode _ => [] end)
        (fun '(r, n) =>
           let fp := match r with [] => root | _ => Join (root :: r) end in
           _ ← fn fp (inl n);
           match n with
           | FileNode _ => mret tt
           | DirNode =>
               l ← try (io (fs_call "readdirent" fp (fun _ fs => (inl tt, fs))));
               match l with inl _ => mret tt | inr e => fn fp (inr e) end
           end)
  end.
End Calls.

#[global] Arguments at_path {E} p : simpl never.
