(* ===== verification/GoOSFacts.v ===== *)
(** * Facts about the file system calls

    Well-formedness of the tree and what each call touches, as [within]
    lemmas collected in the hint database [src]; then the effect of each call
    that returns without error. *)

From S2P Require Import Prelude GoStrings GoPath GoErrors Effects World GoOS.

(** ** Well-formed trees

    Every entry lies in a directory, and the root is implicit. *)

Definition fs_wf (fs : fsmap) : Prop :=
  fs !! [] = None /\
  forall k c n, fs !! (k ++ [c]) = Some n -> lookup_node fs k = Some DirNode.

Definition keeps_wf : relation fsmap := fun a b => fs_wf a -> fs_wf b.

#[export] Instance keeps_wf_preorder : PreOrder keeps_wf.
Proof. split; unfold keeps_wf; [intros a|intros a b c]; naive_solver. Qed.

Lemma fs_wf_empty : fs_wf ∅.
Proof. split; [done|]. intros k c n. by rewrite lookup_empty. Qed.

Lemma check_dirs_parent fs pre k c :
  check_dirs fs pre (k ++ [c]) = None -> k <> [] -> fs !! (pre ++ k) = Some DirNode.
Proof.
  revert pre. induction k as [|d k IH]; [done|]. intros pre H _. simpl in H.
  destruct (k ++ [c]) as [|c' k'] eqn:Ek; [by destruct k|].
  case_match; [|done]. case_match; [|done]. subst. destruct k as [|d' k].
  - done.
  - specialize (IH (pre ++ [d]) H). rewrite <- app_assoc in IH. by apply IH.
Qed.

Lemma lookup_node_ne fs k : k <> [] -> lookup_node fs k = fs !! k.
Proof. by destruct k. Qed.

Lemma check_dirs_lookup fs k c :
  check_dirs fs [] (k ++ [c]) = None -> lookup_node fs k = Some DirNode.
Proof.
  intros H. destruct (decide (k = [])) as [->|Hk]; [done|]. rewrite lookup_node_ne by done.
  by apply (check_dirs_parent fs [] k c H).
Qed.

(** In a well-formed tree, a directory's own ancestors are fine. *)
Lemma fs_wf_prefix fs k l n :
  fs_wf fs -> fs !! (k ++ l) = Some n -> l <> [] -> lookup_node fs k = Some DirNode.
Proof.
  intros [Hroot Hp]. revert n. induction l as [|c l IH] using rev_ind; [done|]. intros n H _.
  rewrite app_assoc in H. apply Hp in H. destruct (decide (l = [])) as [->|Hl].
  - by rewrite app_nil_r in H.
  - rewrite lookup_node_ne in H by (by destruct k). by eapply IH.
Qed.

Lemma check_dirs_ok fs pre k :
  (forall a b, k = a ++ b -> a <> [] -> b <> [] -> fs !! (pre ++ a) = Some DirNode) ->
  check_dirs fs pre k = None.
Proof.
  revert pre. induction k as [|c k IH]; [done|]. intros pre H. simpl.
  destruct k as [|c' k]; [done|].
  rewrite (H [c] (c' :: k)) by done. apply IH. intros a b Hab Ha Hb.
  rewrite <- app_assoc. apply (H (c :: a) b); simpl; congruence.
Qed.

Lemma check_dirs_wf fs k c :
  fs_wf fs -> lookup_node fs k = Some DirNode -> check_dirs fs [] (k ++ [c]) = None.
Proof.
  intros Hwf Hk. apply check_dirs_ok. intros a b Hab Ha Hb. simpl.
  assert (exists r, k = a ++ r) as [r ->].
  { destruct b as [|b0 b _] using rev_ind; [done|]. rewrite app_assoc in Hab.
    apply app_inj_tail in Hab as [-> _]. by exists b. }
  rewrite <- lookup_node_ne by done. destruct (decide (r = [])) as [->|Hr].
  - by rewrite app_nil_r in Hk.
  - rewrite lookup_node_ne in Hk by (by destruct a). by eapply fs_wf_prefix.
Qed.

Lemma check_dirs_wf_node fs k n :
  fs_wf fs -> lookup_node fs k = Some n -> check_dirs fs [] k = None.
Proof.
  intros Hwf Hk. destruct k as [|c k _] using rev_ind; [done|].
  apply check_dirs_wf; [done|]. rewrite lookup_node_ne in Hk by (by destruct k).
  by eapply Hwf.
Qed.

Lemma lookup_node_insert_ne fs k k' n : k <> k' -> lookup_node (<[k := n]> fs) k' = lookup_node fs k'.
Proof. intros H. destruct k'; [done|]. simpl. by rewrite lookup_insert_ne. Qed.

(** Adding an entry below a directory; a directory may not become a file. *)
Lemma fs_wf_insert fs k c n :
  fs_wf fs -> lookup_node fs k = Some DirNode ->
  (fs !! (k ++ [c]) = Some DirNode -> n = DirNode) ->
  fs_wf (<[k ++ [c] := n]> fs).
Proof.
  intros [Hroot Hp] Hk Hn. split.
  - rewrite lookup_insert_ne; [done|by destruct k].
  - intros q d m. rewrite lookup_insert. case_decide as Eq.
    + apply app_inj_tail in Eq as [<- <-]. intros [= <-].
      rewrite lookup_node_insert_ne; [done|]. intros Eq.
      apply (f_equal length) in Eq. rewrite length_app in Eq. simpl in Eq. lia.
    + intros Hq. destruct (decide (k ++ [c] = q)) as [<-|Hne].
      * apply Hp in Hq as Hq'. rewrite lookup_node_ne in Hq' by (by destruct k).
        rewrite (Hn Hq'), lookup_node_ne by (by destruct k). by rewrite lookup_insert_eq.
      * rewrite lookup_node_insert_ne by done. by eapply Hp.
Qed.

(** ** The pure operations preserve well-formedness *)

Lemma wf_mkdir k fs : keeps_wf fs (p_mkdir k fs).2.
Proof.
  intros H. unfold p_mkdir. destruct (check_dirs fs [] k) eqn:E; [done|].
  destruct (lookup_node fs k) eqn:L; [done|]. simpl.
  destruct k as [|c k _] using rev_ind; [done|].
  apply fs_wf_insert; [done|by eapply check_dirs_lookup|].
  rewrite lookup_node_ne in L by (by destruct k). congruence.
Qed.

Lemma wf_create k m t fs : keeps_wf fs (p_create k m t fs).2.
Proof.
  intros H. unfold p_create. destruct (check_dirs fs [] k) eqn:E; [done|].
  destruct k as [|c k _] using rev_ind; [done|].
  destruct (lookup_node fs (k ++ [c])) as [[|f]|] eqn:L; [done| |];
    rewrite lookup_node_ne in L by (by destruct k); simpl;
    (apply fs_wf_insert; [done|by eapply check_dirs_lookup|congruence]).
Qed.

(** Rewriting the contents of a file. *)
Lemma wf_update_file fs k f f' :
  fs_wf fs -> fs !! k = Some (FileNode f) -> fs_wf (<[k := FileNode f']> fs).
Proof.
  intros H Hk. destruct k as [|c k _] using rev_ind; [by destruct H; congruence|].
  apply fs_wf_insert; [done|by eapply H|congruence].
Qed.

Lemma wf_append k d t fs : keeps_wf fs (p_append k d t fs).
Proof.
  intros H. unfold p_append. destruct (fs !! k) as [[|f]|] eqn:E; try done.
  by eapply wf_update_file.
Qed.

Lemma wf_chtimes k t fs : keeps_wf fs (p_chtimes k t fs).2.
Proof.
  intros H. unfold p_chtimes. destruct (check_dirs fs [] k); [done|].
  destruct (lookup_node fs k) as [[|f]|] eqn:L; try done. simpl.
  destruct k; [done|]. by eapply wf_update_file.
Qed.

(** A file has nothing below it. *)
Lemma fs_wf_file_leaf fs k f c : fs_wf fs -> fs !! k = Some (FileNode f) -> fs !! (k ++ [c]) = None.
Proof.
  intros H Hk. destruct (fs !! (k ++ [c])) eqn:E; [|done].
  apply H in E. rewrite lookup_node_ne in E; [congruence|]. intros ->.
  destruct H. congruence.
Qed.

Lemma wf_delete_file fs k f : fs_wf fs -> fs !! k = Some (FileNode f) -> fs_wf (delete k fs).
Proof.
  intros H Hk. pose proof (fs_wf_file_leaf fs k f) as Hleaf. split.
  - rewrite lookup_delete. case_decide; [done|]. apply H.
  - intros q c n. rewrite lookup_delete. case_decide; [done|]. intros Hq.
    destruct (decide (q = k)) as [->|Hne].
    + rewrite Hleaf in Hq by done. done.
    + destruct q as [|x q]; [done|]. simpl. rewrite lookup_delete_ne by done.
      by apply H in Hq.
Qed.

Lemma wf_rename a b fs : keeps_wf fs (p_rename a b fs).2.
Proof.
  intros H. unfold p_rename.
  destruct (lookup_node fs b) as [[|g]|] eqn:Lb; [done| |];
  (destruct (check_dirs fs [] a) eqn:Ea, (check_dirs fs [] b) eqn:Eb; try done;
   destruct (lookup_node fs a) as [[|f]|] eqn:La; try done; simpl;
   destruct a as [|a0 a]; [done|]; simpl in La;
   pose proof (wf_delete_file fs _ _ H La) as Hd;
   destruct b as [|c b _] using rev_ind; [done|];
   rewrite lookup_node_ne in Lb by (by destruct b);
   apply check_dirs_lookup in Eb;
   apply fs_wf_insert;
     [done
     |destruct b as [|b0 b]; [done|]; simpl in *;
      rewrite lookup_delete_ne; [done|congruence]
     |rewrite lookup_delete; case_decide; congruence]).
Qed.

Lemma wf_remove_all k fs : keeps_wf fs (p_remove_all k fs).2.
Proof.
  intros H. unfold p_remove_all. destruct (check_dirs fs [] k) as [[]|]; try done. simpl.
  split.
  - rewrite map_lookup_filter. destruct H as [-> _]. done.
  - intros q c n Hq. apply map_lookup_filter_Some in Hq as [Hq Hk]. simpl in Hk.
    destruct q as [|x q]; [done|]. simpl.
    apply map_lookup_filter_Some. split; [by apply H in Hq|].
    simpl. intros [r Hr]. apply Hk. exists (r ++ [c]). by rewrite Hr, app_assoc.
Qed.

(** ** What the pure operations touch *)

Definition is_key (k : list string) : list string -> Prop := eq k.
Definition at_or_below (k : list string) : list string -> Prop := fun q => k `prefix_of` q.
(** [k] and the directories above it. *)
Definition on_path_to (k : list string) : list string -> Prop := fun q => q `prefix_of` k.

Lemma touches_insert k n fs : touches (is_key k) fs (<[k := n]> fs).
Proof. intros q Hq. by rewrite lookup_insert_ne. Qed.

Lemma touches_mkdir k fs : touches (is_key k) fs (p_mkdir k fs).2.
Proof. unfold p_mkdir. repeat case_match; simpl; try done. apply touches_insert. Qed.

Lemma touches_create k m t fs : touches (is_key k) fs (p_create k m t fs).2.
Proof. unfold p_create. repeat case_match; simpl; try done; apply touches_insert. Qed.

Lemma touches_append k d t fs : touches (is_key k) fs (p_append k d t fs).
Proof. unfold p_append. repeat case_match; try done; apply touches_insert. Qed.

Lemma touches_chtimes k t fs : touches (is_key k) fs (p_chtimes k t fs).2.
Proof. unfold p_chtimes. repeat case_match; simpl; try done; apply touches_insert. Qed.

Lemma touches_rename a b fs : touches (fun q => q = a \/ q = b) fs (p_rename a b fs).2.
Proof.
  unfold p_rename. repeat case_match; simpl; try done;
    intros q Hq; rewrite lookup_insert_ne, lookup_delete_ne by naive_solver; done.
Qed.

Lemma touches_remove_all k fs : touches (at_or_below k) fs (p_remove_all k fs).2.
Proof.
  unfold p_remove_all. repeat case_match; simpl; try done.
  all: intros q Hq; rewrite map_lookup_filter; destruct (fs !! q) eqn:E; simpl; [|done];
    rewrite option_guard_True; done.
Qed.

Lemma p_stat_same k fs : (p_stat k fs).2 = fs.
Proof. unfold p_stat. by repeat case_match. Qed.

Lemma p_read_same k fs : (p_read k fs).2 = fs.
Proof. unfold p_read. by repeat case_match. Qed.

(** ** The calls, as [within] lemmas *)

Section Calls.
Context `{E : Env}.

Lemma within_fs_call {A : Type} (R : relation fsmap) `{!PreOrder R} op p (f : nat -> fsmap -> (A + Errno) * fsmap) :
  (forall t fs, R fs (f t fs).2) -> within (on_fs R) (fs_call op p f).
Proof.
  intros H w. unfold fs_call, on_fs. destruct (env_fault (w_tick w)); [done|].
  specialize (H (w_tick w) (w_fs w)). by destruct (f (w_tick w) (w_fs w)) as [[a|n] fs].
Qed.

Lemma within_Stat (R : relation fsmap) `{!PreOrder R} p : within (on_fs R) (os_Stat p).
Proof. apply within_fs_call; [done|]. intros _ fs. by rewrite p_stat_same. Qed.

Lemma within_Open (R : relation fsmap) `{!PreOrder R} p : within (on_fs R) (os_Open p).
Proof. apply within_fs_call; [done|]. intros _ fs. by rewrite p_stat_same. Qed.

Lemma within_file_Stat (R : relation fsmap) `{!PreOrder R} p : within (on_fs R) (file_Stat p).
Proof. by apply within_fs_call. Qed.

Lemma within_read_all (R : relation fsmap) `{!PreOrder R} p : within (on_fs R) (read_all p).
Proof. apply within_fs_call; [done|]. intros _ fs. by rewrite p_read_same. Qed.

Lemma within_ReadFile (R : relation fsmap) `{!PreOrder R} p : within (on_fs R) (os_ReadFile p).
Proof. apply within_bind; [apply _|by apply within_Open|]. intros _. by apply within_read_all. Qed.

Lemma within_write_all (R : relation fsmap) `{!PreOrder R} p d :
  (forall d t fs, R fs (p_append (at_path p) d t fs)) -> within (on_fs R) (write_all p d).
Proof. intros H w. unfold write_all, on_fs. destruct (env_fault (w_tick w)); simpl; apply H. Qed.

(** Well-formedness. *)

Lemma wf_Mkdir p : within (on_fs keeps_wf) (os_Mkdir p).
Proof. apply within_fs_call; [apply _|]. intros _ fs. apply wf_mkdir. Qed.

Lemma wf_OpenFile p m : within (on_fs keeps_wf) (os_OpenFile p m).
Proof. apply within_fs_call; [apply _|]. intros t fs. apply wf_create. Qed.

Lemma wf_Create p : within (on_fs keeps_wf) (os_Create p).
Proof. apply wf_OpenFile. Qed.

Lemma wf_write_all p d : within (on_fs keeps_wf) (write_all p d).
Proof. apply within_write_all; [apply _|]. intros ? t fs. apply wf_append. Qed.

Lemma wf_Rename a b : within (on_fs keeps_wf) (os_Rename a b).
Proof. apply within_fs_call; [apply _|]. intros _ fs. apply wf_rename. Qed.

Lemma wf_RemoveAll p : within (on_fs keeps_wf) (os_RemoveAll p).
Proof.
  unfold os_RemoveAll. case_decide; [by apply within_ret; apply _|].
  apply within_fs_call; [apply _|]. intros _ fs. apply wf_remove_all.
Qed.

Lemma wf_Chtimes p t : within (on_fs keeps_wf) (os_Chtimes p t).
Proof. apply within_fs_call; [apply _|]. intros _ fs. apply wf_chtimes. Qed.

Lemma wf_mkdir_levels p pre rest : within (on_fs keeps_wf) (mkdir_levels p pre rest).
Proof.
  revert pre. induction rest as [|c rest IH]; intros pre; [apply within_ret; apply _|].
  simpl. apply within_bind; [apply _| |intros _; apply IH].
  apply within_fs_call; [apply _|]. intros _ fs.
  repeat case_match; try done. apply wf_mkdir.
Qed.

Lemma wf_MkdirAll p : within (on_fs keeps_wf) (os_MkdirAll p).
Proof. apply wf_mkdir_levels. Qed.

Lemma wf_WriteFile p d m : within (on_fs keeps_wf) (os_WriteFile p d m).
Proof. apply within_bind; [apply _|apply wf_OpenFile|]. intros _. apply wf_write_all. Qed.

(** A computation that creates temporary directories only through [Mkdir]. *)
Lemma within_mkdir_temp (R : relation fsmap) `{!PreOrder R} n dir prefix suffix :
  (forall p, within (on_fs R) (os_Mkdir p)) ->
  within (on_fs R) (mkdir_temp n dir prefix suffix).
Proof.
  intros Hm. induction n as [|n IH]; simpl;
    (apply within_bind; [apply _|by apply within_ask|intros r];
     apply within_bind; [apply _|apply within_try, Hm|intros [_|e]];
     [by apply within_ret; apply _|]; case_match; try done; by apply within_throw; apply _).
Qed.

Lemma wf_MkdirTemp dir pat : within (on_fs keeps_wf) (os_MkdirTemp dir pat).
Proof.
  unfold os_MkdirTemp. case_match. apply within_mkdir_temp; [apply _|]. intros; apply wf_Mkdir.
Qed.

(** [WalkDir] does to the tree what its callback does. *)
Lemma within_WalkDir {S : Type} `{H : HasWorld S} (R : relation fsmap) `{!PreOrder R} root fn :
  (forall p n, within (on_fs (S := S) R) (fn p n)) -> within (on_fs (S := S) R) (WalkDir root fn).
Proof.
  intros Hfn. unfold WalkDir.
  apply within_bind; [apply _|by apply within_try, within_io, within_Stat|].
  intros [n|e]; [|apply Hfn]. apply within_bind; [apply _|by apply within_gets; apply _|].
  intros l. apply within_for_each; [apply _|]. intros [r m].
  apply within_bind; [apply _|apply Hfn|]. intros _.
  destruct m; [|by apply within_ret; apply _]. apply within_bind; [apply _| |].
  - apply within_try, within_io. by apply within_fs_call.
  - intros [_|e]; [by apply within_ret; apply _|apply Hfn].
Qed.

(** What each call touches. *)

Lemma touch_Mkdir p : within (on_fs (touches (is_key (at_path p)))) (os_Mkdir p).
Proof. apply within_fs_call; [apply _|]. intros _ fs. apply touches_mkdir. Qed.

Lemma touch_OpenFile p m : within (on_fs (touches (is_key (at_path p)))) (os_OpenFile p m).
Proof. apply within_fs_call; [apply _|]. intros t fs. apply touches_create. Qed.

Lemma touch_Create p : within (on_fs (touches (is_key (at_path p)))) (os_Create p).
Proof. apply touch_OpenFile. Qed.

Lemma touch_write_all p d : within (on_fs (touches (is_key (at_path p)))) (write_all p d).
Proof. apply within_write_all; [apply _|]. intros ? t fs. apply touches_append. Qed.

Lemma touch_WriteFile p d m : within (on_fs (touches (is_key (at_path p)))) (os_WriteFile p d m).
Proof. apply within_bind; [apply _|apply touch_OpenFile|]. intros _. apply touch_write_all. Qed.

Lemma touch_Chtimes p t : within (on_fs (touches (is_key (at_path p)))) (os_Chtimes p t).
Proof. apply within_fs_call; [apply _|]. intros _ fs. apply touches_chtimes. Qed.

Lemma touch_Rename a b :
  within (on_fs (touches (fun q => q = at_path a \/ q = at_path b))) (os_Rename a b).
Proof. apply within_fs_call; [apply _|]. intros _ fs. apply touches_rename. Qed.

Lemma touch_RemoveAll p : within (on_fs (touches (at_or_below (at_path p)))) (os_RemoveAll p).
Proof.
  unfold os_RemoveAll. case_decide; [by apply within_ret; apply _|].
  apply within_fs_call; [apply _|]. intros _ fs. apply touches_remove_all.
Qed.

Lemma touch_mkdir_levels p pre rest :
  within (on_fs (touches (on_path_to (pre ++ rest)))) (mkdir_levels p pre rest).
Proof.
  revert pre. induction rest as [|c rest IH]; intros pre; [apply within_ret; apply _|].
  simpl. apply within_bind; [apply _| |].
  - apply within_fs_call; [apply _|]. intros _ fs. repeat case_match; try done.
    eapply touches_mono; [|apply touches_mkdir]. intros q <-.
    exists rest. by rewrite <- app_assoc.
  - intros _. specialize (IH (pre ++ [c])). by rewrite <- app_assoc in IH.
Qed.

Lemma touch_MkdirAll p : within (on_fs (touches (on_path_to (at_path p)))) (os_MkdirAll p).
Proof. apply (touch_mkdir_levels p [] (at_path p)). Qed.
End Calls.

#[export] Hint Resolve within_Stat within_file_Stat within_Open within_read_all within_ReadFile
  wf_Mkdir wf_OpenFile wf_Create wf_write_all wf_Rename wf_RemoveAll wf_Chtimes
  wf_MkdirAll wf_WriteFile wf_MkdirTemp : src.

(** ** The effect of a call that returns without error *)

Section Effects.
Context `{E : Env}.

Lemma fs_call_Ret {A : Type} op p (f : nat -> fsmap -> (A + Errno) * fsmap) w a w' :
  fs_call op p f w = (Ret a, w') ->
  f (w_tick w) (w_fs w) = (inl a, w_fs w') /\ w' = set_fs (w_fs w') (tick_world w).
Proof.
  unfold fs_call. destruct (env_fault (w_tick w)); [done|].
  destruct (f (w_tick w) (w_fs w)) as [[b|n] fs]; intros [= <- <-]. done.
Qed.

Lemma Stat_Ret p w n w' :
  os_Stat p w = (Ret n, w') -> w_fs w' = w_fs w /\ lookup_node (w_fs w) (at_path p) = Some n.
Proof.
  intros [H _]%fs_call_Ret. unfold p_stat in H.
  repeat case_match; simplify_eq; auto.
Qed.

Lemma Open_Ret p w n w' :
  os_Open p w = (Ret n, w') -> w_fs w' = w_fs w /\ lookup_node (w_fs w) (at_path p) = Some n.
Proof.
  intros [H _]%fs_call_Ret. unfold p_stat in H.
  repeat case_match; simplify_eq; auto.
Qed.

Lemma read_all_Ret p w d w' :
  read_all p w = (Ret d, w') ->
  w_fs w' = w_fs w /\ exists f, w_fs w !! at_path p = Some (FileNode f) /\ f_data f = d.
Proof.
  intros [H _]%fs_call_Ret. unfold p_read in H.
  destruct (lookup_node (w_fs w) (at_path p)) as [[|f]|] eqn:L; simplify_eq.
  split; [done|]. exists f. split; [|done]. by destruct (at_path p).
Qed.

Lemma ReadFile_Ret p w d w' :
  os_ReadFile p w = (Ret d, w') ->
  w_fs w' = w_fs w /\ exists f, w_fs w !! at_path p = Some (FileNode f) /\ f_data f = d.
Proof.
  intros H. unfold os_ReadFile in H. inv_bind H.
  apply Open_Ret in Hstep as [Hs _]. apply read_all_Ret in H as [H1 H2].
  rewrite Hs in *. auto.
Qed.

Lemma Mkdir_Ret p w w' :
  os_Mkdir p w = (Ret tt, w') ->
  lookup_node (w_fs w) (at_path p) = None /\ check_dirs (w_fs w) [] (at_path p) = None /\
  w_fs w' = <[at_path p := DirNode]> (w_fs w).
Proof.
  intros [H _]%fs_call_Ret. unfold p_mkdir in H. repeat case_match; simplify_eq. auto.
Qed.

Lemma OpenFile_Ret p m w w' :
  os_OpenFile p m w = (Ret tt, w') ->
  check_dirs (w_fs w) [] (at_path p) = None /\ at_path p <> [] /\
  exists mode, w_fs w' = <[at_path p := FileNode (mkFile "" mode (env_clock (w_tick w)))]> (w_fs w).
Proof.
  intros [H _]%fs_call_Ret. unfold p_create in H.
  destruct (check_dirs _ _ _) eqn:Ec; [done|].
  assert (at_path p <> []) by (intros Ep; rewrite Ep in H; done).
  repeat case_match; simplify_eq; eauto.
Qed.

Lemma write_all_Ret p d f w w' :
  write_all p d w = (Ret tt, w') -> w_fs w !! at_path p = Some (FileNode f) ->
  w_fs w' = <[at_path p := FileNode (mkFile (f_data f +:+ d) (f_mode f) (env_clock (w_tick w)))]> (w_fs w).
Proof.
  unfold write_all. destruct (env_fault (w_tick w)); [done|]. intros [= <-] Hf. simpl.
  unfold p_append. by rewrite Hf.
Qed.

(** [os.Create] followed by a copy: the file holds exactly the data. *)
Lemma create_write_Ret p d m w w1 w' :
  os_OpenFile p m w = (Ret tt, w1) -> write_all p d w1 = (Ret tt, w') ->
  exists mode t, w_fs w' = <[at_path p := FileNode (mkFile d mode t)]> (w_fs w).
Proof.
  intros (_ & _ & mode & H1)%OpenFile_Ret H2.
  eapply write_all_Ret in H2; [|rewrite H1; apply lookup_insert_eq]. simpl in H2.
  rewrite H2, H1, insert_insert_eq, append_nil_l. eauto.
Qed.

Lemma WriteFile_Ret p d m w w' :
  os_WriteFile p d m w = (Ret tt, w') ->
  exists mode t, w_fs w' = <[at_path p := FileNode (mkFile d mode t)]> (w_fs w).
Proof. intros H. unfold os_WriteFile in H. inv_bind H. destruct v. by eapply create_write_Ret. Qed.

Lemma Rename_Ret a b w w' :
  os_Rename a b w = (Ret tt, w') ->
  exists f, lookup_node (w_fs w) (at_path a) = Some (FileNode f) /\
    w_fs w' = <[at_path b := FileNode f]> (delete (at_path a) (w_fs w)).
Proof.
  intros [H _]%fs_call_Ret. unfold p_rename in H. repeat case_match; simplify_eq; eauto.
Qed.

Lemma RemoveAll_Ret p w w' :
  os_RemoveAll p w = (Ret tt, w') -> p <> "" -> fs_wf (w_fs w) ->
  forall k, w_fs w' !! k = if decide (at_path p `prefix_of` k) then None else w_fs w !! k.
Proof.
  intros H Hp Hwf k. unfold os_RemoveAll in H. rewrite decide_False in H by done.
  apply fs_call_Ret in H as [H _]. unfold p_remove_all in H.
  destruct (check_dirs (w_fs w) [] (at_path p)) as [e|] eqn:Ec.
  - assert (w_fs w = w_fs w') as <- by (destruct e; congruence).
    case_decide as Hk; [|done]. destruct (w_fs w !! k) as [n|] eqn:Ek; [|done].
    destruct Hk as [r ->]. exfalso.
    assert (check_dirs (w_fs w) [] (at_path p) = None); [|congruence].
    destruct (decide (r = [])) as [->|Hr].
    + rewrite app_nil_r in Ek. eapply check_dirs_wf_node; [done|].
      rewrite lookup_node_ne; [done|]. intros En. rewrite En in Ek. destruct Hwf. congruence.
    + eapply check_dirs_wf_node; [done|]. by eapply fs_wf_prefix.
  - injection H as <-. rewrite map_lookup_filter. case_decide as Hk.
    + destruct (w_fs w !! k) as [n|]; simpl; [|done]. rewrite option_guard_False; [done|].
      simpl. naive_solver.
    + destruct (w_fs w !! k) as [n|]; simpl; [|done]. by rewrite option_guard_True.
Qed.

Lemma Mkdir_Fail p w e w' : os_Mkdir p w = (Fail e, w') -> w_fs w' = w_fs w.
Proof.
  unfold os_Mkdir, fs_call, p_mkdir. intros H. repeat case_match; simplify_eq/=; done.
Qed.

Lemma mkdir_temp_Ret n dir prefix suffix w p w' :
  mkdir_temp n dir prefix suffix w = (Ret p, w') ->
  exists r, p = joinPath dir (prefix +:+ decimal r +:+ suffix) /\
    lookup_node (w_fs w) (at_path p) = None /\ check_dirs (w_fs w) [] (at_path p) = None /\
    w_fs w' = <[at_path p := DirNode]> (w_fs w).
Proof.
  revert w. induction n as [|n IH]; intros w H; simpl in H;
    apply bind_Ret_inv in H as (rnd & w1 & H1 & H); injection H1 as <- <-;
    apply bind_Ret_inv in H as (res & w2 & H2 & H); apply try_inv in H2;
    destruct res as [[]|e].
  - injection H as <- <-. apply Mkdir_Ret in H2 as (? & ? & ?). eauto.
  - by destruct (IsExist e).
  - injection H as <- <-. apply Mkdir_Ret in H2 as (? & ? & ?). eauto.
  - destruct (IsExist e); [|done].
    apply IH in H. by rewrite (Mkdir_Fail _ _ _ _ H2) in H.
Qed.

Lemma mkdir_temp_fails n dir prefix suffix w o w' :
  mkdir_temp n dir prefix suffix w = (o, w') -> (forall p, o <> Ret p) -> w_fs w' = w_fs w.
Proof.
  revert w. induction n as [|n IH]; intros w H Ho; simpl in H;
    unfold mbind, M_bind, ask, try in H; simpl in H;
    destruct (os_Mkdir _ (tick_world w)) as [[[]|e|why] w2] eqn:Em;
    try (by injection H as <- <-; destruct (Ho _ eq_refl));
    try (by unfold os_Mkdir, fs_call in Em; repeat case_match; simplify_eq).
  - apply Mkdir_Fail in Em. by destruct (IsExist e); injection H as _ <-.
  - apply Mkdir_Fail in Em. destruct (IsExist e); [|by injection H as _ <-].
    rewrite (IH _ H Ho). done.
Qed.
End Effects.

(** ** Temporary directories *)

Lemma decimal_no_slash n : byte_in slash (decimal n) = false.
Proof.
  unfold decimal. generalize (Nat.to_uint n). intros d.
  induction d as [|d IH|d IH|d IH|d IH|d IH|d IH|d IH|d IH|d IH|d IH]; simpl; try done;
    by rewrite bool_decide_eq_false_2.
Qed.

Section Temp.
Context `{E : Env}.

Lemma at_path_joinPath dir name :
  dir <> "" -> normal name -> at_path (joinPath dir name) = at_path dir ++ [name].
Proof.
  intros Hd Hn. unfold joinPath. destruct (HasSuffix dir "/") eqn:Es.
  - apply HasSuffix_spec in Es as [d ->]. destruct (decide (d = "")) as [->|Hne].
    + unfold at_path, key. rewrite append_nil_l.
      change ("/" +:+ name) with (String slash name).
      change (Split (String slash name) slash) with ([""] ++ Split name slash).
      rewrite Split_no_sep by apply Hn. change (IsAbs (String slash name)) with true.
      change (IsAbs "/") with true. cbn [app]. change [""; name] with ([""] ++ [name]).
      rewrite norm_app_normal by auto. done.
    + rewrite append_assoc. change ("/" +:+ name) with (String slash name).
      assert (Split name slash = [name]) as Hs by (apply Split_no_sep, Hn).
      unfold at_path. rewrite key_slash by (rewrite ?Hs; auto). rewrite Hs. f_equal.
      change "/" with (String slash ""). unfold key. rewrite IsAbs_append, Split_app by done.
      unfold norm. by rewrite (app_assoc _ (Split d slash)), (norm_from_app true [] (_ ++ _)).
  - assert (Split name slash = [name]) as Hs by (apply Split_no_sep, Hn).
    unfold at_path. rewrite key_slash by (rewrite ?Hs; auto). by rewrite Hs.
Qed.

(** A pattern that ends in its star, after a name: the directory is new. *)
Lemma MkdirTemp_Ret dir base w p w' :
  dir <> "" -> byte_in "*" base = false -> byte_in slash base = false ->
  (2 < String.length base)%nat ->
  os_MkdirTemp dir (base +:+ "*") w = (Ret p, w') ->
  exists name, normal name /\ at_path p = at_path dir ++ [name] /\
    w_fs w !! at_path p = None /\ check_dirs (w_fs w) [] (at_path p) = None /\
    w_fs w' = <[at_path p := DirNode]> (w_fs w).
Proof.
  intros Hd Hstar Hslash Hlen H. unfold os_MkdirTemp, prefixAndSuffix in H.
  change (base +:+ "*") with (base +:+ String "*" "") in H. rewrite Cut_found in H by done.
  apply mkdir_temp_Ret in H as (r & -> & Hnone & Hcd & Hw). rewrite append_nil_r in *.
  assert (normal (base +:+ decimal r)) as Hn.
  { repeat split.
    - intros [-> _]%append_eq_nil. simpl in Hlen. lia.
    - intros E'. apply (f_equal String.length) in E'. rewrite length_append in E'. simpl in E'. lia.
    - intros E'. apply (f_equal String.length) in E'. rewrite length_append in E'. simpl in E'. lia.
    - by rewrite byte_in_append, Hslash, decimal_no_slash. }
  exists (base +:+ decimal r). split; [done|]. split; [by apply at_path_joinPath|].
  split; [|done]. rewrite at_path_joinPath in Hnone |- * by done.
  rewrite lookup_node_ne in Hnone by (by destruct (at_path dir)). done.
Qed.
End Temp.
