(* ===== verification/Sha1.v ===== *)
(** * [crypto/sha1] and its hexadecimal print

    The digest of FIPS 180-4 on byte strings, with 32-bit words as integers
    modulo 2^32.  [sha1_hex] is [fmt.Sprintf("%x", h.Sum(nil))]. *)

From S2P Require Import Prelude.

Definition w32 (x : Z) : Z := x mod 2 ^ 32.

Definition rotl (n x : Z) : Z := Z.lor (w32 (Z.shiftl x n)) (Z.shiftr x (32 - n)).

Fixpoint bytes_of (s : string) : list Z :=
  match s with
  | EmptyString => []
  | String a s' => Z.of_N (N_of_ascii a) :: bytes_of s'
  end.

(** The [n] low bytes of [x], most significant first. *)
Fixpoint be_bytes (n : nat) (x : Z) : list Z :=
  match n with
  | O => []
  | S k => Z.land (Z.shiftr x (8 * Z.of_nat k)) 255 :: be_bytes k x
  end.

(** The message, 0x80, zeros up to 56 modulo 64, and the bit length. *)
Definition pad (m : list Z) : list Z :=
  let len := Z.of_nat (length m) in
  m ++ [128] ++ replicate (Z.to_nat ((55 - len) mod 64)) 0 ++ be_bytes 8 (8 * len).

(** Big-endian 32-bit words. *)
Fixpoint words_of (l : list Z) : list Z :=
  match l with
  | a :: b :: c :: d :: l' => (a * 2 ^ 24 + b * 2 ^ 16 + c * 2 ^ 8 + d) :: words_of l'
  | _ => []
  end.

(** The message schedule, last word first. *)
Fixpoint schedule (n : nat) (w : list Z) : list Z :=
  match n with
  | O => w
  | S k =>
      let x := Z.lxor (Z.lxor (nth 2 w 0) (nth 7 w 0)) (Z.lxor (nth 13 w 0) (nth 15 w 0)) in
      schedule k (rotl 1 x :: w)
  end.

Record digest := mkDigest { h0 : Z; h1 : Z; h2 : Z; h3 : Z; h4 : Z }.

Definition sha1_init : digest :=
  mkDigest 0x67452301 0xEFCDAB89 0x98BADCFE 0x10325476 0xC3D2E1F0.

Definition round (t : nat) (d : digest) (w : Z) : digest :=
  let '(mkDigest a b c d e) := d in
  let '(f, k) :=
    if (t <? 20)%nat then (Z.lor (Z.land b c) (Z.land (Z.lxor b 0xFFFFFFFF) d), 0x5A827999)
    else if (t <? 40)%nat then (Z.lxor (Z.lxor b c) d, 0x6ED9EBA1)
    else if (t <? 60)%nat then
      (Z.lor (Z.lor (Z.land b c) (Z.land b d)) (Z.land c d), 0x8F1BBCDC)
    else (Z.lxor (Z.lxor b c) d, 0xCA62C1D6) in
  mkDigest (w32 (rotl 5 a + f + e + k + w)) a (rotl 30 b) c d.

Fixpoint rounds (t : nat) (ws : list Z) (d : digest) : digest :=
  match ws with
  | [] => d
  | w :: ws' => rounds (S t) ws' (round t d w)
  end.

(** One 16-word block. *)
Definition block (d : digest) (ws : list Z) : digest :=
  let '(mkDigest a b c e f) := d in
  let '(mkDigest a' b' c' e' f') := rounds 0 (rev (schedule 64 (rev ws))) d in
  mkDigest (w32 (a + a')) (w32 (b + b')) (w32 (c + c')) (w32 (e + e')) (w32 (f + f')).

Fixpoint blocks (n : nat) (ws : list Z) (d : digest) : digest :=
  match n with
  | O => d
  | S k => blocks k (drop 16 ws) (block d (take 16 ws))
  end.

Definition sha1 (s : string) : digest :=
  let ws := words_of (pad (bytes_of s)) in
  blocks (length ws / 16)%nat ws sha1_init.

Definition hex_digit (n : Z) : ascii :=
  if n <? 10 then ascii_of_nat (48 + Z.to_nat n) else ascii_of_nat (87 + Z.to_nat n).

(** The [n] low nibbles of [x], most significant first. *)
Fixpoint hex (n : nat) (x : Z) : string :=
  match n with
  | O => ""
  | S k => String (hex_digit (Z.land (Z.shiftr x (4 * Z.of_nat k)) 15)) (hex k x)
  end.

Definition sha1_hex (s : string) : string :=
  let d := sha1 s in
  hex 8 (h0 d) +:+ hex 8 (h1 d) +:+ hex 8 (h2 d) +:+ hex 8 (h3 d) +:+ hex 8 (h4 d).

(** The test vectors of FIPS 180. *)
Example sha1_abc : sha1_hex "abc" = "a9993e364706816aba3e25717850c26c9cd0d89d".
Proof. vm_compute. reflexivity. Qed.
Example sha1_empty : sha1_hex "" = "da39a3ee5e6b4b0d3255bfef95601890afd80709".
Proof. vm_compute. reflexivity. Qed.
Example sha1_two_blocks :
  sha1_hex "abcdbcdecdefdefgefghfghighijhijkijkljklmklmnlmnomnopnopq"
  = "84983e441c3bd26ebaae4aa1f95129e5e54670f1".
Proof. vm_compute. reflexivity. Qed.

(** ** Shape of the printed digest *)

Definition is_hex (a : ascii) : bool :=
  let n := nat_of_ascii a in
  ((48 <=? n) && (n <=? 57) || (97 <=? n) && (n <=? 102))%nat.

Lemma hex_digit_is_hex n : 0 <= n < 16 -> is_hex (hex_digit n) = true.
Proof. apply (below_all (fun n => is_hex (hex_digit n)) 16). reflexivity. Qed.

Lemma length_hex n x : String.length (hex n x) = n.
Proof. induction n as [|n IH]; [done|]. simpl. by rewrite IH. Qed.

Lemma hex_is_hex n x : bytes_all is_hex (hex n x) = true.
Proof.
  induction n as [|n IH]; [done|]. simpl. rewrite IH, andb_true_r. apply hex_digit_is_hex.
  change 15 with (Z.ones 4). rewrite Z.land_ones by lia. by apply Z.mod_pos_bound.
Qed.

Lemma length_sha1_hex s : String.length (sha1_hex s) = 40%nat.
Proof. unfold sha1_hex. by rewrite !length_append, !length_hex. Qed.

Lemma sha1_hex_is_hex s : bytes_all is_hex (sha1_hex s) = true.
Proof. unfold sha1_hex. by rewrite !bytes_all_append, !hex_is_hex. Qed.

(** A byte that is no hexadecimal digit does not occur in a digest. *)
Lemma bytes_all_not_in p s c : bytes_all p s = true -> p c = false -> byte_in c s = false.
Proof.
  intros Hs Hc. induction s as [|a s IH]; [done|]. simpl in *. bool_hyps.
  rewrite IH, orb_false_r by done. apply bool_decide_eq_false_2. intros ->. congruence.
Qed.
