(* ===== verification/Runtime.v ===== *)
(** * The interface of the reconciler framework

    reconciler.io/runtime and the Kubernetes libraries are not part of the
    repository.  What the controllers use of them is stated here as type
    classes: operations, and the laws of their documented behaviour.  Every
    controller is written against the classes; the instances at the end
    satisfy the laws and run the examples. *)

From S2P Require Import Prelude GoErrors Effects.

(** ** Conditions: [apis.ConditionManager] *)

Inductive ConditionStatus := ConditionTrue | ConditionFalse | ConditionUnknown.

#[export] Instance ConditionStatus_eq_dec : EqDecision ConditionStatus.
Proof. solve_decision. Defined.

(** [metav1.Condition]; the message is a format and its arguments. *)
Record Condition := mkCondition {
  c_Type : string;
  c_Status : ConditionStatus;
  c_Reason : string;
  c_Format : string;
  c_Args : list arg
}.

Definition ConditionReady : string := "Ready".

(** [deps] are the dependents of the living condition set. *)
Class ConditionManager (C : Type) := {
  no_conditions : C;
  GetCondition : C -> string -> option Condition;
  MarkTrue : forall (deps : list string) (t reason format : string) (args : list arg), C -> C;
  MarkFalse : forall (deps : list string) (t reason format : string) (args : list arg), C -> C;
  InitializeConditions : list string -> C -> C;
  ConditionIsUnknown : option Condition -> bool
}.

Definition status_of {C} `{ConditionManager C} (c : C) (t : string) : option ConditionStatus :=
  c_Status <$> GetCondition c t.

Class ConditionLaws (C : Type) `{ConditionManager C} := {
  get_no_conditions t : GetCondition no_conditions t = None;
  get_MarkTrue deps t r f a (c : C) :
    t <> ConditionReady ->
    GetCondition (MarkTrue deps t r f a c) t = Some (mkCondition t ConditionTrue r f a);
  get_MarkTrue_ne deps t t' r f a (c : C) :
    t' <> t -> t' <> ConditionReady ->
    GetCondition (MarkTrue deps t r f a c) t' = GetCondition c t';
  get_MarkFalse deps t r f a (c : C) :
    t <> ConditionReady ->
    GetCondition (MarkFalse deps t r f a c) t = Some (mkCondition t ConditionFalse r f a);
  get_MarkFalse_ne deps t t' r f a (c : C) :
    t' <> t -> t' <> ConditionReady ->
    GetCondition (MarkFalse deps t r f a c) t' = GetCondition c t';
  ready_MarkFalse deps t r f a (c : C) :
    t ∈ deps -> t <> ConditionReady ->
    status_of (MarkFalse deps t r f a c) ConditionReady = Some ConditionFalse;
  ready_MarkTrue deps t r f a (c : C) :
    t ∈ deps -> ConditionReady ∉ deps ->
    (forall d, d ∈ deps -> d <> t -> status_of c d = Some ConditionTrue) ->
    status_of (MarkTrue deps t r f a c) ConditionReady = Some ConditionTrue;
  unknown_spec x :
    ConditionIsUnknown x = true <->
      match x with None => True | Some c => c_Status c = ConditionUnknown end
}.

(** ** The stash: values passed between sub-reconcilers through the context *)

Class Stash (Sh V : Type) := {
  empty_stash : Sh;
  StashValue : string -> V -> Sh -> Sh;
  RetrieveValue : Sh -> string -> option V
}.

Class StashLaws (Sh V : Type) `{Stash Sh V} := {
  retrieve_empty k : RetrieveValue empty_stash k = None;
  retrieve_stash k v (s : Sh) : RetrieveValue (StashValue k v s) k = Some v;
  retrieve_stash_ne k k' v (s : Sh) :
    k <> k' -> RetrieveValue (StashValue k v s) k' = RetrieveValue s k'
}.

(** ** Sub-reconcilers *)

(** [controllerruntime.Result] *)
Record Result := mkResult { RequeueAfter : Z }.
Definition zero_result : Result := mkResult 0.

Record SyncReconciler (S : Type) := mkSyncReconciler {
  sr_Name : string;
  sr_Sync : option (M S unit);
  sr_SyncWithResult : option (M S Result);
  sr_Finalize : option (M S unit)
}.
Arguments mkSyncReconciler {S}.
Arguments sr_Name {S}.
Arguments sr_Sync {S}.
Arguments sr_SyncWithResult {S}.
Arguments sr_Finalize {S}.

(** [being_deleted] tells whether the resource has a deletion timestamp. *)
Class Reconcilers := {
  run_sync : forall {S}, (S -> bool) -> SyncReconciler S -> M S Result;
  Sequence : forall {S}, list (M S Result) -> M S Result;
  WithFinalizer : forall {S}, (S -> bool) -> string -> M S Result -> M S Result;
  (* patches of [metadata.finalizers] at the API server *)
  AddFinalizer : forall {S}, string -> M S unit;
  ClearFinalizer : forall {S}, string -> M S unit;
  AggregateResults : Result -> Result -> Result
}.

Class ReconcilerLaws `{Reconcilers} := {
  run_sync_live {S} (del : S -> bool) n f s :
    del s = false ->
    run_sync del {| sr_Name := n; sr_Sync := Some f; sr_SyncWithResult := None; sr_Finalize := None |} s
    = (_ ← f; mret zero_result) s;
  run_sync_live_finalizer {S} (del : S -> bool) n f g s :
    del s = false ->
    run_sync del {| sr_Name := n; sr_Sync := Some f; sr_SyncWithResult := None; sr_Finalize := Some g |} s
    = (_ ← f; mret zero_result) s;
  run_sync_result {S} (del : S -> bool) n f s :
    del s = false ->
    run_sync del {| sr_Name := n; sr_Sync := None; sr_SyncWithResult := Some f; sr_Finalize := None |} s
    = f s;
  run_sync_deleted {S} (del : S -> bool) r s :
    del s = true ->
    run_sync del r s =
      match sr_Finalize r with
      | Some g => (_ ← g; mret zero_result) s
      | None => (Ret zero_result, s)
      end;
  sequence_nil {S} : meq (Sequence (S := S) []) (mret zero_result);
  sequence_cons {S} (r : M S Result) rs :
    meq (Sequence (r :: rs)) (x ← r; y ← Sequence rs; mret (AggregateResults x y));
  with_finalizer_live {S} (del : S -> bool) name (r : M S Result) s :
    del s = false -> WithFinalizer del name r s = (_ ← AddFinalizer name; r) s;
  with_finalizer_deleted {S} (del : S -> bool) name (r : M S Result) s :
    del s = true -> WithFinalizer del name r s = (x ← r; _ ← ClearFinalizer name; mret x) s;
  (* a patch may fail; the finalizers are no part of the states modelled *)
  add_finalizer_quiet {S} name (s : S) : (AddFinalizer name s).2 = s /\ is_panic (AddFinalizer name s).1 = false;
  clear_finalizer_quiet {S} name (s : S) :
    (ClearFinalizer name s).2 = s /\ is_panic (ClearFinalizer name s).1 = false;
  aggregate_zero_l r : AggregateResults zero_result r = r;
  aggregate_zero_r r : AggregateResults r zero_result = r
}.

(** ** Instances *)

(** Conditions as a map from their type. *)
Definition set_condition (c : Condition) (m : gmap string Condition) : gmap string Condition :=
  <[c_Type c := c]> m.

(** The first dependent that is not true decides the ready condition. *)
Fixpoint first_unhappy (deps : list string) (m : gmap string Condition) : option Condition :=
  match deps with
  | [] => None
  | d :: deps' =>
      match m !! d with
      | Some c => if decide (c_Status c = ConditionTrue) then first_unhappy deps' m else Some c
      | None => Some (mkCondition d ConditionUnknown "Initializing" "" [])
      end
  end.

Definition recompute_ready (deps : list string) (m : gmap string Condition) : gmap string Condition :=
  match first_unhappy deps m with
  | Some c => <[ConditionReady := mkCondition ConditionReady (c_Status c) (c_Reason c) (c_Format c) (c_Args c)]> m
  | None => <[ConditionReady := mkCondition ConditionReady ConditionTrue "Ready" "" []]> m
  end.

Definition init_condition (st : ConditionStatus) (m : gmap string Condition) (t : string) : gmap string Condition :=
  match m !! t with
  | Some _ => m
  | None => <[t := mkCondition t st "Initializing" "" []]> m
  end.

(** What is unset becomes unknown, or true when the ready condition is. *)
Definition initialize (deps : list string) (m : gmap string Condition) : gmap string Condition :=
  let st := if decide (c_Status <$> m !! ConditionReady = Some ConditionTrue) then ConditionTrue else ConditionUnknown in
  foldl (init_condition st) (init_condition ConditionUnknown m ConditionReady) deps.

#[export] Instance map_conditions : ConditionManager (gmap string Condition) := {
  no_conditions := ∅;
  GetCondition m t := m !! t;
  MarkTrue deps t r f a m := recompute_ready deps (<[t := mkCondition t ConditionTrue r f a]> m);
  MarkFalse deps t r f a m :=
    let m' := <[t := mkCondition t ConditionFalse r f a]> m in
    if decide (t ∈ deps)
    then <[ConditionReady := mkCondition ConditionReady ConditionFalse r f a]> m'
    else m';
  InitializeConditions := initialize;
  ConditionIsUnknown x :=
    match x with None => true | Some c => bool_decide (c_Status c = ConditionUnknown) end
}.

Lemma recompute_ready_ne deps m t : t <> ConditionReady -> recompute_ready deps m !! t = m !! t.
Proof. intros H. unfold recompute_ready. case_match; by rewrite lookup_insert_ne. Qed.

Lemma first_unhappy_None deps m :
  (forall d, d ∈ deps -> c_Status <$> m !! d = Some ConditionTrue) -> first_unhappy deps m = None.
Proof.
  induction deps as [|d deps IH]; [done|]. intros H. simpl.
  assert (c_Status <$> m !! d = Some ConditionTrue) as Hd by (apply H; left).
  destruct (m !! d) as [c|]; simplify_eq/=. rewrite decide_True by done.
  apply IH. intros d' Hd'. apply H. by right.
Qed.

#[export] Instance map_condition_laws : ConditionLaws (gmap string Condition).
Proof.
  split; unfold status_of; simpl.
  - done.
  - intros. rewrite recompute_ready_ne by done. apply lookup_insert_eq.
  - intros. rewrite recompute_ready_ne by done. by rewrite lookup_insert_ne.
  - intros. case_decide; rewrite ?lookup_insert_ne by done; apply lookup_insert_eq.
  - intros. case_decide; rewrite ?lookup_insert_ne by done; done.
  - intros. rewrite decide_True by done. by rewrite lookup_insert_eq.
  - intros deps t r f a c Ht Hr Hd. unfold recompute_ready.
    rewrite first_unhappy_None; [by rewrite lookup_insert_eq|].
    intros d Hin. rewrite lookup_insert. case_decide; [done|]. by apply Hd.
  - intros [c|]; [|done]. apply bool_decide_eq_true.
Qed.

#[export] Instance map_stash V : Stash (gmap string V) V := {
  empty_stash := ∅;
  StashValue k v s := <[k := v]> s;
  RetrieveValue s k := s !! k
}.

#[export] Instance map_stash_laws V : StashLaws (gmap string V) V.
Proof.
  split; simpl; intros; [done|apply lookup_insert_eq|by apply lookup_insert_ne].
Qed.

(** The sooner of two requeues, zero meaning none. *)
Definition sooner (a b : Result) : Result :=
  if decide (RequeueAfter a = 0) then b
  else if decide (RequeueAfter b = 0) then a
  else mkResult (Z.min (RequeueAfter a) (RequeueAfter b)).

Fixpoint run_sequence {S} (rs : list (M S Result)) : M S Result :=
  match rs with
  | [] => mret zero_result
  | r :: rs' => x ← r; y ← run_sequence rs'; mret (sooner x y)
  end.

#[export] Instance plain_reconcilers : Reconcilers := {
  run_sync S del r := fun s =>
    if del s then
      match sr_Finalize r with Some g => (_ ← g; mret zero_result) s | None => (Ret zero_result, s) end
    else
      match sr_Sync r, sr_SyncWithResult r with
      | Some f, _ => (_ ← f; mret zero_result) s
      | None, Some f => f s
      | None, None => (Ret zero_result, s)
      end;
  Sequence S rs := run_sequence rs;
  WithFinalizer S del name r := fun s =>
    if del s then (x ← r; mret x) s else r s;
  AddFinalizer S name := mret tt;
  ClearFinalizer S name := mret tt;
  AggregateResults := sooner
}.

#[export] Instance plain_reconciler_laws : ReconcilerLaws.
Proof.
  split; simpl; try done.
  - intros S del n f s ->. done.
  - intros S del n f g s ->. done.
  - intros S del n f s ->. done.
  - intros S del r s ->. done.
  - intros S del n r s ->. done.
  - intros S del n r s ->. done.
  - intros [r]. unfold sooner. simpl. by repeat case_decide; subst.
Qed.
