(* ===== verification/ApiTypes.v ===== *)
(** * The custom resources (apis/source/v1alpha1)

    [ImageRepository] and [MavenArtifact] with their specs, statuses and
    condition sets.  Pointers to values that are only read through are
    options; [metav1.Duration] is its nanoseconds; the zero [metav1.Time] is
    [None]; a [LocalObjectReference] is its name.  Of the object metadata the
    controllers read the namespace, the name and the deletion timestamp. *)

From S2P Require Import Prelude GoStrings GoPath GoErrors Runtime.

Definition Group : string := "source.apps.tanzu.vmware.com".
Definition GroupVersion_Version : string := "v1alpha1".

Record ObjectMeta := mkObjectMeta {
  Namespace : string;
  Name : string;
  DeletionTimestamp : option Z
}.

(** ** Artifact *)

Record Artifact := mkArtifact {
  Artifact_Path : string;
  Artifact_URL : string;
  Artifact_Revision : string;
  Artifact_Checksum : string;
  Artifact_LastUpdateTime : option Z
}.

#[export] Instance Artifact_eq_dec : EqDecision Artifact.
Proof. solve_decision. Defined.

(** A nil receiver has no revision. *)
Definition HasRevision (a : option Artifact) (revision : string) : bool :=
  match a with
  | None => false
  | Some a => bool_decide (Artifact_Revision a = revision)
  end.

Definition ArtifactDir (kind namespace name : string) : string :=
  Join [ToLower kind; namespace; name].

Definition ArtifactPath (kind namespace name filename : string) : string :=
  Join [ArtifactDir kind namespace name; filename].

(** ** ImageRepository *)

Record ImageRepositorySpec := mkImageRepositorySpec {
  Image : string;
  ir_Interval : Z;
  ImagePullSecrets : list string;
  ServiceAccountName : string
}.

Record ImageRepositoryStatus (C : Type) := mkImageRepositoryStatus {
  ir_Conditions : C;
  ir_ObservedGeneration : Z;
  ir_URL : string;
  ir_Artifact : option Artifact
}.
Arguments mkImageRepositoryStatus {C}.
Arguments ir_Conditions {C}.
Arguments ir_ObservedGeneration {C}.
Arguments ir_URL {C}.
Arguments ir_Artifact {C}.

Record ImageRepository (C : Type) := mkImageRepository {
  ir_Meta : ObjectMeta;
  ir_Spec : ImageRepositorySpec;
  ir_Status : ImageRepositoryStatus C
}.
Arguments mkImageRepository {C}.
Arguments ir_Meta {C}.
Arguments ir_Spec {C}.
Arguments ir_Status {C}.

(** ** MavenArtifact *)

Record Repository := mkRepository {
  Repository_URL : string;
  SecretRef : string
}.

Record MavenArtifactType := mkMavenArtifactType {
  GroupId : string;
  Version : string;
  ArtifactId : string;
  Type_ : string;
  Classifier : string
}.

Record MavenArtifactSpec := mkMavenArtifactSpec {
  ma_Artifact : MavenArtifactType;
  ma_Repository : Repository;
  Interval : Z;
  Timeout : option Z
}.

Record MavenArtifactStatus (C : Type) := mkMavenArtifactStatus {
  Conditions : C;
  ObservedGeneration : Z;
  Status_URL : string;
  Status_Artifact : option Artifact
}.
Arguments mkMavenArtifactStatus {C}.
Arguments Conditions {C}.
Arguments ObservedGeneration {C}.
Arguments Status_URL {C}.
Arguments Status_Artifact {C}.

Record MavenArtifact (C : Type) := mkMavenArtifact {
  Meta : ObjectMeta;
  Spec : MavenArtifactSpec;
  Status : MavenArtifactStatus C
}.
Arguments mkMavenArtifact {C}.
Arguments Meta {C}.
Arguments Spec {C}.
Arguments Status {C}.

#[export] Instance MavenArtifactType_eq_dec : EqDecision MavenArtifactType.
Proof. solve_decision. Defined.

(** ** Condition sets and lifecycle *)

Definition ImageRepositoryConditionReady : string := ConditionReady.
Definition ImageRepositoryConditionImageResolved : string := "ImageResolved".
Definition ImageRepositoryConditionArtifactAvailable : string := "ArtifactAvailable".

Definition imagerepositoryCondSet : list string :=
  [ImageRepositoryConditionImageResolved; ImageRepositoryConditionArtifactAvailable].

Definition MavenArtifactConditionReady : string := ConditionReady.
Definition MavenArtifactConditionArtifactResolved : string := "ArtifactVersionResolved".
Definition MavenArtifactConditionArtifactAvailable : string := "ArtifactAvailable".

Definition MavenArtifactCondSet : list string :=
  [MavenArtifactConditionArtifactResolved; MavenArtifactConditionArtifactAvailable].

Section Lifecycle.
Context {C : Type} `{CM : ConditionManager C}.

Definition ir_set_Conditions (c : C) (p : ImageRepository C) : ImageRepository C :=
  let s := ir_Status p in
  mkImageRepository (ir_Meta p) (ir_Spec p)
    (mkImageRepositoryStatus c (ir_ObservedGeneration s) (ir_URL s) (ir_Artifact s)).

Definition set_Conditions (c : C) (p : MavenArtifact C) : MavenArtifact C :=
  let s := Status p in
  mkMavenArtifact (Meta p) (Spec p)
    (mkMavenArtifactStatus c (ObservedGeneration s) (Status_URL s) (Status_Artifact s)).

(** [parent.ManageConditions().MarkTrue(...)] and [MarkFalse] *)
Definition ir_MarkTrue (t reason format : string) (args : list arg) (p : ImageRepository C) :=
  ir_set_Conditions
    (MarkTrue imagerepositoryCondSet t reason format args (ir_Conditions (ir_Status p))) p.

Definition ir_MarkFalse (t reason format : string) (args : list arg) (p : ImageRepository C) :=
  ir_set_Conditions
    (MarkFalse imagerepositoryCondSet t reason format args (ir_Conditions (ir_Status p))) p.

Definition ma_MarkTrue (t reason format : string) (args : list arg) (p : MavenArtifact C) :=
  set_Conditions (MarkTrue MavenArtifactCondSet t reason format args (Conditions (Status p))) p.

Definition ma_MarkFalse (t reason format : string) (args : list arg) (p : MavenArtifact C) :=
  set_Conditions (MarkFalse MavenArtifactCondSet t reason format args (Conditions (Status p))) p.

(** [ImageRepositoryStatus.InitializeConditions] starts from no conditions. *)
Definition ir_InitializeConditions (s : ImageRepositoryStatus C) : ImageRepositoryStatus C :=
  mkImageRepositoryStatus (InitializeConditions imagerepositoryCondSet no_conditions)
    (ir_ObservedGeneration s) (ir_URL s) (ir_Artifact s).

(** [MavenArtifactStatus.InitializeConditions] keeps what is there. *)
Definition ma_InitializeConditions (s : MavenArtifactStatus C) : MavenArtifactStatus C :=
  mkMavenArtifactStatus (InitializeConditions MavenArtifactCondSet (Conditions s))
    (ObservedGeneration s) (Status_URL s) (Status_Artifact s).

(** The status of a condition of the resource. *)
Definition ir_status (p : ImageRepository C) (t : string) : option ConditionStatus :=
  status_of (ir_Conditions (ir_Status p)) t.
Definition ma_status (p : MavenArtifact C) (t : string) : option ConditionStatus :=
  status_of (Conditions (Status p)) t.
End Lifecycle.

(** ** Facts *)

Section Facts.
Context {C : Type} `{CM : ConditionManager C, CL : !ConditionLaws C}.

Lemma ma_status_MarkTrue t r f a p :
  t <> ConditionReady -> ma_status (ma_MarkTrue t r f a p) t = Some ConditionTrue.
Proof. intros H. unfold ma_status, status_of. simpl. by rewrite get_MarkTrue. Qed.

Lemma ma_status_MarkFalse t r f a p :
  t <> ConditionReady -> ma_status (ma_MarkFalse t r f a p) t = Some ConditionFalse.
Proof. intros H. unfold ma_status, status_of. simpl. by rewrite get_MarkFalse. Qed.

Lemma ma_status_MarkTrue_ne t t' r f a p :
  t' <> t -> t' <> ConditionReady -> ma_status (ma_MarkTrue t r f a p) t' = ma_status p t'.
Proof. intros H1 H2. unfold ma_status, status_of. simpl. by rewrite get_MarkTrue_ne. Qed.

Lemma ma_status_MarkFalse_ne t t' r f a p :
  t' <> t -> t' <> ConditionReady -> ma_status (ma_MarkFalse t r f a p) t' = ma_status p t'.
Proof. intros H1 H2. unfold ma_status, status_of. simpl. by rewrite get_MarkFalse_ne. Qed.

Lemma ir_status_MarkTrue t r f a p :
  t <> ConditionReady -> ir_status (ir_MarkTrue t r f a p) t = Some ConditionTrue.
Proof. intros H. unfold ir_status, status_of. simpl. by rewrite get_MarkTrue. Qed.

Lemma ir_status_MarkFalse t r f a p :
  t <> ConditionReady -> ir_status (ir_MarkFalse t r f a p) t = Some ConditionFalse.
Proof. intros H. unfold ir_status, status_of. simpl. by rewrite get_MarkFalse. Qed.

Lemma ir_status_MarkTrue_ne t t' r f a p :
  t' <> t -> t' <> ConditionReady -> ir_status (ir_MarkTrue t r f a p) t' = ir_status p t'.
Proof. intros H1 H2. unfold ir_status, status_of. simpl. by rewrite get_MarkTrue_ne. Qed.

(** With both dependents true the resource is ready. *)
Lemma ma_ready t t' r f a p :
  MavenArtifactCondSet = [t; t'] \/ MavenArtifactCondSet = [t'; t] ->
  ma_status p t' = Some ConditionTrue ->
  ma_status (ma_MarkTrue t r f a p) ConditionReady = Some ConditionTrue.
Proof.
  intros Hset Ht'. apply ready_MarkTrue.
  - destruct Hset as [-> | ->]; set_solver.
  - unfold MavenArtifactCondSet. by rewrite !not_elem_of_cons; auto using not_elem_of_nil.
  - intros d Hd Hne. destruct Hset as [Hset|Hset]; rewrite Hset in Hd;
      apply elem_of_cons in Hd as [->|Hd]; try done;
      apply list_elem_of_singleton in Hd as ->; done.
Qed.

Lemma ir_ready t t' r f a p :
  imagerepositoryCondSet = [t; t'] \/ imagerepositoryCondSet = [t'; t] ->
  ir_status p t' = Some ConditionTrue ->
  ir_status (ir_MarkTrue t r f a p) ConditionReady = Some ConditionTrue.
Proof.
  intros Hset Ht'. apply ready_MarkTrue.
  - destruct Hset as [-> | ->]; set_solver.
  - unfold imagerepositoryCondSet. by rewrite !not_elem_of_cons; auto using not_elem_of_nil.
  - intros d Hd Hne. destruct Hset as [Hset|Hset]; rewrite Hset in Hd;
      apply elem_of_cons in Hd as [->|Hd]; try done;
      apply list_elem_of_singleton in Hd as ->; done.
Qed.
End Facts.
