(* ===== verification/ApiWebhook.v ===== *)
(** * Admission: defaulting and validation of MavenArtifact

    apis/source/v1alpha1/mavenartifact_defaults.go and
    mavenartifact_validation.go. *)

From S2P Require Import Prelude GoStrings GoPath GoErrors Effects World Runtime ApiTypes.

(** ** Field errors (k8s.io/apimachinery) *)

(** [field.Path]: the names from the root. *)
Abbreviation fieldPath := (list string).

Definition NewPath (name : string) : fieldPath := [name].
Definition Child (p : fieldPath) (names : list string) : fieldPath := p ++ names.

Inductive badValue :=
| VString (s : string)
| VDuration (d : Z)
| VDurationPtr (d : Z).

(** A detail is a format with its arguments. *)
Inductive fieldError :=
| Required (path : fieldPath) (detail : string)
| Invalid (path : fieldPath) (value : badValue) (detail : string) (args : list arg).

Abbreviation ErrorList := (list fieldError).

Class Apimachinery := {
  NameIsDNSLabel : string -> bool -> list string;
  ToAggregate : ErrorList -> option error;
  ToAggregate_nil l : ToAggregate l = None <-> l = []
}.

(** ** Defaulting *)

Definition MavenArtifactType_Default (s : MavenArtifactType) : MavenArtifactType :=
  if decide (Type_ s = "")
  then mkMavenArtifactType (GroupId s) (Version s) (ArtifactId s) "jar" (Classifier s)
  else s.

(** Nothing to default. *)
Definition Repository_Default (s : Repository) : Repository := s.

Definition MavenArtifactSpec_Default (s : MavenArtifactSpec) : MavenArtifactSpec :=
  mkMavenArtifactSpec (MavenArtifactType_Default (ma_Artifact s))
    (Repository_Default (ma_Repository s)) (Interval s)
    (match Timeout s with None => Some (Interval s) | Some t => Some t end).

(** [MavenArtifactDefaulter.Default]; its error is always nil. *)
Definition MavenArtifactDefaulter_Default {C} (obj : MavenArtifact C) : MavenArtifact C * option error :=
  (mkMavenArtifact (Meta obj) (MavenArtifactSpec_Default (Spec obj)) (Status obj), None).

(** ** Validation *)

Definition containsPathTraversal (value : string) : bool :=
  bool_decide (value = "..") || ContainsAny value "/\".

Definition traversal_detail : string := "must not contain path separators or " +:+ dq "..".

Section Validation.
Context `{E : Env} `{A : Apimachinery}.

(** [if cond { errs = append(errs, e) }] *)
Definition err_if (cond : bool) (e : fieldError) : ErrorList := if cond then [e] else [].

Definition MavenArtifactType_validate (s : MavenArtifactType) (fldPath : fieldPath) : ErrorList :=
  (if decide (GroupId s = "") then [Required (Child fldPath ["groupId"]) ""]
   else err_if (containsPathTraversal (GroupId s))
          (Invalid (Child fldPath ["groupId"]) (VString (GroupId s)) traversal_detail [])) ++
  (if decide (ArtifactId s = "") then [Required (Child fldPath ["artifactId"]) ""]
   else err_if (containsPathTraversal (ArtifactId s))
          (Invalid (Child fldPath ["artifactId"]) (VString (ArtifactId s)) traversal_detail [])) ++
  (if decide (Version s = "") then [Required (Child fldPath ["version"]) ""]
   else if HasPrefix (Version s) "[" || HasPrefix (Version s) "("
   then [Invalid (Child fldPath ["version"]) (VString (Version s)) "" []]
   else err_if (containsPathTraversal (Version s))
          (Invalid (Child fldPath ["version"]) (VString (Version s)) traversal_detail [])) ++
  err_if (negb (bool_decide (Type_ s = "")) && containsPathTraversal (Type_ s))
    (Invalid (Child fldPath ["type"]) (VString (Type_ s)) traversal_detail []) ++
  err_if (negb (bool_decide (Classifier s = "")) && containsPathTraversal (Classifier s))
    (Invalid (Child fldPath ["classifier"]) (VString (Classifier s)) traversal_detail []).

Definition scheme_detail : string :=
  "Scheme " +:+ dq "https" +:+ " is required; scheme %q is not allowed in repository URL %q".

Definition Repository_validate (s : Repository) (fldPath : fieldPath) : ErrorList :=
  (if decide (Repository_URL s = "") then [Required (Child fldPath ["url"]) ""]
   else match url_Parse (Repository_URL s) with
        | inr _ => [Invalid (Child fldPath ["url"]) (VString (Repository_URL s)) "" []]
        | inl u =>
            err_if (negb (bool_decide (Scheme u = "https")))
              (Invalid (Child fldPath ["url"]) (VString (Repository_URL s)) scheme_detail
                 [AStr (Scheme u); AStr (Repository_URL s)])
        end) ++
  (if decide (SecretRef s = "") then []
   else err_if (negb (bool_decide (length (NameIsDNSLabel (SecretRef s) false) = 0%nat)))
          (Invalid (Child fldPath ["secretRef"; "name"]) (VString (SecretRef s)) "" [])).

Definition MavenArtifactSpec_validate (s : MavenArtifactSpec) (fldPath : fieldPath) : ErrorList :=
  MavenArtifactType_validate (ma_Artifact s) (Child fldPath ["artifact"]) ++
  Repository_validate (ma_Repository s) (Child fldPath ["repository"]) ++
  err_if (Interval s <=? 0) (Invalid (Child fldPath ["interval"]) (VDuration (Interval s)) "" []) ++
  match Timeout s with
  | Some t => err_if (t <=? 0) (Invalid (Child fldPath ["timeout"]) (VDurationPtr t) "" [])
  | None => []
  end.

Definition MavenArtifact_validate {C} (c : MavenArtifact C) : ErrorList :=
  MavenArtifactSpec_validate (Spec c) (NewPath "spec").

(** The validating webhook: no warnings, and the aggregated errors. *)
Definition ValidateCreate {C} (obj : MavenArtifact C) : list string * option error :=
  ([], ToAggregate (MavenArtifact_validate obj)).

Definition ValidateUpdate {C} (old obj : MavenArtifact C) : list string * option error :=
  ([], ToAggregate (MavenArtifact_validate obj)).

Definition ValidateDelete {C} (obj : MavenArtifact C) : list string * option error := ([], None).

(** Admission of a created object: the mutating webhook, then the
    validating one on its result. *)
Definition admitted {C} (obj : MavenArtifact C) : option (MavenArtifact C) :=
  let '(obj', derr) := MavenArtifactDefaulter_Default obj in
  match derr, (ValidateCreate obj').2 with
  | None, None => Some obj'
  | _, _ => None
  end.
End Validation.

(** ** What validation accepts *)

(** A coordinate that stays in its path segment. *)
Definition segment (s : string) : Prop :=
  s <> ".." /\ byte_in "/" s = false /\ byte_in "\" s = false.

Definition valid_coordinates (a : MavenArtifactType) : Prop :=
  GroupId a <> "" /\ segment (GroupId a) /\
  ArtifactId a <> "" /\ segment (ArtifactId a) /\
  Version a <> "" /\ segment (Version a) /\
  HasPrefix (Version a) "[" = false /\ HasPrefix (Version a) "(" = false /\
  segment (Type_ a) /\ segment (Classifier a).

Section Accepts.
Context `{E : Env} `{A : Apimachinery}.

Definition valid_repository (r : Repository) : Prop :=
  (exists u, url_Parse (Repository_URL r) = inl u /\ Scheme u = "https") /\
  Repository_URL r <> "" /\
  (SecretRef r = "" \/ NameIsDNSLabel (SecretRef r) false = []).

Definition valid_spec (s : MavenArtifactSpec) : Prop :=
  valid_coordinates (ma_Artifact s) /\ valid_repository (ma_Repository s) /\
  0 < Interval s /\ (forall t, Timeout s = Some t -> 0 < t).

Lemma containsPathTraversal_false s : containsPathTraversal s = false <-> segment s.
Proof.
  unfold containsPathTraversal, segment. rewrite orb_false_iff, bool_decide_eq_false.
  assert (ContainsAny s "/\" = false <-> byte_in "/" s = false /\ byte_in "\" s = false) as ->;
    [|done].
  induction s as [|a s IH]; [done|]. simpl.
  rewrite !orb_false_r, !orb_false_iff, IH, !bool_decide_eq_false. naive_solver.
Qed.

Lemma err_if_nil c e : err_if c e = [] <-> c = false.
Proof. by destruct c. Qed.

Lemma optional_coordinate s :
  negb (bool_decide (s = "")) && containsPathTraversal s = false <-> segment s.
Proof.
  rewrite <- containsPathTraversal_false.
  destruct (decide (s = "")) as [->|H]; [done|]. by rewrite bool_decide_eq_false_2.
Qed.

Lemma MavenArtifactType_validate_nil a p :
  MavenArtifactType_validate a p = [] <-> valid_coordinates a.
Proof.
  unfold MavenArtifactType_validate, valid_coordinates.
  rewrite !app_nil, !err_if_nil, !optional_coordinate.
  repeat case_decide;
    rewrite ?err_if_nil, ?containsPathTraversal_false; try naive_solver.
  destruct (HasPrefix (Version a) "[") eqn:E1, (HasPrefix (Version a) "(") eqn:E2; simpl;
    rewrite ?err_if_nil, ?containsPathTraversal_false; naive_solver.
Qed.

Lemma Repository_validate_nil r p : Repository_validate r p = [] <-> valid_repository r.
Proof.
  unfold Repository_validate, valid_repository. rewrite app_nil.
  assert ((if decide (SecretRef r = "") then []
           else err_if (negb (bool_decide (length (NameIsDNSLabel (SecretRef r) false) = 0%nat)))
                  (Invalid (Child p ["secretRef"; "name"]) (VString (SecretRef r)) "" [])) = []
          <-> (SecretRef r = "" \/ NameIsDNSLabel (SecretRef r) false = [])) as ->.
  { case_decide; [naive_solver|]. rewrite err_if_nil, negb_false_iff, bool_decide_eq_true.
    rewrite length_zero_iff_nil. naive_solver. }
  case_decide; [naive_solver|].
  destruct (url_Parse (Repository_URL r)) as [u|e]; [|naive_solver].
  rewrite err_if_nil, negb_false_iff, bool_decide_eq_true. naive_solver.
Qed.

Lemma MavenArtifactSpec_validate_nil s p :
  MavenArtifactSpec_validate s p = [] <-> valid_spec s.
Proof.
  unfold MavenArtifactSpec_validate, valid_spec.
  rewrite !app_nil, MavenArtifactType_validate_nil, Repository_validate_nil, err_if_nil, Z.leb_gt.
  destruct (Timeout s) as [t|].
  - rewrite err_if_nil, Z.leb_gt. naive_solver.
  - naive_solver.
Qed.
End Accepts.
