(* ===== verification/MavenMetadata.v ===== *)
(** * Maven metadata (pkg/mavenmetadata/mavenmetadata.go)

    The unmarshaled [maven-metadata.xml] and what is read off it.  The XML
    decoder and encoder are parameters. *)

From S2P Require Import Prelude GoStrings GoErrors.

(** ** Data *)

Record SnapshotVersion := mkSnapshotVersion {
  Extension : string;
  Value : string;
  Updated : string
}.

Record SnapshotElement := mkSnapshotElement {
  Timestamp : string;
  BuildNumber : string
}.

Record SnapshotVersions := mkSnapshotVersions { snapshotVersion : list SnapshotVersion }.

Record Versions := mkVersions { versions_Version : list string }.

Record Versioning := mkVersioning {
  Latest : string;
  Release : string;
  versioning_Versions : Versions;
  LastUpdated : string;
  versioning_SnapshotVersions : SnapshotVersions;
  Snapshot : SnapshotElement
}.

Record MavenMetadata := mkMavenMetadata {
  GroupID : string;
  ArtifactID : string;
  metadata_Version : string;
  metadata_Versioning : Versioning
}.

Inductive VersionType :=
| VersionType_Latest | VersionType_Release | VersionType_Snapshot
| VersionType_Version | VersionType_Range | VersionType_Unknown.

Definition VersionType_string (t : VersionType) : string :=
  match t with
  | VersionType_Latest => "LATEST"
  | VersionType_Release => "RELEASE"
  | VersionType_Snapshot => "SNAPSHOT"
  | VersionType_Version => "VERSION"
  | VersionType_Range => "RANGE"
  | VersionType_Unknown => "UNKNOWN"
  end.

(** [encoding/xml] at the type [MavenMetadata]. *)
Class Xml := {
  xml_Unmarshal : string -> MavenMetadata + error;
  xml_MarshalIndent : MavenMetadata -> string -> string -> string + error
}.

(** ** Operations *)

Definition ReleaseVersion (m : MavenMetadata) : string + error :=
  let r := Release (metadata_Versioning m) in
  if decide (r = "")
  then inr (fmt_Errorf "artifact metadata does not have a RELEASE version" [])
  else inl r.

Definition LatestVersion (m : MavenMetadata) : string + error :=
  let l := Latest (metadata_Versioning m) in
  if decide (l = "")
  then inr (fmt_Errorf "artifact metadata does not have a LATEST version" [])
  else inl l.

(** The value the snapshot's time and build number call for. *)
Definition tempvalue (m : MavenMetadata) : string :=
  Sprintf "%s-%s-%s"
    [Replace (metadata_Version m) "-SNAPSHOT" "" 1;
     Timestamp (Snapshot (metadata_Versioning m));
     BuildNumber (Snapshot (metadata_Versioning m))].

(** One iteration of the loop: [sv] points to the last match so far. *)
Definition match_snapshot (m : MavenMetadata) (filetype : string)
    (sv : option SnapshotVersion) (v : SnapshotVersion) : option SnapshotVersion :=
  if bool_decide (Extension v = filetype) && bool_decide (Value v = tempvalue m)
  then Some v else sv.

Definition SnapshotResolvedVersion (m : MavenMetadata) (filetype : string) : string :=
  let response := metadata_Version m in
  let sv := foldl (match_snapshot m filetype) None
              (snapshotVersion (versioning_SnapshotVersions (metadata_Versioning m))) in
  match sv with
  | Some v => Value v
  | None => response
  end.

(** A nil input is [None]. *)
Definition Parse `{X : Xml} (input : option string) : MavenMetadata + error :=
  match input with
  | None => inr (errors_New "nil input")
  | Some data =>
      match xml_Unmarshal data with
      | inr err => inr err
      | inl metadata => inl metadata
      end
  end.

(** ** Facts *)

(** [v] is an entry for the file type that carries the snapshot's value. *)
Definition resolves (m : MavenMetadata) (filetype : string) (v : SnapshotVersion) : Prop :=
  Extension v = filetype /\ Value v = tempvalue m.

#[export] Instance resolves_dec m filetype v : Decision (resolves m filetype v).
Proof. unfold resolves. apply _. Defined.

Lemma match_snapshot_resolves m ft l acc :
  (forall v, acc = Some v -> resolves m ft v) ->
  match foldl (match_snapshot m ft) acc l with
  | Some v => resolves m ft v
  | None => acc = None /\ Forall (fun v => ~ resolves m ft v) l
  end.
Proof.
  revert acc. induction l as [|v l IH]; intros acc Hacc; simpl.
  - destruct acc; auto.
  - unfold match_snapshot at 2. unfold resolves in *.
    destruct (bool_decide (Extension v = ft) && bool_decide (Value v = tempvalue m)) eqn:E.
    + bool_hyps. specialize (IH (Some v)). case_match.
      * apply IH. naive_solver.
      * destruct IH; [naive_solver|done].
    + specialize (IH acc Hacc). case_match; [done|]. destruct IH as [-> IH].
      split; [done|]. constructor; [|done]. intros [H1 H2].
      by rewrite !bool_decide_eq_true_2 in E.
Qed.

(** The resolved version is the timestamped one exactly when the metadata
    lists it for the file type. *)
Lemma SnapshotResolvedVersion_cases m ft :
  SnapshotResolvedVersion m ft =
  if decide (Exists (resolves m ft)
               (snapshotVersion (versioning_SnapshotVersions (metadata_Versioning m))))
  then tempvalue m else metadata_Version m.
Proof.
  unfold SnapshotResolvedVersion.
  set (l := snapshotVersion _).
  pose proof (match_snapshot_resolves m ft l None) as H.
  destruct (foldl _ None l) as [v|] eqn:E.
  - destruct H as [He Hv]; [done|]. case_decide as D; [done|]. exfalso.
    apply D. clear D. assert (v ∈ l) as Hin; [|by apply Exists_exists; exists v].
    assert (forall acc, foldl (match_snapshot m ft) acc l = Some v -> acc = Some v \/ v ∈ l) as HH.
    { clear. induction l as [|x l IH]; simpl; intros acc H; [by left|].
      destruct (IH _ H) as [Hx|Hx]; [|right; set_solver].
      unfold match_snapshot in Hx. destruct (_ && _); [right; set_solver|by left]. }
    by destruct (HH None E).
  - destruct H as [_ H]; [done|]. rewrite decide_False; [done|].
    by apply Forall_not_Exists.
Qed.

(** ** The version without its marker *)

Definition snapshot_suffix : string := "-SNAPSHOT".

(** [base] is [v] less the first [-SNAPSHOT] in it, if there is one. *)
Definition unmarked (v base : string) : Prop :=
  (exists pre post, v = pre +:+ snapshot_suffix +:+ post /\ base = pre +:+ post /\
     forall l r, v = l +:+ snapshot_suffix +:+ r -> (String.length pre <= String.length l)%nat) \/
  (base = v /\ forall l r, v <> l +:+ snapshot_suffix +:+ r).

(** What a byte in front of [s] does, when no marker starts with it. *)
Lemma unmarked_cons a s base :
  HasPrefix (String a s) snapshot_suffix = false -> unmarked s base -> unmarked (String a s) (String a base).
Proof.
  intros Hp H.
  assert (forall l r, String a s = l +:+ snapshot_suffix +:+ r ->
            exists l', l = String a l' /\ s = l' +:+ snapshot_suffix +:+ r) as Hl.
  { intros [|b l] r E.
    - rewrite append_nil_l in E. assert (HasPrefix (String a s) snapshot_suffix = true); [|congruence].
      apply HasPrefix_spec. by exists r.
    - rewrite append_cons in E. injection E as <- E. by exists l. }
  destruct H as [(pre & post & -> & -> & Hf)|[-> Hn]].
  - left. exists (String a pre), post. rewrite !append_cons. split_and!; [done..|].
    intros l r E. destruct (Hl _ _ E) as (l' & -> & E'). specialize (Hf _ _ E'). simpl. lia.
  - right. split; [done|]. intros l r E. destruct (Hl _ _ E) as (l' & _ & E'). by apply (Hn l' r).
Qed.

Lemma unmarked_Replace v : unmarked v (Replace v snapshot_suffix "" 1).
Proof.
  unfold Replace. induction v as [|a v IH].
  - right. split; [done|]. intros [] r; discriminate.
  - destruct (HasPrefix (String a v) snapshot_suffix) eqn:Hp.
    + apply HasPrefix_spec in Hp as Hr. destruct Hr as [r Hr]. left. exists "", r.
      rewrite !append_nil_l. split_and!; [done| |simpl; lia].
      rewrite Hr. change (snapshot_suffix +:+ r) with (String "-" ("SNAPSHOT" +:+ r)).
      cbn. apply replace_from_done.
    + cbn [replace_from]. change (1 =? 0) with false. cbv iota. rewrite Hp. by apply unmarked_cons.
Qed.
