(* ===== verification/Http.v ===== *)
(** * The HTTP client

    [http.Client.Do] with its redirect loop, the redirect policy the
    MavenArtifact controller installs (controllers/mavenartifact_controller.go),
    and what a client with that policy sends. *)

From S2P Require Import Prelude GoStrings GoPath GoErrors Effects World.

(** [http.Response], its body still to be read. *)
Record HttpResponse := mkHttpResponse {
  StatusCode : Z;
  Body : string;
  Body_err : option error
}.

(** [http.Client]; a policy may refuse a redirect, or panic. *)
Record HttpClient := mkHttpClient {
  cl_Transport : Transport;
  CheckRedirect : Request -> list Request -> outcome unit
}.

Definition of_outcome {S A : Type} (r : outcome A) : M S A := fun s => (r, s).

Lemma within_of_outcome {S A : Type} (R : relation S) `{!PreOrder R} (r : outcome A) :
  within R (of_outcome r).
Proof. intros s. simpl. done. Qed.
#[export] Hint Resolve within_of_outcome : src.

(** net/http's [redirectBehavior] for a request without a body. *)
Definition redirectBehavior (method : string) (code : Z) : string * bool :=
  if bool_decide (code ∈ [301; 302; 303])
  then (if decide (method <> "GET" /\ method <> "HEAD") then "GET" else method, true)
  else if bool_decide (code ∈ [307; 308]) then (method, true)
  else (method, false).

(** The operation of a [url.Error]: the method in title case. *)
Definition urlErrorOp (method : string) : string :=
  match method with
  | EmptyString => "Get"
  | String a m => String a (ToLower m)
  end.

(** [removeEmptyPort] *)
Fixpoint trim_colon (host : string) : string :=
  match host with
  | EmptyString => ""
  | String a h => if decide (a = ":"%char /\ h = "") then "" else String a (trim_colon h)
  end.

Section Client.
Context `{E : Env}.

Definition NewRequestWithContext (timeout : option Z) (method url : string) : Request + error :=
  match url_Parse url with
  | inr err => inr err
  | inl u => inl (mkRequest method (mkURL (Scheme u) (trim_colon (Host u)) (Rest u)) None timeout)
  end.

Definition SetBasicAuth (r : Request) (username password : string) : Request :=
  mkRequest (rq_Method r) (rq_URL r) (Some (username, password)) (rq_Timeout r).

(** One request on the wire. *)
Definition send (t : Transport) (r : Request) : IO exchange := fun w =>
  (Ret (env_roundtrip (w_tick w) t r),
   mkWorld (w_fs w) (S (w_tick w)) (w_sent w ++ [(t, r)]) (w_tracked w)).

(** The request of the next hop.  The credentials follow to the same host. *)
Definition next_request (first req : Request) (method : string) (u : URL) : Request :=
  mkRequest method u
    (if decide (Host u = Host (rq_URL first)) then rq_BasicAuth first else None)
    (rq_Timeout first).

(** [via] holds the requests already sent, the oldest first. *)
Fixpoint do_hops (fuel : nat) (c : HttpClient) (via : list Request) (req : Request)
  : IO HttpResponse :=
  match fuel with
  | O => panic "out of fuel"
  | S n =>
      x ← send (cl_Transport c) req;
      let uerr url err := url_Error (urlErrorOp (rq_Method req)) url err in
      match x with
      | TransportError err => throw (uerr (URL_stripPassword (rq_URL req)) err)
      | Response code loc body body_err =>
          let resp := mkHttpResponse code body body_err in
          let '(method, redirect) := redirectBehavior (rq_Method req) code in
          if redirect then
            match loc with
            | NoLocation => mret resp
            | BadLocation raw err =>
                throw (uerr (URL_stripPassword (rq_URL req))
                         (fmt_Errorf "failed to parse Location header %q: %v" [AStr raw; AErr err]))
            | Location raw u =>
                let via' := via ++ [req] in
                let req' := next_request (default req (head via')) req method u in
                ok ← try (of_outcome (CheckRedirect c req' via'));
                match ok with
                | inr err => throw (uerr raw err)
                | inl _ => do_hops n c via' req'
                end
            end
          else mret resp
      end
  end.

(** ** The policy *)

Definition maxRedirects : nat := 10.

Definition sameHostRedirectPolicy (req : Request) (via : list Request) : outcome unit :=
  if (maxRedirects <=? length via)%nat
  then Fail (fmt_Errorf "stopped after %d redirects" [AInt (Z.of_nat maxRedirects)])
  else
    match via with
    | [] => Panicked "index out of range [0] with length 0"
    | v0 :: _ =>
        let orig := rq_URL v0 in
        if negb (bool_decide (Scheme (rq_URL req) = Scheme orig)) ||
           negb (bool_decide (Host (rq_URL req) = Host orig))
        then Fail (fmt_Errorf "redirect from %q to %q crosses origin scheme/host, which is not allowed"
                     [AStr (URL_String orig); AStr (URL_String (rq_URL req))])
        else Ret tt
    end.

(** Fuel for one call: the policy stops before it is used up. *)
Definition client_fuel : nat := S maxRedirects.

Definition Client_Do (c : HttpClient) (req : Request) : IO HttpResponse :=
  do_hops client_fuel c [] req.
End Client.

(** ** What a client with the policy sends *)

Definition same_origin (a b : URL) : Prop := Scheme a = Scheme b /\ Host a = Host b.

(** A hop that follows the first request. *)
Definition follows (first r : Request) : Prop :=
  same_origin (rq_URL r) (rq_URL first) /\
  rq_BasicAuth r = rq_BasicAuth first /\ rq_Timeout r = rq_Timeout first.

(** Only the log of requests grows, by at most [n] requests over [t] that
    satisfy [P]. *)
Definition sends (n : nat) (t : Transport) (P : Request -> Prop) (w w' : World) : Prop :=
  w_fs w' = w_fs w /\ w_tracked w' = w_tracked w /\
  exists l, w_sent w' = w_sent w ++ l /\ (length l <= n)%nat /\
    Forall (fun x => x.1 = t /\ P x.2) l.

Section Sent.
Context `{E : Env}.

Lemma sends_none n t P w : sends n t P w w.
Proof. split; [done|]. split; [done|]. exists []. rewrite app_nil_r. simpl. auto with lia. Qed.

Lemma sends_send n t (P : Request -> Prop) r w w' :
  P r -> sends n t P (send t r w).2 w' -> sends (S n) t P w w'.
Proof.
  intros Hr (H1 & H2 & l & H3 & H4 & H5). split; [done|]. split; [done|].
  exists ((t, r) :: l). simpl in H3. rewrite H3, <- app_assoc. simpl.
  repeat split; auto with lia.
Qed.

Lemma policy_accepts req v0 via :
  sameHostRedirectPolicy req (v0 :: via) = Ret tt ->
  (length (v0 :: via) < maxRedirects)%nat /\ same_origin (rq_URL req) (rq_URL v0).
Proof.
  unfold sameHostRedirectPolicy. destruct (Nat.leb_spec maxRedirects (length (v0 :: via))); [done|].
  destruct (_ || _) eqn:E1; [done|]. intros _. bool_hyps. split; [done|]. by split.
Qed.

Lemma policy_no_panic req via why :
  via <> [] -> sameHostRedirectPolicy req via <> Panicked why.
Proof.
  unfold sameHostRedirectPolicy. destruct via; [done|]. intros _. by repeat case_match.
Qed.

Lemma next_request_follows first req m u :
  same_origin u (rq_URL first) -> follows first (next_request first req m u).
Proof. intros [H1 H2]. unfold follows, next_request. simpl. rewrite decide_True; done. Qed.

(** One hop, its response inspected. *)
Lemma do_hops_S n c via req w :
  let w1 := (send (cl_Transport c) req w).2 in
  let uerr url err := url_Error (urlErrorOp (rq_Method req)) url err in
  do_hops (S n) c via req w =
  match env_roundtrip (w_tick w) (cl_Transport c) req with
  | TransportError err => (Fail (uerr (URL_stripPassword (rq_URL req)) err), w1)
  | Response code loc body body_err =>
      match redirectBehavior (rq_Method req) code, loc with
      | (_, false), _ | (_, true), NoLocation => (Ret (mkHttpResponse code body body_err), w1)
      | (_, true), BadLocation raw err =>
          (Fail (uerr (URL_stripPassword (rq_URL req))
             (fmt_Errorf "failed to parse Location header %q: %v" [AStr raw; AErr err])), w1)
      | (m, true), Location raw u =>
          let req' := next_request (default req (head (via ++ [req]))) req m u in
          match CheckRedirect c req' (via ++ [req]) with
          | Ret _ => do_hops n c (via ++ [req]) req' w1
          | Fail err => (Fail (uerr raw err), w1)
          | Panicked why => (Panicked why, w1)
          end
      end
  end.
Proof.
  cbv zeta. cbn [do_hops]. unfold mbind, M_bind. unfold send at 1. cbn [fst snd].
  destruct (env_roundtrip (w_tick w) (cl_Transport c) req) as [err|code loc body berr]; [done|].
  destruct (redirectBehavior _ _) as [m []]; [|done].
  destruct loc as [|raw err|raw u]; [done|done|]. unfold of_outcome, try.
  by destruct (CheckRedirect _ _ _) as [[]|e|why].
Qed.

(** From the hop with [length via] requests sent, with fuel for the rest. *)
Lemma do_hops_sends n t via first req w :
  (forall v, head (via ++ [req]) = Some v -> v = first) -> follows first req ->
  (length via < maxRedirects)%nat -> (maxRedirects <= n + length via)%nat ->
  let '(r, w') := do_hops n (mkHttpClient t sameHostRedirectPolicy) via req w in
  is_panic r = false /\ sends (maxRedirects - length via) t (follows first) w w'.
Proof.
  revert via req w. induction n as [|n IH]; intros via req w Hfirst Hreq Hlen Hfuel; [lia|].
  replace (maxRedirects - length via)%nat with (S (maxRedirects - S (length via))) by lia.
  assert (sends (S (maxRedirects - S (length via))) t (follows first) w (send t req w).2) as Hone
    by (eapply sends_send, sends_none; done).
  destruct (head (via ++ [req])) as [v0|] eqn:Ehead; [|by destruct via].
  specialize (Hfirst v0 eq_refl). subst v0.
  rewrite do_hops_S. cbv zeta. simpl cl_Transport. simpl CheckRedirect.
  destruct (env_roundtrip (w_tick w) t req) as [err|code loc body berr]; [by split|].
  destruct (redirectBehavior _ _) as [m []]; [|by split].
  destruct loc as [|raw err|raw u]; [by split|by split|].
  rewrite Ehead. simpl default.
  destruct (sameHostRedirectPolicy _ _) as [[]|e|why] eqn:Ep; [|by split|].
  2: { exfalso. by apply policy_no_panic in Ep; [|destruct via]. }
  assert (exists rest, via ++ [req] = first :: rest) as [rest Ev]
    by (destruct (via ++ [req]); simplify_eq/=; eauto).
  rewrite Ev in Ep. apply policy_accepts in Ep as [Hl Hso]. rewrite <- Ev in Hl.
  assert (length (via ++ [req]) = S (length via)) as Hlv by (rewrite length_app; simpl; lia).
  specialize (IH (via ++ [req]) (next_request first req m u) (send t req w).2).
  destruct (do_hops _ _ _ _ _) as [r w'].
  destruct IH as [IH1 IH2]; rewrite ?Hlv in *; try lia.
  - rewrite Ev. by intros v [= ->].
  - by apply next_request_follows.
  - split; [done|]. by apply (sends_send _ _ _ req).
Qed.

Lemma policy_Do t req w :
  let '(r, w') := Client_Do (mkHttpClient t sameHostRedirectPolicy) req w in
  is_panic r = false /\ sends maxRedirects t (follows req) w w'.
Proof.
  apply do_hops_sends; simpl; try (unfold client_fuel, maxRedirects; lia).
  - by intros v [= ->].
  - done.
Qed.

(** More fuel changes nothing. *)
Lemma do_hops_fuel n m t via req w :
  (length via < maxRedirects)%nat ->
  (maxRedirects <= n + length via)%nat -> (maxRedirects <= m + length via)%nat ->
  do_hops n (mkHttpClient t sameHostRedirectPolicy) via req w =
  do_hops m (mkHttpClient t sameHostRedirectPolicy) via req w.
Proof.
  revert m via req w. induction n as [|n IH]; intros m via req w Hlen Hn Hm; [lia|].
  destruct m as [|m]; [lia|]. rewrite !do_hops_S. cbv zeta. simpl cl_Transport. simpl CheckRedirect.
  destruct (env_roundtrip _ _ _) as [|code loc body berr]; [done|].
  destruct (redirectBehavior _ _) as [k []]; [|done]. destruct loc as [| |raw u]; [done|done|].
  destruct (sameHostRedirectPolicy _ _) as [[]| |] eqn:Ep; [|done|done].
  destruct (via ++ [req]) as [|v0 rest] eqn:Ev; [by destruct via|].
  apply policy_accepts in Ep as [Hl _]. rewrite <- Ev in Hl |- *.
  rewrite length_app in Hl. simpl in Hl. apply IH; rewrite length_app; simpl; lia.
Qed.
End Sent.
