(* ===== verification/Transport.v ===== *)
(** * Certificates and transports (controllers/transport.go)

    A certificate comes from a file, from a parsed certificate or from raw PEM
    bytes; [newTransport] trusts the system pool and every given certificate.
    Go slices of certificates are modelled with the arrays they point into,
    because reconciles of different resources share one slice. *)

From S2P Require Import Prelude GoStrings GoPath GoErrors Base64 Effects World GoOS GoOSFacts.

(** ** PEM *)

Definition newline : ascii := ascii_of_nat 10.

(** Lines of 64 digits; [n] counts what is left of the current one. *)
Fixpoint break_lines (n : nat) (l : list ascii) : string :=
  match l with
  | [] => ""
  | a :: l' =>
      match n with
      | O => String newline (String a (break_lines 63 l'))
      | S m => String a (break_lines m l')
      end
  end.

(** [pem.EncodeToMemory] of a block without headers. *)
Definition pem_EncodeToMemory (type bytes : string) : string :=
  let body := base64 (String.list_ascii_of_string bytes) in
  "-----BEGIN " +:+ type +:+ "-----" +:+ String newline "" +:+
  (if decide (body = []) then "" else break_lines 64 body +:+ String newline "") +:+
  "-----END " +:+ type +:+ "-----" +:+ String newline "".

(** ** Certificates *)

Record Cert := mkCert {
  Path : string;
  Certificate : option string;  (* the [Raw] bytes of an [x509.Certificate] *)
  Raw : string
}.

(** The zero value, and a certificate of raw bytes. *)
Definition zero_cert : Cert := mkCert "" None "".
Definition raw_cert (data : string) : Cert := mkCert "" None data.

Section Certs.
Context `{E : Env}.

Definition Cert_Bytes (c : Cert) : IO string :=
  if decide (Path c <> "") then os_ReadFile (Path c)
  else match Certificate c with
       | Some raw => mret (pem_EncodeToMemory "CERTIFICATE" raw)
       | None => mret (Raw c)
       end.

(** [AppendCertsFromPEM] reports whether any certificate was found. *)
Definition AppendCertsFromPEM (pool : CertPool) (data : string) : option CertPool :=
  if x509_pem_ok data then Some (mkCertPool (pool_pem pool ++ [data])) else None.

(** The loop of [newTransport] over the certificates. *)
Fixpoint load_certs (pool : CertPool) (certs : list Cert) : IO CertPool :=
  match certs with
  | [] => mret pool
  | cert :: certs' =>
      data ← Cert_Bytes cert;
      if decide (data = "") then load_certs pool certs'
      else match AppendCertsFromPEM pool data with
           | None => throw (fmt_Errorf "unable to load custom cert" [])
           | Some pool' => load_certs pool' certs'
           end
  end.

Definition newTransport (certs : list Cert) : IO Transport :=
  r ← ask x509_SystemCertPool;
  pool ← of_sum r;
  pool' ← load_certs pool certs;
  mret (mkTransport pool').
End Certs.

(** ** Slices of certificates *)

(** The arrays, by their addresses; a slice is a window at the start of one. *)
Abbreviation arrays := (list (list Cert)).

Record slice := mkSlice { s_array : nat; s_len : nat; s_cap : nat }.

Definition elements (h : arrays) (s : slice) : list Cert := take (s_len s) (h !!! s_array s).

(** [make([]Cert, len, cap)] *)
Definition make_slice (len cap : nat) (h : arrays) : slice * arrays :=
  (mkSlice (length h) len cap, h ++ [replicate cap zero_cert]).

(** [copy(dst, src)]: as many elements as both have. *)
Definition copy_slice (dst src : slice) (h : arrays) : arrays :=
  let n := Nat.min (s_len dst) (s_len src) in
  alter (fun a => take n (elements h src) ++ drop n a) (s_array dst) h.

(** [append(s, x)]: in place while the capacity lasts, else in a new array of
    at least the doubled capacity. *)
Definition append_slice (s : slice) (x : Cert) (h : arrays) : slice * arrays :=
  if (s_len s <? s_cap s)%nat
  then (mkSlice (s_array s) (S (s_len s)) (s_cap s), alter <[s_len s := x]> (s_array s) h)
  else
    let cap := Nat.max (S (s_len s)) (2 * s_cap s) in
    (mkSlice (length h) (S (s_len s)) cap,
     h ++ [elements h s ++ x :: replicate (cap - S (s_len s)) zero_cert]).

(** A slice that points into its array. *)
Definition slice_ok (h : arrays) (s : slice) : Prop :=
  exists a, h !! s_array s = Some a /\ length a = s_cap s /\ (s_len s <= s_cap s)%nat.

(** A private copy of [certs] with one more element: what the secrets
    reconciler does before it adds a tenant's certificate. *)
Definition with_cert (certs : slice) (x : Cert) (h : arrays) : slice * arrays :=
  let '(s, h1) := make_slice (s_len certs) (s_len certs + 1) h in
  append_slice s x (copy_slice s certs h1).

Lemma with_cert_spec certs x h :
  slice_ok h certs ->
  let '(s, h') := with_cert certs x h in
  elements h' s = elements h certs ++ [x] /\ h `prefix_of` h'.
Proof.
  intros (a & Ha & Hcap & Hlen). unfold with_cert, make_slice, append_slice. simpl.
  destruct (Nat.ltb_spec (s_len certs) (s_len certs + 1)); [|lia].
  assert (h !!! s_array certs = a) as Hat by by rewrite list_lookup_total_alt, Ha.
  assert (s_array certs < length h)%nat as Hlt by by eapply lookup_lt_Some.
  unfold copy_slice, elements. simpl. rewrite Nat.min_id.
  rewrite lookup_total_app_l, Hat by done.
  rewrite take_take, Nat.min_id.
  set (row := take (s_len certs) a ++ replicate (s_len certs + 1 - s_len certs) zero_cert).
  assert (length (take (s_len certs) a) = s_len certs) as Htk by (rewrite length_take; lia).
  assert (alter (fun b => take (s_len certs) a ++ drop (s_len certs) b) (length h)
            (h ++ [replicate (s_len certs + 1) zero_cert]) = h ++ [row]) as ->.
  { rewrite alter_app_r_alt by lia. rewrite Nat.sub_diag. simpl. by rewrite drop_replicate. }
  rewrite alter_app_r_alt by lia. rewrite Nat.sub_diag. simpl. split; [|by exists [<[s_len certs:=x]> row]].
  rewrite lookup_total_app_r by lia. rewrite Nat.sub_diag. simpl. unfold row.
  replace (s_len certs + 1 - s_len certs)%nat with 1%nat by lia.
  rewrite insert_app_r_alt by lia. rewrite Htk, Nat.sub_diag. simpl.
  rewrite take_ge; [done|]. rewrite length_app. simpl. lia.
Qed.

(** ** Facts *)

Section Facts.
Context `{E : Env}.

Lemma within_newTransport (R : relation fsmap) `{!PreOrder R} certs :
  within (on_fs R) (newTransport certs).
Proof.
  assert (forall pool, within (on_fs R) (load_certs pool certs)) as Hload.
  { induction certs as [|c certs IH]; intros pool; simpl; [apply within_ret; apply _|].
    apply within_bind; [apply _| |].
    - unfold Cert_Bytes. case_decide; [by apply within_ReadFile|].
      case_match; apply within_ret; apply _.
    - intros data. case_decide; [done|]. case_match; [done|]. apply within_throw; apply _. }
  unfold newTransport. apply within_bind; [apply _|by apply within_ask|]. intros r.
  apply within_bind; [apply _|by apply within_of_sum; apply _|]. intros pool.
  apply within_bind; [apply _|done|]. intros pool'. apply within_ret; apply _.
Qed.

(** The roots: the system's, then every non-empty block in order. *)
Lemma load_certs_raw pool datas w pool' w' :
  load_certs pool (raw_cert <$> datas) w = (Ret pool', w') ->
  w' = w /\ pool_pem pool' = pool_pem pool ++ filter (fun d => d <> "") datas.
Proof.
  revert pool. induction datas as [|d datas IH]; intros pool H.
  - injection H as <- <-. by rewrite app_nil_r.
  - rewrite fmap_cons in H. cbn [load_certs] in H. unfold Cert_Bytes in H. simpl Path in H.
    rewrite decide_False in H by naive_solver. simpl Certificate in H. inv_bind H.
    injection Hstep as <- <-. simpl Raw in H. case_decide as Hd.
    + rewrite filter_cons_False by naive_solver. by apply IH.
    + unfold AppendCertsFromPEM in H. destruct (x509_pem_ok d); [|done].
      apply IH in H as [-> ->]. rewrite filter_cons_True by done. simpl.
      by rewrite <- app_assoc.
Qed.
End Facts.

#[export] Hint Resolve within_newTransport : src.
