(* ===== verification/Stashes.v ===== *)
(** * What sub-reconcilers pass to each other

    The keys and values of the stash: the helpers at the end of
    controllers/mavenartifact_controller.go and of
    controllers/imagerepository_controller.go.  A retrieval fails when the key
    is absent or holds a value of another type. *)

From S2P Require Import Prelude GoStrings GoErrors Effects World Runtime ApiTypes Http.

(** What is known of the artifact in the remote repository. *)
Record ArtifactDetails := mkArtifactDetails {
  ResolvedFileName : string;
  ArtifactVersion : string;
  ArtifactDownloadURL : string
}.

(** The dynamic types of the values stashed. *)
Inductive stash_value :=
| SV_ArtifactDetails (d : ArtifactDetails)
| SV_Secret (s : Secret)
| SV_HttpClient (c : HttpClient)
| SV_RoundTripper (t : Transport)
| SV_Secrets (l : list Secret)   (* a slice that is not nil *)
| SV_string (s : string).

(** ** Keys *)

Definition MavenArtifactVersionStashKey : string := Group +:+ "/artifact-version".
Definition MavenArtifactAuthSecretStashKey : string := Group +:+ "/auth-secret".
Definition MavenArtifactHttpClientKey : string := Group +:+ "/http-client".
Definition HttpRoundTripperStashKey : string := Group +:+ "/http-round-tripper".
Definition ImagePullSecretsStashKey : string := Group +:+ "/image-pull-secrets".
Definition ImageRefStashKey : string := Group +:+ "/image-ref".

Section Helpers.
Context {Sh : Type} `{ST : Stash Sh stash_value}.

Definition stashHttpClient (c : HttpClient) (s : Sh) : Sh :=
  StashValue MavenArtifactHttpClientKey (SV_HttpClient c) s.

Definition retrieveHttpClient (s : Sh) : option HttpClient :=
  match RetrieveValue s MavenArtifactHttpClientKey with
  | Some (SV_HttpClient c) => Some c
  | _ => None
  end.

Definition stashAuthSecret (x : Secret) (s : Sh) : Sh :=
  StashValue MavenArtifactAuthSecretStashKey (SV_Secret x) s.

Definition retrieveAuthSecret (s : Sh) : option Secret :=
  match RetrieveValue s MavenArtifactAuthSecretStashKey with
  | Some (SV_Secret x) => Some x
  | _ => None
  end.

Definition stashArtifactVersion (d : ArtifactDetails) (s : Sh) : Sh :=
  StashValue MavenArtifactVersionStashKey (SV_ArtifactDetails d) s.

Definition retrieveArtifactVersion (s : Sh) : option ArtifactDetails :=
  match RetrieveValue s MavenArtifactVersionStashKey with
  | Some (SV_ArtifactDetails d) => Some d
  | _ => None
  end.

Definition StashHttpRoundTripper (t : Transport) (s : Sh) : Sh :=
  StashValue HttpRoundTripperStashKey (SV_RoundTripper t) s.

Definition RetrieveHttpRoundTripper (s : Sh) : option Transport :=
  match RetrieveValue s HttpRoundTripperStashKey with
  | Some (SV_RoundTripper t) => Some t
  | _ => None
  end.

Definition StashImagePullSecrets (l : list Secret) (s : Sh) : Sh :=
  StashValue ImagePullSecretsStashKey (SV_Secrets l) s.

Definition RetrieveImagePullSecrets (s : Sh) : option (list Secret) :=
  match RetrieveValue s ImagePullSecretsStashKey with
  | Some (SV_Secrets l) => Some l
  | _ => None
  end.

Definition StashImageRef (image : string) (s : Sh) : Sh :=
  StashValue ImageRefStashKey (SV_string image) s.

Definition RetrieveImageRef (s : Sh) : string :=
  match RetrieveValue s ImageRefStashKey with
  | Some (SV_string image) => image
  | _ => ""
  end.
End Helpers.

(** ** Facts: each helper reads back what was stashed, and no other key *)

Section Facts.
Context {Sh : Type} `{ST : Stash Sh stash_value, !StashLaws Sh stash_value}.

Ltac keys := intros; unfold retrieveHttpClient, retrieveAuthSecret, retrieveArtifactVersion,
  RetrieveHttpRoundTripper, RetrieveImagePullSecrets, RetrieveImageRef,
  stashHttpClient, stashAuthSecret, stashArtifactVersion,
  StashHttpRoundTripper, StashImagePullSecrets, StashImageRef;
  rewrite ?retrieve_stash, ?retrieve_stash_ne, ?retrieve_empty by (by vm_compute); reflexivity.

Lemma http_client_http_client c (s : Sh) : retrieveHttpClient (stashHttpClient c s) = Some c.
Proof. keys. Qed.
Lemma http_client_auth_secret x (s : Sh) : retrieveHttpClient (stashAuthSecret x s) = retrieveHttpClient s.
Proof. keys. Qed.
Lemma http_client_version d (s : Sh) : retrieveHttpClient (stashArtifactVersion d s) = retrieveHttpClient s.
Proof. keys. Qed.
Lemma http_client_empty : retrieveHttpClient (empty_stash : Sh) = None.
Proof. keys. Qed.
Lemma auth_secret_http_client c (s : Sh) : retrieveAuthSecret (stashHttpClient c s) = retrieveAuthSecret s.
Proof. keys. Qed.
Lemma auth_secret_auth_secret x (s : Sh) : retrieveAuthSecret (stashAuthSecret x s) = Some x.
Proof. keys. Qed.
Lemma auth_secret_version d (s : Sh) : retrieveAuthSecret (stashArtifactVersion d s) = retrieveAuthSecret s.
Proof. keys. Qed.
Lemma auth_secret_empty : retrieveAuthSecret (empty_stash : Sh) = None.
Proof. keys. Qed.
Lemma version_http_client c (s : Sh) : retrieveArtifactVersion (stashHttpClient c s) = retrieveArtifactVersion s.
Proof. keys. Qed.
Lemma version_auth_secret x (s : Sh) : retrieveArtifactVersion (stashAuthSecret x s) = retrieveArtifactVersion s.
Proof. keys. Qed.
Lemma version_version d (s : Sh) : retrieveArtifactVersion (stashArtifactVersion d s) = Some d.
Proof. keys. Qed.
Lemma version_empty : retrieveArtifactVersion (empty_stash : Sh) = None.
Proof. keys. Qed.
Lemma image_ref_image_ref i (s : Sh) : RetrieveImageRef (StashImageRef i s) = i.
Proof. keys. Qed.
Lemma image_ref_secrets l (s : Sh) : RetrieveImageRef (StashImagePullSecrets l s) = RetrieveImageRef s.
Proof. keys. Qed.
Lemma image_ref_round_tripper t (s : Sh) : RetrieveImageRef (StashHttpRoundTripper t s) = RetrieveImageRef s.
Proof. keys. Qed.
Lemma image_ref_empty : RetrieveImageRef (empty_stash : Sh) = "".
Proof. keys. Qed.
Lemma secrets_secrets l (s : Sh) : RetrieveImagePullSecrets (StashImagePullSecrets l s) = Some l.
Proof. keys. Qed.
Lemma secrets_image_ref i (s : Sh) : RetrieveImagePullSecrets (StashImageRef i s) = RetrieveImagePullSecrets s.
Proof. keys. Qed.
Lemma secrets_round_tripper t (s : Sh) :
  RetrieveImagePullSecrets (StashHttpRoundTripper t s) = RetrieveImagePullSecrets s.
Proof. keys. Qed.
Lemma secrets_empty : RetrieveImagePullSecrets (empty_stash : Sh) = None.
Proof. keys. Qed.
Lemma round_tripper_round_tripper t (s : Sh) :
  RetrieveHttpRoundTripper (StashHttpRoundTripper t s) = Some t.
Proof. keys. Qed.
End Facts.

#[export] Hint Rewrite @http_client_http_client @http_client_auth_secret @http_client_version
  @http_client_empty @auth_secret_http_client @auth_secret_auth_secret @auth_secret_version
  @auth_secret_empty @version_http_client @version_auth_secret @version_version @version_empty
  @image_ref_image_ref @image_ref_secrets @image_ref_round_tripper @image_ref_empty
  @secrets_secrets @secrets_image_ref @secrets_round_tripper @secrets_empty
  @round_tripper_round_tripper using (typeclasses eauto) : stash.
