(* ===== verification/ArtifactFiles.v ===== *)
(** * Files of an artifact

    The file helpers at the end of controllers/imagerepository_controller.go
    and controllers/mavenartifact_controller.go: checksums, copies, the
    compressed tarball, the extraction of zip archives and the cache file.
    The tar and gzip encoders and the zip decoder are parameters. *)

From S2P Require Import Prelude GoStrings GoPath GoErrors Effects World GoOS GoOSFacts Sha1.

(** ** Parameters: archive formats *)

(** The fields of [tar.Header] the source leaves set. *)
Record tar_header := mkTarHeader {
  th_Name : string;
  th_Mode : Z;
  th_Size : Z;
  th_ModTime : Z
}.

(** A tar writer on a gzip writer: each call returns the bytes that leave the
    compressor, and may fail.  [tz_close] is what closing both writes. *)
Class TarGz := {
  tz : Type;
  tz_new : tz;
  tz_header : tz -> tar_header -> tz * string * option error;
  tz_write : tz -> string -> tz * string * option error;
  tz_close : tz -> string
}.

(** The whole output for a list of files; [None] when a call fails. *)
Fixpoint targz_from `{T : TarGz} (e : tz) (files : list (tar_header * string)) : option string :=
  match files with
  | [] => Some (tz_close e)
  | (h, data) :: files' =>
      match tz_header e h with
      | (_, _, Some _) => None
      | (e1, b1, None) =>
          match tz_write e1 data with
          | (_, _, Some _) => None
          | (e2, b2, None) => (fun b => b1 +:+ b2 +:+ b) <$> targz_from e2 files'
          end
      end
  end.

Definition targz `{T : TarGz} (files : list (tar_header * string)) : option string :=
  targz_from tz_new files.

(** [zip.File]: the mode is the one of the external attributes; [zf_Open] is
    the result of [Open], with the error that ends the content, if any. *)
Record zip_file := mkZipFile {
  zf_Archive : string;
  zf_Name : string;
  zf_attrs : Z;
  zf_Open : (string * option error) + error
}.

Class Zip := {
  (** the directory of an archive, from its path and bytes *)
  zip_NewReader : string -> string -> list zip_file + error
}.

(** ** Checksums and copies *)

Section Files.
Context `{E : Env}.

Definition sha1Checksum (name : string) : IO string :=
  _ ← os_Open name;
  data ← read_all name;
  mret (sha1_hex data).

(** The result is nil when the destination cannot be created. *)
Definition copyFile (from to : string) : IO unit :=
  _ ← os_MkdirAll (Dir to);
  _ ← os_Open from;
  created ← try (os_Create to);
  match created with
  | inr _ => mret tt
  | inl _ =>
      data ← read_all from;
      write_all to data
  end.

(** As [copyFile], under a placeholder name that is then renamed. *)
Definition copyCompressedFile (from to : string) : IO unit :=
  let intermediateDestination := to +:+ ".new" in
  _ ← os_MkdirAll (Dir intermediateDestination);
  _ ← os_Open from;
  created ← try (os_Create intermediateDestination);
  match created with
  | inr _ => mret tt
  | inl _ =>
      data ← read_all from;
      _ ← write_all intermediateDestination data;
      os_Rename intermediateDestination to
  end.

(** ** The content type of the first 512 bytes *)

(** [http.DetectContentType] answers "application/zip": the signature, and
    no earlier rule of the table applies.  The only earlier rule that looks
    past the first bytes is that of embedded fonts, "LP" at offset 34. *)
Definition detects_zip (buffer : string) : bool :=
  HasPrefix buffer ("PK" +:+ String (ascii_of_nat 3) (String (ascii_of_nat 4) "")) &&
  negb (bool_decide (String.substring 34 2 buffer = "LP")).

Definition isArchive (artifactFilePath : string) : IO bool :=
  opened ← try (os_Open artifactFilePath);
  match opened with
  | inr _ => mret false
  | inl _ =>
      read ← try (read_all artifactFilePath);
      match read with
      | inr _ => mret false
      | inl data =>
          if decide (data = "") then mret false  (* io.EOF *)
          else mret (detects_zip (String.substring 0 512 data))
      end
  end.
End Files.

(** ** The compressed tarball *)

(** The state of [createTarGz]: the world, the writers and whether a write to
    the file has failed, after which the compressor writes nothing more. *)
Record TarState {T : TarGz} := mkTarState {
  ts_world : World;
  ts_enc : tz;
  ts_broken : bool
}.

Arguments mkTarState {T}.
Arguments ts_world {T}.
Arguments ts_enc {T}.
Arguments ts_broken {T}.

#[export] Instance tar_has_world `{T : TarGz} : HasWorld TarState := {
  the_world := ts_world;
  set_world w s := mkTarState w (ts_enc s) (ts_broken s);
  the_set_world w s := eq_refl
}.

Section TarGz.
Context `{E : Env} `{T : TarGz}.

(** Bytes that leave the compressor go to the file. *)
Definition emit (name bytes : string) : M TarState unit :=
  if decide (bytes = "") then mret tt
  else
    r ← try (io (write_all name bytes));
    match r with
    | inl _ => mret tt
    | inr e => _ ← modify (fun s => mkTarState (ts_world s) (ts_enc s) true); throw e
    end.

(** A call of the tar writer. *)
Definition tar_call (name : string) (f : tz -> tz * string * option error) : M TarState unit :=
  e ← gets ts_enc;
  let '(e', bytes, err) := f e in
  _ ← modify (fun s => mkTarState (ts_world s) e' (ts_broken s));
  _ ← emit name bytes;
  match err with Some err => throw err | None => mret tt end.

(** [tar.FileInfoHeader] with the name replaced and the owner cleared. *)
Definition tar_FileInfoHeader (info : node) (name : string) : tar_header :=
  match info with
  | FileNode f => mkTarHeader name (f_mode f) (Z.of_nat (String.length (f_data f))) (f_mtime f)
  | DirNode => mkTarHeader name 493 0 0
  end.

(** The function given to [filepath.WalkDir]. *)
Definition tar_entry (dir out fp : string) (d : node + error) : M TarState unit :=
  match d with
  | inr err => throw err
  | inl DirNode => mret tt
  | inl (FileNode _) =>
      _ ← io (os_Open fp);
      info ← try (io (file_Stat fp));
      match info with
      | inr _ => mret tt
      | inl info =>
          match Rel dir fp with
          | None => throw (errors_New ("Rel: can't make " +:+ fp +:+ " relative to " +:+ dir))
          | Some name =>
              let header := tar_FileInfoHeader info name in
              _ ← tar_call out (fun e => tz_header e header);
              data ← io (read_all fp);
              tar_call out (fun e => tz_write e data)
          end
      end
  end.

(** The deferred [Close] of both writers. *)
Definition close_writers (out : string) : M TarState unit :=
  broken ← gets ts_broken;
  if broken : bool then mret tt
  else (e ← gets ts_enc; emit out (tz_close e)).

Definition createTarGz (dir name : string) : IO unit :=
  _ ← os_Create name;
  zoom (fun w => mkTarState w tz_new false) (fun s _ => ts_world s)
    (defer (close_writers name) (WalkDir dir (tar_entry dir name))).
End TarGz.

(** ** Extraction *)

Definition ModeDir : Z := Z.shiftl 1 31.

(** [zip.FileHeader.Mode]: a trailing slash makes a directory. *)
Definition zip_Mode (f : zip_file) : Z :=
  if HasSuffix (zf_Name f) "/" then Z.lor (zf_attrs f) ModeDir else zf_attrs f.

Definition IsDir (f : zip_file) : bool := Z.testbit (zip_Mode f) 31.

(** The mode bits [os.OpenFile] passes to the system call. *)
Definition syscallMode (m : Z) : Z :=
  Z.lor (Z.land m 511)
    (Z.lor (if Z.testbit m 23 then 2048 else 0)
       (Z.lor (if Z.testbit m 22 then 1024 else 0) (if Z.testbit m 20 then 512 else 0))).

Definition ModePerm : Z := 511.

Definition safeArchiveEntryPath (destDir name : string) : string + error :=
  if IsAbs name
  then inr (fmt_Errorf "archive entry %q has an absolute path" [AStr name])
  else
    let joined := Join [destDir; name] in
    if negb (bool_decide (joined = destDir)) && negb (HasPrefix joined (destDir +:+ "/"))
    then inr (fmt_Errorf "archive entry %q escapes destination directory %q" [AStr name; AStr destDir])
    else inl joined.

Section Extract.
Context `{E : Env} `{ZR : Zip}.

(** [zip.OpenReader] *)
Definition zip_OpenReader (path : string) : IO (list zip_file) :=
  _ ← os_Open path;
  data ← read_all path;
  of_sum (zip_NewReader path data).

(** [file.Open()] reads the entry's header in the archive. *)
Definition zip_Open (f : zip_file) : IO (string * option error) :=
  _ ← read_all (zf_Archive f);
  of_sum (zf_Open f).

(** [io.Copy] of content that may end with an error. *)
Definition copy_to (p : string) (content : string * option error) : IO unit :=
  _ ← write_all p content.1;
  match content.2 with Some e => throw e | None => mret tt end.

Definition extractFile (f : zip_file) (filePath : string) : IO unit :=
  _ ← (if IsDir f then os_MkdirAll filePath
       else
         content ← zip_Open f;
         _ ← os_OpenFile filePath (syscallMode (zip_Mode f));
         copy_to filePath content);
  ignore_err (os_Chtimes filePath 0).

Definition extracted (parentDir : string) : string := Join [parentDir; "extracted-artifact"].

Definition extractArchive (parentDir pathToJarFile : string) : IO string :=
  files ← zip_OpenReader pathToJarFile;
  let fileDestinationFolder := extracted parentDir in
  _ ← os_Mkdir fileDestinationFolder;
  _ ← for_each files (fun f =>
        filePath ← of_sum (safeArchiveEntryPath fileDestinationFolder (zf_Name f));
        extractFile f filePath);
  mret fileDestinationFolder.
End Extract.

(** ** The cache file *)

Record artifactCache := mkArtifactCache { source : string; checksum : string }.

Definition toString (ac : artifactCache) : string := Sprintf "%s|%s" [source ac; checksum ac].

(** A missing file is no cache; a file without a bar panics. *)
Definition retrieveChecksumFromFile `{E : Env} (filename : string) : IO (option artifactCache) :=
  r ← try (os_ReadFile filename);
  match r with
  | inr err => if errors_Is err ErrNotExist then mret None else throw err
  | inl cache =>
      match Split cache "|" with
      | s :: c :: _ => mret (Some (mkArtifactCache s c))
      | _ => panic "index out of range [1] with length 1"
      end
  end.
