(* ===== verification/ArtifactFilesFacts.v ===== *)
(** * Facts about the files of an artifact

    Where extraction may write, what each helper leaves on disk when it
    returns without error, and that all of them keep the tree well formed. *)

From S2P Require Import Prelude GoStrings GoPath GoErrors Effects World GoOS GoOSFacts Sha1.
From S2P Require Import ArtifactFiles.

(** ** Entry paths *)

Lemma normal_extracted : normal "extracted-artifact".
Proof. by vm_compute. Qed.

Section Paths.
Context `{E : Env}.

(** An accepted entry lies at or below the destination. *)
Lemma safeArchiveEntryPath_below destDir name p init x :
  Split destDir slash = init ++ [x] -> normal x ->
  safeArchiveEntryPath destDir name = inl p ->
  exists l, Forall normal l /\ at_path p = at_path destDir ++ l.
Proof.
  intros Hd Hx. unfold safeArchiveEntryPath. destruct (IsAbs name); [done|].
  destruct (_ && _) eqn:Eg; [done|]. intros [= <-].
  apply andb_false_iff in Eg as [Eg|Eg]; bool_hyps.
  { exists []. rewrite app_nil_r, Eg. auto. }
  apply HasPrefix_spec in Eg as [r Hr]. rewrite append_assoc in Hr. simpl in Hr.
  rewrite append_cons, append_nil_l in Hr.
  assert (destDir <> "") as Hne.
  { intros ->. destruct init as [|? [|]]; simplify_eq/=. by destruct Hx. }
  assert (Forall normal (Split r slash)) as Hn.
  { unfold Join in Hr. rewrite filter_cons_True in Hr by done.
    eapply clean_under; [exact Hr| |exact Hx]. by rewrite Hd, last_snoc. }
  exists (Split r slash). split; [done|]. unfold at_path. rewrite Hr. by apply key_slash.
Qed.

(** An entry without ".." elements is accepted when it is relative. *)
Lemma safeArchiveEntryPath_accepts destDir name :
  IsAbs name = false -> Forall normal (Split name slash) ->
  Clean destDir = destDir -> destDir <> "" -> destDir <> "/" -> destDir <> "." ->
  safeArchiveEntryPath destDir name = inl (destDir +:+ String slash name).
Proof.
  intros Habs Hn Hc Hne Hroot Hdot. unfold safeArchiveEntryPath. rewrite Habs.
  assert (Join [destDir; name] = destDir +:+ String slash name) as ->.
  { assert (name <> "") as Hname by (intros ->; inversion Hn as [|? ? Hb]; by destruct Hb).
    unfold Join. rewrite !filter_cons_True, filter_nil by done.
    change (JoinWith "/" [destDir; name]) with (destDir +:+ String slash name).
    unfold Clean. rewrite decide_False by (by intros [? _]%append_eq_nil).
    rewrite IsAbs_append, Split_app, norm_app_normal by done.
    unfold Clean in Hc. rewrite decide_False in Hc by done. cbv zeta in Hc |- *.
    destruct (norm (IsAbs destDir) (Split destDir slash)) as [|w ws] eqn:En.
    { exfalso. destruct (IsAbs destDir); [apply Hroot|apply Hdot]; by rewrite <- Hc. }
    destruct (Split_cons name slash) as (v & vs & Ev).
    assert (JoinWith "/" (v :: vs) = name) as Hj by (rewrite <- Ev; apply Join_Split).
    rewrite Ev, JoinWith_app, Hj. destruct (IsAbs destDir).
    - rewrite <- Hc. by rewrite !append_assoc.
    - rewrite decide_False in Hc by done. rewrite decide_False by done. by rewrite Hc. }
  assert (HasPrefix (destDir +:+ String slash name) (destDir +:+ "/") = true) as ->.
  { apply HasPrefix_spec. exists name. by rewrite append_assoc. }
  by rewrite andb_false_r.
Qed.

Lemma Split_extracted parentDir :
  exists init, Split (extracted parentDir) slash = init ++ ["extracted-artifact"].
Proof. apply (Split_Join_names parentDir []). repeat constructor; apply normal_extracted. Qed.

Lemma at_path_extracted parentDir :
  at_path (extracted parentDir) = at_path parentDir ++ ["extracted-artifact"].
Proof. apply key_Join. repeat constructor; apply normal_extracted. Qed.
End Paths.

(** ** Confinement to a directory

    [confined D]: while [D] is there as a directory, only what is at or below
    it changes, and it stays. *)

Definition dirs_to (D : list string) (fs : fsmap) : Prop :=
  forall q, q <> [] -> q `prefix_of` D -> fs !! q = Some DirNode.

Definition confined (D : list string) : relation fsmap := fun a b =>
  dirs_to D a -> touches (at_or_below D) a b /\ dirs_to D b.

#[export] Instance confined_preorder D : PreOrder (confined D).
Proof.
  split.
  - intros a H. split; [done|exact H].
  - intros a b c H1 H2 H. destruct (H1 H) as [Ht Hb]. destruct (H2 Hb) as [Ht' Hc].
    split; [by transitivity b|done].
Qed.

(** Writing one entry below [D] that leaves directories in place. *)
Lemma confined_write D k n fs :
  at_or_below D k -> (fs !! k = Some DirNode -> n = DirNode) -> confined D fs (<[k := n]> fs).
Proof.
  intros Hk Hn Hd. split.
  - intros q Hq. rewrite lookup_insert_ne; [done|]. by intros ->.
  - intros q Hq Hp. rewrite lookup_insert. case_decide as Ek; [|by apply Hd].
    subst q. f_equal. apply Hn. by apply Hd.
Qed.

Section Confined.
Context `{E : Env} (D : list string).

Lemma conf_Mkdir_level k fs :
  at_or_below D k \/ (k <> [] /\ k `prefix_of` D) ->
  confined D fs (match fs !! k with
                 | Some DirNode => (inl tt, fs)
                 | Some (FileNode _) => (inr ENOTDIR, fs)
                 | None => p_mkdir k fs
                 end : (unit + Errno) * fsmap).2.
Proof.
  intros H. destruct (fs !! k) as [[|f]|] eqn:Ek; [done|done|].
  intros Hd. destruct H as [H|[H1 H2]]; [|rewrite Hd in Ek by done; done].
  revert Hd. unfold p_mkdir. destruct (check_dirs fs [] k); [done|].
  destruct (lookup_node fs k) eqn:El; [done|]. simpl. apply confined_write; [done|congruence].
Qed.

Lemma conf_mkdir_levels p pre rest :
  (forall l, l <> [] -> l `prefix_of` rest -> at_or_below D (pre ++ l) \/ (pre ++ l) `prefix_of` D) ->
  within (on_fs (confined D)) (mkdir_levels p pre rest).
Proof.
  revert pre. induction rest as [|c rest IH]; intros pre H; [apply within_ret; apply _|].
  simpl. apply within_bind; [apply _| |].
  - apply within_fs_call; [apply _|]. intros _ fs. apply conf_Mkdir_level.
    destruct (H [c]) as [?|?]; [done|by exists rest|by left|].
    right. split; [by destruct pre|done].
  - intros _. apply IH. intros l Hl [s ->]. rewrite <- app_assoc.
    apply (H (c :: l)); [done|by exists s].
Qed.

Lemma conf_MkdirAll p : at_or_below D (at_path p) -> within (on_fs (confined D)) (os_MkdirAll p).
Proof.
  intros [r Hr]. apply conf_mkdir_levels. intros l _ Hl. rewrite Hr in Hl. simpl.
  destruct (prefix_weak_total l D (D ++ r)) as [H|H]; [done|by exists r|by right|by left].
Qed.

Lemma conf_OpenFile p m : at_or_below D (at_path p) -> within (on_fs (confined D)) (os_OpenFile p m).
Proof.
  intros H. apply within_fs_call; [apply _|]. intros t fs. unfold p_create.
  destruct (check_dirs _ _ _); [done|].
  destruct (lookup_node fs (at_path p)) as [[|f]|] eqn:El; [done| |]; simpl;
    apply confined_write; try done; intros Hd;
    destruct (at_path p); simpl in El; congruence.
Qed.

Lemma conf_write_all p d : at_or_below D (at_path p) -> within (on_fs (confined D)) (write_all p d).
Proof.
  intros H. apply within_write_all; [apply _|]. intros d' t fs. unfold p_append.
  destruct (fs !! at_path p) as [[|f]|] eqn:Ef; [done| |done].
  apply confined_write; [done|congruence].
Qed.

Lemma conf_Chtimes p t : at_or_below D (at_path p) -> within (on_fs (confined D)) (os_Chtimes p t).
Proof.
  intros H. apply within_fs_call; [apply _|]. intros _ fs. unfold p_chtimes.
  destruct (check_dirs _ _ _); [done|].
  destruct (lookup_node fs (at_path p)) as [[|f]|] eqn:El; [done| |done]. simpl.
  apply confined_write; [done|]. intros Hd. destruct (at_path p); simpl in El; congruence.
Qed.

Context `{ZR : Zip}.

Lemma conf_extractFile f p :
  at_or_below D (at_path p) -> within (on_fs (confined D)) (extractFile f p).
Proof.
  intros H. unfold extractFile, zip_Open, copy_to.
  within_auto; auto using conf_MkdirAll, conf_OpenFile, conf_write_all, conf_Chtimes.
Qed.
End Confined.

Lemma check_dirs_prefix fs pre q r :
  check_dirs fs pre (q ++ r) = None -> q <> [] -> r <> [] -> fs !! (pre ++ q) = Some DirNode.
Proof.
  revert pre. induction q as [|c q IH]; [done|]. intros pre H _ Hr. simpl in H.
  destruct (q ++ r) as [|d l] eqn:El; [by destruct q, r|].
  destruct (fs !! (pre ++ [c])) as [[|f]|] eqn:E; [|done|done].
  destruct q as [|d' q]; [done|]. apply IH in H; [|done|done].
  by rewrite <- app_assoc in H.
Qed.

Section Archive.
Context `{E : Env} `{ZR : Zip}.

Lemma Mkdir_dirs_to p w w' :
  os_Mkdir p w = (Ret tt, w') -> dirs_to (at_path p) (w_fs w').
Proof.
  intros (H1 & H2 & ->)%Mkdir_Ret q Hq [r Hr].
  destruct (decide (r = [])) as [->|Hne].
  - rewrite app_nil_r in Hr. rewrite Hr. apply lookup_insert_eq.
  - rewrite lookup_insert_ne.
    + rewrite Hr in H2. by apply (check_dirs_prefix _ [] q r).
    + rewrite Hr. intros E'. apply (f_equal length) in E'. rewrite length_app in E'.
      destruct r; simpl in E'; [done|lia].
Qed.

Lemma extract_entries_confined parentDir files :
  within (on_fs (confined (at_path (extracted parentDir))))
    (for_each files (fun f =>
       filePath ← of_sum (safeArchiveEntryPath (extracted parentDir) (zf_Name f));
       extractFile f filePath)).
Proof.
  apply within_for_each; [apply _|]. intros f w.
  destruct (safeArchiveEntryPath (extracted parentDir) (zf_Name f)) as [p|e] eqn:Es; [|done].
  apply (conf_extractFile _ f p). destruct (Split_extracted parentDir) as [init Hi].
  destruct (safeArchiveEntryPath_below _ _ _ _ _ Hi normal_extracted Es) as (l & _ & Hl).
  by exists l.
Qed.

Lemma extractArchive_touches parentDir jar :
  within (on_fs (touches (at_or_below (at_path (extracted parentDir))))) (extractArchive parentDir jar).
Proof.
  unfold extractArchive, zip_OpenReader.
  apply within_bind; [apply _| |].
  { apply within_bind; [apply _|by apply within_Open; apply _|]. intros _.
    apply within_bind; [apply _|by apply within_read_all; apply _|]. intros data.
    by apply within_of_sum; apply _. }
  intros files w. unfold mbind, M_bind.
  pose proof (touch_Mkdir (extracted parentDir) w) as Ht.
  destruct (os_Mkdir (extracted parentDir) w) as [[[]|e|why] w1] eqn:Em; simpl in Ht.
  2, 3: intros q Hq; apply Ht; intros <-; apply Hq; by apply prefix_nil_inv || done.
  pose proof (extract_entries_confined parentDir files w1) as Hc. unfold on_fs in *. simpl in Hc.
  destruct (Hc (Mkdir_dirs_to _ _ _ Em)) as [Hc' _].
  transitivity (w_fs w1).
  { intros q Hq. apply Ht. intros <-. by apply Hq. }
  by destruct (for_each files _ w1) as [[[]|e|why] w2].
Qed.

Lemma wf_extractFile f p : within (on_fs keeps_wf) (extractFile f p).
Proof.
  unfold extractFile, zip_Open, copy_to. within_auto.
Qed.

Lemma wf_extractArchive parentDir jar : within (on_fs keeps_wf) (extractArchive parentDir jar).
Proof.
  unfold extractArchive, zip_OpenReader. within_auto. apply wf_extractFile.
Qed.

Lemma extractArchive_Ret parentDir jar w d w' :
  extractArchive parentDir jar w = (Ret d, w') -> d = extracted parentDir.
Proof.
  unfold extractArchive. intros H. inv_bind H. inv_bind H. inv_bind H. by injection H as <-.
Qed.
End Archive.

(** ** Directories that [MkdirAll] leaves, and files that can be created *)

Section NoFaults.
Context `{E : Env}.

Lemma MkdirAll_Ret p w w' : os_MkdirAll p w = (Ret tt, w') -> dirs_to (at_path p) (w_fs w').
Proof.
  unfold os_MkdirAll.
  assert (forall rest pre w, dirs_to pre (w_fs w) -> mkdir_levels p pre rest w = (Ret tt, w') ->
            dirs_to (pre ++ rest) (w_fs w')) as H.
  { induction rest as [|c rest IH]; intros pre w0 Hpre H.
    - rewrite app_nil_r. by injection H as <-.
    - simpl in H. inv_bind H. destruct v.
      replace (pre ++ c :: rest) with ((pre ++ [c]) ++ rest) by by rewrite <- app_assoc.
      apply (IH _ st); [|done]. apply fs_call_Ret in Hstep as [Hs _].
      assert (w_fs st !! (pre ++ [c]) = Some DirNode /\ (forall k, w_fs w0 !! k = Some DirNode -> w_fs st !! k = Some DirNode))
        as [Hc Hk].
      { destruct (w_fs w0 !! (pre ++ [c])) as [[|f]|] eqn:Ec; [by injection Hs as <-|done|].
        unfold p_mkdir in Hs. destruct (check_dirs _ _ _); [done|].
        destruct (lookup_node _ _) eqn:El; [done|]. injection Hs as <-.
        split; [apply lookup_insert_eq|]. intros k Hk. rewrite lookup_insert. by case_decide. }
      intros q Hq Hpq. destruct (decide (q = pre ++ [c])) as [->|Hne]; [done|].
      apply Hk, Hpre; [done|]. destruct Hpq as [l Hl]. destruct l as [|x l _] using rev_ind.
      + by rewrite app_nil_r in Hl.
      + rewrite app_assoc in Hl. apply app_inj_tail in Hl as [-> _]. by eexists. }
  apply (H (at_path p) []). intros q Hq [l Hl]. by destruct q.
Qed.

Lemma Create_ok k x p w :
  (forall t, env_fault t = None) -> at_path p = k ++ [x] -> dirs_to k (w_fs w) ->
  w_fs w !! at_path p <> Some DirNode -> exists w', os_Create p w = (Ret tt, w').
Proof.
  intros Hnf Hp Hd Hn. unfold os_Create, os_OpenFile, fs_call. rewrite Hnf. unfold p_create.
  assert (check_dirs (w_fs w) [] (at_path p) = None) as ->.
  { apply check_dirs_ok. intros a b Hab Ha Hb. simpl. apply Hd; [done|].
    destruct b as [|y b _] using rev_ind; [done|]. rewrite Hp, app_assoc in Hab.
    apply app_inj_tail in Hab as [-> _]. by eexists. }
  rewrite lookup_node_ne by (rewrite Hp; by destruct k).
  destruct (w_fs w !! at_path p) as [[|f]|]; [done|eauto|eauto].
Qed.

End NoFaults.

(** ** Checksums and copies *)

(** Directories may appear where there was nothing. *)
Definition adds_dirs : relation fsmap := fun a b =>
  forall k, b !! k = a !! k \/ (a !! k = None /\ b !! k = Some DirNode).

#[export] Instance adds_dirs_preorder : PreOrder adds_dirs.
Proof.
  split.
  - intros a k. by left.
  - intros a b c H1 H2 k. destruct (H1 k) as [E1|[E1 E1']], (H2 k) as [E2|[E2 E2']];
      rewrite ?E2, ?E1 in *; try rewrite E2'; auto; congruence.
Qed.

Lemma adds_dirs_file a b k f : adds_dirs a b -> b !! k = Some (FileNode f) <-> a !! k = Some (FileNode f).
Proof. intros H. destruct (H k) as [->|[-> ->]]; [done|]. by split. Qed.

Section Copies.
Context `{E : Env}.

Lemma adds_mkdir k fs : adds_dirs fs (p_mkdir k fs).2.
Proof.
  unfold p_mkdir. destruct (check_dirs fs [] k); [done|].
  destruct (lookup_node fs k) eqn:El; [done|]. intros q. simpl.
  destruct (decide (k = q)) as [<-|Hne].
  - right. rewrite lookup_insert_eq. split; [|done]. by destruct k.
  - left. by apply lookup_insert_ne.
Qed.

Lemma adds_MkdirAll p : within (on_fs adds_dirs) (os_MkdirAll p).
Proof.
  unfold os_MkdirAll. generalize (@nil string). generalize (at_path p).
  intros rest. induction rest as [|c rest IH]; intros pre; [apply within_ret; apply _|].
  simpl. apply within_bind; [apply _| |intros _; apply IH].
  apply within_fs_call; [apply _|]. intros _ fs.
  destruct (fs !! (pre ++ [c])) as [[|f]|]; [done|done|apply adds_mkdir].
Qed.

Lemma sha1Checksum_Ret p w c w' :
  sha1Checksum p w = (Ret c, w') ->
  w_fs w' = w_fs w /\ exists f, w_fs w !! at_path p = Some (FileNode f) /\ c = sha1_hex (f_data f).
Proof.
  unfold sha1Checksum. intros H. inv_bind H. inv_bind H. injection H as <- <-.
  apply Open_Ret in Hstep as [E1 _]. apply read_all_Ret in Hstep0 as [E2 (f & Hf & <-)].
  rewrite E2, E1. split; [done|]. rewrite E1 in Hf. eauto.
Qed.

Lemma within_sha1Checksum (R : relation fsmap) `{!PreOrder R} p : within (on_fs R) (sha1Checksum p).
Proof. unfold sha1Checksum. within_auto. Qed.

Lemma OpenFile_Fail p m w e w' : os_OpenFile p m w = (Fail e, w') -> w_fs w' = w_fs w.
Proof.
  unfold os_OpenFile, fs_call. destruct (env_fault (w_tick w)); [by intros [= <- <-]|].
  unfold p_create. destruct (check_dirs _ _ _); [by intros [= <- <-]|].
  by destruct (lookup_node _ _) as [[|f]|]; intros [= <- <-].
Qed.

(** The body shared by both copies, after the destination was opened. *)
Lemma copy_created_Ret from to perm w1 w2 data w3 w4 :
  at_path from <> at_path to ->
  os_OpenFile to perm w1 = (Ret tt, w2) -> read_all from w2 = (Ret data, w3) ->
  write_all to data w3 = (Ret tt, w4) ->
  exists f mode t, w_fs w1 !! at_path from = Some (FileNode f) /\
    w_fs w4 = <[at_path to := FileNode (mkFile (f_data f) mode t)]> (w_fs w1).
Proof.
  intros Hne (_ & _ & mode & E1)%OpenFile_Ret (E2 & f & Hf & <-)%read_all_Ret H3.
  rewrite E1, lookup_insert_ne in Hf by done.
  exists f, mode. eexists. split; [done|].
  erewrite (write_all_Ret _ _ _ _ _ H3) by (rewrite E2, E1; apply lookup_insert_eq).
  rewrite E2, E1, insert_insert_eq. done.
Qed.

(** [MkdirAll p] made the directories up to [p]. *)
Definition made_dirs (p : string) (fs fs' : fsmap) : Prop :=
  adds_dirs fs fs' /\ touches (on_path_to (at_path p)) fs fs' /\ dirs_to (at_path p) fs'.

Lemma MkdirAll_made p w w' : os_MkdirAll p w = (Ret tt, w') -> made_dirs p (w_fs w) (w_fs w').
Proof.
  intros H. pose proof (adds_MkdirAll p w) as Ha. pose proof (touch_MkdirAll p w) as Ht.
  rewrite H in Ha, Ht. split; [done|]. split; [done|]. by apply (MkdirAll_Ret _ w).
Qed.

(** Then a file can be created there, but for faults and directories. *)
Lemma Create_made p k x fs w e w' :
  (forall t, env_fault t = None) -> at_path p = k ++ [x] -> at_path (Dir p) = k ->
  made_dirs (Dir p) fs (w_fs w) -> fs !! at_path p <> Some DirNode ->
  os_Create p w <> (Fail e, w').
Proof.
  intros Hnf Hk Hdir (_ & Ht & Hd) Hnd H. rewrite Hdir in *.
  destruct (Create_ok k x p w Hnf Hk Hd) as [w1 Hc]; [|congruence].
  rewrite Ht; [done|]. rewrite Hk. intros [l Hl].
  apply (f_equal length) in Hl. rewrite !length_app in Hl. simpl in Hl. lia.
Qed.

(** A nil result: the destination holds the source's bytes, or it could not
    be created and nothing but directories was added. *)
Lemma copyFile_Ret from to w w' :
  at_path from <> at_path to ->
  copyFile from to w = (Ret tt, w') ->
  exists fs, made_dirs (Dir to) (w_fs w) fs /\
    ((exists f mode t, w_fs w !! at_path from = Some (FileNode f) /\
        w_fs w' = <[at_path to := FileNode (mkFile (f_data f) mode t)]> fs) \/
     (w_fs w' = fs /\ exists w1 e w2, w_fs w1 = fs /\ os_Create to w1 = (Fail e, w2))).
Proof.
  intros Hne H. unfold copyFile in H. inv_bind H. inv_bind H. inv_bind H. destruct v.
  apply MkdirAll_made in Hstep as Ha. destruct Ha as [Ha Ha'].
  apply Open_Ret in Hstep0 as [E0 _]. exists (w_fs st). split; [done|].
  apply try_inv in Hstep1. destruct v1 as [[]|e].
  - left. inv_bind H.
    destruct (copy_created_Ret _ _ _ _ _ _ _ _ Hne Hstep1 Hstep0 H) as (f & m & t & Hf & Hw).
    rewrite E0 in *. exists f, m, t. split; [|done]. by eapply adds_dirs_file in Ha as [? _]; eauto.
  - right. injection H as <-. split; [|eauto]. apply OpenFile_Fail in Hstep1. congruence.
Qed.

Lemma copyCompressedFile_Ret from to w w' :
  at_path from <> at_path (to +:+ ".new") -> at_path to <> at_path (to +:+ ".new") ->
  copyCompressedFile from to w = (Ret tt, w') ->
  exists fs, made_dirs (Dir (to +:+ ".new")) (w_fs w) fs /\
    ((exists f f', w_fs w !! at_path from = Some (FileNode f) /\ f_data f' = f_data f /\
        w_fs w' = <[at_path to := FileNode f']> (delete (at_path (to +:+ ".new")) fs)) \/
     (w_fs w' = fs /\ exists w1 e w2, w_fs w1 = fs /\ os_Create (to +:+ ".new") w1 = (Fail e, w2))).
Proof.
  intros Hne Hnew H. unfold copyCompressedFile in H. inv_bind H. inv_bind H. inv_bind H. destruct v.
  apply MkdirAll_made in Hstep as Ha. destruct Ha as [Ha Ha'].
  apply Open_Ret in Hstep0 as [E0 _]. exists (w_fs st). split; [done|].
  apply try_inv in Hstep1. destruct v1 as [[]|e].
  - left. inv_bind H. inv_bind H. destruct v1.
    destruct (copy_created_Ret _ _ _ _ _ _ _ _ Hne Hstep1 Hstep0 Hstep2) as (f & m & t & Hf & Hw).
    rewrite E0 in *. apply Rename_Ret in H as (f' & Hf' & Hr). rewrite Hw in Hf', Hr.
    rewrite lookup_node_ne in Hf'.
    2: { intros En. apply OpenFile_Ret in Hstep1 as (_ & ? & _). done. }
    rewrite lookup_insert_eq in Hf'. simplify_eq. rewrite delete_insert_eq in Hr.
    exists f, (mkFile (f_data f) m t). split; [|done]. by eapply adds_dirs_file in Ha as [? _]; eauto.
  - right. injection H as <-. split; [|eauto]. apply OpenFile_Fail in Hstep1. congruence.
Qed.

(** Without faults, and with no directory in the way, the copies are made. *)
Lemma copyCompressedFile_made from to k x w w' :
  (forall t, env_fault t = None) ->
  at_path from <> at_path (to +:+ ".new") -> at_path to <> at_path (to +:+ ".new") ->
  at_path (to +:+ ".new") = k ++ [x] -> at_path (Dir (to +:+ ".new")) = k ->
  w_fs w !! at_path (to +:+ ".new") <> Some DirNode ->
  copyCompressedFile from to w = (Ret tt, w') ->
  exists f f' fs, made_dirs (Dir (to +:+ ".new")) (w_fs w) fs /\ w_fs w !! at_path from = Some (FileNode f) /\
    f_data f' = f_data f /\
    w_fs w' = <[at_path to := FileNode f']> (delete (at_path (to +:+ ".new")) fs).
Proof.
  intros Hnf Hne Hnew Hk Hdir Hnd H.
  apply copyCompressedFile_Ret in H as (fs & Ha & [(f & f' & Hf & Hd & Hw)|(Hw & w1 & e & w2 & Hw1 & Hc)]);
    [eauto 10| |done|done].
  exfalso. subst fs. rewrite <- Hw1 in Ha. by eapply (Create_made _ k x (w_fs w)) in Hc.
Qed.

Lemma copyFile_made from to k x w w' :
  (forall t, env_fault t = None) -> at_path from <> at_path to ->
  at_path to = k ++ [x] -> at_path (Dir to) = k -> w_fs w !! at_path to <> Some DirNode ->
  copyFile from to w = (Ret tt, w') ->
  exists f f' fs, made_dirs (Dir to) (w_fs w) fs /\ w_fs w !! at_path from = Some (FileNode f) /\
    f_data f' = f_data f /\ w_fs w' = <[at_path to := FileNode f']> fs.
Proof.
  intros Hnf Hne Hk Hdir Hnd H.
  apply copyFile_Ret in H as (fs & Ha & [(f & m & t & Hf & Hw)|(Hw & w1 & e & w2 & Hw1 & Hc)]); [| |done].
  - exists f, (mkFile (f_data f) m t), fs. done.
  - exfalso. subst fs. rewrite <- Hw1 in Ha. by eapply (Create_made _ k x (w_fs w)) in Hc.
Qed.

Lemma wf_copyFile from to : within (on_fs keeps_wf) (copyFile from to).
Proof. unfold copyFile. within_auto. Qed.

Lemma wf_copyCompressedFile from to : within (on_fs keeps_wf) (copyCompressedFile from to).
Proof. unfold copyCompressedFile. within_auto. Qed.

Lemma within_isArchive (R : relation fsmap) `{!PreOrder R} p : within (on_fs R) (isArchive p).
Proof. unfold isArchive. within_auto. Qed.

(** ** The cache file *)

Lemma within_retrieveChecksum (R : relation fsmap) `{!PreOrder R} p :
  within (on_fs R) (retrieveChecksumFromFile p).
Proof. unfold retrieveChecksumFromFile. within_auto. Qed.

(** A cache that is read is the file's first two fields. *)
Lemma retrieveChecksum_Ret p w ac w' :
  retrieveChecksumFromFile p w = (Ret (Some ac), w') ->
  w_fs w' = w_fs w /\ exists f rest, w_fs w !! at_path p = Some (FileNode f) /\
    Split (f_data f) "|" = source ac :: checksum ac :: rest.
Proof.
  unfold retrieveChecksumFromFile. intros H. inv_bind H. apply try_inv in Hstep. destruct v as [data|e].
  - apply ReadFile_Ret in Hstep as (Hfs & f & Hf & <-).
    destruct (Split (f_data f) "|") as [|x [|y rest]] eqn:Es; [done|done|]. injection H as <- <-.
    split; [done|]. by exists f, rest.
  - by destruct (errors_Is e ErrNotExist).
Qed.

(** What is read back from a cache file. *)
Lemma retrieveChecksum_file p w f :
  env_fault (w_tick w) = None -> env_fault (S (w_tick w)) = None ->
  fs_wf (w_fs w) -> w_fs w !! at_path p = Some (FileNode f) ->
  (retrieveChecksumFromFile p w).1 =
    match Split (f_data f) "|" with
    | s :: c :: _ => Ret (Some (mkArtifactCache s c))
    | _ => Panicked "index out of range [1] with length 1"
    end.
Proof.
  intros F1 F2 Hwf Hf.
  assert (at_path p <> []) as Hne by (intros En; rewrite En in Hf; destruct Hwf; congruence).
  assert (lookup_node (w_fs w) (at_path p) = Some (FileNode f)) as Hl by by rewrite lookup_node_ne.
  unfold retrieveChecksumFromFile, os_ReadFile, os_Open, read_all, fs_call, mbind, M_bind, try.
  rewrite F1. unfold p_stat. rewrite (check_dirs_wf_node _ _ _ Hwf Hl), Hl. simpl.
  rewrite F2. unfold p_read. rewrite Hl. by destruct (Split (f_data f) "|") as [|s [|c l]].
Qed.
End Copies.

Lemma toString_split s c :
  byte_in "|" s = false -> byte_in "|" c = false -> Split (toString (mkArtifactCache s c)) "|" = [s; c].
Proof.
  intros Hs Hc. change (toString (mkArtifactCache s c)) with (s +:+ ("|" +:+ (c +:+ ""))).
  rewrite append_nil_r. change ("|" +:+ c) with (String "|" c).
  rewrite Split_append by done. by rewrite Split_no_sep.
Qed.

(** What is read back: a source and a checksum without bars, those that were
    written when they have none. *)
Lemma toString_pieces ac :
  exists s c rest, Split (toString ac) "|" = s :: c :: rest /\
    byte_in "|" s = false /\ byte_in "|" c = false /\
    (byte_in "|" (source ac) = false /\ byte_in "|" (checksum ac) = false -> mkArtifactCache s c = ac).
Proof.
  destruct ac as [a b]. simpl.
  assert (toString (mkArtifactCache a b) = a +:+ String "|" b) as E.
  { change (toString (mkArtifactCache a b)) with (a +:+ ("|" +:+ (b +:+ ""))). by rewrite append_nil_r. }
  pose proof (Split_pieces (toString (mkArtifactCache a b)) "|") as H.
  assert (exists s c rest, Split (toString (mkArtifactCache a b)) "|" = s :: c :: rest) as (s & c & rest & Hs).
  { rewrite E, Split_app. destruct (Split_cons a "|") as (x & xs & ->), (Split_cons b "|") as (y & ys & ->).
    destruct xs; simpl; eauto. }
  exists s, c, rest. rewrite Hs in H |- *. inversion H as [|? ? Ha H']; subst. inversion H' as [|? ? Hb _]; subst.
  split_and!; [done..|]. intros [Na Nb]. rewrite (toString_split a b Na Nb) in Hs. by injection Hs as <- <- _.
Qed.

#[export] Hint Resolve within_sha1Checksum wf_copyFile wf_copyCompressedFile within_isArchive
  within_retrieveChecksum wf_extractFile wf_extractArchive : src.

(** ** What the helpers touch *)

Section Touch.
Context `{E : Env} `{T : TarGz}.

Lemma touch_copyFile from to :
  within (on_fs (touches (fun k => on_path_to (at_path (Dir to)) k \/ k = at_path to))) (copyFile from to).
Proof.
  unfold copyFile. within_auto.
  - eapply within_touches_mono; [|apply touch_MkdirAll]. auto.
  - eapply within_touches_mono; [|apply touch_Create]. unfold is_key. auto.
  - eapply within_touches_mono; [|apply touch_write_all]. unfold is_key. auto.
Qed.

Lemma touch_copyCompressedFile from to :
  within (on_fs (touches (fun k => on_path_to (at_path (Dir (to +:+ ".new"))) k \/
                            k = at_path (to +:+ ".new") \/ k = at_path to)))
    (copyCompressedFile from to).
Proof.
  unfold copyCompressedFile. within_auto.
  - eapply within_touches_mono; [|apply touch_MkdirAll]. auto.
  - eapply within_touches_mono; [|apply touch_Create]. unfold is_key. auto.
  - eapply within_touches_mono; [|apply touch_write_all]. unfold is_key. auto.
  - eapply within_touches_mono; [|apply touch_Rename]. naive_solver.
Qed.

(** [createTarGz] does to the tree what opening and writing its output do. *)
Lemma within_createTarGz (R : relation fsmap) `{!PreOrder R} dir name :
  within (on_fs R) (os_Create name) -> (forall d, within (on_fs R) (write_all name d)) ->
  within (on_fs R) (createTarGz dir name).
Proof.
  intros Hc Hw. unfold createTarGz.
  assert (forall b, within (on_fs (S := TarState) R) (emit name b)) as Hemit.
  { intros b. unfold emit. case_decide; within_auto; auto. intros s. simpl. by unfold on_fs. }
  assert (forall f, within (on_fs (S := TarState) R) (tar_call name f)) as Hcall.
  { intros f. unfold tar_call. within_auto; auto. intros s'. simpl. by unfold on_fs. }
  apply within_bind; [apply _|done|]. intros _.
  apply (within_zoom (on_fs (S := TarState) R)); [by unfold on_fs|].
  apply within_defer; [apply _| |].
  - unfold close_writers. within_auto; auto.
  - apply within_WalkDir; [apply _|]. intros p n. unfold tar_entry. within_auto; auto.
Qed.

Lemma touch_createTarGz dir name :
  within (on_fs (touches (is_key (at_path name)))) (createTarGz dir name).
Proof. apply within_createTarGz; [apply _|apply touch_Create|intros d; apply touch_write_all]. Qed.

Lemma wf_createTarGz dir name : within (on_fs keeps_wf) (createTarGz dir name).
Proof. apply within_createTarGz; [apply _|apply wf_Create|intros d; apply wf_write_all]. Qed.
End Touch.

#[export] Hint Resolve wf_createTarGz : src.
