(* ===== verification/Extraction.v ===== *)
(** * What an extraction that succeeds leaves on disk

    The files of an archive as a function from paths to contents, and that
    [extractArchive] (controllers/mavenartifact_controller.go), when it
    returns, leaves exactly those below its destination. *)

From S2P Require Import Prelude GoStrings GoPath GoErrors Effects World GoOS GoOSFacts.
From S2P Require Import ArtifactFiles ArtifactFilesFacts.

(** The contents of the file at [k]. *)
Definition file_data (fs : fsmap) (k : list string) : option string :=
  match fs !! k with Some (FileNode f) => Some (f_data f) | _ => None end.

Lemma file_data_insert fs k f q :
  file_data (<[k := FileNode f]> fs) q = if decide (q = k) then Some (f_data f) else file_data fs q.
Proof.
  unfold file_data. destruct (decide (q = k)) as [->|Hne]; [by rewrite lookup_insert_eq|].
  by rewrite lookup_insert_ne.
Qed.

Lemma file_data_mkdir fs k q : fs !! k = None -> file_data (<[k := DirNode]> fs) q = file_data fs q.
Proof.
  intros Hk. unfold file_data. destruct (decide (q = k)) as [->|Hne]; [by rewrite lookup_insert_eq, Hk|].
  by rewrite lookup_insert_ne.
Qed.

Lemma file_data_adds_dirs fs fs' q : adds_dirs fs fs' -> file_data fs' q = file_data fs q.
Proof. intros H. unfold file_data. by destruct (H q) as [->|[-> ->]]. Qed.

Lemma file_data_chtimes fs k t q : file_data (p_chtimes k t fs).2 q = file_data fs q.
Proof.
  unfold p_chtimes. destruct (check_dirs fs [] k); [done|].
  destruct (lookup_node fs k) as [[|f]|] eqn:El; [done| |done]. cbn.
  rewrite file_data_insert. destruct (decide (q = k)) as [->|]; [|done].
  rewrite lookup_node_ne in El by (by intros ->). unfold file_data. by rewrite El.
Qed.

Section Extraction.
Context `{E : Env}.

(** What the entry [f] puts at [k]: its contents, if it is a regular file
    whose name is joined to that path. *)
Definition entry_at (dest : string) (k : list string) (f : zip_file) : option string :=
  if IsDir f then None
  else match safeArchiveEntryPath dest (zf_Name f), zf_Open f with
       | inl p, inl (d, None) => if decide (at_path p = k) then Some d else None
       | _, _ => None
       end.

(** Of several entries at one path, the last one stays. *)
Fixpoint archive_file (dest : string) (files : list zip_file) (k : list string) : option string :=
  match files with
  | [] => None
  | f :: files' =>
      match archive_file dest files' k with
      | Some d => Some d
      | None => entry_at dest k f
      end
  end.

(** Every entry of an archive that is extracted could be. *)
Definition extractable (dest : string) (f : zip_file) : Prop :=
  (exists p, safeArchiveEntryPath dest (zf_Name f) = inl p) /\
  (IsDir f = false -> exists d, zf_Open f = inl (d, None)).

Lemma Chtimes_data p t w u w' q :
  ignore_err (os_Chtimes p t) w = (Ret u, w') -> file_data (w_fs w') q = file_data (w_fs w) q.
Proof.
  unfold ignore_err, os_Chtimes, fs_call. destruct (env_fault (w_tick w)); [by intros [= _ <-]|].
  pose proof (file_data_chtimes (w_fs w) (at_path p) t q) as H.
  destruct (p_chtimes (at_path p) t (w_fs w)) as [[[]|e] fs]; intros [= _ <-]; exact H.
Qed.

Lemma copy_data p mode content w u w' :
  (_ ← os_OpenFile p mode; copy_to p content) w = (Ret u, w') ->
  content.2 = None /\
  forall q, file_data (w_fs w') q = if decide (q = at_path p) then Some content.1 else file_data (w_fs w) q.
Proof.
  intros H. inv_bind H. unfold copy_to in H. inv_bind H. destruct v, v0.
  destruct content as [d [e|]]; [done|]. split; [done|]. intros q.
  destruct (create_write_Ret _ _ _ _ _ _ Hstep Hstep0) as (m & t & E').
  injection H as _ <-. cbn in E'. rewrite E'. apply file_data_insert.
Qed.

Lemma extractFile_Ret dest f p w u w' :
  safeArchiveEntryPath dest (zf_Name f) = inl p -> extractFile f p w = (Ret u, w') ->
  extractable dest f /\
  forall q, file_data (w_fs w') q =
    match entry_at dest q f with Some d => Some d | None => file_data (w_fs w) q end.
Proof.
  intros Hp H. unfold extractFile in H. inv_bind H.
  assert (forall q, file_data (w_fs w') q = file_data (w_fs st) q) as Hd
    by (intros q; by eapply Chtimes_data).
  unfold extractable, entry_at. rewrite Hp. destruct (IsDir f).
  - split; [split; [by eexists|done]|]. intros q. rewrite Hd. apply file_data_adds_dirs.
    pose proof (adds_MkdirAll p w) as Ha. unfold on_fs in Ha. by rewrite Hstep in Ha.
  - inv_bind Hstep. unfold zip_Open in Hstep0. inv_bind Hstep0.
    destruct (zf_Open f) as [[d e]|e]; [|done]. injection Hstep0 as <- <-.
    apply copy_data in Hstep as [He Hq]. simpl in He. subst e. split; [split; [by eexists|intros; by eexists]|].
    intros q. rewrite Hd, Hq. apply read_all_Ret in Hstep1 as [<- _].
    destruct (decide (q = at_path p)) as [->|Hne]; [by rewrite decide_True|by rewrite decide_False].
Qed.

Lemma extract_entries_Ret dest files w u w' :
  for_each files (fun f => filePath ← of_sum (safeArchiveEntryPath dest (zf_Name f)); extractFile f filePath) w =
    (Ret u, w') ->
  Forall (extractable dest) files /\
  forall q, file_data (w_fs w') q =
    match archive_file dest files q with Some d => Some d | None => file_data (w_fs w) q end.
Proof.
  revert w. induction files as [|f files IH]; intros w H; [by injection H as _ <-|].
  cbn [for_each] in H. inv_bind H. inv_bind Hstep.
  destruct (safeArchiveEntryPath dest (zf_Name f)) as [p|e] eqn:Ep; [|done]. injection Hstep0 as <- <-.
  destruct (extractFile_Ret _ _ _ _ _ _ Ep Hstep) as [Hf Hq], (IH _ H) as [Hfs Hqs].
  split; [by constructor|]. intros q. rewrite Hqs, Hq. simpl. by destruct (archive_file dest files q).
Qed.

(** Below a directory just made there is no file. *)
Lemma file_data_below fs k l : fs_wf fs -> fs !! k = None -> k <> [] -> file_data fs (k ++ l) = None.
Proof.
  intros Hwf Hk Hne. unfold file_data. destruct (decide (l = [])) as [->|Hl].
  - by rewrite app_nil_r, Hk.
  - destruct (fs !! (k ++ l)) as [n|] eqn:En; [|done].
    apply fs_wf_prefix in En; [|done..]. rewrite lookup_node_ne in En by done. congruence.
Qed.

Context `{ZR : Zip}.

Lemma extractArchive_data parentDir jar w d w' :
  fs_wf (w_fs w) -> extractArchive parentDir jar w = (Ret d, w') ->
  exists data files, file_data (w_fs w) (at_path jar) = Some data /\ zip_NewReader jar data = inl files /\
    d = extracted parentDir /\ Forall (extractable d) files /\
  forall l, file_data (w_fs w') (at_path d ++ l) = archive_file d files (at_path d ++ l).
Proof.
  intros Hwf H. unfold extractArchive, zip_OpenReader in H. inv_bind H. inv_bind H. inv_bind H.
  injection H as <- <-. inv_bind Hstep. inv_bind Hstep. destruct v0.
  apply Open_Ret in Hstep2 as [Hf1 _]. apply read_all_Ret in Hstep3 as (Hf2 & n & Hn & <-).
  destruct (zip_NewReader jar _) as [files|e] eqn:Ez; [|done]. injection Hstep as <- <-.
  rewrite Hf1 in *. rewrite <- Hf2 in Hn. rewrite <- Hf2 in Hwf.
  exists (f_data n), files. unfold file_data at 1. rewrite <- Hf2, Hn. split; [done|]. split; [done|]. split; [done|].
  apply extract_entries_Ret in Hstep1 as [Hex Hq]. split; [done|]. intros l. rewrite Hq.
  destruct (archive_file _ files _); [done|]. apply Mkdir_Ret in Hstep0 as (Hnone & _ & ->).
  rewrite at_path_extracted in *. rewrite lookup_node_ne in Hnone by (by destruct (at_path parentDir)).
  rewrite file_data_mkdir by done. apply file_data_below; [done|done|by destruct (at_path parentDir)].
Qed.
End Extraction.
