(* ===== verification/TarFacts.v ===== *)
(** * The compressed tarball holds exactly the files of its directory

    Walking order is a total order on paths, so that the list of entries
    depends only on the tree below the root; then the run of [createTarGz]
    is followed entry by entry. *)

From stdpp Require Import sorting.
From S2P Require Import Prelude GoStrings GoPath GoErrors Effects World GoOS GoOSFacts Sha1.
From S2P Require Import ArtifactFiles ArtifactFilesFacts.

(** ** The order of a walk *)

Lemma string_compare_refl s : String.compare s s = Eq.
Proof.
  pose proof (String.compare_antisym s s) as H. by destruct (String.compare s s).
Qed.

Lemma ascii_compare_trans a b c :
  Ascii.compare a b = Lt -> Ascii.compare b c = Lt -> Ascii.compare a c = Lt.
Proof. unfold Ascii.compare. rewrite !N.compare_lt_iff. lia. Qed.

Lemma ascii_compare_Eq a b : Ascii.compare a b = Eq -> a = b.
Proof. apply Ascii.compare_eq_iff. Qed.

Lemma string_compare_trans a b c :
  String.compare a b = Lt -> String.compare b c = Lt -> String.compare a c = Lt.
Proof.
  revert b c. induction a as [|x a IH]; intros [|y b] [|z c]; simpl; try done.
  destruct (Ascii.compare x y) eqn:E1, (Ascii.compare y z) eqn:E2; intros H1 H2; try done.
  - apply ascii_compare_Eq in E1 as ->. rewrite E2. by eapply IH.
  - apply ascii_compare_Eq in E1 as ->. by rewrite E2.
  - apply ascii_compare_Eq in E2 as <-. by rewrite E1.
  - by rewrite (ascii_compare_trans _ _ _ E1 E2).
Qed.

Lemma path_leb_trans a b c : path_leb a b = true -> path_leb b c = true -> path_leb a c = true.
Proof.
  revert b c. induction a as [|x a IH]; intros [|y b] [|z c]; simpl; try done.
  destruct (String.compare x y) eqn:E1, (String.compare y z) eqn:E2; intros H1 H2; try done.
  - apply String.compare_eq_iff in E1 as ->. rewrite E2. by eapply IH.
  - apply String.compare_eq_iff in E1 as ->. by rewrite E2.
  - apply String.compare_eq_iff in E2 as <-. by rewrite E1.
  - by rewrite (string_compare_trans _ _ _ E1 E2).
Qed.

Lemma path_leb_total a b : path_leb a b = true \/ path_leb b a = true.
Proof.
  revert b. induction a as [|x a IH]; intros [|y b]; simpl; auto.
  rewrite (String.compare_antisym y x). destruct (String.compare x y) eqn:E; simpl; auto.
Qed.

Lemma path_leb_antisym a b : path_leb a b = true -> path_leb b a = true -> a = b.
Proof.
  revert b. induction a as [|x a IH]; intros [|y b]; simpl; try done.
  rewrite (String.compare_antisym y x). destruct (String.compare x y) eqn:E; simpl; try done.
  apply String.compare_eq_iff in E as ->. intros H1 H2. f_equal. auto.
Qed.

#[export] Instance entry_le_trans : Transitive entry_le.
Proof. intros x y z. apply path_leb_trans. Qed.
#[export] Instance entry_le_total : Total entry_le.
Proof. intros x y. apply path_leb_total. Qed.

(** The entries below [k], before they are put in order. *)
Definition below (k : list string) (fs : fsmap) : list (list string * node) :=
  omap (fun '(q, n) => match drop_prefix k q with
                       | Some (c :: r) => Some (c :: r, n)
                       | _ => None
                       end) (map_to_list fs).

Lemma elem_of_below k fs r n : (r, n) ∈ below k fs <-> r <> [] /\ fs !! (k ++ r) = Some n.
Proof.
  unfold below. rewrite list_elem_of_omap. split.
  - intros ([q m] & Hq & Hr). apply elem_of_map_to_list in Hq.
    destruct (drop_prefix k q) as [[|c l]|] eqn:Ed; simplify_eq.
    apply drop_prefix_Some in Ed as ->. done.
  - intros [Hr Hl]. exists (k ++ r, n). split; [by apply elem_of_map_to_list|].
    assert (drop_prefix k (k ++ r) = Some r) as -> by by apply drop_prefix_Some.
    by destruct r.
Qed.

Lemma NoDup_below_fst k fs : NoDup (below k fs).*1.
Proof.
  unfold below. pose proof (NoDup_fst_map_to_list fs) as H.
  induction (map_to_list fs) as [|[q n] l IH]; [constructor|]. simpl in H.
  apply NoDup_cons in H as [Hq H]. simpl.
  destruct (drop_prefix k q) as [[|c r]|] eqn:Ed; [by apply IH| |by apply IH].
  simpl. constructor; [|by apply IH]. intros Hin. apply Hq.
  apply list_elem_of_fmap in Hin as ([r' m] & Hr & Hin). simpl in Hr. subst r'.
  apply list_elem_of_omap in Hin as ([q' m'] & Hin & Hd).
  destruct (drop_prefix k q') as [[|c' r']|] eqn:Ed'; simplify_eq.
  apply drop_prefix_Some in Ed. apply drop_prefix_Some in Ed'.
  apply list_elem_of_fmap. exists (q', m). split; [|done]. simpl. congruence.
Qed.

Lemma elem_of_entries_below k fs r n :
  (r, n) ∈ entries_below k fs <-> r <> [] /\ fs !! (k ++ r) = Some n.
Proof.
  rewrite <- elem_of_below. unfold entries_below. fold (below k fs).
  by rewrite (merge_sort_Permutation entry_le (below k fs)).
Qed.

(** The listing depends only on what is below the root. *)
Lemma entries_below_ext k fs fs' :
  (forall r, r <> [] -> fs !! (k ++ r) = fs' !! (k ++ r)) ->
  entries_below k fs = entries_below k fs'.
Proof.
  intros H. unfold entries_below. fold (below k fs). fold (below k fs').
  assert (below k fs ≡ₚ below k fs') as Hp.
  { apply NoDup_Permutation; [eapply NoDup_fmap_1, NoDup_below_fst..|].
    intros [r n]. rewrite !elem_of_below. split; intros [Hr Hl]; (split; [done|]);
      [by rewrite <- H|by rewrite H]. }
  apply (StronglySorted_unique_strong entry_le).
  - intros [r n] [r' n'] H1 H2 L1 L2. unfold entry_le in *. simpl in *.
    assert (r = r') as -> by by apply path_leb_antisym.
    rewrite (merge_sort_Permutation entry_le) in H1, H2.
    apply elem_of_below in H1 as [Hr H1]. apply elem_of_below in H2 as [_ H2].
    rewrite H in H1 by done. congruence.
  - apply StronglySorted_merge_sort; apply _.
  - apply StronglySorted_merge_sort; apply _.
  - by rewrite !merge_sort_Permutation.
Qed.

(** ** The files of a directory, as the tarball lists them *)

Definition tar_file (e : list string * node) : option (tar_header * string) :=
  match e with
  | (r, FileNode f) => Some (tar_FileInfoHeader (FileNode f) (JoinWith "/" r), f_data f)
  | (_, DirNode) => None
  end.

Definition tar_files (k : list string) (fs : fsmap) : list (tar_header * string) :=
  omap tar_file (entries_below k fs).

(** ** Following a run *)

Section Run.
Context `{E : Env} `{T : TarGz}.
Context (no_faults : forall t, env_fault t = None).
Context (dir out : string) (fs0 : fsmap).
Context (out_outside : ~ at_path dir `prefix_of` at_path out).
Context (dir_exists : lookup_node fs0 (at_path dir) = Some DirNode).
Context (names : forall r n, fs0 !! (at_path dir ++ r) = Some n -> Forall normal r).

(** The tree is [fs0] but for the output, which holds [acc]. *)
Definition out_is (acc : string) (s : TarState) : Prop :=
  ts_broken s = false /\ fs_wf (w_fs (ts_world s)) /\
  exists m t, w_fs (ts_world s) = <[at_path out := FileNode (mkFile acc m t)]> fs0.

Lemma out_is_lookup acc s r : out_is acc s ->
  w_fs (ts_world s) !! (at_path dir ++ r) = fs0 !! (at_path dir ++ r).
Proof.
  intros (_ & _ & m & t & ->). rewrite lookup_insert_ne; [done|].
  intros Eq. apply out_outside. by exists r.
Qed.

Lemma emit_out b acc s :
  out_is acc s ->
  exists s', emit out b s = (Ret tt, s') /\ out_is (acc +:+ b) s' /\ ts_enc s' = ts_enc s.
Proof.
  intros (Hb & Hwf & m & t & Hfs). unfold emit. case_decide as Eb.
  { subst b. exists s. rewrite append_nil_r. split; [done|]. split; [|done].
    repeat split; eauto; apply Hwf. }
  pose proof (wf_write_all out b (ts_world s) Hwf) as Hwf'. revert Hwf'.
  unfold io, zoom, mbind, M_bind, try, write_all. simpl. rewrite no_faults. simpl.
  intros Hwf'. eexists. split; [done|]. split; [|done]. split; [done|]. split; [done|].
  exists m, (env_clock (w_tick (ts_world s))). simpl. unfold p_append.
  rewrite Hfs, lookup_insert_eq. by rewrite insert_insert_eq.
Qed.

Lemma tar_call_out f acc s e b :
  out_is acc s -> f (ts_enc s) = (e, b, None) ->
  exists s', tar_call out f s = (Ret tt, s') /\ out_is (acc +:+ b) s' /\ ts_enc s' = e.
Proof.
  intros Ho Hf. unfold tar_call, mbind, M_bind, gets, modify. rewrite Hf.
  destruct (emit_out b acc (mkTarState (ts_world s) e (ts_broken s))) as (s' & -> & Ho' & He).
  - destruct Ho as (? & ? & ?). done.
  - exists s'. done.
Qed.

(** A call of the world that reads. *)
Lemma io_read {A : Type} op p (f : nat -> fsmap -> (A + Errno) * fsmap) a acc s :
  out_is acc s -> (forall t, f t (w_fs (ts_world s)) = (inl a, w_fs (ts_world s))) ->
  exists s', io (fs_call op p f) s = (Ret a, s') /\ out_is acc s' /\ ts_enc s' = ts_enc s.
Proof.
  intros (Hb & Hwf & m & t & Hfs) Hf. unfold io, zoom, fs_call. simpl. rewrite no_faults, Hf.
  eexists. split; [done|]. split; [|done]. repeat split; simpl; [done|apply Hwf|apply Hwf|eauto].
Qed.

Lemma open_out p n acc s :
  out_is acc s -> lookup_node (w_fs (ts_world s)) (at_path p) = Some n ->
  exists s', io (os_Open p) s = (Ret n, s') /\ out_is acc s' /\ ts_enc s' = ts_enc s.
Proof.
  intros Ho Hl. apply (io_read "open" p); [done|]. intros _. unfold p_stat.
  destruct Ho as (_ & Hwf & _). by rewrite (check_dirs_wf_node _ _ n), Hl.
Qed.

Lemma stat_out p n acc s :
  out_is acc s -> lookup_node (w_fs (ts_world s)) (at_path p) = Some n ->
  exists s', io (file_Stat p) s = (Ret n, s') /\ out_is acc s' /\ ts_enc s' = ts_enc s.
Proof. intros Ho Hl. apply (io_read "stat" p); [done|]. intros _. by rewrite Hl. Qed.

Lemma read_out p f acc s :
  out_is acc s -> lookup_node (w_fs (ts_world s)) (at_path p) = Some (FileNode f) ->
  exists s', io (read_all p) s = (Ret (f_data f), s') /\ out_is acc s' /\ ts_enc s' = ts_enc s.
Proof. intros Ho Hl. apply (io_read "read" p); [done|]. intros _. unfold p_read. by rewrite Hl. Qed.

Definition path_of (r : list string) : string := match r with [] => dir | _ => Join (dir :: r) end.

Lemma at_path_of r : Forall normal r -> at_path (path_of r) = at_path dir ++ r.
Proof. intros H. destruct r; [by rewrite app_nil_r|]. by apply key_Join. Qed.

Lemma tar_entry_file r f acc s e1 b1 e2 b2 :
  out_is acc s -> r <> [] -> fs0 !! (at_path dir ++ r) = Some (FileNode f) ->
  tz_header (ts_enc s) (tar_FileInfoHeader (FileNode f) (JoinWith "/" r)) = (e1, b1, None) ->
  tz_write e1 (f_data f) = (e2, b2, None) ->
  exists s', tar_entry dir out (path_of r) (inl (FileNode f)) s = (Ret tt, s') /\
    out_is (acc +:+ (b1 +:+ b2)) s' /\ ts_enc s' = e2.
Proof.
  intros Ho Hr Hf H1 H2. pose proof (names _ _ Hf) as Hn.
  pose proof (at_path_of r Hn) as Hk.
  assert (at_path dir ++ r <> []) as Hne by (by destruct (at_path dir); [|done]).
  assert (forall acc s, out_is acc s ->
    lookup_node (w_fs (ts_world s)) (at_path (path_of r)) = Some (FileNode f)) as Hl.
  { intros acc' s' Ho'. rewrite Hk, lookup_node_ne by done. by rewrite (out_is_lookup acc'). }
  unfold tar_entry. unfold mbind, M_bind, try.
  destruct (open_out _ _ acc s Ho (Hl _ _ Ho)) as (s1 & -> & Ho1 & He1).
  destruct (stat_out _ _ acc s1 Ho1 (Hl _ _ Ho1)) as (s2 & -> & Ho2 & He2).
  assert (Rel dir (path_of r) = Some (JoinWith "/" r)) as ->.
  { unfold path_of. destruct r; [done|]. by apply Rel_below. }
  rewrite <- He1, <- He2 in H1.
  destruct (tar_call_out (fun e => tz_header e (tar_FileInfoHeader (FileNode f) (JoinWith "/" r)))
              acc s2 e1 b1 Ho2 H1) as (s3 & -> & Ho3 & He3).
  destruct (read_out _ _ _ s3 Ho3 (Hl _ _ Ho3)) as (s4 & -> & Ho4 & He4).
  rewrite <- He3, <- He4 in H2.
  destruct (tar_call_out (fun e => tz_write e (f_data f)) _ s4 e2 b2 Ho4 H2) as (s5 & -> & Ho5 & He5).
  exists s5. rewrite <- append_assoc. done.
Qed.

(** The body of the walk. *)
Definition visit (e : list string * node) : M TarState unit :=
  let '(r, n) := e in
  _ ← tar_entry dir out (path_of r) (inl n);
  match n with
  | FileNode _ => mret tt
  | DirNode =>
      l ← try (io (fs_call "readdirent" (path_of r) (fun _ fs => (inl tt, fs))));
      match l with inl _ => mret tt | inr e => tar_entry dir out (path_of r) (inr e) end
  end.

Lemma visit_dir r acc s :
  out_is acc s -> exists s', visit (r, DirNode) s = (Ret tt, s') /\ out_is acc s' /\ ts_enc s' = ts_enc s.
Proof.
  intros Ho. unfold visit, tar_entry. rewrite bind_ret_l. unfold mbind, M_bind, try.
  destruct (io_read "readdirent" (path_of r) (fun _ fs => (inl tt, fs)) tt acc s) as (s' & -> & ?); eauto.
Qed.

Lemma visit_all l acc s b :
  out_is acc s -> (forall r n, (r, n) ∈ l -> r <> [] /\ fs0 !! (at_path dir ++ r) = Some n) ->
  targz_from (ts_enc s) (omap tar_file l) = Some b ->
  exists s' acc', for_each l visit s = (Ret tt, s') /\ out_is (acc +:+ acc') s' /\
    b = acc' +:+ tz_close (ts_enc s').
Proof.
  revert acc s b. induction l as [|[r n] l IH]; intros acc s b Ho Hl Hb.
  { exists s, "". rewrite append_nil_r. simpl in Hb. by injection Hb as <-. }
  assert (forall r n, (r, n) ∈ l -> r <> [] /\ fs0 !! (at_path dir ++ r) = Some n) as Hl'
    by (intros r' n' ?; apply Hl; by right).
  destruct (Hl r n) as [Hr Hn]; [left|]. cbn [for_each]. unfold mbind, M_bind at 1.
  destruct n as [|f].
  - destruct (visit_dir r acc s Ho) as (s1 & -> & Ho1 & He). simpl in Hb. rewrite <- He in Hb.
    by apply IH.
  - simpl in Hb.
    destruct (tz_header _ _) as [[e1 b1] [?|]] eqn:H1; [done|].
    destruct (tz_write _ _) as [[e2 b2] [?|]] eqn:H2; [done|].
    destruct (targz_from e2 _) as [b3|] eqn:H3; [|done]. injection Hb as <-.
    destruct (tar_entry_file r f acc s e1 b1 e2 b2 Ho Hr Hn H1 H2) as (s1 & Es & Ho1 & He).
    assert (visit (r, FileNode f) s = (Ret tt, s1)) as ->.
    { unfold visit, mbind, M_bind. by rewrite Es. }
    rewrite <- He in H3. destruct (IH _ _ _ Ho1 Hl' H3) as (s2 & acc' & -> & Ho2 & ->).
    exists s2, (b1 +:+ (b2 +:+ acc')). rewrite !append_assoc in Ho2. rewrite !append_assoc. done.
Qed.

Lemma walk_visits :
  WalkDir dir (tar_entry dir out) =
  (r ← try (io (os_Stat dir));
   match r with
   | inr e => tar_entry dir out dir (inr e)
   | inl n =>
       below ← gets (fun s => entries_below (at_path dir) (w_fs (the_world s)));
       for_each (([], n) :: match n with DirNode => below | FileNode _ => [] end) visit
   end).
Proof. reflexivity. Qed.

Lemma walk_out acc s b :
  out_is acc s -> targz_from (ts_enc s) (tar_files (at_path dir) fs0) = Some b ->
  exists s' acc', WalkDir dir (tar_entry dir out) s = (Ret tt, s') /\ out_is (acc +:+ acc') s' /\
    b = acc' +:+ tz_close (ts_enc s').
Proof.
  intros Ho Hb. rewrite walk_visits. unfold mbind, M_bind at 1, try.
  assert (lookup_node (w_fs (ts_world s)) (at_path dir) = Some DirNode) as Hd.
  { destruct Ho as (_ & _ & m & t & ->). rewrite lookup_node_insert_ne; [done|].
    intros Eq. apply out_outside. by rewrite Eq. }
  destruct (io_read "stat" dir (fun _ => p_stat (at_path dir)) DirNode acc s)
    as (s1 & Es & Ho1 & He1); [done| |].
  { intros _. unfold p_stat. destruct Ho as (_ & Hwf & _). by rewrite (check_dirs_wf_node _ _ DirNode), Hd. }
  unfold os_Stat. rewrite Es. unfold M_bind at 1, gets.
  assert (entries_below (at_path dir) (w_fs (the_world s1)) = entries_below (at_path dir) fs0) as ->.
  { apply entries_below_ext. intros r _. exact (out_is_lookup acc s1 r Ho1). }
  cbn [for_each]. unfold mbind, M_bind at 1.
  destruct (visit_dir [] acc s1 Ho1) as (s2 & -> & Ho2 & He2).
  apply visit_all; [done| |by rewrite He2, He1].
  intros r n Hin. by apply elem_of_entries_below in Hin.
Qed.
End Run.

(** Without faults, and while the encoder does not refuse a file, the output
    is the encoding of the regular files below [dir]. *)
Lemma createTarGz_run `{E : Env} `{T : TarGz} dir out w b :
  (forall t, env_fault t = None) -> fs_wf (w_fs w) ->
  lookup_node (w_fs w) (at_path dir) = Some DirNode ->
  ~ at_path dir `prefix_of` at_path out ->
  (forall r n, w_fs w !! (at_path dir ++ r) = Some n -> Forall normal r) ->
  check_dirs (w_fs w) [] (at_path out) = None -> lookup_node (w_fs w) (at_path out) <> Some DirNode ->
  targz (tar_files (at_path dir) (w_fs w)) = Some b ->
  exists w' m t, createTarGz dir out w = (Ret tt, w') /\
    w_fs w' = <[at_path out := FileNode (mkFile b m t)]> (w_fs w).
Proof.
  intros Hnf Hwf Hdir Hout Hnames Hcd Hnd Hb. unfold createTarGz.
  assert (exists w1 m t, os_Create out w = (Ret tt, w1) /\
    w_fs w1 = <[at_path out := FileNode (mkFile "" m t)]> (w_fs w)) as (w1 & m1 & t1 & Ec & Hw1).
  { unfold os_Create, os_OpenFile, fs_call. rewrite Hnf. unfold p_create. rewrite Hcd.
    destruct (lookup_node (w_fs w) (at_path out)) as [[|f]|]; [done|eauto|eauto]. }
  unfold mbind, M_bind at 1. rewrite Ec.
  assert (out_is out (w_fs w) "" (mkTarState w1 tz_new false)) as Ho.
  { split; [done|]. split; [|simpl; eauto]. pose proof (wf_Create out w) as H. rewrite Ec in H. by apply H. }
  destruct (walk_out Hnf dir out (w_fs w) Hout Hdir Hnames "" (mkTarState w1 tz_new false) b Ho Hb)
    as (s' & acc & Ew & Ho' & ->). rewrite append_nil_l in Ho'.
  unfold zoom, defer. rewrite Ew. unfold close_writers, mbind, M_bind, gets.
  destruct Ho' as (Hbr & Hwf' & Hfs'). rewrite Hbr.
  destruct (emit_out Hnf out (w_fs w) (tz_close (ts_enc s')) acc s') as (s'' & -> & Ho'' & _).
  { by split. }
  destruct Ho'' as (_ & _ & m & t & Hfs). exists (ts_world s''), m, t. done.
Qed.
