(* ===== verification/MavenDownload.v ===== *)
(** * Downloads from a Maven repository

    The request helpers of controllers/mavenartifact_controller.go: building a
    request with the stashed credentials, and downloading metadata, checksums
    and the artifact itself. *)

From S2P Require Import Prelude GoStrings GoPath GoErrors Effects World GoOS GoOSFacts Sha1.
From S2P Require Import Runtime ApiTypes MavenMetadata Http Stashes ArtifactFiles.
From S2P Require Import ArtifactFilesFacts.

Record MavenArtifactAuthOptionsFromSecret := mkAuthOptions { Username : string; Password : string }.

(** The context of a reconcile: the deadline of its requests and the stash. *)
Record Ctx (Sh : Type) := mkCtx { ctx_Timeout : option Z; ctx_stash : Sh }.
Arguments mkCtx {Sh}.
Arguments ctx_Timeout {Sh}.
Arguments ctx_stash {Sh}.

Section Download.
Context {Sh : Type} `{ST : Stash Sh stash_value} `{E : Env} `{X : Xml}.

(** An entry of a possibly nil map; a missing one reads as no bytes. *)
Definition data_entry (s : Secret) (k : string) : string :=
  match Data s with
  | Some m => default "" (m !! k)
  | None => ""
  end.

(** Never nil: without a secret the credentials are empty strings. *)
Definition basicAuthCredentialsFromSecret (ctx : Ctx Sh) : MavenArtifactAuthOptionsFromSecret :=
  match retrieveAuthSecret (ctx_stash ctx) with
  | Some s => mkAuthOptions (data_entry s "username") (data_entry s "password")
  | None => mkAuthOptions "" ""
  end.

Definition buildRequestObject (ctx : Ctx Sh) (requestType url : string)
    (authOpts : option MavenArtifactAuthOptionsFromSecret) : Request + error :=
  match NewRequestWithContext (ctx_Timeout ctx) requestType url with
  | inr err => inr err
  | inl request =>
      inl match authOpts with
          | Some a => SetBasicAuth request (Username a) (Password a)
          | None => request
          end
  end.

Definition status_error (code : Z) (url : string) : error :=
  downloadError (fmt_Errorf "Error received HTTP status %v getting %q" [AInt code; AStr url]) code.

Definition download (ctx : Ctx Sh) (url : string) (client : HttpClient) : IO string :=
  match buildRequestObject ctx "GET" url (Some (basicAuthCredentialsFromSecret ctx)) with
  | inr err => throw (fmt_Errorf "Error %q while parsing request URL %q" [AErr err; AStr url])
  | inl request =>
      r ← try (Client_Do client request);
      match r with
      | inr err => throw (fmt_Errorf "%s download error %s" [AStr url; AErr err])
      | inl response =>
          if (StatusCode response <? 200) || (300 <=? StatusCode response)
          then throw (status_error (StatusCode response) url)
          else match Body_err response with
               | Some err =>
                   throw (downloadError
                            (fmt_Errorf "Error downloading file data from URL %q: %q" [AStr url; AErr err])
                            (StatusCode response))
               | None => mret (Body response)
               end
      end
  end.

Definition downloadMetadata (ctx : Ctx Sh) (client : HttpClient) (url : string) : IO MavenMetadata :=
  meta ← download ctx url client;
  match Parse (Some meta) with
  | inr err => throw (fmt_Errorf "Error %q while parsing XML data at %q" [AErr err; AStr url])
  | inl parsedData => mret parsedData
  end.

Definition downloadChecksum (ctx : Ctx Sh) (client : HttpClient) (url : string) : IO string :=
  download ctx (Sprintf "%s.%s" [url; "sha1"]) client.

Definition tampered_format : string :=
  "Checksum (%v) of downloaded Maven artifact file %q does not match expected remote checksum (%v). This file may have been tampered with in transit!".

Definition downloadArtifact (ctx : Ctx Sh) (url dir fileName checksum : string) (client : HttpClient)
  : IO string :=
  let artifactDir := Join [dir; "artifact"] in
  _ ← os_Mkdir artifactDir;
  let out := Join [artifactDir; fileName] in
  created ← try (os_Create out);
  match created with
  | inr err => throw (fmt_Errorf "Error creating local Maven artifact file %s %s" [AStr fileName; AErr err])
  | inl _ =>
      match buildRequestObject ctx "GET" url (Some (basicAuthCredentialsFromSecret ctx)) with
      | inr err => throw (fmt_Errorf "Error %q while request parsing URL %q" [AErr err; AStr url])
      | inl request =>
          r ← try (Client_Do client request);
          match r with
          | inr err => throw (fmt_Errorf "%s download error %s" [AStr url; AErr err])
          | inl response =>
              if (StatusCode response <? 200) || (300 <=? StatusCode response)
              then throw (status_error (StatusCode response) url)
              else
                copied ← try (copy_to out (Body response, Body_err response));
                match copied with
                | inr err =>
                    throw (fmt_Errorf "Error downloading Maven artifact file data %q: %q" [AStr out; AErr err])
                | inl _ =>
                    _ ← ignore_err (os_Chtimes out 0);
                    sum ← try (sha1Checksum out);
                    match sum with
                    | inr err =>
                        throw (fmt_Errorf "Error creating checksum value for Maven artifact file %q: %q"
                                 [AStr out; AErr err])
                    | inl fileChecksum =>
                        if negb (bool_decide (fileChecksum = checksum))
                        then throw (fmt_Errorf tampered_format [AStr fileChecksum; AStr checksum; AStr out])
                        else mret artifactDir
                    end
                end
          end
      end
  end.
End Download.

(** ** Facts *)

Section Facts.
Context {Sh : Type} `{ST : Stash Sh stash_value} `{E : Env} `{X : Xml}.

(** The request of a download: its origin is the URL's, and it carries the
    credentials of the stash. *)
Lemma buildRequestObject_inl (ctx : Ctx Sh) url r :
  buildRequestObject ctx "GET" url (Some (basicAuthCredentialsFromSecret ctx)) = inl r ->
  exists u, url_Parse url = inl u /\
    r = mkRequest "GET" (mkURL (Scheme u) (trim_colon (Host u)) (Rest u))
          (Some (Username (basicAuthCredentialsFromSecret ctx), Password (basicAuthCredentialsFromSecret ctx)))
          (ctx_Timeout ctx).
Proof.
  unfold buildRequestObject, NewRequestWithContext. destruct (url_Parse url) as [u|]; [|done].
  intros [= <-]. eauto.
Qed.

Lemma within_Do (R : relation fsmap) `{!PreOrder R} c r : within (on_fs R) (Client_Do c r).
Proof.
  unfold Client_Do. generalize client_fuel (@nil Request). intros n. revert r.
  induction n as [|n IH]; intros r via; simpl; [by apply within_panic; apply _|].
  apply within_bind; [apply _|intros w; unfold on_fs; simpl; done|]. intros x.
  destruct x as [e|code loc body berr]; [by apply within_throw; apply _|].
  destruct (redirectBehavior _ _) as [m []]; [|by apply within_ret; apply _].
  destruct loc as [|raw e|raw u]; [by apply within_ret; apply _|by apply within_throw; apply _|].
  apply within_bind; [apply _|apply within_try, within_of_outcome; apply _|].
  intros [_|e]; [apply IH|by apply within_throw; apply _].
Qed.

Lemma within_download (R : relation fsmap) `{!PreOrder R} (ctx : Ctx Sh) url c :
  within (on_fs R) (download ctx url c).
Proof. unfold download. within_auto. all: by apply within_Do. Qed.

Lemma within_downloadMetadata (R : relation fsmap) `{!PreOrder R} (ctx : Ctx Sh) c url :
  within (on_fs R) (downloadMetadata ctx c url).
Proof. unfold downloadMetadata. within_auto. by apply within_download. Qed.

Lemma within_downloadChecksum (R : relation fsmap) `{!PreOrder R} (ctx : Ctx Sh) c url :
  within (on_fs R) (downloadChecksum ctx c url).
Proof. by apply within_download. Qed.
End Facts.

#[export] Hint Resolve within_Do within_download within_downloadMetadata within_downloadChecksum : src.

(** ** Errors *)

Section Errors.
Context {Sh : Type} `{ST : Stash Sh stash_value} `{E : Env} `{X : Xml}.

(** An error that [errors.Is] does not take for a timeout. *)
Definition opaque (e : error) : Prop := errors_Is e DeadlineExceeded = false.

Lemma Errorf_opaque f args : "w"%char ∉ verbs f -> opaque (fmt_Errorf f args).
Proof. apply errors_Is_Errorf_no_wrap. Qed.

Ltac no_wrap := apply Errorf_opaque; vm_compute; set_solver.

Lemma download_Fail_opaque (ctx : Ctx Sh) url c w e w' :
  download ctx url c w = (Fail e, w') -> opaque e.
Proof.
  unfold download. destruct (buildRequestObject _ _ _ _) as [r|er]; [|intros [= <- _]; no_wrap].
  unfold mbind, M_bind, try. destruct (Client_Do c r w) as [[resp|er|why] w1]; [| |done].
  - destruct (_ || _); [by intros [= <- _]|]. destruct (Body_err resp); [by intros [= <- _]|done].
  - intros [= <- _]. no_wrap.
Qed.
End Errors.

Section ArtifactErrors.
Context {Sh : Type} `{ST : Stash Sh stash_value} `{E : Env}.

Lemma fs_call_Fail {A : Type} op p (f : nat -> fsmap -> (A + Errno) * fsmap) w e w' :
  fs_call op p f w = (Fail e, w') -> exists n, e = fs_PathError op p n.
Proof.
  unfold fs_call. destruct (env_fault _); [intros [= <- _]; eauto|].
  destruct (f _ _) as [[a|n] fs]; [done|]. intros [= <- _]. eauto.
Qed.

(** An error that is formatted without [%w]. *)
Ltac plain HE := intros [= <- _]; apply HE; vm_compute; set_solver.

Lemma downloadArtifact_Fail_opaque (ctx : Ctx Sh) url dir fileName sum c w e w' :
  downloadArtifact ctx url dir fileName sum c w = (Fail e, w') -> opaque e.
Proof.
  assert (forall f args, "w"%char ∉ verbs f -> opaque (fmt_Errorf f args)) as HE
    by apply Errorf_opaque.
  unfold downloadArtifact. unfold mbind, M_bind at 1.
  destruct (os_Mkdir _ w) as [[[]|er|why] w1] eqn:Em; [| |done].
  2: { intros [= <- _]. by apply fs_call_Fail in Em as [n ->]. }
  unfold mbind, M_bind at 1, try at 1. destruct (os_Create _ w1) as [[[]|er|why] w2]; [|plain HE|done].
  destruct (buildRequestObject _ _ _ _) as [r|er]; [|plain HE].
  unfold mbind, M_bind at 1, try at 1. destruct (Client_Do c r w2) as [[resp|er|why] w3]; [|plain HE|done].
  destruct (_ || _); [by intros [= <- _]|].
  unfold mbind, M_bind at 1, try at 1. destruct (copy_to _ _ w3) as [[[]|er|why] w4]; [|plain HE|done].
  unfold mbind, M_bind at 1. destruct (ignore_err _ w4) as [[[]|er|why] w5] eqn:Ei; [| |done].
  2: { unfold ignore_err in Ei. by destruct (os_Chtimes _ _ w4) as [[]]. }
  unfold M_bind, try. destruct (sha1Checksum _ w5) as [[cs|er|why] w6]; [|plain HE|done].
  destruct (negb _); [plain HE|done].
Qed.

(** Success: the file holds bytes with the expected checksum. *)
Lemma downloadArtifact_Ret (ctx : Ctx Sh) url dir fileName sum c w d w' :
  downloadArtifact ctx url dir fileName sum c w = (Ret d, w') ->
  d = Join [dir; "artifact"] /\
  exists f, w_fs w' !! at_path (Join [d; fileName]) = Some (FileNode f) /\ sha1_hex (f_data f) = sum.
Proof.
  unfold downloadArtifact. intros H. inv_bind H. inv_bind H. apply try_inv in Hstep0.
  destruct v0 as [[]|]; [|done]. destruct (buildRequestObject _ _ _ _) as [r|]; [|done].
  inv_bind H. destruct v0 as [resp|]; [|done]. destruct (_ || _); [done|].
  inv_bind H. destruct v0; [|done]. inv_bind H. inv_bind H. apply try_inv in Hstep4.
  destruct v1 as [cs|]; [|done]. destruct (negb _) eqn:En; [done|]. injection H as <- <-.
  split; [done|]. bool_hyps. apply sha1Checksum_Ret in Hstep4 as [-> (f & Hf & Hc)].
  exists f. split; [done|congruence].
Qed.
End ArtifactErrors.
