(* ===== verification/MavenResolver.v ===== *)
(** * Version resolution (controllers/internal.go)

    [MavenResolver.Resolve]: from the coordinates of an artifact to the file
    to download.  The receiver is a pointer, so what a failing resolution has
    already written stays: the resolver is the state of the computation. *)

From S2P Require Import Prelude GoStrings GoPath GoErrors Effects World GoOS GoOSFacts Runtime.
From S2P Require Import ApiTypes MavenMetadata Http Stashes ArtifactFiles MavenDownload.

Definition sanitizeFilename (name : string) : string + error :=
  if bool_decide (name = "") || bool_decide (name = ".") || bool_decide (name = "..") ||
     negb (bool_decide (name = Base name))
  then inr (fmt_Errorf "resolved filename %q is not a valid filename" [AStr name])
  else inl name.

Record MavenResolver := mkMavenResolver {
  mr_Artifact : MavenArtifactType;
  RepositoryURL : string;
  RequestPath : string;
  ResolvedVersion : string;
  ResolvedFilename : string;
  DownloadURL : string;
  MetaXML : string
}.

Definition set_version (v : string) (a : MavenArtifactType) : MavenArtifactType :=
  mkMavenArtifactType (GroupId a) v (ArtifactId a) (Type_ a) (Classifier a).

(** Assignments to the resolver's fields. *)
Definition set_ArtifactVersion v r := mkMavenResolver (set_version v (mr_Artifact r)) (RepositoryURL r)
  (RequestPath r) (ResolvedVersion r) (ResolvedFilename r) (DownloadURL r) (MetaXML r).
Definition set_ResolvedVersion v r := mkMavenResolver (mr_Artifact r) (RepositoryURL r)
  (RequestPath r) v (ResolvedFilename r) (DownloadURL r) (MetaXML r).
Definition set_ResolvedFilename f r := mkMavenResolver (mr_Artifact r) (RepositoryURL r)
  (RequestPath r) (ResolvedVersion r) f (DownloadURL r) (MetaXML r).
Definition set_DownloadURL u r := mkMavenResolver (mr_Artifact r) (RepositoryURL r)
  (RequestPath r) (ResolvedVersion r) (ResolvedFilename r) u (MetaXML r).
Definition set_MetaXML x r := mkMavenResolver (mr_Artifact r) (RepositoryURL r)
  (RequestPath r) (ResolvedVersion r) (ResolvedFilename r) (DownloadURL r) x.

(** The world and the resolver. *)
Record ResolverState := mkResolverState { rs_World : World; rs_Resolver : MavenResolver }.

#[export] Instance resolver_has_world : HasWorld ResolverState := {
  the_world := rs_World;
  set_world w s := mkResolverState w (rs_Resolver s);
  the_set_world w s := eq_refl
}.

Abbreviation Res := (M ResolverState).

Definition assign (f : MavenResolver -> MavenResolver) : Res unit :=
  modify (fun s => mkResolverState (rs_World s) (f (rs_Resolver s))).

Section Resolver.
Context {Sh : Type} `{ST : Stash Sh stash_value} `{E : Env} `{X : Xml}.

(** The filename, the same in every branch: with a classifier when set. *)
Definition artifact_filename (a : MavenArtifactType) (version : string) : string :=
  if decide (Classifier a = "")
  then Sprintf "%s-%s.%s" [ArtifactId a; version; Type_ a]
  else Sprintf "%s-%s-%s.%s" [ArtifactId a; version; Classifier a; Type_ a].

(** The end of every branch: the filename, the download URL below the
    directory of [dirVersion], and the check of the filename. *)
Definition finish (dirVersion : MavenResolver -> string) : Res unit :=
  _ ← assign (fun r => set_ResolvedFilename (artifact_filename (mr_Artifact r) (ResolvedVersion r)) r);
  _ ← assign (fun r => set_DownloadURL
        (Sprintf "%s/%s/%s/%s" [RepositoryURL r; RequestPath r; dirVersion r; ResolvedFilename r]) r);
  r ← gets rs_Resolver;
  match sanitizeFilename (ResolvedFilename r) with
  | inr err => throw (fmt_Errorf "resolved artifact filename is invalid: %w" [AErr err])
  | inl _ => mret tt
  end.

Definition processFixedVersion : Res unit :=
  _ ← assign (fun r => set_ResolvedVersion (Version (mr_Artifact r)) r);
  finish ResolvedVersion.

Definition processSnapshotVersion (ctx : Ctx Sh) (client : HttpClient) : Res unit :=
  r ← gets rs_Resolver;
  let metadataURL := Sprintf "%s/%s/%s/%s"
    [RepositoryURL r; RequestPath r; Version (mr_Artifact r); "maven-metadata.xml"] in
  metadata ← io (downloadMetadata ctx client metadataURL);
  _ ← assign (fun r => set_ResolvedVersion
        (if decide (snapshotVersion (versioning_SnapshotVersions (metadata_Versioning metadata)) = [])
         then Version (mr_Artifact r)
         else SnapshotResolvedVersion metadata (Type_ (mr_Artifact r))) r);
  finish (fun r => Version (mr_Artifact r)).

Definition processLatestVersion (ctx : Ctx Sh) (client : HttpClient) : Res unit :=
  r ← gets rs_Resolver;
  let metadataURL := Sprintf "%s/%s/%s" [RepositoryURL r; RequestPath r; "maven-metadata.xml"] in
  metadata ← io (downloadMetadata ctx client metadataURL);
  lv ← of_sum (LatestVersion metadata);
  metaxml ← of_sum (xml_MarshalIndent metadata "  " "    ");
  _ ← assign (set_MetaXML metaxml);
  if HasSuffix lv "-SNAPSHOT"
  then (_ ← assign (set_ArtifactVersion lv); processSnapshotVersion ctx client)
  else
    _ ← assign (set_ArtifactVersion lv);
    _ ← assign (set_ResolvedVersion lv);
    finish ResolvedVersion.

Definition processReleaseVersion (ctx : Ctx Sh) (client : HttpClient) : Res unit :=
  r ← gets rs_Resolver;
  let metadataURL := Sprintf "%s/%s/%s" [RepositoryURL r; RequestPath r; "maven-metadata.xml"] in
  metadata ← io (downloadMetadata ctx client metadataURL);
  rv ← of_sum (ReleaseVersion metadata);
  _ ← assign (set_ArtifactVersion rv);
  _ ← assign (set_ResolvedVersion rv);
  finish ResolvedVersion.

Definition Resolve (ctx : Ctx Sh) (client : HttpClient) : Res unit :=
  r ← gets rs_Resolver;
  let version := Version (mr_Artifact r) in
  if HasPrefix version "[" || HasPrefix version "("
  then throw (fmt_Errorf "Invalid version %q; ranges are not supported" [AStr version])
  else if decide (version = "RELEASE") then processReleaseVersion ctx client
  else if decide (version = "LATEST") then processLatestVersion ctx client
  else if HasSuffix version "-SNAPSHOT" then processSnapshotVersion ctx client
  else processFixedVersion.
End Resolver.

(** ** The logger handed to imgpkg does nothing *)

Record NoopLogger := mkNoopLogger {}.
Definition NewNoopLogger : NoopLogger := mkNoopLogger.
Definition Logf {S : Type} (n : NoopLogger) (format : string) (args : list arg) : M S unit := mret tt.

(** ** Facts *)

Lemma sanitize_inl name n :
  sanitizeFilename name = inl n -> n = name /\ (normal name \/ name = "/").
Proof.
  unfold sanitizeFilename. destruct (_ || _) eqn:Es; [done|]. intros [= <-]. split; [done|].
  bool_hyps. apply Base_fixed; congruence.
Qed.

Lemma sanitize_normal name : normal name -> sanitizeFilename name = inl name.
Proof.
  intros H. unfold sanitizeFilename. rewrite (Base_normal _ H). destruct H as (? & ? & ? & _).
  rewrite (bool_decide_eq_true_2 (name = name)) by done.
  by rewrite !bool_decide_eq_false_2.
Qed.

(** A filename has a dash, so it is not "/". *)
Lemma artifact_filename_dash a v : byte_in "-" (artifact_filename a v) = true.
Proof.
  unfold artifact_filename. case_decide; simpl; rewrite byte_in_append; simpl; by rewrite orb_true_r.
Qed.

Lemma sanitize_filename a v n :
  sanitizeFilename (artifact_filename a v) = inl n -> normal (artifact_filename a v).
Proof.
  intros H. apply sanitize_inl in H as [_ [H|H]]; [done|].
  pose proof (artifact_filename_dash a v) as Hd. by rewrite H in Hd.
Qed.

(** Coordinates without a slash give a plain filename. *)
Lemma artifact_filename_normal a v :
  byte_in slash (ArtifactId a) = false -> byte_in slash v = false ->
  byte_in slash (Type_ a) = false -> byte_in slash (Classifier a) = false ->
  normal (artifact_filename a v).
Proof.
  intros H1 H2 H3 H4. pose proof (artifact_filename_dash a v) as Hd.
  repeat split; try (intros Heq; by rewrite Heq in Hd).
  unfold artifact_filename. case_decide; simpl;
    repeat (rewrite ?byte_in_append, ?H1, ?H2, ?H3, ?H4; simpl); done.
Qed.

Lemma artifact_filename_version a v w : artifact_filename (set_version w a) v = artifact_filename a v.
Proof. done. Qed.

(** What a successful resolution leaves in the resolver. *)
Definition resolved_from (r r' : MavenResolver) : Prop :=
  normal (ResolvedFilename r') /\
  ResolvedFilename r' = artifact_filename (mr_Artifact r) (ResolvedVersion r') /\
  DownloadURL r' = Sprintf "%s/%s/%s/%s"
    [RepositoryURL r; RequestPath r; Version (mr_Artifact r'); ResolvedFilename r'] /\
  mr_Artifact r' = set_version (Version (mr_Artifact r')) (mr_Artifact r) /\
  RepositoryURL r' = RepositoryURL r /\ RequestPath r' = RequestPath r.

Section Results.
Context {Sh : Type} `{ST : Stash Sh stash_value} `{E : Env} `{X : Xml}.

(** The end of a branch started on a resolver that agrees with [r]. *)
Definition agrees (r r' : MavenResolver) : Prop :=
  mr_Artifact r' = set_version (Version (mr_Artifact r')) (mr_Artifact r) /\
  RepositoryURL r' = RepositoryURL r /\ RequestPath r' = RequestPath r.

Lemma finish_Ret dv r s s' :
  agrees r (rs_Resolver s) ->
  (forall f, dv (set_ResolvedFilename f (rs_Resolver s)) = Version (mr_Artifact (rs_Resolver s))) ->
  finish dv s = (Ret tt, s') -> resolved_from r (rs_Resolver s').
Proof.
  intros (Ha & Hrep & Hreq) Hdv H. unfold finish, assign, modify, gets, mbind, M_bind in H.
  simpl in H. destruct (sanitizeFilename _) as [n|e] eqn:Es; [|done]. injection H as <-.
  apply sanitize_filename in Es. rewrite Ha, artifact_filename_version in Es.
  unfold resolved_from. simpl. rewrite Hdv, Hrep, Hreq.
  assert (artifact_filename (mr_Artifact (rs_Resolver s)) (ResolvedVersion (rs_Resolver s)) =
          artifact_filename (mr_Artifact r) (ResolvedVersion (rs_Resolver s))) as ->
    by by rewrite Ha at 1.
  done.
Qed.

Lemma processSnapshot_Ret r ctx client s s' :
  agrees r (rs_Resolver s) ->
  processSnapshotVersion ctx client s = (Ret tt, s') -> resolved_from r (rs_Resolver s').
Proof.
  intros Ha H. unfold processSnapshotVersion in H. inv_bind H. injection Hstep as <- <-.
  inv_bind H. inv_bind H. unfold io, zoom in Hstep.
  destruct (downloadMetadata _ _ _ _) as [o w]. injection Hstep as -> <-.
  unfold assign, modify in Hstep0. injection Hstep0 as _ <-.
  by refine (finish_Ret _ _ _ _ _ _ H).
Qed.

Lemma Resolve_Ret ctx client s s' :
  Resolve ctx client s = (Ret tt, s') -> resolved_from (rs_Resolver s) (rs_Resolver s').
Proof.
  assert (agrees (rs_Resolver s) (rs_Resolver s)) as Hs.
  { split; [|done]. by destruct (mr_Artifact (rs_Resolver s)). }
  unfold Resolve. intros H. inv_bind H. injection Hstep as <- <-.
  destruct (_ || _); [done|]. case_decide; [|case_decide; [|case_match]].
  - unfold processReleaseVersion in H. inv_bind H. injection Hstep as <- <-. inv_bind H. inv_bind H.
    unfold io, zoom in Hstep. destruct (downloadMetadata _ _ _ _) as [o w]. injection Hstep as -> <-.
    destruct (ReleaseVersion v) as [rv|]; [|done]. injection Hstep0 as <- <-.
    unfold assign, modify in H. by refine (finish_Ret _ _ _ _ _ _ H).
  - unfold processLatestVersion in H. inv_bind H. injection Hstep as <- <-. inv_bind H.
    unfold io, zoom in Hstep. destruct (downloadMetadata _ _ _ _) as [o w]. injection Hstep as -> <-.
    destruct (LatestVersion v) as [lv|]; [|done]. cbn [of_sum] in H. rewrite bind_ret_l in H.
    destruct (xml_MarshalIndent _ _ _) as [xml|]; [|done]. cbn [of_sum] in H. rewrite bind_ret_l in H.
    destruct (HasSuffix lv "-SNAPSHOT").
    + unfold assign, modify in H. by refine (processSnapshot_Ret _ _ _ _ _ _ H).
    + unfold assign, modify in H. by refine (finish_Ret _ _ _ _ _ _ H).
  - by eapply processSnapshot_Ret.
  - unfold processFixedVersion, assign, modify in H. by refine (finish_Ret _ _ _ _ _ _ H).
Qed.

(** A fixed version needs no request and never fails on plain coordinates. *)
Lemma Resolve_fixed ctx client s :
  let a := mr_Artifact (rs_Resolver s) in
  HasPrefix (Version a) "[" = false -> HasPrefix (Version a) "(" = false ->
  Version a <> "RELEASE" -> Version a <> "LATEST" -> HasSuffix (Version a) "-SNAPSHOT" = false ->
  byte_in slash (ArtifactId a) = false -> byte_in slash (Version a) = false ->
  byte_in slash (Type_ a) = false -> byte_in slash (Classifier a) = false ->
  exists s', Resolve ctx client s = (Ret tt, s') /\ rs_World s' = rs_World s.
Proof.
  intros a H1 H2 H3 H4 H5 H6 H7 H8 H9. subst a.
  unfold Resolve, gets, mbind, M_bind at 1. rewrite H1, H2. simpl.
  rewrite decide_False, decide_False, H5 by done.
  unfold processFixedVersion, finish, assign, modify, gets, mbind, M_bind. simpl.
  rewrite sanitize_normal by by apply artifact_filename_normal. eauto.
Qed.
End Results.
