(* ===== verification/SentFacts.v ===== *)
(** * Requests on the wire

    Which requests a computation may send.  Calls of the file system and of
    the Kubernetes API send none; a download sends requests that satisfy what
    its client, its credentials and its URL allow. *)

From S2P Require Import Prelude GoStrings GoPath GoErrors Effects World GoOS GoOSFacts Sha1.
From S2P Require Import Runtime ApiTypes MavenMetadata Http Transport Stashes ArtifactFiles.
From S2P Require Import ArtifactFilesFacts MavenDownload MavenResolver.

(** The log grows by requests that satisfy [P]. *)
Definition sends_only {S : Type} `{HasWorld S} (P : Transport * Request -> Prop) : relation S :=
  fun s s' => exists l, w_sent (the_world s') = w_sent (the_world s) ++ l /\ Forall P l.

#[export] Instance sends_only_preorder {S : Type} `{HasWorld S} P : PreOrder (sends_only (S := S) P).
Proof.
  split.
  - intros s. exists []. by rewrite app_nil_r.
  - intros s1 s2 s3 (l1 & E1 & H1) (l2 & E2 & H2). exists (l1 ++ l2).
    rewrite E2, E1, app_assoc. split; [done|]. by apply Forall_app.
Qed.

Lemma sends_only_io {S A : Type} `{H : HasWorld S} P (m : IO A) :
  within (sends_only P) m -> within (sends_only (S := S) P) (io m).
Proof. apply within_zoom. intros s w Hw. unfold sends_only. by rewrite the_set_world. Qed.

#[export] Hint Resolve sends_only_io : sent.

(** As [within_auto], for the wire. *)
Ltac sent_auto :=
  lazymatch goal with
  | |- within _ (mbind _ _) => apply within_bind; [apply _|sent_auto|intros; sent_auto]
  | |- within _ (try _) => apply within_try; sent_auto
  | |- within _ (ignore_err _) => apply within_ignore; sent_auto
  | |- within _ (defer _ _) => apply within_defer; [apply _|sent_auto|sent_auto]
  | |- within _ (for_each _ _) => apply within_for_each; [apply _|intros; sent_auto]
  | |- within _ (io _) => apply sends_only_io; sent_auto
  | |- within _ (mret _) => apply within_ret; apply _
  | |- within _ (throw _) => apply within_throw; apply _
  | |- within _ (panic _) => apply within_panic; apply _
  | |- within _ (gets _) => apply within_gets; apply _
  | |- within _ (of_sum _) => apply within_of_sum; apply _
  | |- within _ (match ?x with _ => _ end) => destruct x; sent_auto
  | |- _ => try solve [auto with sent]
  end.

Section Calls.
Context `{E : Env} (P : Transport * Request -> Prop).

(** A step that leaves the log alone. *)
Lemma sent_same {S A : Type} `{HasWorld S} (m : M S A) :
  (forall s, w_sent (the_world (m s).2) = w_sent (the_world s)) -> within (sends_only P) m.
Proof. intros H0 s. exists []. by rewrite H0, app_nil_r. Qed.

Lemma sent_ask {A : Type} (f : nat -> A) : within (sends_only P) (ask f).
Proof. by apply sent_same. Qed.

Lemma sent_track r : within (sends_only P) (track r).
Proof. by apply sent_same. Qed.

Lemma sent_fs_call {A : Type} op p (f : nat -> fsmap -> (A + Errno) * fsmap) :
  within (sends_only P) (fs_call op p f).
Proof.
  apply sent_same. intros w. unfold fs_call. destruct (env_fault _); [done|].
  by destruct (f _ _) as [[a|n] fs].
Qed.

Lemma sent_write_all p d : within (sends_only P) (write_all p d).
Proof. apply sent_same. intros w. unfold write_all. by destruct (env_fault _). Qed.

Lemma sent_modify {S : Type} `{HasWorld S} (f : S -> S) :
  (forall s, the_world (f s) = the_world s) -> within (sends_only P) (modify f).
Proof. intros Hf. apply sent_same. intros s. simpl. by rewrite Hf. Qed.
End Calls.

#[export] Hint Resolve sent_ask sent_track sent_fs_call sent_write_all : sent.

Section Files.
Context `{E : Env} `{T : TarGz} `{ZR : Zip} (P : Transport * Request -> Prop).

Lemma sent_MkdirAll p : within (sends_only P) (os_MkdirAll p).
Proof.
  unfold os_MkdirAll. generalize (@nil string) (at_path p). intros pre rest. revert pre.
  induction rest as [|c rest IH]; intros pre; simpl; sent_auto; auto.
Qed.

Lemma sent_RemoveAll p : within (sends_only P) (os_RemoveAll p).
Proof. unfold os_RemoveAll. case_decide; sent_auto. Qed.

Lemma sent_ReadFile p : within (sends_only P) (os_ReadFile p).
Proof. unfold os_ReadFile, os_Open, read_all. sent_auto. Qed.

Lemma sent_WriteFile p d m : within (sends_only P) (os_WriteFile p d m).
Proof. unfold os_WriteFile, os_OpenFile. sent_auto. Qed.

Lemma sent_MkdirTemp dir pat : within (sends_only P) (os_MkdirTemp dir pat).
Proof.
  unfold os_MkdirTemp. destruct (prefixAndSuffix pat) as [pre suf].
  generalize mkdir_temp_tries. intros n. induction n as [|n IH]; simpl; unfold os_Mkdir; sent_auto; auto.
Qed.

Hint Resolve sent_MkdirAll sent_RemoveAll sent_ReadFile sent_WriteFile : sent.

Lemma sent_sha1Checksum p : within (sends_only P) (sha1Checksum p).
Proof. unfold sha1Checksum, os_Open, read_all. sent_auto. Qed.

Lemma sent_isArchive p : within (sends_only P) (isArchive p).
Proof. unfold isArchive, os_Open, read_all. sent_auto. Qed.

Lemma sent_copyCompressedFile a b : within (sends_only P) (copyCompressedFile a b).
Proof. unfold copyCompressedFile, os_Open, os_Create, os_OpenFile, read_all, os_Rename. sent_auto. Qed.

Lemma sent_retrieveChecksum p : within (sends_only P) (retrieveChecksumFromFile p).
Proof. unfold retrieveChecksumFromFile. sent_auto. Qed.

Lemma sent_createTarGz dir out : within (sends_only P) (createTarGz dir out).
Proof.
  assert (forall b, within (sends_only (S := TarState) P) (emit out b)) as Hemit.
  { intros b. unfold emit. case_decide; sent_auto. by apply sent_modify. }
  assert (forall f, within (sends_only (S := TarState) P) (tar_call out f)) as Hcall.
  { intros f. unfold tar_call. sent_auto; auto. by apply sent_modify. }
  unfold createTarGz, os_Create, os_OpenFile. sent_auto.
  apply (within_zoom (sends_only (S := TarState) P)); [done|]. sent_auto.
  - unfold close_writers. sent_auto; auto.
  - assert (forall p n, within (sends_only (S := TarState) P) (tar_entry dir out p n)) as Hentry.
    { intros p n. unfold tar_entry, os_Open, file_Stat, read_all. sent_auto; auto. }
    unfold WalkDir, os_Stat. sent_auto; auto.
Qed.

Lemma sent_extractArchive dir jar : within (sends_only P) (extractArchive dir jar).
Proof.
  unfold extractArchive, zip_OpenReader, extractFile, zip_Open, copy_to, os_Open, read_all, os_Mkdir,
    os_OpenFile, os_Chtimes. sent_auto.
Qed.

Lemma sent_newTransport certs : within (sends_only P) (newTransport certs).
Proof.
  unfold newTransport. sent_auto. generalize a0. clear.
  induction certs as [|c certs IH]; intros pool; simpl; [apply within_ret; apply _|].
  unfold Cert_Bytes. case_decide; sent_auto; auto. all: case_decide; auto; sent_auto; auto.
Qed.
End Files.

#[export] Hint Resolve sent_MkdirAll sent_RemoveAll sent_ReadFile sent_WriteFile sent_MkdirTemp
  sent_sha1Checksum sent_isArchive sent_copyCompressedFile sent_retrieveChecksum sent_createTarGz
  sent_extractArchive sent_newTransport : sent.

(** ** Downloads *)

(** A request over [t] with the credentials of [ctx], to the origin of a URL
    whose text starts with [base]. *)
Definition request_below {Sh : Type} `{Stash Sh stash_value} `{Env} (ctx : Ctx Sh) (t : Transport)
    (base : string) (x : Transport * Request) : Prop :=
  x.1 = t /\
  rq_BasicAuth x.2 = Some (Username (basicAuthCredentialsFromSecret ctx),
                           Password (basicAuthCredentialsFromSecret ctx)) /\
  rq_Timeout x.2 = ctx_Timeout ctx /\
  exists url u, HasPrefix url base = true /\ url_Parse url = inl u /\
    Scheme (rq_URL x.2) = Scheme u /\ Host (rq_URL x.2) = trim_colon (Host u).

Section Downloads.
Context {Sh : Type} `{ST : Stash Sh stash_value} `{E : Env} `{X : Xml}.
Context (ctx : Ctx Sh) (t : Transport) (base : string).

Abbreviation client := (mkHttpClient t sameHostRedirectPolicy).
Abbreviation ours := (request_below ctx t base).

Lemma sent_Do url r :
  HasPrefix url base = true ->
  buildRequestObject ctx "GET" url (Some (basicAuthCredentialsFromSecret ctx)) = inl r ->
  within (sends_only ours) (Client_Do client r).
Proof.
  intros Hb Hr w. pose proof (policy_Do t r w) as H.
  destruct (Client_Do _ r w) as [o w']. destruct H as (_ & _ & _ & l & Hl & _ & HF).
  exists l. split; [done|]. eapply Forall_impl; [exact HF|]. intros [t' r'] [Ht Hf]. simpl in *.
  apply buildRequestObject_inl in Hr as (u & Hu & ->). destruct Hf as ([H1 H2] & H3 & H4). simpl in *.
  split; [done|]. split; [done|]. split; [done|]. by exists url, u.
Qed.

Lemma sent_download url :
  HasPrefix url base = true -> within (sends_only ours) (download ctx url client).
Proof.
  intros Hb. unfold download. destruct (buildRequestObject _ _ _ _) eqn:Er; [|sent_auto].
  sent_auto. by eapply sent_Do.
Qed.

Lemma sent_downloadMetadata url :
  HasPrefix url base = true -> within (sends_only ours) (downloadMetadata ctx client url).
Proof. intros Hb. unfold downloadMetadata. sent_auto. by apply sent_download. Qed.

Lemma sent_downloadChecksum url :
  HasPrefix url base = true -> within (sends_only ours) (downloadChecksum ctx client url).
Proof.
  intros [r ->]%HasPrefix_spec. apply sent_download. simpl. rewrite append_assoc. apply HasPrefix_append.
Qed.

Lemma sent_downloadArtifact url dir f c :
  HasPrefix url base = true -> within (sends_only ours) (downloadArtifact ctx url dir f c client).
Proof.
  intros Hb. unfold downloadArtifact. destruct (buildRequestObject _ _ _ _) eqn:Er.
  - unfold os_Mkdir, os_Create, os_OpenFile, copy_to, os_Chtimes. sent_auto. by eapply sent_Do.
  - unfold os_Mkdir, os_Create, os_OpenFile. sent_auto.
Qed.

End Downloads.

Section Resolution.
Context {Sh : Type} `{ST : Stash Sh stash_value} `{E : Env} `{X : Xml}.
Context (ctx : Ctx Sh) (t : Transport) (base : string).

Abbreviation client := (mkHttpClient t sameHostRedirectPolicy).
Abbreviation ours := (request_below ctx t (base +:+ "/")).

Lemma sent_finish dv : within (sends_only ours) (finish dv).
Proof. unfold finish, assign. sent_auto; by apply sent_modify. Qed.

(** Resolution asks below the repository's URL. *)
Definition at_base (s s' : ResolverState) : Prop :=
  RepositoryURL (rs_Resolver s) = base -> RepositoryURL (rs_Resolver s') = base /\ sends_only ours s s'.

#[local] Instance at_base_preorder : PreOrder at_base.
Proof.
  split.
  - intros s H. by split.
  - intros s1 s2 s3 H1 H2 H. destruct (H1 H) as [Ha Hb]. destruct (H2 Ha) as [Hc Hd].
    split; [done|]. by transitivity s2.
Qed.

Lemma at_base_assign f :
  (forall r, RepositoryURL (f r) = RepositoryURL r) -> within at_base (assign f).
Proof.
  intros Hf s H. unfold assign, modify. simpl. split; [by rewrite Hf|]. exists [].
  by rewrite app_nil_r.
Qed.

Lemma at_base_io {A : Type} (m : IO A) :
  within (sends_only ours) m -> within at_base (io m).
Proof. intros Hm. apply (within_zoom (sends_only ours)); [|done]. intros s w Hw H. by split. Qed.

Lemma at_base_finish dv : within at_base (finish dv).
Proof.
  unfold finish. apply within_bind; [apply _|by apply at_base_assign|]. intros _.
  apply within_bind; [apply _|by apply at_base_assign|]. intros _. sent_auto.
Qed.

(** A step that knows the receiver. *)
Lemma at_base_receiver {A : Type} (f : MavenResolver -> Res A) :
  (forall r, RepositoryURL r = base -> within at_base (f r)) ->
  within at_base (r ← gets rs_Resolver; f r).
Proof. intros H s Hs. unfold mbind, M_bind, gets. by apply (H _ Hs). Qed.

Lemma url_below (f : string) (args : list string) :
  HasPrefix (Sprintf ("%s/" +:+ f) (base :: args)) (base +:+ "/") = true.
Proof. apply HasPrefix_spec. exists (Sprintf f args). by rewrite append_assoc. Qed.

Lemma at_base_snapshot : within at_base (processSnapshotVersion ctx client).
Proof.
  apply at_base_receiver. intros r ->. apply within_bind; [apply _| |].
  - apply at_base_io, sent_downloadMetadata, (url_below "%s/%s/%s").
  - intros m. apply within_bind; [apply _|by apply at_base_assign|]. intros _. apply at_base_finish.
Qed.

Lemma at_base_Resolve : within at_base (Resolve ctx client).
Proof.
  unfold Resolve. apply at_base_receiver. intros r Hr.
  destruct (_ || _); [sent_auto|]. case_decide; [|case_decide; [|case_match]].
  - apply at_base_receiver. intros r' ->. apply within_bind; [apply _| |].
    { apply at_base_io, sent_downloadMetadata, (url_below "%s/%s"). }
    intros m. apply within_bind; [apply _|sent_auto|]. intros rv.
    do 2 (apply within_bind; [apply _|by apply at_base_assign|]; intros _). apply at_base_finish.
  - apply at_base_receiver. intros r' ->. apply within_bind; [apply _| |].
    { apply at_base_io, sent_downloadMetadata, (url_below "%s/%s"). }
    intros m. do 2 (apply within_bind; [apply _|sent_auto|]; intros ?).
    apply within_bind; [apply _|by apply at_base_assign|]. intros _. destruct (HasSuffix _ _);
      (apply within_bind; [apply _|by apply at_base_assign|]; intros _); [apply at_base_snapshot|].
    apply within_bind; [apply _|by apply at_base_assign|]. intros _. apply at_base_finish.
  - apply at_base_snapshot.
  - unfold processFixedVersion. apply within_bind; [apply _|by apply at_base_assign|]. intros _.
    apply at_base_finish.
Qed.
End Resolution.
