(* ===== verification/Reconcile.v ===== *)
(** * The state of a reconcile

    What both controllers share: the state their sub-reconcilers run on, the
    clock, and [preserveArtifactLastUpdateTime]
    (controllers/imagerepository_controller.go). *)

From S2P Require Import Prelude GoStrings GoErrors Effects World Runtime ApiTypes Http.
From S2P Require Import Transport Stashes MavenDownload.

(** [metav1.Now], and the copy of a time with RFC 3339's precision. *)
Class Clock := {
  metav1_Now : nat -> Z;
  Rfc3339Copy : Z -> Z
}.

(** The resource and the stash belong to one reconcile; the variable
    [httpRootDir] and the arrays of certificates are captured by the
    closures, so they outlive it. *)
Record Reconcile (P Sh : Type) := mkReconcile {
  parent : P;
  stash : Sh;
  world : World;
  httpRootDir : string;
  heap : arrays
}.
Arguments mkReconcile {P Sh}.
Arguments parent {P Sh}.
Arguments stash {P Sh}.
Arguments world {P Sh}.
Arguments httpRootDir {P Sh}.
Arguments heap {P Sh}.

#[export] Instance reconcile_has_world {P Sh} : HasWorld (Reconcile P Sh) := {
  the_world := world;
  set_world w s := mkReconcile (parent s) (stash s) w (httpRootDir s) (heap s);
  the_set_world w s := eq_refl
}.

Section Updates.
Context {P Sh : Type}.

Definition set_parent (f : P -> P) : M (Reconcile P Sh) unit :=
  modify (fun s => mkReconcile (f (parent s)) (stash s) (world s) (httpRootDir s) (heap s)).
Definition set_stash (f : Sh -> Sh) : M (Reconcile P Sh) unit :=
  modify (fun s => mkReconcile (parent s) (f (stash s)) (world s) (httpRootDir s) (heap s)).
Definition set_root (root : string) : M (Reconcile P Sh) unit :=
  modify (fun s => mkReconcile (parent s) (stash s) (world s) root (heap s)).
Definition on_heap {A} (f : arrays -> A * arrays) : M (Reconcile P Sh) A := fun s =>
  let '(a, h) := f (heap s) in
  (Ret a, mkReconcile (parent s) (stash s) (world s) (httpRootDir s) h).
End Updates.

(** [if !path.IsAbs(httpRootDir) { httpRootDir = path.Join(httpRootDir) }] *)
Definition clean_root {P Sh : Type} : M (Reconcile P Sh) unit :=
  root ← gets httpRootDir;
  if GoPath.IsAbs root then mret tt else set_root (GoPath.Join [root]).

Definition without_time (a : Artifact) : Artifact :=
  mkArtifact (Artifact_Path a) (Artifact_URL a) (Artifact_Revision a) (Artifact_Checksum a) None.

Definition preserveArtifactLastUpdateTime (current : option Artifact) (desired : Artifact) : option Artifact :=
  match current with
  | None => Some desired
  | Some c =>
      let cc := without_time c in
      let dc := without_time desired in
      if decide (cc = dc) then current else Some desired
  end.

(** An HTTP error of a download: 429 and 5xx are returned and retried, the
    others are recorded by what the caller does with the code. *)
Definition http_error {P Sh : Type} (inner : error) (code : Z)
    (unauthorized notfound other : P -> P) : M (Reconcile P Sh) unit :=
  if decide (code = 429) then throw inner
  else if 500 <=? code then throw inner
  else if decide (code = 401) then set_parent unauthorized
  else if decide (code = 404) then set_parent notfound
  else set_parent other.

(** ** Facts *)

Lemma preserve_keeps current desired :
  without_time current = without_time desired ->
  preserveArtifactLastUpdateTime (Some current) desired = Some current.
Proof. intros H. simpl. by rewrite decide_True. Qed.

Lemma preserve_changes current desired :
  without_time current <> without_time desired ->
  preserveArtifactLastUpdateTime (Some current) desired = Some desired.
Proof. intros H. simpl. by rewrite decide_False. Qed.

(** Either way, the content is the desired one. *)
Lemma preserve_content current desired a :
  preserveArtifactLastUpdateTime current desired = Some a -> without_time a = without_time desired.
Proof.
  destruct current as [c|]; simpl; [|by intros [= <-]].
  case_decide; by intros [= <-].
Qed.
