(* ===== verification/MavenArtifactController.v ===== *)
(** * The MavenArtifact controller (controllers/mavenartifact_controller.go)

    Its four sub-reconcilers, on the state of Reconcile.v, and their
    composition.  An early [return nil] ends the function with [mret]; the
    stages of the long download function return [None] for it. *)

From S2P Require Import Prelude GoStrings GoPath GoErrors Effects World GoOS Runtime ApiTypes.
From S2P Require Import MavenMetadata Http Transport Stashes ArtifactFiles MavenDownload.
From S2P Require Import MavenResolver Reconcile.

Section Controller.
Context {C : Type} `{CM : ConditionManager C}.
Context {Sh : Type} `{ST : Stash Sh stash_value}.
Context `{E : Env} `{X : Xml} `{T : TarGz} `{ZR : Zip} `{CK : Clock}.

Abbreviation RS := (Reconcile (MavenArtifact C) Sh).
Abbreviation Sync := (M RS).

(** ** Secrets *)

(** The certificates of a reconcile: the configured ones, and the tenant's
    in a copy when there is a secret with data. *)
Definition reconcile_certs (certs : slice) (authSecret : Secret) : Sync slice :=
  match Data authSecret with
  | Some _ => on_heap (with_cert certs (raw_cert (data_entry authSecret "caFile")))
  | None => mret certs
  end.

Definition stash_client (certs : slice) (authSecret : Secret) : Sync unit :=
  reconcileCerts ← reconcile_certs certs authSecret;
  h ← gets heap;
  t ← io (newTransport (elements h reconcileCerts));
  set_stash (stashHttpClient (mkHttpClient t sameHostRedirectPolicy)).

Definition SecretsSync (certs : slice) : Sync unit :=
  p ← gets parent;
  let authSecretRefName := SecretRef (ma_Repository (Spec p)) in
  let ns := Namespace (Meta p) in
  if decide (authSecretRefName <> "") then
    r ← try (io (TrackAndGet_Secret ns authSecretRefName));
    match r with
    | inr err =>
        if apierrs_IsNotFound err
        then set_parent (ma_MarkFalse MavenArtifactConditionArtifactResolved "SecretMissing"
               "Secret %q not found in namespace %q" [AStr authSecretRefName; AStr ns])
        else throw err
    | inl authSecret =>
        _ ← set_stash (stashAuthSecret authSecret);
        stash_client certs authSecret
    end
  else stash_client certs (mkSecret "" None).

(** ** Version *)

Definition resolve_timeout_format : string :=
  "Request timeout error downloading Maven artifact metadata " +:+ dq "%v:%v" +:+
  " from repository URL %q: %v".
Definition resolve_401_format : string :=
  "Unauthorized credentials (HTTP 401) error downloading artifact metadata " +:+ dq "%v:%v" +:+
  " from repository URL %q. Check the credentials provided in the Secret.".
Definition resolve_404_format : string :=
  "Maven metadata file not found (HTTP 404) for artifact " +:+ dq "%v:%v" +:+ " from repository URL %q.".
Definition resolve_other_format : string :=
  "Error downloading Maven artifact metadata " +:+ dq "%v:%v" +:+ " from repository URL %q: %v".
Definition scheme_format : string :=
  "The only supported scheme is " +:+ dq "https" +:+
  "; scheme %q is not supported in repository URL %q".

(** [mr.Resolve(ctx, client)] on a local resolver. *)
Definition run_Resolve (mr : MavenResolver) (ctx : Ctx Sh) (client : HttpClient)
  : Sync (option error * MavenResolver) := fun s =>
  let '(o, rs) := Resolve ctx client (mkResolverState (world s) mr) in
  let s' := set_world (rs_World rs) s in
  match o with
  | Ret _ => (Ret (None, rs_Resolver rs), s')
  | Fail err => (Ret (Some err, rs_Resolver rs), s')
  | Panicked why => (Panicked why, s')
  end.

Definition resolve_failed (p : MavenArtifact C) (err : error) : Sync unit :=
  let resolved := MavenArtifactConditionArtifactResolved in
  let coordinates := [AStr (GroupId (ma_Artifact (Spec p))); AStr (ArtifactId (ma_Artifact (Spec p)));
                      AStr (Repository_URL (ma_Repository (Spec p)))] in
  if errors_Is err DeadlineExceeded
  then set_parent (ma_MarkFalse resolved "Timeout" resolve_timeout_format (coordinates ++ [AErr err]))
  else
    match as_downloadError err with
    | Some (inner, code) =>
        http_error inner code
          (ma_MarkFalse resolved "RemoteError" resolve_401_format coordinates)
          (ma_MarkFalse resolved "RemoteError" resolve_404_format coordinates)
          (ma_MarkFalse resolved "RemoteError" resolve_other_format (coordinates ++ [AErr err]))
    | None => set_parent (ma_MarkFalse resolved "VersionError" "%s" [AErrText err])
    end.

Definition VersionSync : Sync unit :=
  st ← gets stash;
  match retrieveHttpClient st with
  | None => mret tt
  | Some client =>
      p ← gets parent;
      match Timeout (Spec p) with
      | None => panic "nil pointer dereference"
      | Some timeout =>
          let ctx := mkCtx (Some timeout) st in
          let artifact := ma_Artifact (Spec p) in
          let repoSpecURL := Repository_URL (ma_Repository (Spec p)) in
          let requestPath := ReplaceAll (GroupId artifact) "." "/" +:+ "/" +:+ ArtifactId artifact in
          match url_Parse repoSpecURL with
          | inr err =>
              set_parent (ma_MarkFalse MavenArtifactConditionArtifactResolved "ConfigurationError"
                "Error parsing repository URL %q: %v" [AStr repoSpecURL; AErr err])
          | inl repoURL =>
              if decide (Scheme repoURL <> "https")
              then set_parent (ma_MarkFalse MavenArtifactConditionArtifactResolved "ConfigurationError"
                     scheme_format [AStr (Scheme repoURL); AStr repoSpecURL])
              else
                let mr := mkMavenResolver artifact (URL_String repoURL) requestPath "" "" "" "" in
                r ← run_Resolve mr ctx client;
                match r with
                | (Some err, _) => resolve_failed p err
                | (None, mr) =>
                    let artifactDetails :=
                      mkArtifactDetails (ResolvedFilename mr) (Version (mr_Artifact mr)) (DownloadURL mr) in
                    _ ← set_parent (ma_MarkTrue MavenArtifactConditionArtifactResolved "Resolved"
                          "Resolved version %q for artifact %q"
                          [AStr (ArtifactVersion artifactDetails); AStr (DownloadURL mr)]);
                    set_stash (stashArtifactVersion artifactDetails)
                end
          end
      end
  end.

(** ** Download *)

Abbreviation available := MavenArtifactConditionArtifactAvailable.

Definition checksum_timeout_format : string :=
  "Request timeout error downloading Maven artifact checksum file %q: %s".
Definition checksum_401_format : string :=
  "Unauthorized credentials (HTTP 401) error downloading Maven artifact checksum from URL " +:+
  dq "%v.sha1" +:+ ". Check the credentials provided in the Secret.".
Definition checksum_404_format : string :=
  "Maven artifact checksum file not found (HTTP 404) at URL " +:+ dq "%v.sha1" +:+ ".".
Definition checksum_other_format : string :=
  "Error downloading Maven artifact checksum from URL " +:+ dq "%v.sha1" +:+ ": %v".

(** Any error that is not the server's is recorded. *)
Definition checksum_failed (info : ArtifactDetails) (err : error) : Sync unit :=
  let url := ArtifactDownloadURL info in
  if errors_Is err DeadlineExceeded
  then set_parent (ma_MarkFalse available "Timeout" checksum_timeout_format
         [AStr (Sprintf "%s.%s" [url; "sha1"]); AErrText err])
  else
    match as_downloadError err with
    | Some (inner, code) =>
        http_error inner code
          (ma_MarkFalse available "RemoteError" checksum_401_format [AStr url])
          (ma_MarkFalse available "RemoteError" checksum_404_format [AStr url])
          (ma_MarkFalse available "RemoteError" checksum_other_format [AStr url; AErr err])
    | None => set_parent (ma_MarkFalse available "RemoteError" "%s" [AErrText err])
    end.

Definition fetch_checksum (ctx : Ctx Sh) (client : HttpClient) (info : ArtifactDetails)
  : Sync (option string) :=
  r ← try (io (downloadChecksum ctx client (ArtifactDownloadURL info)));
  match r with
  | inr err => _ ← checksum_failed info err; mret None
  | inl remoteChecksum => mret (Some remoteChecksum)
  end.

Definition mavenDir (root : string) (m : ObjectMeta) : string :=
  Join [root; "mavenartifact"; Namespace m; Name m].

Definition cache_file (root : string) (m : ObjectMeta) (info : ArtifactDetails) : string :=
  Sprintf "%s/%s.%s" [mavenDir root m; ResolvedFileName info; "sha1"].

(** The cache vouches for the remote artifact, and the status has one. *)
Definition unchanged (cache : option artifactCache) (current : option Artifact)
    (info : ArtifactDetails) (remoteChecksum : string) : bool :=
  match cache, current with
  | Some c, Some _ =>
      bool_decide (checksum c = remoteChecksum) && bool_decide (source c = ArtifactDownloadURL info)
  | _, _ => false
  end.

Definition artifact_timeout_format : string :=
  "Request timeout error downloading Maven artifact file %q: %s".
Definition artifact_401_format : string :=
  "Unauthorized credentials (HTTP 401) error downloading Maven artifact file from URL %q. Check the credentials provided in the Secret.".
Definition artifact_404_format : string :=
  "Maven artifact file not found (HTTP 404) at URL %q.".
Definition artifact_other_format : string :=
  "Error downloading Maven artifact file from URL %q: %v".
Definition artifact_error_format : string := "Error downloading Maven artifact file %q: %s".

Definition artifact_failed (p : MavenArtifact C) (info : ArtifactDetails) (err : error) : Sync unit :=
  let url := ArtifactDownloadURL info in
  let artifactId := ArtifactId (ma_Artifact (Spec p)) in
  if errors_Is err DeadlineExceeded
  then set_parent (ma_MarkFalse available "Timeout" artifact_timeout_format [AStr artifactId; AErrText err])
  else
    match as_downloadError err with
    | Some (inner, code) =>
        http_error inner code
          (ma_MarkFalse available "DownloadError" artifact_401_format [AStr url])
          (ma_MarkFalse available "DownloadError" artifact_404_format [AStr url])
          (ma_MarkFalse available "DownloadError" artifact_other_format [AStr url; AErrText inner])
    | None =>
        set_parent (ma_MarkFalse available "DownloadError" artifact_error_format [AStr artifactId; AErrText err])
    end.

Definition fetch_artifact (p : MavenArtifact C) (ctx : Ctx Sh) (client : HttpClient)
    (info : ArtifactDetails) (dir remoteChecksum : string) : Sync (option string) :=
  r ← try (io (downloadArtifact ctx (ArtifactDownloadURL info) dir (ResolvedFileName info) remoteChecksum client));
  match r with
  | inr err => _ ← artifact_failed p info err; mret None
  | inl artifactDir => mret (Some artifactDir)
  end.

(** The directory to package: an archive is unpacked first. *)
Definition unpack (info : ArtifactDetails) (dir artifactDir : string) : Sync (option string) :=
  let artifactFilePath := Join [artifactDir; ResolvedFileName info] in
  archive ← io (isArchive artifactFilePath);
  if archive : bool then
    r ← try (io (extractArchive dir artifactFilePath));
    match r with
    | inl d => mret (Some d)
    | inr _ =>
        _ ← set_parent (ma_MarkFalse available "FileError" "Failed to extract Maven artifact file %q"
              [AStr (ResolvedFileName info)]);
        mret None
    end
  else mret (Some artifactDir).

(** The status of a published artifact. *)
Definition set_artifact (desired : Artifact) (url : string) (p : MavenArtifact C) : MavenArtifact C :=
  let s := Status p in
  mkMavenArtifact (Meta p) (Spec p)
    (mkMavenArtifactStatus (Conditions s) (ObservedGeneration s) url
       (preserveArtifactLastUpdateTime (Status_Artifact s) desired)).

(** From the directory to package to the served file and the status. *)
Definition publish (httpHost : string) (m : ObjectMeta) (info : ArtifactDetails)
    (dir artifactDir artifactTgzFilename cacheFile remoteChecksum : string) : Sync unit :=
  let artifactTgzDir := Join [dir; "artifactTgz"] in
  _ ← io (os_Mkdir artifactTgzDir);
  let artifactTgz := Join [artifactTgzDir; artifactTgzFilename] in
  packed ← try (io (createTarGz artifactDir artifactTgz));
  match packed with
  | inr err =>
      throw (fmt_Errorf "Error creating tar file for Maven artifact file %q: %w"
               [AStr artifactTgzFilename; AErr err])
  | inl _ =>
      sum ← io (sha1Checksum artifactTgz);
      root ← gets httpRootDir;
      let httpPath := Join ["mavenartifact"; Namespace m; Name m; artifactTgzFilename] in
      let httpUrl := Sprintf "http://%s" [Join [httpHost; httpPath]] in
      _ ← io (copyCompressedFile artifactTgz (Join [root; httpPath]));
      let cacheData := mkArtifactCache (ArtifactDownloadURL info) remoteChecksum in
      _ ← io (os_WriteFile cacheFile (toString cacheData) ModePerm);
      t ← io (ask metav1_Now);
      _ ← set_parent (set_artifact
            (mkArtifact httpPath httpUrl (ResolvedFileName info) sum (Some (Rfc3339Copy t))) httpUrl);
      set_parent (ma_MarkTrue available "Available" "" [])
  end.

(** The temporary directory [dir] is removed however this ends. *)
Definition fetch_and_publish (httpHost : string) (p : MavenArtifact C) (ctx : Ctx Sh)
    (client : HttpClient) (info : ArtifactDetails) (cacheFile remoteChecksum dir : string) : Sync unit :=
  defer (io (os_RemoveAll dir))
    (fetched ← fetch_artifact p ctx client info dir remoteChecksum;
     match fetched with
     | None => mret tt
     | Some artifactDir =>
         sum ← io (sha1Checksum (Join [artifactDir; ResolvedFileName info]));
         let artifactTgzFilename := Sprintf "%s.tar.gz" [sum] in
         unpacked ← unpack info dir artifactDir;
         match unpacked with
         | None => mret tt
         | Some artifactDir =>
             publish httpHost (Meta p) info dir artifactDir artifactTgzFilename cacheFile remoteChecksum
         end
     end).

Definition DownloadSync (httpHost : string) : Sync unit :=
  st ← gets stash;
  match retrieveArtifactVersion st, retrieveHttpClient st with
  | Some info, Some client =>
      p ← gets parent;
      match Timeout (Spec p) with
      | None => panic "nil pointer dereference"
      | Some timeout =>
          let ctx := mkCtx (Some timeout) st in
          fetched ← fetch_checksum ctx client info;
          match fetched with
          | None => mret tt
          | Some remoteChecksum =>
              root ← gets httpRootDir;
              let cacheFile := cache_file root (Meta p) info in
              cache ← io (retrieveChecksumFromFile cacheFile);
              if unchanged cache (Status_Artifact (Status p)) info remoteChecksum then mret tt
              else
                _ ← clean_root;
                dir ← io (os_MkdirTemp env_TempDir "maven-artifact.*");
                fetch_and_publish httpHost p ctx client info cacheFile remoteChecksum dir
          end
      end
  | _, _ => mret tt
  end.

Definition DownloadFinalize : Sync unit :=
  p ← gets parent;
  root ← gets httpRootDir;
  io (os_RemoveAll (mavenDir root (Meta p))).

Definition IntervalSync : Sync Result :=
  p ← gets parent; mret (mkResult (Interval (Spec p))).

(** ** The sub-reconcilers, and their composition *)

Definition MavenArtifactSecretsSyncReconciler (certs : slice) : SyncReconciler RS :=
  mkSyncReconciler "MavenArtifactSecretsSyncReconciler" (Some (SecretsSync certs)) None None.

Definition MavenArtifactVersionSyncReconciler : SyncReconciler RS :=
  mkSyncReconciler "MavenArtifactVersionSyncReconciler" (Some VersionSync) None None.

Definition MavenArtifactDownloadSyncReconciler (httpHost : string) : SyncReconciler RS :=
  mkSyncReconciler "MavenArtifactDownloadSyncReconciler" (Some (DownloadSync httpHost)) None
    (Some DownloadFinalize).

Definition MavenArtifactIntervalReconciler : SyncReconciler RS :=
  mkSyncReconciler "MavenArtifactIntervalReconciler" None (Some IntervalSync) None.

Definition being_deleted (s : RS) : bool :=
  match DeletionTimestamp (Meta (parent s)) with Some _ => true | None => false end.

Definition MavenArtifactReconciler `{RC : Reconcilers} (httpHost : string) (certs : slice) : M RS Result :=
  WithFinalizer being_deleted (Group +:+ "/finalizer")
    (Sequence [
      run_sync being_deleted (MavenArtifactSecretsSyncReconciler certs);
      run_sync being_deleted MavenArtifactVersionSyncReconciler;
      run_sync being_deleted (MavenArtifactDownloadSyncReconciler httpHost);
      run_sync being_deleted MavenArtifactIntervalReconciler]).
End Controller.
