(* ===== verification/ImageRepositoryController.v ===== *)
(** * The ImageRepository controller (controllers/imagerepository_controller.go)

    Its five sub-reconcilers and their composition.  Image names, keychains,
    the registry and the pulling of an image are third-party: parameters. *)

From stdpp Require Import sorting.
From S2P Require Import Prelude GoStrings GoPath GoErrors Effects World GoOS Runtime ApiTypes.
From S2P Require Import Http Transport Stashes ArtifactFiles MavenDownload MavenResolver.
From S2P Require Import Reconcile.

(** go-containerregistry, k8schain and imgpkg. *)
Class Registry := {
  Keychain : Type;
  (** [name.NewDigest(s, WeakValidation)]: its [DigestStr()] *)
  name_NewDigest : string -> string + error;
  (** [name.NewTag(s, WeakValidation)]: its [Name()] *)
  name_NewTag : string -> string + error;
  k8schain_NewFromPullSecrets : nat -> list Secret -> Keychain + error;
  (** [remote.Head]: the digest, printed *)
  remote_Head : nat -> string -> option Transport -> Keychain -> string + error;
  registry_NewBasicRegistry : nat -> Keychain -> option Transport -> unit + error;
  (** [plainimage.NewPlainImage(ref, reg).Pull(dir, logger)] *)
  plainimage_Pull : string -> Keychain -> option Transport -> string -> NoopLogger -> IO unit
}.

(** Names in the order of [sets.String.List()]. *)
Definition string_le (a b : string) : Prop := String.leb a b = true.
#[export] Instance string_le_dec : RelDecision string_le.
Proof. intros a b. unfold string_le. apply _. Defined.

Definition set_List (names : list string) : list string := merge_sort string_le (remove_dups names).

Section Controller.
Context {C : Type} `{CM : ConditionManager C}.
Context {Sh : Type} `{ST : Stash Sh stash_value}.
Context `{E : Env} `{T : TarGz} `{CK : Clock} `{RG : Registry}.

Abbreviation RS := (Reconcile (ImageRepository C) Sh).
Abbreviation Sync := (M RS).
Abbreviation resolved := ImageRepositoryConditionImageResolved.
Abbreviation available := ImageRepositoryConditionArtifactAvailable.

Definition TransportSync (certs : slice) : Sync unit :=
  h ← gets heap;
  transport ← io (newTransport (elements h certs));
  set_stash (StashHttpRoundTripper transport).

(** ** Pull secrets *)

(** The loop over the names; [None] when it returned early. *)
Fixpoint get_secrets (ns : string) (names : list string) : Sync (option (list Secret)) :=
  match names with
  | [] => mret (Some [])
  | name :: names' =>
      r ← try (io (TrackAndGet_Secret ns name));
      match r with
      | inr err =>
          if apierrs_IsNotFound err then
            _ ← set_parent (ir_MarkFalse resolved "SecretMissing"
                  "Secret %q not found in namespace %q" [AStr name; AStr ns]);
            mret None
          else throw err
      | inl s =>
          l ← get_secrets ns names';
          mret ((fun l => s :: l) <$> l)
      end
  end.

Definition service_account_name (s : ImageRepositorySpec) : string :=
  if decide (ServiceAccountName s = "") then "default" else ServiceAccountName s.

Definition ImagePullSecretsSync : Sync unit :=
  p ← gets parent;
  let ns := Namespace (ir_Meta p) in
  let serviceAccountName := service_account_name (ir_Spec p) in
  r ← try (io (TrackAndGet_ServiceAccount ns serviceAccountName));
  match r with
  | inr err =>
      if apierrs_IsNotFound err
      then set_parent (ir_MarkFalse resolved "ServiceAccountMissing"
             "ServiceAccount %q not found in namespace %q" [AStr serviceAccountName; AStr ns])
      else throw err
  | inl serviceAccount =>
      let pullSecretNames := ImagePullSecrets (ir_Spec p) ++ sa_ImagePullSecrets serviceAccount in
      secrets ← get_secrets ns (set_List pullSecretNames);
      match secrets with
      | None => mret tt
      | Some imagePullSecrets => set_stash (StashImagePullSecrets imagePullSecrets)
      end
  end.

(** ** Digest *)

Definition ImageDigestSync : Sync unit :=
  p ← gets parent;
  let image := Image (ir_Spec p) in
  match name_NewDigest image with
  | inl _ => set_stash (StashImageRef image)
  | inr _ =>
      st ← gets stash;
      match RetrieveImagePullSecrets st with
      | None => mret tt
      | Some pullSecrets =>
          k ← io (ask (fun t => k8schain_NewFromPullSecrets t pullSecrets));
          keychain ← of_sum k;
          match name_NewTag image with
          | inr err =>
              set_parent (ir_MarkFalse resolved "MalformedRepository"
                "Image name %q failed validation: %s" [AStr image; AErr err])
          | inl tag =>
              head ← io (ask (fun t => remote_Head t tag (RetrieveHttpRoundTripper st) keychain));
              match head with
              | inr err =>
                  set_parent (ir_MarkFalse resolved "RemoteError"
                    "Unable to resolve image with tag %q to a digest: %s" [AStr image; AErr err])
              | inl digest => set_stash (StashImageRef (Sprintf "%s@%s" [tag; digest]))
              end
          end
      end
  end.

(** ** Pull *)

Definition imageDir (root : string) (m : ObjectMeta) : string :=
  Join [root; "imagerepository"; Namespace m; Name m].

(** [_, digestHex, _ := strings.Cut(digest.DigestStr(), ":")] *)
Definition digest_hex (digest : string) : string := (Cut digest ":").1.2.

Definition image_httpPath (m : ObjectMeta) (artifactTgzFilename : string) : string :=
  Sprintf "imagerepository/%s/%s/%s" [Namespace m; Name m; artifactTgzFilename].

(** The condition of the skip, [None] for the nil pointer dereference. *)
Definition already_published (stat : node + error) (httpUrl : string) (p : ImageRepository C) : option bool :=
  match stat with
  | inr _ => Some false
  | inl _ =>
      if decide (httpUrl = ir_URL (ir_Status p)) then
        match ir_Artifact (ir_Status p) with
        | None => None
        | Some a => Some (bool_decide (httpUrl = Artifact_URL a))
        end
      else Some false
  end.

Definition mark_skipped : Sync unit :=
  p ← gets parent;
  _ ← (if ConditionIsUnknown (GetCondition (ir_Conditions (ir_Status p)) resolved)
       then set_parent (ir_MarkTrue resolved "Resolved" "" []) else mret tt);
  set_parent (ir_MarkTrue available "Available" "" []).

Definition image_set_artifact (desired : Artifact) (url : string) (p : ImageRepository C) : ImageRepository C :=
  let s := ir_Status p in
  mkImageRepository (ir_Meta p) (ir_Spec p)
    (mkImageRepositoryStatus (ir_Conditions s) (ir_ObservedGeneration s) url
       (preserveArtifactLastUpdateTime (ir_Artifact s) desired)).

(** The pulled directory becomes the served file. *)
Definition image_publish (root imageRef artifactDir artifactTgz httpPath httpUrl : string) : Sync unit :=
  packed ← try (io (createTarGz artifactDir artifactTgz));
  match packed with
  | inr err => throw (fmt_Errorf "error creating tarball: %w" [AErr err])
  | inl _ =>
      sum ← io (sha1Checksum artifactTgz);
      let placeholder := Join [root; Sprintf "%s.new" [httpPath]] in
      _ ← io (copyFile artifactTgz placeholder);
      _ ← io (os_Rename placeholder (Join [root; httpPath]));
      t ← io (ask metav1_Now);
      _ ← set_parent (image_set_artifact (mkArtifact httpPath httpUrl imageRef sum (Some (Rfc3339Copy t))) httpUrl);
      set_parent (ir_MarkTrue available "Available" "" [])
  end.

(** The temporary directory [dir] is removed however this ends. *)
Definition pull_and_publish (root imageRef artifactTgzFilename httpPath httpUrl dir : string) : Sync unit :=
  defer (io (os_RemoveAll dir))
    (let artifactDir := Join [dir; "artifact"] in
     let artifactTgz := Join [dir; artifactTgzFilename] in
     st ← gets stash;
     match RetrieveImagePullSecrets st with
     | None => mret tt
     | Some pullSecrets =>
         k ← io (ask (fun t => k8schain_NewFromPullSecrets t pullSecrets));
         keychain ← of_sum k;
         let transport := RetrieveHttpRoundTripper st in
         reg ← io (ask (fun t => registry_NewBasicRegistry t keychain transport));
         _ ← of_sum reg;
         p ← gets parent;
         pulled ← try (io (plainimage_Pull imageRef keychain transport artifactDir NewNoopLogger));
         match pulled with
         | inr err =>
             set_parent (ir_MarkFalse resolved "RemoteError" "unable to pull image %q: %s"
               [AStr (Image (ir_Spec p)); AErr err])
         | inl _ =>
             _ ← set_parent (ir_MarkTrue resolved "Resolved" "" []);
             image_publish root imageRef artifactDir artifactTgz httpPath httpUrl
         end
     end).

Definition PullImageSync (httpHost : string) : Sync unit :=
  st ← gets stash;
  let imageRef := RetrieveImageRef st in
  if decide (imageRef = "") then mret tt
  else
    p ← gets parent;
    match name_NewDigest imageRef with
    | inr err =>
        set_parent (ir_MarkFalse resolved "MalformedDigest" "Image reference %q is not a valid digest: %s"
          [AStr imageRef; AErr err])
    | inl digest =>
        let artifactTgzFilename := Sprintf "%s.tar.gz" [digest_hex digest] in
        _ ← clean_root;
        root ← gets httpRootDir;
        let httpPath := image_httpPath (ir_Meta p) artifactTgzFilename in
        let httpUrl := Sprintf "http://%s/%s" [httpHost; httpPath] in
        stat ← try (io (os_Stat (Join [root; httpPath])));
        match already_published stat httpUrl p with
        | None => panic "nil pointer dereference"
        | Some true => mark_skipped
        | Some false =>
            dir ← io (os_MkdirTemp env_TempDir "image.*");
            pull_and_publish root imageRef artifactTgzFilename httpPath httpUrl dir
        end
    end.

Definition PullImageFinalize : Sync unit :=
  p ← gets parent;
  root ← gets httpRootDir;
  io (os_RemoveAll (imageDir root (ir_Meta p))).

Definition ImageIntervalSync : Sync Result :=
  p ← gets parent; mret (mkResult (ir_Interval (ir_Spec p))).

(** ** The sub-reconcilers, and their composition *)

Definition ImageRepositoryTransportSyncReconciler (certs : slice) : SyncReconciler RS :=
  mkSyncReconciler "ImageRepositoryTransportSyncReconciler" (Some (TransportSync certs)) None None.

Definition ImageRepositoryImagePullSecretsSyncReconciler : SyncReconciler RS :=
  mkSyncReconciler "ImageRepositoryImagePullSecretsSyncReconciler" (Some ImagePullSecretsSync) None None.

Definition ImageRepositoryImageDigestSyncReconciler : SyncReconciler RS :=
  mkSyncReconciler "ImageRepositoryImageDigestSyncReconciler" (Some ImageDigestSync) None None.

Definition ImageRepositoryPullImageSyncReconciler (httpHost : string) : SyncReconciler RS :=
  mkSyncReconciler "ImageRepositoryPullImageSyncReconciler" (Some (PullImageSync httpHost)) None
    (Some PullImageFinalize).

Definition ImageRepositoryIntervalReconciler : SyncReconciler RS :=
  mkSyncReconciler "ImageRepositoryIntervalReconciler" None (Some ImageIntervalSync) None.

Definition image_being_deleted (s : RS) : bool :=
  match DeletionTimestamp (ir_Meta (parent s)) with Some _ => true | None => false end.

Definition ImageRepositoryReconciler `{RC : Reconcilers} (httpHost : string) (certs : slice) : M RS Result :=
  WithFinalizer image_being_deleted (Group +:+ "/finalizer")
    (Sequence [
      run_sync image_being_deleted (ImageRepositoryTransportSyncReconciler certs);
      run_sync image_being_deleted ImageRepositoryImagePullSecretsSyncReconciler;
      run_sync image_being_deleted ImageRepositoryImageDigestSyncReconciler;
      run_sync image_being_deleted (ImageRepositoryPullImageSyncReconciler httpHost);
      run_sync image_being_deleted ImageRepositoryIntervalReconciler]).
End Controller.
