(* ===== verification/Frames.v ===== *)
(** * What a reconcile may change on disk

    The resource's own directory, missing directories on the way to it, and
    new entries below the temporary directory: everything else stays. *)

From S2P Require Import Prelude GoStrings GoPath GoErrors Effects World GoOS GoOSFacts Sha1.
From S2P Require Import ArtifactFiles ArtifactFilesFacts TarFacts Transport Reconcile.

(** [P] may change; on [Q] directories may appear. *)
Definition frame (P Q : list string -> Prop) : relation fsmap := fun a b =>
  forall k, ~ P k -> b !! k = a !! k \/ (Q k /\ a !! k = None /\ b !! k = Some DirNode).

#[export] Instance frame_preorder P Q : PreOrder (frame P Q).
Proof.
  split.
  - intros a k _. by left.
  - intros a b c H1 H2 k Hk.
    destruct (H1 k Hk) as [E1|(? & E1 & E1')], (H2 k Hk) as [E2|(? & E2 & E2')];
      rewrite ?E2, ?E1 in *; auto; congruence.
Qed.

Lemma frame_of_touches P Q P' a b : (forall k, P' k -> P k) -> touches P' a b -> frame P Q a b.
Proof. intros HP H k Hk. left. apply H. auto. Qed.

Lemma within_frame {A : Type} P Q P' (m : IO A) :
  (forall k, P' k -> P k) -> within (on_fs (touches P')) m -> within (on_fs (frame P Q)) m.
Proof. intros HP. apply within_impl. intros w w'. by apply frame_of_touches. Qed.

Lemma frame_MkdirAll `{E : Env} P Q p :
  (forall k, on_path_to (at_path p) k -> Q k \/ P k) -> within (on_fs (frame P Q)) (os_MkdirAll p).
Proof.
  intros HQ w k Hk. destruct (adds_MkdirAll p w k) as [->|[H1 H2]]; [by left|].
  right. split; [|done]. destruct (decide (k `prefix_of` at_path p)) as [Ho|Ho].
  - by destruct (HQ k Ho).
  - pose proof (touch_MkdirAll p w k Ho) as H. rewrite H1, H2 in H. done.
Qed.

(** Entries that existed before stay, but for those in [P]; new ones appear
    below the temporary directory or as directories in [Q]. *)
Definition isolated `{E : Env} (P Q : list string -> Prop) : relation fsmap := fun a b =>
  forall k, ~ P k -> b !! k = a !! k \/
    (a !! k = None /\ (at_or_below (at_path env_TempDir) k \/ (Q k /\ b !! k = Some DirNode))).

#[export] Instance isolated_preorder `{E : Env} P Q : PreOrder (isolated P Q).
Proof.
  split.
  - intros a k _. by left.
  - intros a b c H1 H2 k Hk. destruct (H1 k Hk) as [E1|(E1 & [H|[HQ Eb]])].
    + rewrite <- E1. by apply H2.
    + right. auto.
    + destruct (H2 k Hk) as [E2|(E2 & _)]; [|congruence].
      right. rewrite E2. auto.
Qed.

(** Nothing lies below an entry that does not exist. *)
Lemma fs_wf_below_none fs D k : fs_wf fs -> D <> [] -> fs !! D = None -> at_or_below D k -> fs !! k = None.
Proof.
  intros Hwf HD Hn [l ->]. destruct (decide (l = [])) as [->|Hl]; [by rewrite app_nil_r|].
  destruct (fs !! (D ++ l)) eqn:El; [|done].
  apply (fs_wf_prefix _ _ _ _ Hwf El) in Hl. rewrite lookup_node_ne in Hl by done. congruence.
Qed.

(** Work in a fresh temporary directory. *)
Section InTemp.
Context `{E : Env} {S : Type} `{H : HasWorld S} {A : Type}.

Lemma temp_isolated (base : string) (body : string -> M S A) P Q s :
  byte_in "*" base = false -> byte_in slash base = false -> (2 < String.length base)%nat ->
  fs_wf (w_fs (the_world s)) ->
  (forall dir w, at_path dir <> [] ->
     frame (fun k => P k \/ at_or_below (at_path dir) k) Q
       (w_fs w) (w_fs (the_world (body dir (set_world w s)).2))) ->
  isolated P Q (w_fs (the_world s))
    (w_fs (the_world ((dir ← io (os_MkdirTemp env_TempDir (base +:+ "*")); body dir) s).2)).
Proof.
  intros Hstar Hslash Hlen Hwf Hbody. unfold mbind, M_bind, io, zoom.
  destruct (os_MkdirTemp env_TempDir (base +:+ "*") (the_world s)) as [o w] eqn:Em.
  destruct o as [dir|e|why]; rewrite ?the_set_world.
  - apply MkdirTemp_Ret in Em as (name & Hname & Hk & Hnone & Hcd & Hw);
      [|apply env_TempDir_not_empty|done|done|done].
    assert (at_path dir <> []) as Hne by (rewrite Hk; by destruct (at_path env_TempDir)).
    intros k HnP. specialize (Hbody dir w Hne k). rewrite Hw in Hbody.
    destruct (decide (at_path dir `prefix_of` k)) as [Hp|Hp].
    + right. split; [by apply (fs_wf_below_none _ (at_path dir))|]. left.
      destruct Hp as [l ->]. rewrite Hk, <- app_assoc. by eexists.
    + rewrite lookup_insert_ne in Hbody by (intros <-; by apply Hp).
      destruct Hbody as [Hb|(HQ & H1 & H2)]; [by intros [?|?]|by left|]. right. auto.
  - unfold os_MkdirTemp in Em. destruct (prefixAndSuffix _). apply mkdir_temp_fails in Em; [|done].
    simpl. rewrite the_set_world, Em. done.
  - unfold os_MkdirTemp in Em. destruct (prefixAndSuffix _). apply mkdir_temp_fails in Em; [|done].
    simpl. rewrite the_set_world, Em. done.
Qed.
End InTemp.

(** ** The root directory of the closures

    [rooted K R]: while the root directory denotes [K] it keeps denoting it,
    and the file system changes as [R] allows. *)

Definition rooted `{E : Env} {P Sh : Type} (K : list string) (R : relation fsmap)
  : relation (Reconcile P Sh) := fun s s' =>
  at_path (httpRootDir s) = K ->
  at_path (httpRootDir s') = K /\ R (w_fs (world s)) (w_fs (world s')).

#[export] Instance rooted_preorder `{E : Env} {P Sh : Type} K R :
  PreOrder R -> PreOrder (rooted (P := P) (Sh := Sh) K R).
Proof.
  intros [Hr Ht]. split.
  - intros s Hs. split; [done|apply Hr].
  - intros s1 s2 s3 H1 H2 H. destruct (H1 H) as [Ha Hb]. destruct (H2 Ha) as [Hc Hd].
    split; [done|]. by eapply Ht.
Qed.

(** Steps that leave the disk and the closures alone. *)
Definition quiet {P Sh : Type} : relation (Reconcile P Sh) := fun s s' =>
  w_fs (world s') = w_fs (world s) /\ httpRootDir s' = httpRootDir s.

#[export] Instance quiet_preorder {P Sh : Type} : PreOrder (@quiet P Sh).
Proof. split; unfold quiet; [done|]. intros s1 s2 s3. naive_solver congruence. Qed.

Section Quiet.
Context {P Sh : Type}.

Lemma quiet_io {A : Type} (m : IO A) : within (on_fs eq) m -> within (@quiet P Sh) (io m).
Proof. apply within_zoom. intros s w Hw. by split. Qed.

Lemma quiet_set_parent (f : P -> P) : within (@quiet P Sh) (set_parent f).
Proof. by intros s. Qed.

Lemma quiet_set_stash (f : Sh -> Sh) : within (@quiet P Sh) (set_stash f).
Proof. by intros s. Qed.

Lemma quiet_http_error inner code (u n o : P -> P) : within (@quiet P Sh) (http_error inner code u n o).
Proof.
  unfold http_error. repeat case_decide; repeat case_match;
    first [by apply quiet_set_parent | apply within_throw; apply _].
Qed.

Lemma quiet_clean_root `{E : Env} (s : Reconcile P Sh) :
  w_fs (world (clean_root s).2) = w_fs (world s) /\
  at_path (httpRootDir (clean_root s).2) = at_path (httpRootDir s) /\
  exists s', clean_root s = (Ret tt, s').
Proof.
  unfold clean_root, mbind, M_bind, gets. destruct (IsAbs (httpRootDir s)); [simpl; eauto|].
  simpl. split; [done|]. split; [|eauto].
  unfold at_path. rewrite (key_Join env_cwd (httpRootDir s) []) by constructor. by rewrite app_nil_r.
Qed.
End Quiet.

Section OnFs.
Context {P Sh : Type} (R : relation fsmap) `{!PreOrder R}.

Lemma on_fs_set_parent (f : P -> P) : within (on_fs (S := Reconcile P Sh) R) (set_parent f).
Proof. intros s. unfold on_fs. simpl. done. Qed.

Lemma on_fs_set_stash (f : Sh -> Sh) : within (on_fs (S := Reconcile P Sh) R) (set_stash f).
Proof. intros s. unfold on_fs. simpl. done. Qed.

Lemma on_fs_on_heap {A : Type} (f : arrays -> A * arrays) :
  within (on_fs (S := Reconcile P Sh) R) (on_heap f).
Proof. intros s. unfold on_heap, on_fs. destruct (f (heap s)). simpl. done. Qed.

Lemma on_fs_clean_root : within (on_fs (S := Reconcile P Sh) R) clean_root.
Proof.
  intros s. unfold clean_root, mbind, M_bind, gets, on_fs.
  destruct (IsAbs (httpRootDir s)); simpl; done.
Qed.

Lemma on_fs_http_error inner code (u n o : P -> P) :
  within (on_fs (S := Reconcile P Sh) R) (http_error inner code u n o).
Proof.
  unfold http_error. repeat case_decide; repeat case_match;
    first [by apply on_fs_set_parent | apply within_throw; apply _].
Qed.
End OnFs.

#[export] Hint Resolve on_fs_set_parent on_fs_set_stash on_fs_on_heap on_fs_clean_root on_fs_http_error : src.

#[export] Hint Resolve quiet_io quiet_set_parent quiet_set_stash quiet_http_error : src.

Section Rooted.
Context `{E : Env} {P Sh : Type} (K : list string) (R : relation fsmap) `{!PreOrder R}.
Abbreviation RS := (Reconcile P Sh).

Lemma rooted_io {A : Type} (m : IO A) : within (on_fs R) m -> within (rooted (P := P) (Sh := Sh) K R) (io m).
Proof. apply within_zoom. intros s w Hw Hk. by split. Qed.

Lemma rooted_set_parent (f : P -> P) : within (rooted (Sh := Sh) K R) (set_parent f).
Proof. intros s Hs. by split. Qed.

Lemma rooted_set_stash (f : Sh -> Sh) : within (rooted (P := P) K R) (set_stash f).
Proof. intros s Hs. by split. Qed.

Lemma rooted_get_root {A : Type} (f : string -> M RS A) :
  (forall root, at_path root = K -> within (rooted K R) (f root)) ->
  within (rooted K R) (root ← gets httpRootDir; f root).
Proof. intros H s Hs. unfold mbind, M_bind, gets. by apply (H _ Hs). Qed.

Lemma rooted_http_error inner code (u n o : P -> P) :
  within (rooted (Sh := Sh) K R) (http_error inner code u n o).
Proof.
  unfold http_error. repeat case_decide; repeat case_match;
    first [by apply rooted_set_parent | apply within_throw; apply _].
Qed.

Lemma rooted_clean_root : within (rooted (P := P) (Sh := Sh) K R) clean_root.
Proof.
  intros s Hs. unfold clean_root, mbind, M_bind, gets. destruct (IsAbs (httpRootDir s)); [by split|].
  split; [|done]. simpl. unfold at_path. rewrite (key_Join env_cwd (httpRootDir s) []) by constructor.
  by rewrite app_nil_r.
Qed.
End Rooted.

#[export] Hint Resolve rooted_io rooted_set_parent rooted_set_stash rooted_http_error rooted_clean_root : src.

(** A checksum is a plain name, and stays one with an extension. *)
Lemma sha1_no_byte d c : is_hex c = false -> byte_in c (sha1_hex d) = false.
Proof. apply bytes_all_not_in, sha1_hex_is_hex. Qed.

Lemma normal_sha1 d sfx : byte_in slash sfx = false -> normal (sha1_hex d +:+ sfx).
Proof.
  intros Hs. apply normal_append; [|done|by apply sha1_no_byte].
  pose proof (length_sha1_hex d) as Hl. repeat split; try (intros E; by rewrite E in Hl).
  by apply sha1_no_byte.
Qed.

(** Follow a sync to its calls and updates, for any relation on its state. *)
Ltac sync_auto :=
  lazymatch goal with
  | |- within _ (mbind _ _) => apply within_bind; [apply _|sync_auto|intros; sync_auto]
  | |- within _ (try _) => apply within_try; sync_auto
  | |- within _ (defer _ _) => apply within_defer; [apply _|sync_auto|sync_auto]
  | |- within _ (mret _) => apply within_ret; apply _
  | |- within _ (throw _) => apply within_throw; apply _
  | |- within _ (panic _) => apply within_panic; apply _
  | |- within _ (gets _) => apply within_gets; apply _
  | |- within _ (of_sum _) => apply within_of_sum; apply _
  | |- within _ (match ?x with _ => _ end) => destruct x; sync_auto
  | |- _ => try solve [auto with src typeclass_instances]
  end.
