(* ===== verification/Steps.v ===== *)
(** * The steps of a reconcile that succeeds

    What a step of the file system, the removal of the temporary directory
    and the choice of a new one leave for the steps after them. *)

From S2P Require Import Prelude GoStrings GoPath GoErrors Effects World GoOS GoOSFacts.
From S2P Require Import ArtifactFiles Reconcile Frames.

Lemma append_ne (s t : string) : t <> "" -> s <> s +:+ t.
Proof.
  intros Ht H. apply (f_equal String.length) in H. rewrite length_append in H.
  destruct t; [done|]. simpl in H. lia.
Qed.

(** No directory lies in the resource's directory. *)
Definition flat (fs : fsmap) (own : list string) : Prop := forall x, fs !! (own ++ [x]) <> Some DirNode.

Section Apart.
Context `{E : Env}.

(** The resource's directory and the temporary directory are apart. *)
Definition apart (own : list string) : Prop :=
  ~ at_path env_TempDir `prefix_of` own /\ ~ own `prefix_of` at_path env_TempDir.

Lemma apart_temp own name l : apart own -> ~ (at_path env_TempDir ++ [name]) `prefix_of` own ++ l.
Proof.
  intros [H1 H2] Hp.
  destruct (prefix_weak_total (at_path env_TempDir ++ [name]) own (own ++ l)) as [H|H]; [done|by exists l| |].
  - apply H1. etransitivity; [|exact H]. by exists [name].
  - destruct H as [r Hr]. destruct r as [|x r _] using rev_ind.
    + rewrite app_nil_r in Hr. apply H1. rewrite <- Hr. by exists [name].
    + rewrite app_assoc in Hr. apply app_inj_tail in Hr as [Hr _]. apply H2. rewrite Hr. by exists r.
Qed.

End Apart.

Section Steps.
Context `{E : Env} {P Sh : Type}.
Abbreviation RS := (Reconcile P Sh).

Lemma io_Ret {A : Type} (m : IO A) (s : RS) a s' :
  io m s = (Ret a, s') -> exists w, m (world s) = (Ret a, w) /\ s' = set_world w s.
Proof. unfold io, zoom. destruct (m (the_world s)) as [o w] eqn:Em. intros [= -> <-]. eauto. Qed.

Lemma try_io_Ret {A : Type} (m : IO A) (s : RS) r s' :
  try (io m) s = (Ret r, s') ->
  exists w, s' = set_world w s /\ match r with inl a => m (world s) = (Ret a, w) | inr e => m (world s) = (Fail e, w) end.
Proof.
  unfold try, io, zoom. simpl. destruct (m (world s)) as [[a|e|why] w] eqn:Em; intros [= <- <-]; eauto.
Qed.

Lemma clean_root_Ret (s s' : RS) u :
  clean_root s = (Ret u, s') ->
  parent s' = parent s /\ stash s' = stash s /\ world s' = world s /\
  at_path (httpRootDir s') = at_path (httpRootDir s).
Proof.
  intros H. destruct (quiet_clean_root s) as (_ & Hr & _). rewrite H in Hr. simpl in Hr. revert H.
  unfold clean_root, mbind, M_bind, gets. destruct (IsAbs (httpRootDir s)); by intros [= _ <-].
Qed.

(** What ran before the removal of the temporary directory. *)
Lemma defer_RemoveAll_Ret {A : Type} dir (m : M RS A) s r s' :
  defer (io (os_RemoveAll dir)) m s = (r, s') ->
  exists s1 w, m s = (r, s1) /\ s' = set_world w s1 /\
    touches (at_or_below (at_path dir)) (w_fs (world s1)) (w_fs w).
Proof.
  intros H. apply defer_inv in H as (s1 & r2 & Ebody & Erm).
  pose proof (touch_RemoveAll dir (world s1)) as Ht. unfold io, zoom in Erm. simpl in Erm.
  destruct (os_RemoveAll dir (world s1)) as [o w]. injection Erm as _ <-. by exists s1, w.
Qed.

(** A new temporary directory is apart from the resource's directory. *)
Lemma MkdirTemp_apart base w d w' own :
  byte_in "*" base = false -> byte_in slash base = false -> (2 < String.length base)%nat ->
  apart own -> flat (w_fs w) own ->
  os_MkdirTemp env_TempDir (base +:+ "*") w = (Ret d, w') ->
  (forall l, ~ at_path d `prefix_of` own ++ l) /\ flat (w_fs w') own.
Proof.
  intros Hb1 Hb2 Hlen Hap Hflat H.
  apply MkdirTemp_Ret in H as (name & _ & Hk & _ & _ & Hfs); try done; [|apply env_TempDir_not_empty].
  assert (forall l, ~ at_path d `prefix_of` own ++ l) as Hd by (intros l; rewrite Hk; by apply apart_temp).
  split; [done|]. intros y. rewrite Hfs, lookup_insert_ne; [apply Hflat|].
  intros Eq. apply (Hd [y]). by rewrite Eq.
Qed.
End Steps.
