(* ===== verification/MavenFacts.v ===== *)
(** * Facts about the MavenArtifact controller

    Which part of the disk a sync may change, and that it keeps the tree well
    formed. *)

From S2P Require Import Prelude GoStrings GoPath GoErrors Effects World GoOS GoOSFacts Sha1.
From S2P Require Import Runtime ApiTypes MavenMetadata Http Transport Stashes ArtifactFiles.
From S2P Require Import ArtifactFilesFacts TarFacts MavenDownload MavenResolver SentFacts.
From S2P Require Import Reconcile Frames MavenArtifactController.

(** Names the Kubernetes API accepts for a namespace and an object. *)
Definition meta_ok (m : ObjectMeta) : Prop := normal (Namespace m) /\ normal (Name m).

Lemma normal_maven : normal "mavenartifact".
Proof. by vm_compute. Qed.
Lemma normal_artifact : normal "artifact".
Proof. by vm_compute. Qed.
Lemma normal_artifactTgz : normal "artifactTgz".
Proof. by vm_compute. Qed.
#[export] Hint Resolve normal_maven normal_artifact normal_artifactTgz normal_extracted : src.

(** Names are listed one by one. *)
Ltac normals := simpl; repeat first [apply Forall_nil_2 | apply Forall_cons_2]; auto with src.

Section Paths.
Context `{E : Env}.

Lemma at_path_below dir xs : Forall normal xs -> at_or_below (at_path dir) (at_path (Join (dir :: xs))).
Proof. intros H. unfold at_path. rewrite key_Join by done. by eexists. Qed.

Lemma at_mavenDir root m :
  meta_ok m -> at_path (mavenDir root m) = at_path root ++ ["mavenartifact"; Namespace m; Name m].
Proof. intros [? ?]. apply key_Join. normals. Qed.

Lemma at_Join2 d x y : normal x -> normal y -> at_path (Join [Join [d; x]; y]) = at_path d ++ [x; y].
Proof.
  intros Hx Hy. unfold at_path. rewrite (key_Join _ (Join [d; x]) [y]), (key_Join _ d [x]) by auto.
  by rewrite <- app_assoc.
Qed.

(** The cache file and the served file lie in the resource's directory. *)
Lemma at_cache_file root m info :
  meta_ok m -> normal (ResolvedFileName info) ->
  at_path (cache_file root m info) = at_path (mavenDir root m) ++ [ResolvedFileName info +:+ ".sha1"].
Proof.
  intros [Hns Hname] Hf. unfold cache_file.
  change (Sprintf "%s/%s.%s" [mavenDir root m; ResolvedFileName info; "sha1"])
    with (mavenDir root m +:+ String slash (ResolvedFileName info +:+ ".sha1")).
  assert (byte_in slash (ResolvedFileName info +:+ ".sha1") = false) as Hs.
  { destruct Hf as (_ & _ & _ & Hf). by rewrite byte_in_append, Hf. }
  unfold at_path. rewrite key_slash.
  - by rewrite Split_no_sep.
  - apply (Join_not_nil root ["mavenartifact"; Namespace m] (Name m)). normals.
  - rewrite Split_no_sep by done. constructor; [|done]. repeat split; [| | |done].
    + by intros [? _]%append_eq_nil; destruct Hf.
    + intros E'. apply (f_equal String.length) in E'. rewrite length_append in E'. simpl in E'. lia.
    + intros E'. apply (f_equal String.length) in E'. rewrite length_append in E'. simpl in E'. lia.
Qed.

Definition maven_httpPath (m : ObjectMeta) (f : string) : string :=
  Join ["mavenartifact"; Namespace m; Name m; f].

Lemma at_httpPath root m f :
  meta_ok m -> normal f ->
  at_path (Join [root; maven_httpPath m f]) = at_path (mavenDir root m) ++ [f].
Proof.
  intros Hm Hf. rewrite at_mavenDir by done. destruct Hm as [? ?].
  unfold maven_httpPath. rewrite (Join_names "mavenartifact"), Join_path by normals.
  unfold at_path. rewrite key_Join by normals. by rewrite <- app_assoc.
Qed.

Lemma at_httpPath_new root m f :
  meta_ok m -> normal f -> normal (f +:+ ".new") ->
  at_path (Join [root; maven_httpPath m f] +:+ ".new") = at_path (mavenDir root m) ++ [f +:+ ".new"] /\
  at_path (Dir (Join [root; maven_httpPath m f] +:+ ".new")) = at_path (mavenDir root m).
Proof.
  intros Hm Hf Hn. rewrite at_mavenDir by done. destruct Hm as [? ?].
  unfold maven_httpPath. rewrite (Join_names "mavenartifact"), Join_path by normals.
  destruct (key_suffix env_cwd root ["mavenartifact"; Namespace m; Name m] f ".new") as [H1 H2];
    [normals|done|done|]. simpl app in H1, H2.
  unfold at_path. rewrite H1, H2, <- app_assoc. done.
Qed.
End Paths.

(** ** The disk *)

Section Disk.
Context {C : Type} `{CM : ConditionManager C}.
Context {Sh : Type} `{ST : Stash Sh stash_value}.
Context `{E : Env} `{X : Xml} `{T : TarGz} `{ZR : Zip} `{CK : Clock}.

Lemma touch_downloadArtifact (ctx : Ctx Sh) url dir f c client :
  normal f -> within (on_fs (touches (at_or_below (at_path dir)))) (downloadArtifact ctx url dir f c client).
Proof.
  intros Hf. assert (at_or_below (at_path dir) (at_path (Join [dir; "artifact"]))) as H1
    by (apply at_path_below; auto with src).
  assert (at_or_below (at_path dir) (at_path (Join [Join [dir; "artifact"]; f]))) as H2
    by (rewrite at_Join2 by auto with src; by eexists).
  unfold downloadArtifact, copy_to. within_auto.
  - eapply within_touches_mono; [|apply touch_Mkdir]. by intros k <-.
  - eapply within_touches_mono; [|apply touch_Create]. by intros k <-.
  - eapply within_touches_mono; [|apply touch_write_all]. by intros k <-.
  - eapply within_touches_mono; [|apply touch_Chtimes]. by intros k <-.
Qed.

Lemma wf_downloadArtifact (ctx : Ctx Sh) url dir f c client :
  within (on_fs keeps_wf) (downloadArtifact ctx url dir f c client).
Proof. unfold downloadArtifact, copy_to. within_auto. Qed.

Context (K : list string) (m : ObjectMeta) (Hm : meta_ok m).
Abbreviation RS := (Reconcile (MavenArtifact C) Sh).
Abbreviation own := (at_or_below (K ++ ["mavenartifact"; Namespace m; Name m])).
Abbreviation way := (on_path_to (K ++ ["mavenartifact"; Namespace m; Name m])).

(** In [dir] and in the resource's directory. *)
Definition working (dir : string) : relation RS :=
  rooted K (frame (fun k => own k \/ at_or_below (at_path dir) k) way).

#[local] Instance working_preorder dir : PreOrder (working dir).
Proof. apply _. Qed.

Lemma working_io {A : Type} dir (n : IO A) :
  within (on_fs (touches (at_or_below (at_path dir)))) n -> within (working dir) (io n).
Proof. intros H. apply rooted_io. eapply within_frame; [|exact H]. auto. Qed.

Lemma working_fetch dir (p : MavenArtifact C) ctx client info c :
  normal (ResolvedFileName info) -> within (working dir) (fetch_artifact p ctx client info dir c).
Proof.
  intros Hf. unfold fetch_artifact. apply within_bind; [apply _| |].
  - apply within_try, working_io. by apply touch_downloadArtifact.
  - intros [d|e]; [by apply within_ret; apply _|]. apply within_bind; [apply _| |intros; apply within_ret; apply _].
    unfold artifact_failed. destruct (errors_Is _ _); [apply rooted_set_parent; apply _|].
    destruct (as_downloadError e) as [[inner code]|]; [apply rooted_http_error|apply rooted_set_parent]; apply _.
Qed.

Lemma working_unpack dir info d : within (working dir) (unpack info dir d).
Proof.
  unfold unpack. apply within_bind; [apply _|by apply working_io, within_isArchive; apply _|].
  intros []; [|by apply within_ret; apply _]. apply within_bind; [apply _| |].
  - apply within_try, working_io. eapply within_touches_mono; [|apply extractArchive_touches].
    intros k [l ->]. rewrite at_path_extracted, <- app_assoc. by eexists.
  - intros [d'|e]; [by apply within_ret; apply _|].
    apply within_bind; [apply _|apply rooted_set_parent; apply _|]. intros _. apply within_ret; apply _.
Qed.

Lemma working_publish host info dir ad tgz cacheFile c :
  normal tgz -> normal (tgz +:+ ".new") ->
  at_path cacheFile = K ++ ["mavenartifact"; Namespace m; Name m; ResolvedFileName info +:+ ".sha1"] ->
  within (working dir) (publish (C := C) host m info dir ad tgz cacheFile c).
Proof.
  intros Ht Hnew Hcache. unfold publish.
  assert (at_path (Join [Join [dir; "artifactTgz"]; tgz]) = at_path dir ++ ["artifactTgz"; tgz]) as Hk
    by (apply at_Join2; auto with src).
  apply within_bind; [apply _| |intros _].
  { apply working_io. eapply within_touches_mono; [|apply touch_Mkdir]. intros k <-.
    apply at_path_below. auto with src. }
  apply within_bind; [apply _| |].
  { apply within_try, working_io. eapply within_touches_mono; [|apply touch_createTarGz].
    intros k <-. rewrite Hk. by eexists. }
  intros [_|e]; [|by apply within_throw; apply _].
  apply within_bind; [apply _|by apply working_io, within_sha1Checksum; apply _|]. intros sum.
  apply rooted_get_root. intros root Hroot.
  pose proof (at_mavenDir root m Hm) as Hd. rewrite Hroot in Hd.
  destruct (at_httpPath_new root m tgz Hm Ht Hnew) as [Hn1 Hn2].
  pose proof (at_httpPath root m tgz Hm Ht) as Hp. fold (maven_httpPath m tgz).
  apply within_bind; [apply _| |intros _].
  { apply rooted_io. unfold copyCompressedFile.
    assert (forall x k, is_key (at_path (mavenDir root m) ++ [x]) k -> own k \/ at_or_below (at_path dir) k) as Hown.
    { intros x k <-. left. rewrite Hd. by exists [x]. }
    within_auto.
    - apply frame_MkdirAll. rewrite Hn2, Hd. auto.
    - eapply within_frame; [|apply touch_Create]. rewrite Hn1. apply Hown.
    - eapply within_frame; [|apply touch_write_all]. rewrite Hn1. apply Hown.
    - eapply within_frame; [|apply touch_Rename]. rewrite Hn1, Hp. intros k [-> | ->]; by eapply Hown. }
  apply within_bind; [apply _| |intros _].
  { apply rooted_io. eapply within_frame; [|apply touch_WriteFile]. intros k <-. left. rewrite Hcache.
    by exists [ResolvedFileName info +:+ ".sha1"]; rewrite <- app_assoc. }
  apply within_bind; [apply _|apply rooted_io, within_ask; apply _|]. intros t.
  apply within_bind; [apply _|apply rooted_set_parent; apply _|]. intros _. apply rooted_set_parent; apply _.
Qed.
End Disk.

(** ** Whole syncs *)

Section Syncs.
Context {C : Type} `{CM : ConditionManager C}.
Context {Sh : Type} `{ST : Stash Sh stash_value}.
Context `{E : Env} `{X : Xml} `{T : TarGz} `{ZR : Zip} `{CK : Clock}.
Abbreviation RS := (Reconcile (MavenArtifact C) Sh).

Lemma quiet_fetch_checksum (ctx : Ctx Sh) client info :
  within (@quiet (MavenArtifact C) Sh) (fetch_checksum ctx client info).
Proof.
  unfold fetch_checksum. apply within_bind; [apply _| |].
  - apply within_try, quiet_io, within_downloadChecksum; apply _.
  - intros [c|e]; [apply within_ret; apply _|].
    apply within_bind; [apply _| |intros; apply within_ret; apply _].
    unfold checksum_failed. destruct (errors_Is _ _); [apply quiet_set_parent|].
    destruct (as_downloadError e) as [[inner code]|]; [apply quiet_http_error|apply quiet_set_parent].
Qed.

(** The cache file's path, as the root is written before it is cleaned. *)
Lemma frame_fetch_and_publish host (p : MavenArtifact C) ctx client info cacheFile c dir root (s : RS) :
  httpRootDir s = root -> meta_ok (Meta p) -> normal (ResolvedFileName info) -> at_path dir <> [] ->
  at_path cacheFile = at_path (mavenDir root (Meta p)) ++ [ResolvedFileName info +:+ ".sha1"] ->
  let own := at_path (mavenDir root (Meta p)) in
  frame (fun k => at_or_below own k \/ at_or_below (at_path dir) k) (on_path_to own)
    (w_fs (world s)) (w_fs (world (fetch_and_publish host p ctx client info cacheFile c dir s).2)).
Proof.
  intros Hroot Hm Hf Hdir Hcache own.
  assert (own = at_path root ++ ["mavenartifact"; Namespace (Meta p); Name (Meta p)]) as Hown
    by by apply at_mavenDir.
  assert (within (working (C := C) (Sh := Sh) (at_path root) (Meta p) dir)
            (fetch_and_publish host p ctx client info cacheFile c dir)) as Hw.
  { unfold fetch_and_publish. apply within_defer; [apply _| |].
    - apply working_io, touch_RemoveAll.
    - apply within_bind; [apply _|by apply working_fetch|]. intros [ad|]; [|by apply within_ret; apply _].
      apply (within_bind_post _ (fun sum => exists d, sum = sha1_hex d)).
      + apply working_io, within_sha1Checksum; apply _.
      + intros s0 sum s1 H. unfold io, zoom in H.
        destruct (sha1Checksum _ _) as [o w] eqn:Es. injection H as -> <-.
        apply sha1Checksum_Ret in Es as (_ & f & _ & ->). eauto.
      + intros sum [d ->]. apply within_bind; [apply _|apply working_unpack|].
        intros [ad'|]; [|by apply within_ret; apply _].
        change (Sprintf "%s.tar.gz" [sha1_hex d]) with (sha1_hex d +:+ ".tar.gz").
        apply working_publish; [done|by apply normal_sha1| |].
        * rewrite append_assoc. by apply normal_sha1.
        * rewrite Hcache. fold own. rewrite Hown, <- app_assoc. done. }
  rewrite Hown. apply Hw. by rewrite Hroot.
Qed.

Lemma DownloadSync_disk host (s : RS) :
  fs_wf (w_fs (world s)) -> meta_ok (Meta (parent s)) ->
  (forall info, retrieveArtifactVersion (stash s) = Some info -> normal (ResolvedFileName info)) ->
  let own := at_path (mavenDir (httpRootDir s) (Meta (parent s))) in
  isolated (at_or_below own) (on_path_to own)
    (w_fs (world s)) (w_fs (world (DownloadSync (C := C) host s).2)).
Proof.
  intros Hwf Hm Hinfo own. unfold DownloadSync, mbind, M_bind at 1, gets at 1.
  destruct (retrieveArtifactVersion (stash s)) as [info|] eqn:Ei; [|done].
  destruct (retrieveHttpClient (stash s)) as [client|]; [|done].
  specialize (Hinfo info eq_refl). unfold M_bind at 1, gets at 1.
  destruct (Timeout (Spec (parent s))) as [timeout|]; [|done]. unfold M_bind at 1.
  pose proof (quiet_fetch_checksum (mkCtx (Some timeout) (stash s)) client info s) as Hq.
  destruct (fetch_checksum _ client info s) as [[[c|]|e|why] s1]; simpl in Hq;
    try (destruct Hq as [Hq _]; simpl; rewrite Hq; done).
  destruct Hq as [Hfs Hroot]. unfold M_bind at 1, gets at 1. unfold M_bind at 1.
  pose proof (quiet_io (P := MavenArtifact C) (Sh := Sh)
    (retrieveChecksumFromFile (cache_file (httpRootDir s1) (Meta (parent s)) info))
    (within_retrieveChecksum eq _) s1) as Hq2.
  destruct (io (retrieveChecksumFromFile _) s1) as [[cache|e|why] s2]; simpl in Hq2;
    destruct Hq2 as [Hfs2 Hroot2]; [|simpl; rewrite Hfs2, Hfs; done..].
  destruct (unchanged _ _ _ _); [simpl; rewrite Hfs2, Hfs; done|].
  unfold M_bind at 1. destruct (quiet_clean_root s2) as (Hfs3 & Hroot3 & s3 & Ecr).
  rewrite Ecr in *. simpl in Hfs3, Hroot3.
  assert (w_fs (world s3) = w_fs (world s)) as Hfs03 by congruence.
  rewrite <- Hfs03. rewrite <- Hfs03 in Hwf.
  assert (own = at_path (mavenDir (httpRootDir s3) (Meta (parent s)))) as Hown.
  { unfold own. rewrite !at_mavenDir by done. rewrite Hroot3. congruence. }
  set (ctx := mkCtx (Some timeout) (stash s)). set (cf := cache_file (httpRootDir s1) _ info).
  assert (at_path cf = at_path (mavenDir (httpRootDir s3) (Meta (parent s))) ++
                       [ResolvedFileName info +:+ ".sha1"]) as Hcf.
  { unfold cf. rewrite at_cache_file by done. rewrite !at_mavenDir by done. rewrite Hroot3. congruence. }
  assert (forall dir w, at_path dir <> [] ->
    frame (fun k => at_or_below own k \/ at_or_below (at_path dir) k) (on_path_to own) (w_fs w)
      (w_fs (the_world (fetch_and_publish host (parent s) ctx client info cf c dir (set_world w s3)).2)))
    as Hbody.
  { intros dir w Hdir. rewrite Hown.
    exact (frame_fetch_and_publish host (parent s) ctx client info cf c dir
             (httpRootDir s3) (set_world w s3)
           eq_refl Hm Hinfo Hdir Hcf). }
  assert (2 < String.length "maven-artifact.")%nat as Hlen by (simpl; lia).
  exact (temp_isolated "maven-artifact." _ _ _ s3 eq_refl eq_refl Hlen Hwf Hbody).
Qed.
End Syncs.
