(* ===== verification/Packed.v ===== *)
(** * From the downloaded file to the tarball

    The tree a downloaded artifact is packed from: the file itself, or the
    files of the archive it is; and that the tarball of that tree is made
    (controllers/mavenartifact_controller.go, from [downloadArtifact] to
    [createTarGz]). *)

From S2P Require Import Prelude GoStrings GoPath GoErrors Effects World GoOS GoOSFacts Sha1.
From S2P Require Import Runtime ApiTypes MavenMetadata Http Transport Stashes ArtifactFiles.
From S2P Require Import ArtifactFilesFacts Extraction TarFacts MavenDownload MavenResolver Reconcile Frames Steps.
From S2P Require Import MavenArtifactController MavenFacts.

Section Trees.
Context `{E : Env}.

(** The directory [dest] holds the files [c], all under plain names. *)
Record holds (dest : string) (c : list string -> option string) (fs : fsmap) : Prop := {
  holds_dir : lookup_node fs (at_path dest) = Some DirNode;
  holds_names : forall r n, fs !! (at_path dest ++ r) = Some n -> Forall normal r;
  holds_data : forall l, file_data fs (at_path dest ++ l) = c l
}.

Lemma holds_touches P dest c fs fs' :
  touches P fs fs' -> (forall l, ~ P (at_path dest ++ l)) -> holds dest c fs -> holds dest c fs'.
Proof.
  intros Ht HP [Hd Hn Hc]. assert (forall l, fs' !! (at_path dest ++ l) = fs !! (at_path dest ++ l)) as Heq
    by (intros l; apply Ht, HP).
  split.
  - destruct (decide (at_path dest = [])) as [->|Hne]; [done|]. rewrite lookup_node_ne in Hd |- * by done.
    specialize (Heq []). rewrite app_nil_r in Heq. by rewrite Heq.
  - intros r n. rewrite Heq. apply Hn.
  - intros l. unfold file_data. rewrite Heq. apply Hc.
Qed.

Lemma holds_same dest c fs fs' : fs' = fs -> holds dest c fs -> holds dest c fs'.
Proof. by intros ->. Qed.

(** Nothing is below a directory just made. *)
Lemma Mkdir_fresh p w w' r :
  fs_wf (w_fs w) -> os_Mkdir p w = (Ret tt, w') -> r <> [] -> w_fs w' !! (at_path p ++ r) = None.
Proof.
  intros Hwf (Hn & _ & Hfs)%Mkdir_Ret Hr. rewrite Hfs, lookup_insert_ne.
  - destruct (w_fs w !! (at_path p ++ r)) as [n|] eqn:En; [|done].
    apply fs_wf_prefix in En; [congruence|done..].
  - intros Eq. apply (f_equal length) in Eq. rewrite length_app in Eq. destruct r; simpl in Eq; [done|lia].
Qed.

Lemma Mkdir_made p w w' : os_Mkdir p w = (Ret tt, w') -> lookup_node (w_fs w') (at_path p) = Some DirNode.
Proof.
  intros (_ & _ & ->)%Mkdir_Ret. unfold lookup_node. destruct (at_path p) eqn:Ep; [done|].
  apply lookup_insert_eq.
Qed.

Context `{T : TarGz}.

(** The tarball is that of the directory, and the directory stays. *)
Lemma pack_holds dir dest x tgz c w w1 w2 :
  (forall t, env_fault t = None) -> fs_wf (w_fs w) -> normal tgz ->
  at_path dest = at_path dir ++ [x] -> x <> "artifactTgz" -> holds dest c (w_fs w) ->
  os_Mkdir (Join [dir; "artifactTgz"]) w = (Ret tt, w1) ->
  createTarGz dest (Join [Join [dir; "artifactTgz"]; tgz]) w1 = (Ret tt, w2) ->
  holds dest c (w_fs w1) /\
  forall b, targz (tar_files (at_path dest) (w_fs w1)) = Some b ->
    exists m t, w_fs w2 !! at_path (Join [Join [dir; "artifactTgz"]; tgz]) = Some (FileNode (mkFile b m t)).
Proof.
  intros Hnf Hwf Ht Hdest Hx Hh Hmk Htar.
  assert (at_path (Join [dir; "artifactTgz"]) = at_path dir ++ ["artifactTgz"]) as Htd by (apply key_Join; auto with src).
  assert (at_path (Join [Join [dir; "artifactTgz"]; tgz]) = at_path (Join [dir; "artifactTgz"]) ++ [tgz]) as Hout
    by (apply key_Join; auto with src).
  pose proof (touch_Mkdir (Join [dir; "artifactTgz"]) w) as Htouch. rewrite Hmk in Htouch. unfold on_fs in Htouch.
  assert (holds dest c (w_fs w1)) as Hh1.
  { eapply holds_touches; [exact Htouch| |done]. intros l Eq. unfold is_key in Eq.
    rewrite Htd, Hdest, <- app_assoc in Eq. apply app_inv_head in Eq. by injection Eq. }
  split; [done|]. intros b Hb. destruct Hh1 as [Hd Hn _].
  pose proof (wf_Mkdir (Join [dir; "artifactTgz"]) w Hwf) as Hwf1. rewrite Hmk in Hwf1. cbn in Hwf1.
  destruct (createTarGz_run dest (Join [Join [dir; "artifactTgz"]; tgz]) w1 b) as (w3 & m & t & Hc & Hfs); try done.
  - intros [l Hl]. rewrite Hout, Htd, Hdest, <- !app_assoc in Hl. apply app_inv_head in Hl. by injection Hl.
  - rewrite Hout. apply check_dirs_wf; [done|]. by eapply Mkdir_made.
  - rewrite lookup_node_ne by (rewrite Hout; by destruct (at_path (Join [dir; "artifactTgz"]))).
    by rewrite Hout, (Mkdir_fresh _ w).
  - rewrite Hc in Htar. injection Htar as ->. exists m, t. rewrite Hfs. apply lookup_insert_eq.
Qed.
End Trees.

(** ** The downloaded file *)

(** A directory with the one file [name]. *)
Definition single (name data : string) (l : list string) : option string :=
  if decide (l = [name]) then Some data else None.

Section Downloaded.
Context {Sh : Type} `{ST : Stash Sh stash_value}.
Context `{E : Env}.

Lemma file_holds dest name f fs :
  normal name -> at_path dest <> [] -> lookup_node fs (at_path dest) = Some DirNode ->
  fs !! (at_path dest ++ [name]) = Some (FileNode f) ->
  (forall l, l <> [] -> l <> [name] -> fs !! (at_path dest ++ l) = None) -> holds dest (single name (f_data f)) fs.
Proof.
  intros Hn Hne Hd Hf Hnone. split; [done| |].
  - intros r n Hr. destruct (decide (r = [])) as [->|Hr']; [done|].
    destruct (decide (r = [name])) as [->|Hr'']; [by constructor|]. by rewrite Hnone in Hr.
  - intros l. unfold single, file_data. case_decide as Hl; [subst l; by rewrite Hf|].
    destruct (decide (l = [])) as [->|Hl']; [|by rewrite Hnone]. rewrite app_nil_r.
    rewrite lookup_node_ne in Hd by done. by rewrite Hd.
Qed.

(** The artifact is alone in its directory. *)
Lemma downloadArtifact_holds (ctx : Ctx Sh) url dir name sum client w d w' :
  fs_wf (w_fs w) -> normal name -> downloadArtifact ctx url dir name sum client w = (Ret d, w') ->
  d = Join [dir; "artifact"] /\ exists f, w_fs w' !! at_path (Join [d; name]) = Some (FileNode f) /\
    sum = sha1_hex (f_data f) /\ holds d (single name (f_data f)) (w_fs w').
Proof.
  intros Hwf Hn H. destruct (downloadArtifact_Ret _ _ _ _ _ _ _ _ _ H) as (-> & f & Hf & Hs).
  split; [done|]. exists f. split; [done|]. split; [done|].
  set (d := Join [dir; "artifact"]) in *.
  assert (at_path (Join [d; name]) = at_path d ++ [name]) as Hk by (apply key_Join; by constructor).
  unfold downloadArtifact in H. fold d in H. inv_bind H. destruct v.
  assert (touches (is_key (at_path (Join [d; name]))) (w_fs st) (w_fs w')) as Ht.
  { match type of H with ?rest _ = _ =>
      assert (within (on_fs (touches (is_key (at_path (Join [d; name]))))) rest) as Hw end.
    { unfold copy_to. within_auto; auto using touch_Create, touch_write_all, touch_Chtimes. }
    specialize (Hw st). by rewrite H in Hw. }
  assert (at_path d <> []) as Hne
    by (unfold d; unfold at_path; rewrite key_Join by auto with src; by destruct (key _ _)).
  rewrite Hk in Hf, Ht. apply file_holds; [done|done| |done|].
  - apply Mkdir_made in Hstep. rewrite lookup_node_ne in Hstep |- * by done. rewrite Ht; [done|].
    intros Eq. apply (f_equal length) in Eq. rewrite length_app in Eq. simpl in Eq. lia.
  - intros l Hl Hl'. rewrite Ht; [by apply (Mkdir_fresh _ w)|]. intros Eq. apply app_inv_head in Eq. by subst l.
Qed.
End Downloaded.

(** ** Unpacking *)

Section Unpacked.
Context `{E : Env} `{ZR : Zip}.

(** What [isArchive] decides on. *)
Definition is_zip (data : string) : bool :=
  if decide (data = "") then false else detects_zip (String.substring 0 512 data).

(** The tree an artifact is packed from. *)
Definition artifact_tree (dir name data : string) : list string -> option string :=
  if is_zip data then
    match zip_NewReader (Join [Join [dir; "artifact"]; name]) data with
    | inl files => fun l => archive_file (extracted dir) files (at_path (extracted dir) ++ l)
    | inr _ => fun _ => None
    end
  else single name data.

Definition artifact_root (dir data : string) : string :=
  if is_zip data then extracted dir else Join [dir; "artifact"].

Lemma isArchive_Ret p f w b w' :
  (forall t, env_fault t = None) -> fs_wf (w_fs w) -> w_fs w !! at_path p = Some (FileNode f) ->
  isArchive p w = (Ret b, w') -> b = is_zip (f_data f).
Proof.
  intros Hnf Hwf Hf. assert (lookup_node (w_fs w) (at_path p) = Some (FileNode f)) as Hl.
  { rewrite lookup_node_ne; [done|]. intros Hnil. rewrite Hnil in Hf. destruct Hwf as [Hroot _]. congruence. }
  unfold isArchive, mbind, M_bind at 1, try, os_Open, fs_call. rewrite Hnf.
  unfold p_stat. rewrite (check_dirs_wf_node _ _ _ Hwf Hl), Hl.
  unfold M_bind, read_all, fs_call. cbn [w_tick set_fs tick_world]. rewrite Hnf. unfold p_read. simpl. rewrite Hl.
  unfold is_zip. case_decide; by intros [= <- _].
Qed.

(** Every entry goes to a plain name below the destination. *)
Definition plain_below (D : list string) (q : list string) : Prop :=
  forall r, q = D ++ r -> Forall normal r.

Lemma plain_prefix D l q : Forall normal l -> on_path_to (D ++ l) q -> plain_below D q.
Proof.
  intros Hl [r Hr] r' ->. rewrite <- app_assoc in Hr. apply app_inv_head in Hr. subst l.
  by apply Forall_app in Hl as [Hl _].
Qed.

Lemma plain_extractFile D f p l :
  Forall normal l -> at_path p = D ++ l -> within (on_fs (touches (plain_below D))) (extractFile f p).
Proof.
  intros Hl Hp. assert (forall q, is_key (at_path p) q -> plain_below D q) as Hk.
  { intros q <-. rewrite Hp. apply (plain_prefix _ l); [done|]. by unfold on_path_to. }
  unfold extractFile, zip_Open, copy_to. within_auto.
  - eapply within_touches_mono; [|apply touch_MkdirAll]. intros q. rewrite Hp. by apply plain_prefix.
  - by eapply within_touches_mono; [|apply touch_OpenFile].
  - by eapply within_touches_mono; [|apply touch_write_all].
  - by eapply within_touches_mono; [|apply touch_Chtimes].
Qed.

Lemma extract_entries_plain parentDir files :
  within (on_fs (touches (plain_below (at_path (extracted parentDir)))))
    (for_each files (fun f =>
       filePath ← of_sum (safeArchiveEntryPath (extracted parentDir) (zf_Name f));
       extractFile f filePath)).
Proof.
  apply within_for_each; [apply _|]. intros f w.
  destruct (safeArchiveEntryPath (extracted parentDir) (zf_Name f)) as [p|e] eqn:Es; [|done].
  destruct (Split_extracted parentDir) as [init Hi].
  destruct (safeArchiveEntryPath_below _ _ _ _ _ Hi normal_extracted Es) as (l & Hl & Hp).
  by apply (plain_extractFile _ f p l).
Qed.

Lemma extractArchive_holds parentDir jar f w d w' :
  fs_wf (w_fs w) -> w_fs w !! at_path jar = Some (FileNode f) ->
  extractArchive parentDir jar w = (Ret d, w') ->
  exists files, zip_NewReader jar (f_data f) = inl files /\ d = extracted parentDir /\
    Forall (extractable d) files /\
    holds d (fun l => archive_file d files (at_path d ++ l)) (w_fs w').
Proof.
  intros Hwf Hf H. destruct (extractArchive_data _ _ _ _ _ Hwf H) as (data & files & Hd & Hz & -> & Hex & Hall).
  unfold file_data in Hd. rewrite Hf in Hd. injection Hd as <-.
  exists files. split; [done|]. split; [done|]. split; [done|]. set (D := at_path (extracted parentDir)) in *.
  unfold extractArchive in H. inv_bind H. inv_bind H. destruct v0. inv_bind H. injection H as ->.
  assert (w_fs st = w_fs w) as Hfs.
  { unfold zip_OpenReader in Hstep. inv_bind Hstep. inv_bind Hstep. apply Open_Ret in Hstep2 as [<- _].
    apply read_all_Ret in Hstep3 as [<- _]. by destruct (zip_NewReader _ _); injection Hstep as _ <-. }
  rewrite <- Hfs in Hwf. pose proof (Mkdir_dirs_to _ _ _ Hstep0) as Hto.
  pose proof (extract_entries_confined parentDir v st0) as Hc. unfold on_fs in Hc. rewrite Hstep1 in Hc.
  cbn in Hc. apply Hc in Hto as [_ Hto]. split; [| |done].
  - assert (D <> []) as Hne by (unfold D; rewrite at_path_extracted; by destruct (at_path parentDir)).
    rewrite lookup_node_ne by done. by apply Hto.
  - intros r n Hr. destruct (decide (Forall normal r)) as [|Hn]; [done|]. exfalso. apply Hn.
    destruct (decide (r = [])) as [->|Hne]; [done|].
    assert (touches (plain_below D) (w_fs st0) (w_fs w')) as Ht.
    { pose proof (extract_entries_plain parentDir v st0) as He. by rewrite Hstep1 in He. }
    rewrite Ht in Hr; [|intros Hp; by apply Hn, Hp]. by rewrite (Mkdir_fresh _ st) in Hr.
Qed.
End Unpacked.

(** ** The served tarball *)

Section Served.
Context {C : Type} `{CM : ConditionManager C}.
Context {Sh : Type} `{ST : Stash Sh stash_value}.
Context `{E : Env} `{T : TarGz} `{ZR : Zip}.
Abbreviation RS := (Reconcile (MavenArtifact C) Sh).

Lemma unpack_holds info dir f (s s' : RS) d :
  (forall t, env_fault t = None) -> fs_wf (w_fs (world s)) ->
  w_fs (world s) !! at_path (Join [Join [dir; "artifact"]; ResolvedFileName info]) = Some (FileNode f) ->
  holds (Join [dir; "artifact"]) (single (ResolvedFileName info) (f_data f)) (w_fs (world s)) ->
  unpack (C := C) info dir (Join [dir; "artifact"]) s = (Ret (Some d), s') ->
  d = artifact_root dir (f_data f) /\ fs_wf (w_fs (world s')) /\
  holds d (artifact_tree dir (ResolvedFileName info) (f_data f)) (w_fs (world s')).
Proof.
  intros Hnf Hwf Hf Hh H. unfold unpack in H. inv_bind H. apply io_Ret in Hstep as (w1 & Ha & ->).
  pose proof (within_isArchive eq (Join [Join [dir; "artifact"]; ResolvedFileName info]) (world s)) as Hfs.
  rewrite Ha in Hfs. unfold on_fs in Hfs. cbn in Hfs.
  apply (isArchive_Ret _ f) in Ha; [|done..]. unfold artifact_root, artifact_tree. rewrite <- Ha.
  destruct v; [|injection H as <- <-; cbn; by rewrite <- Hfs].
  inv_bind H. apply try_io_Ret in Hstep as (w2 & -> & Hx). destruct v as [d'|e]; [|by inv_bind H].
  injection H as <- <-. cbn [world set_world reconcile_has_world the_world] in *. rewrite Hfs in Hwf, Hf.
  pose proof (wf_extractArchive dir (Join [Join [dir; "artifact"]; ResolvedFileName info]) w1 Hwf) as Hwf'.
  rewrite Hx in Hwf'. apply (extractArchive_holds _ _ f) in Hx as (files & Hz & -> & _ & Hd); [|done..].
  rewrite Hz. done.
Qed.

(** The served file of [p] is the tarball of the artifact that was downloaded,
    which is what the file is named for and what the cache file vouches for. *)
Definition packed (root : string) (info : ArtifactDetails) (p : MavenArtifact C) (fs : fsmap) : Prop :=
  exists dir data fs1 a f fc,
    Status_Artifact (Status p) = Some a /\
    Artifact_Path a = maven_httpPath (Meta p) (sha1_hex data +:+ ".tar.gz") /\
    fs !! at_path (Join [root; Artifact_Path a]) = Some (FileNode f) /\
    fs !! at_path (cache_file root (Meta p) info) = Some (FileNode fc) /\
    f_data fc = toString (mkArtifactCache (ArtifactDownloadURL info) (sha1_hex data)) /\
    holds (artifact_root dir data) (artifact_tree dir (ResolvedFileName info) data) fs1 /\
    forall b, targz (tar_files (at_path (artifact_root dir data)) fs1) = Some b -> f_data f = b.
End Served.
