(* ===== verification/MavenPublish.v ===== *)
(** * What a MavenArtifact download has done

    The served file, the cache file and the status of a resource whose
    download has succeeded, and the outcomes of a download. *)

From S2P Require Import Prelude GoStrings GoPath GoErrors Effects World GoOS GoOSFacts Sha1.
From S2P Require Import Runtime ApiTypes MavenMetadata Http Transport Stashes ArtifactFiles.
From S2P Require Import ArtifactFilesFacts TarFacts MavenDownload MavenResolver SentFacts.
From S2P Require Import Reconcile Frames Steps MavenArtifactController MavenFacts Extraction Packed.

Lemma last_byte (s t : string) (a b : ascii) : s +:+ String a "" = t +:+ String b "" -> a = b.
Proof.
  revert t. induction s as [|c s IH]; intros [|d t]; rewrite ?append_cons, ?append_nil_l.
  - by intros [= ->].
  - intros H. apply (f_equal String.length) in H. simpl in H. rewrite length_append in H. simpl in H. lia.
  - intros H. apply (f_equal String.length) in H. simpl in H. rewrite length_append in H. simpl in H. lia.
  - intros [= _ H]. by apply IH in H.
Qed.

Lemma tgz_not_sha1 d f : sha1_hex d +:+ ".tar.gz" <> f +:+ ".sha1".
Proof.
  change ".tar.gz" with (".tar.g" +:+ "z"). change ".sha1" with (".sha" +:+ "1").
  rewrite <- !append_assoc. intros H. by apply last_byte in H.
Qed.

Section Published.
Context {C : Type} `{CM : ConditionManager C, CL : !ConditionLaws C}.
Context {Sh : Type} `{ST : Stash Sh stash_value}.
Context `{E : Env} `{X : Xml} `{T : TarGz} `{ZR : Zip} `{CK : Clock}.
Abbreviation RS := (Reconcile (MavenArtifact C) Sh).

(** The resource says what is served: the artifact is in the status and
    marked available, and its file is there with the stated checksum. *)
Record published (host root : string) (info : ArtifactDetails) (p : MavenArtifact C) (fs : fsmap) : Prop := {
  pub_artifact : exists a f tgz, Status_Artifact (Status p) = Some a /\
    normal tgz /\ Artifact_Path a = maven_httpPath (Meta p) tgz /\
    fs !! at_path (Join [root; Artifact_Path a]) = Some (FileNode f) /\
    Artifact_Checksum a = sha1_hex (f_data f) /\
    Artifact_URL a = Sprintf "http://%s" [Join [host; Artifact_Path a]] /\
    Artifact_Revision a = ResolvedFileName info /\
    Status_URL (Status p) = Artifact_URL a;
  pub_conditions : ma_status p MavenArtifactConditionArtifactResolved = Some ConditionTrue /\
    ma_status p MavenArtifactConditionArtifactAvailable = Some ConditionTrue /\
    ma_status p ConditionReady = Some ConditionTrue;
  pub_cache : exists c f, fs !! at_path (cache_file root (Meta p) info) = Some (FileNode f) /\
    f_data f = toString (mkArtifactCache (ArtifactDownloadURL info) c)
}.

Lemma set_artifact_status desired url (p : MavenArtifact C) :
  exists a, Status_Artifact (Status (MavenArtifactController.set_artifact desired url p)) = Some a /\
    without_time a = without_time desired.
Proof.
  simpl. destruct (preserveArtifactLastUpdateTime _ desired) as [a|] eqn:Ea.
  - exists a. split; [done|]. by eapply preserve_content.
  - exfalso. unfold preserveArtifactLastUpdateTime in Ea. destruct (Status_Artifact _); [|done].
    by case_decide.
Qed.

Lemma without_time_fields a b : without_time a = without_time b ->
  Artifact_Path a = Artifact_Path b /\ Artifact_URL a = Artifact_URL b /\
  Artifact_Revision a = Artifact_Revision b /\ Artifact_Checksum a = Artifact_Checksum b.
Proof. destruct a, b. intros [= -> -> -> ->]. done. Qed.

(** The calls of a publication that succeeds, and the state they leave. *)
Lemma publish_steps host m info dir ad tgz cacheFile c (s s' : RS) :
  let tgzPath := Join [Join [dir; "artifactTgz"]; tgz] in
  let url := Sprintf "http://%s" [Join [host; maven_httpPath m tgz]] in
  publish host m info dir ad tgz cacheFile c s = (Ret tt, s') ->
  exists w1 w2 w3 w4 w5 w6 sum t,
    os_Mkdir (Join [dir; "artifactTgz"]) (world s) = (Ret tt, w1) /\
    createTarGz ad tgzPath w1 = (Ret tt, w2) /\ sha1Checksum tgzPath w2 = (Ret sum, w3) /\
    copyCompressedFile tgzPath (Join [httpRootDir s; maven_httpPath m tgz]) w3 = (Ret tt, w4) /\
    os_WriteFile cacheFile (toString (mkArtifactCache (ArtifactDownloadURL info) c)) ModePerm w4 = (Ret tt, w5) /\
    w_fs w6 = w_fs w5 /\
    s' = mkReconcile (ma_MarkTrue MavenArtifactConditionArtifactAvailable "Available" "" []
           (set_artifact (mkArtifact (maven_httpPath m tgz) url (ResolvedFileName info) sum (Some t)) url (parent s)))
           (stash s) w6 (httpRootDir s) (heap s).
Proof.
  intros tgzPath url H. unfold publish in H. inv_bind H. apply io_Ret in Hstep as (w1 & Hmk & ->).
  inv_bind H. apply try_io_Ret in Hstep as (w2 & -> & Htar). destruct v0 as [[]|e]; [|done].
  inv_bind H. apply io_Ret in Hstep as (w3 & Hsum & ->). inv_bind H. injection Hstep as <- <-.
  inv_bind H. apply io_Ret in Hstep as (w4 & Hcopy & ->). inv_bind H. apply io_Ret in Hstep as (w5 & Hwrite & ->).
  inv_bind H. apply io_Ret in Hstep as (w6 & [= <- <-] & ->).
  repeat match goal with v : unit |- _ => destruct v end.
  unfold mbind, M_bind, set_parent, modify in H. injection H as <-.
  exists w1, w2, w3, w4, w5. do 3 eexists. do 5 (split; [done|]). split; [|reflexivity]. done.
Qed.

(** Packing leaves what is not below the temporary directory. *)
Lemma pack_keeps dir ad tgz w w1 w2 k :
  normal tgz ->
  os_Mkdir (Join [dir; "artifactTgz"]) w = (Ret tt, w1) ->
  createTarGz ad (Join [Join [dir; "artifactTgz"]; tgz]) w1 = (Ret tt, w2) ->
  ~ at_path dir `prefix_of` k -> w_fs w2 !! k = w_fs w !! k.
Proof.
  intros Ht Hmk Htar Hk. pose proof (touch_Mkdir (Join [dir; "artifactTgz"]) w k) as T1.
  pose proof (touch_createTarGz ad (Join [Join [dir; "artifactTgz"]; tgz]) w1 k) as T2.
  rewrite Hmk in T1. rewrite Htar in T2.
  transitivity (w_fs w1 !! k); [apply T2|apply T1]; intros <-; apply Hk.
  - rewrite at_Join2 by auto with src. by eexists.
  - apply at_path_below. auto with src.
Qed.

(** The tarball is on disk under its served name, next to the cache file. *)
Lemma publish_files host m info dir ad d cacheFile c (s s' : RS) :
  let tgz := sha1_hex d +:+ ".tar.gz" in
  let own := at_path (mavenDir (httpRootDir s) m) in
  (forall t, env_fault t = None) -> meta_ok m -> normal (ResolvedFileName info) ->
  at_path cacheFile = own ++ [ResolvedFileName info +:+ ".sha1"] ->
  (forall l, ~ at_path dir `prefix_of` own ++ l) -> flat (w_fs (world s)) own ->
  publish host m info dir ad tgz cacheFile c s = (Ret tt, s') ->
  exists url f t mode tm w1 w2 g,
    os_Mkdir (Join [dir; "artifactTgz"]) (world s) = (Ret tt, w1) /\
    createTarGz ad (Join [Join [dir; "artifactTgz"]; tgz]) w1 = (Ret tt, w2) /\
    w_fs w2 !! at_path (Join [Join [dir; "artifactTgz"]; tgz]) = Some (FileNode g) /\ f_data f = f_data g /\
    w_fs (world s') !! at_path (Join [httpRootDir s; maven_httpPath m tgz]) = Some (FileNode f) /\
    w_fs (world s') !! at_path cacheFile =
      Some (FileNode (mkFile (toString (mkArtifactCache (ArtifactDownloadURL info) c)) mode tm)) /\
    url = Sprintf "http://%s" [Join [host; maven_httpPath m tgz]] /\
    parent s' = ma_MarkTrue MavenArtifactConditionArtifactAvailable "Available" "" []
      (set_artifact (mkArtifact (maven_httpPath m tgz) url (ResolvedFileName info) (sha1_hex (f_data f)) (Some t))
         url (parent s)).
Proof.
  intros tgz own Hnf Hm Hfn Hcache Hdir Hflat H.
  assert (normal tgz) as Ht by by apply normal_sha1.
  assert (normal (tgz +:+ ".new")) as Htn by (unfold tgz; rewrite append_assoc; by apply normal_sha1).
  destruct (at_httpPath_new (httpRootDir s) m tgz Hm Ht Htn) as [Hn1 Hn2].
  pose proof (at_httpPath (httpRootDir s) m tgz Hm Ht) as Hp. fold own in Hn1, Hn2, Hp.
  apply publish_steps in H as (w1 & w2 & w3 & w4 & w5 & w6 & sum & t & Hmk & Htar & Hsum & Hcopy & Hwrite & Hw6 & ->).
  assert (at_path (Join [Join [dir; "artifactTgz"]; tgz]) = (at_path dir ++ ["artifactTgz"]) ++ [tgz]) as Hk
    by (rewrite <- app_assoc; apply at_Join2; auto with src).
  apply sha1Checksum_Ret in Hsum as [Hfs3 (f & Hf & ->)].
  apply (copyCompressedFile_made _ _ own (tgz +:+ ".new")) in Hcopy
    as (g & f' & fs & _ & Hg & Hd & Hfs4); try done.
  2: { rewrite Hk, Hn1. intros [_ Eq]%app_inj_tail. by apply append_ne in Eq. }
  2: { rewrite Hp, Hn1. intros [_ Eq]%app_inj_tail. by apply append_ne in Eq. }
  2: { rewrite Hfs3, Hn1, (pack_keeps dir ad tgz _ w1 w2) by done. apply Hflat. }
  rewrite Hfs3 in Hg. rewrite Hf in Hg. injection Hg as <-. rewrite <- Hd.
  apply WriteFile_Ret in Hwrite as (mode & tm & Hfs5).
  do 5 eexists. exists w1, w2. eexists. split; [done|]. split; [done|]. split; [exact Hf|]. split; [exact Hd|].
  cbn [world parent]. rewrite Hw6, Hfs5. split; [|split; [apply lookup_insert_eq|done]].
  rewrite lookup_insert_ne, Hfs4; [apply lookup_insert_eq|].
  rewrite Hcache, Hp. intros [_ Eq]%app_inj_tail. symmetry in Eq. by apply tgz_not_sha1 in Eq.
Qed.

Lemma at_artifact_root dir data :
  exists x, at_path (artifact_root dir data) = at_path dir ++ [x] /\ x <> "artifactTgz".
Proof.
  unfold artifact_root. destruct (is_zip data); eexists.
  - split; [apply at_path_extracted|discriminate].
  - unfold at_path. rewrite key_Join by auto with src. split; [done|discriminate].
Qed.

Lemma publish_Ret host info dir d cacheFile (s s' : RS) :
  let m := Meta (parent s) in
  let own := at_path (mavenDir (httpRootDir s) m) in
  (forall t, env_fault t = None) -> fs_wf (w_fs (world s)) -> meta_ok m -> normal (ResolvedFileName info) ->
  at_path cacheFile = own ++ [ResolvedFileName info +:+ ".sha1"] ->
  (forall l, ~ at_path dir `prefix_of` own ++ l) -> flat (w_fs (world s)) own ->
  ma_status (parent s) MavenArtifactConditionArtifactResolved = Some ConditionTrue ->
  holds (artifact_root dir d) (artifact_tree dir (ResolvedFileName info) d) (w_fs (world s)) ->
  publish host m info dir (artifact_root dir d) (sha1_hex d +:+ ".tar.gz") cacheFile (sha1_hex d) s = (Ret tt, s') ->
  published host (httpRootDir s) info (parent s') (w_fs (world s')) /\
  packed (httpRootDir s) info (parent s') (w_fs (world s')) /\ Meta (parent s') = m.
Proof.
  intros m own Hnf Hwf Hm Hfn Hcache Hdir Hflat Hres Hh H.
  apply publish_files in H as (url & f & t & mode & tm & w1 & w2 & g & Hmk & Htar & Hg & Hfg & Hf & Hfc & Hu & ->);
    try done.
  destruct (at_artifact_root dir d) as (x & Hroot & Hx).
  destruct (pack_holds dir (artifact_root dir d) x (sha1_hex d +:+ ".tar.gz") (artifact_tree dir (ResolvedFileName info) d)
    (world s) w1 w2) as [Hh1 Htgz]; [done|done|by apply normal_sha1|done..|].
  match goal with |- published _ _ _ (ma_MarkTrue _ _ _ _ (set_artifact ?d ?u ?p)) _ /\ _ =>
    destruct (set_artifact_status d u p) as (a & Ha & Hwt) end.
  apply without_time_fields in Hwt as (Hpath & Hurl & Hrev & Hsum). simpl in Hpath, Hurl, Hrev, Hsum.
  unfold own in Hcache. rewrite <- at_cache_file in Hcache by done.
  split; [|split; [|done]]; [split|].
  - exists a, f, (sha1_hex d +:+ ".tar.gz"). rewrite Hpath, Hsum, Hrev, Hurl.
    split; [exact Ha|]. split; [by apply normal_sha1|]. by subst url.
  - split; [by rewrite ma_status_MarkTrue_ne|]. split; [by apply ma_status_MarkTrue|].
    apply (ma_ready _ MavenArtifactConditionArtifactResolved); [by right|done].
  - do 2 eexists. change (Meta (ma_MarkTrue _ _ _ _ _)) with m. rewrite <- Hcache. by split; [exact Hfc|].
  - exists dir, d, (w_fs w1), a, f. eexists. rewrite Hpath.
    change (Meta (ma_MarkTrue _ _ _ _ _)) with m. rewrite <- Hcache.
    split; [exact Ha|]. split; [done|]. split; [exact Hf|]. split; [exact Hfc|]. split; [done|]. split; [done|].
    intros b Hb. destruct (Htgz b Hb) as (m' & t' & Hg'). rewrite Hg in Hg'. injection Hg' as ->. exact Hfg.
Qed.

(** The file and the cache file of [p] are in its directory. *)
Lemma packed_move r1 r2 info (p : MavenArtifact C) fs fs' :
  meta_ok (Meta p) -> normal (ResolvedFileName info) -> at_path r1 = at_path r2 ->
  (forall l, fs' !! (at_path (mavenDir r1 (Meta p)) ++ l) = fs !! (at_path (mavenDir r1 (Meta p)) ++ l)) ->
  packed r1 info p fs -> packed r2 info p fs'.
Proof.
  intros Hm Hfn Hr Hfs (dir & data & fs1 & a & f & fc & Ha & Hp & Hf & Hc & Hrest).
  assert (normal (sha1_hex data +:+ ".tar.gz")) as Hn by by apply normal_sha1.
  exists dir, data, fs1, a, f, fc. split; [done|]. split; [done|]. rewrite Hp in *.
  assert (at_path (mavenDir r2 (Meta p)) = at_path (mavenDir r1 (Meta p))) as Hd
    by (rewrite !at_mavenDir by done; by rewrite Hr).
  rewrite at_httpPath in Hf |- * by done. rewrite at_cache_file in Hc |- * by done. by rewrite Hd, !Hfs.
Qed.

(** Removing what is not below the resource's directory keeps it. *)
Lemma published_touches host root info (p : MavenArtifact C) P fs fs' :
  meta_ok (Meta p) -> normal (ResolvedFileName info) ->
  (forall l, ~ P (at_path (mavenDir root (Meta p)) ++ l)) ->
  touches P fs fs' -> published host root info p fs -> published host root info p fs'.
Proof.
  intros Hm Hfn HP Ht [(a & f & tgz & Ha & Hn & Hpath & Hf & Hrest) Hav (c & fc & Hfc & Hdc)]. split; [|done|].
  - exists a, f, tgz. split; [done|]. split; [done|]. split; [done|]. split; [|done].
    rewrite Ht; [done|]. rewrite Hpath, at_httpPath by done. apply HP.
  - exists c, fc. split; [|done]. rewrite Ht; [done|]. rewrite at_cache_file by done. apply HP.
Qed.

(** ** The outcome of a download *)

Definition marked_false (t : string) (p p' : MavenArtifact C) : Prop :=
  exists reason format args, p' = ma_MarkFalse t reason format args p.

Lemma http_error_Ret inner code t r1 f1 a1 r2 f2 a2 r3 f3 a3 (s s' : RS) :
  http_error inner code (ma_MarkFalse t r1 f1 a1) (ma_MarkFalse t r2 f2 a2) (ma_MarkFalse t r3 f3 a3) s
    = (Ret tt, s') -> marked_false t (parent s) (parent s') /\ world s' = world s /\ httpRootDir s' = httpRootDir s.
Proof.
  unfold http_error, set_parent, modify, throw. intros H.
  repeat case_decide; repeat case_match; simplify_eq; simpl; (split; [|done]); unfold marked_false; eauto.
Qed.

Lemma checksum_failed_Ret info err (s s' : RS) :
  checksum_failed (C := C) info err s = (Ret tt, s') ->
  marked_false MavenArtifactConditionArtifactAvailable (parent s) (parent s').
Proof.
  unfold checksum_failed. destruct (errors_Is err _).
  - intros [= <-]. simpl. unfold marked_false. eauto.
  - destruct (as_downloadError err) as [[inner code]|].
    + intros H. by apply http_error_Ret in H as [H _].
    + intros [= <-]. simpl. unfold marked_false. eauto.
Qed.

Lemma artifact_failed_Ret q info err (s s' : RS) :
  artifact_failed (C := C) q info err s = (Ret tt, s') ->
  marked_false MavenArtifactConditionArtifactAvailable (parent s) (parent s').
Proof.
  unfold artifact_failed. destruct (errors_Is err _).
  - intros [= <-]. simpl. unfold marked_false. eauto.
  - destruct (as_downloadError err) as [[inner code]|].
    + intros H. by apply http_error_Ret in H as [H _].
    + intros [= <-]. simpl. unfold marked_false. eauto.
Qed.

(** The cache file is one for the URL, and the status has an artifact. *)
Definition vouched (root : string) (info : ArtifactDetails) (p : MavenArtifact C) (fs : fsmap) : Prop :=
  Status_Artifact (Status p) <> None /\
  exists f c rest, fs !! at_path (cache_file root (Meta p) info) = Some (FileNode f) /\
    Split (f_data f) "|" = ArtifactDownloadURL info :: c :: rest.

Lemma unchanged_vouched root info (p : MavenArtifact C) cache c w w' :
  retrieveChecksumFromFile (cache_file root (Meta p) info) w = (Ret cache, w') ->
  unchanged cache (Status_Artifact (Status p)) info c = true -> vouched root info p (w_fs w').
Proof.
  intros H Hu. unfold unchanged in Hu. destruct cache as [ac|]; [|done].
  destruct (Status_Artifact (Status p)) as [a|] eqn:Ea; [|done].
  apply andb_true_iff in Hu as [_ Hs]. apply bool_decide_eq_true in Hs.
  apply retrieveChecksum_Ret in H as (Hfs & f & rest & Hf & Hsp). split; [by rewrite Ea|].
  exists f, (checksum ac), rest. by rewrite Hfs, <- Hs.
Qed.

(** What a download that returns nil has done. *)
Inductive download_result (host root : string) (info : ArtifactDetails) (p p' : MavenArtifact C) (fs : fsmap) : Prop :=
| download_skipped : p' = p -> vouched root info p fs -> download_result host root info p p' fs
| download_failed : marked_false MavenArtifactConditionArtifactAvailable p p' ->
    download_result host root info p p' fs
| download_published : published host root info p' fs -> packed root info p' fs ->
    download_result host root info p p' fs.

Lemma fetch_artifact_parent q ctx client info dir c (s s' : RS) o :
  fetch_artifact (C := C) q ctx client info dir c s = (Ret o, s') ->
  httpRootDir s' = httpRootDir s /\
  match o with
  | None => marked_false MavenArtifactConditionArtifactAvailable (parent s) (parent s')
  | Some _ => parent s' = parent s
  end.
Proof.
  unfold fetch_artifact. intros H. inv_bind H. unfold try in Hstep.
  destruct (io _ _) as [[d|e|why] st1] eqn:Eio; [| |done]; injection Hstep as <- <-.
  - injection H as <- <-. by apply io_Ret in Eio as (w & _ & ->).
  - inv_bind H. injection H as <- <-. destruct v.
    assert (exists w, st1 = set_world w s) as [w ->].
    { unfold io, zoom in Eio. destruct (downloadArtifact _ _ _ _ _ _ _). injection Eio as _ <-. eauto. }
    split; [|by apply artifact_failed_Ret in Hstep].
    unfold artifact_failed, set_parent, modify in Hstep. destruct (errors_Is e _); [by injection Hstep as <-|].
    destruct (as_downloadError e) as [[inner code]|]; [|by injection Hstep as <-].
    by apply http_error_Ret in Hstep as (_ & _ & ->).
Qed.

Lemma unpack_parent info dir ad (s s' : RS) o :
  unpack (C := C) info dir ad s = (Ret o, s') ->
  httpRootDir s' = httpRootDir s /\
  match o with
  | None => marked_false MavenArtifactConditionArtifactAvailable (parent s) (parent s')
  | Some _ => parent s' = parent s
  end.
Proof.
  unfold unpack. intros H. inv_bind H. apply io_Ret in Hstep as (w1 & _ & ->).
  destruct v; [|by injection H as <- <-]. inv_bind H. unfold try in Hstep.
  destruct (io _ _) as [[d|e|why] st1] eqn:Eio; [| |done]; injection Hstep as <- <-.
  - injection H as <- <-. by apply io_Ret in Eio as (w & _ & ->).
  - assert (exists w, st1 = set_world w s) as [w ->].
    { unfold io, zoom in Eio. destruct (extractArchive _ _ _). injection Eio as _ <-. eauto. }
    unfold mbind, M_bind, set_parent, modify in H. injection H as <- <-. simpl.
    unfold marked_false. eauto 10.
Qed.

Lemma below_fetch_artifact q ctx client info dir c :
  normal (ResolvedFileName info) ->
  within (on_fs (S := RS) (touches (at_or_below (at_path dir)))) (fetch_artifact q ctx client info dir c).
Proof.
  intros Hf. unfold fetch_artifact, artifact_failed. within_auto. by apply touch_downloadArtifact.
Qed.

Lemma below_unpack info dir ad :
  within (on_fs (S := RS) (touches (at_or_below (at_path dir)))) (unpack info dir ad).
Proof.
  unfold unpack. within_auto. eapply within_touches_mono; [|apply extractArchive_touches].
  intros k [l ->]. rewrite at_path_extracted, <- app_assoc. by eexists.
Qed.

Lemma wf_fetch_artifact q ctx client info dir c :
  within (on_fs (S := RS) keeps_wf) (fetch_artifact q ctx client info dir c).
Proof. unfold fetch_artifact, artifact_failed. within_auto. apply wf_downloadArtifact. Qed.

(** The directory fetched holds the artifact, with the expected checksum. *)
Lemma fetch_artifact_holds q ctx client info dir c (s s' : RS) d :
  fs_wf (w_fs (world s)) -> normal (ResolvedFileName info) ->
  fetch_artifact (C := C) q ctx client info dir c s = (Ret (Some d), s') ->
  d = Join [dir; "artifact"] /\ fs_wf (w_fs (world s')) /\
  exists f, w_fs (world s') !! at_path (Join [d; ResolvedFileName info]) = Some (FileNode f) /\
    c = sha1_hex (f_data f) /\ holds d (single (ResolvedFileName info) (f_data f)) (w_fs (world s')).
Proof.
  intros Hwf Hn H. pose proof (wf_fetch_artifact q ctx client info dir c s Hwf) as Hwf'. rewrite H in Hwf'.
  unfold fetch_artifact in H. inv_bind H. apply try_io_Ret in Hstep as (w1 & -> & Hx).
  destruct v as [d'|e]; [|by inv_bind H]. injection H as -> <-.
  apply downloadArtifact_holds in Hx as [-> Hx]; [|done..]. by split.
Qed.

Lemma fetch_and_publish_Ret host q ctx client info cacheFile c dir (s s' : RS) :
  let m := Meta q in
  let own := at_path (mavenDir (httpRootDir s) m) in
  (forall t, env_fault t = None) -> fs_wf (w_fs (world s)) ->
  meta_ok m -> Meta (parent s) = m -> normal (ResolvedFileName info) ->
  ma_status (parent s) MavenArtifactConditionArtifactResolved = Some ConditionTrue ->
  at_path cacheFile = own ++ [ResolvedFileName info +:+ ".sha1"] ->
  (forall l, ~ at_path dir `prefix_of` own ++ l) -> flat (w_fs (world s)) own ->
  fetch_and_publish host q ctx client info cacheFile c dir s = (Ret tt, s') ->
  download_result host (httpRootDir s) info (parent s) (parent s') (w_fs (world s')) /\ Meta (parent s') = m.
Proof.
  intros m own Hnf Hwf Hm Hpm Hfn Hres Hcache Hdir Hflat H.
  unfold fetch_and_publish in H. apply defer_RemoveAll_Ret in H as (s1 & w2 & Ebody & -> & Ht2).
  cbn [parent world set_world reconcile_has_world].
  assert (forall p, marked_false MavenArtifactConditionArtifactAvailable (parent s) p ->
    download_result host (httpRootDir s) info (parent s) p (w_fs w2) /\ Meta p = m) as Hfail
    by (intros x Hx; split; [by apply download_failed|by destruct Hx as (? & ? & ? & ->)]).
  inv_bind Ebody. pose proof (below_fetch_artifact q ctx client info dir c Hfn s) as Hb1. rewrite Hstep in Hb1.
  destruct v as [ad|]; [|injection Ebody as <-; apply Hfail; by apply fetch_artifact_parent in Hstep as [_ ?]].
  destruct (fetch_artifact_holds _ _ _ _ _ _ _ _ _ Hwf Hfn Hstep) as (-> & Hwf1 & f & Hf & Hc & Hh). subst c.
  apply fetch_artifact_parent in Hstep as [Hr1 Hp1].
  inv_bind Ebody. apply io_Ret in Hstep as (w3 & Hsum & ->). apply sha1Checksum_Ret in Hsum as (Hfs3 & f' & Hf' & ->).
  rewrite Hf in Hf'. injection Hf' as <-.
  change (Sprintf "%s.tar.gz" [sha1_hex (f_data f)]) with (sha1_hex (f_data f) +:+ ".tar.gz") in Ebody.
  inv_bind Ebody. pose proof (below_unpack info dir (Join [dir; "artifact"]) (set_world w3 st)) as Hb2. rewrite Hstep in Hb2.
  destruct v as [ad'|]; [|injection Ebody as <-; apply Hfail; rewrite <- Hp1; by apply unpack_parent in Hstep as [_ ?]].
  destruct (unpack_holds info dir f (set_world w3 st) st0 ad') as (-> & Hwf2 & Hh2);
    [done|cbn; by rewrite Hfs3..|done|].
  apply unpack_parent in Hstep as [Hr2 Hp2]. cbn [parent httpRootDir set_world reconcile_has_world] in Hr2, Hp2.
  assert (Meta (parent st0) = m) as Hm0 by congruence. fold m in Ebody. rewrite <- Hm0 in Ebody.
  assert (httpRootDir st0 = httpRootDir s) as Hr0 by congruence.
  assert (parent st0 = parent s) as Hps by congruence. rewrite <- Hps in Hres.
  apply publish_Ret in Ebody as (Hpub & Hpack & Hms); rewrite ?Hm0, ?Hr0 in *; try done.
  - split; [|done]. apply download_published.
    + apply (published_touches _ _ _ _ (at_or_below (at_path dir)) (w_fs (world s1))); by rewrite ?Hms.
    + apply (packed_move (httpRootDir s) _ _ _ (w_fs (world s1))); rewrite ?Hms; try done.
      intros l. apply Ht2, Hdir.
  - intros x. rewrite Hb2 by apply Hdir. cbn [world set_world reconcile_has_world the_world].
    rewrite Hfs3, Hb1 by apply Hdir. apply Hflat.
Qed.

Lemma published_root host r1 r2 info (p : MavenArtifact C) fs :
  meta_ok (Meta p) -> normal (ResolvedFileName info) -> at_path r1 = at_path r2 ->
  published host r1 info p fs -> published host r2 info p fs.
Proof.
  intros Hm Hfn Hr [(a & f & tgz & Ha & Hn & Hpath & Hf & Hrest) Hav (c & fc & Hfc & Hdc)]. split; [|done|].
  - exists a, f, tgz. split; [done|]. split; [done|]. split; [done|]. split; [|done].
    rewrite Hpath, at_httpPath, at_mavenDir in Hf |- * by done. by rewrite <- Hr.
  - exists c, fc. split; [|done]. rewrite at_cache_file, at_mavenDir in Hfc |- * by done. by rewrite <- Hr.
Qed.

Lemma download_root host r1 r2 info (p p' : MavenArtifact C) fs :
  meta_ok (Meta p') -> normal (ResolvedFileName info) -> at_path r1 = at_path r2 ->
  download_result host r1 info p p' fs -> download_result host r2 info p p' fs.
Proof.
  intros Hm Hfn Hr [H Hv|H|H Hp]; [|by apply download_failed|].
  { apply download_skipped; [done|]. destruct Hv as [Ha (f & c & rest & Hf & Hsp)]. subst p'. split; [done|].
    exists f, c, rest. split; [|done]. rewrite at_cache_file, at_mavenDir in Hf |- * by done. by rewrite <- Hr. }
  apply download_published; [by apply (published_root host r1)|by apply (packed_move r1 _ _ _ fs)].
Qed.

(** Fetching the checksum touches nothing but the condition. *)
Lemma fetch_checksum_Ret (ctx : Ctx Sh) client info (s s' : RS) o :
  fetch_checksum ctx client info s = (Ret o, s') ->
  w_fs (world s') = w_fs (world s) /\ httpRootDir s' = httpRootDir s /\
  match o with
  | None => marked_false MavenArtifactConditionArtifactAvailable (parent s) (parent s')
  | Some _ => parent s' = parent s
  end.
Proof.
  intros H. pose proof (quiet_fetch_checksum ctx client info s) as Hq. rewrite H in Hq.
  destruct Hq as [Hfs Hr]. split; [done|]. split; [done|].
  unfold fetch_checksum in H. inv_bind H. apply try_io_Ret in Hstep as (w & -> & _).
  destruct v as [x|e]; [by injection H as <- <-|]. inv_bind H. injection H as <- <-. destruct v.
  by apply checksum_failed_Ret in Hstep.
Qed.

Lemma DownloadSync_Ret host info client (s s' : RS) :
  let own := at_path (mavenDir (httpRootDir s) (Meta (parent s))) in
  (forall t, env_fault t = None) -> meta_ok (Meta (parent s)) ->
  retrieveArtifactVersion (stash s) = Some info -> normal (ResolvedFileName info) ->
  retrieveHttpClient (stash s) = Some client ->
  ma_status (parent s) MavenArtifactConditionArtifactResolved = Some ConditionTrue -> fs_wf (w_fs (world s)) -> apart own -> flat (w_fs (world s)) own ->
  DownloadSync host s = (Ret tt, s') ->
  download_result host (httpRootDir s) info (parent s) (parent s') (w_fs (world s')).
Proof.
  intros own Hnf Hm Ei Hinfo Ec Hres Hwf Hap Hflat H. unfold DownloadSync in H. inv_bind H. injection Hstep as <- <-.
  rewrite Ei, Ec in H. inv_bind H. injection Hstep as <- <-.
  destruct (Timeout (Spec (parent s))) as [timeout|]; [|done].
  inv_bind H. apply fetch_checksum_Ret in Hstep as (Hfs1 & Hr1 & Hp1).
  destruct v as [x|]; [|injection H as <-; by apply download_failed].
  inv_bind H. injection Hstep as <- <-. inv_bind H. apply io_Ret in Hstep as (w2 & Hrc & ->).
  pose proof (within_retrieveChecksum eq (cache_file (httpRootDir st) (Meta (parent s)) info) (world st)) as Hfs2.
  rewrite Hrc in Hfs2. unfold on_fs in Hfs2. simpl in Hfs2.
  destruct (unchanged _ _ _ _) eqn:Eu.
  { injection H as <-. apply download_skipped; [done|]. rewrite <- Hr1. by eapply unchanged_vouched. }
  inv_bind H. apply clean_root_Ret in Hstep as (Hp3 & _ & Hw3 & Hr3).
  inv_bind H. apply io_Ret in Hstep as (w4 & Htmp & ->).
  cbn [parent world httpRootDir set_world reconcile_has_world] in *.
  assert (at_path (mavenDir (httpRootDir st0) (Meta (parent s))) = own) as Hown
    by (unfold own; rewrite !at_mavenDir by done; by rewrite Hr3, Hr1).
  assert (fs_wf (w_fs w4)) as Hwf4.
  { pose proof (wf_MkdirTemp env_TempDir "maven-artifact.*" (world st0)) as Hwf4. rewrite Htmp in Hwf4.
    apply Hwf4. rewrite Hw3. cbn. by rewrite <- Hfs2, Hfs1. }
  apply (MkdirTemp_apart "maven-artifact." _ _ _ own) in Htmp as [Hapart Hflat4]; try done; [|simpl; lia|].
  2: { rewrite Hw3. intros y. rewrite <- Hfs2, Hfs1. apply Hflat. }
  rewrite Hr1 in H. apply fetch_and_publish_Ret in H as (H & Hmeta); try (by rewrite ?Hp3, ?Hp1, ?Hown); try done.
  - cbn [parent httpRootDir set_world reconcile_has_world] in H.
    rewrite Hp3, Hp1 in H. eapply download_root; [by rewrite Hmeta|done|by rewrite Hr3, Hr1|exact H].
  - cbn [httpRootDir]. rewrite Hown. by apply at_cache_file.
  - cbn [httpRootDir]. by rewrite Hown.
  - cbn [httpRootDir world]. by rewrite Hown.
Qed.
End Published.
