(* ===== verification/ImageFacts.v ===== *)
(** * Facts about the ImageRepository controller

    Which part of the disk a sync may change, and what is true when an image
    has been published. *)

From S2P Require Import Prelude GoStrings GoPath GoErrors Effects World GoOS GoOSFacts Sha1.
From S2P Require Import Runtime ApiTypes Http Transport Stashes ArtifactFiles.
From S2P Require Import ArtifactFilesFacts TarFacts MavenDownload MavenResolver Reconcile.
From S2P Require Import Frames Steps MavenFacts MavenPublish ImageRepositoryController.

(** What go-containerregistry and imgpkg document: a digest is hexadecimal,
    and pulling writes below the output directory. *)
Class RegistryLaws `{E : Env} `{RG : Registry} := {
  NewDigest_hex s d : name_NewDigest s = inl d ->
    digest_hex d <> "" /\ bytes_all is_hex (digest_hex d) = true;
  Pull_touches ref k t out l :
    within (on_fs (touches (at_or_below (at_path out)))) (plainimage_Pull ref k t out l);
  Pull_wf ref k t out l : within (on_fs keeps_wf) (plainimage_Pull ref k t out l);
  Pull_calm ref k t out l : calm (plainimage_Pull ref k t out l)
}.

Lemma normal_imagerepository : normal "imagerepository".
Proof. by vm_compute. Qed.
#[export] Hint Resolve normal_imagerepository : src.

Lemma normal_digest `{E : Env} `{RG : Registry} `{RL : !RegistryLaws} s d sfx :
  name_NewDigest s = inl d -> byte_in slash sfx = false -> normal (digest_hex d +:+ sfx).
Proof.
  intros H Hs. destruct (NewDigest_hex s d H) as [Hne Hhex].
  apply normal_append; [|done|by apply (bytes_all_not_in is_hex)].
  repeat split; try done.
  - intros Eq. by rewrite Eq in Hhex.
  - intros Eq. by rewrite Eq in Hhex.
  - by apply (bytes_all_not_in is_hex).
Qed.

Section Paths.
Context `{E : Env}.

Lemma at_imageDir root m :
  meta_ok m -> at_path (imageDir root m) = at_path root ++ ["imagerepository"; Namespace m; Name m].
Proof. intros [? ?]. apply key_Join. normals. Qed.

Lemma image_httpPath_names m f :
  image_httpPath m f = JoinWith "/" ["imagerepository"; Namespace m; Name m; f].
Proof.
  transitivity ("imagerepository/" +:+
    (Namespace m +:+ ("/" +:+ (Name m +:+ ("/" +:+ (f +:+ ""))))))%stdpp; [reflexivity|].
  rewrite append_nil_r. reflexivity.
Qed.

Lemma image_httpPath_new m f : Sprintf "%s.new" [image_httpPath m f] = image_httpPath m (f +:+ ".new").
Proof.
  rewrite !image_httpPath_names, !JoinWith_cons.
  match goal with |- Sprintf _ [?x] = _ => change (Sprintf "%s.new" [x]) with (x +:+ ".new") end.
  rewrite !append_assoc. done.
Qed.

Lemma at_image_httpPath root m f :
  meta_ok m -> normal f ->
  at_path (Join [root; image_httpPath m f]) = at_path (imageDir root m) ++ [f] /\
  at_path (Dir (Join [root; image_httpPath m f])) = at_path (imageDir root m).
Proof.
  intros Hm Hf. rewrite at_imageDir by done. destruct Hm as [? ?].
  rewrite image_httpPath_names, Join_path by normals. unfold at_path. split.
  - rewrite key_Join by normals. by rewrite <- app_assoc.
  - apply (key_Dir_Join env_cwd root ["imagerepository"; Namespace m; Name m] f). normals.
Qed.
End Paths.

Section Disk.
Context {C : Type} `{CM : ConditionManager C, CL : !ConditionLaws C}.
Context {Sh : Type} `{ST : Stash Sh stash_value}.
Context `{E : Env} `{T : TarGz} `{CK : Clock} `{RG : Registry} `{RL : !RegistryLaws}.
Abbreviation RS := (Reconcile (ImageRepository C) Sh).

(** In [dir], and in the resource's directory [own]. *)
Definition image_working (own : list string) (dir : string) : relation RS :=
  on_fs (frame (fun k => at_or_below own k \/ at_or_below (at_path dir) k) (on_path_to own)).

#[local] Instance image_working_preorder own dir : PreOrder (image_working own dir).
Proof. apply _. Qed.

Lemma image_working_io {A : Type} own dir (n : IO A) :
  within (on_fs (touches (at_or_below (at_path dir)))) n -> within (image_working own dir) (io n).
Proof. intros H. apply within_io. eapply within_frame; [|exact H]. auto. Qed.

Lemma working_image_publish root m ref dir ad f url :
  meta_ok m -> normal f -> normal (f +:+ ".new") ->
  within (image_working (at_path (imageDir root m)) dir)
    (image_publish root ref ad (Join [dir; f]) (image_httpPath m f) url).
Proof.
  intros Hm Hf Hfn. set (own := at_path (imageDir root m)).
  destruct (at_image_httpPath root m f Hm Hf) as [Hp _].
  destruct (at_image_httpPath root m (f +:+ ".new") Hm Hfn) as [Hn1 Hn2].
  unfold image_publish. rewrite image_httpPath_new.
  assert (forall x k, is_key (own ++ [x]) k -> at_or_below own k \/ at_or_below (at_path dir) k) as Hown.
  { intros x k <-. left. by exists [x]. }
  unfold image_working. within_auto.
  - eapply within_frame; [|apply touch_createTarGz]. intros k <-. right.
    apply at_path_below. normals.
  - unfold copyFile. within_auto.
    + apply frame_MkdirAll. rewrite Hn2. auto.
    + eapply within_frame; [|apply touch_Create]. rewrite Hn1. apply Hown.
    + eapply within_frame; [|apply touch_write_all]. rewrite Hn1. apply Hown.
  - eapply within_frame; [|apply touch_Rename]. rewrite Hn1, Hp. intros k [-> | ->]; by eapply Hown.
Qed.

Lemma working_pull root m ref dir f url :
  meta_ok m -> normal f -> normal (f +:+ ".new") ->
  within (image_working (at_path (imageDir root m)) dir)
    (pull_and_publish root ref f (image_httpPath m f) url dir).
Proof.
  intros Hm Hf Hfn. unfold pull_and_publish. apply within_defer; [apply _| |].
  { apply image_working_io, touch_RemoveAll. }
  assert (forall d, within (image_working (at_path (imageDir root m)) dir)
            (image_publish (C := C) (Sh := Sh) root ref d (Join [dir; f]) (image_httpPath m f) url)) as Hpub
    by (intros d; by apply working_image_publish).
  unfold image_working in *. within_auto; auto.
  eapply within_frame; [|apply Pull_touches]. intros k [r ->]. right.
  unfold at_path. rewrite key_Join by normals. rewrite <- app_assoc. by eexists.
Qed.

Lemma PullImageSync_disk host (s : RS) :
  fs_wf (w_fs (world s)) -> meta_ok (ir_Meta (parent s)) ->
  let own := at_path (imageDir (httpRootDir s) (ir_Meta (parent s))) in
  isolated (at_or_below own) (on_path_to own)
    (w_fs (world s)) (w_fs (world (PullImageSync host s).2)).
Proof.
  intros Hwf Hm own. unfold PullImageSync, mbind, M_bind at 1, gets at 1.
  case_decide; [done|]. unfold M_bind at 1, gets at 1.
  destruct (name_NewDigest _) as [digest|e] eqn:Ed; [|done].
  unfold M_bind at 1. destruct (quiet_clean_root s) as (Hfs1 & Hr1 & s1 & Ecr).
  rewrite Ecr in *. simpl in Hfs1, Hr1. unfold M_bind at 1, gets at 1. unfold M_bind at 1.
  set (f := Sprintf "%s.tar.gz" [digest_hex digest]).
  assert (f = digest_hex digest +:+ ".tar.gz") as Hf by done.
  assert (normal f) as Hnf by (rewrite Hf; by eapply normal_digest).
  assert (normal (f +:+ ".new")) as Hnfn by (rewrite Hf, append_assoc; by eapply normal_digest).
  set (path := Join _). set (url := Sprintf "http://%s/%s" _).
  pose proof (quiet_io (P := ImageRepository C) (Sh := Sh) (os_Stat path) (within_Stat eq _)) as Hq.
  apply within_try in Hq. specialize (Hq s1).
  destruct (try (io (os_Stat path)) s1) as [[stat|e|why] s2] eqn:Est; simpl in Hq;
    destruct Hq as [Hfs2 Hr2]; [|simpl; rewrite Hfs2, Hfs1; done..].
  assert (w_fs (world s2) = w_fs (world s)) as Hfs by congruence.
  rewrite <- Hfs. rewrite <- Hfs in Hwf.
  destruct (already_published stat url (parent s)) as [[]|].
  - assert (within (on_fs (S := RS) (isolated (at_or_below own) (on_path_to own))) mark_skipped) as Hskip
      by (unfold mark_skipped; within_auto).
    apply Hskip.
  - assert (own = at_path (imageDir (httpRootDir s1) (ir_Meta (parent s)))) as Hown.
    { unfold own. rewrite !at_imageDir by done. by rewrite Hr1. }
    assert (forall dir w, at_path dir <> [] ->
      frame (fun k => at_or_below own k \/ at_or_below (at_path dir) k) (on_path_to own) (w_fs w)
        (w_fs (the_world (pull_and_publish (httpRootDir s1) (RetrieveImageRef (stash s)) f
           (image_httpPath (ir_Meta (parent s)) f) url dir (set_world w s2)).2))) as Hbody.
    { intros dir w Hdir. rewrite Hown.
      exact (working_pull (httpRootDir s1) (ir_Meta (parent s)) _ dir f url Hm Hnf Hnfn (set_world w s2)). }
    assert (2 < String.length "image.")%nat as Hlen by (simpl; lia).
    exact (temp_isolated "image." _ _ _ s2 eq_refl eq_refl Hlen Hwf Hbody).
  - done.
Qed.
End Disk.

(** ** Publication *)

Section Published.
Context {C : Type} `{CM : ConditionManager C, CL : !ConditionLaws C}.
Context {Sh : Type} `{ST : Stash Sh stash_value}.
Context `{E : Env} `{T : TarGz} `{CK : Clock} `{RG : Registry} `{RL : !RegistryLaws}.
Abbreviation RS := (Reconcile (ImageRepository C) Sh).
Abbreviation resolved := ImageRepositoryConditionImageResolved.
Abbreviation available := ImageRepositoryConditionArtifactAvailable.

(** The resource says what is served. *)
Record image_published (host root ref : string) (p : ImageRepository C) (fs : fsmap) : Prop := {
  ipub_artifact : exists a f tgz, ir_Artifact (ir_Status p) = Some a /\
    normal tgz /\ Artifact_Path a = image_httpPath (ir_Meta p) tgz /\
    fs !! at_path (Join [root; Artifact_Path a]) = Some (FileNode f) /\
    Artifact_Checksum a = sha1_hex (f_data f) /\
    Artifact_URL a = Sprintf "http://%s/%s" [host; Artifact_Path a] /\
    Artifact_Revision a = ref /\
    ir_URL (ir_Status p) = Artifact_URL a;
  ipub_available : ir_status p available = Some ConditionTrue;
  ipub_ready : ir_status p ConditionReady = Some ConditionTrue
}.

Lemma image_published_touches host root ref (p : ImageRepository C) P fs fs' :
  meta_ok (ir_Meta p) -> (forall l, ~ P (at_path (imageDir root (ir_Meta p)) ++ l)) ->
  touches P fs fs' -> image_published host root ref p fs -> image_published host root ref p fs'.
Proof.
  intros Hm HP Ht [(a & f & tgz & Ha & Hn & Hpath & Hf & Hrest) Hav Hrd]. split; [|done..].
  exists a, f, tgz. split; [done|]. split; [done|]. split; [done|]. split; [|done].
  rewrite Ht; [done|]. rewrite Hpath. destruct (at_image_httpPath root (ir_Meta p) tgz Hm Hn) as [-> _]. apply HP.
Qed.

Lemma image_published_root host r1 r2 ref (p : ImageRepository C) fs :
  meta_ok (ir_Meta p) -> at_path r1 = at_path r2 ->
  image_published host r1 ref p fs -> image_published host r2 ref p fs.
Proof.
  intros Hm Hr [(a & f & tgz & Ha & Hn & Hpath & Hf & Hrest) Hav Hrd]. split; [|done..].
  exists a, f, tgz. split; [done|]. split; [done|]. split; [done|]. split; [|done].
  rewrite Hpath in Hf |- *. destruct (at_image_httpPath r2 (ir_Meta p) tgz Hm Hn) as [-> _].
  destruct (at_image_httpPath r1 (ir_Meta p) tgz Hm Hn) as [Hk _]. rewrite Hk in Hf.
  rewrite at_imageDir in Hf |- * by done. by rewrite <- Hr.
Qed.

Lemma image_set_artifact_status desired url (p : ImageRepository C) :
  exists a, ir_Artifact (ir_Status (image_set_artifact desired url p)) = Some a /\
    without_time a = without_time desired.
Proof.
  simpl. destruct (preserveArtifactLastUpdateTime _ desired) as [a|] eqn:Ea.
  - exists a. split; [done|]. by eapply preserve_content.
  - exfalso. unfold preserveArtifactLastUpdateTime in Ea. destruct (ir_Artifact _); [|done].
    by case_decide.
Qed.

Lemma image_publish_Ret host root ref ad dir f (s s' : RS) :
  let m := ir_Meta (parent s) in
  let own := at_path (imageDir root m) in
  let path := image_httpPath m f in
  (forall t, env_fault t = None) -> meta_ok m -> normal f -> normal (f +:+ ".new") ->
  (forall l, ~ at_path dir `prefix_of` own ++ l) -> flat (w_fs (world s)) own ->
  ir_status (parent s) resolved = Some ConditionTrue ->
  image_publish root ref ad (Join [dir; f]) path (Sprintf "http://%s/%s" [host; path]) s = (Ret tt, s') ->
  image_published host root ref (parent s') (w_fs (world s')) /\ ir_Meta (parent s') = m.
Proof.
  intros m own path Hnf Hm Hf Hfn Hdir Hflat Hres H.
  destruct (at_image_httpPath root m f Hm Hf) as [Hp _].
  destruct (at_image_httpPath root m (f +:+ ".new") Hm Hfn) as [Hn1 Hn2].
  fold own in Hp, Hn1, Hn2. unfold image_publish, path in H. rewrite image_httpPath_new in H.
  fold path in H, Hp. set (new := image_httpPath m (f +:+ ".new")) in *.
  inv_bind H. apply try_io_Ret in Hstep as (w1 & -> & Htar). destruct v as [[]|e]; [|done].
  inv_bind H. apply io_Ret in Hstep as (w2 & Hsum & ->).
  inv_bind H. apply io_Ret in Hstep as (w3 & Hcopy & ->).
  inv_bind H. apply io_Ret in Hstep as (w4 & Hren & ->).
  inv_bind H. apply io_Ret in Hstep as (w5 & [= <- <-] & ->).
  unfold mbind, M_bind, set_parent, modify in H. injection H as <-.
  cbn [world set_world reconcile_has_world parent] in *.
  assert (at_path (Join [dir; f]) = at_path dir ++ [f]) as Hk by (apply key_Join; normals).
  apply sha1Checksum_Ret in Hsum as [Hfs2 (g & Hg & ->)].
  repeat match goal with v : unit |- _ => destruct v end.
  apply (copyFile_made _ _ own (f +:+ ".new")) in Hcopy as (g0 & f' & fs & _ & Hg0 & Hd & Hfs3); try done.
  2: { rewrite Hk, Hn1. intros Eq. apply app_inj_tail in Eq as [_ Eq]. by apply append_ne in Eq. }
  2: { rewrite Hn1, Hfs2. pose proof (touch_createTarGz ad (Join [dir; f]) (world s)) as Ht.
    rewrite Htar in Ht. intros Hbad. apply (Hflat (f +:+ ".new")). rewrite <- Hbad. symmetry.
    apply Ht. unfold is_key. rewrite Hk. intros Eq. apply (Hdir [f +:+ ".new"]). rewrite <- Eq. by eexists. }
  rewrite Hfs2, Hg in Hg0. injection Hg0 as <-.
  apply Rename_Ret in Hren as (f2 & Hf2 & Hfs4). rewrite lookup_node_ne in Hf2 by (rewrite Hn1; by destruct own).
  rewrite Hfs3, lookup_insert_eq in Hf2. injection Hf2 as <-.
  match goal with |- image_published _ _ _ (ir_MarkTrue _ _ _ _ (image_set_artifact ?d ?u ?p)) _ /\ _ =>
    destruct (image_set_artifact_status d u p) as (a & Ha & Hwt) end.
  apply without_time_fields in Hwt as (Hpath & Hurl & Hrev & Hsum). simpl in Hpath, Hurl, Hrev, Hsum.
  split; [|done]. split; [|by apply ir_status_MarkTrue|by apply (ir_ready _ resolved); [right|]].
  exists a, f', f. split; [exact Ha|]. rewrite Hpath. split; [done|]. split; [done|]. split.
  - change (w_fs w4 !! at_path (Join [root; path]) = Some (FileNode f')). rewrite Hfs4. apply lookup_insert_eq.
  - rewrite Hd. done.
Qed.

(** ** The outcome of a pull *)

Inductive pull_result (host root ref : string) (p p' : ImageRepository C) (fs : fsmap) : Prop :=
| pull_nothing : p' = p -> pull_result host root ref p p' fs
| pull_failed : (exists reason format args, p' = ir_MarkFalse resolved reason format args p) ->
    pull_result host root ref p p' fs
| pull_skipped a : ir_Artifact (ir_Status p) = Some a -> ir_Artifact (ir_Status p') = Some a ->
    ir_URL (ir_Status p') = Artifact_URL a -> ir_status p' available = Some ConditionTrue ->
    (exists n, lookup_node fs (at_path (Join [root; image_httpPath (ir_Meta p)
       (Sprintf "%s.tar.gz" [digest_hex (match name_NewDigest ref with inl d => d | inr _ => "" end)])])) = Some n) ->
    Artifact_URL a = Sprintf "http://%s/%s" [host; image_httpPath (ir_Meta p)
       (Sprintf "%s.tar.gz" [digest_hex (match name_NewDigest ref with inl d => d | inr _ => "" end)])] ->
    pull_result host root ref p p' fs
| pull_published : image_published host root ref p' fs -> pull_result host root ref p p' fs.

Lemma mark_skipped_Ret (s s' : RS) :
  mark_skipped s = (Ret tt, s') ->
  world s' = world s /\ ir_Artifact (ir_Status (parent s')) = ir_Artifact (ir_Status (parent s)) /\
  ir_URL (ir_Status (parent s')) = ir_URL (ir_Status (parent s)) /\
  ir_status (parent s') available = Some ConditionTrue.
Proof.
  unfold mark_skipped. intros H. inv_bind H. injection Hstep as <- <-. inv_bind H.
  unfold set_parent, modify in H. injection H as <-. simpl.
  assert (world st = world s /\ ir_Artifact (ir_Status (parent st)) = ir_Artifact (ir_Status (parent s)) /\
    ir_URL (ir_Status (parent st)) = ir_URL (ir_Status (parent s))) as (-> & -> & ->).
  { destruct (ConditionIsUnknown _); by injection Hstep as _ <-. }
  split; [done|]. split; [done|]. split; [done|]. by apply ir_status_MarkTrue.
Qed.

Lemma pull_and_publish_Ret host root ref f dir (s s' : RS) :
  let m := ir_Meta (parent s) in
  let own := at_path (imageDir root m) in
  let path := image_httpPath m f in
  (forall t, env_fault t = None) -> meta_ok m -> normal f -> normal (f +:+ ".new") ->
  (forall l, ~ at_path dir `prefix_of` own ++ l) -> flat (w_fs (world s)) own ->
  pull_and_publish root ref f path (Sprintf "http://%s/%s" [host; path]) dir s = (Ret tt, s') ->
  parent s' = parent s \/
  (exists reason format args, parent s' = ir_MarkFalse resolved reason format args (parent s)) \/
  (image_published host root ref (parent s') (w_fs (world s')) /\ ir_Meta (parent s') = m).
Proof.
  intros m own path Hnf Hm Hf Hfn Hdir Hflat H.
  unfold pull_and_publish in H. apply defer_RemoveAll_Ret in H as (s1 & w2 & Ebody & -> & Ht2).
  cbn [parent world set_world reconcile_has_world].
  inv_bind Ebody. injection Hstep as <- <-.
  destruct (RetrieveImagePullSecrets (stash s)) as [secrets|]; [|injection Ebody as <-; by left].
  inv_bind Ebody. apply io_Ret in Hstep as (w3 & Hw3 & ->). inv_bind Ebody.
  destruct v as [kc|e]; [|done]. injection Hstep as <- <-.
  inv_bind Ebody. apply io_Ret in Hstep as (w4 & Hw4 & ->). inv_bind Ebody.
  destruct v as [[]|e]; [|done]. injection Hstep as _ <-.
  inv_bind Ebody. injection Hstep as <- <-.
  inv_bind Ebody. apply try_io_Ret in Hstep as (w5 & -> & Hpull).
  cbn [world set_world reconcile_has_world parent] in *.
  assert (w_fs w4 = w_fs (world s)) as Hfs4 by (injection Hw3 as _ <-; injection Hw4 as _ <-; done).
  destruct v as [[]|e].
  2: { injection Ebody as <-. right. left. simpl. eauto. }
  inv_bind Ebody. injection Hstep as _ <-.
  assert (within (on_fs (touches (at_or_below (at_path dir))))
    (plainimage_Pull ref kc (RetrieveHttpRoundTripper (stash s)) (Join [dir; "artifact"]) NewNoopLogger)) as Hpt.
  { eapply within_touches_mono; [|apply Pull_touches]. intros k [r ->].
    unfold at_path. rewrite key_Join by normals. rewrite <- app_assoc. by eexists. }
  specialize (Hpt w4). rewrite Hpull in Hpt.
  assert (flat (w_fs w5) own) as Hflat5.
  { intros x Hx. apply (Hflat x). rewrite <- Hfs4, <- Hx. symmetry. apply Hpt, Hdir. }
  match type of Ebody with _ ?x = _ =>
    assert (ir_status (parent x) resolved = Some ConditionTrue) as Hres by (by apply ir_status_MarkTrue);
    destruct (image_publish_Ret host root ref (Join [dir; "artifact"]) dir f x s1
                Hnf Hm Hf Hfn Hdir Hflat5 Hres Ebody) as [Hpub Hms] end.
  right. right. split; [|done].
  apply (image_published_touches _ _ _ _ (at_or_below (at_path dir)) (w_fs (world s1))); [| |done|done].
  - rewrite Hms. done.
  - rewrite Hms. exact Hdir.
Qed.

(** What is there already is named by the status, and is on disk. *)
Lemma already_published_true root m f url (p : ImageRepository C) w w2 v :
  try (io (os_Stat (Join [root; image_httpPath m f]))) w = (Ret v, w2) ->
  already_published v url p = Some true ->
  exists a n, ir_Artifact (ir_Status p) = Some a /\ ir_URL (ir_Status p) = url /\ Artifact_URL a = url /\
    lookup_node (w_fs (world (P := ImageRepository C) (Sh := Sh) w)) (at_path (Join [root; image_httpPath m f])) = Some n.
Proof.
  intros (w1 & _ & Hst)%try_io_Ret H. unfold already_published in H. destruct v as [n|e]; [|done].
  case_decide as Hurl; [|done]. destruct (ir_Artifact (ir_Status p)) as [a|]; [|done].
  injection H as H. apply bool_decide_eq_true in H. exists a, n. apply Stat_Ret in Hst as [_ Hst]. done.
Qed.

Lemma PullImageSync_Ret host (s s' : RS) :
  let own := at_path (imageDir (httpRootDir s) (ir_Meta (parent s))) in
  (forall t, env_fault t = None) -> meta_ok (ir_Meta (parent s)) -> apart own -> flat (w_fs (world s)) own ->
  PullImageSync host s = (Ret tt, s') ->
  pull_result host (httpRootDir s) (RetrieveImageRef (stash s)) (parent s) (parent s') (w_fs (world s')).
Proof.
  intros own Hnf Hm Hap Hflat H. unfold PullImageSync in H. inv_bind H. injection Hstep as <- <-.
  case_decide; [injection H as <-; by apply pull_nothing|].
  inv_bind H. injection Hstep as <- <-.
  destruct (name_NewDigest _) as [digest|e] eqn:Ed; [|injection H as <-; apply pull_failed; simpl; eauto].
  inv_bind H. apply clean_root_Ret in Hstep as (Hp1 & _ & Hw1 & Hr1). inv_bind H. injection Hstep as <- <-.
  set (f := Sprintf "%s.tar.gz" [digest_hex digest]) in *.
  assert (f = digest_hex digest +:+ ".tar.gz") as Hf by done.
  assert (normal f) as Hnorm by (rewrite Hf; by eapply normal_digest).
  assert (normal (f +:+ ".new")) as Hnormn by (rewrite Hf, append_assoc; by eapply normal_digest).
  assert (at_path (imageDir (httpRootDir st) (ir_Meta (parent s))) = own) as Hown
    by (unfold own; rewrite !at_imageDir, Hr1 by done; done).
  inv_bind H. pose proof Hstep as Hstat. apply try_io_Ret in Hstep as (w2 & -> & Hst).
  assert (w_fs w2 = w_fs (world s)) as Hfs2.
  { pose proof (within_Stat eq (Join [httpRootDir st; image_httpPath (ir_Meta (parent s)) f]) (world st)) as Hq.
    unfold on_fs in Hq. destruct v0 as [n|e]; rewrite Hst in Hq; simpl in Hq; congruence. }
  destruct (already_published v0 _ (parent s)) as [[]|] eqn:Eap; [| |done].
  - apply mark_skipped_Ret in H as (Hw & Ha' & Hu & Hc). cbn [parent set_world reconcile_has_world] in *.
    destruct (already_published_true _ _ _ _ _ _ _ _ Hstat Eap) as (a & n & Ha & Hurl & Hau & Hn).
    apply (pull_skipped _ _ _ _ _ _ a); rewrite ?Ed; try done.
    + by rewrite Ha', Hp1.
    + by rewrite Hu, Hp1, Hurl.
    + exists n. rewrite Hw, Hw1 in *.
      change (lookup_node (w_fs w2) (at_path (Join [httpRootDir s; image_httpPath (ir_Meta (parent s)) f])) = Some n).
      rewrite Hfs2.
      destruct (at_image_httpPath (httpRootDir s) (ir_Meta (parent s)) f Hm Hnorm) as [-> _].
      destruct (at_image_httpPath (httpRootDir st) (ir_Meta (parent s)) f Hm Hnorm) as [Hk _].
      rewrite Hk, Hown in Hn. exact Hn.
  - inv_bind H. apply io_Ret in Hstep as (w4 & Htmp & ->). cbn [world set_world reconcile_has_world] in Htmp.
    apply (MkdirTemp_apart "image." _ _ _ own) in Htmp as [Hapart Hflat4]; try done; [|simpl; lia|by rewrite Hfs2].
    match type of H with pull_and_publish _ _ _ _ _ ?d ?x = _ =>
      pose proof (pull_and_publish_Ret host (httpRootDir st) (RetrieveImageRef (stash s)) f d x s') as Hpp end.
    cbn [parent world stash httpRootDir heap set_world reconcile_has_world] in Hpp, H. rewrite Hp1 in Hpp, H.
    rewrite Hown in Hpp. destruct (Hpp Hnf Hm Hnorm Hnormn Hapart Hflat4 H) as [Hx|[Hx|[Hx Hms]]];
      [by apply pull_nothing|by apply pull_failed|].
    apply pull_published. eapply image_published_root; [|exact Hr1|exact Hx]. by rewrite Hms.
Qed.
End Published.
