(* ===== verification/PanicFacts.v ===== *)
(** * Where the controllers may panic

    Every call is calm but for the dereference of a missing timeout or
    artifact, and the parsing of the cache file. *)

From S2P Require Import Prelude GoStrings GoPath GoErrors Effects World GoOS GoOSFacts Sha1.
From S2P Require Import Runtime ApiTypes MavenMetadata Http Transport Stashes ArtifactFiles.
From S2P Require Import ArtifactFilesFacts TarFacts MavenDownload MavenResolver SentFacts.
From S2P Require Import Reconcile Frames Steps MavenArtifactController MavenFacts MavenPublish.
From S2P Require Import ImageRepositoryController ImageFacts.

Section Calls.
Context `{E : Env} `{T : TarGz} `{ZR : Zip}.

Lemma calm_io {S A : Type} `{HasWorld S} (m : IO A) : calm m -> calm (io (S := S) m).
Proof. apply calm_zoom. Qed.

Lemma calm_of_sum {S A : Type} (r : A + error) : calm (S := S) (of_sum r).
Proof. by destruct r. Qed.

Lemma calm_ask {A : Type} (f : nat -> A) : calm (ask f).
Proof. done. Qed.

Lemma calm_fs_call {A : Type} op p (f : nat -> fsmap -> (A + Errno) * fsmap) : calm (fs_call op p f).
Proof. intros w. unfold fs_call. destruct (env_fault _); [done|]. by destruct (f _ _) as [[a|n] fs]. Qed.

Lemma calm_write_all p d : calm (write_all p d).
Proof. intros w. unfold write_all. by destruct (env_fault _). Qed.

Hint Resolve calm_io calm_of_sum calm_ask calm_fs_call calm_write_all : calm.

Lemma calm_WriteFile p d perm : calm (os_WriteFile p d perm).
Proof. unfold os_WriteFile, os_OpenFile. calm_auto. Qed.

Lemma calm_Mkdir p : calm (os_Mkdir p).
Proof. unfold os_Mkdir. calm_auto. Qed.

Lemma calm_MkdirAll p : calm (os_MkdirAll p).
Proof.
  unfold os_MkdirAll. generalize (@nil string) (at_path p). intros pre rest. revert pre.
  induction rest as [|c rest IH]; intros pre; simpl; calm_auto; auto.
Qed.

Lemma calm_RemoveAll p : calm (os_RemoveAll p).
Proof. unfold os_RemoveAll. case_decide; calm_auto. Qed.

Lemma calm_MkdirTemp dir pat : calm (os_MkdirTemp dir pat).
Proof.
  unfold os_MkdirTemp. destruct (prefixAndSuffix pat). generalize mkdir_temp_tries. intros n.
  induction n as [|n IH]; simpl; unfold os_Mkdir; calm_auto; auto.
Qed.

Lemma calm_sha1Checksum p : calm (sha1Checksum p).
Proof. unfold sha1Checksum, os_Open, read_all. calm_auto. Qed.

Lemma calm_isArchive p : calm (isArchive p).
Proof. unfold isArchive, os_Open, read_all. calm_auto. Qed.

Hint Resolve calm_WriteFile calm_Mkdir calm_MkdirAll calm_RemoveAll calm_MkdirTemp calm_sha1Checksum calm_isArchive : calm.

Lemma calm_copyFile a b : calm (copyFile a b).
Proof. unfold copyFile, os_Open, os_Create, os_OpenFile, read_all. calm_auto. Qed.

Lemma calm_copyCompressedFile a b : calm (copyCompressedFile a b).
Proof. unfold copyCompressedFile, os_Open, os_Create, os_OpenFile, read_all, os_Rename. calm_auto. Qed.

Lemma calm_createTarGz dir out : calm (createTarGz dir out).
Proof.
  assert (forall b, calm (emit out b)) as Hemit by (intros b; unfold emit; case_decide; calm_auto).
  assert (forall f, calm (tar_call out f)) as Hcall by (intros f; unfold tar_call; calm_auto; auto).
  assert (forall p n, calm (tar_entry dir out p n)) as Hentry.
  { intros p n. unfold tar_entry, os_Open, file_Stat, read_all. calm_auto; auto. }
  unfold createTarGz, os_Create, os_OpenFile, WalkDir, os_Stat. calm_auto; auto.
Qed.

Lemma calm_extractArchive dir jar : calm (extractArchive dir jar).
Proof.
  unfold extractArchive, zip_OpenReader, extractFile, zip_Open, copy_to, os_Open, read_all, os_Mkdir,
    os_OpenFile, os_Chtimes. calm_auto.
Qed.

Lemma calm_newTransport certs : calm (newTransport certs).
Proof.
  assert (forall pool, calm (load_certs pool certs)) as Hload.
  { induction certs as [|c certs IH]; intros pool; simpl; [done|]. unfold Cert_Bytes.
    case_decide; unfold os_ReadFile, os_Open, read_all; calm_auto; auto;
      case_decide; auto; calm_auto; auto. }
  unfold newTransport. calm_auto; auto.
Qed.
End Calls.

#[export] Hint Resolve calm_io calm_of_sum calm_ask calm_fs_call calm_write_all calm_WriteFile calm_Mkdir calm_MkdirAll calm_RemoveAll
  calm_MkdirTemp calm_sha1Checksum calm_isArchive calm_copyFile calm_copyCompressedFile calm_createTarGz
  calm_extractArchive calm_newTransport : calm.

Section Requests.
Context {Sh : Type} `{ST : Stash Sh stash_value} `{E : Env} `{X : Xml}.
Context (t : Transport).
Abbreviation client := (mkHttpClient t sameHostRedirectPolicy).

Lemma calm_Do r : calm (Client_Do client r).
Proof. intros w. pose proof (policy_Do t r w) as H. destruct (Client_Do _ r w). apply H. Qed.

Hint Resolve calm_Do : calm.

Lemma calm_download (ctx : Ctx Sh) url : calm (download ctx url client).
Proof. unfold download. calm_auto. Qed.

Hint Resolve calm_download : calm.

Lemma calm_downloadMetadata (ctx : Ctx Sh) url : calm (downloadMetadata ctx client url).
Proof. unfold downloadMetadata. calm_auto. Qed.

Lemma calm_downloadChecksum (ctx : Ctx Sh) url : calm (downloadChecksum ctx client url).
Proof. unfold downloadChecksum. calm_auto. Qed.

Lemma calm_downloadArtifact (ctx : Ctx Sh) url dir f c : calm (downloadArtifact ctx url dir f c client).
Proof.
  unfold downloadArtifact, os_Mkdir, os_Create, os_OpenFile, copy_to, os_Chtimes. calm_auto.
Qed.

Hint Resolve calm_downloadMetadata : calm.

Lemma calm_finish dv : calm (finish dv).
Proof. unfold finish, assign. calm_auto. Qed.

Hint Resolve calm_finish : calm.

Lemma calm_Resolve (ctx : Ctx Sh) : calm (Resolve ctx client).
Proof.
  assert (calm (processSnapshotVersion ctx client)) as Hs
    by (unfold processSnapshotVersion, assign; calm_auto).
  unfold Resolve, processReleaseVersion, processLatestVersion, processFixedVersion, assign.
  calm_auto; auto. all: repeat case_decide; calm_auto; auto.
Qed.
End Requests.

#[export] Hint Resolve calm_download calm_downloadMetadata calm_downloadChecksum calm_downloadArtifact
  calm_Resolve : calm.

(** ** The syncs *)

Section Maven.
Context {C : Type} `{CM : ConditionManager C}.
Context {Sh : Type} `{ST : Stash Sh stash_value, SL : !StashLaws Sh stash_value}.
Context `{E : Env} `{X : Xml} `{T : TarGz} `{ZR : Zip} `{CK : Clock}.
Abbreviation RS := (Reconcile (MavenArtifact C) Sh).

(** The client of the stash follows the redirect policy. *)
Definition policy_client (st : Sh) : Prop :=
  forall c, retrieveHttpClient st = Some c -> exists t, c = mkHttpClient t sameHostRedirectPolicy.

Lemma calm_set_parent {P : Type} (f : P -> P) : calm (set_parent (Sh := Sh) f).
Proof. done. Qed.
Lemma calm_set_stash {P : Type} (f : Sh -> Sh) : calm (set_stash (P := P) f).
Proof. done. Qed.
Lemma calm_http_error {P : Type} inner code (u n o : P -> P) : calm (http_error (Sh := Sh) inner code u n o).
Proof. unfold http_error. repeat case_decide; repeat case_match; done. Qed.
Lemma calm_clean_root {P : Type} : calm (@clean_root P Sh).
Proof. unfold clean_root, set_root. calm_auto. Qed.

Hint Resolve calm_set_parent calm_set_stash calm_http_error calm_clean_root : calm.

Lemma VersionSync_calm (s : RS) :
  policy_client (stash s) -> Timeout (Spec (parent s)) <> None -> is_panic (VersionSync s).1 = false.
Proof.
  intros Hc Ht. unfold VersionSync, mbind, M_bind at 1, gets at 1.
  destruct (retrieveHttpClient (stash s)) as [c|] eqn:Ec; [|done].
  destruct (Hc c Ec) as [t ->]. unfold M_bind at 1, gets at 1.
  destruct (Timeout (Spec (parent s))) as [timeout|]; [|done].
  destruct (url_Parse _) as [u|e]; [|done]. case_decide; [done|].
  match goal with |- is_panic (M_bind _ _ ?k ?m s).1 = _ => apply (calm_bind m k) end.
  - intros s'. unfold run_Resolve.
    match goal with |- context [Resolve ?c ?cl ?x] => pose proof (calm_Resolve t c x) as H';
      destruct (Resolve c cl x) as [[[]|e|why] rs] end; done.
  - intros [[e|] mr].
    + unfold resolve_failed. destruct (errors_Is e _); [done|].
      destruct (as_downloadError e) as [[inner code]|]; [apply calm_http_error|done].
    + done.
Qed.

Lemma calm_fetch_and_publish t host p ctx info cf c dir :
  calm (fetch_and_publish (C := C) (Sh := Sh) host p ctx (mkHttpClient t sameHostRedirectPolicy) info cf c dir).
Proof.
  unfold fetch_and_publish, fetch_artifact, artifact_failed, unpack, publish.
  calm_auto.
Qed.

(** The cache file of a resolved artifact, when there is one, has a bar. *)
Definition cache_ok (s : RS) : Prop :=
  forall info f, retrieveArtifactVersion (stash s) = Some info ->
    w_fs (world s) !! at_path (cache_file (httpRootDir s) (Meta (parent s)) info) = Some (FileNode f) ->
    byte_in "|" (f_data f) = true.

Lemma Split_two s sep : byte_in sep s = true -> exists a b l, Split s sep = a :: b :: l.
Proof.
  induction s as [|a s IH]; [done|]. simpl. case_bool_decide as Ha; simpl; intros H.
  - destruct (Split_cons s sep) as (w & ws & ->). eauto.
  - destruct (IH H) as (x & y & l & ->). eauto.
Qed.

Lemma retrieveChecksum_calm p w :
  (forall f, w_fs w !! at_path p = Some (FileNode f) -> byte_in "|" (f_data f) = true) ->
  is_panic (retrieveChecksumFromFile p w).1 = false.
Proof.
  intros H. unfold retrieveChecksumFromFile, mbind, M_bind, try.
  destruct (os_ReadFile p w) as [[d|e|why] w1] eqn:Er.
  - apply ReadFile_Ret in Er as (_ & f & Hf & <-).
    destruct (Split_two _ _ (H f Hf)) as (a & b & l & ->). done.
  - by destruct (errors_Is e _).
  - assert (calm (os_ReadFile p)) as Hc by (unfold os_ReadFile, os_Open, read_all; calm_auto).
    specialize (Hc w). by rewrite Er in Hc.
Qed.

Lemma DownloadSync_calm host (s : RS) :
  policy_client (stash s) -> Timeout (Spec (parent s)) <> None -> cache_ok s ->
  is_panic (DownloadSync host s).1 = false.
Proof.
  intros Hc Ht Hcache. unfold DownloadSync, mbind, M_bind at 1, gets at 1.
  destruct (retrieveArtifactVersion (stash s)) as [info|] eqn:Ei; [|done].
  destruct (retrieveHttpClient (stash s)) as [c|] eqn:Ec; [|done].
  destruct (Hc c Ec) as [t ->]. unfold M_bind at 1, gets at 1.
  destruct (Timeout (Spec (parent s))) as [timeout|]; [|done]. unfold M_bind at 1.
  set (ctx := mkCtx (Some timeout) (stash s)). set (cl := mkHttpClient t sameHostRedirectPolicy).
  pose proof (quiet_fetch_checksum ctx cl info s) as Hq.
  assert (calm (fetch_checksum (C := C) ctx cl info)) as Hcalm.
  { unfold fetch_checksum, checksum_failed, cl. calm_auto. }
  specialize (Hcalm s). destruct (fetch_checksum ctx cl info s) as [[[x|]|e|why] s1]; try done.
  destruct Hq as [Hfs Hr]. unfold M_bind at 1, gets at 1. unfold M_bind at 1.
  assert (is_panic (io (retrieveChecksumFromFile (cache_file (httpRootDir s1) (Meta (parent s)) info)) s1).1 = false)
    as Hrc.
  { unfold io, zoom. simpl.
    pose proof (retrieveChecksum_calm (cache_file (httpRootDir s1) (Meta (parent s)) info) (world s1)) as H.
    destruct (retrieveChecksumFromFile _ _) as [o w]. apply H. intros f.
    simpl in Hfs, Hr. rewrite Hfs, Hr. by apply Hcache. }
  destruct (io (retrieveChecksumFromFile _) s1) as [[cache|e|why] s2]; [|done|done].
  destruct (unchanged _ _ _ _); [done|]. unfold M_bind at 1.
  pose proof (calm_clean_root (P := MavenArtifact C) s2) as Hcr.
  destruct (clean_root s2) as [[[]|e|why] s3]; [|done|done]. unfold M_bind.
  pose proof (calm_io (S := RS) (os_MkdirTemp env_TempDir "maven-artifact.*") (calm_MkdirTemp _ _) s3) as Hmt.
  destruct (io (os_MkdirTemp _ _) s3) as [[dir|e|why] s4]; [|done|done].
  apply calm_fetch_and_publish.
Qed.
End Maven.

#[export] Hint Resolve calm_set_parent calm_set_stash calm_http_error calm_clean_root : calm.

Section Image.
Context {C : Type} `{CM : ConditionManager C}.
Context {Sh : Type} `{ST : Stash Sh stash_value}.
Context `{E : Env} `{T : TarGz} `{CK : Clock} `{RG : Registry} `{RL : !RegistryLaws}.
Abbreviation RS := (Reconcile (ImageRepository C) Sh).

(** A status with a URL has an artifact. *)
Definition url_has_artifact (p : ImageRepository C) : Prop :=
  ir_URL (ir_Status p) <> "" -> ir_Artifact (ir_Status p) <> None.

Lemma calm_pull_and_publish root ref f path url dir :
  calm (pull_and_publish (C := C) (Sh := Sh) root ref f path url dir).
Proof.
  unfold pull_and_publish, image_publish, os_Rename. calm_auto. apply calm_zoom, Pull_calm.
Qed.

Lemma PullImageSync_calm host (s : RS) :
  url_has_artifact (parent s) -> is_panic (PullImageSync host s).1 = false.
Proof.
  intros Hu. unfold PullImageSync, mbind, M_bind at 1, gets at 1. case_decide; [done|].
  unfold M_bind at 1, gets at 1. destruct (name_NewDigest _) as [d|e]; [|done].
  unfold M_bind at 1. pose proof (calm_clean_root (Sh := Sh) (P := ImageRepository C) s) as Hcr.
  destruct (clean_root s) as [[[]|e|why] s1]; [|done|done].
  unfold M_bind at 1, gets at 1. unfold M_bind at 1.
  set (path := Join _). set (url := Sprintf "http://%s/%s" _).
  assert (calm (try (io (S := RS) (os_Stat path)))) as Hst by (unfold os_Stat; calm_auto).
  specialize (Hst s1). destruct (try (io (os_Stat path)) s1) as [[stat|e|why] s2]; [|done|done].
  destruct (already_published stat url (parent s)) as [[]|] eqn:Ea.
  - unfold mark_skipped. revert s2 Hst. clear. intros s2 _.
    match goal with |- is_panic (?m s2).1 = _ => assert (calm m) as H; [calm_auto|apply H] end.
  - unfold M_bind.
    pose proof (calm_io (S := RS) (os_MkdirTemp env_TempDir "image.*") (calm_MkdirTemp _ _) s2) as Hmt.
    destruct (io (os_MkdirTemp _ _) s2) as [[dir|e|why] s4]; [|done|done].
    apply calm_pull_and_publish.
  - exfalso. unfold already_published in Ea. destruct stat; [|done]. case_decide as Hurl; [|done].
    destruct (ir_Artifact (ir_Status (parent s))) eqn:Eart; [done|].
    apply Hu; [|done]. rewrite <- Hurl. done.
Qed.
End Image.
