(* ===== verification/PullSecrets.v ===== *)
(** * The pull secrets of an image

    What [ImageRepositoryImagePullSecretsSyncReconciler]
    (controllers/imagerepository_controller.go) reads from the API server, in
    which order, and what it makes of each answer. *)

From stdpp Require Import sorting.
From S2P Require Import Prelude GoStrings GoPath GoErrors Effects World GoOS GoOSFacts.
From S2P Require Import Runtime ApiTypes Http Transport Stashes ArtifactFiles TarFacts Reconcile Frames Steps.
From S2P Require Import ImageRepositoryController.

(** ** Names in order *)

Lemma elem_of_set_List l x : x ∈ set_List l <-> x ∈ l.
Proof.
  unfold set_List. rewrite (merge_sort_Permutation string_le (remove_dups l)). apply elem_of_remove_dups.
Qed.

Lemma NoDup_set_List l : NoDup (set_List l).
Proof.
  unfold set_List. rewrite (merge_sort_Permutation string_le (remove_dups l)). apply NoDup_remove_dups.
Qed.

(** Before, byte by byte. *)
Definition before (a b : string) : Prop := String.compare a b = Lt.

Lemma string_le_before a b : string_le a b <-> a = b \/ before a b.
Proof.
  unfold string_le, String.leb, before. destruct (String.compare a b) eqn:E.
  - apply String.compare_eq_iff in E. by split; [left|].
  - by split; [right|].
  - split; [done|]. intros [->|?]; [by rewrite string_compare_refl in E|done].
Qed.

#[export] Instance string_le_trans : Transitive string_le.
Proof.
  intros a b c. rewrite !string_le_before. intros [->|H1] [->|H2]; auto. right. by eapply string_compare_trans.
Qed.
#[export] Instance string_le_total : Total string_le.
Proof.
  intros a b. rewrite !string_le_before. unfold before. rewrite (String.compare_antisym b a).
  destruct (String.compare a b) eqn:E; simpl; auto. apply String.compare_eq_iff in E. auto.
Qed.

Lemma sorted_set_List l : StronglySorted before (set_List l).
Proof.
  pose proof (NoDup_set_List l) as Hd. assert (StronglySorted string_le (set_List l)) as Hs
    by (apply StronglySorted_merge_sort; apply _).
  induction Hs as [|x xs Hs IH Hx]; [constructor|]. apply NoDup_cons in Hd as [Hn Hd].
  constructor; [by apply IH|]. rewrite Forall_forall in Hx |- *. intros y Hy.
  apply Hx in Hy as Hle. apply string_le_before in Hle as [->|?]; [done|done].
Qed.

(** ** The reads *)

Section Reads.
Context {C : Type} `{CM : ConditionManager C}.
Context {Sh : Type} `{ST : Stash Sh stash_value}.
Context `{E : Env}.
Abbreviation RS := (Reconcile (ImageRepository C) Sh).
Abbreviation resolved := ImageRepositoryConditionImageResolved.

(** The secrets with these names are answered one after the other. *)
Fixpoint secrets_read (t : nat) (ns : string) (names : list string) (l : list Secret) : Prop :=
  match names, l with
  | [], [] => True
  | n :: names', x :: l' => kube_Secret t ns n = inl x /\ secrets_read (S t) ns names' l'
  | _, _ => False
  end.

(** The world after a read. *)
Definition read_world (r : KubeRef) (w : World) : World :=
  mkWorld (w_fs w) (S (w_tick w)) (w_sent w) (w_tracked w ++ [r]).

Lemma read_Secret ns n (s : RS) :
  try (io (TrackAndGet_Secret ns n)) s =
    (Ret (kube_Secret (w_tick (world s)) ns n), set_world (read_world (SecretRef_of ns n) (world s)) s).
Proof.
  unfold try, io, zoom, TrackAndGet_Secret, mbind, M_bind, track, ask. simpl.
  by destruct (kube_Secret (w_tick (world s)) ns n).
Qed.

Lemma read_ServiceAccount ns n (s : RS) :
  try (io (TrackAndGet_ServiceAccount ns n)) s =
    (Ret (kube_ServiceAccount (w_tick (world s)) ns n),
     set_world (read_world (ServiceAccountRef_of ns n) (world s)) s).
Proof.
  unfold try, io, zoom, TrackAndGet_ServiceAccount, mbind, M_bind, track, ask. simpl.
  by destruct (kube_ServiceAccount (w_tick (world s)) ns n).
Qed.

Definition secret_missing (ns n : string) : ImageRepository C -> ImageRepository C :=
  ir_MarkFalse resolved "SecretMissing" "Secret %q not found in namespace %q" [AStr n; AStr ns].

(** What reading the secrets gives: all of them, or the first that is not
    there and is reported, or an error. *)
Definition secrets_outcome (ns : string) (names : list string) (s : RS) (o : outcome (option (list Secret)))
    (s' : RS) : Prop :=
  let t := w_tick (world s) in
  stash s' = stash s /\
  ((exists l, o = Ret (Some l) /\ secrets_read t ns names l /\ parent s' = parent s /\
      w_tracked (world s') = w_tracked (world s) ++ (SecretRef_of ns <$> names)) \/
   (exists pre l n post e, names = pre ++ n :: post /\ secrets_read t ns pre l /\
      kube_Secret (t + length pre)%nat ns n = inr e /\
      w_tracked (world s') = w_tracked (world s) ++ (SecretRef_of ns <$> pre ++ [n]) /\
      if apierrs_IsNotFound e then o = Ret None /\ parent s' = secret_missing ns n (parent s)
      else o = Fail e /\ parent s' = parent s)).

Lemma get_secrets_cons ns n names (s : RS) :
  let s1 := set_world (read_world (SecretRef_of ns n) (world s)) s in
  get_secrets ns (n :: names) s =
    match kube_Secret (w_tick (world s)) ns n with
    | inl x => (l ← get_secrets ns names; mret ((fun l => x :: l) <$> l)) s1
    | inr e => if apierrs_IsNotFound e then (Ret None, mkReconcile (secret_missing ns n (parent s)) (stash s)
                 (world s1) (httpRootDir s) (heap s)) else (Fail e, s1)
    end.
Proof.
  intros s1. cbn [get_secrets]. rewrite (bind_Ret _ _ _ _ _ (read_Secret ns n s)). fold s1.
  destruct (kube_Secret (w_tick (world s)) ns n) as [x|e]; [done|]. by destruct (apierrs_IsNotFound e).
Qed.

Lemma get_secrets_run ns names (s : RS) :
  secrets_outcome ns names s (get_secrets ns names s).1 (get_secrets ns names s).2.
Proof.
  revert s. induction names as [|n names IH]; intros s.
  { split; [done|]. left. exists []. by rewrite app_nil_r. }
  rewrite get_secrets_cons. set (s1 := set_world _ s).
  destruct (kube_Secret (w_tick (world s)) ns n) as [x|e] eqn:Ek.
  - destruct (IH s1) as [Hst Hrun]. unfold mbind, M_bind.
    destruct (get_secrets ns names s1) as [o s2]. cbn [fst snd] in *.
    destruct Hrun as [(l & -> & Hl & Hp & Ht)|(pre & l & m & post & e & Hn & Hl & He & Ht & Ho)].
    + split; [done|]. left. exists (x :: l). do 3 (split; [done|]).
      cbn. cbn in Ht. by rewrite Ht, <- app_assoc.
    + cbn in Hst, Ht, Ho, He.
      assert (forall s3 : RS, w_tracked (world s3) = w_tracked (world s2) ->
        w_tracked (world s3) = w_tracked (world s) ++ (SecretRef_of ns <$> (n :: pre) ++ [m])) as Ht'
        by (intros s3 ->; rewrite Ht, <- app_assoc; done).
      assert (kube_Secret (w_tick (world s) + length (n :: pre))%nat ns m = inr e) as He'
        by (rewrite <- He; cbn; by rewrite Nat.add_succ_r).
      destruct (apierrs_IsNotFound e) eqn:Ee; destruct Ho as [-> Hp]; (split; [done|]); right;
        exists (n :: pre), (x :: l), m, post, e; rewrite Ee;
        (split; [by rewrite Hn|]); (split; [done|]); (split; [done|]); (split; [by apply Ht'|done]).
  - destruct (apierrs_IsNotFound e) eqn:Ee; (split; [done|]); right; exists [], [], n, names, e;
      rewrite Ee, Nat.add_0_r; done.
Qed.
End Reads.
