(* ===== verification/Composition.v ===== *)
(** * The composed reconcilers

    No sync changes the metadata or the spec of the resource, so a resource
    that is not being deleted goes through its syncs in order, and one that
    is being deleted only through the finalizer. *)

From S2P Require Import Prelude GoStrings GoPath GoErrors Effects World GoOS GoOSFacts Runtime.
From S2P Require Import ApiTypes MavenMetadata Http Transport Stashes ArtifactFiles.
From S2P Require Import MavenDownload MavenResolver Reconcile MavenArtifactController.
From S2P Require Import ImageRepositoryController.

(** ** Sequences of syncs *)

Section Sequences.
Context `{RC : Reconcilers} `{RL : !ReconcilerLaws} {S : Type}.

Lemma sequence_step (r : M S Result) (f : M S unit) rs s :
  r s = (_ ← f; mret zero_result) s -> Sequence (r :: rs) s = (_ ← f; Sequence rs) s.
Proof.
  intros H. rewrite (sequence_cons r rs s). unfold mbind, M_bind at 1. rewrite H.
  unfold mbind, M_bind. destruct (f s) as [[[]|e|w] s1]; simpl; [|done|done].
  destruct (Sequence rs s1) as [[x|e|w] s2]; simpl; [|done|done]. by rewrite aggregate_zero_l.
Qed.

Lemma sequence_last (r : M S Result) s : Sequence [r] s = r s.
Proof.
  rewrite (sequence_cons r [] s). unfold mbind, M_bind. destruct (r s) as [[x|e|w] s1]; [|done|done].
  rewrite (sequence_nil s1). simpl. by rewrite aggregate_zero_r.
Qed.

(** A sub-reconciler without a finalizer does nothing on deletion. *)
Lemma sequence_skip (del : S -> bool) n f g rs s :
  del s = true -> Sequence (run_sync del (mkSyncReconciler n f g None) :: rs) s = Sequence rs s.
Proof. intros H. rewrite (sequence_step _ (mret tt)); [done|]. by rewrite run_sync_deleted. Qed.

(** The next step runs on a state of which [P] holds. *)
Lemma bind_step (P : S -> Prop) (f : M S unit) (m n : M S Result) s :
  P s -> (forall s', P s -> P s' -> m s' = n s') -> (forall s, P s -> P (f s).2) ->
  (_ ← f; m) s = (_ ← f; n) s.
Proof.
  intros Hs Hmn Hf. specialize (Hf s Hs). unfold mbind, M_bind.
  destruct (f s) as [[[]|e|w] s']; [by apply Hmn|done|done].
Qed.

(** ** Finalizers *)

(** Nothing has happened when the finalizer cannot be added. *)
Lemma add_first {A : Type} name (m : M S A) s :
  (exists e, (_ ← AddFinalizer name; m) s = (Fail e, s)) \/ (_ ← AddFinalizer name; m) s = m s.
Proof.
  destruct (add_finalizer_quiet name s) as [H1 H2]. unfold mbind, M_bind.
  destruct (AddFinalizer name s) as [[[]|e|w] s1]; simpl in *; subst; [by right|left; by exists e|done].
Qed.

(** The finalizer is cleared after [f] has returned, which may fail too. *)
Lemma clear_last name (f : M S unit) s :
  exists o, (_ ← f; _ ← ClearFinalizer name; mret zero_result) s = (o, (f s).2) /\
    is_panic o = is_panic (f s).1 /\ forall r, o = Ret r -> (f s).1 = Ret tt /\ r = zero_result.
Proof.
  unfold mbind, M_bind. destruct (f s) as [[[]|e|w] s1]; [|by exists (Fail e)|by exists (Panicked w)].
  destruct (clear_finalizer_quiet name s1) as [H1 H2].
  destruct (ClearFinalizer name s1) as [[[]|e|w] s2]; simpl in *; subst; [| |done].
  - exists (Ret zero_result). split; [done|]. split; [done|]. by intros r [= <-].
  - by exists (Fail e).
Qed.
End Sequences.

Definition finalizer : string := Group +:+ "/finalizer".

(** ** What the syncs keep of the resource *)

Section Keeps.
Context {P Sh B : Type} (f : P -> B).

Definition keeps : relation (Reconcile P Sh) := fun s s' => f (parent s') = f (parent s).

#[export] Instance keeps_preorder : PreOrder keeps.
Proof. split; unfold keeps; [done|]. intros s1 s2 s3. congruence. Qed.

Lemma keeps_io {A : Type} (m : IO A) : within keeps (io m).
Proof. apply (within_zoom (fun _ _ => True)); [|by intros w]. done. Qed.

Lemma keeps_set_parent g : (forall p, f (g p) = f p) -> within keeps (set_parent g).
Proof. intros H s. apply H. Qed.

Lemma keeps_set_stash g : within keeps (set_stash g).
Proof. by intros s. Qed.

Lemma keeps_on_heap {A : Type} (g : arrays -> A * arrays) : within keeps (on_heap g).
Proof. intros s. unfold on_heap, keeps. by destruct (g (heap s)). Qed.

Lemma keeps_clean_root : within keeps clean_root.
Proof.
  intros s. unfold clean_root, mbind, M_bind, gets, keeps. by destruct (IsAbs (httpRootDir s)).
Qed.

Lemma keeps_http_error inner code u n o :
  (forall p, f (u p) = f p) -> (forall p, f (n p) = f p) -> (forall p, f (o p) = f p) ->
  within keeps (http_error inner code u n o).
Proof.
  intros. unfold http_error. repeat case_decide; repeat case_match;
    first [by apply keeps_set_parent | apply within_throw; apply _].
Qed.
End Keeps.

#[export] Hint Resolve keeps_set_stash keeps_on_heap keeps_clean_root : src.

(** Follow a sync; every update of the resource is a change of its status. *)
Ltac keeps_auto :=
  lazymatch goal with
  | |- within (keeps _) (mbind _ _) => apply within_bind; [apply _|keeps_auto|intros; keeps_auto]
  | |- within (keeps _) (try _) => apply within_try; keeps_auto
  | |- within (keeps _) (defer _ _) => apply within_defer; [apply _|keeps_auto|keeps_auto]
  | |- within (keeps _) (io _) => apply keeps_io
  | |- within (keeps _) (set_parent _) => apply keeps_set_parent; done
  | |- within (keeps _) (http_error _ _ _ _ _) => apply keeps_http_error; done
  | |- within (keeps _) (mret _) => apply within_ret; apply _
  | |- within (keeps _) (throw _) => apply within_throw; apply _
  | |- within (keeps _) (panic _) => apply within_panic; apply _
  | |- within (keeps _) (gets _) => apply within_gets; apply _
  | |- within (keeps _) (of_sum _) => apply within_of_sum; apply _
  | |- within (keeps _) (match ?x with _ => _ end) => destruct x; keeps_auto
  | |- _ => try solve [auto with src typeclass_instances]
  end.

(** ** MavenArtifact *)

Section Maven.
Context {C : Type} `{CM : ConditionManager C}.
Context {Sh : Type} `{ST : Stash Sh stash_value}.
Context `{E : Env} `{X : Xml} `{T : TarGz} `{ZR : Zip} `{CK : Clock}.
Abbreviation RS := (Reconcile (MavenArtifact C) Sh).
Abbreviation desired := (fun p : MavenArtifact C => (Meta p, Spec p)).

Lemma keeps_SecretsSync certs : within (keeps (Sh := Sh) desired) (SecretsSync certs).
Proof. unfold SecretsSync, stash_client, reconcile_certs. keeps_auto. Qed.

Lemma keeps_run_Resolve mr (ctx : Ctx Sh) client : within (keeps desired) (run_Resolve mr ctx client).
Proof. intros s. unfold run_Resolve. by destruct (Resolve ctx client _) as [[[]|e|w] rs]. Qed.

Lemma keeps_VersionSync : within (keeps (Sh := Sh) desired) VersionSync.
Proof.
  unfold VersionSync, resolve_failed. keeps_auto; try apply keeps_run_Resolve.
  all: repeat case_decide; keeps_auto; apply keeps_run_Resolve.
Qed.

Lemma keeps_DownloadSync host : within (keeps (Sh := Sh) desired) (DownloadSync host).
Proof.
  unfold DownloadSync, fetch_checksum, checksum_failed, fetch_and_publish, fetch_artifact, artifact_failed,
    unpack, publish. keeps_auto.
Qed.

Lemma deleted_kept (m : M RS unit) s :
  within (keeps desired) m -> being_deleted s = false -> being_deleted (m s).2 = false.
Proof. intros H. specialize (H s). injection H as HM _. unfold being_deleted. by rewrite HM. Qed.

Context `{RC : Reconcilers} `{RL : !ReconcilerLaws}.

(** The syncs of a resource that is not being deleted. *)
Definition maven_syncs (host : string) (certs : slice) : M RS Result :=
  _ ← SecretsSync certs; _ ← VersionSync; _ ← DownloadSync host; IntervalSync.

Lemma maven_adds host certs s :
  being_deleted s = false ->
  MavenArtifactReconciler host certs s = (_ ← AddFinalizer finalizer; maven_syncs host certs) s.
Proof.
  intros Hs. unfold MavenArtifactReconciler, maven_syncs. rewrite with_finalizer_live by done. fold finalizer.
  apply (bind_step (fun s => being_deleted s = false)); [done| |intros s0 H0; by destruct (add_finalizer_quiet finalizer s0) as [-> _]].
  intros s0 _ H0.
  rewrite (sequence_step _ (SecretsSync certs)) by by apply run_sync_live.
  apply (bind_step (fun s => being_deleted s = false)); [done| |intros; by apply deleted_kept, H; apply keeps_SecretsSync].
  intros s1 _ H1. rewrite (sequence_step _ VersionSync) by by apply run_sync_live.
  apply (bind_step (fun s => being_deleted s = false)); [done| |intros; by apply deleted_kept, H; apply keeps_VersionSync].
  intros s2 _ H2. rewrite (sequence_step _ (DownloadSync host)) by by apply run_sync_live_finalizer.
  apply (bind_step (fun s => being_deleted s = false)); [done| |intros; by apply deleted_kept, H; apply keeps_DownloadSync].
  intros s3 _ H3. rewrite sequence_last. by apply run_sync_result.
Qed.

Lemma maven_clears host certs s :
  being_deleted s = true ->
  MavenArtifactReconciler host certs s = (_ ← DownloadFinalize; _ ← ClearFinalizer finalizer; mret zero_result) s.
Proof.
  intros Hs. unfold MavenArtifactReconciler, MavenArtifactSecretsSyncReconciler,
    MavenArtifactVersionSyncReconciler.
    rewrite with_finalizer_deleted by done. fold finalizer. unfold mbind, M_bind at 1.
  do 2 (rewrite sequence_skip; [|done]).
  rewrite (sequence_step _ DownloadFinalize) by by rewrite run_sync_deleted.
  unfold mbind, M_bind. destruct (DownloadFinalize s) as [[[]|e|w] s1] eqn:Ef; [|done|done].
  rewrite sequence_last, run_sync_deleted; [done|].
  assert (within (keeps desired) (DownloadFinalize (Sh := Sh))) as Hk by (unfold DownloadFinalize; keeps_auto).
  specialize (Hk s). rewrite Ef in Hk. injection Hk as HM _. unfold being_deleted in *. simpl in HM. by rewrite HM.
Qed.

Lemma maven_live host certs s :
  being_deleted s = false ->
  (exists e, MavenArtifactReconciler host certs s = (Fail e, s)) \/ MavenArtifactReconciler host certs s = maven_syncs host certs s.
Proof. intros Hs. rewrite maven_adds by done. apply add_first. Qed.

Lemma maven_live_Ret host certs s r s' :
  being_deleted s = false -> MavenArtifactReconciler host certs s = (Ret r, s') -> maven_syncs host certs s = (Ret r, s').
Proof. intros Hs H. destruct (maven_live host certs s Hs) as [[e He]|He]; congruence. Qed.

Lemma maven_deleted host certs s :
  being_deleted s = true ->
  exists o, MavenArtifactReconciler host certs s = (o, (DownloadFinalize s).2) /\
    is_panic o = is_panic (DownloadFinalize s).1 /\ forall r, o = Ret r -> (DownloadFinalize s).1 = Ret tt /\ r = zero_result.
Proof. intros Hs. rewrite maven_clears by done. apply clear_last. Qed.

(** What holds of the syncs and of the finalizer holds of the reconciler. *)
Lemma within_maven (Q : relation RS) `{!PreOrder Q} host certs :
  within Q (maven_syncs host certs) -> within Q DownloadFinalize -> within Q (MavenArtifactReconciler host certs).
Proof.
  intros Hs Hf s. destruct (being_deleted s) eqn:Hd.
  - destruct (maven_deleted host certs s Hd) as (o & -> & _). apply Hf.
  - destruct (maven_live host certs s Hd) as [[e ->]| ->]; [done|apply Hs].
Qed.

(** A successful reconcile is run again after the interval of the spec. *)
Lemma maven_requeue host certs s r s' :
  being_deleted s = false -> MavenArtifactReconciler host certs s = (Ret r, s') ->
  r = mkResult (Interval (Spec (parent s))).
Proof.
  intros Hs H. apply maven_live_Ret in H; [|done]. unfold maven_syncs in H. do 3 inv_bind H.
  pose proof (keeps_SecretsSync certs s) as H1. pose proof (keeps_VersionSync st) as H2.
  pose proof (keeps_DownloadSync host st0) as H3. rewrite Hstep, Hstep0, Hstep1 in *.
  inv_bind H. injection Hstep2 as <- <-. injection H as <- _.
  unfold keeps in *. simpl in *. congruence.
Qed.
End Maven.

(** ** ImageRepository *)

Section Image.
Context {C : Type} `{CM : ConditionManager C}.
Context {Sh : Type} `{ST : Stash Sh stash_value}.
Context `{E : Env} `{T : TarGz} `{CK : Clock} `{RG : Registry}.
Abbreviation RS := (Reconcile (ImageRepository C) Sh).
Abbreviation desired := (fun p : ImageRepository C => (ir_Meta p, ir_Spec p)).

Lemma keeps_TransportSync certs : within (keeps (Sh := Sh) desired) (TransportSync certs).
Proof. unfold TransportSync. keeps_auto. Qed.

Lemma keeps_get_secrets ns names : within (keeps (Sh := Sh) desired) (get_secrets ns names).
Proof. induction names as [|n names IH]; simpl; keeps_auto; done. Qed.

Lemma keeps_ImagePullSecretsSync : within (keeps (Sh := Sh) desired) ImagePullSecretsSync.
Proof. unfold ImagePullSecretsSync. keeps_auto. apply keeps_get_secrets. Qed.

Lemma keeps_ImageDigestSync : within (keeps (Sh := Sh) desired) ImageDigestSync.
Proof. unfold ImageDigestSync. keeps_auto. Qed.

Lemma keeps_PullImageSync host : within (keeps (Sh := Sh) desired) (PullImageSync host).
Proof. unfold PullImageSync, mark_skipped, pull_and_publish, image_publish. keeps_auto. Qed.

Lemma image_deleted_kept (m : M RS unit) s :
  within (keeps desired) m -> image_being_deleted s = false -> image_being_deleted (m s).2 = false.
Proof. intros H. specialize (H s). injection H as HM _. unfold image_being_deleted. by rewrite HM. Qed.

Context `{RC : Reconcilers} `{RL : !ReconcilerLaws}.

Definition image_syncs (host : string) (certs : slice) : M RS Result :=
  _ ← TransportSync certs; _ ← ImagePullSecretsSync; _ ← ImageDigestSync; _ ← PullImageSync host;
  ImageIntervalSync.

Lemma image_adds host certs s :
  image_being_deleted s = false ->
  ImageRepositoryReconciler host certs s = (_ ← AddFinalizer finalizer; image_syncs host certs) s.
Proof.
  intros Hs. unfold ImageRepositoryReconciler, image_syncs. rewrite with_finalizer_live by done. fold finalizer.
  apply (bind_step (fun s => image_being_deleted s = false)); [done| |intros s0 H0; by destruct (add_finalizer_quiet finalizer s0) as [-> _]].
  intros s0 _ H0.
  rewrite (sequence_step _ (TransportSync certs)) by by apply run_sync_live.
  apply (bind_step (fun s => image_being_deleted s = false));
    [done| |intros; by apply image_deleted_kept, H; apply keeps_TransportSync].
  intros s1 _ H1. rewrite (sequence_step _ ImagePullSecretsSync) by by apply run_sync_live.
  apply (bind_step (fun s => image_being_deleted s = false));
    [done| |intros; by apply image_deleted_kept, H; apply keeps_ImagePullSecretsSync].
  intros s2 _ H2. rewrite (sequence_step _ ImageDigestSync) by by apply run_sync_live.
  apply (bind_step (fun s => image_being_deleted s = false));
    [done| |intros; by apply image_deleted_kept, H; apply keeps_ImageDigestSync].
  intros s3 _ H3. rewrite (sequence_step _ (PullImageSync host)) by by apply run_sync_live_finalizer.
  apply (bind_step (fun s => image_being_deleted s = false));
    [done| |intros; by apply image_deleted_kept, H; apply keeps_PullImageSync].
  intros s4 _ H4. rewrite sequence_last. by apply run_sync_result.
Qed.

Lemma image_clears host certs s :
  image_being_deleted s = true ->
  ImageRepositoryReconciler host certs s = (_ ← PullImageFinalize; _ ← ClearFinalizer finalizer; mret zero_result) s.
Proof.
  intros Hs. unfold ImageRepositoryReconciler, ImageRepositoryTransportSyncReconciler,
    ImageRepositoryImagePullSecretsSyncReconciler, ImageRepositoryImageDigestSyncReconciler.
    rewrite with_finalizer_deleted by done. fold finalizer. unfold mbind, M_bind at 1.
  do 3 (rewrite sequence_skip; [|done]).
  rewrite (sequence_step _ PullImageFinalize) by by rewrite run_sync_deleted.
  unfold mbind, M_bind. destruct (PullImageFinalize s) as [[[]|e|w] s1] eqn:Ef; [|done|done].
  rewrite sequence_last, run_sync_deleted; [done|].
  assert (within (keeps desired) (PullImageFinalize (Sh := Sh))) as Hk by (unfold PullImageFinalize; keeps_auto).
  specialize (Hk s). rewrite Ef in Hk. injection Hk as HM _. unfold image_being_deleted in *. simpl in HM. by rewrite HM.
Qed.

Lemma image_live host certs s :
  image_being_deleted s = false ->
  (exists e, ImageRepositoryReconciler host certs s = (Fail e, s)) \/ ImageRepositoryReconciler host certs s = image_syncs host certs s.
Proof. intros Hs. rewrite image_adds by done. apply add_first. Qed.

Lemma image_live_Ret host certs s r s' :
  image_being_deleted s = false -> ImageRepositoryReconciler host certs s = (Ret r, s') -> image_syncs host certs s = (Ret r, s').
Proof. intros Hs H. destruct (image_live host certs s Hs) as [[e He]|He]; congruence. Qed.

Lemma image_deleted host certs s :
  image_being_deleted s = true ->
  exists o, ImageRepositoryReconciler host certs s = (o, (PullImageFinalize s).2) /\
    is_panic o = is_panic (PullImageFinalize s).1 /\ forall r, o = Ret r -> (PullImageFinalize s).1 = Ret tt /\ r = zero_result.
Proof. intros Hs. rewrite image_clears by done. apply clear_last. Qed.

(** What holds of the syncs and of the finalizer holds of the reconciler. *)
Lemma within_image (Q : relation RS) `{!PreOrder Q} host certs :
  within Q (image_syncs host certs) -> within Q PullImageFinalize -> within Q (ImageRepositoryReconciler host certs).
Proof.
  intros Hs Hf s. destruct (image_being_deleted s) eqn:Hd.
  - destruct (image_deleted host certs s Hd) as (o & -> & _). apply Hf.
  - destruct (image_live host certs s Hd) as [[e ->]| ->]; [done|apply Hs].
Qed.

Lemma image_requeue host certs s r s' :
  image_being_deleted s = false -> ImageRepositoryReconciler host certs s = (Ret r, s') ->
  r = mkResult (ir_Interval (ir_Spec (parent s))).
Proof.
  intros Hs H. apply image_live_Ret in H; [|done]. unfold image_syncs in H. do 4 inv_bind H.
  pose proof (keeps_TransportSync certs s) as H1. pose proof (keeps_ImagePullSecretsSync st) as H2.
  pose proof (keeps_ImageDigestSync st0) as H3. pose proof (keeps_PullImageSync host st1) as H4.
  rewrite Hstep, Hstep0, Hstep1, Hstep2 in *. inv_bind H. injection Hstep3 as <- <-. injection H as <- _.
  unfold keeps in *. simpl in *. congruence.
Qed.
End Image.
