(* ===== verification/MavenReconcileFacts.v ===== *)
(** * A reconcile of a MavenArtifact, from secrets to status

    What each sync leaves for the next one, and what holds of the resource
    and the disk when the whole reconcile returns without an error. *)

From S2P Require Import Prelude GoStrings GoPath GoErrors Effects World GoOS GoOSFacts Sha1.
From S2P Require Import Runtime ApiTypes MavenMetadata Http Transport Stashes ArtifactFiles.
From S2P Require Import ArtifactFilesFacts MavenDownload MavenResolver Reconcile Frames Steps.
From S2P Require Import MavenArtifactController ImageRepositoryController MavenFacts MavenPublish.
From S2P Require Import ImageFacts PanicFacts Composition.

Lemma slice_ok_prefix h h' s :
  slice_ok h s -> h `prefix_of` h' -> slice_ok h' s /\ elements h' s = elements h s.
Proof.
  intros (a & Ha & Hc & Hl) [l ->]. split.
  - exists a. split; [|done]. by apply lookup_app_l_Some.
  - unfold elements. rewrite !list_lookup_total_alt, Ha. by rewrite (lookup_app_l_Some _ _ _ _ Ha).
Qed.

(** A resolution leaves the disk alone. *)
Section Disk.
Context {Sh : Type} `{ST : Stash Sh stash_value} `{E : Env} `{X : Xml}.
Context (R : relation fsmap) `{!PreOrder R}.

Lemma within_assign f : within (on_fs (S := ResolverState) R) (assign f).
Proof. intros s. unfold assign, modify, on_fs. simpl. done. Qed.

Hint Resolve within_assign within_downloadMetadata : src.

Lemma within_finish dv : within (on_fs R) (finish dv).
Proof. unfold finish. within_auto. Qed.

Hint Resolve within_finish : src.

Lemma within_Resolve (ctx : Ctx Sh) client : within (on_fs R) (Resolve ctx client).
Proof.
  unfold Resolve, processReleaseVersion, processLatestVersion, processSnapshotVersion, processFixedVersion.
  within_auto.
Qed.
End Disk.

Section Maven.
Context {C : Type} `{CM : ConditionManager C, CL : !ConditionLaws C}.
Context {Sh : Type} `{ST : Stash Sh stash_value, SL : !StashLaws Sh stash_value}.
Context `{E : Env} `{X : Xml} `{T : TarGz} `{ZR : Zip} `{CK : Clock}.
Abbreviation RS := (Reconcile (MavenArtifact C) Sh).
Abbreviation resolved := MavenArtifactConditionArtifactResolved.
Abbreviation available := MavenArtifactConditionArtifactAvailable.

(** ** Secrets *)

(** The certificates a secret adds. *)
Definition tenant_certs (a : Secret) : list Cert :=
  match Data a with Some _ => [raw_cert (data_entry a "caFile")] | None => [] end.

Lemma reconcile_certs_run certs a (s : RS) :
  slice_ok (heap s) certs ->
  exists rc h, reconcile_certs certs a s =
      (Ret rc, mkReconcile (parent s) (stash s) (world s) (httpRootDir s) h) /\
    heap s `prefix_of` h /\ elements h rc = elements (heap s) certs ++ tenant_certs a.
Proof.
  intros Hok. unfold reconcile_certs, tenant_certs. destruct (Data a) as [d|].
  - unfold on_heap. pose proof (with_cert_spec certs (raw_cert (data_entry a "caFile")) (heap s) Hok) as H.
    destruct (with_cert _ _ _) as [rc h]. destruct H as [H1 H2]. exists rc, h. done.
  - exists certs, (heap s). rewrite app_nil_r. by destruct s.
Qed.

(** The roots of the client come from the configured certificates and this
    secret, and from nothing else; the configured ones stay as they are. *)
Lemma stash_client_Ret certs a (s s' : RS) :
  slice_ok (heap s) certs -> stash_client certs a s = (Ret tt, s') ->
  parent s' = parent s /\ httpRootDir s' = httpRootDir s /\ heap s `prefix_of` heap s' /\
  w_fs (world s') = w_fs (world s) /\
  exists t, newTransport (elements (heap s) certs ++ tenant_certs a) (world s) = (Ret t, world s') /\
    stash s' = stashHttpClient (mkHttpClient t sameHostRedirectPolicy) (stash s).
Proof.
  intros Hok H. unfold stash_client in H. destruct (reconcile_certs_run certs a s Hok) as (rc & h & Hr & Hp & Hel).
  unfold mbind, M_bind at 1 in H. rewrite Hr in H. inv_bind H. injection Hstep as <- <-.
  inv_bind H. apply io_Ret in Hstep as (w & Hw & ->). simpl in Hw. rewrite Hel in Hw.
  unfold set_stash, modify in H. injection H as <-. simpl. repeat split; [done| |by eexists].
  pose proof (within_newTransport eq (elements (heap s) certs ++ tenant_certs a) (world s)) as Hq.
  rewrite Hw in Hq. symmetry. exact Hq.
Qed.

Lemma SecretsSync_Ret certs (s s' : RS) :
  let name := SecretRef (ma_Repository (Spec (parent s))) in
  slice_ok (heap s) certs -> SecretsSync certs s = (Ret tt, s') ->
  httpRootDir s' = httpRootDir s /\ heap s `prefix_of` heap s' /\ w_fs (world s') = w_fs (world s) /\
  ((stash s' = stash s /\ marked_false resolved (parent s) (parent s')) \/
   (exists a t w w', parent s' = parent s /\
      (if decide (name = "") then a = mkSecret "" None
       else kube_Secret (w_tick (world s)) (Namespace (Meta (parent s))) name = inl a) /\
      newTransport (elements (heap s) certs ++ tenant_certs a) w = (Ret t, w') /\
      stash s' = stashHttpClient (mkHttpClient t sameHostRedirectPolicy)
                   (if decide (name = "") then stash s else stashAuthSecret a (stash s)))).
Proof.
  intros name Hok H. unfold SecretsSync in H. inv_bind H. injection Hstep as <- <-. fold name in H.
  destruct (decide (name = "")) as [Hn|Hn].
  - rewrite decide_False in H by naive_solver.
    apply stash_client_Ret in H as (Hp & Hr & Hh & Hfs & t & Ht & Hst); [|done].
    split; [done|]. split; [done|]. split; [done|]. right. exists (mkSecret "" None), t, (world s), (world s'). done.
  - rewrite decide_True in H by done. inv_bind H. apply try_io_Ret in Hstep as (w & -> & Hget).
    assert (w_fs w = w_fs (world s)) as Hfs.
    { destruct v; unfold TrackAndGet_Secret, mbind, M_bind, track, ask in Hget; simpl in Hget;
        destruct (kube_Secret _ _ _); by injection Hget as _ <-. }
    destruct v as [a|e].
    + assert (kube_Secret (w_tick (world s)) (Namespace (Meta (parent s))) name = inl a) as Ha.
      { unfold TrackAndGet_Secret, mbind, M_bind, track, ask in Hget. simpl in Hget.
        destruct (kube_Secret _ _ _); [|done]. by injection Hget as <- _. }
      inv_bind H. injection Hstep as _ <-.
      apply stash_client_Ret in H as (Hp & Hr & Hh & Hfs' & t & Ht & Hst); [|done].
      split; [done|]. split; [done|]. split; [by rewrite Hfs'|]. right. by eauto 10.
    + destruct (apierrs_IsNotFound e); [|done]. injection H as <-.
      split; [done|]. split; [done|]. split; [done|]. left. split; [done|]. unfold marked_false. eauto.
Qed.

(** ** Version *)

Definition marked_true (t : string) (p p' : MavenArtifact C) : Prop :=
  exists reason format args, p' = ma_MarkTrue t reason format args p.

(** The details a resolution stashes. *)
Definition resolved_info (p : MavenArtifact C) (info : ArtifactDetails) : Prop :=
  normal (ResolvedFileName info) /\
  exists u v, url_Parse (Repository_URL (ma_Repository (Spec p))) = inl u /\ Scheme u = "https" /\
    ResolvedFileName info = artifact_filename (ma_Artifact (Spec p)) v /\
    ArtifactDownloadURL info =
      Sprintf "%s/%s/%s/%s"
        [URL_String u;
         ReplaceAll (GroupId (ma_Artifact (Spec p))) "." "/" +:+ "/" +:+ ArtifactId (ma_Artifact (Spec p));
         ArtifactVersion info; ResolvedFileName info].

Lemma run_Resolve_Ret mr (ctx : Ctx Sh) client (s : RS) r s' :
  run_Resolve mr ctx client s = (Ret r, s') ->
  parent s' = parent s /\ stash s' = stash s /\ httpRootDir s' = httpRootDir s /\ heap s' = heap s /\
  w_fs (world s') = w_fs (world s) /\ (r.1 = None -> resolved_from mr r.2).
Proof.
  unfold run_Resolve. pose proof (Resolve_Ret ctx client (mkResolverState (world s) mr)) as HR.
  pose proof (within_Resolve eq ctx client (mkResolverState (world s) mr)) as Hfs.
  destruct (Resolve ctx client _) as [[[]|e|why] rs]; [| |done]; intros [= <- <-];
    (split; [done|]); (split; [done|]); (split; [done|]); (split; [done|]); (split; [by symmetry; exact Hfs|]).
  - intros _. by apply HR.
  - done.
Qed.

Lemma resolve_failed_Ret p e (s s' : RS) :
  resolve_failed p e s = (Ret tt, s') ->
  marked_false resolved (parent s) (parent s') /\
  s' = mkReconcile (parent s') (stash s) (world s) (httpRootDir s) (heap s).
Proof.
  assert (forall r f a, marked_false resolved (parent s) (ma_MarkFalse resolved r f a (parent s))) as Hm
    by (intros; unfold marked_false; eauto).
  unfold resolve_failed. destruct (errors_Is e _); [intros [= <-]; by split; [apply Hm|]|].
  destruct (as_downloadError e) as [[inner code]|]; [|intros [= <-]; by split; [apply Hm|]].
  unfold http_error, throw. repeat case_decide; repeat case_match; intros [= <-]; by split; [apply Hm|].
Qed.

Lemma VersionSync_Ret (s s' : RS) :
  VersionSync s = (Ret tt, s') ->
  httpRootDir s' = httpRootDir s /\ heap s' = heap s /\ w_fs (world s') = w_fs (world s) /\
  match retrieveHttpClient (stash s) with
  | None => s' = s
  | Some _ =>
      (stash s' = stash s /\ marked_false resolved (parent s) (parent s')) \/
      exists info, stash s' = stashArtifactVersion info (stash s) /\ resolved_info (parent s) info /\
        marked_true resolved (parent s) (parent s')
  end.
Proof.
  assert (forall r f a, marked_false resolved (parent s) (ma_MarkFalse resolved r f a (parent s))) as Hm
    by (intros; unfold marked_false; eauto).
  unfold VersionSync. intros H. inv_bind H. injection Hstep as <- <-.
  destruct (retrieveHttpClient (stash s)) as [client|]; [|by injection H as <-].
  inv_bind H. injection Hstep as <- <-.
  destruct (Timeout (Spec (parent s))) as [timeout|]; [|done].
  destruct (url_Parse _) as [u|e] eqn:Eu; [|injection H as <-; do 3 (split; [done|]); left; split; [done|]; simpl; apply Hm].
  case_decide as Hs; [injection H as <-; do 3 (split; [done|]); left; split; [done|]; simpl; apply Hm|].
  inv_bind H. apply run_Resolve_Ret in Hstep as (Hp & Hst & Hr & Hh & Hfs & Hres).
  destruct v as [[e|] mr].
  - apply resolve_failed_Ret in H as [Hf ->]. simpl. rewrite Hp in Hf. rewrite Hst. do 3 (split; [done|]). by left.
  - destruct (Hres eq_refl) as (Hn & Hfile & Hurl & _). simpl in *.
    unfold mbind, M_bind, set_parent, set_stash, modify in H. injection H as <-. simpl.
    rewrite Hp, Hst. split; [done|]. split; [done|]. split; [done|]. right. eexists. split; [done|].
    split; [|unfold marked_true; eauto]. split; [done|]. exists u, (ResolvedVersion mr).
    split; [done|]. split; [by destruct (decide (Scheme u = "https"))|]. split; [done|exact Hurl].
Qed.

(** ** The whole reconcile *)

(** What a reconcile that returns without an error has done. *)
Inductive maven_result (host root : string) (p p' : MavenArtifact C) (fs fs' : fsmap) : Prop :=
| maven_unresolved : marked_false resolved p p' -> fs' = fs -> maven_result host root p p' fs fs'
| maven_downloaded info p1 : resolved_info p info -> marked_true resolved p p1 ->
    download_result host root info p1 p' fs' -> maven_result host root p p' fs fs'.

Lemma DownloadSync_no_version host (s : RS) :
  retrieveArtifactVersion (stash s) = None -> DownloadSync host s = (Ret tt, s).
Proof. intros H. unfold DownloadSync, mbind, M_bind, gets. by rewrite H. Qed.

Lemma maven_syncs_Ret host certs (s : RS) r s' :
  let own := at_path (mavenDir (httpRootDir s) (Meta (parent s))) in
  (forall t, env_fault t = None) -> stash s = empty_stash -> slice_ok (heap s) certs ->
  fs_wf (w_fs (world s)) -> meta_ok (Meta (parent s)) -> apart own -> flat (w_fs (world s)) own ->
  maven_syncs host certs s = (Ret r, s') ->
  maven_result host (httpRootDir s) (parent s) (parent s') (w_fs (world s)) (w_fs (world s')).
Proof.
  intros own Hnf Hst Hok Hwf Hm Hap Hflat H. unfold maven_syncs in H.
  inv_bind H. inv_bind H. inv_bind H. inv_bind H. injection Hstep2 as <- <-. injection H as _ <-.
  repeat match goal with v : unit |- _ => destruct v end.
  apply SecretsSync_Ret in Hstep as (Hr1 & _ & Hfs1 & Hs); [|done].
  apply VersionSync_Ret in Hstep0 as (Hr2 & _ & Hfs2 & Hv).
  destruct Hs as [[Hst1 Hmark]|(a & t & w & w' & Hp1 & _ & _ & Hst1)].
  { rewrite Hst1, Hst in Hv. autorewrite with stash in Hv. subst st0.
    rewrite DownloadSync_no_version in Hstep1 by (rewrite Hst1, Hst; by autorewrite with stash).
    injection Hstep1 as <-. by apply maven_unresolved. }
  rewrite Hst1 in Hv. autorewrite with stash in Hv. rewrite Hp1 in Hv.
  assert (retrieveArtifactVersion (stash st) = None) as Hnone.
  { rewrite Hst1. case_decide; autorewrite with stash; rewrite Hst; by autorewrite with stash. }
  destruct Hv as [[Hst2 Hmark]|(info & Hst2 & Hinfo & Hmark)].
  { rewrite DownloadSync_no_version in Hstep1 by congruence.
    injection Hstep1 as <-. apply maven_unresolved; [done|congruence]. }
  assert (Meta (parent st0) = Meta (parent s)) as Hmeta by (by destruct Hmark as (? & ? & ? & ->)).
  assert (retrieveArtifactVersion (stash st0) = Some info) as Hget by (rewrite Hst2; by autorewrite with stash).
  assert (exists client, retrieveHttpClient (stash st0) = Some client) as [client Hcl]
    by (rewrite Hst2, ?Hst1; autorewrite with stash; by eexists).
  apply (DownloadSync_Ret host info client) in Hstep1; rewrite ?Hmeta, ?Hr2, ?Hr1, ?Hfs2, ?Hfs1; try done.
  - rewrite Hr2, Hr1 in Hstep1. by apply (maven_downloaded _ _ _ _ _ _ info (parent st0)).
  - by destruct Hinfo.
  - destruct Hmark as (? & ? & ? & ->). by apply ma_status_MarkTrue.
Qed.
End Maven.
