(* ===== verification/ImageReconcileFacts.v ===== *)
(** * A reconcile of an ImageRepository, from transport to status

    What each sync leaves for the next one, and what holds of the resource
    and the disk when the whole reconcile returns without an error. *)

From S2P Require Import Prelude GoStrings GoPath GoErrors Effects World GoOS GoOSFacts Sha1.
From S2P Require Import Runtime ApiTypes Http Transport Stashes ArtifactFiles.
From S2P Require Import ArtifactFilesFacts Reconcile Frames Steps ImageRepositoryController.
From S2P Require Import MavenFacts MavenPublish ImageFacts Composition.

Section Image.
Context {C : Type} `{CM : ConditionManager C, CL : !ConditionLaws C}.
Context {Sh : Type} `{ST : Stash Sh stash_value, SL : !StashLaws Sh stash_value}.
Context `{E : Env} `{T : TarGz} `{CK : Clock} `{RG : Registry} `{RL : !RegistryLaws}.
Abbreviation RS := (Reconcile (ImageRepository C) Sh).
Abbreviation resolved := ImageRepositoryConditionImageResolved.
Abbreviation available := ImageRepositoryConditionArtifactAvailable.

(** The resource as it was, or with the image marked as unresolved. *)
Definition maybe_unresolved (p p' : ImageRepository C) : Prop :=
  p' = p \/ exists reason format args, p' = ir_MarkFalse resolved reason format args p.

Lemma TransportSync_Ret certs (s s' : RS) :
  TransportSync certs s = (Ret tt, s') ->
  parent s' = parent s /\ httpRootDir s' = httpRootDir s /\ w_fs (world s') = w_fs (world s) /\
  exists t, newTransport (elements (heap s) certs) (world s) = (Ret t, world s') /\
    stash s' = StashHttpRoundTripper t (stash s).
Proof.
  intros H. unfold TransportSync in H. inv_bind H. injection Hstep as <- <-.
  inv_bind H. apply io_Ret in Hstep as (w & Hw & ->). unfold set_stash, modify in H. injection H as <-. simpl.
  split; [done|]. split; [done|]. split; [|by eexists].
  pose proof (within_newTransport eq (elements (heap s) certs) (world s)) as Hq.
  rewrite Hw in Hq. symmetry. exact Hq.
Qed.

Lemma fs_Secret ns n w : w_fs (TrackAndGet_Secret ns n w).2 = w_fs w.
Proof. unfold TrackAndGet_Secret, mbind, M_bind, track, ask. simpl. by destruct (kube_Secret _ _ _). Qed.

Lemma fs_ServiceAccount ns n w : w_fs (TrackAndGet_ServiceAccount ns n w).2 = w_fs w.
Proof. unfold TrackAndGet_ServiceAccount, mbind, M_bind, track, ask. simpl. by destruct (kube_ServiceAccount _ _ _). Qed.

(** Every secret is read, in order, or the first that is missing is reported. *)
Lemma get_secrets_Ret ns names (s s' : RS) o :
  get_secrets ns names s = (Ret o, s') ->
  stash s' = stash s /\ httpRootDir s' = httpRootDir s /\ w_fs (world s') = w_fs (world s) /\
  match o with
  | Some l => parent s' = parent s /\ Forall2 (fun n x => exists t, kube_Secret t ns n = inl x) names l
  | None => exists reason format args, parent s' = ir_MarkFalse resolved reason format args (parent s)
  end.
Proof.
  revert s o s'. induction names as [|n names IH]; intros s o s' H; simpl in H.
  - injection H as <- <-. repeat split. constructor.
  - inv_bind H. apply try_io_Ret in Hstep as (w & -> & Hget).
    pose proof (fs_Secret ns n (world s)) as Hfs. destruct v as [x|e]; rewrite Hget in Hfs; simpl in Hfs.
    + assert (kube_Secret (w_tick (world s)) ns n = inl x) as Hx.
      { unfold TrackAndGet_Secret, mbind, M_bind, track, ask in Hget. simpl in Hget.
        destruct (kube_Secret _ _ _); [|done]. by injection Hget as <- _. }
      inv_bind H. apply IH in Hstep as (Hst & Hr & Hf & Hv). injection H as <- <-.
      cbn [stash httpRootDir world parent set_world reconcile_has_world] in *.
      split; [done|]. split; [done|]. split; [congruence|]. destruct v as [l|]; simpl; [|done].
      destruct Hv as [-> Hv]. split; [done|]. constructor; [eauto|done].
    + destruct (apierrs_IsNotFound e); [|done]. inv_bind H. injection Hstep as _ <-. injection H as <- <-.
      simpl. eauto 10.
Qed.

Lemma ImagePullSecretsSync_Ret (s s' : RS) :
  ImagePullSecretsSync s = (Ret tt, s') ->
  httpRootDir s' = httpRootDir s /\ w_fs (world s') = w_fs (world s) /\
  RetrieveImageRef (stash s') = RetrieveImageRef (stash s) /\ maybe_unresolved (parent s) (parent s').
Proof.
  unfold ImagePullSecretsSync. intros H. inv_bind H. injection Hstep as <- <-.
  inv_bind H. apply try_io_Ret in Hstep as (w & -> & Hget).
  match type of Hget with context [TrackAndGet_ServiceAccount ?a ?b ?c] =>
    pose proof (fs_ServiceAccount a b c) as Hfs end.
  destruct v as [sa|e]; rewrite Hget in Hfs; simpl in Hfs.
  - inv_bind H. apply get_secrets_Ret in Hstep as (Hst & Hr & Hf & Hv).
    cbn [stash httpRootDir world parent set_world reconcile_has_world] in *.
    destruct v as [l|].
    + destruct Hv as [Hp _]. unfold set_stash, modify in H. injection H as <-. simpl. rewrite Hst, Hp.
      autorewrite with stash. split; [done|]. split; [congruence|]. split; [done|by left].
    + injection H as <-. rewrite Hst. split; [done|]. split; [congruence|]. split; [done|by right].
  - destruct (apierrs_IsNotFound e); [|done]. injection H as <-. simpl.
    split; [done|]. split; [done|]. split; [done|]. right. eauto.
Qed.

(** The reference the digest sync stashes pins the image of the spec. *)
Definition pinned (image ref : string) : Prop :=
  (ref = image /\ exists d, name_NewDigest image = inl d) \/
  (exists tag digest t transport keychain, name_NewTag image = inl tag /\
     remote_Head t tag transport keychain = inl digest /\ ref = Sprintf "%s@%s" [tag; digest]).

Lemma ImageDigestSync_Ret (s s' : RS) :
  ImageDigestSync s = (Ret tt, s') ->
  httpRootDir s' = httpRootDir s /\ w_fs (world s') = w_fs (world s) /\
  ((stash s' = stash s /\ maybe_unresolved (parent s) (parent s')) \/
   (parent s' = parent s /\ exists ref, pinned (Image (ir_Spec (parent s))) ref /\
      stash s' = StashImageRef ref (stash s))).
Proof.
  unfold ImageDigestSync. intros H. inv_bind H. injection Hstep as <- <-.
  destruct (name_NewDigest (Image (ir_Spec (parent s)))) as [d|e] eqn:Ed.
  - unfold set_stash, modify in H. injection H as <-. simpl. split; [done|]. split; [done|]. right.
    split; [done|]. eexists. split; [|done]. left. eauto.
  - inv_bind H. injection Hstep as <- <-.
    destruct (RetrieveImagePullSecrets (stash s)) as [secrets|];
      [|injection H as <-; split; [done|]; split; [done|]; left; by split; [|left]].
    inv_bind H. apply io_Ret in Hstep as (w & [= <- <-] & ->). inv_bind H.
    destruct (k8schain_NewFromPullSecrets _ _) as [k|e']; [|done]. injection Hstep as <- <-.
    destruct (name_NewTag _) as [tag|e'] eqn:Et.
    + inv_bind H. apply io_Ret in Hstep as (w & [= <- <-] & ->).
      destruct (remote_Head _ _ _ _) as [digest|e'] eqn:Eh; unfold set_stash, set_parent, modify in H;
        injection H as <-; simpl; (split; [done|]); (split; [done|]).
      * right. split; [done|]. eexists. split; [|done]. right. by eauto 10.
      * left. split; [done|]. right. eauto.
    + injection H as <-. simpl. split; [done|]. split; [done|]. left. split; [done|]. right. eauto.
Qed.

(** ** The whole reconcile *)

Definition image_result (host root : string) (p p' : ImageRepository C) (fs fs' : fsmap) : Prop :=
  exists p1, rtc maybe_unresolved p p1 /\
    ((p' = p1 /\ fs' = fs) \/
     exists ref, pinned (Image (ir_Spec p)) ref /\ pull_result host root ref p1 p' fs').

Lemma unresolved_Spec p p' : maybe_unresolved p p' -> ir_Spec p' = ir_Spec p /\ ir_Meta p' = ir_Meta p.
Proof. by intros [->|(? & ? & ? & ->)]. Qed.

Lemma image_syncs_Ret host certs (s : RS) r s' :
  let own := at_path (imageDir (httpRootDir s) (ir_Meta (parent s))) in
  (forall t, env_fault t = None) -> stash s = empty_stash ->
  meta_ok (ir_Meta (parent s)) -> apart own -> flat (w_fs (world s)) own ->
  image_syncs host certs s = (Ret r, s') ->
  image_result host (httpRootDir s) (parent s) (parent s') (w_fs (world s)) (w_fs (world s')).
Proof.
  intros own Hnf Hst Hm Hap Hflat H. unfold image_syncs in H.
  do 5 inv_bind H. injection Hstep3 as <- <-. injection H as _ <-.
  repeat match goal with v : unit |- _ => destruct v end.
  apply TransportSync_Ret in Hstep as (Hp1 & Hr1 & Hf1 & t & _ & Hst1).
  apply ImagePullSecretsSync_Ret in Hstep0 as (Hr2 & Hf2 & Hst2 & Hp2).
  apply ImageDigestSync_Ret in Hstep1 as (Hr3 & Hf3 & Hd).
  rewrite Hst1, Hst in Hst2. autorewrite with stash in Hst2. rewrite Hp1 in Hp2.
  destruct (unresolved_Spec _ _ Hp2) as [Hs2 Hm2].
  destruct Hd as [[Hst3 Hp3]|(Hp3 & ref & Hpin & Hst3)].
  - unfold PullImageSync in Hstep2. inv_bind Hstep2. injection Hstep as <- <-.
    rewrite Hst3, Hst2, decide_True in Hstep2 by done. injection Hstep2 as <-.
    exists (parent st1). split; [|left; split; [done|congruence]]. by eapply rtc_l, rtc_once.
  - exists (parent st0). split; [by apply rtc_once|]. right. exists ref. rewrite <- Hs2. split; [done|].
    apply PullImageSync_Ret in Hstep2; rewrite ?Hp3, ?Hm2, ?Hr3, ?Hr2, ?Hr1 in *; try done.
    + rewrite Hst3 in Hstep2. by autorewrite with stash in Hstep2.
    + by rewrite Hf3, Hf2, Hf1.
Qed.
End Image.
