(* ===== verification/ErrorFacts.v ===== *)
(** * What a failing download does to the resource

    Error statuses of the repository, and the timeouts the controller means
    to report. *)

From S2P Require Import Prelude GoStrings GoPath GoErrors Effects World GoOS GoOSFacts Runtime.
From S2P Require Import ApiTypes MavenMetadata Http Transport Stashes ArtifactFiles.
From S2P Require Import MavenDownload MavenResolver Reconcile Frames Steps MavenArtifactController.
From S2P Require Import MavenFacts MavenPublish ImageRepositoryController ImageFacts Composition.

(** ** Resolution *)

Section Resolution.
Context {Sh : Type} `{ST : Stash Sh stash_value} `{E : Env} `{X : Xml}.

(** No failure of [Resolve] is a timeout for [errors.Is], provided those of
    the XML encoder are not. *)
Context (Hxml : forall m p i e, xml_MarshalIndent m p i = inr e -> opaque e).

Definition fails_opaque {S A : Type} (m : M S A) : Prop := forall s e s', m s = (Fail e, s') -> opaque e.

Lemma opaque_bind {S A B : Type} (m : M S A) (f : A -> M S B) :
  fails_opaque m -> (forall a, fails_opaque (f a)) -> fails_opaque (x ← m; f x).
Proof.
  intros Hm Hf s e s'. unfold mbind, M_bind. destruct (m s) as [[a|e1|w] s1] eqn:Em; [apply Hf| |done].
  intros [= <- _]. by eapply Hm.
Qed.

Lemma opaque_gets {S A : Type} (f : S -> A) : fails_opaque (gets f).
Proof. done. Qed.

Lemma opaque_assign f : fails_opaque (assign f).
Proof. done. Qed.

Lemma opaque_metadata (ctx : Ctx Sh) client url : fails_opaque (io (S := ResolverState) (downloadMetadata ctx client url)).
Proof.
  intros s e s'. unfold io, zoom, downloadMetadata, mbind, M_bind.
  destruct (download ctx url client (the_world s)) as [[d|e1|w] s1] eqn:Ed; [| |done].
  - destruct (Parse _); [done|]. intros [= <- _]. apply Errorf_opaque. vm_compute. set_solver.
  - intros [= <- _]. by apply download_Fail_opaque in Ed.
Qed.

Lemma opaque_finish dv : fails_opaque (finish dv).
Proof.
  unfold finish. apply opaque_bind; [done|]. intros _. apply opaque_bind; [done|]. intros _.
  apply opaque_bind; [done|]. intros r s e s'. unfold sanitizeFilename.
  destruct (_ || _); [|done]. by intros [= <- _].
Qed.

Hint Resolve opaque_gets opaque_assign opaque_metadata opaque_finish : opaque.

Ltac opaque_auto :=
  lazymatch goal with
  | |- fails_opaque (mbind _ _) => apply opaque_bind; [opaque_auto|intros; opaque_auto]
  | |- fails_opaque (match ?x with _ => _ end) => destruct x; opaque_auto
  | |- _ => try solve [auto with opaque]
  end.

Lemma opaque_snapshot (ctx : Ctx Sh) client : fails_opaque (processSnapshotVersion ctx client).
Proof. unfold processSnapshotVersion. opaque_auto. Qed.

Lemma Resolve_Fail_opaque (ctx : Ctx Sh) client : fails_opaque (Resolve ctx client).
Proof.
  pose proof (opaque_snapshot ctx client) as Hs.
  unfold Resolve, processReleaseVersion, processLatestVersion, processFixedVersion.
  opaque_auto; try done.
  - by intros s err s' [= <- _].
  - intros s err s'. unfold ReleaseVersion. case_decide; [|done]. by intros [= <- _].
  - intros s err s'. unfold LatestVersion. case_decide; [|done]. by intros [= <- _].
  - intros s err s'. destruct (xml_MarshalIndent _ _ _) eqn:Ex; [done|]. intros [= <- _]. by eapply Hxml.
Qed.
End Resolution.

(** ** Statuses *)

Section Maven.
Context {C : Type} `{CM : ConditionManager C, CL : !ConditionLaws C}.
Context {Sh : Type} `{ST : Stash Sh stash_value, SL : !StashLaws Sh stash_value}.
Context `{E : Env} `{X : Xml} `{T : TarGz} `{ZR : Zip} `{CK : Clock}.
Abbreviation RS := (Reconcile (MavenArtifact C) Sh).
Abbreviation resolved := MavenArtifactConditionArtifactResolved.
Abbreviation available := MavenArtifactConditionArtifactAvailable.

Lemma download_status (ctx : Ctx Sh) url c w req resp w1 :
  buildRequestObject ctx "GET" url (Some (basicAuthCredentialsFromSecret ctx)) = inl req ->
  Client_Do c req w = (Ret resp, w1) ->
  StatusCode resp < 200 \/ 300 <= StatusCode resp ->
  download ctx url c w = (Fail (status_error (StatusCode resp) url), w1).
Proof.
  intros Hb Hd Hc. unfold download. rewrite Hb. unfold mbind, M_bind, try. rewrite Hd.
  assert ((StatusCode resp <? 200) || (300 <=? StatusCode resp) = true) as ->; [|done].
  apply orb_true_iff. lia.
Qed.

(** A status that is worth another attempt. *)
Definition transient (code : Z) : bool := bool_decide (code = 429) || (500 <=? code).

Lemma http_error_transient inner code (u n o : MavenArtifact C -> MavenArtifact C) (s : RS) :
  transient code = true -> http_error inner code u n o s = (Fail inner, s).
Proof.
  unfold transient, http_error. intros H. case_decide; [done|].
  rewrite bool_decide_eq_false_2 in H by done. simpl in H. by rewrite H.
Qed.

Lemma http_error_permanent inner code (u n o : MavenArtifact C -> MavenArtifact C) (s : RS) :
  transient code = false ->
  exists f, f ∈ [u; n; o] /\ http_error inner code u n o s = set_parent f s.
Proof.
  unfold transient, http_error. intros [H1 H2]%orb_false_iff. apply bool_decide_eq_false in H1.
  rewrite decide_False, H2 by done.
  repeat case_decide; eexists; (split; [|done]); set_solver.
Qed.

(** What the checksum request comes to decides when it fails. *)
Lemma DownloadSync_fetch host (s : RS) info client timeout o s1 :
  retrieveArtifactVersion (stash s) = Some info -> retrieveHttpClient (stash s) = Some client ->
  Timeout (Spec (parent s)) = Some timeout ->
  fetch_checksum (mkCtx (Some timeout) (stash s)) client info s = (o, s1) ->
  match o with
  | Fail e => DownloadSync host s = (Fail e, s1)
  | Ret None => DownloadSync host s = (Ret tt, s1)
  | _ => True
  end.
Proof.
  intros Hi Hc Ht Hf. unfold DownloadSync. rewrite (bind_Ret _ _ s (stash s) s) by done. rewrite Hi, Hc.
  rewrite (bind_Ret _ _ s (parent s) s) by done. rewrite Ht.
  destruct o as [[x|]|e|why]; [done| |by apply bind_Fail|done]. by rewrite (bind_Ret _ _ _ _ _ Hf).
Qed.

(** The checksum request is answered with an error status: a transient one
    is returned, and the resource stays as it is; any other is recorded. *)
Lemma DownloadSync_status host (s : RS) info client timeout req resp w1 :
  let ctx := mkCtx (Some timeout) (stash s) in
  let url := Sprintf "%s.%s" [ArtifactDownloadURL info; "sha1"] in
  retrieveArtifactVersion (stash s) = Some info -> retrieveHttpClient (stash s) = Some client ->
  Timeout (Spec (parent s)) = Some timeout ->
  buildRequestObject ctx "GET" url (Some (basicAuthCredentialsFromSecret ctx)) = inl req ->
  Client_Do client req (world s) = (Ret resp, w1) ->
  StatusCode resp < 200 \/ 300 <= StatusCode resp ->
  if transient (StatusCode resp)
  then exists err, DownloadSync host s = (Fail err, set_world w1 s)
  else exists p', DownloadSync host s = (Ret tt, mkReconcile p' (stash s) w1 (httpRootDir s) (heap s)) /\
         ma_status p' available = Some ConditionFalse /\
         Status_Artifact (Status p') = Status_Artifact (Status (parent s)).
Proof.
  intros ctx url Hi Hc Ht Hb Hd Hcode.
  pose proof (download_status ctx url client (world s) req resp w1 Hb Hd Hcode) as Hdl.
  set (err := fmt_Errorf "Error received HTTP status %v getting %q" [AInt (StatusCode resp); AStr url]).
  change (status_error (StatusCode resp) url) with (downloadError err (StatusCode resp)) in Hdl.
  assert (fetch_checksum (C := C) ctx client info s =
    (_ ← checksum_failed info (downloadError err (StatusCode resp)); mret None) (set_world w1 s)) as Hf.
  { unfold fetch_checksum, mbind, M_bind, try, io, zoom, downloadChecksum. fold url.
    change (the_world s) with (world s). by rewrite Hdl. }
  unfold checksum_failed in Hf. rewrite errors_Is_downloadError in Hf. cbn [as_downloadError] in Hf.
  destruct (transient (StatusCode resp)) eqn:Etr.
  - exists err. unfold mbind, M_bind in Hf. rewrite http_error_transient in Hf by done.
    by apply (DownloadSync_fetch host) in Hf.
  - match type of Hf with context [http_error err _ ?u ?n ?o] =>
      destruct (http_error_permanent err (StatusCode resp) u n o (set_world w1 s) Etr) as (f & Hin & Hhe) end.
    unfold mbind, M_bind in Hf. rewrite Hhe in Hf. apply (DownloadSync_fetch host) in Hf; [|done..].
    exists (f (parent s)). split; [done|].
    assert (exists fm a, f = ma_MarkFalse available "RemoteError" fm a) as (fm & a & ->).
    { repeat (apply elem_of_cons in Hin as [->|Hin]; [eauto|]). by apply elem_of_nil in Hin. }
    split; [by apply ma_status_MarkFalse|done].
Qed.

(** ** Timeouts *)

(** Neither condition of the resource gives a timeout as its reason. *)
Definition untimed (p : MavenArtifact C) : Prop :=
  forall t c, t = resolved \/ t = available ->
    GetCondition (Conditions (Status p)) t = Some c -> c_Reason c <> "Timeout".

Definition stays_untimed : relation RS := fun s s' => untimed (parent s) -> untimed (parent s').

#[local] Instance stays_untimed_preorder : PreOrder stays_untimed.
Proof. split; unfold stays_untimed; [by intros s|]. intros s1 s2 s3. auto. Qed.

Lemma untimed_set (t' r f : string) a (p : MavenArtifact C) (b : bool) :
  t' = resolved \/ t' = available -> r <> "Timeout" -> untimed p ->
  untimed ((if b then ma_MarkTrue else ma_MarkFalse) t' r f a p).
Proof.
  intros Ht' Hr Hp t c Ht Hc.
  assert (t <> ConditionReady /\ t' <> ConditionReady) as [? ?] by (by destruct Ht, Ht'; subst).
  destruct (decide (t = t')) as [<-|Hne]; destruct b; simpl in Hc.
  - rewrite get_MarkTrue in Hc by done. by injection Hc as <-.
  - rewrite get_MarkFalse in Hc by done. by injection Hc as <-.
  - rewrite get_MarkTrue_ne in Hc by done. by apply (Hp t).
  - rewrite get_MarkFalse_ne in Hc by done. by apply (Hp t).
Qed.

Lemma untimed_false t r f a (p : MavenArtifact C) :
  t = resolved \/ t = available -> r <> "Timeout" -> untimed p -> untimed (ma_MarkFalse t r f a p).
Proof. apply (untimed_set _ _ _ _ _ false). Qed.

Lemma untimed_true t r f a (p : MavenArtifact C) :
  t = resolved \/ t = available -> r <> "Timeout" -> untimed p -> untimed (ma_MarkTrue t r f a p).
Proof. apply (untimed_set _ _ _ _ _ true). Qed.

Hint Resolve untimed_false untimed_true : core.

Lemma untimed_io {A : Type} (m : IO A) : within stays_untimed (io m).
Proof. apply (within_zoom (fun _ _ => True)); [|by intros w]. intros s w _ H. exact H. Qed.

Lemma untimed_parent g : (forall p, untimed p -> untimed (g p)) -> within stays_untimed (set_parent g).
Proof. intros H s Hs. exact (H _ Hs). Qed.

Lemma untimed_stash g : within stays_untimed (set_stash g).
Proof. intros s Hs. exact Hs. Qed.

Lemma untimed_clean_root : within stays_untimed clean_root.
Proof.
  intros s Hs. unfold clean_root, mbind, M_bind, gets. destruct (IsAbs (httpRootDir s)); exact Hs.
Qed.

Lemma untimed_http_error inner code u n o :
  (forall p, untimed p -> untimed (u p)) -> (forall p, untimed p -> untimed (n p)) ->
  (forall p, untimed p -> untimed (o p)) -> within stays_untimed (http_error inner code u n o).
Proof.
  intros. unfold http_error. repeat case_decide; repeat case_match;
    first [by apply untimed_parent | apply within_throw; apply _].
Qed.

Lemma untimed_artifact a u (p : MavenArtifact C) :
  untimed p -> untimed (MavenArtifactController.set_artifact a u p).
Proof. intros H. exact H. Qed.

Hint Resolve untimed_stash untimed_clean_root untimed_artifact : src.

Ltac marks := intros; first [apply untimed_false | apply untimed_true | apply untimed_artifact]; auto; done.

Ltac untimed_auto :=
  lazymatch goal with
  | |- within stays_untimed (mbind _ _) => apply within_bind; [apply _|untimed_auto|intros; untimed_auto]
  | |- within stays_untimed (try _) => apply within_try; untimed_auto
  | |- within stays_untimed (defer _ _) => apply within_defer; [apply _|untimed_auto|untimed_auto]
  | |- within stays_untimed (io _) => apply untimed_io
  | |- within stays_untimed (set_parent _) => apply untimed_parent; marks
  | |- within stays_untimed (http_error _ _ _ _ _) => apply untimed_http_error; marks
  | |- within stays_untimed (mret _) => apply within_ret; apply _
  | |- within stays_untimed (throw _) => apply within_throw; apply _
  | |- within stays_untimed (panic _) => apply within_panic; apply _
  | |- within stays_untimed (gets _) => apply within_gets; apply _
  | |- within stays_untimed (match ?x with _ => _ end) => destruct x; untimed_auto
  | |- _ => try solve [auto with src typeclass_instances]
  end.

(** After a call of the disk or the network whose errors are opaque. *)
Lemma untimed_try_io {A B : Type} (m : IO A) (k : A + error -> M RS B) :
  (forall w e w', m w = (Fail e, w') -> opaque e) ->
  (forall a, within stays_untimed (k (inl a))) -> (forall e, opaque e -> within stays_untimed (k (inr e))) ->
  within stays_untimed (r ← try (io m); k r).
Proof.
  intros Hm Hl Hr s. unfold mbind, M_bind, try, io, zoom. destruct (m (the_world s)) as [[a|e|w] s1] eqn:Em.
  - intros Hs. exact (Hl a (set_world s1 s) Hs).
  - intros Hs. exact (Hr e (Hm _ _ _ Em) (set_world s1 s) Hs).
  - intros Hs. exact Hs.
Qed.

Lemma untimed_fetch_checksum ctx client info : within stays_untimed (fetch_checksum ctx client info).
Proof.
  unfold fetch_checksum. apply untimed_try_io.
  - intros w e w'. apply download_Fail_opaque.
  - intros a. untimed_auto.
  - intros e He. unfold checksum_failed. rewrite He. untimed_auto.
Qed.

Lemma untimed_fetch_artifact p ctx client info dir c :
  within stays_untimed (fetch_artifact p ctx client info dir c).
Proof.
  unfold fetch_artifact. apply untimed_try_io.
  - intros w e w'. apply downloadArtifact_Fail_opaque.
  - intros a. untimed_auto.
  - intros e He. unfold artifact_failed. rewrite He. untimed_auto.
Qed.

Hint Resolve untimed_fetch_checksum untimed_fetch_artifact : src.

Lemma DownloadSync_untimed host : within stays_untimed (DownloadSync host).
Proof. unfold DownloadSync, fetch_and_publish, unpack, publish. untimed_auto. Qed.

Ltac same := let Hs := fresh in intros Hs; exact Hs.

Lemma VersionSync_untimed :
  (forall m p i e, xml_MarshalIndent m p i = inr e -> opaque e) -> within stays_untimed VersionSync.
Proof.
  intros Hxml s. unfold VersionSync, mbind, M_bind at 1, gets at 1.
  destruct (retrieveHttpClient (stash s)) as [client|]; [|same].
  unfold M_bind at 1, gets at 1. destruct (Timeout (Spec (parent s))) as [timeout|]; [|same].
  destruct (url_Parse _) as [u|e]; [|intros Hs; simpl; apply untimed_false; auto; done].
  case_decide; [intros Hs; simpl; apply untimed_false; auto; done|].
  unfold M_bind at 1, run_Resolve.
  pose proof (fun mr => Resolve_Fail_opaque Hxml (mkCtx (Some timeout) (stash s)) client (mkResolverState (world s) mr)) as Hop.
  destruct (Resolve _ _ _) as [[[]|e|w] rs] eqn:Er; [| |same].
  - intros Hs. simpl. by apply untimed_true; auto.
  - specialize (Hop _ _ _ Er). intros Hs.
    match goal with |- context [resolve_failed ?p e ?x] =>
      assert (within stays_untimed (resolve_failed (Sh := Sh) p e)) as Hw
        by (unfold resolve_failed; rewrite Hop; untimed_auto); exact (Hw x Hs) end.
Qed.
End Maven.
