(* ===== verification/Server.v ===== *)
(** * The artifact server (server/artifact.go)

    A file server of [net/http] behind a handler that refuses paths with a
    trailing slash.  A request is its path: [GET], without conditional or
    range headers; what the network does with the reply is left out. *)

From S2P Require Import Prelude GoStrings GoPath GoErrors Effects World GoOS GoOSFacts.
From S2P Require Import ArtifactFiles ArtifactFilesFacts TarFacts Stashes Http Transport.
From S2P Require Import MavenDownload MavenResolver Runtime ApiTypes Reconcile PanicFacts.

(** ** The pieces of [net/http] *)

Inductive reply :=
| Content (data : string)          (* 200, a file *)
| Listing (names : list string)    (* 200, the entries of a directory *)
| Redirect (target : string)       (* 301 *)
| HttpError (code : Z).            (* an error *)

Definition NotFound : reply := HttpError 404.

(** A function from the path of the request to the reply. *)
Definition Handler : Type := string -> IO reply.

Record http_Server := mkHttpServer {
  hs_Addr : string;
  hs_Handler : Handler;
  hs_ReadHeaderTimeout : Z;
  hs_ReadTimeout : Z;
  hs_IdleTimeout : Z;
  hs_WriteTimeout : Z
}.

(** The bytes of well-formed UTF-8, shortest encodings only. *)
Definition in_range (lo hi : nat) (c : ascii) : bool :=
  (lo <=? nat_of_ascii c)%nat && (nat_of_ascii c <=? hi)%nat.

Fixpoint utf8_ValidString (s : string) : bool :=
  match s with
  | "" => true
  | String a s1 =>
      if in_range 0 127 a then utf8_ValidString s1
      else
        match s1 with
        | "" => false
        | String b s2 =>
            if in_range 194 223 a then in_range 128 191 b && utf8_ValidString s2
            else
              match s2 with
              | "" => false
              | String c s3 =>
                  let second := if in_range 224 224 a then in_range 160 191 b
                                else if in_range 237 237 a then in_range 128 159 b
                                else in_range 128 191 b in
                  if in_range 224 239 a then second && in_range 128 191 c && utf8_ValidString s3
                  else
                    match s3 with
                    | "" => false
                    | String d s4 =>
                        let second := if in_range 240 240 a then in_range 144 191 b
                                      else if in_range 244 244 a then in_range 128 143 b
                                      else in_range 128 191 b in
                        in_range 240 244 a && second && in_range 128 191 c && in_range 128 191 d
                        && utf8_ValidString s4
                    end
              end
        end
  end.

(** [filepath.Localize] of a cleaned relative path. *)
Definition localizes (p : string) : bool := utf8_ValidString p && negb (byte_in "000"%char p).

Section FileServer.
Context `{E : Env}.

(** [http.mapOpenError]: an entry below a file does not exist. *)
Fixpoint mapOpenError (orig : error) (pre rest : list string) : IO error :=
  match rest with
  | [] => mret orig
  | c :: rest' =>
      if decide (c = "") then mapOpenError orig (pre ++ [c]) rest'
      else
        st ← try (os_Stat (JoinWith "/" (pre ++ [c])));
        match st with
        | inr _ => mret orig
        | inl (FileNode _) => mret (fs_PathError "open" (JoinWith "/" (pre ++ [c])) ENOENT)
        | inl DirNode => mapOpenError orig (pre ++ [c]) rest'
        end
  end.

(** [toHTTPError] *)
Definition toHTTPError (e : error) : reply :=
  match e with
  | fs_PathError _ _ ENOENT => HttpError 404
  | fs_PathError _ _ EACCES => HttpError 403
  | _ => HttpError 500
  end.

(** [http.Dir(dir).Open(name)], with the path of the file opened. *)
Definition Dir_Open (dir name : string) : IO (string * node) :=
  let p := match Clean ("/" +:+ name) with String _ p => p | "" => "" end in  (* [1:] *)
  let p := if decide (p = "") then "." else p in
  if localizes p then
    let fullName := Join [if decide (dir = "") then "." else dir; p] in
    r ← try (os_Open fullName);
    match r with
    | inl n => mret (fullName, n)
    | inr (fs_PathError op q ENOTDIR) =>
        e ← mapOpenError (fs_PathError op q ENOTDIR) [] (Split fullName slash); throw e
    | inr e => throw e
    end
  else throw (errors_New "http: invalid or unsafe file path").

(** The names directly below a directory, in order. *)
Definition names_in (k : list string) (fs : fsmap) : list string :=
  omap (fun '(r, _) => match r with [c] => Some c | _ => None end) (entries_below k fs).

(** [dirList] *)
Definition dirList (p : string) : IO reply :=
  l ← try (fs_call "readdirent" p (fun _ fs => (inl (names_in (at_path p) fs), fs)));
  match l with
  | inl l => mret (Listing l)
  | inr _ => mret (HttpError 500)
  end.

(** [serveContent] *)
Definition serveContent (p : string) : IO reply :=
  d ← try (read_all p);
  match d with inl data => mret (Content data) | inr _ => mret (HttpError 500) end.

(** [serveFile] of the file server; [url] is the path of the request. *)
Definition serveFile (dir url name : string) : IO reply :=
  if HasSuffix url "/index.html" then mret (Redirect "./")
  else
    f ← try (Dir_Open dir name);
    match f with
    | inr err => mret (toHTTPError err)
    | inl (p, FileNode _) =>
        if HasSuffix url "/"
        then if bool_decide (Base url = "/") || bool_decide (Base url = ".") then mret (HttpError 500)
             else mret (Redirect ("../" +:+ Base url))
        else serveContent p
    | inl (p, DirNode) =>
        if negb (HasSuffix url "/") then mret (Redirect (Base url +:+ "/"))
        else
          i ← try (Dir_Open dir (TrimSuffix name "/" +:+ "/index.html"));
          match i with
          | inl (q, FileNode _) => serveContent q
          | inl (q, DirNode) => dirList q
          | inr _ => dirList p
          end
    end.

(** [http.FileServer(http.Dir(dir))] *)
Definition FileServer (dir : string) : Handler := fun path =>
  let upath := if HasPrefix path "/" then path else "/" +:+ path in
  serveFile dir upath (Clean upath).
End FileServer.

(** ** The server *)

Definition Second : Z := 1000000000.

Definition readHeaderTimeout : Z := 10 * Second.
Definition readTimeout : Z := 30 * Second.
Definition idleTimeout : Z := 120 * Second.

Record server := mkserver { server_Addr : string; server_Dir : string }.

Definition New (addr dir : string) : server := mkserver addr dir.

Definition newHTTPServer (addr : string) (handler : Handler) : http_Server :=
  mkHttpServer addr handler readHeaderTimeout readTimeout idleTimeout 0.

(** The handler of [Start], and the server it starts. *)
Definition artifact_handler `{E : Env} (s : server) : Handler := fun path =>
  if HasSuffix path "/" then mret NotFound else FileServer (server_Dir s) path.

Definition Start `{E : Env} (s : server) : http_Server :=
  newHTTPServer (server_Addr s) (artifact_handler s).

(** ** Facts *)

Section Facts.
Context `{E : Env}.

Lemma Clean_rooted p :
  Clean ("/" +:+ p) = "/" +:+ JoinWith "/" (norm true (Split ("/" +:+ p) slash)) /\
  Forall normal (norm true (Split ("/" +:+ p) slash)).
Proof. split; [done|apply norm_rooted_normal]. Qed.

Lemma at_path_dot : at_path "." = at_path "".
Proof. unfold at_path, key. simpl. unfold norm. by rewrite !norm_from_app. Qed.

Lemma at_Dir_Open dir l :
  Forall normal l ->
  let p := JoinWith "/" l in
  at_path (Join [if decide (dir = "") then "." else dir; if decide (p = "") then "." else p]) =
    at_path dir ++ l.
Proof.
  intros Hl p. set (d := if decide (dir = "") then "." else dir).
  assert (at_path d = at_path dir) as Hd by (unfold d; case_decide as H; [by rewrite H, at_path_dot|done]).
  destruct l as [|x l].
  - unfold p. simpl. rewrite app_nil_r, <- Hd.
    assert (d <> "") as Hne by (unfold d; by case_decide).
    unfold Join. rewrite filter_cons_True by done. rewrite filter_cons_True by done. simpl.
    unfold at_path. rewrite key_Clean. unfold key. rewrite IsAbs_append by done.
    change ("/" +:+ ".") with (String slash "."). rewrite Split_app.
    unfold norm. by rewrite app_assoc, norm_from_app.
  - rewrite decide_False.
    + unfold p. rewrite Join_path by done. unfold at_path in *. rewrite key_Join by done. by rewrite Hd.
    + unfold p. intros He. inversion Hl as [|? ? [Hx _] _]; subst. destruct l; simpl in He; [done|].
      by apply append_eq_nil in He as [? _].
Qed.

(** Whatever its name, the file opened lies at or below the directory. *)
Lemma Dir_Open_Ret dir name w p n w' :
  Dir_Open dir name w = (Ret (p, n), w') ->
  w_fs w' = w_fs w /\ exists l, Forall normal l /\ at_path p = at_path dir ++ l /\
    lookup_node (w_fs w) (at_path p) = Some n.
Proof.
  unfold Dir_Open. destruct (Clean_rooted name) as [-> Hl].
  set (l := norm true _) in *. simpl. destruct (localizes _); [|done].
  intros H. inv_bind H. apply try_inv in Hstep. destruct v as [m|e].
  - injection H as <- <- <-. apply Open_Ret in Hstep as [H1 H2]. split; [done|].
    exists l. split; [done|]. split; [|done]. by apply at_Dir_Open.
  - exfalso. destruct e as [| | | |op q []| |]; try done. by inv_bind H.
Qed.

Lemma serveContent_cases p w :
  w_fs (serveContent p w).2 = w_fs w /\
  ((serveContent p w).1 = Ret (HttpError 500) \/
   exists f, w_fs w !! at_path p = Some (FileNode f) /\ (serveContent p w).1 = Ret (Content (f_data f))).
Proof.
  unfold serveContent, mbind, M_bind, try.
  pose proof (within_read_all eq p w) as Hfs. destruct (read_all p w) as [[d|e|why] w1] eqn:Er.
  - apply read_all_Ret in Er as (H & f & Hf & <-). split; [done|]. right. eauto.
  - split; [done|]. by left.
  - exfalso. unfold read_all, fs_call in Er. destruct (env_fault _); [done|]. by destruct (p_read _ _) as [[]].
Qed.

Lemma within_mapOpenError (R : relation fsmap) `{!PreOrder R} orig pre rest :
  within (on_fs R) (mapOpenError orig pre rest).
Proof. revert pre. induction rest as [|c rest IH]; intros pre; simpl; within_auto; done. Qed.

Hint Resolve within_mapOpenError : src.

Lemma within_Dir_Open (R : relation fsmap) `{!PreOrder R} dir name : within (on_fs R) (Dir_Open dir name).
Proof. unfold Dir_Open. within_auto. Qed.

Lemma calm_mapOpenError orig pre rest : calm (mapOpenError orig pre rest).
Proof.
  revert pre. induction rest as [|c rest IH]; intros pre; simpl; unfold os_Stat; calm_auto; done.
Qed.

Hint Resolve calm_mapOpenError : calm.

Lemma calm_Dir_Open dir name : calm (Dir_Open dir name).
Proof. unfold Dir_Open, os_Open. calm_auto. Qed.

(** What a reply may show of the directory [D]. *)
Definition shows (D : list string) (fs : fsmap) (listing : bool) (o : outcome reply) : Prop :=
  match o with
  | Ret (Content d) => exists l f, Forall normal l /\ fs !! (D ++ l) = Some (FileNode f) /\ f_data f = d
  | Ret (Listing _) => listing = true
  | Ret _ => True
  | Fail _ | Panicked _ => False
  end.

Lemma serveContent_shows D listing p l w :
  Forall normal l -> at_path p = D ++ l ->
  w_fs (serveContent p w).2 = w_fs w /\ shows D (w_fs w) listing (serveContent p w).1.
Proof.
  intros Hl Hp. destruct (serveContent_cases p w) as [Hfs [H|(f & Hf & H)]]; rewrite H; (split; [done|]); [done|].
  exists l, f. by rewrite <- Hp.
Qed.

Lemma dirList_shows D p w :
  w_fs (dirList p w).2 = w_fs w /\ shows D (w_fs w) true (dirList p w).1.
Proof.
  unfold dirList, mbind, M_bind, try, fs_call. by destruct (env_fault _).
Qed.

(** After an attempt to open a file of the directory. *)
Lemma try_Open_shows D listing dir name (k : string * node + error -> IO reply) w :
  at_path dir = D ->
  (forall p n l w1, w_fs w1 = w_fs w -> Forall normal l -> at_path p = D ++ l ->
     w_fs (k (inl (p, n)) w1).2 = w_fs w /\ shows D (w_fs w) listing (k (inl (p, n)) w1).1) ->
  (forall e w1, w_fs w1 = w_fs w ->
     w_fs (k (inr e) w1).2 = w_fs w /\ shows D (w_fs w) listing (k (inr e) w1).1) ->
  w_fs ((r ← try (Dir_Open dir name); k r) w).2 = w_fs w /\
  shows D (w_fs w) listing ((r ← try (Dir_Open dir name); k r) w).1.
Proof.
  intros <- Hl Hr. unfold mbind, M_bind, try. pose proof (within_Dir_Open eq dir name w) as Hfs.
  pose proof (calm_Dir_Open dir name w) as Hc.
  destruct (Dir_Open dir name w) as [[[p n]|e|why] w1] eqn:Eo; [| |done].
  - apply Dir_Open_Ret in Eo as (H1 & l & H2 & H3 & _). by apply (Hl p n l).
  - apply Hr. symmetry. exact Hfs.
Qed.

Lemma toHTTPError_shows D fs b e : shows D fs b (Ret (toHTTPError e)).
Proof. unfold toHTTPError. by repeat case_match. Qed.

Lemma serveFile_shows dir url name w :
  w_fs (serveFile dir url name w).2 = w_fs w /\
  shows (at_path dir) (w_fs w) (HasSuffix url "/") (serveFile dir url name w).1.
Proof.
  unfold serveFile. destruct (HasSuffix url "/index.html"); [done|].
  apply try_Open_shows; [done| |intros e w1 Hw1; by split; [|apply toHTTPError_shows]].
  intros p n l w1 Hw1 Hl Hp. rewrite <- Hw1. destruct n as [|f].
  - destruct (HasSuffix url "/"); simpl; [|done]. apply try_Open_shows; [done| |].
    + intros q m l2 w2 Hw2 Hl2 Hq. rewrite <- Hw2. destruct m; [apply dirList_shows|by apply (serveContent_shows _ _ _ l2)].
    + intros e w2 Hw2. rewrite <- Hw2. apply dirList_shows.
  - destruct (HasSuffix url "/"); [by destruct (_ || _)|]. by apply (serveContent_shows _ _ _ l).
Qed.

Lemma HasSuffix_slash a p : HasSuffix p "/" = false -> p <> "" -> HasSuffix (String a p) "/" = false.
Proof.
  intros Hp Hne. destruct p as [|b p]; [done|]. simpl in *. rewrite Hp, orb_false_r.
  by apply bool_decide_eq_false.
Qed.

(** The server reads files at or below its directory, changes nothing, and
    lists a directory only for the empty path. *)
Lemma artifact_handler_shows (s : server) path w :
  w_fs (artifact_handler s path w).2 = w_fs w /\
  shows (at_path (server_Dir s)) (w_fs w) (bool_decide (path = "")) (artifact_handler s path w).1.
Proof.
  unfold artifact_handler. destruct (HasSuffix path "/") eqn:Es; [done|]. unfold FileServer.
  set (upath := if HasPrefix path "/" then path else "/" +:+ path).
  destruct (serveFile_shows (server_Dir s) upath (Clean upath) w) as [H1 H2]. split; [done|].
  destruct (decide (path = "")) as [Hp|Hp].
  - rewrite bool_decide_eq_true_2 by done.
    assert (HasSuffix upath "/" = true) as Hu by (unfold upath; by rewrite Hp). by rewrite Hu in H2.
  - rewrite bool_decide_eq_false_2 by done.
    assert (HasSuffix upath "/" = false) as Hu; [|by rewrite Hu in H2].
    unfold upath. destruct (HasPrefix path "/"); [done|]. by apply HasSuffix_slash.
Qed.

Lemma Split_JoinWith_pieces l :
  Forall (fun c => byte_in slash c = false) l -> l <> [] -> Split (JoinWith "/" l) slash = l.
Proof. destruct l as [|c l]; [done|]. intros H _. by apply Split_Join. Qed.

Lemma normal_no_slash l : Forall normal l -> Forall (fun c => byte_in slash c = false) l.
Proof. intros H. eapply Forall_impl; [exact H|]. by intros c (_ & _ & _ & ?). Qed.

(** A path with a plain last element has no such suffix. *)
Lemma no_suffix init x sfx :
  byte_in slash sfx = false -> x <> sfx ->
  Forall (fun c => byte_in slash c = false) (init ++ [x]) -> init <> [] ->
  HasSuffix (JoinWith "/" (init ++ [x])) ("/" +:+ sfx) = false.
Proof.
  intros Hs Hx Hl Hne. destruct (HasSuffix _ _) eqn:E'; [|done]. exfalso. apply Hx.
  apply HasSuffix_spec in E' as [r Hr]. apply (f_equal (fun p => Split p slash)) in Hr.
  change ("/" +:+ sfx) with (String slash sfx) in Hr. rewrite Split_app, (Split_no_sep sfx) in Hr by done.
  rewrite Split_JoinWith_pieces in Hr by (done || by destruct init).
  by apply app_inj_tail in Hr as [_ ->].
Qed.

(** A file that is there opens, and reads in full. *)
Lemma serveContent_file p f w :
  env_fault (w_tick w) = None -> fs_wf (w_fs w) -> w_fs w !! at_path p = Some (FileNode f) ->
  (serveContent p w).1 = Ret (Content (f_data f)).
Proof.
  intros F Hwf Hf. assert (at_path p <> []) as Hne by (intros En; rewrite En in Hf; destruct Hwf; congruence).
  unfold serveContent, read_all, fs_call, mbind, M_bind, try. rewrite F. unfold p_read.
  by rewrite lookup_node_ne, Hf.
Qed.

Lemma Dir_Open_file dir l f w :
  env_fault (w_tick w) = None -> fs_wf (w_fs w) -> Forall normal l -> localizes (JoinWith "/" l) = true ->
  l <> [] -> w_fs w !! (at_path dir ++ l) = Some (FileNode f) ->
  exists p w1, Dir_Open dir ("/" +:+ JoinWith "/" l) w = (Ret (p, FileNode f), w1) /\
    at_path p = at_path dir ++ l /\ w_fs w1 = w_fs w.
Proof.
  intros F Hwf Hl Hloc Hne Hf. unfold Dir_Open.
  destruct (Clean_rooted ("/" +:+ JoinWith "/" l)) as [-> _].
  assert (norm true (Split ("/" +:+ "/" +:+ JoinWith "/" l) slash) = l) as ->.
  { change ("/" +:+ "/" +:+ JoinWith "/" l) with ("" +:+ String slash ("" +:+ String slash (JoinWith "/" l))).
    rewrite !Split_app, Split_JoinWith_pieces by (done || by apply normal_no_slash).
    rewrite app_assoc. by rewrite norm_app_normal. }
  simpl. rewrite append_nil_l. pose proof (at_Dir_Open dir l Hl) as Hk. cbv zeta in Hk.
  assert (JoinWith "/" l <> "") as HJ.
  { destruct l as [|c l]; [done|]. inversion Hl as [|? ? [Hc _] _]; subst. destruct l; [done|].
    simpl. by intros [? _]%append_eq_nil. }
  rewrite (decide_False (P := JoinWith "/" l = "")) in Hk |- * by done. rewrite Hloc.
  set (p := Join _) in *. assert (at_path p <> []) as Hnn by (rewrite Hk; by destruct (at_path dir), l).
  assert (lookup_node (w_fs w) (at_path p) = Some (FileNode f)) as Hlk by by rewrite lookup_node_ne, Hk.
  assert (os_Open p w = (Ret (FileNode f), set_fs (w_fs w) (tick_world w))) as Ho.
  { unfold os_Open, fs_call. rewrite F. unfold p_stat. by rewrite (check_dirs_wf_node _ _ _ Hwf Hlk), Hlk. }
  exists p, (set_fs (w_fs w) (tick_world w)). split; [|done].
  unfold mbind, M_bind, try. by rewrite Ho.
Qed.

(** A file that is there is served, whole. *)
Lemma artifact_handler_serves (s : server) l x w f :
  (forall t, env_fault t = None) -> fs_wf (w_fs w) ->
  Forall normal (l ++ [x]) -> x <> "index.html" -> localizes (JoinWith "/" (l ++ [x])) = true ->
  w_fs w !! (at_path (server_Dir s) ++ l ++ [x]) = Some (FileNode f) ->
  (artifact_handler s ("/" +:+ JoinWith "/" (l ++ [x])) w).1 = Ret (Content (f_data f)).
Proof.
  intros F Hwf Hl Hx Hloc Hf. set (url := "/" +:+ JoinWith "/" (l ++ [x])).
  assert (url = JoinWith "/" (("" :: l) ++ [x])) as Hurl by (by destruct l).
  assert (Forall (fun c => byte_in slash c = false) (("" :: l) ++ [x])) as Hns
    by (simpl; constructor; [done|by apply normal_no_slash]).
  assert (HasSuffix url "/" = false) as Hs1.
  { rewrite Hurl. apply (no_suffix _ _ ""); try done. apply Forall_app in Hl as [_ Hl].
    inversion Hl as [|? ? [? _] _]; by subst. }
  assert (HasSuffix url "/index.html" = false) as Hs2 by (rewrite Hurl; by apply (no_suffix _ _ "index.html")).
  assert (Clean url = url) as Hc.
  { unfold url. destruct (Clean_rooted (JoinWith "/" (l ++ [x]))) as [-> _].
    change ("/" +:+ JoinWith "/" (l ++ [x])) with ("" +:+ String slash (JoinWith "/" (l ++ [x]))).
    rewrite Split_app, Split_JoinWith_pieces by (by apply normal_no_slash || by destruct l).
    rewrite norm_app_normal by done. done. }
  unfold artifact_handler. rewrite Hs1. unfold FileServer.
  assert (HasPrefix url "/" = true) as -> by apply HasPrefix_append. rewrite Hc.
  unfold serveFile. rewrite Hs1, Hs2.
  destruct (Dir_Open_file (server_Dir s) (l ++ [x]) f w) as (p & w1 & Ho & Hk & Hw1); try done; [by destruct l|].
  rewrite (bind_Ret _ _ w (inl (p, FileNode f)) w1); [|unfold try, url; by rewrite Ho].
  apply serveContent_file; [done|by rewrite Hw1|by rewrite Hw1, Hk].
Qed.

(** ** The empty path *)

Lemma Dir_Open_root dir w :
  env_fault (w_tick w) = None -> fs_wf (w_fs w) -> lookup_node (w_fs w) (at_path dir) = Some DirNode ->
  exists p w1, Dir_Open dir "/" w = (Ret (p, DirNode), w1) /\ at_path p = at_path dir /\ w_fs w1 = w_fs w.
Proof.
  intros F Hwf Hd. pose proof (at_Dir_Open dir [] ltac:(done)) as Hk. cbv zeta in Hk. rewrite app_nil_r in Hk.
  unfold Dir_Open. change (Clean ("/" +:+ "/")) with "/".
  cbv iota zeta. change (JoinWith "/" []) with "" in Hk. rewrite (decide_True (P := "" = "")) in Hk |- * by done.
  change (localizes ".") with true. cbv iota. set (p := Join _) in *.
  rewrite <- Hk in Hd.
  assert (os_Open p w = (Ret DirNode, set_fs (w_fs w) (tick_world w))) as Ho.
  { unfold os_Open, fs_call. rewrite F. unfold p_stat. by rewrite (check_dirs_wf_node _ _ _ Hwf Hd), Hd. }
  exists p, (set_fs (w_fs w) (tick_world w)). split; [|done]. unfold mbind, M_bind, try. by rewrite Ho.
Qed.

Lemma Dir_Open_no_index dir w :
  w_fs w !! (at_path dir ++ ["index.html"]) = None ->
  exists e w1, Dir_Open dir "/index.html" w = (Fail e, w1) /\ w_fs w1 = w_fs w.
Proof.
  intros Hn. pose proof (calm_Dir_Open dir "/index.html" w) as Hc.
  pose proof (within_Dir_Open eq dir "/index.html" w) as Hfs.
  destruct (Dir_Open dir "/index.html" w) as [[[p n]|e|why] w1] eqn:Eo; [|by exists e, w1|done].
  exfalso. revert Eo. unfold Dir_Open. change (Clean ("/" +:+ "/index.html")) with "/index.html".
  cbv iota zeta. pose proof (at_Dir_Open dir ["index.html"]) as Hk. cbv zeta in Hk.
  change (JoinWith "/" ["index.html"]) with "index.html" in Hk.
  rewrite (decide_False (P := "index.html" = "")) in Hk |- * by done.
  destruct (localizes _); [|done]. intros H. inv_bind H. apply try_inv in Hstep. destruct v as [m|e].
  - apply Open_Ret in Hstep as [_ Hl]. rewrite Hk in Hl by (constructor; [by vm_compute|done]).
    rewrite lookup_node_ne in Hl by by destruct (at_path dir). congruence.
  - destruct e as [| | | |op q []| |]; try done. by inv_bind H.
Qed.

(** The empty path passes the check for a trailing slash, and is answered
    with the entries of the directory. *)
Lemma artifact_handler_empty (s : server) w :
  (forall t, env_fault t = None) -> fs_wf (w_fs w) ->
  lookup_node (w_fs w) (at_path (server_Dir s)) = Some DirNode ->
  w_fs w !! (at_path (server_Dir s) ++ ["index.html"]) = None ->
  (artifact_handler s "" w).1 = Ret (Listing (names_in (at_path (server_Dir s)) (w_fs w))).
Proof.
  intros F Hwf Hd Hi. destruct (Dir_Open_root (server_Dir s) w (F _) Hwf Hd) as (p & w1 & Ho & Hp & H1).
  rewrite <- H1 in Hi. destruct (Dir_Open_no_index (server_Dir s) w1 Hi) as (e & w2 & Hx & H2).
  change (artifact_handler s "") with (serveFile (server_Dir s) "/" "/"). unfold serveFile.
  change (HasSuffix "/" "/index.html") with false. change (HasSuffix "/" "/") with true. cbv iota.
  rewrite (bind_Ret _ _ w (inl (p, DirNode)) w1) by (unfold try; by rewrite Ho). cbn [negb]. cbv iota.
  rewrite (bind_Ret _ _ w1 (inr e) w2); [|unfold try; change (TrimSuffix "/" "/" +:+ "/index.html") with "/index.html"; by rewrite Hx].
  unfold dirList, mbind, M_bind, try, fs_call. rewrite F. simpl. by rewrite Hp, H2, H1.
Qed.
End Facts.
