(* ===== verification/TestRegistry.v ===== *)
(** * The registries of the tests (testing/registry.go, testing/auth-registry.go)

    The handler that puts basic authentication in front of a registry, and
    the functions that start a registry and load an image into it.  The
    registry itself, the test servers and the images are third-party code. *)

From S2P Require Import Prelude GoStrings GoPath GoErrors Base64 Effects World Http MavenDownload MavenResolver.
From S2P Require Import Reconcile.

(** ** Requests, and what a handler writes *)

(** Keys in canonical form, each with its values. *)
Abbreviation HttpHeader := (gmap string (list string)).

(** [Header.Get], for a canonical key. *)
Definition Header_Get (h : HttpHeader) (key : string) : string :=
  match h !! key with Some (v :: _) => v | _ => "" end.

Record HttpRequest := mkHttpRequest { Header : HttpHeader; rest_of_request : Request }.

(** The calls on a [http.ResponseWriter]. *)
Inductive write_op :=
| AddHeader (key value : string)
| WriteHeader (code : Z)
| Write (data : string).

(** [strings.SplitN(s, sep, n)] for [n > 0]. *)
Fixpoint SplitN (s : string) (sep : ascii) (n : nat) : list string :=
  match n with
  | O => []
  | S O => [s]
  | S m => match Cut s sep with (b, a, true) => b :: SplitN a sep m | _ => [s] end
  end.

(** [s[n:]] *)
Fixpoint str_from (n : nat) (s : string) : string :=
  match n, s with
  | S m, String _ s' => str_from m s'
  | _, _ => s
  end.

(** ** The handler *)

Section Handler.
Context {R : Type}.

(** The registry behind the handler, and what has been written so far. *)
Record Conn := mkConn { c_registry : R; c_written : list write_op }.

Definition http_Handler : Type := HttpRequest -> M Conn unit.

Definition write (op : write_op) : M Conn unit :=
  modify (fun c => mkConn (c_registry c) (c_written c ++ [op])).

Record AuthHandler := mkAuthHandler {
  allowedUser : string;
  allowedPass : string;
  registryHandler : http_Handler
}.

Definition ServeHTTP (h : AuthHandler) : http_Handler := fun r =>
  let authHeader := Header_Get (Header r) "Authorization" in
  if decide (authHeader = "") then
    _ ← write (AddHeader "Www-Authenticate" ("Basic realm=" +:+ dq "Registry"));
    write (WriteHeader 401)
  else if negb (HasPrefix authHeader "Basic ") then
    _ ← write (WriteHeader 403);
    write (Write ("Authorization header does not being with " +:+ dq "Basic "))
  else
    match DecodeString (str_from 6 authHeader) with
    | None =>
        _ ← write (WriteHeader 403);
        write (Write "Authorization header doesn't appear to be base64-encoded")
    | Some namePass =>
        match SplitN namePass ":" 2 with
        | [user; pass] =>
            if decide (user <> allowedUser h \/ pass <> allowedPass h) then
              _ ← write (WriteHeader 403);
              write (Write "Authorization failed: wrong username or password")
            else registryHandler h r
        | _ =>
            _ ← write (WriteHeader 403);
            _ ← write (Write "Authorization header doesn't appear to be colon-separated value ");
            write (Write namePass)
        end
    end.
End Handler.
Arguments Conn : clear implicits.
Arguments http_Handler : clear implicits.
Arguments AuthHandler : clear implicits.

(** ** Starting a registry, and loading an image *)

(** httptest, and go-containerregistry with its in-memory registry of state [R]. *)
Class TestServers (R : Type) := {
  test_Server : Type;
  server_URL : test_Server -> string;
  RoundTripper : Type;
  server_Transport : test_Server -> RoundTripper;  (* [server.Client().Transport] *)
  NewTLSServer : http_Handler R -> test_Server;
  ggcrregistry_New : http_Handler R;
  ggcrregistry_TLS : string -> test_Server + error;
  Tag : Type;
  image : Type;
  name_NewTag : string -> Tag + error;
  tarball_ImageFromPath : string -> image + error;
  remote_Write : Tag -> image -> RoundTripper -> option (string * string) -> option error
}.

Section Servers.
Context `{E : Env} {R : Type} `{TS : !TestServers R}.

Definition RegistryHost (registry : test_Server) : string + error :=
  match url_Parse (server_URL registry) with
  | inr err => inr err
  | inl u => inl (Host u)
  end.

(** [host, err := RegistryHost(registry); return registry, host, err] *)
Definition with_host (registry : test_Server) : option test_Server * string * option error :=
  match RegistryHost registry with
  | inl host => (Some registry, host, None)
  | inr err => (Some registry, "", Some err)
  end.

Definition NewRegistry : option test_Server * string * option error :=
  match ggcrregistry_TLS "localhost" with
  | inr err => (None, "", Some err)
  | inl registry => with_host registry
  end.

Definition NewAuthRegistryServer (username password : string) : option test_Server * string * option error :=
  with_host (NewTLSServer (ServeHTTP (mkAuthHandler username password ggcrregistry_New))).

(** What both ways of loading share; without credentials [auth] is [None]. *)
Definition load_image (registry : test_Server) (fromTar toRepository : string)
    (auth : option (string * string)) : option error :=
  match name_NewTag toRepository with
  | inr err => Some err
  | inl tag =>
      match tarball_ImageFromPath fromTar with
      | inr err => Some err
      | inl img => remote_Write tag img (server_Transport registry) auth
      end
  end.

Definition LoadImage (registry : test_Server) (fromTar toRepository : string) : option error :=
  load_image registry fromTar toRepository None.

Definition LoadImageWithAuth (registry : test_Server) (fromTar toRepository username password : string)
  : option error := load_image registry fromTar toRepository (Some (username, password)).
End Servers.

(** ** Facts *)

(** What [Request.SetBasicAuth] sets the header to. *)
Definition basicAuth (username password : string) : string :=
  "Basic " +:+ EncodeToString (username +:+ ":" +:+ password).

(** The header gives the credentials the handler wants; the text before the
    first colon is taken for the name of the user. *)
Definition grants {R} (h : AuthHandler R) (header : string) : Prop :=
  byte_in ":" (allowedUser h) = false /\
  exists e, header = "Basic " +:+ e /\ DecodeString e = Some (allowedUser h +:+ ":" +:+ allowedPass h).

Lemma Cut_true s sep b a : Cut s sep = (b, a, true) -> s = b +:+ String sep a /\ byte_in sep b = false.
Proof.
  revert b a. induction s as [|c s IH]; intros b a; simpl; [done|].
  case_bool_decide as Hc; [intros [= <- <-]; subst; by split|].
  destruct (Cut s sep) as [[b' a'] []]; [|done]. intros [= <- <-].
  destruct (IH b' a' eq_refl) as [-> Hb]. rewrite append_cons. simpl. by rewrite bool_decide_eq_false_2.
Qed.

Lemma SplitN_two s sep user pass :
  SplitN s sep 2 = [user; pass] <-> s = user +:+ String sep pass /\ byte_in sep user = false.
Proof.
  simpl. split.
  - destruct (Cut s sep) as [[b a] []] eqn:Ec; [|done]. intros [= <- <-]. by apply Cut_true.
  - intros [-> Hu]. by rewrite Cut_found.
Qed.

Lemma SplitN_sizes s sep : (exists b a, SplitN s sep 2 = [b; a]) \/ SplitN s sep 2 = [s].
Proof. simpl. destruct (Cut s sep) as [[b a] []]; eauto. Qed.

(** The status of a reply: the first that is written. *)
Definition reply_status (ops : list write_op) : option Z :=
  head (omap (fun op => match op with WriteHeader code => Some code | _ => None end) ops).

Lemma basic_prefix header : HasPrefix header "Basic " = true <-> header = "Basic " +:+ str_from 6 header.
Proof.
  rewrite HasPrefix_spec. split; [by intros [e ->]|]. intros ->. by eexists.
Qed.

(** Whoever has the credentials talks to the registry itself. *)
Lemma ServeHTTP_grants {R} (h : AuthHandler R) r c :
  grants h (Header_Get (Header r) "Authorization") -> ServeHTTP h r c = registryHandler h r c.
Proof.
  intros (Hu & e & Hh & Hd). unfold ServeHTTP. rewrite Hh. rewrite decide_False by done.
  rewrite HasPrefix_append. change (str_from 6 ("Basic " +:+ e)) with e. cbn [negb]. rewrite Hd.
  rewrite (proj2 (SplitN_two _ ":" (allowedUser h) (allowedPass h))) by done.
  by rewrite decide_False by naive_solver.
Qed.

(** Whoever has not is refused, and the registry learns nothing of it. *)
Lemma ServeHTTP_refuses {R} (h : AuthHandler R) r (c : Conn R) :
  let header := Header_Get (Header r) "Authorization" in
  ~ grants h header ->
  exists ops, ServeHTTP h r c = (Ret tt, mkConn (c_registry c) (c_written c ++ ops)) /\
    reply_status ops = Some (if decide (header = "") then 401 else 403).
Proof.
  intros header Hn. unfold ServeHTTP. fold header.
  assert (forall ops c' code, c' = mkConn (c_registry c) (c_written c ++ ops) -> reply_status ops = Some code ->
    exists ops, (Ret tt, c') = (Ret tt : outcome unit, mkConn (c_registry c) (c_written c ++ ops)) /\
      reply_status ops = Some code) as Hops by (intros ops ? ? -> ?; eauto).
  unfold mbind, M_bind, write, modify. case_decide as Hh.
  { eapply (Hops [_; _]); [simpl; by rewrite <- app_assoc|done]. }
  destruct (HasPrefix header "Basic ") eqn:Ep; simpl negb; cbv iota.
  2: { eapply (Hops [_; _]); [simpl; by rewrite <- app_assoc|done]. }
  destruct (DecodeString _) as [namePass|] eqn:Ed.
  2: { eapply (Hops [_; _]); [simpl; by rewrite <- app_assoc|done]. }
  destruct (SplitN_sizes namePass ":") as [(user & pass & Es)|Es]; rewrite Es.
  2: { eapply (Hops [_; _; _]); [simpl; by rewrite <- !app_assoc|done]. }
  case_decide as Hc; [eapply (Hops [_; _]); [simpl; by rewrite <- app_assoc|done]|].
  exfalso. apply Hn. apply SplitN_two in Es as [-> Hu]. apply basic_prefix in Ep.
  assert (user = allowedUser h /\ pass = allowedPass h) as [-> ->]
    by (destruct (decide (user = allowedUser h)), (decide (pass = allowedPass h)); naive_solver).
  split; [done|]. eexists. split; [exact Ep|exact Ed].
Qed.

(** A client with basic authentication is let in with the right credentials
    only. *)
Lemma grants_basicAuth {R} (h : AuthHandler R) user pass :
  byte_in ":" user = false ->
  grants h (basicAuth user pass) <-> user = allowedUser h /\ pass = allowedPass h.
Proof.
  intros Hu. unfold grants, basicAuth. split.
  - intros (Ha & e & He & Hd). apply (f_equal (str_from 6)) in He.
    change (EncodeToString (user +:+ ":" +:+ pass) = e) in He. subst e.
    rewrite DecodeString_EncodeToString in Hd. injection Hd as Hd.
    pose proof (proj2 (SplitN_two _ ":" user pass) (conj eq_refl Hu)) as H1.
    pose proof (proj2 (SplitN_two _ ":" (allowedUser h) (allowedPass h)) (conj eq_refl Ha)) as H2.
    change (String ":" pass) with (":" +:+ pass) in H1. rewrite Hd in H1.
    change (":" +:+ allowedPass h) with (String ":" (allowedPass h)) in H1. rewrite H2 in H1. by injection H1.
  - intros [-> ->]. split; [done|]. eexists. split; [reflexivity|]. apply DecodeString_EncodeToString.
Qed.
