(* ===== verification/Main.v ===== *)
(** * The program (main.go)

    The flags, and the calls that wire the controllers, the webhook and the
    artifact server into the manager.  controller-runtime is a parameter: what
    it answers to each call. *)

From S2P Require Import Prelude GoStrings GoErrors Effects Transport Server ApiTypes.

Record flags := mkFlags {
  metricsAddr : string;
  probeAddr : string;
  enableLeaderElection : bool;
  artifactAddr : string;
  artifactRootDir : string;
  artifactHost : string;
  caCertPath : string
}.

(** The values of the flags that are not given. *)
Definition default_flags : flags :=
  mkFlags ":0" ":8081" false ":8082" "./artifact-root" "localhost:8082" "".

Definition syncPeriod : Z := 10 * 3600 * Second.

(** [ctrl.Options] *)
Record Options := mkOptions {
  MetricsBindAddress : string;
  HealthProbeBindAddress : string;
  LeaderElection : bool;
  LeaderElectionID : string;
  WebhookPort : Z;
  SyncPeriod : Z;
  DisableFor : list string  (* kinds read past the cache *)
}.

Inductive kind := ImageRepositoryKind | MavenArtifactKind.

(** The arguments a reconciler is built with. *)
Record controller := mkController {
  ctl_Kind : kind;
  ctl_SyncPeriod : Z;
  ctl_httpRootDir : string;
  ctl_httpHost : string;
  ctl_certs : list Cert
}.

Inductive call :=
| AddToScheme (group : string)
| NewManager (opts : Options)
| SetupWithManager (c : controller)
| NewWebhookManagedBy (k : kind)      (* with its defaulter and validator *)
| AddHealthzCheck (name : string)
| AddReadyzCheck (name : string)
| AddRunnable (s : server)
| StartManager.

(** The error each call is answered with, if any. *)
Class Manager := { manager_answers : call -> option error }.

Section Main.
Context `{MG : Manager}.

(** [if err := call; err != nil { setupLog.Error(...); os.Exit(1) }] *)
Definition or_exit (c : call) : M (list call) unit := fun calls =>
  match manager_answers c with
  | Some e => (Fail e, calls ++ [c])
  | None => (Ret tt, calls ++ [c])
  end.

(** [utilruntime.Must(call)] *)
Definition must (c : call) : M (list call) unit := fun calls =>
  match manager_answers c with
  | Some e => (Panicked "utilruntime.Must", calls ++ [c])
  | None => (Ret tt, calls ++ [c])
  end.

Definition init : M (list call) unit :=
  _ ← must (AddToScheme "client-go"); must (AddToScheme Group).

Definition certs (f : flags) : list Cert := [mkCert (caCertPath f) None ""].

Definition manager_options (f : flags) : Options :=
  mkOptions (metricsAddr f) (probeAddr f) (enableLeaderElection f) "db9e3205.apps.tanzu.vmware.com"
    9443 syncPeriod ["Secret"].

Definition main (f : flags) : M (list call) unit :=
  _ ← or_exit (NewManager (manager_options f));
  _ ← or_exit (SetupWithManager
        (mkController ImageRepositoryKind syncPeriod (artifactRootDir f) (artifactHost f) (certs f)));
  _ ← or_exit (SetupWithManager
        (mkController MavenArtifactKind syncPeriod (artifactRootDir f) (artifactHost f) (certs f)));
  _ ← or_exit (NewWebhookManagedBy MavenArtifactKind);
  _ ← or_exit (AddHealthzCheck "healthz");
  _ ← or_exit (AddReadyzCheck "readyz");
  _ ← ignore_err (or_exit (AddRunnable (New (artifactAddr f) (artifactRootDir f))));
  or_exit StartManager.
End Main.

(** ** Facts *)

Section Facts.
Context `{MG : Manager}.

(** The calls whose failure ends the program, before the last one. *)
Definition setup (f : flags) : list call :=
  [NewManager (manager_options f);
   SetupWithManager (mkController ImageRepositoryKind syncPeriod (artifactRootDir f) (artifactHost f) (certs f));
   SetupWithManager (mkController MavenArtifactKind syncPeriod (artifactRootDir f) (artifactHost f) (certs f));
   NewWebhookManagedBy MavenArtifactKind; AddHealthzCheck "healthz"; AddReadyzCheck "readyz"].

(** The calls of a run that reaches the end. *)
Definition wiring (f : flags) : list call :=
  setup f ++ [AddRunnable (New (artifactAddr f) (artifactRootDir f)); StartManager].

Lemma or_exit_run c (k : M (list call) unit) l :
  (_ ← or_exit c; k) l =
  match manager_answers c with Some e => (Fail e, l ++ [c]) | None => k (l ++ [c]) end.
Proof. unfold mbind, M_bind, or_exit. by destruct (manager_answers c). Qed.

Lemma main_setup f :
  meq (main f)
    (_ ← for_each (setup f) or_exit;
     _ ← ignore_err (or_exit (AddRunnable (New (artifactAddr f) (artifactRootDir f))));
     or_exit StartManager).
Proof.
  intros l. unfold main, setup. cbn [for_each]. unfold mbind, M_bind, or_exit.
  do 6 (match goal with |- context [manager_answers ?c] => destruct (manager_answers c); [done|] end).
  done.
Qed.

(** The answers of the manager to calls that all go well, and to the first
    one that does not. *)
Definition goes_well (c : call) : Prop := manager_answers c = None.

Lemma for_each_ok cs l : Forall goes_well cs -> for_each cs or_exit l = (Ret tt, l ++ cs).
Proof.
  revert l. induction cs as [|c cs IH]; intros l H; [by rewrite app_nil_r|].
  apply Forall_cons in H as [Hc H]. cbn [for_each]. rewrite or_exit_run, Hc, IH by done. by rewrite <- app_assoc.
Qed.

Lemma for_each_stops pre c post e l :
  Forall goes_well pre -> manager_answers c = Some e ->
  for_each (pre ++ c :: post) or_exit l = (Fail e, l ++ pre ++ [c]).
Proof.
  revert l. induction pre as [|x pre IH]; intros l H Hc; cbn [for_each app]; rewrite or_exit_run.
  - by rewrite Hc.
  - apply Forall_cons in H as [Hx H]. rewrite Hx, IH by done. by rewrite <- app_assoc.
Qed.

(** The groups registered with the scheme before [main] runs. *)
Definition scheme : list call := [AddToScheme "client-go"; AddToScheme Group].

Lemma init_run l :
  init l = match manager_answers (AddToScheme "client-go"), manager_answers (AddToScheme Group) with
           | Some _, _ => (Panicked "utilruntime.Must", l ++ [AddToScheme "client-go"])
           | None, Some _ => (Panicked "utilruntime.Must", l ++ scheme)
           | None, None => (Ret tt, l ++ scheme)
           end.
Proof.
  unfold init, must, mbind, M_bind. destruct (manager_answers (AddToScheme "client-go")); [done|].
  destruct (manager_answers (AddToScheme Group)); by rewrite <- app_assoc.
Qed.

Lemma main_ok f l :
  Forall goes_well (setup f) ->
  main f l = (match manager_answers StartManager with None => Ret tt | Some e => Fail e end, l ++ wiring f).
Proof.
  intros H. rewrite (main_setup f l). rewrite (bind_Ret _ _ _ _ _ (for_each_ok _ l H)).
  unfold wiring, ignore_err, or_exit, mbind, M_bind.
  destruct (manager_answers (AddRunnable _)), (manager_answers StartManager); by rewrite <- !app_assoc.
Qed.

(** The whole program: [init], then [main]. *)
Definition program (f : flags) : M (list call) unit := _ ← init; main f.

Lemma main_stops f pre c post e l :
  setup f = pre ++ c :: post -> Forall goes_well pre -> manager_answers c = Some e ->
  main f l = (Fail e, l ++ pre ++ [c]).
Proof.
  intros Hs Hp Hc. rewrite (main_setup f l), Hs. by rewrite (bind_Fail _ _ _ _ _ (for_each_stops _ _ _ _ l Hp Hc)).
Qed.

Lemma program_ok f :
  Forall goes_well (scheme ++ setup f) ->
  program f [] = (match manager_answers StartManager with None => Ret tt | Some e => Fail e end,
                  scheme ++ wiring f).
Proof.
  intros [Hs Hf]%Forall_app. unfold program, mbind, M_bind. rewrite init_run.
  apply Forall_cons in Hs as [Ha [Hb _]%Forall_cons]. rewrite Ha, Hb. by apply main_ok.
Qed.

Lemma program_stops f pre c post e :
  scheme ++ setup f = pre ++ c :: post -> Forall goes_well pre -> manager_answers c = Some e ->
  program f [] = (match c with AddToScheme _ => Panicked "utilruntime.Must" | _ => Fail e end, pre ++ [c]).
Proof.
  intros Hs Hp Hc. unfold program, mbind, M_bind. rewrite init_run.
  destruct pre as [|a pre].
  { injection Hs as <- _. rewrite Hc. done. }
  injection Hs as <- Hs. apply Forall_cons in Hp as [Ha Hp]. rewrite Ha.
  destruct pre as [|b pre].
  { injection Hs as <- _. rewrite Hc. done. }
  injection Hs as <- Hs. apply Forall_cons in Hp as [Hb Hp]. rewrite Hb.
  etransitivity; [apply (main_stops f pre c post e _ Hs Hp Hc)|].
  assert (c ∈ setup f) as Hin by (rewrite Hs; set_solver). clear -Hin. by destruct c; [unfold setup in Hin; set_solver|..].
Qed.

(** Either every call goes well, or there is a first one that does not. *)
Lemma first_failure cs :
  Forall goes_well cs \/
  exists pre c post e, cs = pre ++ c :: post /\ Forall goes_well pre /\ manager_answers c = Some e.
Proof.
  induction cs as [|c cs [IH|(pre & x & post & e & -> & Hp & Hx)]]; [by left|..].
  - destruct (manager_answers c) as [e|] eqn:Hc; [|left; by constructor].
    right. exists [], c, cs, e. split_and!; [done|constructor|done].
  - destruct (manager_answers c) as [e'|] eqn:Hc.
    + right. exists [], c, (pre ++ x :: post), e'. split_and!; [done|constructor|done].
    + right. exists (c :: pre), x, post, e. split_and!; [done|by constructor|done].
Qed.

(** The manager is started by the runs that reach the end only. *)
Lemma program_starts f :
  StartManager ∈ (program f []).2 ->
  Forall goes_well (scheme ++ setup f) /\ (program f []).2 = scheme ++ wiring f.
Proof.
  intros H. destruct (first_failure (scheme ++ setup f)) as [Hw|(pre & c & post & e & Hs & Hp & Hc)].
  - by rewrite (program_ok f Hw).
  - exfalso. rewrite (program_stops f pre c post e Hs Hp Hc) in H. simpl in H.
    assert (StartManager ∈ scheme ++ setup f) as Hin by (rewrite Hs; set_solver).
    unfold scheme, setup in Hin. set_solver.
Qed.
End Facts.
