(* ===== verification/GoHeap.v ===== *)
(** * Go's heap: pointers, slices and what is reachable

    Where the source copies objects or builds them up in place, aliasing is
    what the code is about.  Here a pointer is a location, a slice is a window
    of a backing array, and the heap maps locations to typed cells.  [Deep]
    reads the value a piece of memory stands for, and the locations that
    value depends on. *)

From stdpp Require Import fin_sets.
From S2P Require Import Prelude GoErrors Effects Runtime ApiTypes.

Abbreviation loc := positive.

(** A [*T] and a [[]T]. *)
Inductive ptr (T : Type) := nil_ptr | at_loc (l : loc).
Arguments nil_ptr {T}.
Arguments at_loc {T} l.

Inductive go_slice (T : Type) := nil_slice | window (array : loc) (off len : nat).
Arguments nil_slice {T}.
Arguments window {T} array off len.

(** ** The objects of the API group, as they lie in memory *)

(** Types of Kubernetes' machinery: object and list metadata, what a die
    freezes of the metadata, and the cells these use. *)
Class KubeTypes := {
  xObjectMeta : Type;
  xListMeta : Type;
  xFrozen : Type;
  xCell : Type
}.

Record TypeMeta := mkTypeMeta { APIVersion : string; Kind : string }.

(** [apis.Status] of reconciler.io/runtime. *)
Record apis_Status := mkapis_Status {
  st_Conditions : go_slice Condition;
  st_ObservedGeneration : Z
}.

Record ImageRepositorySpec_mem := mkImageRepositorySpec_mem {
  m_Image : string;
  m_ir_Interval : Z;
  m_ImagePullSecrets : go_slice string;
  m_ServiceAccountName : string
}.

Record ImageRepositoryStatus_mem := mkImageRepositoryStatus_mem {
  m_ir_Status : apis_Status;
  m_ir_URL : string;
  m_ir_Artifact : ptr Artifact
}.

Record MavenArtifactSpec_mem := mkMavenArtifactSpec_mem {
  m_Artifact : MavenArtifactType;
  m_Repository : Repository;
  m_Interval : Z;
  m_Timeout : ptr Z
}.

Record MavenArtifactStatus_mem := mkMavenArtifactStatus_mem {
  m_Status : apis_Status;
  m_URL : string;
  m_Status_Artifact : ptr Artifact
}.

(** Both kinds are type and object metadata, a spec and a status. *)
Record object_mem `{KubeTypes} (Sp St : Type) := mkobject_mem {
  o_TypeMeta : TypeMeta;
  o_ObjectMeta : xObjectMeta;
  o_Spec : Sp;
  o_Status : St
}.
Arguments mkobject_mem {_ Sp St}.
Arguments o_TypeMeta {_ Sp St}.
Arguments o_ObjectMeta {_ Sp St}.
Arguments o_Spec {_ Sp St}.
Arguments o_Status {_ Sp St}.

Record list_mem `{KubeTypes} (T : Type) := mklist_mem {
  l_TypeMeta : TypeMeta;
  l_ListMeta : xListMeta;
  l_Items : go_slice T
}.
Arguments mklist_mem {_ T}.
Arguments l_TypeMeta {_ T}.
Arguments l_ListMeta {_ T}.
Arguments l_Items {_ T}.

(** The two types without fields. *)
Inductive MavenArtifactDefaulter := mkMavenArtifactDefaulter.
Inductive MavenArtifactValidator := mkMavenArtifactValidator.

(** A die: a resource being built (dies/source/v1alpha1).  [F] is what it
    freezes of the metadata, [unit] for the types that have none. *)
Record Die (F T : Type) := mkDie {
  d_frozen : F;
  d_mutable : bool;
  d_r : T;
  d_seal : T
}.
Arguments mkDie {F T}.
Arguments d_frozen {F T}.
Arguments d_mutable {F T}.
Arguments d_r {F T}.
Arguments d_seal {F T}.

(** ** Cells *)

(** The types of which there are cells of their own. *)
Inductive tag :=
| tag_Artifact | tag_Duration | tag_Refs | tag_Conditions | tag_Repository | tag_MavenArtifactType
| tag_Defaulter | tag_Validator
| tag_ImageRepositorySpec | tag_ImageRepositoryStatus | tag_ImageRepository | tag_ImageRepositories
| tag_ImageRepositoryList
| tag_MavenArtifactSpec | tag_MavenArtifactStatus | tag_MavenArtifact | tag_MavenArtifacts
| tag_MavenArtifactList
| tag_ArtifactDie | tag_RepositoryDie | tag_MavenArtifactTypeDie
| tag_ImageRepositorySpecDie | tag_ImageRepositoryStatusDie | tag_ImageRepositoryDie
| tag_MavenArtifactSpecDie | tag_MavenArtifactStatusDie | tag_MavenArtifactDie
| tag_foreign.

#[export] Instance tag_eq_dec : EqDecision tag.
Proof. solve_decision. Defined.

Section Heap.
Context `{KT : KubeTypes}.

Definition ImageRepository_mem : Type := object_mem ImageRepositorySpec_mem ImageRepositoryStatus_mem.
Definition MavenArtifact_mem : Type := object_mem MavenArtifactSpec_mem MavenArtifactStatus_mem.
Definition ImageRepositoryList_mem : Type := list_mem ImageRepository_mem.
Definition MavenArtifactList_mem : Type := list_mem MavenArtifact_mem.

Definition den (t : tag) : Type :=
  match t with
  | tag_Artifact => Artifact
  | tag_Duration => Z
  | tag_Refs => list string
  | tag_Conditions => list Condition
  | tag_Repository => Repository
  | tag_MavenArtifactType => MavenArtifactType
  | tag_Defaulter => MavenArtifactDefaulter
  | tag_Validator => MavenArtifactValidator
  | tag_ImageRepositorySpec => ImageRepositorySpec_mem
  | tag_ImageRepositoryStatus => ImageRepositoryStatus_mem
  | tag_ImageRepository => ImageRepository_mem
  | tag_ImageRepositories => list ImageRepository_mem
  | tag_ImageRepositoryList => ImageRepositoryList_mem
  | tag_MavenArtifactSpec => MavenArtifactSpec_mem
  | tag_MavenArtifactStatus => MavenArtifactStatus_mem
  | tag_MavenArtifact => MavenArtifact_mem
  | tag_MavenArtifacts => list MavenArtifact_mem
  | tag_MavenArtifactList => MavenArtifactList_mem
  | tag_ArtifactDie => Die unit Artifact
  | tag_RepositoryDie => Die unit Repository
  | tag_MavenArtifactTypeDie => Die unit MavenArtifactType
  | tag_ImageRepositorySpecDie => Die unit ImageRepositorySpec_mem
  | tag_ImageRepositoryStatusDie => Die unit ImageRepositoryStatus_mem
  | tag_ImageRepositoryDie => Die xFrozen ImageRepository_mem
  | tag_MavenArtifactSpecDie => Die unit MavenArtifactSpec_mem
  | tag_MavenArtifactStatusDie => Die unit MavenArtifactStatus_mem
  | tag_MavenArtifactDie => Die xFrozen MavenArtifact_mem
  | tag_foreign => xCell
  end.

Record cell := mkCell { c_tag : tag; c_val : den c_tag }.

Definition cast (t : tag) (c : cell) : option (den t) :=
  match decide (c_tag c = t) with
  | left e => Some (eq_rect (c_tag c) den (c_val c) t e)
  | right _ => None
  end.

Lemma cast_cell t x : cast t (mkCell t x) = Some x.
Proof.
  unfold cast. simpl. destruct (decide (t = t)) as [e|n]; [|done].
  by rewrite (proof_irrel e eq_refl).
Qed.

Abbreviation heap := (gmap loc cell).
Abbreviation Mem := (M heap).

Lemma cast_tag t c x : cast t c = Some x -> c_tag c = t.
Proof. unfold cast. by destruct (decide (c_tag c = t)). Qed.

(** A type with cells of its own. *)
Class Stored (T : Type) := {
  inj : T -> cell;
  prj : cell -> option T;
  tag_of : tag;
  prj_inj x : prj (inj x) = Some x;
  inj_tag x : c_tag (inj x) = tag_of;
  prj_tag c x : prj c = Some x -> c_tag c = tag_of
}.
Arguments tag_of T {_}.

Definition stored (t : tag) : Stored (den t) := {|
  inj := mkCell t; prj := cast t; tag_of := t;
  prj_inj := cast_cell t; inj_tag _ := eq_refl; prj_tag := cast_tag t
|}.

(** The cells resources point at: never a die, nor a whole resource. *)
Definition is_data (t : tag) : bool :=
  match t with
  | tag_Artifact | tag_Duration | tag_Refs | tag_Conditions
  | tag_ImageRepositories | tag_MavenArtifacts | tag_foreign => true
  | _ => false
  end.

Class Data (T : Type) `{!Stored T} : Prop := data_tag : is_data (tag_of T) = true.

#[export] Instance stored_Artifact : Stored Artifact := stored tag_Artifact.
#[export] Instance stored_Duration : Stored Z := stored tag_Duration.
#[export] Instance stored_Refs : Stored (list string) := stored tag_Refs.
#[export] Instance stored_Conditions : Stored (list Condition) := stored tag_Conditions.
#[export] Instance stored_Repository : Stored Repository := stored tag_Repository.
#[export] Instance stored_MavenArtifactType : Stored MavenArtifactType := stored tag_MavenArtifactType.
#[export] Instance stored_Defaulter : Stored MavenArtifactDefaulter := stored tag_Defaulter.
#[export] Instance stored_Validator : Stored MavenArtifactValidator := stored tag_Validator.
#[export] Instance stored_IRSpec : Stored ImageRepositorySpec_mem := stored tag_ImageRepositorySpec.
#[export] Instance stored_IRStatus : Stored ImageRepositoryStatus_mem := stored tag_ImageRepositoryStatus.
#[export] Instance stored_IR : Stored ImageRepository_mem := stored tag_ImageRepository.
#[export] Instance stored_IRs : Stored (list ImageRepository_mem) := stored tag_ImageRepositories.
#[export] Instance stored_IRList : Stored ImageRepositoryList_mem := stored tag_ImageRepositoryList.
#[export] Instance stored_MASpec : Stored MavenArtifactSpec_mem := stored tag_MavenArtifactSpec.
#[export] Instance stored_MAStatus : Stored MavenArtifactStatus_mem := stored tag_MavenArtifactStatus.
#[export] Instance stored_MA : Stored MavenArtifact_mem := stored tag_MavenArtifact.
#[export] Instance stored_MAs : Stored (list MavenArtifact_mem) := stored tag_MavenArtifacts.
#[export] Instance stored_MAList : Stored MavenArtifactList_mem := stored tag_MavenArtifactList.
#[export] Instance stored_ArtifactDie : Stored (Die unit Artifact) := stored tag_ArtifactDie.
#[export] Instance stored_RepositoryDie : Stored (Die unit Repository) := stored tag_RepositoryDie.
#[export] Instance stored_TypeDie : Stored (Die unit MavenArtifactType) := stored tag_MavenArtifactTypeDie.
#[export] Instance stored_IRSpecDie : Stored (Die unit ImageRepositorySpec_mem) := stored tag_ImageRepositorySpecDie.
#[export] Instance stored_IRStatusDie : Stored (Die unit ImageRepositoryStatus_mem) :=
  stored tag_ImageRepositoryStatusDie.
#[export] Instance stored_IRDie : Stored (Die xFrozen ImageRepository_mem) := stored tag_ImageRepositoryDie.
#[export] Instance stored_MASpecDie : Stored (Die unit MavenArtifactSpec_mem) := stored tag_MavenArtifactSpecDie.
#[export] Instance stored_MAStatusDie : Stored (Die unit MavenArtifactStatus_mem) :=
  stored tag_MavenArtifactStatusDie.
#[export] Instance stored_MADie : Stored (Die xFrozen MavenArtifact_mem) := stored tag_MavenArtifactDie.
#[export] Instance stored_foreign : Stored xCell := stored tag_foreign.

Class NotData (T : Type) `{!Stored T} : Prop := not_data : is_data (tag_of T) = false.

#[export] Instance data_Artifact : Data Artifact := eq_refl.
#[export] Instance data_Duration : Data Z := eq_refl.
#[export] Instance data_Refs : Data (list string) := eq_refl.
#[export] Instance data_Conditions : Data (list Condition) := eq_refl.
#[export] Instance data_IRs : Data (list ImageRepository_mem) := eq_refl.
#[export] Instance data_MAs : Data (list MavenArtifact_mem) := eq_refl.

#[export] Instance not_data_IRSpec : NotData ImageRepositorySpec_mem := eq_refl.
#[export] Instance not_data_IRStatus : NotData ImageRepositoryStatus_mem := eq_refl.
#[export] Instance not_data_IR : NotData ImageRepository_mem := eq_refl.
#[export] Instance not_data_MASpec : NotData MavenArtifactSpec_mem := eq_refl.
#[export] Instance not_data_MAStatus : NotData MavenArtifactStatus_mem := eq_refl.
#[export] Instance not_data_MA : NotData MavenArtifact_mem := eq_refl.
#[export] Instance not_data_ArtifactDie : NotData (Die unit Artifact) := eq_refl.
#[export] Instance not_data_RepositoryDie : NotData (Die unit Repository) := eq_refl.
#[export] Instance not_data_TypeDie : NotData (Die unit MavenArtifactType) := eq_refl.
#[export] Instance not_data_IRSpecDie : NotData (Die unit ImageRepositorySpec_mem) := eq_refl.
#[export] Instance not_data_IRStatusDie : NotData (Die unit ImageRepositoryStatus_mem) := eq_refl.
#[export] Instance not_data_IRDie : NotData (Die xFrozen ImageRepository_mem) := eq_refl.
#[export] Instance not_data_MASpecDie : NotData (Die unit MavenArtifactSpec_mem) := eq_refl.
#[export] Instance not_data_MAStatusDie : NotData (Die unit MavenArtifactStatus_mem) := eq_refl.
#[export] Instance not_data_MADie : NotData (Die xFrozen MavenArtifact_mem) := eq_refl.

(** ** Reading, writing and allocating *)

Definition read_at {T} `{!Stored T} (h : heap) (l : loc) : option T := h !! l ≫= prj.

(** A pointer of the wrong type does not occur in Go: the dereference is
    modelled as a panic, which the typing hypotheses exclude. *)
Definition load {T} `{!Stored T} (l : loc) : Mem T := fun h =>
  match read_at h l with
  | Some x => (Ret x, h)
  | None => (Panicked "invalid memory address", h)
  end.

Definition store {T} `{!Stored T} (l : loc) (x : T) : Mem unit := modify <[l := inj x]>.

(** [p := new(T); *p = x] *)
Definition new {T} `{!Stored T} (x : T) : Mem loc := fun h =>
  let l := fresh (dom h) in (Ret l, <[l := inj x]> h).

Lemma read_insert {T} `{!Stored T} (h : heap) l (x : T) : read_at (<[l := inj x]> h) l = Some x.
Proof. unfold read_at. rewrite lookup_insert_eq. simpl. apply prj_inj. Qed.

Lemma read_dom {T} `{!Stored T} (h : heap) l (x : T) : read_at h l = Some x -> l ∈ dom h.
Proof. unfold read_at. intros H1. apply elem_of_dom. destruct (h !! l); [by eexists|done]. Qed.

Lemma read_tag {T} `{!Stored T} (h : heap) l (x : T) :
  read_at h l = Some x -> exists c, h !! l = Some c /\ c_tag c = tag_of T.
Proof.
  unfold read_at. destruct (h !! l) as [c|]; [|done]. intros Hp. exists c. split; [done|by eapply prj_tag].
Qed.

Lemma read_same {T} `{!Stored T} (h h' : heap) l : h' !! l = h !! l -> read_at (T := T) h' l = read_at h l.
Proof. unfold read_at. by intros ->. Qed.

Lemma load_Ret {T} `{!Stored T} (h : heap) l (x : T) : read_at h l = Some x -> load l h = (Ret x, h).
Proof. unfold load. by intros ->. Qed.

Lemma new_fresh {T} `{!Stored T} (h : heap) (x : T) :
  exists l, new x h = (Ret l, <[l := inj x]> h) /\ l ∉ dom h.
Proof. exists (fresh (dom h)). split; [done|]. apply is_fresh. Qed.

Lemma fresh_subseteq {T} `{!Stored T} (h : heap) l (x : T) : l ∉ dom h -> h ⊆ <[l := inj x]> h.
Proof. intros Hl. apply insert_subseteq. by apply not_elem_of_dom. Qed.

Lemma agree_subseteq (h h' : heap) (X : gset loc) l : h ⊆ h' -> X ⊆ dom h -> l ∈ X -> h' !! l = h !! l.
Proof.
  intros Hs HX Hl. apply HX, elem_of_dom in Hl as [c Hc]. rewrite Hc. by eapply lookup_weaken.
Qed.
End Heap.
Abbreviation heap := (gmap loc cell).
Abbreviation Mem := (M heap).
Arguments tag_of {KT} T {_}.
