(* ===== verification/GoDeep.v ===== *)
(** * What memory stands for, and copies of it

    [Deep T V]: a [T] in memory stands for a [V], which depends on the cells
    in [reach].  [copies f]: whatever it is given, [f] returns a [T] that
    stands for the same value and depends on cells of its own only, and it
    changes no cell there was. *)

From stdpp Require Import fin_sets.
From S2P Require Import Prelude GoErrors Effects Runtime ApiTypes GoHeap.

Section Deep.
Context `{KT : KubeTypes}.

Class Deep (T V : Type) := {
  deep : heap -> T -> option V;
  reach : heap -> T -> gset loc
}.

(** The value depends on no other cell; the cells it depends on exist
    and are of the kinds resources point at. *)
Definition data_cells (h : heap) (X : gset loc) : Prop :=
  forall l, l ∈ X -> exists c, h !! l = Some c /\ is_data (c_tag c) = true.

Class DeepLaws (T V : Type) `{D : Deep T V} := {
  deep_data h x v : deep h x = Some v -> data_cells h (reach h x);
  deep_local h h' x v :
    deep h x = Some v -> (forall l, l ∈ reach h x -> h' !! l = h !! l) ->
    deep h' x = Some v /\ reach h' x = reach h x
}.

Lemma deep_reach {T V} `{DeepLaws T V} h x v : deep h x = Some v -> reach h x ⊆ dom h.
Proof. intros Hd l Hl. apply elem_of_dom. destruct (deep_data h x v Hd l Hl) as (c & -> & _). by eexists. Qed.

Lemma data_cells_union h (X Y : gset loc) : data_cells h X -> data_cells h Y -> data_cells h (X ∪ Y).
Proof. intros HX HY l [Hl|Hl]%elem_of_union; auto. Qed.

Lemma data_cells_empty h : data_cells h ∅.
Proof. intros l Hl. set_solver. Qed.

Lemma data_cells_at {T} `{!Stored T, !Data T} h l (x : T) : read_at h l = Some x -> data_cells h {[l]}.
Proof.
  intros (c & Hc & Ht)%read_tag l' ->%elem_of_singleton. exists c. split; [done|]. rewrite Ht. apply data_tag.
Qed.

(** ** The promise of a deep copy *)

Definition makes {T V} `{Deep T V} (m : Mem T) (h : heap) (v : V) : Prop :=
  exists y h', m h = (Ret y, h') /\ h ⊆ h' /\ deep h' y = Some v /\ reach h' y ## dom h.

Definition copies {T V} `{Deep T V} (f : T -> Mem T) : Prop :=
  forall h x v, deep h x = Some v -> makes (f x) h v.

Lemma deep_weaken {T V} `{DeepLaws T V} (h h' : heap) x v :
  deep h x = Some v -> h ⊆ h' -> deep h' x = Some v /\ reach h' x = reach h x.
Proof.
  intros Hd Hs. apply deep_local; [done|]. intros l Hl.
  by eapply agree_subseteq; [done|by eapply deep_reach|].
Qed.

(** ** Types without pointers *)

Class Flat (T : Type) : Prop := flat_type : True.

#[export] Instance flat_deep (T : Type) `{Flat T} : Deep T T :=
  {| deep _ x := Some x; reach _ _ := ∅ |}.
#[export] Instance flat_laws (T : Type) `{Flat T} : DeepLaws T T.
Proof. split; [intros; apply data_cells_empty|]. by intros h h' x v [= <-]. Qed.

#[export] Instance flat_Z : Flat Z := I.
#[export] Instance flat_string : Flat string := I.
#[export] Instance flat_Condition : Flat Condition := I.
#[export] Instance flat_Artifact : Flat Artifact := I.
#[export] Instance flat_Repository : Flat Repository := I.
#[export] Instance flat_MavenArtifactType : Flat MavenArtifactType := I.
#[export] Instance flat_Defaulter : Flat MavenArtifactDefaulter := I.
#[export] Instance flat_Validator : Flat MavenArtifactValidator := I.

Lemma copies_flat {T} `{Flat T} (f : T -> Mem T) : (forall x h, f x h = (Ret x, h)) -> copies f.
Proof. intros Hf h x v [= <-]. exists x, h. repeat split; [apply Hf|done|set_solver]. Qed.

(** ** Pointers *)

Section Pointer.
Context {T V : Type} `{DL : DeepLaws T V} `{ST : !Stored T}.

#[export] Instance deep_ptr : Deep (ptr T) (option V) := {|
  deep h p := match p with nil_ptr => Some None | at_loc l => Some <$> (read_at h l ≫= deep h) end;
  reach h p := match p with
               | nil_ptr => ∅
               | at_loc l => {[l]} ∪ match read_at h l with Some x => reach h x | None => ∅ end
               end
|}.

Lemma deep_at h l v : deep h (at_loc l) = Some v <-> exists x y, read_at h l = Some x /\ deep h x = Some y /\ v = Some y.
Proof.
  simpl. destruct (read_at h l) as [x|] eqn:Ex; simpl.
  - destruct (deep h x) as [y|] eqn:Ey; simpl; split.
    + intros [= <-]. by exists x, y.
    + by intros (? & ? & [= <-] & ? & ->); simplify_eq.
    + done.
    + intros (? & ? & [= <-] & ? & ->). congruence.
  - split; [done|]. by intros (? & ? & ? & _).
Qed.

Lemma deep_ptr_local h h' (p : ptr T) v :
  deep h p = Some v -> (forall l, l ∈ reach h p -> h' !! l = h !! l) ->
  deep h' p = Some v /\ reach h' p = reach h p.
Proof.
  destruct p as [|l]; intros Hd Hag; [done|]. apply deep_at in Hd as (x & y & Hx & Hy & ->).
  simpl in *. rewrite Hx in *.
  assert (read_at h' l = Some x) as Hx' by (rewrite <- Hx; apply read_same, Hag; set_solver).
  destruct (deep_local h h' x y Hy) as [H1 H2]; [intros; apply Hag; set_solver|].
  rewrite Hx'. simpl. by rewrite H1, H2.
Qed.

Lemma deep_ptr_reach h (p : ptr T) v : deep h p = Some v -> reach h p ⊆ dom h.
Proof.
  destruct p as [|l]; intros Hd; [set_solver|]. apply deep_at in Hd as (x & y & Hx & Hy & ->).
  simpl. rewrite Hx. apply read_dom in Hx. apply deep_reach in Hy. set_solver.
Qed.

Context `{DT : !Data T}.

#[export] Instance deep_ptr_laws : DeepLaws (ptr T) (option V).
Proof.
  split; [|apply deep_ptr_local].
  intros h [|l] v Hd; [apply data_cells_empty|]. apply deep_at in Hd as (x & y & Hx & Hy & ->). simpl. rewrite Hx.
  apply data_cells_union; [by eapply data_cells_at|by eapply deep_data].
Qed.
End Pointer.

(** ** Lists and slices *)

Section Slices.
Context {T V : Type} `{DL : DeepLaws T V}.

#[export] Instance deep_list : Deep (list T) (list V) :=
  {| deep h l := mapM (deep h) l; reach h l := ⋃ (reach h <$> l) |}.

Lemma deep_cons h x (l : list T) v :
  deep h (x :: l) = Some v <-> exists y ys, deep h x = Some y /\ deep h l = Some ys /\ v = y :: ys.
Proof.
  simpl. destruct (deep h x) as [y|]; simpl; [|by split; [|intros (? & ? & ? & _)]].
  destruct (mapM (deep h) l) as [ys|]; simpl; split; try done.
  - intros [= <-]. by exists y, ys.
  - by intros (? & ? & [= <-] & [= <-] & ->).
  - by intros (? & ? & ? & ? & _).
Qed.

Lemma reach_cons h x (l : list T) : reach h (x :: l) = reach h x ∪ reach h l.
Proof. done. Qed.

#[export] Instance deep_list_laws : DeepLaws (list T) (list V).
Proof.
  split.
  - intros h l. induction l as [|x l IH]; intros v Hd; [apply data_cells_empty|].
    apply deep_cons in Hd as (y & ys & Hy & Hys & ->).
    apply data_cells_union; [by eapply deep_data|by eapply IH].
  - intros h h' l. induction l as [|x l IH]; intros v Hd Hag; [done|].
    apply deep_cons in Hd as (y & ys & Hy & Hys & ->).
    destruct (deep_local h h' x y Hy) as [H1 H2]; [intros; apply Hag; set_solver|].
    destruct (IH ys Hys) as [H3 H4]; [intros; apply Hag; set_solver|].
    split; [apply deep_cons; by exists y, ys|]. by rewrite !reach_cons, H2, H4.
Qed.

Context `{ST : !Stored (list T), DT : !Data (list T)}.

(** The elements a slice shows of its array. *)
Definition shown (h : heap) (a : loc) (off len : nat) : option (list T) :=
  l ← read_at (T := list T) h a;
  let w := take len (drop off l) in
  if decide (length w = len) then Some w else None.

#[export] Instance deep_slice : Deep (go_slice T) (list V) := {|
  deep h s := match s with nil_slice => Some [] | window a off len => shown h a off len ≫= deep h end;
  reach h s := match s with
               | nil_slice => ∅
               | window a off len => {[a]} ∪ match shown h a off len with Some w => reach h w | None => ∅ end
               end
|}.

Lemma shown_data h a off len w : shown h a off len = Some w -> data_cells h {[a]}.
Proof.
  unfold shown. destruct (read_at h a) as [l|] eqn:E; [|done]. intros _. by eapply data_cells_at.
Qed.

Lemma shown_same (h h' : heap) a off len : h' !! a = h !! a -> shown h' a off len = shown h a off len.
Proof. unfold shown. intros H. by rewrite (read_same _ _ _ H). Qed.

#[export] Instance deep_slice_laws : DeepLaws (go_slice T) (list V).
Proof.
  split.
  - intros h [|a off len] v Hd; [apply data_cells_empty|]. simpl in *.
    destruct (shown h a off len) as [w|] eqn:Ew; [|done]. assert (deep h w = Some v) as Hw by done.
    apply data_cells_union; [by eapply shown_data|exact (deep_data h w v Hw)].
  - intros h h' [|a off len] v Hd Hag; [done|]. simpl in Hd. destruct (shown h a off len) as [w|] eqn:Ew; [|done].
    assert (deep h w = Some v) as Hw by done. simpl in Hag. rewrite Ew in Hag.
    assert (shown h' a off len = Some w) as Ew' by (rewrite <- Ew; apply shown_same, Hag; set_solver).
    destruct (deep_local h h' w v Hw) as [H1 H2]; [intros; apply Hag; simpl; set_solver|].
    cbn [deep reach deep_slice]. rewrite Ew', Ew. by rewrite H2.
Qed.
End Slices.
End Deep.

(** ** Products, and structs as products *)

Section Structs.
Context `{KT : KubeTypes}.

#[export] Instance deep_prod {A VA B VB} `{!Deep A VA, !Deep B VB} : Deep (A * B) (VA * VB) := {|
  deep h p := a ← deep h p.1; b ← deep h p.2; Some (a, b);
  reach h p := reach h p.1 ∪ reach h p.2
|}.

Lemma deep_pair {A VA B VB} `{!Deep A VA, !Deep B VB} h (p : A * B) v :
  deep h p = Some v <-> deep h p.1 = Some v.1 /\ deep h p.2 = Some v.2.
Proof.
  destruct v as [va vb]. simpl. destruct (deep h p.1) as [a|]; simpl; [|by split; [|intros [? ?]]].
  destruct (deep h p.2) as [b|]; simpl; split; try done; [by intros [= <- <-]|by intros [[= <-] [= <-]]|by intros [? ?]].
Qed.

#[export] Instance deep_prod_laws {A VA B VB} `{DA : !Deep A VA, DB : !Deep B VB, !DeepLaws A VA, !DeepLaws B VB} :
  DeepLaws (A * B) (VA * VB).
Proof.
  split.
  - intros h p v [Ha Hb]%deep_pair. apply data_cells_union; by eapply deep_data.
  - intros h h' p v [Ha Hb]%deep_pair Hag.
    destruct (deep_local h h' p.1 _ Ha) as [H1 H2]; [intros; apply Hag; simpl; set_solver|].
    destruct (deep_local h h' p.2 _ Hb) as [H3 H4]; [intros; apply Hag; simpl; set_solver|].
    split; [by apply deep_pair|]. simpl. by rewrite H2, H4.
Qed.

(** A struct [T] seen as the product [T'] of its fields. *)
Definition deep_via {T T' V V'} `{!Deep T' V'} (to : T -> T') (mk : V' -> V) : Deep T V :=
  {| deep h x := mk <$> deep h (to x); reach h x := reach h (to x) |}.

Lemma deep_via_laws {T T' V V'} `{D' : !Deep T' V', !DeepLaws T' V'} (to : T -> T') (mk : V' -> V) :
  @DeepLaws _ T V (deep_via to mk).
Proof.
  split; simpl.
  - intros h x v Hd. apply fmap_Some in Hd as (y & Hy & ->). by eapply deep_data.
  - intros h h' x v Hd Hag. apply fmap_Some in Hd as (y & Hy & ->).
    destruct (deep_local h h' (to x) y Hy Hag) as [H1 H2]. by rewrite H1.
Qed.

(** ** Copies of the parts make a copy of the whole *)

Lemma makes_pair {A VA B VB} `{DA : !Deep A VA, DB : !Deep B VB, !DeepLaws A VA, !DeepLaws B VB}
    (m : Mem A) (n : Mem B) h va vb :
  makes m h va -> (forall h1, h ⊆ h1 -> makes n h1 vb) ->
  makes (a ← m; b ← n; mret (a, b)) h (va, vb).
Proof.
  intros (a & h1 & Em & Hs1 & Hda & Hra) Hn.
  destruct (Hn h1 Hs1) as (b & h2 & En & Hs2 & Hdb & Hrb).
  destruct (deep_weaken h1 h2 _ _ Hda Hs2) as [Ha2 Hra2].
  exists (a, b), h2. rewrite (bind_Ret _ _ _ _ _ Em), (bind_Ret _ _ _ _ _ En).
  split; [done|]. split; [by transitivity h1|]. split; [by apply deep_pair|].
  simpl. rewrite Hra2. apply subseteq_dom in Hs1. set_solver.
Qed.

Lemma makes_map {A VA B VB} `{DA : !Deep A VA, DB : !Deep B VB} (f : A -> B) (g : VA -> VB) (m : Mem A) (n : Mem B) h v :
  (forall h a w, deep h a = Some w -> deep h (f a) = Some (g w) /\ reach h (f a) = reach h a) ->
  meq n (a ← m; mret (f a)) -> makes m h v -> makes n h (g v).
Proof.
  intros Hf Heq (a & h' & Em & Hs & Hd & Hr). exists (f a), h'.
  rewrite Heq, (bind_Ret _ _ _ _ _ Em). destruct (Hf _ _ _ Hd) as [H1 H2].
  by rewrite H1, H2.
Qed.

Lemma copies_pair {A VA B VB} `{DA : !Deep A VA, DB : !Deep B VB, !DeepLaws A VA, !DeepLaws B VB}
    (f : A -> Mem A) (g : B -> Mem B) :
  copies f -> copies g -> copies (fun p => a ← f p.1; b ← g p.2; mret (a, b)).
Proof.
  intros Hf Hg h p [va vb] [Ha Hb]%deep_pair. apply makes_pair; [by apply Hf|].
  intros h1 Hs. by apply Hg, (deep_weaken h h1).
Qed.

Lemma copies_via {T T' V V'} `{D' : !Deep T' V'} (to : T -> T') (from : T' -> T) (mk : V' -> V)
    (f' : T' -> Mem T') (f : T -> Mem T) :
  (forall y, to (from y) = y) -> (forall x, meq (f x) (y ← f' (to x); mret (from y))) ->
  copies f' -> @copies _ T V (deep_via to mk) f.
Proof.
  intros Hto Heq Hf' h x v Hd. simpl in Hd. apply fmap_Some in Hd as (w & Hw & ->).
  apply (makes_map (DB := deep_via to mk) from mk (f' (to x))); [|done|by apply Hf'].
  intros h0 a w0 H. simpl. by rewrite Hto, H.
Qed.

Lemma copies_mret {T} `{Flat T} : copies (T := T) mret.
Proof. by apply copies_flat. Qed.

(** [if in != nil { *out = new(T); in.DeepCopyInto( *out) }] *)
Definition copy_ptr {T} `{!Stored T} (f : T -> Mem T) (p : ptr T) : Mem (ptr T) :=
  match p with
  | nil_ptr => mret nil_ptr
  | at_loc l => x ← load l; y ← f x; l' ← new y; mret (at_loc l')
  end.

(** A copy moved to a cell of its own. *)
Lemma makes_new {T V} `{D : !Deep T V, !DeepLaws T V, ST : !Stored T} (m : Mem T) h v :
  makes m h v -> makes (y ← m; l ← new y; mret (at_loc l)) h (Some v).
Proof.
  intros (y & h1 & Em & Hs & Hdy & Hry). destruct (new_fresh h1 y) as (l & En & Hl).
  exists (at_loc l), (<[l := inj y]> h1). rewrite (bind_Ret _ _ _ _ _ Em), (bind_Ret _ _ _ _ _ En).
  assert (h1 ⊆ <[l := inj y]> h1) as Hs1 by by apply fresh_subseteq.
  destruct (deep_weaken h1 _ y v Hdy Hs1) as [Hd1 Hr1].
  split; [done|]. split; [by transitivity h1|]. split.
  - apply deep_at. exists y, v. by rewrite read_insert.
  - simpl. rewrite read_insert, Hr1. apply subseteq_dom in Hs. set_solver.
Qed.

Lemma copies_ptr {T V} `{D : !Deep T V, !DeepLaws T V, ST : !Stored T} (f : T -> Mem T) :
  copies f -> copies (copy_ptr f).
Proof.
  intros Hf h [|l] v Hd.
  - injection Hd as <-. exists nil_ptr, h. repeat split; set_solver.
  - apply deep_at in Hd as (x & w & Hx & Hw & ->).
    unfold copy_ptr, makes. rewrite (bind_Ret _ _ _ _ _ (load_Ret _ _ _ Hx)). by apply makes_new, Hf.
Qed.

(** [for i := range *in { ( *in)[i].DeepCopyInto(&( *out)[i]) }] *)
Fixpoint copy_items {T} (f : T -> Mem T) (l : list T) : Mem (list T) :=
  match l with
  | [] => mret []
  | x :: l' => y ← f x; ys ← copy_items f l'; mret (y :: ys)
  end.

Lemma copies_items {T V} `{D : !Deep T V, !DeepLaws T V} (f : T -> Mem T) :
  copies f -> copies (copy_items f).
Proof.
  intros Hf h l. revert h. induction l as [|x l IH]; intros h v Hd.
  - injection Hd as <-. exists [], h. repeat split; set_solver.
  - apply deep_cons in Hd as (w & ws & Hw & Hws & ->).
    apply (makes_map (fun p => p.1 :: p.2) (fun p => p.1 :: p.2) (y ← f x; ys ← copy_items f l; mret (y, ys)) _ h (w, ws)).
    + intros h0 [a b] v [H1 H2]%deep_pair. split; [|done]. apply deep_cons. by exists v.1, v.2.
    + intros s. simpl. unfold mbind, M_bind. destruct (f x s) as [[a| |] s1]; [|done..].
      by destruct (copy_items f l s1) as [[b| |] s2].
    + apply makes_pair; [by apply Hf|]. intros h1 Hs. by apply IH, (deep_weaken h h1).
Qed.

(** The elements of a slice, in the order of a [range]. *)
Definition elements_of {T} `{!Stored (list T)} (a : loc) (off len : nat) : Mem (list T) := fun h =>
  match shown h a off len with
  | Some w => (Ret w, h)
  | None => (Panicked "slice bounds out of range", h)
  end.

(** [if in != nil { *out = make([]T, len( *in)); ... }], with the elements
    copied by [f]: [mret] is [copy( *out, *in)]. *)
Definition copy_go_slice {T} `{!Stored (list T)} (f : T -> Mem T) (s : go_slice T) : Mem (go_slice T) :=
  match s with
  | nil_slice => mret nil_slice
  | window a off len =>
      w ← elements_of a off len;
      ys ← copy_items f w;
      l ← new ys;
      mret (window l 0 (length ys))
  end.

Lemma copies_slice {T V} `{D : !Deep T V, !DeepLaws T V, ST : !Stored (list T)} (f : T -> Mem T) :
  copies f -> copies (copy_go_slice f).
Proof.
  intros Hf h [|a off len] v Hd.
  - injection Hd as <-. exists nil_slice, h. repeat split; set_solver.
  - simpl in Hd. destruct (shown h a off len) as [w|] eqn:Ew; [|done].
    destruct (copies_items f Hf h w v Hd) as (ys & h1 & Ec & Hs & Hdy & Hry).
    destruct (makes_new (copy_items f w) h v) as (p & h2 & En & Hs2 & Hd2 & Hr2); [by exists ys, h1|].
    rewrite (bind_Ret _ _ _ _ _ Ec) in En. unfold mbind, M_bind, new in En. simpl in En.
    injection En as <- <-.
    exists (window (fresh (dom h1)) 0 (length ys)), (<[fresh (dom h1) := inj ys]> h1).
    assert (shown (<[fresh (dom h1) := inj ys]> h1) (fresh (dom h1)) 0 (length ys) = Some ys) as Hsh.
    { unfold shown. rewrite read_insert. simpl. rewrite drop_0, firstn_all. by rewrite decide_True. }
    split; [|split; [done|]].
    + unfold copy_go_slice, elements_of. unfold mbind at 1, M_bind at 1. rewrite Ew.
      by rewrite (bind_Ret _ _ _ _ _ Ec).
    + apply deep_at in Hd2 as (x & y & Hx & Hy & [= ->]). simpl in Hr2.
      rewrite read_insert in Hx, Hr2. injection Hx as <-.
      cbn [deep reach deep_slice]. by rewrite Hsh.
Qed.
(** ** Independence

    Writing to the cells one of the two depends on leaves the other's value
    as it was. *)
Definition changes (X : gset loc) (h h' : heap) : Prop :=
  forall l, l ∈ dom h -> l ∉ X -> h' !! l = h !! l.

Definition independent {T V} `{D : !Deep T V, ST : !Stored T} (copy : ptr T -> Mem (ptr T)) : Prop :=
  forall h p v, deep h p = Some v ->
  exists q h', copy p h = (Ret q, h') /\ deep h' q = Some v /\
    (forall h'', changes (reach h' q) h' h'' -> deep h'' p = Some v) /\
    (forall h'', changes (reach h p) h' h'' -> deep h'' q = Some v).

Lemma copy_independent {T V} `{D : !Deep T V, DL : !DeepLaws T V, ST : !Stored T} (f : T -> Mem T) :
  copies f -> independent (copy_ptr f).
Proof.
  intros Hf h p v Hp. destruct (copies_ptr f Hf h p v Hp) as (q & h' & Ec & Hs & Hq & Hr).
  exists q, h'. split; [done|]. split; [done|]. apply deep_ptr_reach in Hp as Hpd. apply subseteq_dom in Hs as Hsd.
  split; intros h'' Hc.
  - apply (deep_ptr_local h); [done|]. intros l Hl. rewrite Hc; [by eapply agree_subseteq| |]; set_solver.
  - apply (deep_ptr_local h'); [done|]. intros l Hl. apply deep_ptr_reach in Hq. apply Hc; set_solver.
Qed.
End Structs.
