(* ===== verification/DeepCopies.v ===== *)
(** * The generated deep copies (apis/source/v1alpha1/zz_generated.deepcopy.go)

    [DeepCopyInto] is a function from the value at [in] to the value it
    leaves at [out]: every caller passes an [out] of its own, of which nothing
    is read.  [DeepCopy] takes a pointer, which may be nil, to a new one. *)

From stdpp Require Import fin_sets.
From S2P Require Import Prelude GoErrors Effects Runtime ApiTypes GoHeap GoDeep.

(** The copies of Kubernetes' and the runtime's own types. *)
Class CopyMachinery `{KT : KubeTypes} := {
  Time_DeepCopyInto : option Z -> Mem (option Z);
  ObjectMeta_DeepCopyInto : xObjectMeta -> Mem xObjectMeta;
  ListMeta_DeepCopyInto : xListMeta -> Mem xListMeta;
  Status_DeepCopyInto : apis_Status -> Mem apis_Status
}.

Section DeepCopies.
Context `{KT : KubeTypes} `{CM : !CopyMachinery}.

(** ** Types without pointers *)

Definition Artifact_DeepCopyInto (in_ : Artifact) : Mem Artifact :=
  t ← Time_DeepCopyInto (Artifact_LastUpdateTime in_);
  mret (mkArtifact (Artifact_Path in_) (Artifact_URL in_) (Artifact_Revision in_) (Artifact_Checksum in_) t).

Definition Repository_DeepCopyInto (in_ : Repository) : Mem Repository :=
  mret (mkRepository (Repository_URL in_) (SecretRef in_)).

Definition MavenArtifactType_DeepCopyInto (in_ : MavenArtifactType) : Mem MavenArtifactType := mret in_.

Definition MavenArtifactDefaulter_DeepCopyInto (in_ : MavenArtifactDefaulter) : Mem MavenArtifactDefaulter :=
  mret in_.

Definition MavenArtifactValidator_DeepCopyInto (in_ : MavenArtifactValidator) : Mem MavenArtifactValidator :=
  mret in_.

(** ** Specs and statuses *)

Definition ImageRepositorySpec_DeepCopyInto (in_ : ImageRepositorySpec_mem) : Mem ImageRepositorySpec_mem :=
  secrets ← copy_go_slice mret (m_ImagePullSecrets in_);
  mret (mkImageRepositorySpec_mem (m_Image in_) (m_ir_Interval in_) secrets (m_ServiceAccountName in_)).

Definition ImageRepositoryStatus_DeepCopyInto (in_ : ImageRepositoryStatus_mem) : Mem ImageRepositoryStatus_mem :=
  s ← Status_DeepCopyInto (m_ir_Status in_);
  a ← copy_ptr Artifact_DeepCopyInto (m_ir_Artifact in_);
  mret (mkImageRepositoryStatus_mem s (m_ir_URL in_) a).

Definition MavenArtifactSpec_DeepCopyInto (in_ : MavenArtifactSpec_mem) : Mem MavenArtifactSpec_mem :=
  t ← copy_ptr mret (m_Timeout in_);
  mret (mkMavenArtifactSpec_mem (m_Artifact in_) (m_Repository in_) (m_Interval in_) t).

Definition MavenArtifactStatus_DeepCopyInto (in_ : MavenArtifactStatus_mem) : Mem MavenArtifactStatus_mem :=
  s ← Status_DeepCopyInto (m_Status in_);
  a ← copy_ptr Artifact_DeepCopyInto (m_Status_Artifact in_);
  mret (mkMavenArtifactStatus_mem s (m_URL in_) a).

(** ** Objects and lists of them *)

Definition ImageRepository_DeepCopyInto (in_ : ImageRepository_mem) : Mem ImageRepository_mem :=
  om ← ObjectMeta_DeepCopyInto (o_ObjectMeta in_);
  sp ← ImageRepositorySpec_DeepCopyInto (o_Spec in_);
  st ← ImageRepositoryStatus_DeepCopyInto (o_Status in_);
  mret (mkobject_mem (o_TypeMeta in_) om sp st).

Definition MavenArtifact_DeepCopyInto (in_ : MavenArtifact_mem) : Mem MavenArtifact_mem :=
  om ← ObjectMeta_DeepCopyInto (o_ObjectMeta in_);
  sp ← MavenArtifactSpec_DeepCopyInto (o_Spec in_);
  st ← MavenArtifactStatus_DeepCopyInto (o_Status in_);
  mret (mkobject_mem (o_TypeMeta in_) om sp st).

Definition ImageRepositoryList_DeepCopyInto (in_ : ImageRepositoryList_mem) : Mem ImageRepositoryList_mem :=
  lm ← ListMeta_DeepCopyInto (l_ListMeta in_);
  items ← copy_go_slice ImageRepository_DeepCopyInto (l_Items in_);
  mret (mklist_mem (l_TypeMeta in_) lm items).

Definition MavenArtifactList_DeepCopyInto (in_ : MavenArtifactList_mem) : Mem MavenArtifactList_mem :=
  lm ← ListMeta_DeepCopyInto (l_ListMeta in_);
  items ← copy_go_slice MavenArtifact_DeepCopyInto (l_Items in_);
  mret (mklist_mem (l_TypeMeta in_) lm items).

(** ** Copies behind pointers *)

Definition Artifact_DeepCopy := copy_ptr Artifact_DeepCopyInto.
Definition Repository_DeepCopy := copy_ptr Repository_DeepCopyInto.
Definition MavenArtifactType_DeepCopy := copy_ptr MavenArtifactType_DeepCopyInto.
Definition MavenArtifactDefaulter_DeepCopy := copy_ptr MavenArtifactDefaulter_DeepCopyInto.
Definition MavenArtifactValidator_DeepCopy := copy_ptr MavenArtifactValidator_DeepCopyInto.
Definition ImageRepositorySpec_DeepCopy := copy_ptr ImageRepositorySpec_DeepCopyInto.
Definition ImageRepositoryStatus_DeepCopy := copy_ptr ImageRepositoryStatus_DeepCopyInto.
Definition MavenArtifactSpec_DeepCopy := copy_ptr MavenArtifactSpec_DeepCopyInto.
Definition MavenArtifactStatus_DeepCopy := copy_ptr MavenArtifactStatus_DeepCopyInto.
Definition ImageRepository_DeepCopy := copy_ptr ImageRepository_DeepCopyInto.
Definition MavenArtifact_DeepCopy := copy_ptr MavenArtifact_DeepCopyInto.
Definition ImageRepositoryList_DeepCopy := copy_ptr ImageRepositoryList_DeepCopyInto.
Definition MavenArtifactList_DeepCopy := copy_ptr MavenArtifactList_DeepCopyInto.

(** A [runtime.Object]: the nil interface, or a type and a pointer to it. *)
Inductive Object := nil_object | object (t : tag) (l : loc).

(** A nil pointer does not become an interface that is not nil. *)
Definition as_object {T} (t : tag) (copy : Mem (ptr T)) : Mem Object :=
  c ← copy;
  match c with at_loc l => mret (object t l) | nil_ptr => mret nil_object end.

Definition ImageRepository_DeepCopyObject p := as_object tag_ImageRepository (ImageRepository_DeepCopy p).
Definition MavenArtifact_DeepCopyObject p := as_object tag_MavenArtifact (MavenArtifact_DeepCopy p).
Definition ImageRepositoryList_DeepCopyObject p :=
  as_object tag_ImageRepositoryList (ImageRepositoryList_DeepCopy p).
Definition MavenArtifactList_DeepCopyObject p :=
  as_object tag_MavenArtifactList (MavenArtifactList_DeepCopy p).
End DeepCopies.

(** ** What the objects stand for *)

(** Conditions and the observed generation. *)
Abbreviation status_value := (list Condition * Z)%type.
Abbreviation object_value OM Sp St := ((TypeMeta * OM) * (Sp * St))%type.

#[export] Instance flat_TypeMeta : Flat TypeMeta := I.
#[export] Instance flat_triple : Flat (string * Z * string) := I.
#[export] Instance flat_maven : Flat (MavenArtifactType * Repository * Z) := I.

Section Values.
Context `{KT : KubeTypes}.

#[export] Instance deep_apis_Status : Deep apis_Status status_value :=
  deep_via (T' := go_slice Condition * Z) (fun s => (st_Conditions s, st_ObservedGeneration s)) id.
#[export] Instance deep_apis_Status_laws : DeepLaws apis_Status status_value.
Proof. apply deep_via_laws. Qed.

#[export] Instance deep_IRSpec : Deep ImageRepositorySpec_mem ImageRepositorySpec :=
  deep_via (T' := (string * Z * string) * go_slice string)
    (fun s => ((m_Image s, m_ir_Interval s, m_ServiceAccountName s), m_ImagePullSecrets s))
    (fun v => mkImageRepositorySpec v.1.1.1 v.1.1.2 v.2 v.1.2).
#[export] Instance deep_IRSpec_laws : DeepLaws ImageRepositorySpec_mem ImageRepositorySpec.
Proof. apply deep_via_laws. Qed.

#[export] Instance deep_IRStatus : Deep ImageRepositoryStatus_mem (ImageRepositoryStatus (list Condition)) :=
  deep_via (T' := (apis_Status * string) * ptr Artifact)
    (fun s => ((m_ir_Status s, m_ir_URL s), m_ir_Artifact s))
    (fun v => mkImageRepositoryStatus v.1.1.1 v.1.1.2 v.1.2 v.2).
#[export] Instance deep_IRStatus_laws : DeepLaws ImageRepositoryStatus_mem (ImageRepositoryStatus (list Condition)).
Proof. apply deep_via_laws. Qed.

#[export] Instance deep_MASpec : Deep MavenArtifactSpec_mem MavenArtifactSpec :=
  deep_via (T' := (MavenArtifactType * Repository * Z) * ptr Z)
    (fun s => ((m_Artifact s, m_Repository s, m_Interval s), m_Timeout s))
    (fun v => mkMavenArtifactSpec v.1.1.1 v.1.1.2 v.1.2 v.2).
#[export] Instance deep_MASpec_laws : DeepLaws MavenArtifactSpec_mem MavenArtifactSpec.
Proof. apply deep_via_laws. Qed.

#[export] Instance deep_MAStatus : Deep MavenArtifactStatus_mem (MavenArtifactStatus (list Condition)) :=
  deep_via (T' := (apis_Status * string) * ptr Artifact)
    (fun s => ((m_Status s, m_URL s), m_Status_Artifact s))
    (fun v => mkMavenArtifactStatus v.1.1.1 v.1.1.2 v.1.2 v.2).
#[export] Instance deep_MAStatus_laws : DeepLaws MavenArtifactStatus_mem (MavenArtifactStatus (list Condition)).
Proof. apply deep_via_laws. Qed.

Section Objects.
Context {OM Sp St SpV StV : Type} `{DO : !Deep xObjectMeta OM, DOL : !DeepLaws xObjectMeta OM}.
Context `{DS : !Deep Sp SpV, DSL : !DeepLaws Sp SpV, DT : !Deep St StV, DTL : !DeepLaws St StV}.

#[export] Instance deep_object : Deep (object_mem Sp St) (object_value OM SpV StV) :=
  deep_via (fun o => ((o_TypeMeta o, o_ObjectMeta o), (o_Spec o, o_Status o))) id.
#[export] Instance deep_object_laws : DeepLaws (object_mem Sp St) (object_value OM SpV StV).
Proof. apply deep_via_laws. Qed.

Context {LM T V : Type} `{DLM : !Deep xListMeta LM, DLML : !DeepLaws xListMeta LM}.
Context `{D : !Deep T V, DL : !DeepLaws T V, ST : !Stored (list T), SD : !Data (list T)}.

#[export] Instance deep_objects : Deep (list_mem T) (TypeMeta * LM * list V) :=
  deep_via (fun o => ((l_TypeMeta o, l_ListMeta o), l_Items o)) id.
#[export] Instance deep_objects_laws : DeepLaws (list_mem T) (TypeMeta * LM * list V).
Proof. apply deep_via_laws. Qed.
End Objects.
End Values.

(** ** Every copy is a deep copy *)

(** What the machinery promises of its copies. *)
Class CopyLaws `{KT : KubeTypes} `{CM : !CopyMachinery} (OM LM : Type)
    `{DO : !Deep xObjectMeta OM, DLM : !Deep xListMeta LM} := {
  (** a time is immutable and copied by assignment *)
  Time_copied t h : Time_DeepCopyInto t h = (Ret t, h);
  ObjectMeta_copied : copies ObjectMeta_DeepCopyInto;
  ListMeta_copied : copies ListMeta_DeepCopyInto;
  Status_copied : copies Status_DeepCopyInto
}.

(** Two computations that differ in how their binds are nested. *)
Ltac same_binds :=
  intros ?; unfold meq, mbind, M_bind, mret, M_ret; intros ?; simpl;
  repeat match goal with
  | |- context [match ?m ?h with _ => _ end] =>
      lazymatch type of h with gmap _ _ => destruct (m h) as [[?|?|?] ?]; try done end
  end; try done.

Section Copied.
Context `{KT : KubeTypes} `{CM : !CopyMachinery} {OM LM : Type}.
Context `{DO : !Deep xObjectMeta OM, DOL : !DeepLaws xObjectMeta OM}.
Context `{DLM : !Deep xListMeta LM, DLML : !DeepLaws xListMeta LM}.
Context `{CL : !CopyLaws OM LM}.

Lemma Artifact_copied : copies Artifact_DeepCopyInto.
Proof.
  apply copies_flat. intros [p u r c t] h. unfold Artifact_DeepCopyInto, mbind, M_bind. simpl.
  by rewrite Time_copied.
Qed.

Lemma Repository_copied : copies Repository_DeepCopyInto.
Proof. apply copies_flat. by intros []. Qed.

Lemma IRSpec_copied : copies ImageRepositorySpec_DeepCopyInto.
Proof.
  eapply (copies_via _ (fun y => mkImageRepositorySpec_mem y.1.1.1 y.1.1.2 y.2 y.1.2)).
  3: { apply (copies_pair mret (copy_go_slice mret)); [apply copies_mret|apply copies_slice, copies_mret]. }
  - by intros [[[a b] c] d].
  - unfold ImageRepositorySpec_DeepCopyInto. same_binds.
Qed.

Lemma IRStatus_copied : copies ImageRepositoryStatus_DeepCopyInto.
Proof.
  eapply (copies_via _ (fun y => mkImageRepositoryStatus_mem y.1.1 y.1.2 y.2)).
  3: { apply (copies_pair (fun p => a ← Status_DeepCopyInto p.1; b ← mret p.2; mret (a, b))).
       - apply copies_pair; [apply Status_copied|apply copies_mret].
       - apply copies_ptr, Artifact_copied. }
  - by intros [[a b] c].
  - unfold ImageRepositoryStatus_DeepCopyInto. same_binds.
Qed.

Lemma MASpec_copied : copies MavenArtifactSpec_DeepCopyInto.
Proof.
  eapply (copies_via _ (fun y => mkMavenArtifactSpec_mem y.1.1.1 y.1.1.2 y.1.2 y.2)).
  3: { apply (copies_pair mret (copy_ptr mret)); [apply copies_mret|apply copies_ptr, copies_mret]. }
  - by intros [[[a b] c] d].
  - unfold MavenArtifactSpec_DeepCopyInto. same_binds.
Qed.

Lemma MAStatus_copied : copies MavenArtifactStatus_DeepCopyInto.
Proof.
  eapply (copies_via _ (fun y => mkMavenArtifactStatus_mem y.1.1 y.1.2 y.2)).
  3: { apply (copies_pair (fun p => a ← Status_DeepCopyInto p.1; b ← mret p.2; mret (a, b))).
       - apply copies_pair; [apply Status_copied|apply copies_mret].
       - apply copies_ptr, Artifact_copied. }
  - by intros [[a b] c].
  - unfold MavenArtifactStatus_DeepCopyInto. same_binds.
Qed.

(** An object is copied when its spec and status are. *)
Lemma object_copied {Sp St SpV StV : Type} `{DS : !Deep Sp SpV, DSL : !DeepLaws Sp SpV}
    `{DT : !Deep St StV, DTL : !DeepLaws St StV} (f : Sp -> Mem Sp) (g : St -> Mem St) :
  copies f -> copies g ->
  copies (fun o : object_mem Sp St =>
    om ← ObjectMeta_DeepCopyInto (o_ObjectMeta o); sp ← f (o_Spec o); st ← g (o_Status o);
    mret (mkobject_mem (o_TypeMeta o) om sp st)).
Proof.
  intros Hf Hg.
  eapply (copies_via _ (fun y => mkobject_mem y.1.1 y.1.2 y.2.1 y.2.2)).
  3: { apply (copies_pair (fun p => a ← mret p.1; b ← ObjectMeta_DeepCopyInto p.2; mret (a, b))
                          (fun p => a ← f p.1; b ← g p.2; mret (a, b))).
       - apply copies_pair; [apply copies_mret|apply ObjectMeta_copied].
       - by apply copies_pair. }
  - by intros [[a b] [c d]].
  - same_binds.
Qed.

Lemma IR_copied : copies ImageRepository_DeepCopyInto.
Proof. apply object_copied; [apply IRSpec_copied|apply IRStatus_copied]. Qed.

Lemma MA_copied : copies MavenArtifact_DeepCopyInto.
Proof. apply object_copied; [apply MASpec_copied|apply MAStatus_copied]. Qed.

Lemma list_copied {T V : Type} `{D : !Deep T V, DL : !DeepLaws T V, ST : !Stored (list T), SD : !Data (list T)} (f : T -> Mem T) :
  copies f ->
  copies (fun o : list_mem T =>
    lm ← ListMeta_DeepCopyInto (l_ListMeta o); items ← copy_go_slice f (l_Items o);
    mret (mklist_mem (l_TypeMeta o) lm items)).
Proof.
  intros Hf. eapply (copies_via _ (fun y => mklist_mem y.1.1 y.1.2 y.2)).
  3: { apply (copies_pair (fun p => a ← mret p.1; b ← ListMeta_DeepCopyInto p.2; mret (a, b))).
       - apply copies_pair; [apply copies_mret|apply ListMeta_copied].
       - by apply copies_slice. }
  - by intros [[a b] c].
  - same_binds.
Qed.

Lemma IRList_copied : copies ImageRepositoryList_DeepCopyInto.
Proof. apply list_copied, IR_copied. Qed.

Lemma MAList_copied : copies MavenArtifactList_DeepCopyInto.
Proof. apply list_copied, MA_copied. Qed.
End Copied.
