(* ===== verification/Dies.v ===== *)
(** * Dies (dies/source/v1alpha1/zz_generated.die.go)

    A die holds a resource that is being built, and the resource it is
    compared with.  The generator writes the same methods for each of the
    nine types; they are written once here, for any type, and instantiated in
    DieTypes.v.  A die is used through a pointer: a method of an immutable die
    returns a new die, a method of a mutable one changes it in place. *)

From stdpp Require Import fin_sets.
From S2P Require Import Prelude GoErrors Effects Runtime ApiTypes GoHeap GoDeep.

(** What the generator fills into its template: the zero value of the type,
    the metadata that is frozen, and [DeepCopyInto]. *)
Class DieType `{KT : KubeTypes} (F T : Type) := {
  die_zero : T;
  die_freeze : T -> F;
  die_DeepCopyInto : T -> Mem T
}.

(** encoding/json, sigs.k8s.io/yaml, go-cmp and the unstructured converter,
    for one type.  [Unmarshal] fills in the variable it is given. *)
Class Codec `{KT : KubeTypes} (T : Type) := {
  RawExtension : Type;
  Unstructured : Type;
  CmpOption : Type;
  PatchType : Type;
  json_Unmarshal : string -> loc -> Mem (option error);
  yaml_Unmarshal : string -> loc -> Mem (option error);
  json_Marshal : T -> Mem (string + error);
  yaml_Marshal : T -> Mem (string + error);
  json_Marshal_raw : RawExtension -> string + error;
  json_Unmarshal_raw : string -> RawExtension + error;
  ToUnstructured : T -> Mem (Unstructured + error);
  cmp_Diff : T -> T -> list CmpOption -> Mem string;
  patch_Create : T -> T -> PatchType -> Mem (string + error);
  osx_ReadFile : string -> Mem (string + error)
}.

(** [reflect] and client-go's [jsonpath]. *)
Class Reflection `{KT : KubeTypes} := {
  reflect_Type : Type;
  reflect_Value : Type;
  AssignableTo : reflect_Type -> reflect_Type -> bool;
  value_Type : reflect_Value -> reflect_Type;
  CanAddr : reflect_Value -> bool;
  Addr : reflect_Value -> reflect_Value;
  type_String : reflect_Type -> string;
  JSONPath : Type;
  jsonpath_Parse : string -> JSONPath + error;
  FindResults : JSONPath -> loc -> Mem (list (list reflect_Value) + error)
}.

(** A callback of unknown type. *)
Record callback `{RF : Reflection} := mkCallback {
  NumIn : nat;
  NumOut : nat;
  In0 : reflect_Type;
  Call : reflect_Value -> Mem unit
}.

Section Methods.
Context `{KT : KubeTypes} {F T : Type} `{ST : !Stored T, SD : !Stored (Die F T), DT : !DieType F T}.

(** The fields of the die. *)
Abbreviation load_die := (load (T := Die F T)).

(** [*x.DeepCopy()] *)
Definition deref_DeepCopy (x : T) : Mem T :=
  y ← die_DeepCopyInto x; l ← new y; load l.

Definition Die_DeepCopy (d : loc) : Mem loc :=
  x ← load_die d;
  r ← deref_DeepCopy (d_r x);
  new (mkDie (die_freeze r) (d_mutable x) r (d_seal x)).

Definition DieImmutable (d : loc) (immutable : bool) : Mem loc :=
  x ← load_die d;
  if Bool.eqb (d_mutable x) (negb immutable) then mret d
  else
    d ← Die_DeepCopy d;
    x ← load_die d;
    _ ← store d (mkDie (d_frozen x) (negb immutable) (d_r x) (d_seal x));
    mret d.

Definition DieFeed (d : loc) (r : T) : Mem loc :=
  x ← load_die d;
  if d_mutable x
  then _ ← store d (mkDie (die_freeze r) (d_mutable x) r (d_seal x)); mret d
  else new (mkDie (die_freeze r) (d_mutable x) r (d_seal x)).

Definition DieFeedPtr (d : loc) (r : ptr T) : Mem loc :=
  match r with
  | nil_ptr => DieFeed d die_zero
  | at_loc l => r ← load l; DieFeed d r
  end.

Definition DieRelease (d : loc) : Mem T :=
  x ← load_die d;
  if d_mutable x then mret (d_r x) else deref_DeepCopy (d_r x).

Definition DieReleasePtr (d : loc) : Mem loc := r ← DieRelease d; new r.

(** [fn] gets a pointer to a variable that holds the released resource. *)
Definition DieStamp (d : loc) (fn : loc -> Mem unit) : Mem loc :=
  r ← DieRelease d;
  l ← new r;
  _ ← fn l;
  r ← load l;
  DieFeed d r.

(** The package's blank die is the argument; a nil callback is [None]. *)
Definition DieWith (Blank d : loc) (fns : list (option (loc -> Mem unit))) : Mem loc :=
  r ← DieRelease d;
  fed ← DieFeed Blank r;
  nd ← DieImmutable fed false;
  _ ← for_each fns (fun fn => match fn with Some fn => fn nd | None => mret tt end);
  r ← DieRelease nd;
  DieFeed d r.

Definition DieSealFeed (d : loc) (r : T) : Mem loc :=
  x ← load_die d;
  d ← (if d_mutable x then mret d else Die_DeepCopy d);
  seal ← deref_DeepCopy r;
  x ← load_die d;
  _ ← store d (mkDie (d_frozen x) (d_mutable x) (d_r x) seal);
  mret d.

Definition DieSeal (d : loc) : Mem loc := x ← load_die d; DieSealFeed d (d_r x).

Definition DieSealFeedPtr (d : loc) (r : ptr T) : Mem loc :=
  match r with
  | nil_ptr => DieSealFeed d die_zero
  | at_loc l => r ← load l; DieSealFeed d r
  end.

Definition DieSealRelease (d : loc) : Mem T := x ← load_die d; deref_DeepCopy (d_seal x).
Definition DieSealReleasePtr (d : loc) : Mem loc := r ← DieSealRelease d; new r.

(** [var Blank = (&Die{}).DieFeed(T{})] *)
Definition Blank_init : Mem loc :=
  d ← new (mkDie (die_freeze die_zero) false die_zero die_zero); DieFeed d die_zero.

(** ** Encodings *)

Context `{CD : !Codec T}.

(** [if err != nil { panic(err) }] *)
Definition or_panic {A : Type} (r : A + error) : Mem A :=
  match r with inl a => mret a | inr _ => panic "panic(err)" end.

Definition feed_decoded (decode : string -> loc -> Mem (option error)) (d : loc) (j : string) : Mem loc :=
  l ← new die_zero;
  err ← decode j l;
  match err with
  | Some _ => panic "panic(err)"
  | None => r ← load l; DieFeed d r
  end.

Definition DieFeedJSON (d : loc) (j : string) : Mem loc := feed_decoded json_Unmarshal d j.
Definition DieFeedYAML (d : loc) (y : string) : Mem loc := feed_decoded yaml_Unmarshal d y.
Definition DieFeedYAMLFile (d : loc) (name : string) : Mem loc :=
  r ← osx_ReadFile name; y ← or_panic r; DieFeedYAML d y.
Definition DieFeedRawExtension (d : loc) (raw : RawExtension) : Mem loc :=
  j ← or_panic (json_Marshal_raw raw); DieFeedJSON d j.

Definition release_encoded {A : Type} (encode : T -> Mem (A + error)) (d : loc) : Mem A :=
  l ← DieReleasePtr d; r ← load l; j ← encode r; or_panic j.

Definition DieReleaseJSON (d : loc) : Mem string := release_encoded json_Marshal d.
Definition DieReleaseYAML (d : loc) : Mem string := release_encoded yaml_Marshal d.
Definition DieReleaseUnstructured (d : loc) : Mem Unstructured := release_encoded ToUnstructured d.
Definition DieReleaseRawExtension (d : loc) : Mem RawExtension :=
  j ← DieReleaseJSON d; or_panic (json_Unmarshal_raw j).

Definition DieDiff (d : loc) (opts : list CmpOption) : Mem string :=
  x ← load_die d; cmp_Diff (d_seal x) (d_r x) opts.
Definition DiePatch (d : loc) (patchType : PatchType) : Mem (string + error) :=
  x ← load_die d; patch_Create (d_seal x) (d_r x) patchType.

Definition Die_MarshalJSON (d : loc) : Mem (string + error) := x ← load_die d; json_Marshal (d_r x).

(** [*d = *d.DieFeed( *resource)], also when decoding has failed. *)
Definition Die_UnmarshalJSON (d : loc) (b : string) : Mem (option error) :=
  x ← load_die d;
  if negb (d_mutable x)
  then mret (Some (fmt_Errorf "cannot unmarshal into immutable dies, create a mutable version first" []))
  else
    resource ← new die_zero;
    err ← json_Unmarshal b resource;
    r ← load resource;
    d' ← DieFeed d r;
    x ← load_die d';
    _ ← store d x;
    mret err.

(** ** Stamping at a path *)

Context `{RF : !Reflection}.

Definition call_with (fn : callback) (cv : reflect_Value) : Mem unit :=
  if AssignableTo (value_Type cv) (In0 fn) then Call fn cv
  else if CanAddr cv && AssignableTo (value_Type (Addr cv)) (In0 fn) then Call fn (Addr cv)
  else panic "callback function must accept value of type %q, found type %q".

Definition DieStampAt (d : loc) (jp : string) (fn : callback) : Mem loc :=
  DieStamp d (fun r =>
    if negb (NumIn fn =? 1)%nat then panic "callback function must have 1 input parameters"
    else if negb (NumOut fn =? 0)%nat then panic "callback function must have 0 output parameters"
    else
      match jsonpath_Parse ("{" +:+ jp +:+ "}") with
      | inr _ => panic "panic(err)"
      | inl cp =>
          cr ← FindResults cp r;
          match cr with
          | inr _ => mret tt
          | inl [] => panic "index out of range [0] with length 0"
          | inl (cvs :: _) => for_each cvs (call_with fn)
          end
      end).

(** ** The methods of one type *)

Record die_feeds := mkFeeds {
  m_DieImmutable : loc -> bool -> Mem loc;
  m_DieFeed : loc -> T -> Mem loc;
  m_DieFeedPtr : loc -> ptr T -> Mem loc;
  m_DieFeedJSON : loc -> string -> Mem loc;
  m_DieFeedYAML : loc -> string -> Mem loc;
  m_DieFeedYAMLFile : loc -> string -> Mem loc;
  m_DieFeedRawExtension : loc -> RawExtension -> Mem loc;
  m_DieRelease : loc -> Mem T;
  m_DieReleasePtr : loc -> Mem loc;
  m_DieReleaseJSON : loc -> Mem string;
  m_DieReleaseYAML : loc -> Mem string;
  m_DieReleaseRawExtension : loc -> Mem RawExtension
}.

Definition feeds : die_feeds :=
  mkFeeds DieImmutable DieFeed DieFeedPtr DieFeedJSON DieFeedYAML DieFeedYAMLFile DieFeedRawExtension
    DieRelease DieReleasePtr DieReleaseJSON DieReleaseYAML DieReleaseRawExtension.

Record die_stamps := mkStamps {
  m_DieStamp : loc -> (loc -> Mem unit) -> Mem loc;
  m_DieStampAt : loc -> string -> callback -> Mem loc;
  m_DieWith : loc -> list (option (loc -> Mem unit)) -> Mem loc;
  m_DeepCopy : loc -> Mem loc;
  m_DieSeal : loc -> Mem loc;
  m_DieSealFeed : loc -> T -> Mem loc;
  m_DieSealFeedPtr : loc -> ptr T -> Mem loc;
  m_DieSealRelease : loc -> Mem T;
  m_DieSealReleasePtr : loc -> Mem loc;
  m_DieDiff : loc -> list CmpOption -> Mem string;
  m_DiePatch : loc -> PatchType -> Mem (string + error)
}.

Definition stamps (Blank : loc) : die_stamps :=
  mkStamps DieStamp DieStampAt (DieWith Blank) Die_DeepCopy DieSeal DieSealFeed DieSealFeedPtr
    DieSealRelease DieSealReleasePtr DieDiff DiePatch.

(** ** Setters *)

(** [r.F = v], for a pointer [r]. *)
Definition assign_at {R} `{!Stored R} (l : loc) (f : R -> R) : Mem unit := x ← load l; store l (f x).

(** [d := Blank.DieImmutable(false).DieFeed(r.F); fn(d); r.F = d.DieRelease()],
    for an outer resource of type [R]. *)
Definition assign_die {R} `{!Stored R} (Blank : loc) (get_field : R -> T) (put_field : T -> R -> R)
    (fn : loc -> Mem unit) (l : loc) : Mem unit :=
  x ← load l;
  nd ← (b ← DieImmutable Blank false; DieFeed b (get_field x));
  _ ← fn nd;
  v ← DieRelease nd;
  assign_at l (put_field v).

Definition DieSet (d : loc) (f : T -> T) : Mem loc := DieStamp d (fun r => assign_at r f).
End Methods.
Arguments die_feeds {KT} T {CD}.
Arguments die_stamps {KT} T {CD RF}.
