(* ===== verification/DieFacts.v ===== *)
(** * Facts about dies

    A die represents a pure value: its resource, its seal and whether it is
    mutable.  Each method refines the function on such values it is named
    for; on an immutable die it changes no cell, on a mutable one only the
    die's own. *)

From stdpp Require Import fin_sets.
From S2P Require Import Prelude GoErrors Effects Runtime ApiTypes GoHeap GoDeep Dies.

(** The abstract die. *)
Record die (V : Type) := mkdie { a_mutable : bool; a_value : V; a_seal : V }.
Arguments mkdie {V}.
Arguments a_mutable {V}.
Arguments a_value {V}.
Arguments a_seal {V}.

Definition with_value {V} (v : V) (a : die V) : die V := mkdie (a_mutable a) v (a_seal a).
Definition with_seal {V} (v : V) (a : die V) : die V := mkdie (a_mutable a) (a_value a) v.

Section Changes.
Context `{KT : KubeTypes}.

#[export] Instance changes_preorder X : PreOrder (changes X).
Proof.
  split; [by intros h l|]. intros h1 h2 h3 H1 H2 l Hl HX.
  rewrite H2; [by apply H1| |done]. apply elem_of_dom. rewrite H1 by done. by apply elem_of_dom.
Qed.

Lemma changes_subseteq X (h h' : heap) : changes X h h' -> X ## dom h -> h ⊆ h'.
Proof.
  intros Hc HX. apply map_subseteq_spec. intros l c Hl.
  rewrite Hc; [done|apply elem_of_dom; by eexists|]. intros Hin.
  apply (HX l Hin). apply elem_of_dom. by eexists.
Qed.

Lemma subseteq_changes X (h h' : heap) : h ⊆ h' -> changes X h h'.
Proof.
  intros Hs l Hl _. apply elem_of_dom in Hl as [c Hc]. rewrite Hc. by eapply lookup_weaken.
Qed.

Lemma changes_store {T} `{!Stored T} (h : heap) l (x : T) : changes {[l]} h (<[l := inj x]> h).
Proof. intros l' _ Hl'. apply lookup_insert_ne. set_solver. Qed.

Lemma deep_changes {T V} `{DeepLaws T V} X (h h' : heap) x v :
  changes X h h' -> deep h x = Some v -> X ## reach h x -> deep h' x = Some v /\ reach h' x = reach h x.
Proof.
  intros Hc Hd HX. apply deep_local; [done|]. intros l Hl. apply Hc; [by eapply deep_reach|set_solver].
Qed.
End Changes.

Section Methods.
Context `{KT : KubeTypes} {F T V : Type} `{ST : !Stored T, SD : !Stored (Die F T), DT : !DieType F T}.
Context `{D : !Deep T V, DL : !DeepLaws T V}.
Context `{ND : !NotData (Die F T)}.
Context (Hcopy : copies die_DeepCopyInto).

(** The die at [d] stands for [a]. *)
Definition represents (h : heap) (d : loc) (a : die V) : Prop :=
  exists x : Die F T, read_at h d = Some x /\ d_mutable x = a_mutable a /\
    deep h (d_r x) = Some (a_value a) /\ deep h (d_seal x) = Some (a_seal a) /\
    d_frozen x = die_freeze (d_r x).

Lemma represents_dom h d a : represents h d a -> d ∈ dom h.
Proof. intros (x & Hx & _). by eapply read_dom. Qed.

(** A die is no part of a resource. *)
Lemma die_not_data h d (x : Die F T) X : read_at h d = Some x -> data_cells h X -> d ∉ X.
Proof.
  intros (c & Hc & Ht)%read_tag HX Hd. destruct (HX d Hd) as (c' & Hc' & Ht').
  rewrite Hc in Hc'. injection Hc' as <-. rewrite Ht, not_data in Ht'. done.
Qed.

Lemma represents_weaken h h' d a : represents h d a -> h ⊆ h' -> represents h' d a.
Proof.
  intros (x & Hx & Hm & Hr & Hs & Hf) Hsub. exists x.
  destruct (deep_weaken h h' _ _ Hr Hsub) as [Hr' _]. destruct (deep_weaken h h' _ _ Hs Hsub) as [Hs' _].
  split; [|done]. rewrite <- Hx. apply read_same.
  apply read_dom in Hx. apply elem_of_dom in Hx as [c Hc]. rewrite Hc. by eapply lookup_weaken.
Qed.

(** A fresh die, and a die changed in place. *)
Lemma represents_new h (x : Die F T) a :
  d_mutable x = a_mutable a -> deep h (d_r x) = Some (a_value a) -> deep h (d_seal x) = Some (a_seal a) ->
  d_frozen x = die_freeze (d_r x) ->
  exists d h', new x h = (Ret d, h') /\ h ⊆ h' /\ d ∉ dom h /\ represents h' d a.
Proof.
  intros Hm Hr Hs Hf. destruct (new_fresh h x) as (d & En & Hd).
  assert (h ⊆ <[d := inj x]> h) as Hsub by by apply fresh_subseteq.
  exists d, (<[d := inj x]> h). split; [done|]. split; [done|]. split; [done|].
  exists x. rewrite read_insert. split; [done|].
  destruct (deep_weaken h _ _ _ Hr Hsub) as [-> _]. by destruct (deep_weaken h _ _ _ Hs Hsub) as [-> _].
Qed.

Lemma represents_store h d (x0 x : Die F T) a :
  read_at h d = Some x0 ->
  d_mutable x = a_mutable a -> deep h (d_r x) = Some (a_value a) -> deep h (d_seal x) = Some (a_seal a) ->
  d_frozen x = die_freeze (d_r x) ->
  changes {[d]} h (<[d := inj x]> h) /\ represents (<[d := inj x]> h) d a.
Proof.
  intros Hd Hm Hr Hs Hf. pose proof (changes_store h d x) as Hc. split; [done|].
  exists x. rewrite read_insert. split; [done|].
  assert (forall y v, deep h y = Some v -> {[d]} ## reach h y) as Hdisj.
  { intros y v Hy. apply disjoint_singleton_l. eapply die_not_data; [done|by eapply deep_data]. }
  destruct (deep_changes _ _ _ _ _ Hc Hr (Hdisj _ _ Hr)) as [-> _].
  by destruct (deep_changes _ _ _ _ _ Hc Hs (Hdisj _ _ Hs)) as [-> _].
Qed.

(** What a method that turns [a] into [a'] promises. *)
Definition becomes (h : heap) (d : loc) (a a' : die V) (m : Mem loc) : Prop :=
  exists d' h', m h = (Ret d', h') /\ represents h' d' a' /\ a_mutable a' = a_mutable a /\
    if a_mutable a then d' = d /\ changes {[d]} h h' else d' ∉ dom h /\ h ⊆ h'.

Lemma becomes_changes h d a a' m h0 :
  becomes h d a a' m -> h0 ⊆ h -> d ∉ dom h0 -> exists d' h', m h = (Ret d', h') /\ h0 ⊆ h'.
Proof.
  intros (d' & h' & Em & _ & _ & Hif) Hs Hd. exists d', h'. split; [done|].
  destruct (a_mutable a); [|transitivity h; [done|apply Hif]].
  destruct Hif as [_ Hc]. apply map_subseteq_spec. intros l c Hl.
  assert (l ∈ dom h0) as Hl0 by (apply elem_of_dom; by eexists).
  rewrite Hc; [by eapply lookup_weaken|by apply subseteq_dom in Hs; apply Hs|set_solver].
Qed.

(** ** Copies, feeding and releasing *)

Lemma deref_DeepCopy_makes h (r : T) v :
  deep h r = Some v ->
  exists y h', deref_DeepCopy r h = (Ret y, h') /\ h ⊆ h' /\ deep h' y = Some v /\ reach h' y ## dom h.
Proof.
  intros Hd. destruct (Hcopy h r v Hd) as (y & h1 & Ec & Hs & Hdy & Hry).
  destruct (new_fresh h1 y) as (l & En & Hl).
  assert (h1 ⊆ <[l := inj y]> h1) as Hs1 by by apply fresh_subseteq.
  destruct (deep_weaken h1 _ _ _ Hdy Hs1) as [Hd1 Hr1].
  exists y, (<[l := inj y]> h1). unfold deref_DeepCopy.
  rewrite (bind_Ret _ _ _ _ _ Ec), (bind_Ret _ _ _ _ _ En), (load_Ret _ _ y) by apply read_insert.
  split; [done|]. split; [by transitivity h1|]. by rewrite Hd1, Hr1.
Qed.

Lemma Die_DeepCopy_fresh h d a :
  represents h d a ->
  exists d' h', Die_DeepCopy d h = (Ret d', h') /\ represents h' d' a /\ d' ∉ dom h /\ h ⊆ h'.
Proof.
  intros (x & Hx & Hm & Hr & Hs & Hf). unfold Die_DeepCopy.
  rewrite (bind_Ret _ _ _ _ _ (load_Ret _ _ _ Hx)).
  destruct (deref_DeepCopy_makes h _ _ Hr) as (y & h1 & Ec & Hsub & Hdy & Hry).
  rewrite (bind_Ret _ _ _ _ _ Ec).
  destruct (represents_new h1 (mkDie (die_freeze y) (d_mutable x) y (d_seal x)) a)
    as (d' & h2 & En & Hs2 & Hd' & Hrep); simpl; try done.
  { by apply (deep_weaken h h1). }
  exists d', h2. split; [done|]. split; [done|]. apply subseteq_dom in Hsub as Hdom.
  split; [set_solver|by transitivity h1].
Qed.

Lemma DieFeed_becomes h d a r v :
  represents h d a -> deep h r = Some v -> becomes h d a (with_value v a) (DieFeed d r).
Proof.
  intros (x & Hx & Hm & Hr & Hs & Hf) Hv. unfold becomes, DieFeed.
  rewrite (bind_Ret _ _ _ _ _ (load_Ret _ _ _ Hx)), Hm. destruct (a_mutable a) eqn:Ea.
  - destruct (represents_store h d x (mkDie (die_freeze r) true r (d_seal x)) (with_value v a))
      as [Hc Hrep]; simpl; try done.
    by exists d, (<[d := inj (mkDie (die_freeze r) true r (d_seal x))]> h).
  - destruct (represents_new h (mkDie (die_freeze r) false r (d_seal x)) (with_value v a))
      as (d' & h' & En & Hs' & Hd' & Hrep); simpl; try done.
    by exists d', h'.
Qed.

(** The released resource depends on no cell of the old heap when the die is
    immutable. *)
Lemma DieRelease_value h d a :
  represents h d a ->
  exists y h', DieRelease d h = (Ret y, h') /\ h ⊆ h' /\ deep h' y = Some (a_value a) /\
    (a_mutable a = false -> reach h' y ## dom h).
Proof.
  intros (x & Hx & Hm & Hr & Hs & Hf). unfold DieRelease.
  rewrite (bind_Ret _ _ _ _ _ (load_Ret _ _ _ Hx)), Hm. destruct (a_mutable a).
  - by exists (d_r x), h.
  - destruct (deref_DeepCopy_makes h _ _ Hr) as (y & h1 & Ec & H1 & H2 & H3). by exists y, h1.
Qed.

Lemma DieImmutable_same h d a b :
  represents h d a -> a_mutable a = negb b -> DieImmutable d b h = (Ret d, h).
Proof.
  intros (x & Hx & Hm & _) Hb. unfold DieImmutable. rewrite (bind_Ret _ _ _ _ _ (load_Ret _ _ _ Hx)).
  rewrite Hm, Hb. by rewrite eqb_reflx.
Qed.

Lemma DieImmutable_other h d a b :
  represents h d a -> a_mutable a = b ->
  exists d' h', DieImmutable d b h = (Ret d', h') /\ d' ∉ dom h /\ h ⊆ h' /\
    represents h' d' (mkdie (negb b) (a_value a) (a_seal a)).
Proof.
  intros Hrep Hb. pose proof Hrep as (x & Hx & Hm & _). unfold DieImmutable.
  rewrite (bind_Ret _ _ _ _ _ (load_Ret _ _ _ Hx)), Hm, Hb.
  assert (Bool.eqb b (negb b) = false) as -> by by destruct b.
  destruct (Die_DeepCopy_fresh h d a Hrep) as (d' & h1 & Ec & (y & Hy & Hmy & Hry & Hsy & Hfy) & Hd' & Hs).
  rewrite (bind_Ret _ _ _ _ _ Ec), (bind_Ret _ _ _ _ _ (load_Ret _ _ _ Hy)).
  destruct (represents_store h1 d' y (mkDie (d_frozen y) (negb b) (d_r y) (d_seal y))
              (mkdie (negb b) (a_value a) (a_seal a))) as [Hc Hrep']; simpl; try done.
  exists d', (<[d' := inj (mkDie (d_frozen y) (negb b) (d_r y) (d_seal y))]> h1).
  split; [done|]. split; [done|]. split; [|done].
  apply (changes_subseteq {[d']}); [|set_solver].
  intros l Hl Hne. rewrite Hc; [by apply (subseteq_changes ∅ h h1)| |done].
  apply subseteq_dom in Hs. by apply Hs.
Qed.

(** A die made mutable or immutable is the same value; it is a new die
    unless nothing is to be done. *)
Lemma DieImmutable_value h d a b :
  represents h d a ->
  exists d' h', DieImmutable d b h = (Ret d', h') /\ h ⊆ h' /\
    represents h' d' (mkdie (negb b) (a_value a) (a_seal a)) /\
    if decide (a_mutable a = negb b) then d' = d else d' ∉ dom h.
Proof.
  intros Hrep. destruct (decide (a_mutable a = negb b)) as [Hm|Hm].
  - exists d, h. split; [by eapply DieImmutable_same|]. split; [done|]. split; [|done].
    rewrite <- Hm. by destruct a.
  - assert (a_mutable a = b) as Hb by (by destruct (a_mutable a), b).
    destruct (DieImmutable_other h d a b Hrep Hb) as (d' & h' & E & Hd & Hs & Hr). by exists d', h'.
Qed.

(** The seal is released as a copy, whether the die is mutable or not. *)
Lemma DieSealRelease_value h d a :
  represents h d a ->
  exists y h', DieSealRelease d h = (Ret y, h') /\ h ⊆ h' /\ deep h' y = Some (a_seal a) /\ reach h' y ## dom h.
Proof.
  intros (x & Hx & _ & _ & Hs & _). unfold DieSealRelease.
  rewrite (bind_Ret _ _ _ _ _ (load_Ret _ _ _ Hx)). by apply deref_DeepCopy_makes.
Qed.

(** ** Stamping *)

(** On every heap that extends [h0], [fn] changes the variable it is given,
    and nothing else, so that it stands for [f] of what it stood for. *)
Definition sets (h0 : heap) (fn : loc -> Mem unit) (f : V -> V) : Prop :=
  forall h l (x : T) v, h0 ⊆ h -> l ∉ dom h0 -> l ∉ reach h x -> read_at h l = Some x -> deep h x = Some v ->
  exists h' x', fn l h = (Ret tt, h') /\ read_at h' l = Some x' /\ deep h' x' = Some (f v) /\
    changes {[l]} h h'.

Lemma sets_weaken h0 h1 fn f : sets h0 fn f -> h0 ⊆ h1 -> sets h1 fn f.
Proof.
  intros Hs H1 h l x v Hh Hl. apply Hs; [by transitivity h1|]. apply subseteq_dom in H1. set_solver.
Qed.

(** Running the callback on a new variable leaves the old heap as it was. *)
Lemma sets_run h0 h fn f (r : T) v :
  sets h0 fn f -> h0 ⊆ h -> deep h r = Some v ->
  exists l h1 h2 r', new r h = (Ret l, h1) /\ fn l h1 = (Ret tt, h2) /\ load l h2 = (Ret r', h2) /\
    deep h2 r' = Some (f v) /\ h ⊆ h2.
Proof.
  intros Hset Hs Hr. destruct (new_fresh h r) as (l & En & Hl).
  assert (h ⊆ <[l := inj r]> h) as Hs1 by by apply fresh_subseteq.
  destruct (deep_weaken h _ _ _ Hr Hs1) as [Hr1 Hre].
  destruct (Hset (<[l := inj r]> h) l r v) as (h2 & r' & Ef & Hl2 & Hd2 & Hc); try done.
  { by transitivity h. }
  { apply subseteq_dom in Hs. set_solver. }
  { rewrite Hre. apply deep_reach in Hr. set_solver. }
  { apply read_insert. }
  exists l, (<[l := inj r]> h), h2, r'. repeat split; try done; [by apply load_Ret|].
  apply (changes_subseteq {[l]}); [|set_solver].
  transitivity (<[l := inj r]> h); [apply changes_store|done].
Qed.

Lemma becomes_weaken h0 h d a a' m m' :
  h0 ⊆ h -> represents h0 d a -> m' h0 = m h -> becomes h d a a' m -> becomes h0 d a a' m'.
Proof.
  intros Hs Hrep Heq (d' & h' & Em & Hr' & Hm & Hif). exists d', h'. rewrite Heq.
  split; [done|]. split; [done|]. split; [done|]. destruct (a_mutable a).
  - split; [apply Hif|]. transitivity h; [by apply subseteq_changes|apply Hif].
  - destruct Hif as [Hd Hsub]. split; [|by transitivity h]. apply subseteq_dom in Hs. set_solver.
Qed.

Lemma DieStamp_becomes h d a fn f :
  represents h d a -> sets h fn f -> becomes h d a (with_value (f (a_value a)) a) (DieStamp d fn).
Proof.
  intros Hrep Hset.
  destruct (DieRelease_value h d a Hrep) as (r & h1 & Er & Hs1 & Hr & _).
  destruct (sets_run h h1 fn f r (a_value a) Hset Hs1 Hr) as (l & h2 & h3 & r' & En & Ef & El & Hr' & Hs3).
  assert (h ⊆ h3) as Hs by by transitivity h1.
  eapply (becomes_weaken h h3 d a _ (DieFeed d r')); [done|done| |].
  - unfold DieStamp. rewrite (bind_Ret _ _ _ _ _ Er), (bind_Ret _ _ _ _ _ En), (bind_Ret _ _ _ _ _ Ef).
    by rewrite (bind_Ret _ _ _ _ _ El).
  - apply DieFeed_becomes; [by eapply represents_weaken|done].
Qed.

(** Field assignments. *)
Lemma assign_sets h0 (g : T -> T) (f : V -> V) :
  (forall h x v, h0 ⊆ h -> deep h x = Some v ->
     deep h (g x) = Some (f v) /\ forall l, l ∉ dom h0 -> l ∉ reach h x -> l ∉ reach h (g x)) ->
  sets h0 (fun r => assign_at r g) f.
Proof.
  intros Hg h l x v Hs Hl Hlx Hx Hv. destruct (Hg h x v Hs Hv) as [Hgv Hre].
  exists (<[l := inj (g x)]> h), (g x). unfold assign_at. rewrite (bind_Ret _ _ _ _ _ (load_Ret _ _ _ Hx)).
  split; [done|]. split; [apply read_insert|]. split; [|apply changes_store].
  apply (deep_changes {[l]} h); [apply changes_store|done|]. apply disjoint_singleton_l. by apply Hre.
Qed.

(** ** Callbacks on a mutable die *)

(** On every heap that extends [h0], [g] changes the mutable die it is given,
    and nothing else. *)
Definition acts (h0 : heap) (g : loc -> Mem unit) (f : V -> V) : Prop :=
  forall h d a, h0 ⊆ h -> d ∉ dom h0 -> represents h d a -> a_mutable a = true ->
  exists h', g d h = (Ret tt, h') /\ represents h' d (with_value (f (a_value a)) a) /\ changes {[d]} h h'.

(** A method called on the die, its result dropped. *)
Lemma becomes_acts h0 (m : loc -> Mem loc) f :
  (forall h d a, h0 ⊆ h -> represents h d a -> becomes h d a (with_value (f (a_value a)) a) (m d)) ->
  acts h0 (fun d => _ ← m d; mret tt) f.
Proof.
  intros Hm h d a Hs Hd Hrep Ha. destruct (Hm h d a Hs Hrep) as (d' & h' & Em & Hr' & _ & Hif).
  rewrite Ha in Hif. destruct Hif as [-> Hc]. exists h'. by rewrite (bind_Ret _ _ _ _ _ Em).
Qed.

Lemma stamp_acts h0 fn f : sets h0 fn f -> acts h0 (fun d => _ ← DieStamp d fn; mret tt) f.
Proof. intros Hs. apply becomes_acts. intros h d a Hh Hrep. apply DieStamp_becomes; [done|by eapply sets_weaken]. Qed.

Lemma acts_seq h0 g1 g2 f1 f2 :
  acts h0 g1 f1 -> acts h0 g2 f2 -> acts h0 (fun d => _ ← g1 d; g2 d) (fun v => f2 (f1 v)).
Proof.
  intros H1 H2 h d a Hs Hd Hrep Ha.
  destruct (H1 h d a Hs Hd Hrep Ha) as (h1 & E1 & Hr1 & Hc1).
  assert (h0 ⊆ h1) as Hs1.
  { apply (changes_subseteq {[d]}); [|set_solver]. intros l Hl Hne. apply subseteq_dom in Hs as Hdom.
    rewrite Hc1; [by apply (subseteq_changes ∅ h0 h)|by apply Hdom|done]. }
  destruct (H2 h1 d _ Hs1 Hd Hr1 Ha) as (h2 & E2 & Hr2 & Hc2).
  exists h2. rewrite (bind_Ret _ _ _ _ _ E1). split; [done|]. split; [done|]. by transitivity h1.
Qed.

Definition run_callback (d : loc) (fn : option (loc -> Mem unit)) : Mem unit :=
  match fn with Some fn => fn d | None => mret tt end.

(** A nil callback is skipped. *)
Definition acts_all (h0 : heap) : list (option (loc -> Mem unit)) -> list (option (V -> V)) -> Prop :=
  Forall2 (fun g f => match g, f with Some g, Some f => acts h0 g f | None, None => True | _, _ => False end).

Definition apply_all (fs : list (option (V -> V))) (v : V) : V :=
  fold_left (fun v f => match f with Some f => f v | None => v end) fs v.

Lemma changes_keeps h0 h h' d : changes {[d]} h h' -> h0 ⊆ h -> d ∉ dom h0 -> h0 ⊆ h'.
Proof.
  intros Hc Hs Hd. apply (changes_subseteq {[d]}); [|set_solver].
  intros l Hl Hne. apply subseteq_dom in Hs as Hdom.
  rewrite Hc; [by apply (subseteq_changes ∅ h0 h)|by apply Hdom|done].
Qed.

Lemma callbacks_run h0 gs fs h d a :
  acts_all h0 gs fs -> h0 ⊆ h -> d ∉ dom h0 -> represents h d a -> a_mutable a = true ->
  exists h', for_each gs (run_callback d) h = (Ret tt, h') /\
    represents h' d (with_value (apply_all fs (a_value a)) a) /\ h0 ⊆ h'.
Proof.
  intros Hall. revert h a. induction Hall as [|g f gs fs Hgf _ IH]; intros h a Hs Hd Hrep Ha.
  - exists h. split; [done|]. split; [by destruct a|done].
  - destruct g as [g|], f as [f|]; try done.
    + destruct (Hgf h d a Hs Hd Hrep Ha) as (h1 & Eg & Hrep1 & Hc).
      destruct (IH h1 (with_value (f (a_value a)) a)) as (h2 & Ef & Hrep2 & Hs2); try done.
      { by eapply changes_keeps. }
      exists h2. simpl. by rewrite (bind_Ret _ _ _ _ _ Eg).
    + by apply (IH h a).
Qed.

(** The blank die is immutable. *)
Definition blank_at (h : heap) (Blank : loc) (zero : V) : Prop :=
  represents h Blank (mkdie false zero zero).

(** A new mutable die with a resource, as [SpecDie] and its like make one. *)
Lemma mutable_feed h Blank zero r v :
  blank_at h Blank zero -> deep h r = Some v ->
  exists nd h', (b ← DieImmutable Blank false; DieFeed b r) h = (Ret nd, h') /\ h ⊆ h' /\ nd ∉ dom h /\
    represents h' nd (mkdie true v zero).
Proof.
  intros HB Hr. destruct (DieImmutable_other h Blank _ false HB eq_refl) as (b & h1 & Ei & Hb & Hs1 & Hrep1).
  assert (deep h1 r = Some v) as Hr1 by by apply (deep_weaken h h1).
  destruct (DieFeed_becomes h1 b _ r v Hrep1 Hr1) as (nd & h2 & Ef & Hrep2 & _ & [-> Hc]).
  exists b, h2. rewrite (bind_Ret _ _ _ _ _ Ei). split; [done|]. split; [|done].
  by eapply changes_keeps.
Qed.

Lemma mutable_release h d a x :
  read_at h d = Some x -> represents h d a -> a_mutable a = true ->
  DieRelease d h = (Ret (d_r x), h) /\ deep h (d_r x) = Some (a_value a).
Proof.
  intros Hx (y & Hy & Hm & Hr & _) Ha. assert (y = x) as -> by congruence. split; [|done].
  unfold DieRelease. rewrite (bind_Ret _ _ _ _ _ (load_Ret _ _ _ Hx)). by rewrite Hm, Ha.
Qed.

Lemma DieWith_becomes h Blank zero d a gs fs :
  blank_at h Blank zero -> represents h d a -> acts_all h gs fs ->
  becomes h d a (with_value (apply_all fs (a_value a)) a) (DieWith Blank d gs).
Proof.
  intros HB Hrep Hall.
  destruct (DieRelease_value h d a Hrep) as (r & h1 & Er & Hs1 & Hr & _).
  assert (blank_at h1 Blank zero) as HB1 by by eapply represents_weaken.
  destruct (DieFeed_becomes h1 Blank _ r (a_value a) HB1 Hr) as (fed & h2 & Ef & Hrep2 & _ & [Hfed Hs2]).
  destruct (DieImmutable_other h2 fed _ false Hrep2 eq_refl) as (nd & h3 & Ei & Hnd & Hs3 & Hrep3).
  assert (h ⊆ h3) as Hs by (transitivity h1; [done|]; by transitivity h2).
  destruct (callbacks_run h gs fs h3 nd (mkdie true (a_value a) zero) Hall Hs) as (h4 & Eg & Hrep4 & Hs4); [|done|done|].
  { apply subseteq_dom in Hs1, Hs2. set_solver. }
  pose proof Hrep4 as (y & Hy & _).
  destruct (mutable_release h4 nd _ y Hy Hrep4 eq_refl) as [El Hv].
  eapply (becomes_weaken h h4 d a _ (DieFeed d (d_r y))); [done|done| |].
  - unfold DieWith. rewrite (bind_Ret _ _ _ _ _ Er), (bind_Ret _ _ _ _ _ Ef), (bind_Ret _ _ _ _ _ Ei).
    rewrite (bind_Ret _ _ _ _ _ Eg). by rewrite (bind_Ret _ _ _ _ _ El).
  - apply DieFeed_becomes; [by eapply represents_weaken|done].
Qed.

(** ** Sealing *)

Lemma DieSealFeed_becomes h d a r v :
  represents h d a -> deep h r = Some v -> becomes h d a (with_seal v a) (DieSealFeed d r).
Proof.
  intros Hrep Hr. pose proof Hrep as (x & Hx & Hm & _).
  assert (exists d1 h1, (if d_mutable x then mret d else Die_DeepCopy d) h = (Ret d1, h1) /\
            h ⊆ h1 /\ represents h1 d1 a /\ if a_mutable a then d1 = d else d1 ∉ dom h)
    as (d1 & h1 & E1 & Hs1 & Hrep1 & Hif).
  { rewrite Hm. destruct (a_mutable a); [by exists d, h|].
    destruct (Die_DeepCopy_fresh h d a Hrep) as (d1 & h1 & Ec & Hr1 & Hd1 & Hs). by exists d1, h1. }
  destruct (deref_DeepCopy_makes h1 r v) as (sl & h2 & Es & Hs2 & Hsl & _); [by apply (deep_weaken h h1)|].
  assert (represents h2 d1 a) as (y & Hy & Hmy & Hry & Hsy & Hfy) by by eapply represents_weaken.
  destruct (represents_store h2 d1 y (mkDie (d_frozen y) (d_mutable y) (d_r y) sl) (with_seal v a))
    as [Hc Hrep2]; simpl; try done.
  exists d1, (<[d1 := inj (mkDie (d_frozen y) (d_mutable y) (d_r y) sl)]> h2).
  unfold DieSealFeed. rewrite (bind_Ret _ _ _ _ _ (load_Ret _ _ _ Hx)), (bind_Ret _ _ _ _ _ E1).
  rewrite (bind_Ret _ _ _ _ _ Es), (bind_Ret _ _ _ _ _ (load_Ret _ _ _ Hy)).
  split; [done|]. split; [done|]. split; [done|].
  assert (h ⊆ h2) as Hs by by transitivity h1.
  destruct (a_mutable a); [subst d1; split; [done|]|split; [done|by eapply changes_keeps]].
  transitivity h2; [by apply subseteq_changes|done].
Qed.
End Methods.

(** ** A field stamped through a die of its own *)

Section Nested.
Context `{KT : KubeTypes} {F T V : Type} `{ST : !Stored T, SD : !Stored (Die F T), DT : !DieType F T}.
Context `{D : !Deep T V, DL : !DeepLaws T V}.
Context `{ND : !NotData (Die F T)} (Hcopy : copies die_DeepCopyInto).
Context {R W : Type} `{SR : !Stored R, NR : !NotData R, DR : !Deep R W, DRL : !DeepLaws R W}.

(** A field of [R] in memory and of what it stands for. *)
Definition field (get_field : R -> T) (put_field : T -> R -> R) (get_value : W -> V) (put_value : V -> W -> W) : Prop :=
  forall h x w, deep h x = Some w ->
    deep h (get_field x) = Some (get_value w) /\
    forall y v, deep h y = Some v -> deep h (put_field y x) = Some (put_value v w).

Lemma assign_die_sets h0 Blank zero gf pf gv pv g f :
  field gf pf gv pv -> blank_at h0 Blank zero -> acts h0 g f ->
  sets h0 (assign_die Blank gf pf g) (fun w => pv (f (gv w)) w).
Proof.
  intros Hfield HB Hg h l x w Hs Hl Hlx Hx Hw.
  destruct (Hfield h x w Hw) as [Hgw _].
  assert (blank_at h Blank zero) as HBh by by eapply represents_weaken.
  destruct (mutable_feed Hcopy h Blank zero _ _ HBh Hgw) as (nd & h1 & Em & Hs1 & Hnd & Hrep1).
  apply subseteq_dom in Hs as Hdom.
  destruct (Hg h1 nd (mkdie true (gv w) zero)) as (h2 & Eg & Hrep2 & Hc); [by transitivity h|set_solver|done|done|].
  pose proof Hrep2 as (y & Hy & _).
  destruct (mutable_release h2 nd _ y Hy Hrep2 eq_refl) as [Er Hv]. simpl in Hv.
  assert (h ⊆ h2) as Hs2 by by eapply changes_keeps.
  destruct (deep_weaken h h2 x w Hw Hs2) as [Hw2 _].
  assert (read_at h2 l = Some x) as Hx2.
  { rewrite <- Hx. apply read_same. apply read_dom in Hx. apply elem_of_dom in Hx as [c Hc']. rewrite Hc'.
    by eapply lookup_weaken. }
  set (x' := pf (d_r y) x). exists (<[l := inj x']> h2), x'.
  unfold assign_die. rewrite (bind_Ret _ _ _ _ _ (load_Ret _ _ _ Hx)), (bind_Ret _ _ _ _ _ Em).
  rewrite (bind_Ret _ _ _ _ _ Eg), (bind_Ret _ _ _ _ _ Er). unfold assign_at.
  rewrite (bind_Ret _ _ _ _ _ (load_Ret _ _ _ Hx2)).
  split; [done|]. split; [apply read_insert|].
  destruct (Hfield h2 x w Hw2) as [_ Hput]. specialize (Hput _ _ Hv).
  assert (changes {[l]} h2 (<[l := inj x']> h2)) as Hch by apply changes_store.
  split; [|transitivity h2; [by apply subseteq_changes|done]].
  eapply (deep_changes {[l]} h2); [done|exact Hput|].
  apply disjoint_singleton_l. intros Hin.
  apply read_tag in Hx2 as (c & Hc2 & Ht). destruct (deep_data h2 _ _ Hput l Hin) as (c' & Hc'' & Hd).
  rewrite Hc2 in Hc''. injection Hc'' as <-. rewrite Ht, not_data in Hd. done.
Qed.
End Nested.
