(* ===== verification/DieTypes.v ===== *)
(** * The dies of the nine types (dies/source/v1alpha1)

    What the generator writes for each type (zz_generated.die.go): its blank
    die, the methods of the template and the setters of its fields; then the
    methods that imagerepository.go and mavenartifact.go add by hand. *)

From stdpp Require Import fin_sets.
From S2P Require Import Prelude GoErrors Effects Runtime ApiTypes GoHeap GoDeep DeepCopies Dies.

(** reconciler.io/dies: the dies of Kubernetes' own types.  [TypeMetaDie_mutable]
    is [v1.TypeMetaBlank.DieImmutable(false).DieFeed]. *)
Class DieMachinery `{KT : KubeTypes} := {
  FreezeObjectMeta : xObjectMeta -> xFrozen;
  ObjectMeta_zero : xObjectMeta;
  TypeMetaDie_mutable : TypeMeta -> Mem loc;
  TypeMetaDie_DieRelease : loc -> Mem TypeMeta;
  ObjectMetaDie_mutable : xObjectMeta -> Mem loc;
  ObjectMetaDie_DieRelease : loc -> Mem xObjectMeta;
  ConditionBlank_Type : string -> Mem loc;
  ConditionDie_DieRelease : loc -> Mem Condition
}.

(** The blank dies of the package: variables that are set once. *)
Class Blanks := {
  ArtifactBlank : loc;
  RepositoryBlank : loc;
  MavenArtifactTypeBlank : loc;
  ImageRepositorySpecBlank : loc;
  ImageRepositoryStatusBlank : loc;
  MavenArtifactSpecBlank : loc;
  MavenArtifactStatusBlank : loc;
  ImageRepositoryBlank : loc;
  MavenArtifactBlank : loc
}.

Section Types.
Context `{KT : KubeTypes} `{CM : !CopyMachinery, DM : !DieMachinery}.

(** ** The zero values, and the template's parameters *)

Definition zero_Artifact : Artifact := mkArtifact "" "" "" "" None.
Definition zero_Repository : Repository := mkRepository "" "".
Definition zero_MavenArtifactType : MavenArtifactType := mkMavenArtifactType "" "" "" "" "".
Definition zero_ImageRepositorySpec : ImageRepositorySpec_mem := mkImageRepositorySpec_mem "" 0 nil_slice "".
Definition zero_ImageRepositoryStatus : ImageRepositoryStatus_mem := mkImageRepositoryStatus_mem
  (mkapis_Status nil_slice 0) "" nil_ptr.
Definition zero_MavenArtifactSpec : MavenArtifactSpec_mem := mkMavenArtifactSpec_mem
  zero_MavenArtifactType zero_Repository 0 nil_ptr.
Definition zero_MavenArtifactStatus : MavenArtifactStatus_mem := mkMavenArtifactStatus_mem (mkapis_Status
  nil_slice 0) "" nil_ptr.
Definition zero_ImageRepository : ImageRepository_mem := mkobject_mem (mkTypeMeta "" "") ObjectMeta_zero
  zero_ImageRepositorySpec zero_ImageRepositoryStatus.
Definition zero_MavenArtifact : MavenArtifact_mem := mkobject_mem (mkTypeMeta "" "") ObjectMeta_zero
  zero_MavenArtifactSpec zero_MavenArtifactStatus.

#[export] Instance dt_Artifact : DieType unit Artifact :=
  {| die_zero := zero_Artifact; die_freeze := fun _ => tt;
     die_DeepCopyInto := Artifact_DeepCopyInto |}.
#[export] Instance dt_Repository : DieType unit Repository :=
  {| die_zero := zero_Repository; die_freeze := fun _ => tt;
     die_DeepCopyInto := Repository_DeepCopyInto |}.
#[export] Instance dt_MavenArtifactType : DieType unit MavenArtifactType :=
  {| die_zero := zero_MavenArtifactType; die_freeze := fun _ => tt;
     die_DeepCopyInto := MavenArtifactType_DeepCopyInto |}.
#[export] Instance dt_ImageRepositorySpec : DieType unit ImageRepositorySpec_mem :=
  {| die_zero := zero_ImageRepositorySpec; die_freeze := fun _ => tt;
     die_DeepCopyInto := ImageRepositorySpec_DeepCopyInto |}.
#[export] Instance dt_ImageRepositoryStatus : DieType unit ImageRepositoryStatus_mem :=
  {| die_zero := zero_ImageRepositoryStatus; die_freeze := fun _ => tt;
     die_DeepCopyInto := ImageRepositoryStatus_DeepCopyInto |}.
#[export] Instance dt_MavenArtifactSpec : DieType unit MavenArtifactSpec_mem :=
  {| die_zero := zero_MavenArtifactSpec; die_freeze := fun _ => tt;
     die_DeepCopyInto := MavenArtifactSpec_DeepCopyInto |}.
#[export] Instance dt_MavenArtifactStatus : DieType unit MavenArtifactStatus_mem :=
  {| die_zero := zero_MavenArtifactStatus; die_freeze := fun _ => tt;
     die_DeepCopyInto := MavenArtifactStatus_DeepCopyInto |}.
#[export] Instance dt_ImageRepository : DieType xFrozen ImageRepository_mem :=
  {| die_zero := zero_ImageRepository; die_freeze := fun r => FreezeObjectMeta (o_ObjectMeta r);
     die_DeepCopyInto := ImageRepository_DeepCopyInto |}.
#[export] Instance dt_MavenArtifact : DieType xFrozen MavenArtifact_mem :=
  {| die_zero := zero_MavenArtifact; die_freeze := fun r => FreezeObjectMeta (o_ObjectMeta r);
     die_DeepCopyInto := MavenArtifact_DeepCopyInto |}.

(** [d := Blank.DieImmutable(false).DieFeed(r.F); fn(d); r.F = d.DieRelease()]
    with a die of another package. *)
Definition assign_foreign {R A : Type} `{!Stored R} (mutable_die : A -> Mem loc) (release : loc -> Mem A)
    (get_field : R -> A) (put_field : A -> R -> R) (fn : loc -> Mem unit) (l : loc) : Mem unit :=
  x ← load l;
  nd ← mutable_die (get_field x);
  _ ← fn nd;
  v ← release nd;
  assign_at l (put_field v).

Context `{BL : Blanks} `{RF : !Reflection}.
Context `{!Codec Artifact, !Codec Repository, !Codec MavenArtifactType}.
Context `{!Codec ImageRepositorySpec_mem, !Codec ImageRepositoryStatus_mem, !Codec ImageRepository_mem}.
Context `{!Codec MavenArtifactSpec_mem, !Codec MavenArtifactStatus_mem, !Codec MavenArtifact_mem}.

(** ** The generated methods *)

(** *** Artifact *)

Definition ArtifactBlank_init : Mem loc := Blank_init (F := unit) (T := Artifact).
Definition ArtifactDie_feeds : die_feeds Artifact := feeds (F := unit).
Definition ArtifactDie_stamps : die_stamps Artifact := stamps (F := unit) ArtifactBlank.
Definition ArtifactDie_Path (d : loc) (v : string) : Mem loc :=
  DieSet (F := unit) (T := Artifact) d (fun r => mkArtifact v (Artifact_URL r) (Artifact_Revision r)
      (Artifact_Checksum r) (Artifact_LastUpdateTime r)).
Definition ArtifactDie_URL (d : loc) (v : string) : Mem loc :=
  DieSet (F := unit) (T := Artifact) d (fun r => mkArtifact (Artifact_Path r) v (Artifact_Revision r)
      (Artifact_Checksum r) (Artifact_LastUpdateTime r)).
Definition ArtifactDie_Revision (d : loc) (v : string) : Mem loc :=
  DieSet (F := unit) (T := Artifact) d (fun r => mkArtifact (Artifact_Path r) (Artifact_URL r) v
      (Artifact_Checksum r) (Artifact_LastUpdateTime r)).
Definition ArtifactDie_Checksum (d : loc) (v : string) : Mem loc :=
  DieSet (F := unit) (T := Artifact) d (fun r => mkArtifact (Artifact_Path r) (Artifact_URL r)
      (Artifact_Revision r) v (Artifact_LastUpdateTime r)).
Definition ArtifactDie_LastUpdateTime (d : loc) (v : option Z) : Mem loc :=
  DieSet (F := unit) (T := Artifact) d (fun r => mkArtifact (Artifact_Path r) (Artifact_URL r)
      (Artifact_Revision r) (Artifact_Checksum r) v).

(** *** Repository *)

Definition RepositoryBlank_init : Mem loc := Blank_init (F := unit) (T := Repository).
Definition RepositoryDie_feeds : die_feeds Repository := feeds (F := unit).
Definition RepositoryDie_stamps : die_stamps Repository := stamps (F := unit) RepositoryBlank.
Definition RepositoryDie_URL (d : loc) (v : string) : Mem loc :=
  DieSet (F := unit) (T := Repository) d (fun r => mkRepository v (SecretRef r)).
Definition RepositoryDie_SecretRef (d : loc) (v : string) : Mem loc :=
  DieSet (F := unit) (T := Repository) d (fun r => mkRepository (Repository_URL r) v).

(** *** MavenArtifactType *)

Definition MavenArtifactTypeBlank_init : Mem loc := Blank_init (F := unit) (T := MavenArtifactType).
Definition MavenArtifactTypeDie_feeds : die_feeds MavenArtifactType := feeds (F := unit).
Definition MavenArtifactTypeDie_stamps : die_stamps MavenArtifactType := stamps (F := unit)
  MavenArtifactTypeBlank.
Definition MavenArtifactTypeDie_GroupId (d : loc) (v : string) : Mem loc :=
  DieSet (F := unit) (T := MavenArtifactType) d (fun r => mkMavenArtifactType v (Version r) (ArtifactId r)
      (Type_ r) (Classifier r)).
Definition MavenArtifactTypeDie_Version (d : loc) (v : string) : Mem loc :=
  DieSet (F := unit) (T := MavenArtifactType) d (fun r => mkMavenArtifactType (GroupId r) v (ArtifactId r)
      (Type_ r) (Classifier r)).
Definition MavenArtifactTypeDie_ArtifactId (d : loc) (v : string) : Mem loc :=
  DieSet (F := unit) (T := MavenArtifactType) d (fun r => mkMavenArtifactType (GroupId r) (Version r) v
      (Type_ r) (Classifier r)).
Definition MavenArtifactTypeDie_Type (d : loc) (v : string) : Mem loc :=
  DieSet (F := unit) (T := MavenArtifactType) d (fun r => mkMavenArtifactType (GroupId r) (Version r)
      (ArtifactId r) v (Classifier r)).
Definition MavenArtifactTypeDie_Classifier (d : loc) (v : string) : Mem loc :=
  DieSet (F := unit) (T := MavenArtifactType) d (fun r => mkMavenArtifactType (GroupId r) (Version r)
      (ArtifactId r) (Type_ r) v).

(** *** ImageRepositorySpec *)

Definition ImageRepositorySpecBlank_init : Mem loc := Blank_init (F := unit) (T := ImageRepositorySpec_mem).
Definition ImageRepositorySpecDie_feeds : die_feeds ImageRepositorySpec_mem := feeds (F := unit).
Definition ImageRepositorySpecDie_stamps : die_stamps ImageRepositorySpec_mem := stamps (F := unit)
  ImageRepositorySpecBlank.
Definition ImageRepositorySpecDie_Image (d : loc) (v : string) : Mem loc :=
  DieSet (F := unit) (T := ImageRepositorySpec_mem) d (fun r => mkImageRepositorySpec_mem v (m_ir_Interval
      r) (m_ImagePullSecrets r) (m_ServiceAccountName r)).
Definition ImageRepositorySpecDie_Interval (d : loc) (v : Z) : Mem loc :=
  DieSet (F := unit) (T := ImageRepositorySpec_mem) d (fun r => mkImageRepositorySpec_mem (m_Image r) v
      (m_ImagePullSecrets r) (m_ServiceAccountName r)).
Definition ImageRepositorySpecDie_ImagePullSecrets (d : loc) (v : go_slice string) : Mem loc :=
  DieSet (F := unit) (T := ImageRepositorySpec_mem) d (fun r => mkImageRepositorySpec_mem (m_Image r)
      (m_ir_Interval r) v (m_ServiceAccountName r)).
Definition ImageRepositorySpecDie_ServiceAccountName (d : loc) (v : string) : Mem loc :=
  DieSet (F := unit) (T := ImageRepositorySpec_mem) d (fun r => mkImageRepositorySpec_mem (m_Image r)
      (m_ir_Interval r) (m_ImagePullSecrets r) v).

(** *** ImageRepositoryStatus *)

Definition ImageRepositoryStatusBlank_init : Mem loc := Blank_init (F := unit) (T := ImageRepositoryStatus_mem).
Definition ImageRepositoryStatusDie_feeds : die_feeds ImageRepositoryStatus_mem := feeds (F := unit).
Definition ImageRepositoryStatusDie_stamps : die_stamps ImageRepositoryStatus_mem := stamps (F := unit)
  ImageRepositoryStatusBlank.
Definition ImageRepositoryStatusDie_Status (d : loc) (v : apis_Status) : Mem loc :=
  DieSet (F := unit) (T := ImageRepositoryStatus_mem) d (fun r => mkImageRepositoryStatus_mem v (m_ir_URL
      r) (m_ir_Artifact r)).
Definition ImageRepositoryStatusDie_URL (d : loc) (v : string) : Mem loc :=
  DieSet (F := unit) (T := ImageRepositoryStatus_mem) d (fun r => mkImageRepositoryStatus_mem (m_ir_Status
      r) v (m_ir_Artifact r)).
Definition ImageRepositoryStatusDie_Artifact (d : loc) (v : ptr Artifact) : Mem loc :=
  DieSet (F := unit) (T := ImageRepositoryStatus_mem) d (fun r => mkImageRepositoryStatus_mem (m_ir_Status
      r) (m_ir_URL r) v).

(** *** MavenArtifactSpec *)

Definition MavenArtifactSpecBlank_init : Mem loc := Blank_init (F := unit) (T := MavenArtifactSpec_mem).
Definition MavenArtifactSpecDie_feeds : die_feeds MavenArtifactSpec_mem := feeds (F := unit).
Definition MavenArtifactSpecDie_stamps : die_stamps MavenArtifactSpec_mem := stamps (F := unit)
  MavenArtifactSpecBlank.
Definition MavenArtifactSpecDie_Artifact (d : loc) (v : MavenArtifactType) : Mem loc :=
  DieSet (F := unit) (T := MavenArtifactSpec_mem) d (fun r => mkMavenArtifactSpec_mem v (m_Repository r)
      (m_Interval r) (m_Timeout r)).
Definition MavenArtifactSpecDie_Repository (d : loc) (v : Repository) : Mem loc :=
  DieSet (F := unit) (T := MavenArtifactSpec_mem) d (fun r => mkMavenArtifactSpec_mem (m_Artifact r) v
      (m_Interval r) (m_Timeout r)).
Definition MavenArtifactSpecDie_Interval (d : loc) (v : Z) : Mem loc :=
  DieSet (F := unit) (T := MavenArtifactSpec_mem) d (fun r => mkMavenArtifactSpec_mem (m_Artifact r)
      (m_Repository r) v (m_Timeout r)).
Definition MavenArtifactSpecDie_Timeout (d : loc) (v : ptr Z) : Mem loc :=
  DieSet (F := unit) (T := MavenArtifactSpec_mem) d (fun r => mkMavenArtifactSpec_mem (m_Artifact r)
      (m_Repository r) (m_Interval r) v).

(** *** MavenArtifactStatus *)

Definition MavenArtifactStatusBlank_init : Mem loc := Blank_init (F := unit) (T := MavenArtifactStatus_mem).
Definition MavenArtifactStatusDie_feeds : die_feeds MavenArtifactStatus_mem := feeds (F := unit).
Definition MavenArtifactStatusDie_stamps : die_stamps MavenArtifactStatus_mem := stamps (F := unit)
  MavenArtifactStatusBlank.
Definition MavenArtifactStatusDie_Status (d : loc) (v : apis_Status) : Mem loc :=
  DieSet (F := unit) (T := MavenArtifactStatus_mem) d (fun r => mkMavenArtifactStatus_mem v (m_URL r)
      (m_Status_Artifact r)).
Definition MavenArtifactStatusDie_URL (d : loc) (v : string) : Mem loc :=
  DieSet (F := unit) (T := MavenArtifactStatus_mem) d (fun r => mkMavenArtifactStatus_mem (m_Status r) v
      (m_Status_Artifact r)).
Definition MavenArtifactStatusDie_Artifact (d : loc) (v : ptr Artifact) : Mem loc :=
  DieSet (F := unit) (T := MavenArtifactStatus_mem) d (fun r => mkMavenArtifactStatus_mem (m_Status r)
      (m_URL r) v).

(** *** ImageRepository *)

Definition ImageRepositoryBlank_init : Mem loc := Blank_init (F := xFrozen) (T := ImageRepository_mem).
Definition ImageRepositoryDie_feeds : die_feeds ImageRepository_mem := feeds (F := xFrozen).
Definition ImageRepositoryDie_stamps : die_stamps ImageRepository_mem := stamps (F := xFrozen)
  ImageRepositoryBlank.
Definition ImageRepositoryDie_TypeMetadata (d : loc) (v : TypeMeta) : Mem loc :=
  DieSet (F := xFrozen) (T := ImageRepository_mem) d (fun r => mkobject_mem v (o_ObjectMeta r) (o_Spec r)
      (o_Status r)).
Definition ImageRepositoryDie_Metadata (d : loc) (v : xObjectMeta) : Mem loc :=
  DieSet (F := xFrozen) (T := ImageRepository_mem) d (fun r => mkobject_mem (o_TypeMeta r) v (o_Spec r)
      (o_Status r)).
Definition ImageRepositoryDie_Spec (d : loc) (v : ImageRepositorySpec_mem) : Mem loc :=
  DieSet (F := xFrozen) (T := ImageRepository_mem) d (fun r => mkobject_mem (o_TypeMeta r) (o_ObjectMeta
      r) v (o_Status r)).
Definition ImageRepositoryDie_Status (d : loc) (v : ImageRepositoryStatus_mem) : Mem loc :=
  DieSet (F := xFrozen) (T := ImageRepository_mem) d (fun r => mkobject_mem (o_TypeMeta r) (o_ObjectMeta
      r) (o_Spec r) v).
Definition ImageRepositoryDie_APIVersion (d : loc) (v : string) : Mem loc :=
  DieSet (F := xFrozen) (T := ImageRepository_mem) d (fun r => mkobject_mem (mkTypeMeta v (Kind
      (o_TypeMeta r))) (o_ObjectMeta r) (o_Spec r) (o_Status r) : ImageRepository_mem).
Definition ImageRepositoryDie_Kind (d : loc) (v : string) : Mem loc :=
  DieSet (F := xFrozen) (T := ImageRepository_mem) d (fun r => mkobject_mem (mkTypeMeta (APIVersion
      (o_TypeMeta r)) v) (o_ObjectMeta r) (o_Spec r) (o_Status r) : ImageRepository_mem).
Definition ImageRepositoryDie_TypeMetadataDie (d : loc) (fn : loc -> Mem unit) : Mem loc :=
  DieStamp (F := xFrozen) (T := ImageRepository_mem) d (assign_foreign (R := ImageRepository_mem)
      TypeMetaDie_mutable TypeMetaDie_DieRelease o_TypeMeta
    (fun v r => mkobject_mem v (o_ObjectMeta r) (o_Spec r) (o_Status r)) fn).
Definition ImageRepositoryDie_MetadataDie (d : loc) (fn : loc -> Mem unit) : Mem loc :=
  DieStamp (F := xFrozen) (T := ImageRepository_mem) d (assign_foreign (R := ImageRepository_mem)
      ObjectMetaDie_mutable ObjectMetaDie_DieRelease o_ObjectMeta
    (fun v r => mkobject_mem (o_TypeMeta r) v (o_Spec r) (o_Status r)) fn).
Definition ImageRepositoryDie_SpecDie (d : loc) (fn : loc -> Mem unit) : Mem loc :=
  DieStamp (F := xFrozen) (T := ImageRepository_mem) d (assign_die (F := unit) (T :=
      ImageRepositorySpec_mem) (R := ImageRepository_mem) ImageRepositorySpecBlank o_Spec
    (fun v r => mkobject_mem (o_TypeMeta r) (o_ObjectMeta r) v (o_Status r)) fn).
Definition ImageRepositoryDie_StatusDie (d : loc) (fn : loc -> Mem unit) : Mem loc :=
  DieStamp (F := xFrozen) (T := ImageRepository_mem) d (assign_die (F := unit) (T :=
      ImageRepositoryStatus_mem) (R := ImageRepository_mem) ImageRepositoryStatusBlank o_Status
    (fun v r => mkobject_mem (o_TypeMeta r) (o_ObjectMeta r) (o_Spec r) v) fn).
Definition ImageRepositoryDie_DieReleaseUnstructured (d : loc) := DieReleaseUnstructured (F := xFrozen) (T
  := ImageRepository_mem) d.
Definition ImageRepositoryDie_DeepCopyObject (d : loc) : Mem Object :=
  x ← load (T := Die xFrozen ImageRepository_mem) d;
  l ← (y ← ImageRepository_DeepCopyInto (d_r x); new y);
  mret (object tag_ImageRepository l).
Definition ImageRepositoryDie_GetObjectKind (d : loc) : Mem Object :=
  l ← DieReleasePtr (F := xFrozen) (T := ImageRepository_mem) d; mret (object tag_ImageRepository l).
Definition ImageRepositoryDie_MarshalJSON (d : loc) := Die_MarshalJSON (F := xFrozen) (T :=
  ImageRepository_mem) d.
Definition ImageRepositoryDie_UnmarshalJSON (d : loc) (b : string) := Die_UnmarshalJSON (F := xFrozen) (T
  := ImageRepository_mem) d b.

(** *** MavenArtifact *)

Definition MavenArtifactBlank_init : Mem loc := Blank_init (F := xFrozen) (T := MavenArtifact_mem).
Definition MavenArtifactDie_feeds : die_feeds MavenArtifact_mem := feeds (F := xFrozen).
Definition MavenArtifactDie_stamps : die_stamps MavenArtifact_mem := stamps (F := xFrozen) MavenArtifactBlank.
Definition MavenArtifactDie_TypeMetadata (d : loc) (v : TypeMeta) : Mem loc :=
  DieSet (F := xFrozen) (T := MavenArtifact_mem) d (fun r => mkobject_mem v (o_ObjectMeta r) (o_Spec r)
      (o_Status r)).
Definition MavenArtifactDie_Metadata (d : loc) (v : xObjectMeta) : Mem loc :=
  DieSet (F := xFrozen) (T := MavenArtifact_mem) d (fun r => mkobject_mem (o_TypeMeta r) v (o_Spec r)
      (o_Status r)).
Definition MavenArtifactDie_Spec (d : loc) (v : MavenArtifactSpec_mem) : Mem loc :=
  DieSet (F := xFrozen) (T := MavenArtifact_mem) d (fun r => mkobject_mem (o_TypeMeta r) (o_ObjectMeta r)
      v (o_Status r)).
Definition MavenArtifactDie_Status (d : loc) (v : MavenArtifactStatus_mem) : Mem loc :=
  DieSet (F := xFrozen) (T := MavenArtifact_mem) d (fun r => mkobject_mem (o_TypeMeta r) (o_ObjectMeta r)
      (o_Spec r) v).
Definition MavenArtifactDie_APIVersion (d : loc) (v : string) : Mem loc :=
  DieSet (F := xFrozen) (T := MavenArtifact_mem) d (fun r => mkobject_mem (mkTypeMeta v (Kind (o_TypeMeta
      r))) (o_ObjectMeta r) (o_Spec r) (o_Status r) : MavenArtifact_mem).
Definition MavenArtifactDie_Kind (d : loc) (v : string) : Mem loc :=
  DieSet (F := xFrozen) (T := MavenArtifact_mem) d (fun r => mkobject_mem (mkTypeMeta (APIVersion
      (o_TypeMeta r)) v) (o_ObjectMeta r) (o_Spec r) (o_Status r) : MavenArtifact_mem).
Definition MavenArtifactDie_TypeMetadataDie (d : loc) (fn : loc -> Mem unit) : Mem loc :=
  DieStamp (F := xFrozen) (T := MavenArtifact_mem) d (assign_foreign (R := MavenArtifact_mem)
      TypeMetaDie_mutable TypeMetaDie_DieRelease o_TypeMeta
    (fun v r => mkobject_mem v (o_ObjectMeta r) (o_Spec r) (o_Status r)) fn).
Definition MavenArtifactDie_MetadataDie (d : loc) (fn : loc -> Mem unit) : Mem loc :=
  DieStamp (F := xFrozen) (T := MavenArtifact_mem) d (assign_foreign (R := MavenArtifact_mem)
      ObjectMetaDie_mutable ObjectMetaDie_DieRelease o_ObjectMeta
    (fun v r => mkobject_mem (o_TypeMeta r) v (o_Spec r) (o_Status r)) fn).
Definition MavenArtifactDie_SpecDie (d : loc) (fn : loc -> Mem unit) : Mem loc :=
  DieStamp (F := xFrozen) (T := MavenArtifact_mem) d (assign_die (F := unit) (T := MavenArtifactSpec_mem)
      (R := MavenArtifact_mem) MavenArtifactSpecBlank o_Spec
    (fun v r => mkobject_mem (o_TypeMeta r) (o_ObjectMeta r) v (o_Status r)) fn).
Definition MavenArtifactDie_StatusDie (d : loc) (fn : loc -> Mem unit) : Mem loc :=
  DieStamp (F := xFrozen) (T := MavenArtifact_mem) d (assign_die (F := unit) (T :=
      MavenArtifactStatus_mem) (R := MavenArtifact_mem) MavenArtifactStatusBlank o_Status
    (fun v r => mkobject_mem (o_TypeMeta r) (o_ObjectMeta r) (o_Spec r) v) fn).
Definition MavenArtifactDie_DieReleaseUnstructured (d : loc) := DieReleaseUnstructured (F := xFrozen) (T
  := MavenArtifact_mem) d.
Definition MavenArtifactDie_DeepCopyObject (d : loc) : Mem Object :=
  x ← load (T := Die xFrozen MavenArtifact_mem) d;
  l ← (y ← MavenArtifact_DeepCopyInto (d_r x); new y);
  mret (object tag_MavenArtifact l).
Definition MavenArtifactDie_GetObjectKind (d : loc) : Mem Object :=
  l ← DieReleasePtr (F := xFrozen) (T := MavenArtifact_mem) d; mret (object tag_MavenArtifact l).
Definition MavenArtifactDie_MarshalJSON (d : loc) := Die_MarshalJSON (F := xFrozen) (T := MavenArtifact_mem) d.
Definition MavenArtifactDie_UnmarshalJSON (d : loc) (b : string) := Die_UnmarshalJSON (F := xFrozen) (T :=
  MavenArtifact_mem) d b.

(** ** The methods written by hand *)

(** [d := ArtifactBlank.DieImmutable(false).DieFeedPtr(r.Artifact); fn(d);
    r.Artifact = d.DieReleasePtr()] *)
Definition assign_ArtifactDie {R} `{!Stored R} (get_field : R -> ptr Artifact)
    (put_field : ptr Artifact -> R -> R) (fn : loc -> Mem unit) (l : loc) : Mem unit :=
  x ← load l;
  nd ← (b ← DieImmutable (F := unit) (T := Artifact) ArtifactBlank false;
        DieFeedPtr (F := unit) b (get_field x));
  _ ← fn nd;
  p ← DieReleasePtr (F := unit) (T := Artifact) nd;
  assign_at l (put_field (at_loc p)).

(** The conditions released one after the other into a new array. *)
Fixpoint release_all (conditions : list loc) : Mem (list Condition) :=
  match conditions with
  | [] => mret []
  | c :: conditions' => x ← ConditionDie_DieRelease c; l ← release_all conditions'; mret (x :: l)
  end.

Definition assign_conditions {R} `{!Stored R} (get_field : R -> apis_Status) (put_field : apis_Status -> R -> R)
    (conditions : list loc) (l : loc) : Mem unit :=
  cs ← release_all conditions;
  a ← new cs;
  assign_at l (fun r => put_field (mkapis_Status (window a 0 (length cs)) (st_ObservedGeneration
      (get_field r))) r).

Definition ImageRepositoryStatusDie_ArtifactDie (d : loc) (fn : loc -> Mem unit) : Mem loc :=
  DieStamp (F := unit) (T := ImageRepositoryStatus_mem) d
    (assign_ArtifactDie (R := ImageRepositoryStatus_mem) m_ir_Artifact (fun p r =>
        mkImageRepositoryStatus_mem (m_ir_Status r) (m_ir_URL r) p) fn).
Definition ImageRepositoryStatusDie_ConditionsDie (d : loc) (conditions : list loc) : Mem loc :=
  DieStamp (F := unit) (T := ImageRepositoryStatus_mem) d
    (assign_conditions (R := ImageRepositoryStatus_mem) m_ir_Status (fun s r =>
        mkImageRepositoryStatus_mem s (m_ir_URL r) (m_ir_Artifact r)) conditions).
Definition ImageRepositoryStatusDie_ObservedGeneration (d : loc) (v : Z) : Mem loc :=
  DieSet (F := unit) (T := ImageRepositoryStatus_mem) d (fun r => mkImageRepositoryStatus_mem
      (mkapis_Status (st_Conditions (m_ir_Status r)) v) (m_ir_URL r) (m_ir_Artifact r)).

Definition MavenArtifactStatusDie_ArtifactDie (d : loc) (fn : loc -> Mem unit) : Mem loc :=
  DieStamp (F := unit) (T := MavenArtifactStatus_mem) d
    (assign_ArtifactDie (R := MavenArtifactStatus_mem) m_Status_Artifact (fun p r =>
        mkMavenArtifactStatus_mem (m_Status r) (m_URL r) p) fn).
Definition MavenArtifactStatusDie_ConditionsDie (d : loc) (conditions : list loc) : Mem loc :=
  DieStamp (F := unit) (T := MavenArtifactStatus_mem) d
    (assign_conditions (R := MavenArtifactStatus_mem) m_Status (fun s r => mkMavenArtifactStatus_mem s
        (m_URL r) (m_Status_Artifact r)) conditions).
Definition MavenArtifactStatusDie_ObservedGeneration (d : loc) (v : Z) : Mem loc :=
  DieSet (F := unit) (T := MavenArtifactStatus_mem) d (fun r => mkMavenArtifactStatus_mem (mkapis_Status
      (st_Conditions (m_Status r)) v) (m_URL r) (m_Status_Artifact r)).

(** These two start from an empty value, not from the field's. *)
Definition MavenArtifactSpecDie_RepositoryDie (d : loc) (fn : loc -> Mem unit) : Mem loc :=
  DieStamp (F := unit) (T := MavenArtifactSpec_mem) d
    (assign_die (F := unit) (T := Repository) (R := MavenArtifactSpec_mem) RepositoryBlank (fun _ =>
        zero_Repository)
       (fun v r => mkMavenArtifactSpec_mem (m_Artifact r) v (m_Interval r) (m_Timeout r)) fn).

Definition MavenArtifactSpecDie_MavenArtifactDie (d : loc) (fn : loc -> Mem unit) : Mem loc :=
  DieStamp (F := unit) (T := MavenArtifactSpec_mem) d
    (assign_die (F := unit) (T := MavenArtifactType) (R := MavenArtifactSpec_mem) MavenArtifactTypeBlank
        (fun _ => zero_MavenArtifactType)
       (fun v r => mkMavenArtifactSpec_mem v (m_Repository r) (m_Interval r) (m_Timeout r)) fn).

Definition ImageRepositoryConditionArtifactAvailableBlank_init : Mem loc :=
  ConditionBlank_Type ImageRepositoryConditionArtifactAvailable.
Definition ImageRepositoryConditionImageResolvedBlank_init : Mem loc :=
  ConditionBlank_Type ImageRepositoryConditionImageResolved.
Definition ImageRepositoryConditionReadyBlank_init : Mem loc :=
  ConditionBlank_Type ImageRepositoryConditionReady.
Definition MavenArtifactConditionAvailableBlank_init : Mem loc :=
  ConditionBlank_Type MavenArtifactConditionArtifactAvailable.
Definition MavenArtifactConditionVersionResolvedBlank_init : Mem loc :=
  ConditionBlank_Type MavenArtifactConditionArtifactResolved.
Definition MavenArtifactConditionReadyBlank_init : Mem loc :=
  ConditionBlank_Type MavenArtifactConditionReady.
End Types.
