(* ===== verification/MemoryLaboratory.v ===== *)
(** * A heap to run the copies and the dies on

    Concrete machinery: object metadata with a map of labels behind a
    pointer, list metadata without pointers, and conditions in an array. *)

From stdpp Require Import fin_sets.
From S2P Require Import Prelude GoErrors Effects Runtime ApiTypes GoHeap GoDeep DeepCopies Dies DieFacts DieTypes.

(** In a module, so that the instances are there only where they are asked
    for. *)
Module Lab.

Record labels := mkLabels { label_pairs : list (string * string) }.

#[export] Instance lab_kube : KubeTypes := {|
  xObjectMeta := ObjectMeta * ptr labels;
  xListMeta := string;
  xFrozen := ObjectMeta;
  xCell := labels
|}.

#[export] Instance lab_stored_labels : Stored labels := stored_foreign.
#[export] Instance lab_data_labels : Data labels := eq_refl.
#[export] Instance lab_flat_labels : Flat labels := I.
#[export] Instance lab_flat_meta : Flat ObjectMeta := I.

#[export] Instance lab_deep_meta : Deep xObjectMeta (ObjectMeta * option labels) :=
  deep_prod (A := ObjectMeta) (B := ptr labels).
#[export] Instance lab_deep_meta_laws : DeepLaws xObjectMeta (ObjectMeta * option labels).
Proof. apply deep_prod_laws. Qed.
#[export] Instance lab_deep_list : Deep xListMeta string := flat_deep string.
#[export] Instance lab_deep_list_laws : DeepLaws xListMeta string.
Proof. apply flat_laws. Qed.

Definition lab_copy_meta (p : ObjectMeta * ptr labels) : Mem (ObjectMeta * ptr labels) :=
  a ← mret p.1; b ← copy_ptr (T := labels) mret p.2; mret (a, b).

#[export] Instance lab_copies : CopyMachinery := {|
  Time_DeepCopyInto := mret;
  ObjectMeta_DeepCopyInto := lab_copy_meta;
  ListMeta_DeepCopyInto := mret;
  Status_DeepCopyInto := fun s =>
    c ← copy_go_slice mret (st_Conditions s); mret (mkapis_Status c (st_ObservedGeneration s))
|}.

#[export] Instance lab_copy_laws : CopyLaws (ObjectMeta * option labels) string.
Proof.
  split; [done| | |].
  - apply (copies_pair (A := ObjectMeta) (B := ptr labels) mret (copy_ptr mret)); [apply copies_mret|apply copies_ptr, copies_mret].
  - apply copies_mret.
  - eapply (copies_via _ (fun y => mkapis_Status y.1 y.2)).
    3: { apply (copies_pair (copy_go_slice mret) mret); [apply copies_slice, copies_mret|apply copies_mret]. }
    + by intros [a b].
    + simpl. same_binds.
Qed.

#[export] Instance lab_dies : DieMachinery := {|
  FreezeObjectMeta := fst;
  ObjectMeta_zero := (mkObjectMeta "" "" None, nil_ptr);
  TypeMetaDie_mutable := fun _ => panic "not used";
  TypeMetaDie_DieRelease := fun _ => panic "not used";
  ObjectMetaDie_mutable := fun _ => panic "not used";
  ObjectMetaDie_DieRelease := fun _ => panic "not used";
  ConditionBlank_Type := fun _ => panic "not used";
  ConditionDie_DieRelease := fun _ => panic "not used"
|}.

(** A resource with labels, two pull secrets and an artifact. *)
Definition lab_image : ImageRepository_mem := mkobject_mem
  (mkTypeMeta "source.apps.tanzu.vmware.com/v1alpha1" "ImageRepository")
  (mkObjectMeta "ns" "app" None, at_loc 1)
  (mkImageRepositorySpec_mem "registry/app" 60 (window 2 0 2) "")
  (mkImageRepositoryStatus_mem (mkapis_Status (window 3 0 1) 1) "http://host/x" (at_loc 4)).

Definition lab_heap : heap :=
  <[1%positive := inj (mkLabels [("app", "web")])]>
  (<[2%positive := inj ["a"; "b"]]>
  (<[3%positive := inj [mkCondition "Ready" ConditionTrue "Ready" "" []]]>
  (<[4%positive := inj (mkArtifact "x" "http://host/x" "r" "c" None)]>
  (<[5%positive := inj lab_image]> ∅)))).

Definition lab_value : object_value (ObjectMeta * option labels) ImageRepositorySpec (ImageRepositoryStatus (list Condition)) :=
  ((mkTypeMeta "source.apps.tanzu.vmware.com/v1alpha1" "ImageRepository",
    (mkObjectMeta "ns" "app" None, Some (mkLabels [("app", "web")]))),
   (mkImageRepositorySpec "registry/app" 60 ["a"; "b"] "",
    mkImageRepositoryStatus [mkCondition "Ready" ConditionTrue "Ready" "" []] 1 "http://host/x"
      (Some (mkArtifact "x" "http://host/x" "r" "c" None)))).

Lemma lab_deep : deep lab_heap lab_image = Some lab_value.
Proof. vm_compute. reflexivity. Qed.

#[export] Instance lab_blanks : Blanks := {|
  ArtifactBlank := 11; RepositoryBlank := 12; MavenArtifactTypeBlank := 13; ImageRepositorySpecBlank := 14;
  ImageRepositoryStatusBlank := 15; MavenArtifactSpecBlank := 16; MavenArtifactStatusBlank := 17;
  ImageRepositoryBlank := 18; MavenArtifactBlank := 19
|}.

(** The heap with an immutable die of the resource, one of a spec, and the
    blank dies of a spec and of a repository. *)
Definition lab_maven_spec : MavenArtifactSpec_mem :=
  mkMavenArtifactSpec_mem (mkMavenArtifactType "g" "1.0" "app" "jar" "")
    (mkRepository "https://repo/maven" "credentials") 60 nil_ptr.

Definition die_heap : heap :=
  <[6%positive := inj (T := Die xFrozen ImageRepository_mem) (mkDie (mkObjectMeta "ns" "app" None) false lab_image lab_image)]>
  (<[7%positive := inj (T := Die unit MavenArtifactSpec_mem) (mkDie tt false lab_maven_spec zero_MavenArtifactSpec)]>
  (<[12%positive := inj (T := Die unit Repository) (mkDie tt false zero_Repository zero_Repository)]>
  (<[14%positive := inj (T := Die unit ImageRepositorySpec_mem) (mkDie tt false zero_ImageRepositorySpec zero_ImageRepositorySpec)]> lab_heap))).

Definition image_die : die (object_value (ObjectMeta * option labels) ImageRepositorySpec
    (ImageRepositoryStatus (list Condition))) := mkdie false lab_value lab_value.

Lemma lab_image_die : represents (F := xFrozen) (T := ImageRepository_mem) die_heap 6 image_die.
Proof. eexists. repeat split; vm_compute; reflexivity. Qed.

Lemma lab_spec_blank :
  blank_at (F := unit) (T := ImageRepositorySpec_mem) die_heap ImageRepositorySpecBlank
    (mkImageRepositorySpec "" 0 [] "").
Proof. eexists. repeat split; vm_compute; reflexivity. Qed.

Lemma lab_maven_spec_die :
  represents (F := unit) (T := MavenArtifactSpec_mem) die_heap 7
    (mkdie false
       (mkMavenArtifactSpec (mkMavenArtifactType "g" "1.0" "app" "jar" "")
          (mkRepository "https://repo/maven" "credentials") 60 None)
       (mkMavenArtifactSpec (mkMavenArtifactType "" "" "" "" "") (mkRepository "" "") 0 None)).
Proof. eexists. repeat split; vm_compute; reflexivity. Qed.

Lemma lab_repository_blank :
  blank_at (F := unit) (T := Repository) die_heap RepositoryBlank (mkRepository "" "").
Proof. eexists. repeat split; vm_compute; reflexivity. Qed.
End Lab.
