(* ===== verification/MemoryProperties.v ===== *)
(** * Properties of deep copies and of dies *)

From stdpp Require Import fin_sets.
From S2P Require Import Prelude GoErrors Effects Runtime ApiTypes GoHeap GoDeep DeepCopies Dies DieFacts DieTypes.
From S2P Require Import MemoryLaboratory.

Section Copies.
Context `{KT : KubeTypes} `{CM : !CopyMachinery} {OM LM : Type}.
Context `{DO : !Deep xObjectMeta OM, DOL : !DeepLaws xObjectMeta OM}.
Context `{DLM : !Deep xListMeta LM, DLML : !DeepLaws xListMeta LM}.
Context `{CL : !CopyLaws OM LM}.

(** C36: every [DeepCopyInto] refines the identity on what memory stands
    for: the copy has the same value, depends on new cells only, and no cell
    there was has changed. *)
Theorem deep_copies_refine :
  (copies Artifact_DeepCopyInto /\ copies Repository_DeepCopyInto /\ copies MavenArtifactType_DeepCopyInto) /\
  (copies ImageRepositorySpec_DeepCopyInto /\ copies ImageRepositoryStatus_DeepCopyInto /\
   copies MavenArtifactSpec_DeepCopyInto /\ copies MavenArtifactStatus_DeepCopyInto) /\
  (copies ImageRepository_DeepCopyInto /\ copies MavenArtifact_DeepCopyInto) /\
  (copies ImageRepositoryList_DeepCopyInto /\ copies MavenArtifactList_DeepCopyInto).
Proof.
  split; [|split; [|split]].
  - split; [apply Artifact_copied|]. split; [apply Repository_copied|apply copies_mret].
  - split; [apply IRSpec_copied|]. split; [apply IRStatus_copied|]. split; [apply MASpec_copied|apply MAStatus_copied].
  - split; [apply IR_copied|apply MA_copied].
  - split; [apply IRList_copied|apply MAList_copied].
Qed.

(** C37: an object and its [DeepCopy] are independent: whatever is written
    to the cells one of them depends on, the other keeps its value; a nil
    pointer is copied to the nil interface. *)
Theorem deep_copy_independent :
  independent ImageRepository_DeepCopy /\ independent MavenArtifact_DeepCopy /\
  independent ImageRepositoryList_DeepCopy /\ independent MavenArtifactList_DeepCopy /\
  forall h, ImageRepository_DeepCopyObject nil_ptr h = (Ret nil_object, h) /\
            MavenArtifact_DeepCopyObject nil_ptr h = (Ret nil_object, h).
Proof.
  split; [apply copy_independent, IR_copied|]. split; [apply copy_independent, MA_copied|].
  split; [apply copy_independent, IRList_copied|]. split; [apply copy_independent, MAList_copied|done].
Qed.
End Copies.

Section Dies.
Context `{KT : KubeTypes} {F T V : Type} `{ST : !Stored T, SD : !Stored (Die F T), DT : !DieType F T}.
Context `{ND : !NotData (Die F T), D : !Deep T V, DL : !DeepLaws T V}.

(** C38: the methods of a die refine the functions they are named for:
    feeding replaces the value, stamping and running callbacks apply what
    these do to it, sealing replaces the seal; an immutable die and every
    other cell stay as they are and the result is a new die, a mutable die is
    changed in place and nothing else is.  A release returns the value (the
    seal for the release of the seal), which an immutable die shares with
    nobody; making a die mutable or immutable keeps value and seal. *)
Theorem dies_refine h (Blank d : loc) (zero : V) (a : die V) :
  copies die_DeepCopyInto ->
  represents h d a -> blank_at h Blank zero ->
  ((forall r v, deep h r = Some v -> becomes h d a (with_value v a) (DieFeed d r)) /\
   (forall fn f, sets h fn f -> becomes h d a (with_value (f (a_value a)) a) (DieStamp d fn)) /\
   (forall gs fs, acts_all h gs fs ->
      becomes h d a (with_value (apply_all fs (a_value a)) a) (DieWith Blank d gs)) /\
   (forall r v, deep h r = Some v -> becomes h d a (with_seal v a) (DieSealFeed d r))) /\
  (exists y h', DieRelease d h = (Ret y, h') /\ h ⊆ h' /\ deep h' y = Some (a_value a) /\
     (a_mutable a = false -> reach h' y ## dom h)) /\
  (exists y h', DieSealRelease d h = (Ret y, h') /\ h ⊆ h' /\ deep h' y = Some (a_seal a) /\
     reach h' y ## dom h) /\
  (forall b, exists d' h', DieImmutable d b h = (Ret d', h') /\ h ⊆ h' /\
     represents h' d' (mkdie (negb b) (a_value a) (a_seal a)) /\
     if decide (a_mutable a = negb b) then d' = d else d' ∉ dom h).
Proof.
  intros Hcopy Hrep HB. split; [|split; [|split]].
  - split; [intros; by apply DieFeed_becomes|]. split; [intros; by apply DieStamp_becomes|].
    split; [intros; by eapply DieWith_becomes|]. intros; by apply DieSealFeed_becomes.
  - by apply DieRelease_value.
  - by apply DieSealRelease_value.
  - intros b. by apply DieImmutable_value.
Qed.
End Dies.

Section Built.
Context `{KT : KubeTypes} `{CM : !CopyMachinery, DM : !DieMachinery, BL : Blanks} {OM LM : Type}.
Context `{DO : !Deep xObjectMeta OM, DOL : !DeepLaws xObjectMeta OM}.
Context `{DLM : !Deep xListMeta LM, DLML : !DeepLaws xListMeta LM}.
Context `{CL : !CopyLaws OM LM}.

(** The fields of an object, and of a spec. *)
Lemma deep_object_iff {Sp St SpV StV : Type} `{DS : !Deep Sp SpV, DT : !Deep St StV} h
    (o : object_mem Sp St) (w : object_value OM SpV StV) :
  deep h o = Some w <->
  (deep h (o_TypeMeta o) = Some w.1.1 /\ deep h (o_ObjectMeta o) = Some w.1.2) /\
  (deep h (o_Spec o) = Some w.2.1 /\ deep h (o_Status o) = Some w.2.2).
Proof.
  change (deep h o) with (id <$> deep h ((o_TypeMeta o, o_ObjectMeta o), (o_Spec o, o_Status o))).
  rewrite option_fmap_id, deep_pair. cbn [fst snd]. by rewrite !deep_pair.
Qed.

Lemma deep_IRSpec_iff h (x : ImageRepositorySpec_mem) v :
  deep h x = Some v <->
  exists l, deep h (m_ImagePullSecrets x) = Some l /\
    v = mkImageRepositorySpec (m_Image x) (m_ir_Interval x) l (m_ServiceAccountName x).
Proof.
  cbn [deep deep_IRSpec deep_via deep_prod flat_deep fst snd].
  destruct (deep h (m_ImagePullSecrets x)) as [l|]; simpl; split.
  - intros [= <-]. by exists l.
  - by intros (? & [= <-] & ->).
  - done.
  - by intros (? & ? & _).
Qed.

Lemma spec_field {Sp St SpV StV : Type} `{DS : !Deep Sp SpV, DT : !Deep St StV} :
  field (R := object_mem Sp St) (W := object_value OM SpV StV) o_Spec
    (fun v r => mkobject_mem (o_TypeMeta r) (o_ObjectMeta r) v (o_Status r))
    (fun w => w.2.1) (fun v w => (w.1, (v, w.2.2))).
Proof.
  intros h x w [H1 [H2 H3]]%deep_object_iff. split; [done|]. intros y v Hy. by apply deep_object_iff.
Qed.

(** A setter of a die, as a callback on a mutable one. *)
Lemma setter_acts {F T V : Type} `{ST : !Stored T, SD : !Stored (Die F T), DT : !DieType F T}
    `{ND : !NotData (Die F T), D : !Deep T V, DL : !DeepLaws T V} h0 (m : T -> T) (f : V -> V) :
  copies die_DeepCopyInto ->
  (forall h x v, deep h x = Some v -> deep h (m x) = Some (f v) /\ reach h (m x) = reach h x) ->
  acts h0 (fun d => _ ← DieSet (F := F) d m; mret tt) f.
Proof.
  intros Hcopy Hm. apply stamp_acts; [done..|]. apply assign_sets. intros h x v _ Hv.
  destruct (Hm h x v Hv) as [H1 H2]. by rewrite H1, H2.
Qed.
Abbreviation IRValue := (object_value OM ImageRepositorySpec (ImageRepositoryStatus (list Condition))).

Definition on_spec {Sp St} (f : Sp -> Sp) (v : object_value OM Sp St) : object_value OM Sp St :=
  (v.1, (f v.2.1, v.2.2)).

(** A die through the dies of its parts. *)
Lemma spec_die_builds h d a zero image interval account :
  represents (F := xFrozen) (T := ImageRepository_mem) (V := IRValue) h d a ->
  blank_at (F := unit) (T := ImageRepositorySpec_mem) (V := ImageRepositorySpec) h ImageRepositorySpecBlank zero ->
  becomes (F := xFrozen) (T := ImageRepository_mem) (V := IRValue) h d a
    (with_value
       (on_spec (fun s => mkImageRepositorySpec image interval (ImagePullSecrets s) account) (a_value a)) a)
    (ImageRepositoryDie_SpecDie d (fun nd =>
       _ ← (_ ← ImageRepositorySpecDie_Image nd image; mret tt);
       _ ← (_ ← ImageRepositorySpecDie_Interval nd interval; mret tt);
       _ ← ImageRepositorySpecDie_ServiceAccountName nd account; mret tt)).
Proof.
  intros Hrep HB.
  apply (DieStamp_becomes (F := xFrozen) (T := ImageRepository_mem) (V := IRValue)); [apply IR_copied|done|].
  apply (assign_die_sets (F := unit) (DT := dt_ImageRepositorySpec) (T := ImageRepositorySpec_mem) (V := ImageRepositorySpec)
           (R := ImageRepository_mem) (W := IRValue) IRSpec_copied h _ zero _ _
           (fun v => v.2.1) (fun s v => (v.1, (s, v.2.2))) _
           (fun s => mkImageRepositorySpec image interval (ImagePullSecrets s) account)); [|done|].
  - apply spec_field.
  - apply (acts_seq (F := unit) (DT := dt_ImageRepositorySpec) IRSpec_copied h _ _
             (fun s => mkImageRepositorySpec image (ir_Interval s) (ImagePullSecrets s) (ServiceAccountName s))
             (fun s => mkImageRepositorySpec (Image s) interval (ImagePullSecrets s) account)).
    2: apply (acts_seq (F := unit) (DT := dt_ImageRepositorySpec) IRSpec_copied h _ _
             (fun s => mkImageRepositorySpec (Image s) interval (ImagePullSecrets s) (ServiceAccountName s))
             (fun s => mkImageRepositorySpec (Image s) (ir_Interval s) (ImagePullSecrets s) account)).
    all: apply setter_acts; [apply IRSpec_copied|].
    all: intros h0 x v (l & Hl & ->)%deep_IRSpec_iff; split; [|done]; apply deep_IRSpec_iff; by exists l.
Qed.
Lemma deep_MASpec_iff h (x : MavenArtifactSpec_mem) v :
  deep h x = Some v <->
  exists t, deep h (m_Timeout x) = Some t /\
    v = mkMavenArtifactSpec (m_Artifact x) (m_Repository x) (m_Interval x) t.
Proof.
  cbn [deep deep_MASpec deep_via deep_prod flat_deep fst snd].
  destruct (deep h (m_Timeout x)) as [t|]; simpl; split.
  - intros [= <-]. by exists t.
  - by intros (? & [= <-] & ->).
  - done.
  - by intros (? & ? & _).
Qed.

Lemma repository_die_builds h d (a : die MavenArtifactSpec) zero g f :
  represents (F := unit) (T := MavenArtifactSpec_mem) h d a ->
  blank_at (F := unit) (T := Repository) h RepositoryBlank zero ->
  acts (F := unit) (T := Repository) h g f ->
  becomes (F := unit) (T := MavenArtifactSpec_mem) h d a
    (with_value (mkMavenArtifactSpec (ma_Artifact (a_value a)) (f (mkRepository "" ""))
                   (Interval (a_value a)) (Timeout (a_value a))) a)
    (MavenArtifactSpecDie_RepositoryDie d g).
Proof.
  intros Hrep HB Hg.
  apply (DieStamp_becomes (F := unit) (DT := dt_MavenArtifactSpec) MASpec_copied h d a _
           (fun v => mkMavenArtifactSpec (ma_Artifact v) (f (mkRepository "" "")) (Interval v) (Timeout v)));
    [done|].
  apply (assign_die_sets (F := unit) (DT := dt_Repository) (T := Repository) (V := Repository)
           (R := MavenArtifactSpec_mem) (W := MavenArtifactSpec) Repository_copied h _ zero _ _
           (fun _ => mkRepository "" "")
           (fun r v => mkMavenArtifactSpec (ma_Artifact v) r (Interval v) (Timeout v)) g f); [|done|done].
  intros h0 x w (t & Ht & ->)%deep_MASpec_iff. split; [done|].
  intros y v [= <-]. apply deep_MASpec_iff. by exists t.
Qed.

(** C39: building a resource through the dies of its parts sets the fields
    named and keeps the others, in a new die if the die is immutable: here
    the image, the interval and the service account of an [ImageRepository].
    But the die of a repository within the spec of a MavenArtifact starts
    from the empty repository, and what the spec had is lost. *)
Theorem nested_dies_build h :
  (forall d a zero image interval account,
     represents (F := xFrozen) (T := ImageRepository_mem) (V := IRValue) h d a ->
     blank_at (F := unit) (T := ImageRepositorySpec_mem) (V := ImageRepositorySpec) h ImageRepositorySpecBlank zero ->
     becomes (F := xFrozen) (T := ImageRepository_mem) (V := IRValue) h d a
       (with_value
          (on_spec (fun s => mkImageRepositorySpec image interval (ImagePullSecrets s) account) (a_value a)) a)
       (ImageRepositoryDie_SpecDie d (fun nd =>
          _ ← (_ ← ImageRepositorySpecDie_Image nd image; mret tt);
          _ ← (_ ← ImageRepositorySpecDie_Interval nd interval; mret tt);
          _ ← ImageRepositorySpecDie_ServiceAccountName nd account; mret tt))) /\
  (forall d (a : die MavenArtifactSpec) zero g f,
     represents (F := unit) (T := MavenArtifactSpec_mem) h d a ->
     blank_at (F := unit) (T := Repository) h RepositoryBlank zero ->
     acts (F := unit) (T := Repository) h g f ->
     becomes (F := unit) (T := MavenArtifactSpec_mem) h d a
       (with_value (mkMavenArtifactSpec (ma_Artifact (a_value a)) (f (mkRepository "" ""))
                      (Interval (a_value a)) (Timeout (a_value a))) a)
       (MavenArtifactSpecDie_RepositoryDie d g)).
Proof. split; [apply spec_die_builds|apply repository_die_builds]. Qed.
End Built.

(** ** Instances *)

Import Lab.

Lemma deep_copies_refine_witness :
  makes (T := ImageRepository_mem) (ImageRepository_DeepCopyInto lab_image) lab_heap lab_value.
Proof. destruct deep_copies_refine as (_ & _ & [H1 _] & _). apply H1, lab_deep. Defined.

Lemma deep_copy_independent_witness :
  exists q h', ImageRepository_DeepCopy (at_loc 5%positive) lab_heap = (Ret q, h') /\ deep h' q = Some (Some lab_value).
Proof.
  destruct deep_copy_independent as (H & _).
  destruct (H lab_heap (at_loc 5%positive) (Some lab_value)) as (q & h' & Ec & Hd & _).
  - vm_compute. reflexivity.
  - exists q, h'. split; [exact Ec|exact Hd].
Defined.

Lemma dies_refine_witness :
  becomes (F := unit) (T := Repository) die_heap RepositoryBlank
    (mkdie false (mkRepository "" "") (mkRepository "" ""))
    (mkdie false (mkRepository "https://other" "") (mkRepository "" ""))
    (DieFeed (F := unit) RepositoryBlank (mkRepository "https://other" "")).
Proof.
  destruct (dies_refine (DT := dt_Repository) die_heap RepositoryBlank RepositoryBlank _ _ Repository_copied
              lab_repository_blank lab_repository_blank) as ((H & _) & _).
  apply (H (mkRepository "https://other" "") (mkRepository "https://other" "")). reflexivity.
Defined.

Lemma nested_dies_build_witness :
  (exists d' h', ImageRepositoryDie_SpecDie 6 (fun nd =>
       _ ← (_ ← ImageRepositorySpecDie_Image nd "registry/other"; mret tt);
       _ ← (_ ← ImageRepositorySpecDie_Interval nd 30; mret tt);
       _ ← ImageRepositorySpecDie_ServiceAccountName nd "robot"; mret tt) die_heap = (Ret d', h') /\ die_heap ⊆ h') /\
  exists d' h', MavenArtifactSpecDie_RepositoryDie 7 (fun nd => _ ← RepositoryDie_URL nd "https://other"; mret tt)
      die_heap = (Ret d', h') /\ die_heap ⊆ h'.
Proof.
  destruct (nested_dies_build die_heap) as [H1 H2]. split.
  - destruct (H1 6%positive image_die _ "registry/other" 30 "robot" lab_image_die lab_spec_blank)
      as (d' & h' & E & _ & _ & _ & Hs). exists d', h'. split; [exact E|exact Hs].
  - destruct (H2 7%positive _ _ (fun nd => _ ← RepositoryDie_URL nd "https://other"; mret tt)
                (fun r => mkRepository "https://other" (SecretRef r)) lab_maven_spec_die lab_repository_blank)
      as (d' & h' & E & _ & _ & _ & Hs).
    + apply setter_acts; [apply Repository_copied|]. intros h x v [= <-]. by split.
    + exists d', h'. split; [exact E|exact Hs].
Defined.
