(* ===== verification/Laboratory.v ===== *)
(** * A small closed world

    Concrete instances of every class the development is parametric in: one
    machine, one repository, one registry.  The examples and the instances of
    the theorems run on it. *)

From S2P Require Import Prelude GoStrings GoPath GoErrors Effects World GoOS GoOSFacts Sha1.
From S2P Require Import Runtime ApiTypes ApiWebhook MavenMetadata Http Transport Stashes.
From S2P Require Import ArtifactFiles MavenDownload MavenResolver Reconcile Frames Steps.
From S2P Require Import MavenArtifactController ImageRepositoryController MavenFacts MavenPublish.
From S2P Require Import ImageFacts PanicFacts Main.

(** ** The machine *)

Definition lab_url_Parse (s : string) : URL + error :=
  let parse scheme n :=
    let '(host, rest, found) := Cut (String.substring n (String.length s) s) "/" in
    mkURL scheme host (if found : bool then "/" +:+ rest else "") in
  if HasPrefix s "https://" then inl (parse "https" 8%nat)
  else if HasPrefix s "http://" then inl (parse "http" 7%nat)
  else inr (foreign_Error "url" s).

Definition lab_URL_String (u : URL) : string := Scheme u +:+ "://" +:+ Host u +:+ Rest u.

Definition jar : string := "the bytes of a jar".
Definition bundle : string := "PK" +:+ String (ascii_of_nat 3) (String (ascii_of_nat 4) " a zip archive").
Definition evil : string := "PK" +:+ String (ascii_of_nat 3) (String (ascii_of_nat 4) " a hostile archive").

Definition app : string := "https://repo.test/maven/com/acme/app".

Definition to (u : string) : location :=
  match lab_url_Parse u with inl u' => Location u u' | inr e => BadLocation u e end.

(** What the repository answers. *)
Definition lab_pages (url : string) : exchange :=
  if decide (url = app +:+ "/maven-metadata.xml") then Response 200 NoLocation "<metadata/>" None
  else if decide (url = app +:+ "/1.0/app-1.0.jar") then Response 200 NoLocation jar None
  else if decide (url = app +:+ "/1.0/app-1.0.jar.sha1") then Response 200 NoLocation (sha1_hex jar) None
  else if decide (url = app +:+ "/2.0/app-2.0.jar") then Response 200 NoLocation bundle None
  else if decide (url = app +:+ "/2.0/app-2.0.jar.sha1") then Response 200 NoLocation (sha1_hex bundle) None
  else if decide (url = app +:+ "/3.0/app-3.0.jar.sha1") then Response 503 NoLocation "" None
  else if decide (url = app +:+ "/4.0/app-4.0.jar") then Response 200 NoLocation jar None
  else if decide (url = app +:+ "/4.0/app-4.0.jar.sha1") then Response 200 NoLocation "0000" None
  else if decide (url = "https://repo.test/moved") then Response 302 (to (app +:+ "/1.0/app-1.0.jar")) "" None
  else if decide (url = "https://repo.test/away") then Response 302 (to "https://evil.test/") "" None
  else if decide (url = "https://repo.test/loop") then Response 302 (to "https://repo.test/loop") "" None
  else Response 404 NoLocation "" None.

Definition not_found : error := foreign_Error "NotFound" "not found".

Definition ca_pem : string := "-----BEGIN CERTIFICATE----- tenant".

Definition lab_secret (ns name : string) : Secret + error :=
  if decide (name = "creds")
  then inl (mkSecret "creds" (Some (<["username" := "user"]> (<["password" := "hunter2"]>
              (<["caFile" := ca_pem]> ∅)))))
  else inr not_found.

Definition lab_env (fault_at : nat -> option fault) : Env.
Proof.
  refine {|
    env_cwd := ["srv"];
    env_TempDir := "/tmp";
    env_umask := 18;
    env_clock := Z.of_nat;
    env_random n := n;
    env_fault := fault_at;
    url_Parse := lab_url_Parse;
    URL_String := lab_URL_String;
    URL_stripPassword := lab_URL_String;
    env_roundtrip t tr rq := lab_pages (lab_URL_String (rq_URL rq));
    x509_SystemCertPool t := inl (mkCertPool ["system"]);
    x509_pem_ok s := HasPrefix s "-----BEGIN CERTIFICATE-----";
    kube_Secret t := lab_secret;
    kube_ServiceAccount t ns name :=
      if decide (name = "default") then inl (mkServiceAccount ["creds"]) else inr not_found;
    apierrs_IsNotFound e := match e with foreign_Error "NotFound" _ => true | _ => false end
  |}.
  - repeat constructor; by vm_compute.
  - done.
Defined.

#[export] Instance lab : Env := lab_env (fun _ => None).

(** ** Formats *)

Definition lab_metadata : MavenMetadata :=
  mkMavenMetadata "com.acme" "app" "1.0-SNAPSHOT"
    (mkVersioning "2.0" "1.0" (mkVersions ["1.0"; "2.0"]) "20240101"
       (mkSnapshotVersions [mkSnapshotVersion "jar" "1.0-20240101.000000-7" "20240101"])
       (mkSnapshotElement "20240101.000000" "7")).

#[export] Instance lab_xml : Xml := {
  xml_Unmarshal s := if decide (s = "<metadata/>") then inl lab_metadata else inr (foreign_Error "xml" s);
  xml_MarshalIndent m p i := inl "<metadata/>"
}.

#[export] Instance lab_targz : TarGz := {
  tz := unit;
  tz_new := tt;
  tz_header e h := (tt, "[" +:+ th_Name h +:+ "]", None);
  tz_write e d := (tt, d, None);
  tz_close e := "."
}.

#[export] Instance lab_zip : Zip := {
  zip_NewReader p d :=
    if decide (d = bundle) then inl [mkZipFile p "lib/" 493 (inl ("", None)); mkZipFile p "lib/x.class" 420 (inl ("class", None))]
    else if decide (d = evil) then inl [mkZipFile p "../../etc/passwd" 420 (inl ("root", None))]
    else inr (foreign_Error "zip" "not a valid zip file")
}.

#[export] Instance lab_clock : Clock := {
  metav1_Now t := 1000 * Z.of_nat t;
  Rfc3339Copy t := t
}.

(** ** The registry: one image, tagged and by digest *)

Definition lab_digest : string := "registry.test/app@sha256:0123456789abcdef".

Section Pull.
(** The image has one file. *)
Definition lab_pull (ref : string) (out : string) : IO unit :=
  if decide (ref = lab_digest) then
    _ ← os_Mkdir out;
    os_WriteFile (Join [out; "main"]) "program" 420
  else throw not_found.
End Pull.

#[export] Instance lab_registry : Registry := {
  Keychain := list Secret;
  name_NewDigest s := if decide (s = lab_digest) then inl "sha256:0123456789abcdef" else inr (foreign_Error "name" s);
  name_NewTag s := if decide (s = "registry.test/app:v1") then inl "registry.test/app" else inr (foreign_Error "name" s);
  k8schain_NewFromPullSecrets t l := inl l;
  remote_Head t tag tr k :=
    if decide (tag = "registry.test/app") then inl "sha256:0123456789abcdef" else inr (foreign_Error "remote" tag);
  registry_NewBasicRegistry t k tr := inl tt;
  plainimage_Pull ref k tr out l := lab_pull ref out
}.

Lemma normal_main : normal "main".
Proof. by vm_compute. Qed.

#[export] Instance lab_registry_laws : RegistryLaws.
Proof.
  split; simpl.
  - intros s d H. case_decide; [|done]. injection H as <-. by vm_compute.
  - intros ref k t out l. unfold lab_pull. case_decide; [|by apply within_throw; apply _]. within_auto.
    + eapply within_touches_mono; [|apply touch_Mkdir]. intros q <-. by exists []; rewrite app_nil_r.
    + eapply within_touches_mono; [|apply touch_WriteFile]. intros q <-. exists ["main"].
      unfold at_path. rewrite key_Join; [done|]. constructor; [apply normal_main|done].
  - intros ref k t out l. unfold lab_pull. case_decide; [|by apply within_throw; apply _]. within_auto.
  - intros ref k t out l. unfold lab_pull. case_decide; [|done]. calm_auto.
Qed.

(** ** Resources *)

Abbreviation conditions := (gmap string Condition).
Abbreviation lab_stash := (gmap string stash_value).

Definition lab_meta : ObjectMeta := mkObjectMeta "ns" "app" None.

Definition maven_spec (version secret : string) : MavenArtifactSpec :=
  mkMavenArtifactSpec (mkMavenArtifactType "com.acme" version "app" "jar" "")
    (mkRepository "https://repo.test/maven" secret) (600 * 1000000000) (Some 60000000000).

Definition maven_resource (version secret : string) : MavenArtifact conditions :=
  mkMavenArtifact lab_meta (maven_spec version secret)
    (mkMavenArtifactStatus (InitializeConditions MavenArtifactCondSet no_conditions) 0 "" None).

Definition image_resource (image : string) : ImageRepository conditions :=
  mkImageRepository lab_meta (mkImageRepositorySpec image (300 * 1000000000) [] "")
    (mkImageRepositoryStatus (InitializeConditions imagerepositoryCondSet no_conditions) 0 "" None).

(** The disk: the working directory, and the temporary one. *)
Definition lab_fs : fsmap := <[["srv"] := DirNode]> (<[["tmp"] := DirNode]> ∅).

Definition lab_world (fs : fsmap) : World := mkWorld fs 0 [] [].

Definition start {P : Type} (p : P) (fs : fsmap) : Reconcile P lab_stash :=
  mkReconcile p empty_stash (lab_world fs) "./artifact-root" [[raw_cert ""]].

Definition lab_certs : slice := mkSlice 0 1 1.

(** ** What holds of it *)

Lemma lab_meta_ok : meta_ok lab_meta.
Proof. by vm_compute. Defined.

Lemma lab_slice_ok : slice_ok [[raw_cert ""]] lab_certs.
Proof. exists [raw_cert ""]. repeat split. simpl. lia. Defined.

Lemma lab_fs_deep k : (2 <= length k)%nat -> lab_fs !! k = None.
Proof. intros H. unfold lab_fs. rewrite !lookup_insert_ne by (intros <-; simpl in H; lia). apply lookup_empty. Defined.

Lemma lab_flat own : own <> [] -> flat lab_fs own.
Proof. intros H x. rewrite lab_fs_deep; [done|]. rewrite length_app. destruct own; simpl; [done|lia]. Defined.

Lemma lab_apart own : head own = Some "srv" -> apart own.
Proof.
  assert (at_path env_TempDir = ["tmp"]) as Ht by by vm_compute.
  intros Ho. destruct own as [|x own]; [done|]. injection Ho as ->.
  split; intros [l Hl]; rewrite Ht in Hl; discriminate.
Defined.

(** Well-formedness of a concrete disk, by computation. *)
Definition fs_wf_b (fs : fsmap) : bool :=
  forallb (fun e => match rev e.1 with
                    | [] => false
                    | _ :: r => bool_decide (lookup_node fs (rev r) = Some DirNode)
                    end) (map_to_list fs).

Lemma fs_wf_b_sound fs : fs_wf_b fs = true -> fs_wf fs.
Proof.
  intros H. unfold fs_wf_b in H. rewrite forallb_forall in H.
  assert (forall k n, fs !! k = Some n -> match rev k with
            | [] => false | _ :: r => bool_decide (lookup_node fs (rev r) = Some DirNode) end = true) as Hk.
  { intros k n Hn. apply (H (k, n)). by apply list_elem_of_In, elem_of_map_to_list. }
  split.
  - destruct (fs !! []) eqn:E; [|done]. by apply Hk in E.
  - intros k c n Hn. apply Hk in Hn. rewrite rev_app_distr in Hn. simpl in Hn. rewrite rev_involutive in Hn.
    by apply bool_decide_eq_true in Hn.
Qed.

Lemma lab_wf : fs_wf lab_fs.
Proof. apply fs_wf_b_sound. by vm_compute. Defined.

(** ** Resources on their way through a reconcile *)

Definition lab_info (v : string) : ArtifactDetails :=
  mkArtifactDetails ("app-" +:+ v +:+ ".jar") v (app +:+ "/" +:+ v +:+ "/app-" +:+ v +:+ ".jar").

Definition lab_client : HttpClient := mkHttpClient (mkTransport (mkCertPool ["system"])) sameHostRedirectPolicy.

(** The version is resolved, the download is next. *)
Definition at_download (p : MavenArtifact conditions) (v : string) (fs : fsmap)
  : Reconcile (MavenArtifact conditions) lab_stash :=
  mkReconcile p (stashArtifactVersion (lab_info v) (stashHttpClient lab_client empty_stash))
    (lab_world fs) "./artifact-root" [[raw_cert ""]].

Definition with_artifact (a : Artifact) (p : MavenArtifact conditions) : MavenArtifact conditions :=
  mkMavenArtifact (Meta p) (Spec p)
    (mkMavenArtifactStatus (Conditions (Status p)) (ObservedGeneration (Status p)) (Artifact_URL a) (Some a)).

Definition deleted (p : MavenArtifact conditions) : MavenArtifact conditions :=
  mkMavenArtifact (mkObjectMeta (Namespace (Meta p)) (Name (Meta p)) (Some 1)) (Spec p) (Status p).

Definition lab_artifact : Artifact :=
  mkArtifact "mavenartifact/ns/app/x.tar.gz" "http://host/mavenartifact/ns/app/x.tar.gz" "app-1.0.jar" "sum" None.

(** A disk with the resource's directory and the cache file of version 1.0. *)
Definition cached_fs : fsmap :=
  <[["srv"; "artifact-root"; "mavenartifact"; "ns"; "app"; "app-1.0.jar.sha1"] :=
     FileNode (mkFile (toString (mkArtifactCache (app +:+ "/1.0/app-1.0.jar") (sha1_hex jar))) 420 0)]>
  (<[["srv"; "artifact-root"; "mavenartifact"; "ns"; "app"] := DirNode]>
  (<[["srv"; "artifact-root"; "mavenartifact"; "ns"] := DirNode]>
  (<[["srv"; "artifact-root"; "mavenartifact"] := DirNode]>
  (<[["srv"; "artifact-root"] := DirNode]> lab_fs)))).

Lemma cached_wf : fs_wf cached_fs.
Proof. apply fs_wf_b_sound. vm_compute. reflexivity. Defined.

(** One system call fails, the [k]-th step of the world. *)
Definition failing_at (k : nat) (n : Errno) : Env :=
  lab_env (fun t => if decide (t = k) then Some (mkFault n 0) else None).

(** ** More instances *)

#[export] Instance lab_apimachinery : Apimachinery.
Proof.
  refine {|
    NameIsDNSLabel s b := if byte_in "." s then ["a DNS label must not contain dots"] else [];
    ToAggregate l := match l with [] => None | _ => Some (foreign_Error "Aggregate" "") end
  |}.
  by intros [].
Defined.

#[export] Instance lab_manager : Manager := {
  manager_answers c := match c with StartManager => Some (foreign_Error "manager" "stopped") | _ => None end
}.

(** Every element of every path is a plain name. *)
Definition names_b (fs : fsmap) : bool := forallb (fun e => bool_decide (Forall normal e.1)) (map_to_list fs).

Lemma names_b_sound fs k r n : names_b fs = true -> fs !! (k ++ r) = Some n -> Forall normal r.
Proof.
  intros H Hn. unfold names_b in H. rewrite forallb_forall in H.
  specialize (H (k ++ r, n)). apply bool_decide_eq_true in H.
  - by apply Forall_app in H as [_ H].
  - by apply list_elem_of_In, elem_of_map_to_list.
Qed.

(** A directory with two files, one of them in a subdirectory. *)
Definition tree_fs : fsmap :=
  <[["tmp"; "d"; "sub"; "g"] := FileNode (mkFile "second" 420 0)]>
  (<[["tmp"; "d"; "sub"] := DirNode]>
  (<[["tmp"; "d"; "f"] := FileNode (mkFile "first" 420 0)]>
  (<[["tmp"; "d"] := DirNode]> lab_fs))).

Lemma tree_wf : fs_wf tree_fs.
Proof. apply fs_wf_b_sound. vm_compute. reflexivity. Defined.

(** Version 1.0, published. *)
Definition served_tgz : string := "[app-1.0.jar]the bytes of a jar.".

Definition served_artifact : Artifact :=
  mkArtifact "mavenartifact/ns/app/app.tar.gz" "http://host/mavenartifact/ns/app/app.tar.gz" "app-1.0.jar"
    (sha1_hex served_tgz) None.

Definition served_resource : MavenArtifact conditions :=
  ma_MarkTrue MavenArtifactConditionArtifactAvailable "Available" "" []
    (ma_MarkTrue MavenArtifactConditionArtifactResolved "Resolved" "" []
       (with_artifact served_artifact (maven_resource "1.0" ""))).

Definition served_fs : fsmap :=
  <[["srv"; "artifact-root"; "mavenartifact"; "ns"; "app"; "app.tar.gz"] := FileNode (mkFile served_tgz 420 0)]>
    cached_fs.

Lemma served_wf : fs_wf served_fs.
Proof. apply fs_wf_b_sound. vm_compute. reflexivity. Defined.

Lemma served_published : published "host" "./artifact-root" (lab_info "1.0") served_resource served_fs.
Proof.
  split.
  - exists served_artifact, (mkFile served_tgz 420 0), "app.tar.gz".
    split; [done|]. split; [by vm_compute|]. repeat split; vm_compute; reflexivity.
  - by vm_compute.
  - exists (sha1_hex jar). eexists. split; [vm_compute; reflexivity|]. vm_compute. reflexivity.
Defined.
