(* ===== verification/SentSyncs.v ===== *)
(** * What the syncs of a MavenArtifact put on the wire *)

From S2P Require Import Prelude GoStrings GoPath GoErrors Effects World GoOS GoOSFacts Sha1.
From S2P Require Import Runtime ApiTypes MavenMetadata Http Transport Stashes ArtifactFiles.
From S2P Require Import ArtifactFilesFacts MavenDownload MavenResolver SentFacts Reconcile.
From S2P Require Import Frames Steps MavenArtifactController ImageRepositoryController MavenFacts MavenPublish.
From S2P Require Import ImageFacts PanicFacts Composition MavenReconcileFacts.

Section Syncs.
Context {C : Type} `{CM : ConditionManager C}.
Context {Sh : Type} `{ST : Stash Sh stash_value}.
Context `{E : Env} `{X : Xml} `{T : TarGz} `{ZR : Zip} `{CK : Clock}.
Abbreviation RS := (Reconcile (MavenArtifact C) Sh).

Section Steps.
Context (P : Transport * Request -> Prop).

Lemma sent_set_parent (f : MavenArtifact C -> MavenArtifact C) : within (sends_only (S := RS) P) (set_parent f).
Proof. by apply sent_same. Qed.
Lemma sent_set_stash (f : Sh -> Sh) : within (sends_only (S := RS) P) (set_stash f).
Proof. by apply sent_same. Qed.
Lemma sent_clean_root : within (sends_only (S := RS) P) clean_root.
Proof. apply sent_same. intros s. unfold clean_root, mbind, M_bind, gets. by destruct (IsAbs (httpRootDir s)). Qed.
Lemma sent_http_error inner code (u n o : MavenArtifact C -> MavenArtifact C) :
  within (sends_only (S := RS) P) (http_error inner code u n o).
Proof.
  unfold http_error. repeat case_decide; repeat case_match;
    first [apply sent_set_parent | apply within_throw; apply _].
Qed.
Lemma sent_on_heap {A : Type} (f : arrays -> A * arrays) : within (sends_only (S := RS) P) (on_heap f).
Proof. apply sent_same. intros s. unfold on_heap. by destruct (f (heap s)). Qed.
End Steps.

Hint Resolve sent_set_parent sent_set_stash sent_clean_root sent_http_error sent_on_heap : sent.

(** Reading secrets asks the Kubernetes API only. *)
Lemma SecretsSync_sent certs : within (sends_only (S := RS) (fun _ => False)) (SecretsSync certs).
Proof.
  unfold SecretsSync, stash_client, reconcile_certs, TrackAndGet_Secret. sent_auto.
Qed.

Lemma VersionSync_sent (s : RS) t u timeout :
  retrieveHttpClient (stash s) = Some (mkHttpClient t sameHostRedirectPolicy) ->
  url_Parse (Repository_URL (ma_Repository (Spec (parent s)))) = inl u ->
  Timeout (Spec (parent s)) = Some timeout ->
  sends_only (request_below (mkCtx (Some timeout) (stash s)) t (URL_String u +:+ "/")) s (VersionSync s).2.
Proof.
  intros Hc Hu Ht. unfold VersionSync. rewrite (bind_Ret _ _ s (stash s) s), Hc by done.
  rewrite (bind_Ret _ _ s (parent s) s), Ht, Hu by done. case_decide; [by exists []; rewrite app_nil_r|].
  set (P := request_below _ _ _). match goal with |- context [(_ ← run_Resolve ?mr _ _; _) s] => set (m := mr) end.
  assert (sends_only P s (run_Resolve (C := C) m (mkCtx (Some timeout) (stash s))
                            (mkHttpClient t sameHostRedirectPolicy) s).2) as Hr.
  { pose proof (at_base_Resolve (mkCtx (Some timeout) (stash s)) t (URL_String u)
                  (mkResolverState (world s) m) eq_refl) as [_ Hs]. unfold run_Resolve.
    destruct (Resolve _ _ _) as [[[]|e|why] rs]; exact Hs. }
  unfold mbind, M_bind at 1. destruct (run_Resolve _ _ _ s) as [[[[e|] mr]|e|why] s1]; try exact Hr.
  etrans; [exact Hr|]. assert (within (sends_only (S := RS) P) (resolve_failed (parent s) e)) as Hw; [|apply Hw].
  unfold resolve_failed. sent_auto.
Qed.

Lemma DownloadSync_sent host (s : RS) info t timeout :
  retrieveArtifactVersion (stash s) = Some info ->
  retrieveHttpClient (stash s) = Some (mkHttpClient t sameHostRedirectPolicy) ->
  Timeout (Spec (parent s)) = Some timeout ->
  sends_only (request_below (mkCtx (Some timeout) (stash s)) t (ArtifactDownloadURL info)) s (DownloadSync host s).2.
Proof.
  intros Hi Hc Ht. unfold DownloadSync. rewrite (bind_Ret _ _ s (stash s) s), Hi, Hc by done.
  rewrite (bind_Ret _ _ s (parent s) s), Ht by done. set (P := request_below _ _ _).
  assert (HasPrefix (ArtifactDownloadURL info) (ArtifactDownloadURL info) = true) as Hb
    by (apply HasPrefix_spec; exists ""; by rewrite append_nil_r).
  match goal with |- sends_only P s (?m s).2 => assert (within (sends_only (S := RS) P) m) as Hw; [|apply Hw] end.
  unfold fetch_checksum, checksum_failed, fetch_and_publish, fetch_artifact, artifact_failed, unpack, publish, os_Mkdir.
  sent_auto; first [by apply sent_downloadChecksum | by apply sent_downloadArtifact].
Qed.

(** ** A whole reconcile *)

(** The secret of a resource: the one the Kubernetes API answers for the
    reference of its spec, or none. *)
Definition own_secret (s : RS) (a : Secret) : Prop :=
  let name := SecretRef (ma_Repository (Spec (parent s))) in
  if decide (name = "") then a = mkSecret "" None
  else kube_Secret (w_tick (world s)) (Namespace (Meta (parent s))) name = inl a.

(** A request of this resource alone: over a transport that trusts the
    configured certificates and those of its secret, with the credentials of
    its secret and the timeout of its spec, and to the origin of a URL below
    the one of its repository. *)
Definition tenant_request (certs : slice) (s : RS) (x : Transport * Request) : Prop :=
  exists a u timeout url v w w',
    own_secret s a /\
    newTransport (elements (heap s) certs ++ tenant_certs a) w = (Ret x.1, w') /\
    rq_BasicAuth x.2 = Some (data_entry a "username", data_entry a "password") /\
    Timeout (Spec (parent s)) = Some timeout /\ rq_Timeout x.2 = Some timeout /\
    url_Parse (Repository_URL (ma_Repository (Spec (parent s)))) = inl u /\
    HasPrefix url (URL_String u +:+ "/") = true /\ url_Parse url = inl v /\
    Scheme (rq_URL x.2) = Scheme v /\ Host (rq_URL x.2) = trim_colon (Host v).

Context `{CL : !ConditionLaws C, SL : !StashLaws Sh stash_value}.

(** What the secrets sync hands to the other syncs. *)
Definition client_ready (certs : slice) (s s1 : RS) : Prop :=
  retrieveArtifactVersion (stash s1) = None /\
  (retrieveHttpClient (stash s1) = None \/
   exists a t w w', own_secret s a /\
     newTransport (elements (heap s) certs ++ tenant_certs a) w = (Ret t, w') /\
     retrieveHttpClient (stash s1) = Some (mkHttpClient t sameHostRedirectPolicy) /\
     forall timeout, basicAuthCredentialsFromSecret (mkCtx timeout (stash s1)) =
       mkAuthOptions (data_entry a "username") (data_entry a "password")).

Lemma SecretsSync_ready certs (s s1 : RS) :
  stash s = empty_stash -> slice_ok (heap s) certs -> SecretsSync certs s = (Ret tt, s1) ->
  client_ready certs s s1.
Proof.
  intros Hst Hok H. apply SecretsSync_Ret in H as (_ & _ & _ & H); [|done].
  destruct H as [[Hst1 _]|(a & t & w & w' & _ & Ha & Ht & Hst1)].
  - unfold client_ready. rewrite Hst1, Hst. autorewrite with stash. auto.
  - unfold client_ready, basicAuthCredentialsFromSecret. cbn [ctx_stash]. rewrite Hst1. autorewrite with stash.
    split; [case_decide; autorewrite with stash; rewrite ?Hst; by autorewrite with stash|].
    right. exists a, t, w, w'. split; [exact Ha|]. split; [done|]. split; [done|]. intros _.
    case_decide as Hn; autorewrite with stash; [|done]. subst a. rewrite Hst. by autorewrite with stash.
Qed.

Lemma request_below_tenant certs (s : RS) (ctx : Ctx Sh) a t u timeout w w' base x :
  own_secret s a -> newTransport (elements (heap s) certs ++ tenant_certs a) w = (Ret t, w') ->
  basicAuthCredentialsFromSecret ctx = mkAuthOptions (data_entry a "username") (data_entry a "password") ->
  Timeout (Spec (parent s)) = Some timeout -> ctx_Timeout ctx = Some timeout ->
  url_Parse (Repository_URL (ma_Repository (Spec (parent s)))) = inl u ->
  HasPrefix base (URL_String u +:+ "/") = true ->
  request_below ctx t base x -> tenant_request certs s x.
Proof.
  intros Ha Ht Hc HT Hctx Hu Hb (Hx & Hauth & Hto & url & v & Hp & Hv & Hs & Hh).
  exists a, u, timeout, url, v, w, w'. rewrite Hx, Hauth, Hc, Hto, Hctx.
  do 6 (split; [done|]). split; [|done].
  apply HasPrefix_spec in Hb as [r ->]. apply HasPrefix_spec in Hp as [q ->].
  rewrite append_assoc. apply HasPrefix_append.
Qed.

Lemma sends_only_mono (P Q : Transport * Request -> Prop) (s s' : RS) :
  (forall x, P x -> Q x) -> sends_only P s s' -> sends_only Q s s'.
Proof. intros H (l & Hl & HP). exists l. split; [done|]. by eapply Forall_impl. Qed.

(** The version is resolved below the repository. *)
Lemma VersionSync_tenant certs (s s1 : RS) :
  client_ready certs s s1 -> Spec (parent s1) = Spec (parent s) ->
  sends_only (tenant_request certs s) s1 (VersionSync s1).2.
Proof.
  intros [_ [Hc|(a & t & w & w' & Ha & Ht & Hc & Hb)]] Hsp.
  { unfold VersionSync, mbind, M_bind, gets. by rewrite Hc. }
  destruct (Timeout (Spec (parent s1))) as [timeout|] eqn:HT.
  2: { unfold VersionSync, mbind, M_bind, gets. by rewrite Hc, HT. }
  destruct (url_Parse (Repository_URL (ma_Repository (Spec (parent s1))))) as [u|e] eqn:Hu.
  2: { unfold VersionSync, mbind, M_bind, gets. rewrite Hc, HT, Hu. apply sent_set_parent. }
  eapply sends_only_mono; [|by eapply VersionSync_sent]. intros x Hx.
  apply (request_below_tenant certs s (mkCtx (Some timeout) (stash s1)) a t u timeout w w' (URL_String u +:+ "/"));
    try done; [by rewrite <- Hsp|by rewrite <- Hsp|].
  apply HasPrefix_spec. exists "". by rewrite append_nil_r.
Qed.

(** The download is below the repository, at the URL resolved. *)
Lemma DownloadSync_tenant host certs (s s1 s2 : RS) :
  client_ready certs s s1 -> Spec (parent s1) = Spec (parent s) -> Spec (parent s2) = Spec (parent s1) ->
  VersionSync s1 = (Ret tt, s2) ->
  sends_only (tenant_request certs s) s2 (DownloadSync host s2).2.
Proof.
  intros [Hn Hr] Hsp Hsp2 Hv. apply VersionSync_Ret in Hv as (_ & _ & _ & Hv).
  assert (stash s2 = stash s1 -> sends_only (tenant_request certs s) s2 (DownloadSync host s2).2) as Hskip
    by (intros Hst; rewrite DownloadSync_no_version by congruence; done).
  destruct (retrieveHttpClient (stash s1)) as [c|] eqn:Ec; [|by apply Hskip; subst].
  destruct Hv as [[Hst _]|(info & Hst & (_ & u & v & Hu & _ & _ & Hurl) & _)]; [by apply Hskip|].
  destruct Hr as [|(a & t & w & w' & Ha & Ht & Hc & Hb)]; [done|]. injection Hc as ->.
  destruct (Timeout (Spec (parent s2))) as [timeout|] eqn:HT.
  2: { unfold DownloadSync, mbind, M_bind, gets. rewrite Hst. autorewrite with stash. by rewrite Ec, HT. }
  eapply sends_only_mono; [|eapply (DownloadSync_sent host s2 info t timeout);
    [rewrite Hst; by autorewrite with stash|rewrite Hst; by autorewrite with stash|done]].
  intros x Hx.
  apply (request_below_tenant certs s (mkCtx (Some timeout) (stash s2)) a t u timeout w w' (ArtifactDownloadURL info));
    try done; [|by rewrite <- Hsp, <- Hsp2|by rewrite <- Hsp|].
  - rewrite <- (Hb (Some timeout)). unfold basicAuthCredentialsFromSecret. cbn [ctx_stash]. rewrite Hst.
    by autorewrite with stash.
  - rewrite Hurl. apply (url_below _ "%s/%s/%s").
Qed.

Lemma maven_syncs_sent host certs (s : RS) :
  stash s = empty_stash -> slice_ok (heap s) certs ->
  sends_only (tenant_request certs s) s (maven_syncs host certs s).2.
Proof.
  intros Hst Hok. set (P := tenant_request certs s). unfold maven_syncs.
  assert (sends_only P s (SecretsSync certs s).2) as H1
    by (apply (sends_only_mono (fun _ => False)); [done|apply SecretsSync_sent]).
  apply (bind_outcome (fun r => sends_only P s r.2)); intros x s1 E1; rewrite E1 in H1; try exact H1.
  destruct x. etrans; [exact H1|]. pose proof (keeps_SecretsSync certs s) as K1. rewrite E1 in K1. injection K1 as _ KS1.
  pose proof (SecretsSync_ready _ _ _ Hst Hok E1) as Hr.
  pose proof (VersionSync_tenant certs s s1 Hr KS1) as H2.
  apply (bind_outcome (fun r => sends_only P s1 r.2)); intros x s2 E2; rewrite E2 in H2; try exact H2.
  destruct x. etrans; [exact H2|]. pose proof (keeps_VersionSync s1) as K2. rewrite E2 in K2. injection K2 as _ KS2.
  pose proof (DownloadSync_tenant host certs s s1 s2 Hr KS1 KS2 E2) as H3.
  by apply (bind_outcome (fun r => sends_only P s2 r.2)); intros x s3 E3; rewrite E3 in H3.
Qed.
End Syncs.
