(* ===== verification/ReconcileDisk.v ===== *)
(** * Whole reconciles: the disk, and panics

    Whatever the outcome of a reconcile, what it may have changed on disk,
    that the tree stays well formed, and when it cannot panic. *)

From S2P Require Import Prelude GoStrings GoPath GoErrors Effects World GoOS GoOSFacts Sha1.
From S2P Require Import Runtime ApiTypes MavenMetadata Http Transport Stashes ArtifactFiles.
From S2P Require Import ArtifactFilesFacts TarFacts MavenDownload MavenResolver Reconcile.
From S2P Require Import Frames Steps MavenArtifactController ImageRepositoryController MavenFacts MavenPublish.
From S2P Require Import ImageFacts PanicFacts Composition MavenReconcileFacts.
From S2P Require Import ImageReconcileFacts.

(** The directory of a resource below the root of the artifacts. *)
Definition maven_own {C Sh : Type} `{E : Env} (s : Reconcile (MavenArtifact C) Sh) : list string :=
  at_path (mavenDir (httpRootDir s) (Meta (parent s))).

(** The directory of a resource below the root of the artifacts. *)
Definition image_own {C Sh : Type} `{E : Env} (s : Reconcile (ImageRepository C) Sh) : list string :=
  at_path (imageDir (httpRootDir s) (ir_Meta (parent s))).

Lemma isolated_of_touches `{E : Env} P Q a b : touches P a b -> isolated P Q a b.
Proof. intros H k Hk. left. by apply H. Qed.

Section Maven.
Context {C : Type} `{CM : ConditionManager C}.
Context {Sh : Type} `{ST : Stash Sh stash_value, SL : !StashLaws Sh stash_value}.
Context `{E : Env} `{X : Xml} `{T : TarGz} `{ZR : Zip} `{CK : Clock}.
Abbreviation RS := (Reconcile (MavenArtifact C) Sh).

Section Within.
Context (R : relation fsmap) `{!PreOrder R}.

Lemma within_SecretsSync certs : within (on_fs (S := RS) R) (SecretsSync certs).
Proof.
  unfold SecretsSync, stash_client, reconcile_certs, TrackAndGet_Secret. within_auto.
  all: intros w; unfold on_fs; simpl; done.
Qed.

Lemma within_run_Resolve mr (ctx : Ctx Sh) client : within (on_fs (S := RS) R) (run_Resolve mr ctx client).
Proof.
  intros s. pose proof (within_Resolve R ctx client (mkResolverState (world s) mr)) as H'.
  unfold run_Resolve. by destruct (Resolve ctx client _) as [[[]|e|w] rs].
Qed.

Lemma within_VersionSync : within (on_fs (S := RS) R) VersionSync.
Proof.
  unfold VersionSync, resolve_failed. within_auto; try apply within_run_Resolve.
  all: case_decide; within_auto; apply within_run_Resolve.
Qed.
End Within.

Lemma wf_DownloadSync host : within (on_fs (S := RS) keeps_wf) (DownloadSync host).
Proof.
  unfold DownloadSync, fetch_checksum, checksum_failed, fetch_and_publish, fetch_artifact, artifact_failed,
    unpack, publish. within_auto.
  all: first [by apply within_downloadChecksum; apply _ | by apply wf_downloadArtifact | idtac].
Qed.

Lemma maven_syncs_wf host certs : within (on_fs (S := RS) keeps_wf) (maven_syncs host certs).
Proof.
  unfold maven_syncs, IntervalSync. within_auto.
  - apply within_SecretsSync; apply _.
  - apply within_VersionSync; apply _.
  - apply wf_DownloadSync.
Qed.

Lemma calm_track r : calm (track r).
Proof. done. Qed.
Lemma calm_on_heap {A : Type} (f : arrays -> A * arrays) : calm (S := RS) (on_heap f).
Proof. intros s. unfold on_heap. by destruct (f (heap s)). Qed.
Hint Resolve calm_track calm_on_heap : calm.

Lemma calm_TrackAndGet_Secret ns n : calm (TrackAndGet_Secret ns n).
Proof. unfold TrackAndGet_Secret. calm_auto. Qed.

Hint Resolve calm_TrackAndGet_Secret : calm.

Lemma calm_SecretsSync certs : calm (S := RS) (SecretsSync certs).
Proof. unfold SecretsSync, stash_client, reconcile_certs. calm_auto. Qed.

(** What a reconcile that starts with an empty stash hands to the download. *)
Lemma before_download certs (s : RS) (Q : outcome unit * RS -> Prop) (k : M RS unit) :
  stash s = empty_stash -> slice_ok (heap s) certs ->
  (forall o s1, w_fs (world s1) = w_fs (world s) ->
     (Timeout (Spec (parent s)) <> None -> is_panic o = false) -> (forall u, o <> Ret u) -> Q (o, s1)) ->
  (forall s2, w_fs (world s2) = w_fs (world s) -> httpRootDir s2 = httpRootDir s ->
     Meta (parent s2) = Meta (parent s) -> Spec (parent s2) = Spec (parent s) -> policy_client (stash s2) ->
     (forall info, retrieveArtifactVersion (stash s2) = Some info -> normal (ResolvedFileName info)) ->
     Q (k s2)) ->
  Q ((_ ← SecretsSync certs; _ ← VersionSync; k) s).
Proof.
  intros Hst Hok Hfail Hk. apply bind_outcome; intros x s1 E1.
  - destruct x. pose proof (keeps_SecretsSync certs s) as K1. rewrite E1 in K1. injection K1 as KM KS.
    apply SecretsSync_Ret in E1 as (Hr1 & _ & Hf1 & Hs1); [|done].
    assert (policy_client (stash s1) /\ retrieveArtifactVersion (stash s1) = None) as [Hpc Hnone].
    { destruct Hs1 as [[-> _]|(a & t & w & w' & _ & _ & _ & ->)].
      - rewrite Hst. unfold policy_client. autorewrite with stash. done.
      - unfold policy_client. autorewrite with stash. split; [intros c [= <-]; eauto|].
        case_decide; autorewrite with stash; rewrite Hst; by autorewrite with stash. }
    pose proof (keeps_VersionSync s1) as K2. pose proof (within_VersionSync eq s1) as F2.
    pose proof (VersionSync_calm s1 Hpc) as P2.
    apply bind_outcome; intros y s2 E2; rewrite E2 in K2, F2, P2; injection K2 as KM2 KS2;
      assert (w_fs (world s2) = w_fs (world s)) as Hf2 by (rewrite <- Hf1; symmetry; exact F2);
      simpl in KM, KS, KM2, KS2.
    + destruct y. apply VersionSync_Ret in E2 as (Hr2 & _ & _ & Hv).
      apply Hk; [done|congruence|congruence|congruence| |].
      * destruct (retrieveHttpClient (stash s1)) as [c|] eqn:Ec; [|by subst].
        destruct Hv as [[-> _]|(info & -> & _)]; [done|]. unfold policy_client. by autorewrite with stash.
      * intros info Hi. destruct (retrieveHttpClient (stash s1)) as [c|] eqn:Ec; [|subst; congruence].
        destruct Hv as [[Hsame _]|(i & Hst2 & [Hn _] & _)]; [congruence|].
        rewrite Hst2 in Hi. autorewrite with stash in Hi. by injection Hi as <-.
    + by apply Hfail.
    + apply Hfail; [done| |done]. intros Ht. rewrite <- KS in Ht. by specialize (P2 Ht).
  - apply Hfail; [|done|done]. pose proof (within_SecretsSync eq certs s) as H1. rewrite E1 in H1. by symmetry.
  - exfalso. pose proof (calm_SecretsSync certs s) as Hc. by rewrite E1 in Hc.
Qed.

(** A sequence that ends without the interval. *)
Lemma maven_syncs_outcome (Q : bool -> RS -> Prop) host certs (s : RS) :
  (let r := (_ ← SecretsSync certs; _ ← VersionSync; DownloadSync host) s in Q (is_panic r.1) r.2) ->
  Q (is_panic (maven_syncs host certs s).1) (maven_syncs host certs s).2.
Proof.
  unfold maven_syncs, IntervalSync, mbind, M_bind, gets, mret, M_ret.
  destruct (SecretsSync certs s) as [[[]|e|w] s1]; try done.
  destruct (VersionSync s1) as [[[]|e|w] s2]; try done.
  by destruct (DownloadSync host s2) as [[[]|e|w] s3].
Qed.

Lemma maven_syncs_disk host certs (s : RS) :
  stash s = empty_stash -> slice_ok (heap s) certs ->
  fs_wf (w_fs (world s)) -> meta_ok (Meta (parent s)) ->
  let own := at_path (mavenDir (httpRootDir s) (Meta (parent s))) in
  isolated (at_or_below own) (on_path_to own) (w_fs (world s)) (w_fs (world (maven_syncs host certs s).2)).
Proof.
  intros Hst Hok Hwf Hm own. apply (maven_syncs_outcome (fun _ s' => isolated _ _ _ (w_fs (world s')))).
  apply before_download; [done|done| |].
  - intros o s1 Hf _ _. simpl. by rewrite Hf.
  - intros s2 Hf Hr HM HS Hc Hn. unfold own. rewrite <- Hf, <- Hr, <- HM.
    apply DownloadSync_disk; [by rewrite Hf|by rewrite HM|done].
Qed.

(** The cache files of a directory have a bar each. *)
Definition caches_ok (fs : fsmap) (own : list string) : Prop :=
  forall x f, fs !! (own ++ [x +:+ ".sha1"]) = Some (FileNode f) -> byte_in "|" (f_data f) = true.

Lemma maven_syncs_calm host certs (s : RS) :
  stash s = empty_stash -> slice_ok (heap s) certs -> meta_ok (Meta (parent s)) ->
  Timeout (Spec (parent s)) <> None ->
  caches_ok (w_fs (world s)) (at_path (mavenDir (httpRootDir s) (Meta (parent s)))) ->
  is_panic (maven_syncs host certs s).1 = false.
Proof.
  intros Hst Hok Hm Ht Hcache. apply (maven_syncs_outcome (fun b _ => b = false)). simpl.
  apply (before_download certs s (fun r => is_panic r.1 = false)); [done|done| |].
  - intros o s1 _ Hp _. by apply Hp.
  - intros s2 Hf Hr HM HS Hc Hn. apply DownloadSync_calm; [done|by rewrite HS|].
    intros info f Hi Hfile. rewrite Hf, Hr, HM, at_cache_file in Hfile by auto. by eapply Hcache.
Qed.
(** ** Deletion, and any reconcile *)

Lemma mavenDir_not_nil root m : meta_ok m -> mavenDir root m <> "".
Proof. intros [? ?]. apply (Join_not_nil root ["mavenartifact"; Namespace m] (Name m)). normals. Qed.

(** A failed finalizer has removed a part of the directory, or nothing. *)
Lemma DownloadFinalize_run (s : RS) o s' :
  fs_wf (w_fs (world s)) -> meta_ok (Meta (parent s)) -> DownloadFinalize s = (o, s') ->
  parent s' = parent s /\ touches (at_or_below (maven_own s)) (w_fs (world s)) (w_fs (world s')) /\
  (o = Ret tt -> forall k, w_fs (world s') !! k =
     if decide (maven_own s `prefix_of` k) then None else w_fs (world s) !! k).
Proof.
  intros Hwf Hm H. pose proof (mavenDir_not_nil (httpRootDir s) _ Hm) as Hne.
  unfold DownloadFinalize, io, zoom, mbind, M_bind, gets in H. simpl in H.
  pose proof (touch_RemoveAll (mavenDir (httpRootDir s) (Meta (parent s))) (world s)) as Ht.
  destruct (os_RemoveAll _ (world s)) as [o1 w] eqn:Er. injection H as <- <-. simpl.
  split; [done|]. split; [exact Ht|]. intros ->. by apply (RemoveAll_Ret _ _ _ Er).
Qed.

Lemma wf_DownloadFinalize : within (on_fs (S := RS) keeps_wf) DownloadFinalize.
Proof. unfold DownloadFinalize. within_auto. Qed.

Context `{RC : Reconcilers} `{RCL : !ReconcilerLaws}.

Lemma maven_frame host certs (s : RS) :
  stash s = empty_stash -> slice_ok (heap s) certs -> fs_wf (w_fs (world s)) -> meta_ok (Meta (parent s)) ->
  isolated (at_or_below (maven_own s)) (on_path_to (maven_own s))
    (w_fs (world s)) (w_fs (world (MavenArtifactReconciler host certs s).2)) /\
  fs_wf (w_fs (world (MavenArtifactReconciler host certs s).2)).
Proof.
  intros Hst Hok Hwf Hm. destruct (being_deleted s) eqn:Hd.
  - destruct (maven_deleted host certs s Hd) as (o & -> & _). pose proof (wf_DownloadFinalize s Hwf) as Hw.
    destruct (DownloadFinalize_run s _ _ Hwf Hm (surjective_pairing _)) as (_ & Ht & _).
    split; [by apply isolated_of_touches|exact Hw].
  - destruct (maven_live host certs s Hd) as [[e ->]| ->]; [by split|].
    split; [by apply maven_syncs_disk|by apply (maven_syncs_wf host certs s)].
Qed.
End Maven.

(** ** Images *)

Section Image.
Context {C : Type} `{CM : ConditionManager C}.
Context {Sh : Type} `{ST : Stash Sh stash_value, SL : !StashLaws Sh stash_value}.
Context `{E : Env} `{T : TarGz} `{CK : Clock} `{RG : Registry} `{RL : !RegistryLaws}.
Abbreviation RS := (Reconcile (ImageRepository C) Sh).

(** The syncs before the pull touch neither the disk nor what the status
    says of the artifact. *)
Definition before_pull certs : M RS unit :=
  _ ← TransportSync certs; _ ← ImagePullSecretsSync; ImageDigestSync.

Abbreviation kept := (fun p : ImageRepository C => (ir_Meta p, ir_URL (ir_Status p), ir_Artifact (ir_Status p))).

Lemma keeps_before_pull certs : within (keeps kept) (before_pull certs).
Proof.
  assert (forall ns names, within (keeps (Sh := Sh) kept) (get_secrets ns names)) as Hg.
  { intros ns names. induction names as [|n names IH]; simpl; keeps_auto; done. }
  unfold before_pull, TransportSync, ImagePullSecretsSync, ImageDigestSync. keeps_auto.
Qed.

Lemma quiet_track {A : Type} r (m : IO A) : within (on_fs eq) m -> within (on_fs eq) (_ ← track r; m).
Proof. intros H'. apply within_bind; [apply _|by intros w|done]. Qed.

Lemma quiet_Secret ns n : within (on_fs eq) (TrackAndGet_Secret ns n).
Proof. apply quiet_track. within_auto. Qed.

Lemma quiet_ServiceAccount ns n : within (on_fs eq) (TrackAndGet_ServiceAccount ns n).
Proof. apply quiet_track. within_auto. Qed.

Hint Resolve quiet_Secret quiet_ServiceAccount : src.

Ltac quiet_auto :=
  lazymatch goal with
  | |- within quiet (mbind _ _) => apply within_bind; [apply _|quiet_auto|intros; quiet_auto]
  | |- within quiet (try _) => apply within_try; quiet_auto
  | |- within quiet (io _) => apply quiet_io; within_auto
  | |- within quiet (mret _) => apply within_ret; apply _
  | |- within quiet (throw _) => apply within_throw; apply _
  | |- within quiet (gets _) => apply within_gets; apply _
  | |- within quiet (of_sum _) => apply within_of_sum; apply _
  | |- within quiet (match ?x with _ => _ end) => destruct x; quiet_auto
  | |- _ => try solve [auto with src]
  end.

Lemma quiet_before_pull certs : within quiet (before_pull certs).
Proof.
  assert (forall ns names, within (@quiet (ImageRepository C) Sh) (get_secrets ns names)) as Hg.
  { intros ns names. induction names as [|n names IH]; simpl; quiet_auto; done. }
  unfold before_pull, TransportSync, ImagePullSecretsSync, ImageDigestSync. quiet_auto.
Qed.

Lemma calm_before_pull certs : calm (before_pull certs).
Proof.
  assert (forall ns n, calm (TrackAndGet_Secret ns n)) as Hs by (intros; unfold TrackAndGet_Secret; calm_auto; done).
  assert (forall ns n, calm (TrackAndGet_ServiceAccount ns n)) as Ha
    by (intros; unfold TrackAndGet_ServiceAccount; calm_auto; done).
  assert (forall ns names, calm (S := RS) (get_secrets ns names)) as Hg.
  { intros ns names. induction names as [|n names IH]; simpl; calm_auto; auto using calm_io. }
  unfold before_pull, TransportSync, ImagePullSecretsSync, ImageDigestSync. calm_auto; auto using calm_io.
Qed.

Lemma image_syncs_split host certs :
  meq (image_syncs (C := C) (Sh := Sh) host certs)
    (_ ← before_pull certs; _ ← PullImageSync host; ImageIntervalSync).
Proof.
  intros s. unfold image_syncs, before_pull, mbind, M_bind.
  destruct (TransportSync certs s) as [[[]|e|w] s1]; [|done|done].
  by destruct (ImagePullSecretsSync s1) as [[[]|e|w] s2].
Qed.

(** What holds after the pull, or after an earlier end, holds at the end. *)
Lemma image_syncs_outcome (Q : bool -> RS -> Prop) host certs (s : RS) :
  (forall b s1, (before_pull certs s).2 = s1 -> b = false -> Q b s1) ->
  (forall s1, (before_pull certs s).2 = s1 ->
     Q (is_panic (PullImageSync host s1).1) (PullImageSync host s1).2) ->
  Q (is_panic (image_syncs host certs s).1) (image_syncs host certs s).2.
Proof.
  intros Hend Hpull. rewrite (image_syncs_split host certs s). pose proof (calm_before_pull certs s) as Hc.
  unfold ImageIntervalSync, mbind, M_bind, gets, mret, M_ret.
  destruct (before_pull certs s) as [[[]|e|w] s1]; [|by apply Hend|done].
  specialize (Hpull s1 eq_refl). by destruct (PullImageSync host s1) as [[[]|e|w] s2].
Qed.

Lemma image_syncs_disk host certs (s : RS) :
  fs_wf (w_fs (world s)) -> meta_ok (ir_Meta (parent s)) ->
  let own := at_path (imageDir (httpRootDir s) (ir_Meta (parent s))) in
  isolated (at_or_below own) (on_path_to own) (w_fs (world s)) (w_fs (world (image_syncs host certs s).2)).
Proof.
  intros Hwf Hm own. pose proof (quiet_before_pull certs s) as [Hf Hr].
  pose proof (keeps_before_pull certs s) as Hk. injection Hk as HM _ _.
  apply (image_syncs_outcome (fun _ s' => isolated _ _ _ (w_fs (world s')))); intros.
  - subst. by rewrite Hf.
  - subst. unfold own. rewrite <- Hf, <- Hr. simpl in HM. rewrite <- HM.
    apply PullImageSync_disk; [by rewrite Hf|by rewrite HM].
Qed.

Lemma image_syncs_calm host certs (s : RS) :
  url_has_artifact (parent s) -> is_panic (image_syncs host certs s).1 = false.
Proof.
  intros Hu. pose proof (keeps_before_pull certs s) as Hk. injection Hk as _ HU HA. simpl in HU, HA.
  apply (image_syncs_outcome (fun b _ => b = false)); intros; [done|].
  subst. apply PullImageSync_calm. unfold url_has_artifact. by rewrite HU, HA.
Qed.

Lemma image_syncs_wf host certs : within (on_fs (S := RS) keeps_wf) (image_syncs host certs).
Proof.
  intros s. pose proof (quiet_before_pull certs s) as [Hf _].
  apply (image_syncs_outcome (fun _ s' => on_fs keeps_wf s s')); intros; subst.
  - unfold on_fs. simpl. by rewrite Hf.
  - assert (within (on_fs (S := RS) keeps_wf) (PullImageSync host)) as Hw.
    { unfold PullImageSync, mark_skipped, pull_and_publish, image_publish. within_auto. apply Pull_wf. }
    specialize (Hw (before_pull certs s).2). unfold on_fs in *. simpl in *. by rewrite <- Hf.
Qed.
Lemma imageDir_not_nil root m : meta_ok m -> imageDir root m <> "".
Proof. intros [? ?]. apply (Join_not_nil root ["imagerepository"; Namespace m] (Name m)). normals. Qed.

Lemma PullImageFinalize_run (s : RS) o s' :
  fs_wf (w_fs (world s)) -> meta_ok (ir_Meta (parent s)) -> PullImageFinalize s = (o, s') ->
  parent s' = parent s /\ touches (at_or_below (image_own s)) (w_fs (world s)) (w_fs (world s')) /\
  (o = Ret tt -> forall k, w_fs (world s') !! k =
     if decide (image_own s `prefix_of` k) then None else w_fs (world s) !! k).
Proof.
  intros Hwf Hm H. pose proof (imageDir_not_nil (httpRootDir s) _ Hm) as Hne.
  unfold PullImageFinalize, io, zoom, mbind, M_bind, gets in H. simpl in H.
  pose proof (touch_RemoveAll (imageDir (httpRootDir s) (ir_Meta (parent s))) (world s)) as Ht.
  destruct (os_RemoveAll _ (world s)) as [o1 w] eqn:Er. injection H as <- <-. simpl.
  split; [done|]. split; [exact Ht|]. intros ->. by apply (RemoveAll_Ret _ _ _ Er).
Qed.

Lemma wf_PullImageFinalize : within (on_fs (S := RS) keeps_wf) PullImageFinalize.
Proof. unfold PullImageFinalize. within_auto. Qed.

Context `{RC : Reconcilers} `{RCL : !ReconcilerLaws}.

Lemma image_frame host certs (s : RS) :
  fs_wf (w_fs (world s)) -> meta_ok (ir_Meta (parent s)) ->
  isolated (at_or_below (image_own s)) (on_path_to (image_own s))
    (w_fs (world s)) (w_fs (world (ImageRepositoryReconciler host certs s).2)) /\
  fs_wf (w_fs (world (ImageRepositoryReconciler host certs s).2)).
Proof.
  intros Hwf Hm. destruct (image_being_deleted s) eqn:Hd.
  - destruct (image_deleted host certs s Hd) as (o & -> & _). pose proof (wf_PullImageFinalize s Hwf) as Hw.
    destruct (PullImageFinalize_run s _ _ Hwf Hm (surjective_pairing _)) as (_ & Ht & _).
    split; [by apply isolated_of_touches|exact Hw].
  - destruct (image_live host certs s Hd) as [[e ->]| ->]; [by split|].
    split; [by apply image_syncs_disk|by apply (image_syncs_wf host certs s)].
Qed.
End Image.
