(* ===== verification/StashTypes.v ===== *)
(** * The types of what is stashed

    Each key is for values of one type; every reconcile of either controller
    keeps to it, so that a retrieval fails only when nothing was stashed. *)

From S2P Require Import Prelude GoStrings GoPath GoErrors Effects World GoOS GoOSFacts Sha1.
From S2P Require Import Runtime ApiTypes MavenMetadata Http Transport Stashes ArtifactFiles.
From S2P Require Import MavenDownload MavenResolver Reconcile Frames.
From S2P Require Import MavenArtifactController ImageRepositoryController Composition.
From S2P Require Import MavenReconcileFacts ImageReconcileFacts ReconcileDisk.

Section Types.
Context {Sh : Type} `{ST : Stash Sh stash_value, SL : !StashLaws Sh stash_value}.

(** The key a value of this type is stashed under. *)
Definition key_of_type (v : stash_value) : string :=
  match v with
  | SV_ArtifactDetails _ => MavenArtifactVersionStashKey
  | SV_Secret _ => MavenArtifactAuthSecretStashKey
  | SV_HttpClient _ => MavenArtifactHttpClientKey
  | SV_RoundTripper _ => HttpRoundTripperStashKey
  | SV_Secrets _ => ImagePullSecretsStashKey
  | SV_string _ => ImageRefStashKey
  end.

Definition well_typed (s : Sh) : Prop := forall k v, RetrieveValue s k = Some v -> k = key_of_type v.

Lemma well_typed_empty : well_typed empty_stash.
Proof. intros k v. by rewrite retrieve_empty. Qed.

Lemma well_typed_stash v s : well_typed s -> well_typed (StashValue (key_of_type v) v s).
Proof.
  intros H k v'. destruct (decide (key_of_type v = k)) as [<-|Hne].
  - rewrite retrieve_stash. by intros [= ->].
  - rewrite retrieve_stash_ne by done. apply H.
Qed.

(** A retrieval gives nothing only when there is nothing. *)
Definition retrieved {A : Type} (r : option A) (s : Sh) (k : string) (inj : A -> stash_value) : Prop :=
  inj <$> r = RetrieveValue s k.

Lemma retrievals s : well_typed s ->
  retrieved (retrieveHttpClient s) s MavenArtifactHttpClientKey SV_HttpClient /\
  retrieved (retrieveAuthSecret s) s MavenArtifactAuthSecretStashKey SV_Secret /\
  retrieved (retrieveArtifactVersion s) s MavenArtifactVersionStashKey SV_ArtifactDetails /\
  retrieved (RetrieveHttpRoundTripper s) s HttpRoundTripperStashKey SV_RoundTripper /\
  retrieved (RetrieveImagePullSecrets s) s ImagePullSecretsStashKey SV_Secrets /\
  (RetrieveValue s ImageRefStashKey = None \/
   RetrieveValue s ImageRefStashKey = Some (SV_string (RetrieveImageRef s))).
Proof.
  intros H. unfold retrieved, retrieveHttpClient, retrieveAuthSecret, retrieveArtifactVersion,
    RetrieveHttpRoundTripper, RetrieveImagePullSecrets, RetrieveImageRef.
  repeat split; match goal with |- context [RetrieveValue s ?k] =>
    pose proof (H k) as Hk; destruct (RetrieveValue s k) as [[]|]; auto; specialize (Hk _ eq_refl); vm_compute in Hk; discriminate end.
Qed.

Section Syncs.
Context {P : Type}.
Abbreviation RS := (Reconcile P Sh).

Definition typed : relation RS := fun s s' => well_typed (stash s) -> well_typed (stash s').

#[export] Instance typed_preorder : PreOrder typed.
Proof. split; unfold typed; [intros s|intros s1 s2 s3]; naive_solver. Qed.

Lemma typed_io {A : Type} (m : IO A) : within typed (io m).
Proof. intros s Hs. unfold io, zoom. by destruct (m (the_world s)). Qed.
Lemma typed_set_parent f : within typed (set_parent f).
Proof. by intros s Hs. Qed.
Lemma typed_set_stash f : (forall s, well_typed s -> well_typed (f s)) -> within typed (set_stash f).
Proof. intros H s Hs. by apply H. Qed.
Lemma typed_with_cert certs x : within typed (on_heap (with_cert certs x)).
Proof. intros s Hs. unfold on_heap. by destruct (with_cert certs x (heap s)). Qed.
Lemma typed_clean_root : within typed clean_root.
Proof. intros s Hs. unfold clean_root, mbind, M_bind, gets. by destruct (IsAbs (httpRootDir s)). Qed.
Lemma typed_http_error inner code u n o : within typed (http_error inner code u n o).
Proof.
  unfold http_error. repeat case_decide; repeat case_match;
    first [by apply typed_set_parent | apply within_throw; apply _].
Qed.
End Syncs.

(** The helpers that stash. *)
Lemma typed_stashHttpClient c s : well_typed s -> well_typed (stashHttpClient c s).
Proof. apply (well_typed_stash (SV_HttpClient c)). Qed.
Lemma typed_stashAuthSecret x s : well_typed s -> well_typed (stashAuthSecret x s).
Proof. apply (well_typed_stash (SV_Secret x)). Qed.
Lemma typed_stashArtifactVersion d s : well_typed s -> well_typed (stashArtifactVersion d s).
Proof. apply (well_typed_stash (SV_ArtifactDetails d)). Qed.
Lemma typed_StashHttpRoundTripper t s : well_typed s -> well_typed (StashHttpRoundTripper t s).
Proof. apply (well_typed_stash (SV_RoundTripper t)). Qed.
Lemma typed_StashImagePullSecrets l s : well_typed s -> well_typed (StashImagePullSecrets l s).
Proof. apply (well_typed_stash (SV_Secrets l)). Qed.
Lemma typed_StashImageRef i s : well_typed s -> well_typed (StashImageRef i s).
Proof. apply (well_typed_stash (SV_string i)). Qed.
End Types.

#[export] Hint Resolve typed_io typed_set_parent typed_set_stash typed_with_cert typed_clean_root
  typed_http_error typed_stashHttpClient typed_stashAuthSecret typed_stashArtifactVersion
  typed_StashHttpRoundTripper typed_StashImagePullSecrets typed_StashImageRef : src.

Section Maven.
Context {C : Type} `{CM : ConditionManager C}.
Context {Sh : Type} `{ST : Stash Sh stash_value, SL : !StashLaws Sh stash_value}.
Context `{E : Env} `{X : Xml} `{T : TarGz} `{ZR : Zip} `{CK : Clock}.
Abbreviation RS := (Reconcile (MavenArtifact C) Sh).

Lemma typed_run_Resolve mr (ctx : Ctx Sh) client : within (typed (P := MavenArtifact C)) (run_Resolve mr ctx client).
Proof. intros s Hs. unfold run_Resolve. by destruct (Resolve ctx client _) as [[[]|e|w] rs]. Qed.

Lemma typed_SecretsSync certs : within (typed (P := MavenArtifact C) (Sh := Sh)) (SecretsSync certs).
Proof. unfold SecretsSync, stash_client, reconcile_certs. sync_auto. Qed.

Lemma typed_VersionSync : within (typed (P := MavenArtifact C) (Sh := Sh)) VersionSync.
Proof. unfold VersionSync, resolve_failed. sync_auto; apply typed_run_Resolve. Qed.

Lemma typed_DownloadSync host : within (typed (P := MavenArtifact C) (Sh := Sh)) (DownloadSync host).
Proof.
  unfold DownloadSync, fetch_checksum, checksum_failed, fetch_and_publish, fetch_artifact, artifact_failed,
    unpack, publish. sync_auto.
Qed.
End Maven.

Section Image.
Context {C : Type} `{CM : ConditionManager C}.
Context {Sh : Type} `{ST : Stash Sh stash_value, SL : !StashLaws Sh stash_value}.
Context `{E : Env} `{T : TarGz} `{CK : Clock} `{RG : Registry}.

Lemma typed_get_secrets ns names : within (typed (P := ImageRepository C) (Sh := Sh)) (get_secrets ns names).
Proof. induction names as [|n names IH]; simpl; sync_auto; done. Qed.

Lemma typed_TransportSync certs : within (typed (P := ImageRepository C) (Sh := Sh)) (TransportSync certs).
Proof. unfold TransportSync. sync_auto. Qed.

Lemma typed_ImagePullSecretsSync : within (typed (P := ImageRepository C) (Sh := Sh)) ImagePullSecretsSync.
Proof. unfold ImagePullSecretsSync. pose proof typed_get_secrets. sync_auto. Qed.

Lemma typed_ImageDigestSync : within (typed (P := ImageRepository C) (Sh := Sh)) ImageDigestSync.
Proof. unfold ImageDigestSync. sync_auto. Qed.

Lemma typed_PullImageSync host : within (typed (P := ImageRepository C) (Sh := Sh)) (PullImageSync host).
Proof. unfold PullImageSync, mark_skipped, pull_and_publish, image_publish. sync_auto. Qed.
End Image.

#[export] Hint Resolve typed_SecretsSync typed_VersionSync typed_DownloadSync typed_TransportSync
  typed_ImagePullSecretsSync typed_ImageDigestSync typed_PullImageSync : src.

(** ** Whole reconciles *)

Section Whole.
Context {C : Type} `{CM : ConditionManager C}.
Context {Sh : Type} `{ST : Stash Sh stash_value, SL : !StashLaws Sh stash_value}.
Context `{E : Env} `{X : Xml} `{T : TarGz} `{ZR : Zip} `{CK : Clock} `{RG : Registry}.
Context `{RC : Reconcilers} `{RCL : !ReconcilerLaws}.

Lemma typed_maven host certs (s : Reconcile (MavenArtifact C) Sh) :
  typed s (MavenArtifactReconciler host certs s).2.
Proof.
  apply within_maven; [apply _|unfold maven_syncs, IntervalSync; sync_auto|unfold DownloadFinalize; sync_auto].
Qed.

Lemma typed_image host certs (s : Reconcile (ImageRepository C) Sh) :
  typed s (ImageRepositoryReconciler host certs s).2.
Proof.
  apply within_image; [apply _|unfold image_syncs, ImageIntervalSync; sync_auto|unfold PullImageFinalize; sync_auto].
Qed.
End Whole.
