(* ===== verification/Cluster.v ===== *)
(** * Both controllers over many resources

    The resources of a cluster, the disk the two controllers share and the
    variables their closures keep from one reconcile to the next, as a state
    machine: a step reconciles one resource, or replaces or removes it at the
    API server.  A step of one resource leaves alone what another has
    published. *)

From S2P Require Import Prelude GoStrings GoPath GoErrors Effects World GoOS GoOSFacts Sha1.
From S2P Require Import Runtime ApiTypes MavenMetadata Http Transport Stashes ArtifactFiles.
From S2P Require Import ArtifactFilesFacts TarFacts MavenDownload MavenResolver Reconcile Frames Steps.
From S2P Require Import MavenArtifactController ImageRepositoryController MavenFacts MavenPublish.
From S2P Require Import ImageFacts PanicFacts Composition MavenReconcileFacts ImageReconcileFacts ReconcileDisk.

(** ** What the closures keep *)

Section Closures.
Context `{E : Env} {P Sh : Type} (certs : slice).
Abbreviation RS := (Reconcile P Sh).

(** The root denotes the same directory, and every array of certificates is
    as it was, to its last cell. *)
Definition closures : relation RS := fun s s' =>
  at_path (httpRootDir s') = at_path (httpRootDir s) /\
  (slice_ok (heap s) certs -> heap s `prefix_of` heap s').

Lemma closures_slice_ok s s' : closures s s' -> slice_ok (heap s) certs -> slice_ok (heap s') certs.
Proof. intros [_ H] Hok. by apply (slice_ok_prefix _ _ _ Hok (H Hok)). Qed.

#[export] Instance closures_preorder : PreOrder closures.
Proof.
  split; [by intros s|]. intros s1 s2 s3 H [H3 H4]. pose proof (closures_slice_ok _ _ H) as Hok.
  destruct H as [H1 H2]. split; [congruence|]. intros H. trans (heap s2); auto.
Qed.

Lemma closures_io {A : Type} (m : IO A) : within closures (io m).
Proof. apply (within_zoom (fun _ _ => True)); [|by intros w]. done. Qed.
Lemma closures_set_parent f : within closures (set_parent f).
Proof. done. Qed.
Lemma closures_set_stash f : within closures (set_stash f).
Proof. done. Qed.

Lemma closures_with_cert x : within closures (on_heap (with_cert certs x)).
Proof.
  intros s. unfold on_heap. pose proof (with_cert_spec certs x (heap s)) as H.
  destruct (with_cert certs x (heap s)) as [rc h]. split; [done|]. intros Hok. simpl.
  by destruct (H Hok) as [_ Hp].
Qed.

Lemma closures_clean_root : within closures clean_root.
Proof.
  intros s. destruct (quiet_clean_root s) as (_ & Hr & s' & E'). split; [done|].
  unfold clean_root, mbind, M_bind, gets. by destruct (IsAbs (httpRootDir s)).
Qed.

Lemma closures_http_error inner code u n o : within closures (http_error inner code u n o).
Proof.
  unfold http_error. repeat case_decide; repeat case_match;
    first [by apply closures_set_parent | apply within_throw; apply _].
Qed.
End Closures.

#[export] Hint Resolve closures_io closures_set_parent closures_set_stash closures_with_cert
  closures_clean_root closures_http_error : src.

Section Maven.
Context {C : Type} `{CM : ConditionManager C}.
Context {Sh : Type} `{ST : Stash Sh stash_value}.
Context `{E : Env} `{X : Xml} `{T : TarGz} `{ZR : Zip} `{CK : Clock}.
Abbreviation RS := (Reconcile (MavenArtifact C) Sh).

Lemma closures_run_Resolve certs mr (ctx : Ctx Sh) client :
  within (closures (P := MavenArtifact C) certs) (run_Resolve mr ctx client).
Proof. intros s. unfold run_Resolve. by destruct (Resolve ctx client _) as [[[]|e|w] rs]. Qed.

Lemma closures_SecretsSync certs : within (closures (P := MavenArtifact C) (Sh := Sh) certs) (SecretsSync certs).
Proof. unfold SecretsSync, stash_client, reconcile_certs. sync_auto. Qed.

Lemma closures_maven_syncs host certs : within (closures (P := MavenArtifact C) (Sh := Sh) certs) (maven_syncs host certs).
Proof.
  unfold maven_syncs, SecretsSync, stash_client, reconcile_certs, VersionSync, resolve_failed, IntervalSync,
    DownloadSync, fetch_checksum, checksum_failed, fetch_and_publish, fetch_artifact, artifact_failed, unpack, publish.
  sync_auto; try apply closures_run_Resolve.
  all: case_decide; sync_auto; apply closures_run_Resolve.
Qed.

Lemma closures_DownloadFinalize certs : within (closures (P := MavenArtifact C) (Sh := Sh) certs) DownloadFinalize.
Proof. unfold DownloadFinalize. sync_auto. Qed.
End Maven.

Section Image.
Context {C : Type} `{CM : ConditionManager C}.
Context {Sh : Type} `{ST : Stash Sh stash_value}.
Context `{E : Env} `{T : TarGz} `{CK : Clock} `{RG : Registry}.

Lemma closures_image_syncs host certs :
  within (closures (P := ImageRepository C) (Sh := Sh) certs) (image_syncs host certs).
Proof.
  assert (forall ns names, within (closures (P := ImageRepository C) (Sh := Sh) certs) (get_secrets ns names)) as Hg
    by (intros ns names; induction names as [|n names IH]; simpl; sync_auto; done).
  unfold image_syncs, TransportSync, ImagePullSecretsSync, ImageDigestSync, PullImageSync, mark_skipped,
    pull_and_publish, image_publish, ImageIntervalSync. sync_auto.
Qed.

Lemma closures_PullImageFinalize certs :
  within (closures (P := ImageRepository C) (Sh := Sh) certs) PullImageFinalize.
Proof. unfold PullImageFinalize. sync_auto. Qed.
End Image.

(** ** Whole reconciles, deletions included *)

Section Whole.
Context {C : Type} `{CM : ConditionManager C}.
Context {Sh : Type} `{ST : Stash Sh stash_value, SL : !StashLaws Sh stash_value}.
Context `{E : Env} `{X : Xml} `{T : TarGz} `{ZR : Zip} `{CK : Clock} `{RG : Registry}.
Context `{RC : Reconcilers} `{RCL : !ReconcilerLaws}.

Lemma maven_closures host certs (s : Reconcile (MavenArtifact C) Sh) :
  closures certs s (MavenArtifactReconciler host certs s).2.
Proof. apply within_maven; [apply _|apply closures_maven_syncs|apply closures_DownloadFinalize]. Qed.

Lemma image_closures host certs (s : Reconcile (ImageRepository C) Sh) :
  closures certs s (ImageRepositoryReconciler host certs s).2.
Proof. apply within_image; [apply _|apply closures_image_syncs|apply closures_PullImageFinalize]. Qed.

Lemma maven_keeps_Meta host certs (s : Reconcile (MavenArtifact C) Sh) :
  Meta (parent (MavenArtifactReconciler host certs s).2) = Meta (parent s).
Proof.
  assert (keeps (Sh := Sh) (fun p : MavenArtifact C => (Meta p, Spec p)) s (MavenArtifactReconciler host certs s).2) as H;
    [|by injection H].
  apply (within_maven (keeps (fun p : MavenArtifact C => (Meta p, Spec p)))); [|unfold DownloadFinalize; keeps_auto].
  unfold maven_syncs, IntervalSync. keeps_auto; [apply keeps_SecretsSync|apply keeps_VersionSync|apply keeps_DownloadSync].
Qed.

Lemma image_keeps_Meta host certs (s : Reconcile (ImageRepository C) Sh) :
  ir_Meta (parent (ImageRepositoryReconciler host certs s).2) = ir_Meta (parent s).
Proof.
  assert (keeps (Sh := Sh) (fun p : ImageRepository C => (ir_Meta p, ir_Spec p)) s
            (ImageRepositoryReconciler host certs s).2) as H; [|by injection H].
  apply (within_image (keeps (fun p : ImageRepository C => (ir_Meta p, ir_Spec p)))); [|unfold PullImageFinalize; keeps_auto].
  unfold image_syncs, ImageIntervalSync. keeps_auto;
    [apply keeps_TransportSync|apply keeps_ImagePullSecretsSync|apply keeps_ImageDigestSync|apply keeps_PullImageSync].
Qed.
End Whole.

(** ** The cluster *)

Section Cluster.
Context {C : Type} `{CM : ConditionManager C}.
Context {Sh : Type} `{ST : Stash Sh stash_value}.
Context `{E : Env} `{X : Xml} `{T : TarGz} `{ZR : Zip} `{CK : Clock} `{RG : Registry} `{RC : Reconcilers}.

(** A namespace and a name. *)
Abbreviation names := (string * string)%type.

Record System := mkSystem {
  sy_world : World;
  sy_heap : arrays;          (* the arrays of certificates *)
  sy_maven_root : string;    (* [httpRootDir] of either controller *)
  sy_image_root : string;
  sy_maven : gmap names (MavenArtifact C);
  sy_images : gmap names (ImageRepository C)
}.

(** A reconcile of the resource [k]: a new stash, the shared world, and the
    variables of the closures.  The status it leaves is stored. *)
Definition reconcile_maven (host : string) (certs : slice) (k : names) (sy : System) : System :=
  match sy_maven sy !! k with
  | None => sy
  | Some p =>
      let s := (MavenArtifactReconciler host certs
                  (mkReconcile p (empty_stash : Sh) (sy_world sy) (sy_maven_root sy) (sy_heap sy))).2 in
      mkSystem (world s) (heap s) (httpRootDir s) (sy_image_root sy) (<[k := parent s]> (sy_maven sy)) (sy_images sy)
  end.

Definition reconcile_image (host : string) (certs : slice) (k : names) (sy : System) : System :=
  match sy_images sy !! k with
  | None => sy
  | Some p =>
      let s := (ImageRepositoryReconciler host certs
                  (mkReconcile p (empty_stash : Sh) (sy_world sy) (sy_image_root sy) (sy_heap sy))).2 in
      mkSystem (world s) (heap s) (sy_maven_root sy) (httpRootDir s) (sy_maven sy) (<[k := parent s]> (sy_images sy))
  end.

(** What a user or the API server does to a resource. *)
Definition set_maven (f : gmap names (MavenArtifact C) -> gmap names (MavenArtifact C)) (sy : System) : System :=
  mkSystem (sy_world sy) (sy_heap sy) (sy_maven_root sy) (sy_image_root sy) (f (sy_maven sy)) (sy_images sy).
Definition set_images (f : gmap names (ImageRepository C) -> gmap names (ImageRepository C)) (sy : System) : System :=
  mkSystem (sy_world sy) (sy_heap sy) (sy_maven_root sy) (sy_image_root sy) (sy_maven sy) (f (sy_images sy)).

(** The resource is stored under its names. *)
Definition named (k : names) (m : ObjectMeta) : Prop := (Namespace m, Name m) = k /\ meta_ok m.

Inductive resource := maven_key (k : names) | image_key (k : names).

(** The steps that act on one resource. *)
Inductive step (host : string) (certs : slice) : resource -> relation System :=
| step_maven k sy : step host certs (maven_key k) sy (reconcile_maven host certs k sy)
| step_image k sy : step host certs (image_key k) sy (reconcile_image host certs k sy)
| step_apply_maven k p sy : named k (Meta p) -> step host certs (maven_key k) sy (set_maven (<[k := p]>) sy)
| step_apply_image k p sy : named k (ir_Meta p) -> step host certs (image_key k) sy (set_images (<[k := p]>) sy)
| step_remove_maven k sy : step host certs (maven_key k) sy (set_maven (delete k) sy)
| step_remove_image k sy : step host certs (image_key k) sy (set_images (delete k) sy).

(** Any step of a resource other than [mine]. *)
Definition others (host : string) (certs : slice) (mine : resource) : relation System := fun sy sy' =>
  exists k, k <> mine /\ step host certs k sy sy'.

(** [K] is the directory both roots denote. *)
Record system_ok (K : list string) (certs : slice) (sy : System) : Prop := {
  ok_wf : fs_wf (w_fs (sy_world sy));
  ok_certs : slice_ok (sy_heap sy) certs;
  ok_maven_root : at_path (sy_maven_root sy) = K;
  ok_image_root : at_path (sy_image_root sy) = K;
  ok_maven : map_Forall (fun k p => named k (Meta p)) (sy_maven sy);
  ok_images : map_Forall (fun k p => named k (ir_Meta p)) (sy_images sy)
}.

Definition own_of (K : list string) (k : resource) : list string :=
  K ++ match k with
       | maven_key (ns, n) => ["mavenartifact"; ns; n]
       | image_key (ns, n) => ["imagerepository"; ns; n]
       end.

Context `{CL : !ConditionLaws C, SL : !StashLaws Sh stash_value, RCL : !ReconcilerLaws, RGL : !RegistryLaws}.

(** Of two resources neither directory contains the other. *)
Lemma own_of_apart K k1 k2 l : k1 <> k2 -> ~ at_or_below (own_of K k1) (own_of K k2 ++ l).
Proof.
  intros Hne [r Hr]. unfold own_of in Hr. rewrite <- !app_assoc in Hr. apply app_inv_head in Hr.
  destruct k1 as [[]|[]], k2 as [[]|[]]; simpl in Hr; simplify_eq; by apply Hne.
Qed.

(** A file of another resource stays. *)
Lemma isolated_file K k1 k2 fs fs' l f :
  k1 <> k2 -> isolated (at_or_below (own_of K k1)) (on_path_to (own_of K k1)) fs fs' ->
  fs !! (own_of K k2 ++ l) = Some (FileNode f) -> fs' !! (own_of K k2 ++ l) = Some (FileNode f).
Proof.
  intros Hne Hi Hf. destruct (Hi (own_of K k2 ++ l)) as [->|[Hn _]]; [by apply own_of_apart|done|congruence].
Qed.

Lemma step_maven_ok K host certs k sy :
  let sy' := reconcile_maven host certs k sy in
  system_ok K certs sy ->
  system_ok K certs sy' /\
  isolated (at_or_below (own_of K (maven_key k))) (on_path_to (own_of K (maven_key k)))
    (w_fs (sy_world sy)) (w_fs (sy_world sy')) /\
  (forall k', k' <> k -> sy_maven sy' !! k' = sy_maven sy !! k') /\ sy_images sy' = sy_images sy.
Proof.
  intros sy' [Hwf Hc Hmr Hir Hm Hi]. unfold sy', reconcile_maven. clear sy'.
  destruct (sy_maven sy !! k) as [p|] eqn:Ep; [|split; [done|by split]].
  set (s := mkReconcile p _ _ _ _). destruct (Hm _ _ Ep) as [Hk Hok].
  pose proof (maven_closures host certs s) as Hcl. destruct (Hcl) as [Hr _]. apply closures_slice_ok in Hcl as Hcs; [|done].
  destruct (maven_frame host certs s) as [Hiso Hwf']; [done..|].
  assert (maven_own s = own_of K (maven_key k)) as Hown
    by (unfold maven_own; rewrite at_mavenDir by done; subst k; cbn; by rewrite Hmr).
  rewrite Hown in Hiso. split; [|split; [done|]].
  - split; cbn [sy_world sy_heap sy_maven_root sy_image_root sy_maven sy_images]; [done|exact Hcs|by rewrite Hr|done| |done].
    apply map_Forall_insert_2; [|done]. by rewrite maven_keeps_Meta.
  - split; [|done]. intros k' Hne. apply lookup_insert_ne. by intros ->.
Qed.

Lemma step_image_ok K host certs k sy :
  let sy' := reconcile_image host certs k sy in
  system_ok K certs sy ->
  system_ok K certs sy' /\
  isolated (at_or_below (own_of K (image_key k))) (on_path_to (own_of K (image_key k)))
    (w_fs (sy_world sy)) (w_fs (sy_world sy')) /\
  (forall k', k' <> k -> sy_images sy' !! k' = sy_images sy !! k') /\ sy_maven sy' = sy_maven sy.
Proof.
  intros sy' [Hwf Hc Hmr Hir Hm Hi]. unfold sy', reconcile_image. clear sy'.
  destruct (sy_images sy !! k) as [p|] eqn:Ep; [|split; [done|by split]].
  set (s := mkReconcile p _ _ _ _). destruct (Hi _ _ Ep) as [Hk Hok].
  pose proof (image_closures host certs s) as Hcl. destruct (Hcl) as [Hr _]. apply closures_slice_ok in Hcl as Hcs; [|done].
  destruct (image_frame host certs s) as [Hiso Hwf']; [done..|].
  assert (image_own s = own_of K (image_key k)) as Hown
    by (unfold image_own; rewrite at_imageDir by done; subst k; cbn; by rewrite Hir).
  rewrite Hown in Hiso. split; [|split; [done|]].
  - split; cbn [sy_world sy_heap sy_maven_root sy_image_root sy_maven sy_images]; [done|exact Hcs|done|by rewrite Hr|done|].
    apply map_Forall_insert_2; [|done]. by rewrite image_keeps_Meta.
  - split; [|done]. intros k' Hne. apply lookup_insert_ne. by intros ->.
Qed.

(** A step keeps the system well formed, the other resources, and all on disk
    outside the directory of its own resource. *)
Lemma step_ok K host certs k sy sy' :
  system_ok K certs sy -> step host certs k sy sy' ->
  system_ok K certs sy' /\
  isolated (at_or_below (own_of K k)) (on_path_to (own_of K k)) (w_fs (sy_world sy)) (w_fs (sy_world sy')) /\
  (forall m, maven_key m <> k -> sy_maven sy' !! m = sy_maven sy !! m) /\
  (forall m, image_key m <> k -> sy_images sy' !! m = sy_images sy !! m).
Proof.
  intros Hok Hs. destruct Hs as [k sy|k sy|k p sy Hn|k p sy Hn|k sy|k sy].
  - destruct (step_maven_ok K host certs k sy Hok) as (H1 & H2 & H3 & H4).
    split; [done|]. split; [done|]. split; [|by rewrite H4]. intros m Hm. apply H3. congruence.
  - destruct (step_image_ok K host certs k sy Hok) as (H1 & H2 & H3 & H4).
    split; [done|]. split; [done|]. split; [by rewrite H4|]. intros m Hm. apply H3. congruence.
  - destruct Hok. split; [split; try done; by apply map_Forall_insert_2|]. split; [done|]. split; [|done].
    intros m Hm. apply lookup_insert_ne. congruence.
  - destruct Hok. split; [split; try done; by apply map_Forall_insert_2|]. split; [done|]. split; [done|].
    intros m Hm. apply lookup_insert_ne. congruence.
  - destruct Hok. split; [split; try done; by apply map_Forall_delete|]. split; [done|]. split; [|done].
    intros m Hm. apply lookup_delete_ne. congruence.
  - destruct Hok. split; [split; try done; by apply map_Forall_delete|]. split; [done|]. split; [done|].
    intros m Hm. apply lookup_delete_ne. congruence.
Qed.

(** What [mine] has on disk and at the API server outlives every sequence of
    steps of the others. *)
Lemma others_keep K host certs mine sy sy' :
  system_ok K certs sy -> rtc (others host certs mine) sy sy' ->
  system_ok K certs sy' /\
  (forall l f, w_fs (sy_world sy) !! (own_of K mine ++ l) = Some (FileNode f) ->
     w_fs (sy_world sy') !! (own_of K mine ++ l) = Some (FileNode f)) /\
  (forall m, mine = maven_key m -> sy_maven sy' !! m = sy_maven sy !! m) /\
  (forall m, mine = image_key m -> sy_images sy' !! m = sy_images sy !! m).
Proof.
  intros Hok Hrtc. induction Hrtc as [sy|sy sy1 sy2 (k & Hk & Hs) _ IH]; [by split|].
  destruct (step_ok K host certs k sy sy1 Hok Hs) as (Hok1 & Hiso & Hm & Hi).
  destruct (IH Hok1) as (Hok2 & Hf & Hm2 & Hi2). split; [done|]. split; [|split].
  - intros l f Hl. apply Hf. by eapply isolated_file.
  - intros m ->. rewrite Hm2 by done. by apply Hm.
  - intros m ->. rewrite Hi2 by done. by apply Hi.
Qed.

Lemma published_keeps host r1 r2 info (p : MavenArtifact C) fs fs' :
  meta_ok (Meta p) -> normal (ResolvedFileName info) -> at_path r1 = at_path r2 ->
  (forall l f, fs !! (at_path (mavenDir r1 (Meta p)) ++ l) = Some (FileNode f) ->
     fs' !! (at_path (mavenDir r1 (Meta p)) ++ l) = Some (FileNode f)) ->
  published host r1 info p fs -> published host r2 info p fs'.
Proof.
  intros Hm Hfn Hr Hf Hp. apply (published_root host r1); [done..|].
  destruct Hp as [(a & f & tgz & Ha & Hn & Hpath & Hfile & Hrest) Hav (c & fc & Hfc & Hdc)]. split; [|done|].
  - exists a, f, tgz. do 3 (split; [done|]). split; [|done].
    rewrite Hpath, at_httpPath in * by done. by apply Hf.
  - exists c, fc. split; [|done]. rewrite at_cache_file in * by done. by apply Hf.
Qed.

Lemma image_published_keeps host r1 r2 ref (p : ImageRepository C) fs fs' :
  meta_ok (ir_Meta p) -> at_path r1 = at_path r2 ->
  (forall l f, fs !! (at_path (imageDir r1 (ir_Meta p)) ++ l) = Some (FileNode f) ->
     fs' !! (at_path (imageDir r1 (ir_Meta p)) ++ l) = Some (FileNode f)) ->
  image_published host r1 ref p fs -> image_published host r2 ref p fs'.
Proof.
  intros Hm Hr Hf Hp. apply (image_published_root host r1); [done..|].
  destruct Hp as [(a & f & tgz & Ha & Hn & Hpath & Hfile & Hrest) Hav Hrd]. split; [|done..].
  exists a, f, tgz. do 3 (split; [done|]). split; [|done]. rewrite Hpath in *.
  destruct (at_image_httpPath r1 (ir_Meta p) tgz Hm Hn) as [Hk _]. rewrite Hk in *. by apply Hf.
Qed.
End Cluster.
