(* ===== verification/MavenProperties.v ===== *)
(** * Properties of the MavenArtifact controller *)

From S2P Require Import Prelude GoStrings GoPath GoErrors Effects World GoOS GoOSFacts Sha1.
From S2P Require Import Runtime ApiTypes ApiWebhook MavenMetadata Http Transport Stashes.
From S2P Require Import ArtifactFiles ArtifactFilesFacts TarFacts MavenDownload MavenResolver.
From S2P Require Import SentFacts Reconcile Frames Steps MavenArtifactController.
From S2P Require Import ImageRepositoryController MavenFacts MavenPublish ImageFacts PanicFacts Composition.
From S2P Require Import MavenReconcileFacts ImageReconcileFacts ErrorFacts SentSyncs.
From S2P Require Import ReconcileDisk Cluster Laboratory.

(** ** Helpers *)

Section Helpers.
Context {C : Type} `{CM : ConditionManager C, CL : !ConditionLaws C}.
Context {Sh : Type} `{ST : Stash Sh stash_value, SL : !StashLaws Sh stash_value}.
Context `{E : Env} `{X : Xml} `{T : TarGz} `{ZR : Zip} `{CK : Clock}.
Abbreviation RS := (Reconcile (MavenArtifact C) Sh).

(** A checksum that agrees with the cache ends the download. *)
Lemma DownloadSync_skip host (s : RS) info client timeout c s1 fc :
  retrieveArtifactVersion (stash s) = Some info -> retrieveHttpClient (stash s) = Some client ->
  Timeout (Spec (parent s)) = Some timeout ->
  fetch_checksum (mkCtx (Some timeout) (stash s)) client info s = (Ret (Some c), s1) ->
  (forall t, env_fault t = None) -> fs_wf (w_fs (world s)) ->
  w_fs (world s) !! at_path (cache_file (httpRootDir s) (Meta (parent s)) info) = Some (FileNode fc) ->
  f_data fc = toString (mkArtifactCache (ArtifactDownloadURL info) c) ->
  byte_in "|" (ArtifactDownloadURL info) = false -> byte_in "|" c = false ->
  Status_Artifact (Status (parent s)) <> None ->
  exists s', DownloadSync host s = (Ret tt, s') /\ parent s' = parent s /\
    w_fs (world s') = w_fs (world s) /\ w_sent (world s') = w_sent (world s1).
Proof.
  intros Hi Hc Ht Hf Hnf Hwf Hfile Hdata Hb1 Hb2 Hart.
  pose proof (quiet_fetch_checksum (mkCtx (Some timeout) (stash s)) client info s) as [Hfs Hr].
  rewrite Hf in Hfs, Hr. simpl in Hfs, Hr.
  unfold DownloadSync. rewrite (bind_Ret _ _ s (stash s) s), Hi, Hc by done.
  rewrite (bind_Ret _ _ s (parent s) s), Ht by done. rewrite (bind_Ret _ _ _ _ _ Hf).
  rewrite (bind_Ret _ _ s1 (httpRootDir s1) s1), Hr by done.
  rewrite <- Hfs in Hfile, Hwf.
  pose proof (retrieveChecksum_file _ (world s1) fc (Hnf _) (Hnf _) Hwf Hfile) as Hrc.
  rewrite Hdata, toString_split in Hrc by done.
  pose proof (within_retrieveChecksum eq (cache_file (httpRootDir s) (Meta (parent s)) info) (world s1)) as Hq.
  pose proof (sent_retrieveChecksum (fun _ => False) (cache_file (httpRootDir s) (Meta (parent s)) info) (world s1)) as (l & Hl & Hnil).
  destruct (retrieveChecksumFromFile _ (world s1)) as [o w] eqn:Er. simpl in Hrc, Hq, Hl. subst o.
  rewrite (bind_Ret _ _ s1 (Some (mkArtifactCache (ArtifactDownloadURL info) c)) (set_world w s1))
    by (unfold io, zoom; change (the_world s1) with (world s1); by rewrite Er).
  assert (unchanged (Some (mkArtifactCache (ArtifactDownloadURL info) c))
            (Status_Artifact (Status (parent s))) info c = true) as ->.
  { unfold unchanged. destruct (Status_Artifact _); [|done]. simpl. by rewrite !bool_decide_eq_true_2. }
  exists (set_world w s1). split; [done|]. split; [|split].
  - unfold fetch_checksum in Hf. inv_bind Hf. apply try_io_Ret in Hstep as (w1 & -> & _).
    destruct v; [by injection Hf as _ <-|]. by inv_bind Hf.
  - simpl. rewrite <- Hfs. symmetry. exact Hq.
  - simpl. destruct l as [|x l]; [by rewrite Hl, app_nil_r|]. by inversion Hnil.
Qed.
End Helpers.

(** ** Properties *)

Section Reconcile.
Context {C : Type} `{CM : ConditionManager C, CL : !ConditionLaws C}.
Context {Sh : Type} `{ST : Stash Sh stash_value, SL : !StashLaws Sh stash_value}.
Context `{E : Env} `{X : Xml} `{T : TarGz} `{ZR : Zip} `{CK : Clock}.
Context `{RC : Reconcilers} `{RL : !ReconcilerLaws}.
Abbreviation RS := (Reconcile (MavenArtifact C) Sh).

(** C1: when no system call fails and the reconcile of a live resource
    returns without an error, either the version is not resolved, which is
    recorded as the condition's being false with the disk as it was, or it
    is resolved for the spec and the download left the resource as it was,
    recorded a failure, or published: the status names the artifact, its
    file is on disk with the stated checksum, the cache file vouches for
    it, the resource is ready, and the file is the tarball of the artifact
    with that checksum: of the files of the archive it is, or of itself. *)
Theorem maven_reconcile_outcome host certs (s : RS) r s' :
  (forall t, env_fault t = None) -> stash s = empty_stash -> slice_ok (heap s) certs ->
  fs_wf (w_fs (world s)) -> meta_ok (Meta (parent s)) -> apart (maven_own s) -> flat (w_fs (world s)) (maven_own s) ->
  being_deleted s = false ->
  MavenArtifactReconciler host certs s = (Ret r, s') ->
  maven_result host (httpRootDir s) (parent s) (parent s') (w_fs (world s)) (w_fs (world s')).
Proof. intros Hf Hst Hok Hwf Hm Ha Hfl Hd H. apply maven_live_Ret in H; [|done]. by eapply maven_syncs_Ret. Qed.

(** C2: whatever the outcome of a reconcile, the entries on disk outside
    the resource's own directory stay as they are, but for directories
    created on the way to it and new entries below the temporary
    directory; and the tree stays well formed. *)
Theorem maven_reconcile_isolation host certs (s : RS) :
  stash s = empty_stash -> slice_ok (heap s) certs -> fs_wf (w_fs (world s)) -> meta_ok (Meta (parent s)) ->
  isolated (at_or_below (maven_own s)) (on_path_to (maven_own s))
    (w_fs (world s)) (w_fs (world (MavenArtifactReconciler host certs s).2)) /\
  fs_wf (w_fs (world (MavenArtifactReconciler host certs s).2)).
Proof. apply maven_frame. Qed.

(** C3: a reconcile of a resource with a timeout does not panic, provided
    each cache file of its directory has a bar. *)
Theorem maven_reconcile_no_panic host certs (s : RS) :
  stash s = empty_stash -> slice_ok (heap s) certs -> meta_ok (Meta (parent s)) ->
  Timeout (Spec (parent s)) <> None -> caches_ok (w_fs (world s)) (maven_own s) ->
  being_deleted s = false ->
  is_panic (MavenArtifactReconciler host certs s).1 = false.
Proof.
  intros Hst Hok Hm Ht Hc Hd. destruct (maven_live host certs s Hd) as [[e ->]| ->]; [done|by apply maven_syncs_calm].
Qed.

(** C4: a resource that is not being deleted gets its finalizer first, then
    the four syncs run in order and stop at the first error, and on success
    the reconcile asks to run again after the interval of the spec.  For one
    that is being deleted only the finalization of the download runs, the
    finalizer is cleared once that has succeeded, and nothing is asked for. *)
Theorem maven_reconcile_in_order host certs (s : RS) :
  (being_deleted s = false ->
   MavenArtifactReconciler host certs s =
     (_ ← AddFinalizer (Group +:+ "/finalizer");
      _ ← SecretsSync certs; _ ← VersionSync; _ ← DownloadSync host; IntervalSync) s /\
   forall r s', MavenArtifactReconciler host certs s = (Ret r, s') -> RequeueAfter r = Interval (Spec (parent s))) /\
  (being_deleted s = true ->
   MavenArtifactReconciler host certs s =
     (_ ← DownloadFinalize; _ ← ClearFinalizer (Group +:+ "/finalizer"); mret zero_result) s).
Proof.
  split; intros Hd; [split; [by apply maven_adds|]|by apply maven_clears].
  intros r s' H. by apply maven_requeue in H as ->.
Qed.

(** C5: the reconcile of a resource being deleted changes nothing outside
    its directory and nothing of the resource, and when it succeeds the
    directory is gone with all below it. *)
Theorem maven_deletion host certs (s : RS) o s' :
  being_deleted s = true -> fs_wf (w_fs (world s)) -> meta_ok (Meta (parent s)) ->
  MavenArtifactReconciler host certs s = (o, s') ->
  parent s' = parent s /\ touches (at_or_below (maven_own s)) (w_fs (world s)) (w_fs (world s')) /\
  forall r, o = Ret r -> r = zero_result /\
    forall k, w_fs (world s') !! k = if decide (maven_own s `prefix_of` k) then None else w_fs (world s) !! k.
Proof.
  intros Hd Hwf Hm. destruct (maven_deleted host certs s Hd) as (o' & -> & _ & Ho). intros [= <- <-].
  destruct (DownloadFinalize_run s _ _ Hwf Hm (surjective_pairing _)) as (H1 & H2 & H3).
  split; [done|]. split; [done|]. intros r Hr. destruct (Ho r Hr) as [Hret ->]. split; [done|by apply H3].
Qed.


(** C7: every request a reconcile sends, to resolve the version or to
    download, is of its own resource alone: over a transport that trusts the
    configured certificates and those of its secret, with the credentials of
    its secret and the timeout of its spec, and to the scheme and host of a
    URL below the one of its repository. *)
Theorem maven_requests host certs (s : RS) :
  stash s = empty_stash -> slice_ok (heap s) certs -> being_deleted s = false ->
  sends_only (tenant_request certs s) s (MavenArtifactReconciler host certs s).2.
Proof.
  intros Hst Hok Hd. destruct (maven_live host certs s Hd) as [[e ->]| ->]; [|by apply maven_syncs_sent].
  by apply sends_only_preorder.
Qed.

(** C8: when the checksum request is answered with an error status, 429
    and 5xx are returned as errors with the resource as it was; every other
    status is recorded in the condition, the artifact in the status stays. *)
Theorem download_status_errors host (s : RS) info client timeout req resp w1 :
  let ctx := mkCtx (Some timeout) (stash s) in
  let url := Sprintf "%s.%s" [ArtifactDownloadURL info; "sha1"] in
  retrieveArtifactVersion (stash s) = Some info -> retrieveHttpClient (stash s) = Some client ->
  Timeout (Spec (parent s)) = Some timeout ->
  buildRequestObject ctx "GET" url (Some (basicAuthCredentialsFromSecret ctx)) = inl req ->
  Client_Do client req (world s) = (Ret resp, w1) ->
  StatusCode resp < 200 \/ 300 <= StatusCode resp ->
  if transient (StatusCode resp)
  then exists err, DownloadSync host s = (Fail err, set_world w1 s)
  else exists p', DownloadSync host s = (Ret tt, mkReconcile p' (stash s) w1 (httpRootDir s) (heap s)) /\
         ma_status p' MavenArtifactConditionArtifactAvailable = Some ConditionFalse /\
         Status_Artifact (Status p') = Status_Artifact (Status (parent s)).
Proof. apply DownloadSync_status. Qed.

(** C9: when the checksum of the remote agrees with the cache file and the
    status has an artifact, the download ends there: no other request is
    sent, nothing is written, and the resource stays exactly as it was. *)
Theorem download_skip host (s : RS) info client timeout c s1 fc :
  retrieveArtifactVersion (stash s) = Some info -> retrieveHttpClient (stash s) = Some client ->
  Timeout (Spec (parent s)) = Some timeout ->
  fetch_checksum (mkCtx (Some timeout) (stash s)) client info s = (Ret (Some c), s1) ->
  (forall t, env_fault t = None) -> fs_wf (w_fs (world s)) ->
  w_fs (world s) !! at_path (cache_file (httpRootDir s) (Meta (parent s)) info) = Some (FileNode fc) ->
  f_data fc = toString (mkArtifactCache (ArtifactDownloadURL info) c) ->
  byte_in "|" (ArtifactDownloadURL info) = false -> byte_in "|" c = false ->
  Status_Artifact (Status (parent s)) <> None ->
  exists s', DownloadSync host s = (Ret tt, s') /\ parent s' = parent s /\
    w_fs (world s') = w_fs (world s) /\ w_sent (world s') = w_sent (world s1).
Proof. apply DownloadSync_skip. Qed.

(** C10: the "Timeout" reasons of the controller are dead: no error of a
    download is recognised as a timeout, so neither sync ever gives that
    reason. *)
Theorem timeout_never_reported host (s : RS) :
  (forall m p i e, xml_MarshalIndent m p i = inr e -> errors_Is e DeadlineExceeded = false) ->
  untimed (parent s) ->
  untimed (parent (VersionSync s).2) /\ untimed (parent (DownloadSync host s).2).
Proof.
  intros Hx Hs. split; [exact (VersionSync_untimed Hx s Hs)|exact (DownloadSync_untimed host s Hs)].
Qed.
End Reconcile.

(** ** Instances *)

Abbreviation lab_maven version secret := (start (maven_resource version secret) lab_fs).

Lemma maven_reconcile_outcome_witness :
  let s := lab_maven "1.0" "creds" in
  let x := MavenArtifactReconciler "host" lab_certs s in
  x.1 = Ret (mkResult 600000000000) /\
  maven_result "host" (httpRootDir s) (parent s) (parent x.2) (w_fs (world s)) (w_fs (world x.2)).
Proof.
  intros s x. assert (x.1 = Ret (mkResult 600000000000)) as Hx by (vm_compute; reflexivity).
  split; [exact Hx|]. apply (maven_reconcile_outcome "host" lab_certs s (mkResult 600000000000)).
  - done.
  - done.
  - apply lab_slice_ok.
  - apply lab_wf.
  - apply lab_meta_ok.
  - apply lab_apart. by vm_compute.
  - apply lab_flat. by vm_compute.
  - done.
  - rewrite <- Hx. apply surjective_pairing.
Defined.

Lemma maven_reconcile_isolation_witness :
  let s := lab_maven "1.0" "creds" in
  isolated (at_or_below (maven_own s)) (on_path_to (maven_own s))
    (w_fs (world s)) (w_fs (world (MavenArtifactReconciler "host" lab_certs s).2)).
Proof.
  apply maven_reconcile_isolation; [done|apply lab_slice_ok|apply lab_wf|apply lab_meta_ok].
Defined.

Lemma maven_reconcile_no_panic_witness :
  is_panic (MavenArtifactReconciler "host" lab_certs (lab_maven "LATEST" "")).1 = false.
Proof.
  apply maven_reconcile_no_panic; [done|apply lab_slice_ok|apply lab_meta_ok|done| |done].
  intros x f Hf. change (w_fs (world (lab_maven "LATEST" ""))) with lab_fs in Hf.
  rewrite lab_fs_deep in Hf; [done|]. rewrite length_app. unfold maven_own.
  assert (length (at_path (mavenDir "./artifact-root" lab_meta)) = 5%nat) as Hl by (vm_compute; reflexivity).
  change (length _) with (length (at_path (mavenDir "./artifact-root" lab_meta))) at 1. rewrite Hl. lia.
Defined.

Lemma maven_reconcile_in_order_witness :
  let s := lab_maven "1.0" "" in
  let d := start (deleted (maven_resource "1.0" "")) cached_fs in
  MavenArtifactReconciler "host" lab_certs s =
    (_ ← AddFinalizer (Group +:+ "/finalizer");
     _ ← SecretsSync lab_certs; _ ← VersionSync; _ ← DownloadSync "host"; IntervalSync) s /\
  MavenArtifactReconciler "host" lab_certs d =
    (_ ← DownloadFinalize; _ ← ClearFinalizer (Group +:+ "/finalizer"); mret zero_result) d.
Proof.
  intros s d. split.
  - destruct (maven_reconcile_in_order "host" lab_certs s) as [H _]. exact (proj1 (H eq_refl)).
  - destruct (maven_reconcile_in_order "host" lab_certs d) as [_ H]. exact (H eq_refl).
Defined.

Lemma maven_deletion_witness :
  let s := start (deleted (maven_resource "1.0" "")) cached_fs in
  let x := MavenArtifactReconciler "host" lab_certs s in
  x.1 = Ret zero_result /\ w_fs (world x.2) !! (maven_own s ++ ["app-1.0.jar.sha1"]) = None.
Proof.
  intros s x. assert (x.1 = Ret zero_result) as Hx by (vm_compute; reflexivity). split; [exact Hx|].
  destruct (maven_deletion "host" lab_certs s x.1 x.2) as (_ & _ & H).
  - done.
  - apply cached_wf.
  - apply lab_meta_ok.
  - apply surjective_pairing.
  - destruct (H _ Hx) as [_ Hk]. rewrite Hk. rewrite decide_True; [done|]. by eexists.
Defined.


Lemma maven_requests_witness :
  let s := lab_maven "LATEST" "creds" in
  let x := MavenArtifactReconciler "host" lab_certs s in
  w_sent (world x.2) <> [] /\ sends_only (tenant_request lab_certs s) s x.2.
Proof.
  intros s x. split; [vm_compute; discriminate|].
  apply (maven_requests "host" lab_certs s); [done|apply lab_slice_ok|done].
Defined.

Lemma download_status_errors_witness :
  let s := at_download (maven_resource "3.0" "") "3.0" lab_fs in
  exists err w, DownloadSync "host" s = (Fail err, set_world w s).
Proof.
  intros s. set (rq := mkRequest "GET" (mkURL "https" "repo.test" "/maven/com/acme/app/3.0/app-3.0.jar.sha1")
                         (Some ("", "")) (Some 60000000000)).
  pose proof (download_status_errors "host" s (lab_info "3.0") lab_client 60000000000 rq (mkHttpResponse 503 "" None)
    (Client_Do lab_client rq (world s)).2) as H.
  destruct H as [err H]; [done|done|done|vm_compute; reflexivity|vm_compute; reflexivity|right; simpl; lia|]. by exists err, (Client_Do lab_client rq (world s)).2.
Defined.

Lemma download_skip_witness :
  let s := at_download (with_artifact lab_artifact (maven_resource "1.0" "")) "1.0" cached_fs in
  exists s', DownloadSync "host" s = (Ret tt, s') /\ parent s' = parent s /\ w_fs (world s') = w_fs (world s).
Proof.
  intros s. set (y := fetch_checksum (mkCtx (Some 60000000000) (stash s)) lab_client (lab_info "1.0") s).
  assert (y.1 = Ret (Some (sha1_hex jar))) as Hy by (vm_compute; reflexivity).
  destruct (download_skip "host" s (lab_info "1.0") lab_client 60000000000 (sha1_hex jar) y.2
    (mkFile (toString (mkArtifactCache (app +:+ "/1.0/app-1.0.jar") (sha1_hex jar))) 420 0)) as (s' & H1 & H2 & H3 & _).
  - done.
  - done.
  - done.
  - rewrite <- Hy. apply surjective_pairing.
  - done.
  - apply cached_wf.
  - vm_compute. reflexivity.
  - done.
  - vm_compute. reflexivity.
  - vm_compute. reflexivity.
  - done.
  - exists s'. split; [exact H1|]. split; [exact H2|exact H3].
Defined.

Lemma timeout_never_reported_witness :
  let s := at_download (maven_resource "1.0" "") "1.0" lab_fs in untimed (parent (DownloadSync "host" s).2).
Proof.
  intros s. apply (timeout_never_reported "host" s); [done|].
  intros t c Ht H. destruct Ht as [-> | ->]; vm_compute in H; injection H as <-; done.
Defined.
