(* ===== verification/ArtifactProperties.v ===== *)
(** * Properties of admission, resolution, downloads, archives and serving *)

From S2P Require Import Prelude GoStrings GoPath GoErrors Effects World GoOS GoOSFacts Sha1.
From S2P Require Import Runtime ApiTypes ApiWebhook MavenMetadata Http Transport Stashes.
From S2P Require Import ArtifactFiles ArtifactFilesFacts Extraction TarFacts MavenDownload MavenResolver.
From S2P Require Import SentFacts Reconcile Frames Steps MavenArtifactController.
From S2P Require Import ImageRepositoryController MavenFacts MavenPublish ImageFacts PanicFacts Server Main.
From S2P Require Import Base64 TestRegistry.
From S2P Require Import Laboratory.

(** ** Helpers *)

Section LostErrors.
Context `{E : Env} `{T : TarGz}.

Lemma copies_ignore_create from to w w1 n w2 e w3 :
  os_Open from w1 = (Ret n, w2) ->
  (os_MkdirAll (Dir to) w = (Ret tt, w1) -> os_Create to w2 = (Fail e, w3) ->
     copyFile from to w = (Ret tt, w3) /\ w_fs w3 = w_fs w1) /\
  (os_MkdirAll (Dir (to +:+ ".new")) w = (Ret tt, w1) -> os_Create (to +:+ ".new") w2 = (Fail e, w3) ->
     copyCompressedFile from to w = (Ret tt, w3) /\ w_fs w3 = w_fs w1).
Proof.
  intros Ho. pose proof (Open_Ret _ _ _ _ Ho) as [Hfs _].
  split; intros Hm Hc; pose proof (OpenFile_Fail _ _ _ _ _ Hc) as Hfs'.
  - split; [|congruence]. unfold copyFile. rewrite (bind_Ret _ _ _ _ _ Hm), (bind_Ret _ _ _ _ _ Ho).
    rewrite (bind_Ret _ _ w2 (inr e) w3); [done|]. unfold try. by rewrite Hc.
  - split; [|congruence]. unfold copyCompressedFile. rewrite (bind_Ret _ _ _ _ _ Hm), (bind_Ret _ _ _ _ _ Ho).
    rewrite (bind_Ret _ _ w2 (inr e) w3); [done|]. unfold try. by rewrite Hc.
Qed.

Lemma tar_entry_ignores_Stat dir out fp f s n s1 e s2 :
  io (os_Open fp) s = (Ret n, s1) -> io (file_Stat fp) s1 = (Fail e, s2) ->
  tar_entry dir out fp (inl (FileNode f)) s = (Ret tt, s2) /\ ts_enc s2 = ts_enc s /\
  w_fs (ts_world s2) = w_fs (ts_world s).
Proof.
  intros Ho Hs. split_and!.
  - unfold tar_entry. rewrite (bind_Ret _ _ _ _ _ Ho), (bind_Ret _ _ s1 (inr e) s2); [done|].
    unfold try. by rewrite Hs.
  - unfold io, zoom in Ho, Hs. repeat case_match. by simplify_eq/=.
  - pose proof (within_io (S := TarState) eq _ (within_Open eq fp) s) as H1.
    pose proof (within_io (S := TarState) eq _ (within_file_Stat eq fp) s1) as H2.
    rewrite Ho in H1. rewrite Hs in H2. unfold on_fs in H1, H2. simpl in *. congruence.
Qed.

Lemma createTarGz_ignores_close dir out w w1 r s :
  os_Create out w = (Ret tt, w1) -> WalkDir dir (tar_entry dir out) (mkTarState w1 tz_new false) = (r, s) ->
  (createTarGz dir out w).1 = r /\
  forall ft f, ts_broken s = false -> tz_close (ts_enc s) <> "" ->
    env_fault (w_tick (ts_world s)) = Some ft -> w_fs (ts_world s) !! at_path out = Some (FileNode f) ->
    file_data (w_fs (createTarGz dir out w).2) (at_path out) =
      Some (f_data f +:+ String.substring 0 (fault_written ft) (tz_close (ts_enc s))).
Proof.
  intros Hc Hw. unfold createTarGz. rewrite (bind_Ret _ _ _ _ _ Hc). unfold zoom, defer. rewrite Hw.
  destruct (close_writers out s) as [q s'] eqn:Hq. split; [done|]. intros ft f Hb Hne Hft Hf.
  unfold close_writers, mbind, M_bind, gets in Hq. rewrite Hb in Hq.
  unfold emit in Hq. rewrite decide_False in Hq by done.
  unfold mbind, M_bind, try, io, zoom, write_all in Hq. simpl in Hq. rewrite Hft in Hq. injection Hq as _ <-.
  simpl. unfold file_data, p_append. rewrite Hf. by rewrite lookup_insert_eq.
Qed.
End LostErrors.

(** ** Archives *)

Section Archives.
Context `{E : Env} `{ZR : Zip} `{T : TarGz}.

(** C12: whatever the entries of an archive are called, and whatever fails
    on the way, extracting it changes nothing outside the destination.  An
    entry that names a file below it in the plain way is accepted, under that
    name.  When it returns, every entry could be read, and the files below the
    destination are exactly those of the archive, the last of several entries
    with one path winning. *)
Theorem extraction_stays_below parentDir jar w :
  let dest := Join [parentDir; "extracted-artifact"] in
  (forall k, ~ at_path parentDir ++ ["extracted-artifact"] `prefix_of` k ->
     w_fs (extractArchive parentDir jar w).2 !! k = w_fs w !! k) /\
  (forall name p, safeArchiveEntryPath dest name = inl p ->
     exists l, Forall normal l /\ at_path p = at_path dest ++ l) /\
  (forall name, IsAbs name = false -> Forall normal (Split name slash) -> Clean dest = dest -> dest <> "" ->
     dest <> "/" -> dest <> "." -> safeArchiveEntryPath dest name = inl (dest +:+ String slash name)) /\
  (forall d w', fs_wf (w_fs w) -> extractArchive parentDir jar w = (Ret d, w') ->
     d = dest /\ exists data files, file_data (w_fs w) (at_path jar) = Some data /\
       zip_NewReader jar data = inl files /\ Forall (extractable dest) files /\
       forall l, file_data (w_fs w') (at_path dest ++ l) = archive_file dest files (at_path dest ++ l)).
Proof.
  intros dest. split; [|split; [|split; [intros; by apply safeArchiveEntryPath_accepts|]]].
  - intros k Hk. apply (extractArchive_touches parentDir jar w). intros [l ->]. apply Hk.
    rewrite at_path_extracted. by exists l.
  - intros name p H. destruct (Split_extracted parentDir) as [init Hi].
    by apply (safeArchiveEntryPath_below _ _ _ init _ Hi normal_extracted) in H.
  - intros d w' Hwf H. destruct (extractArchive_data _ _ _ _ _ Hwf H) as (data & files & ? & ? & -> & ? & ?).
    split; [done|]. by exists data, files.
Qed.

(** C13: with no failing system call, the tarball holds exactly the regular
    files below the directory, by their paths relative to it and in walking
    order, with their contents, and nothing else on disk changes. *)
Theorem tarball_of_directory dir out w b :
  (forall t, env_fault t = None) -> fs_wf (w_fs w) ->
  lookup_node (w_fs w) (at_path dir) = Some DirNode ->
  ~ at_path dir `prefix_of` at_path out ->
  (forall r n, w_fs w !! (at_path dir ++ r) = Some n -> Forall normal r) ->
  check_dirs (w_fs w) [] (at_path out) = None -> lookup_node (w_fs w) (at_path out) <> Some DirNode ->
  targz (tar_files (at_path dir) (w_fs w)) = Some b ->
  exists w' m t, createTarGz dir out w = (Ret tt, w') /\
    w_fs w' = <[at_path out := FileNode (mkFile b m t)]> (w_fs w).
Proof. apply createTarGz_run. Qed.

(** C14: while no system call fails, the cache file reads back as what it was
    written with exactly when neither the source nor the checksum holds a bar;
    otherwise as another pair, so such an artifact is never recognised.  A
    file without a bar, such as one that was only partly written, makes the
    reader panic. *)
Theorem cache_round_trip p w :
  (forall t, env_fault t = None) -> fs_wf (w_fs w) ->
  (forall ac perm w1, os_WriteFile p (toString ac) perm w = (Ret tt, w1) ->
     exists read, (retrieveChecksumFromFile p w1).1 = Ret (Some read) /\
       (read = ac <-> byte_in "|" (source ac) = false /\ byte_in "|" (checksum ac) = false)) /\
  (forall f, w_fs w !! at_path p = Some (FileNode f) -> byte_in "|" (f_data f) = false ->
     is_panic (retrieveChecksumFromFile p w).1 = true).
Proof.
  intros Hnf Hwf. split.
  - intros ac perm w1 H. pose proof (wf_WriteFile p (toString ac) perm w) as Hk.
    rewrite H in Hk. apply WriteFile_Ret in H as (mode & t & Hfs).
    assert (w_fs w1 !! at_path p = Some (FileNode (mkFile (toString ac) mode t))) as Hf
      by (rewrite Hfs; apply lookup_insert_eq).
    rewrite (retrieveChecksum_file p w1 _ (Hnf _) (Hnf _) (Hk Hwf) Hf). simpl f_data.
    destruct (toString_pieces ac) as (s & c & rest & -> & Hs & Hc & Hr).
    exists (mkArtifactCache s c). split; [done|]. split; [by intros <-|done].
  - intros f Hf Hb. rewrite (retrieveChecksum_file p w f (Hnf _) (Hnf _) Hwf Hf).
    by rewrite Split_no_sep.
Qed.

(** C11: errors of single system calls are lost.  A copy whose destination
    cannot be created returns nil and has copied nothing; a file that cannot
    be inspected is left out of the tarball without an error; the tarball is
    reported as whole whatever becomes of the write that ends it, of which a
    failure leaves a part. *)
Theorem lost_errors :
  (forall from to w w1 n w2 e w3, os_Open from w1 = (Ret n, w2) ->
     (os_MkdirAll (Dir to) w = (Ret tt, w1) -> os_Create to w2 = (Fail e, w3) ->
        copyFile from to w = (Ret tt, w3) /\ w_fs w3 = w_fs w1) /\
     (os_MkdirAll (Dir (to +:+ ".new")) w = (Ret tt, w1) -> os_Create (to +:+ ".new") w2 = (Fail e, w3) ->
        copyCompressedFile from to w = (Ret tt, w3) /\ w_fs w3 = w_fs w1)) /\
  (forall dir out fp f s n s1 e s2, io (os_Open fp) s = (Ret n, s1) -> io (file_Stat fp) s1 = (Fail e, s2) ->
     tar_entry dir out fp (inl (FileNode f)) s = (Ret tt, s2) /\ ts_enc s2 = ts_enc s /\
     w_fs (ts_world s2) = w_fs (ts_world s)) /\
  (forall dir out w w1 r s, os_Create out w = (Ret tt, w1) ->
     WalkDir dir (tar_entry dir out) (mkTarState w1 tz_new false) = (r, s) ->
     (createTarGz dir out w).1 = r /\
     forall ft f, ts_broken s = false -> tz_close (ts_enc s) <> "" ->
       env_fault (w_tick (ts_world s)) = Some ft -> w_fs (ts_world s) !! at_path out = Some (FileNode f) ->
       file_data (w_fs (createTarGz dir out w).2) (at_path out) =
         Some (f_data f +:+ String.substring 0 (fault_written ft) (tz_close (ts_enc s)))).
Proof.
  split_and!.
  - intros from to w w1 n w2 e w3 Ho. by apply (copies_ignore_create from to w w1 n).
  - intros dir out fp f s n s1 e s2. apply tar_entry_ignores_Stat.
  - intros dir out w w1 r s. apply createTarGz_ignores_close.
Qed.
End Archives.

(** ** HTTP *)

Section Requests.
Context {Sh : Type} `{ST : Stash Sh stash_value} `{E : Env} `{X : Xml}.

(** C15: a request sent with the redirect policy ends without a panic after
    at most ten requests, every one of them to the scheme and host of the
    first, with its credentials and its deadline. *)
Theorem redirects_stay_at_origin t req w :
  let '(r, w') := Client_Do (mkHttpClient t sameHostRedirectPolicy) req w in
  is_panic r = false /\ w_fs w' = w_fs w /\
  exists l, w_sent w' = w_sent w ++ l /\ (length l <= 10)%nat /\
    Forall (fun x => x.1 = t /\ same_origin (rq_URL x.2) (rq_URL req) /\
              rq_BasicAuth x.2 = rq_BasicAuth req /\ rq_Timeout x.2 = rq_Timeout req) l.
Proof.
  pose proof (policy_Do t req w) as H. destruct (Client_Do _ _ _) as [r w'].
  destruct H as (Hp & Hfs & _ & l & Hl & Hn & HF). split; [done|]. split; [done|]. by exists l.
Qed.

(** C16: the redirect loop ends by itself: any bound from ten hops on gives
    the same result as the one it is modelled with. *)
Theorem redirects_terminate n t req w :
  (10 <= n)%nat ->
  do_hops n (mkHttpClient t sameHostRedirectPolicy) [] req w =
  Client_Do (mkHttpClient t sameHostRedirectPolicy) req w.
Proof. intros Hn. apply do_hops_fuel; unfold maxRedirects, client_fuel; simpl; lia. Qed.

(** C17: when an artifact has been downloaded, the file is there and its
    SHA-1 is the expected checksum. *)
Theorem download_verifies (ctx : Ctx Sh) url dir fileName sum c w d w' :
  downloadArtifact ctx url dir fileName sum c w = (Ret d, w') ->
  d = Join [dir; "artifact"] /\
  exists f, w_fs w' !! at_path (Join [d; fileName]) = Some (FileNode f) /\ sha1_hex (f_data f) = sum.
Proof. apply downloadArtifact_Ret. Qed.

(** C18: when resolution succeeds the filename is one path element, made of
    the coordinates and the resolved version, and the download URL is that
    file below the request path in the repository. *)
Theorem resolution_result (ctx : Ctx Sh) client s s' :
  let r := rs_Resolver s in let r' := rs_Resolver s' in
  Resolve ctx client s = (Ret tt, s') ->
  normal (ResolvedFilename r') /\
  ResolvedFilename r' = artifact_filename (mr_Artifact r) (ResolvedVersion r') /\
  DownloadURL r' = Sprintf "%s/%s/%s/%s" [RepositoryURL r; RequestPath r; Version (mr_Artifact r'); ResolvedFilename r'].
Proof. intros r r' H. apply Resolve_Ret in H as (H1 & H2 & H3 & _). done. Qed.

(** C19: a fixed version of valid coordinates always resolves, to itself
    and without any request. *)
Theorem fixed_version_resolves (ctx : Ctx Sh) client s :
  let a := mr_Artifact (rs_Resolver s) in
  valid_coordinates a -> Version a <> "RELEASE" -> Version a <> "LATEST" ->
  HasSuffix (Version a) "-SNAPSHOT" = false ->
  exists s', Resolve ctx client s = (Ret tt, s') /\ rs_World s' = rs_World s /\
    ResolvedVersion (rs_Resolver s') = Version a.
Proof.
  intros a (_ & _ & _ & (_ & Ha & _) & _ & (_ & Hv & _) & Hp1 & Hp2 & (_ & Ht & _) & (_ & Hc & _)) Hr Hl Hs.
  destruct (Resolve_fixed ctx client s) as (s' & H & Hw); try done. exists s'. split; [done|]. split; [done|].
  unfold Resolve in H. inv_bind H. injection Hstep as <- <-. fold a in H. rewrite Hp1, Hp2, Hs in H. simpl in H.
  rewrite !decide_False in H by done. unfold processFixedVersion, finish, assign, modify, gets, mbind, M_bind in H.
  simpl in H. destruct (sanitizeFilename _); [|done]. by injection H as <-.
Qed.
End Requests.

(** C20: a snapshot resolves to its version with the timestamp and the build
    number of the metadata in place of the first [-SNAPSHOT], exactly when the
    metadata lists that version for the file type, and else to itself. *)
Theorem snapshot_resolution m ft :
  exists base, unmarked (metadata_Version m) base /\
    let snapshot := Snapshot (metadata_Versioning m) in
    let timestamped := base +:+ "-" +:+ Timestamp snapshot +:+ "-" +:+ BuildNumber snapshot in
    SnapshotResolvedVersion m ft =
    if decide (Exists (fun v => Extension v = ft /\ Value v = timestamped)
                 (snapshotVersion (versioning_SnapshotVersions (metadata_Versioning m))))
    then timestamped else metadata_Version m.
Proof.
  exists (Replace (metadata_Version m) snapshot_suffix "" 1). split; [apply unmarked_Replace|].
  intros snapshot timestamped. assert (timestamped = tempvalue m) as ->; [|apply SnapshotResolvedVersion_cases].
  unfold timestamped, tempvalue, Sprintf. simpl. rewrite !append_cons, !append_nil_l, ?append_nil_r. done.
Qed.

(** ** Admission *)

Section Admission.
Context {C : Type} `{E : Env} `{A : Apimachinery}.

(** C21: the validating webhook accepts exactly the valid specs, on create
    and on update. *)
Theorem validation_exact (old obj : MavenArtifact C) :
  ((ValidateCreate obj).2 = None <-> valid_spec (Spec obj)) /\
  ((ValidateUpdate old obj).2 = None <-> valid_spec (Spec obj)).
Proof.
  unfold ValidateCreate, ValidateUpdate, MavenArtifact_validate. simpl.
  by rewrite ToAggregate_nil, MavenArtifactSpec_validate_nil.
Qed.

(** C22: what admission lets through is valid, has a positive timeout and a
    type, so that the controller's dereference of the timeout is safe; the
    defaults are those of an object admitted before. *)
Theorem admission_result (obj p : MavenArtifact C) :
  admitted obj = Some p ->
  valid_spec (Spec p) /\ (exists t, Timeout (Spec p) = Some t /\ 0 < t) /\
  Type_ (ma_Artifact (Spec p)) <> "" /\ MavenArtifactDefaulter_Default p = (p, None).
Proof.
  unfold admitted. destruct (MavenArtifactDefaulter_Default obj) as [q err] eqn:Ed.
  unfold MavenArtifactDefaulter_Default in Ed. injection Ed as <- <-.
  set (q := mkMavenArtifact _ _ _). destruct (ValidateCreate q).2 eqn:Ev; [done|]. intros [= <-].
  assert (valid_spec (Spec q)) as Hv.
  { unfold ValidateCreate, MavenArtifact_validate in Ev. simpl in Ev.
    by apply ToAggregate_nil, MavenArtifactSpec_validate_nil in Ev. }
  assert (exists t, Timeout (Spec q) = Some t) as [t Ht] by (simpl; destruct (Timeout (Spec obj)); eauto).
  assert (Type_ (ma_Artifact (Spec q)) <> "") as Hty
    by (simpl; unfold MavenArtifactType_Default; by case_decide).
  split; [done|]. split; [exists t; split; [done|by apply Hv]|]. split; [done|].
  unfold MavenArtifactDefaulter_Default, MavenArtifactSpec_Default. rewrite Ht.
  assert (MavenArtifactType_Default (ma_Artifact (Spec q)) = ma_Artifact (Spec q)) as ->
    by (unfold MavenArtifactType_Default; by rewrite decide_False).
  clear -Ht. clearbody q. destruct q as [m sp st], sp as [a r i to]. simpl in *. by rewrite Ht.
Qed.
End Admission.

(** C23: the artifact in the status has the content of the desired one, and
    keeps the time it had exactly when path, URL, revision and checksum all
    stay what they were. *)
Theorem last_update_time current desired :
  exists a, preserveArtifactLastUpdateTime current desired = Some a /\
    Artifact_Path a = Artifact_Path desired /\ Artifact_URL a = Artifact_URL desired /\
    Artifact_Revision a = Artifact_Revision desired /\ Artifact_Checksum a = Artifact_Checksum desired /\
    Artifact_LastUpdateTime a =
      match current with
      | Some c =>
          if decide (Artifact_Path c = Artifact_Path desired /\ Artifact_URL c = Artifact_URL desired /\
                     Artifact_Revision c = Artifact_Revision desired /\
                     Artifact_Checksum c = Artifact_Checksum desired)
          then Artifact_LastUpdateTime c else Artifact_LastUpdateTime desired
      | None => Artifact_LastUpdateTime desired
      end.
Proof.
  destruct current as [c|]; [|by exists desired].
  case_decide as H.
  - exists c. rewrite preserve_keeps; [naive_solver|]. destruct c, desired, H as (? & ? & ? & ?). by simplify_eq/=.
  - exists desired. rewrite preserve_changes; [done|]. intros [= ? ? ? ?]. by apply H.
Qed.

(** ** Serving *)

Section Serving.
Context `{E : Env}.

(** C24: the server changes nothing and serves only files at or below its
    directory, whatever the path of the request; but for the empty path it
    never lists a directory.  The empty path gets past the check that means
    to withhold listings, and is answered with the entries of the root. *)
Theorem server_confined (s : server) path w :
  (w_fs (artifact_handler s path w).2 = w_fs w /\
   match (artifact_handler s path w).1 with
   | Ret (Content d) => exists l f, Forall normal l /\
       w_fs w !! (at_path (server_Dir s) ++ l) = Some (FileNode f) /\ f_data f = d
   | Ret (Listing _) => path = ""
   | Ret _ => True
   | Fail _ | Panicked _ => False
   end) /\
  ((forall t, env_fault t = None) -> fs_wf (w_fs w) ->
   lookup_node (w_fs w) (at_path (server_Dir s)) = Some DirNode ->
   w_fs w !! (at_path (server_Dir s) ++ ["index.html"]) = None ->
   (artifact_handler s "" w).1 = Ret (Listing (names_in (at_path (server_Dir s)) (w_fs w)))).
Proof.
  split; [|by apply artifact_handler_empty].
  destruct (artifact_handler_shows s path w) as [H1 H2]. split; [done|]. revert H2. unfold shows.
  destruct (artifact_handler s path w).1 as [[| | |]| |]; try done. by intros H%bool_decide_eq_true.
Qed.
End Serving.

(** C25: the registry of the tests answers a request exactly when it carries
    the credentials the registry was started with; any other is refused, with
    401 when it carries none and with 403 otherwise, and never reaches the
    registry.  A client with basic authentication is let in exactly with those
    credentials, whatever bytes they hold, but for a colon in the name. *)
Theorem auth_registry_exact {R} (h : AuthHandler R) r c :
  let header := Header_Get (Header r) "Authorization" in
  (grants h header -> ServeHTTP h r c = registryHandler h r c) /\
  (~ grants h header ->
   exists ops, ServeHTTP h r c = (Ret tt, mkConn (c_registry c) (c_written c ++ ops)) /\
     reply_status ops = Some (if decide (header = "") then 401 else 403)) /\
  (forall user pass, header = basicAuth user pass -> byte_in ":" user = false ->
     grants h header <-> user = allowedUser h /\ pass = allowedPass h).
Proof.
  split; [apply ServeHTTP_grants|]. split; [apply ServeHTTP_refuses|].
  intros user pass -> Hu. by apply grants_basicAuth.
Qed.

Section Published.
Context {C : Type} `{CM : ConditionManager C, CL : !ConditionLaws C}.
Context {Sh : Type} `{ST : Stash Sh stash_value}.
Context `{E : Env} `{X : Xml} `{T : TarGz} `{ZR : Zip} `{CK : Clock}.

(** C26: a published artifact is served: asked for the path of the URL in
    the status, a server of the same directory answers with the bytes whose
    SHA-1 the status states. *)
Theorem published_is_served host root addr info (p : MavenArtifact C) w a :
  (forall t, env_fault t = None) -> fs_wf (w_fs w) -> meta_ok (Meta p) ->
  published host root info p (w_fs w) -> Status_Artifact (Status p) = Some a ->
  localizes (Artifact_Path a) = true -> HasSuffix (Artifact_Path a) "/index.html" = false ->
  exists d, (artifact_handler (New addr root) ("/" +:+ Artifact_Path a) w).1 = Ret (Content d) /\
    Artifact_Checksum a = sha1_hex d.
Proof.
  intros Hnf Hwf Hm [(a' & f & tgz & Ha' & Hn & Hpath & Hf & Hsum & _) _ _] Ha Hloc Hidx.
  rewrite Ha in Ha'. injection Ha' as <-. exists (f_data f). split; [|done].
  pose proof (at_httpPath root (Meta p) tgz Hm Hn) as Hk. rewrite at_mavenDir in Hk by done.
  destruct Hm as [Hns Hname]. unfold maven_httpPath in *.
  rewrite (Join_names "mavenartifact") in * by normals. rewrite Hpath in *.
  change ["mavenartifact"; Namespace (Meta p); Name (Meta p); tgz]
    with (["mavenartifact"; Namespace (Meta p); Name (Meta p)] ++ [tgz]) in *.
  apply artifact_handler_serves; try done.
  - normals.
  - intros ->. revert Hidx. rewrite (JoinWith_app "/" "mavenartifact" [Namespace (Meta p); Name (Meta p)]).
    change ("/" +:+ JoinWith "/" ["index.html"]) with "/index.html". by rewrite HasSuffix_append.
  - rewrite Hk, <- app_assoc in Hf. exact Hf.
Qed.
End Published.

(** ** Wiring *)

(** C27: while every checked call goes well, the program makes all of them,
    from the registration of both API groups to the two probes, adds the
    artifact server, and ends as the manager it then starts.  The first checked
    call that fails is the last one made: the program panics when it registers
    a group, and exits with the error otherwise.  So whenever the manager is
    started, a controller of each kind, the webhook, both probes and the
    artifact server have been set up, the controllers for the directory that
    the server serves. *)
Theorem program_wiring `{MG : Manager} f :
  let run := (_ ← init; main f) [] in
  (Forall (fun c => manager_answers c = None) (scheme ++ setup f) ->
   run.1 = match manager_answers StartManager with None => Ret tt | Some e => Fail e end /\
   run.2 = scheme ++ setup f ++ [AddRunnable (New (artifactAddr f) (artifactRootDir f)); StartManager]) /\
  (forall pre c post e, scheme ++ setup f = pre ++ c :: post ->
     Forall (fun c => manager_answers c = None) pre -> manager_answers c = Some e ->
     run.1 = match c with AddToScheme _ => Panicked "utilruntime.Must" | _ => Fail e end /\ run.2 = pre ++ [c]) /\
  (StartManager ∈ run.2 ->
   exists s, AddRunnable s ∈ run.2 /\ s = New (artifactAddr f) (artifactRootDir f) /\
     (forall k, exists c, ctl_Kind c = k /\ SetupWithManager c ∈ run.2 /\
        manager_answers (SetupWithManager c) = None /\ ctl_SyncPeriod c = 10 * 3600 * Second /\
        ctl_httpRootDir c = server_Dir s /\ ctl_httpHost c = artifactHost f /\
        ctl_certs c = [mkCert (caCertPath f) None ""]) /\
     forall c, c ∈ [AddToScheme "client-go"; AddToScheme Group; NewManager (manager_options f);
                    NewWebhookManagedBy MavenArtifactKind; AddHealthzCheck "healthz"; AddReadyzCheck "readyz"] ->
       c ∈ run.2 /\ manager_answers c = None).
Proof.
  intros run. change run with (program f []). split_and!.
  - intros H. by rewrite (program_ok f H).
  - intros pre c post e Hs Hp Hc. by rewrite (program_stops f pre c post e Hs Hp Hc).
  - intros [Hw ->]%program_starts. rewrite Forall_forall in Hw.
    exists (New (artifactAddr f) (artifactRootDir f)). split_and!; [|done| |].
    + unfold wiring, setup, scheme. set_solver.
    + intros k. exists (mkController k syncPeriod (artifactRootDir f) (artifactHost f) (certs f)).
      assert (SetupWithManager (mkController k syncPeriod (artifactRootDir f) (artifactHost f) (certs f))
                ∈ scheme ++ setup f) as Hin by (destruct k; unfold setup, scheme; set_solver).
      split_and!; [done| |by apply Hw|done..]. unfold wiring. set_solver.
    + intros c Hc. assert (c ∈ scheme ++ setup f) as Hin by (unfold setup, scheme; set_solver).
      split; [|by apply Hw]. unfold wiring. set_solver.
Qed.

(** ** Instances *)

Lemma extraction_stays_below_witness :
  let w := lab_world (<[["tmp"; "a.jar"] := FileNode (mkFile evil 420 0)]> tree_fs) in
  w_fs (extractArchive "/tmp/d" "/tmp/a.jar" w).2 !! ["etc"; "passwd"] = None /\
  safeArchiveEntryPath (Join ["/tmp/d"; "extracted-artifact"]) "lib/x.class" =
    inl "/tmp/d/extracted-artifact/lib/x.class" /\
  let w2 := lab_world (<[["tmp"; "a.jar"] := FileNode (mkFile bundle 420 0)]> tree_fs) in
  exists w', extractArchive "/tmp/d" "/tmp/a.jar" w2 = (Ret "/tmp/d/extracted-artifact", w') /\
    file_data (w_fs w') ["tmp"; "d"; "extracted-artifact"; "lib"; "x.class"] = Some "class".
Proof.
  intros w. destruct (extraction_stays_below "/tmp/d" "/tmp/a.jar" w) as (H & _ & G & _). split; [|split].
  - transitivity (w_fs w !! ["etc"; "passwd"]); [|vm_compute; reflexivity].
    apply H. intros [l Hl]. vm_compute in Hl. discriminate.
  - rewrite G; [vm_compute; reflexivity|vm_compute; reflexivity| |vm_compute; reflexivity|..].
    + repeat constructor; vm_compute; intros; discriminate.
    + vm_compute. discriminate.
    + vm_compute. discriminate.
    + vm_compute. discriminate.
  - intros w2. destruct (extractArchive "/tmp/d" "/tmp/a.jar" w2) as [r w'] eqn:Ex.
    assert (r = Ret "/tmp/d/extracted-artifact") as -> by (apply (f_equal fst) in Ex; by vm_compute in Ex).
    exists w'. split; [done|].
    destruct (extraction_stays_below "/tmp/d" "/tmp/a.jar" w2) as (_ & _ & _ & F).
    destruct (F _ _ ltac:(apply fs_wf_b_sound; vm_compute; reflexivity) Ex) as (_ & data & files & Hd & Hz & _ & Hl).
    vm_compute in Hd. injection Hd as <-. vm_compute in Hz. injection Hz as <-.
    specialize (Hl ["lib"; "x.class"]). by vm_compute in Hl.
Defined.

Lemma tarball_of_directory_witness :
  exists w' m t, createTarGz "/tmp/d" "/tmp/out" (lab_world tree_fs) = (Ret tt, w') /\
    w_fs w' = <[["tmp"; "out"] := FileNode (mkFile "[f]first[sub/g]second." m t)]> tree_fs.
Proof.
  apply (tarball_of_directory "/tmp/d" "/tmp/out" (lab_world tree_fs)).
  - done.
  - apply tree_wf.
  - vm_compute. reflexivity.
  - intros [l H]. vm_compute in H. discriminate.
  - intros r n H. apply (names_b_sound tree_fs (at_path "/tmp/d") r n); [vm_compute; reflexivity|exact H].
  - vm_compute. reflexivity.
  - vm_compute. discriminate.
  - vm_compute. reflexivity.
Defined.

Lemma cache_round_trip_witness :
  let ac := mkArtifactCache (app +:+ "/1.0/app-1.0.jar") (sha1_hex jar) in
  let w1 := (os_WriteFile "/tmp/c" (toString ac) 511 (lab_world lab_fs)).2 in
  (exists read, (retrieveChecksumFromFile "/tmp/c" w1).1 = Ret (Some read) /\ read = ac) /\
  is_panic (retrieveChecksumFromFile "/tmp/d/f" (lab_world tree_fs)).1 = true.
Proof.
  intros ac w1. split.
  - destruct (cache_round_trip "/tmp/c" (lab_world lab_fs)) as [H _]; [done|apply lab_wf|].
    destruct (H ac 511 w1) as (read & Hr & Hiff).
    + assert ((os_WriteFile "/tmp/c" (toString ac) 511 (lab_world lab_fs)).1 = Ret tt) as <-
        by (vm_compute; reflexivity). apply surjective_pairing.
    + exists read. split; [exact Hr|]. apply Hiff. split; vm_compute; reflexivity.
  - destruct (cache_round_trip "/tmp/d/f" (lab_world tree_fs)) as [_ H]; [done|apply tree_wf|].
    apply (H (mkFile "first" 420 0)); vm_compute; reflexivity.
Defined.

Lemma lost_errors_witness :
  (@copyFile (failing_at 2 ENOSPC) "/tmp/d/f" "/tmp/copy" (lab_world tree_fs)).1 = Ret tt /\
  (@tar_entry (failing_at 1 ENOSPC) _ "/tmp/d" "/tmp/out" "/tmp/d/f" (inl (FileNode (mkFile "first" 420 0)))
     (mkTarState (lab_world tree_fs) tz_new false)).1 = Ret tt /\
  (@createTarGz (failing_at 14 ENOSPC) _ "/tmp/d" "/tmp/out" (lab_world tree_fs)).1 = Ret tt /\
  file_data (w_fs (@createTarGz (failing_at 14 ENOSPC) _ "/tmp/d" "/tmp/out" (lab_world tree_fs)).2)
    (@at_path (failing_at 14 ENOSPC) "/tmp/out") = Some "[f]first[sub/g]second".
Proof.
  split; [|split].
  - set (w1 := mkWorld tree_fs 1 [] []). set (w2 := mkWorld tree_fs 2 [] []). set (w3 := mkWorld tree_fs 3 [] []).
    destruct (@lost_errors (failing_at 2 ENOSPC) _) as [H _].
    destruct (H "/tmp/d/f" "/tmp/copy" (lab_world tree_fs) w1 (FileNode (mkFile "first" 420 0)) w2
      (fs_PathError "open" "/tmp/copy" ENOSPC) w3) as [Hc _]; [vm_compute; reflexivity|].
    destruct Hc as [-> _]; [vm_compute; reflexivity|vm_compute; reflexivity|done].
  - destruct (@lost_errors (failing_at 1 ENOSPC) _) as (_ & H & _).
    destruct (H "/tmp/d" "/tmp/out" "/tmp/d/f" (mkFile "first" 420 0) (mkTarState (lab_world tree_fs) tz_new false)
      (FileNode (mkFile "first" 420 0)) (mkTarState (mkWorld tree_fs 1 [] []) tz_new false)
      (fs_PathError "stat" "/tmp/d/f" ENOSPC) (mkTarState (mkWorld tree_fs 2 [] []) tz_new false)) as [-> _];
      [vm_compute; reflexivity|vm_compute; reflexivity|done].
  - destruct (@lost_errors (failing_at 14 ENOSPC) _) as (_ & _ & H).
    destruct (@os_Create (failing_at 14 ENOSPC) "/tmp/out" (lab_world tree_fs)) as [c w1] eqn:Hc.
    assert (c = Ret tt) as -> by (apply (f_equal fst) in Hc; by vm_compute in Hc).
    destruct (@WalkDir (failing_at 14 ENOSPC) _ _ "/tmp/d" (@tar_entry (failing_at 14 ENOSPC) _ "/tmp/d" "/tmp/out")
                (mkTarState w1 tz_new false)) as [r s] eqn:Hw.
    destruct (H "/tmp/d" "/tmp/out" (lab_world tree_fs) w1 r s Hc Hw) as [H1 H2].
    vm_compute in Hc. injection Hc as <-. vm_compute in Hw. injection Hw as <- <-.
    split; [exact H1|].
    specialize (H2 (mkFault ENOSPC 0) (mkFile "[f]first[sub/g]second" 420 13)).
    rewrite H2; [reflexivity|reflexivity|discriminate|reflexivity|vm_compute; reflexivity].
Defined.

Definition lab_request (url : string) : Request :=
  mkRequest "GET" (match url_Parse url with inl u => u | inr _ => mkURL "" "" "" end) (Some ("", "")) (Some 1).

Lemma redirects_terminate_witness :
  do_hops 50 lab_client [] (lab_request "https://repo.test/loop") (lab_world lab_fs) =
  Client_Do lab_client (lab_request "https://repo.test/loop") (lab_world lab_fs).
Proof. apply (redirects_terminate 50). lia. Defined.

Abbreviation lab_ctx := (mkCtx (Some 1) (empty_stash : lab_stash)).

Lemma download_verifies_witness :
  let x := downloadArtifact lab_ctx (app +:+ "/1.0/app-1.0.jar") "/tmp" "app.jar" (sha1_hex jar) lab_client (lab_world lab_fs) in
  exists f, w_fs x.2 !! at_path (Join ["/tmp/artifact"; "app.jar"]) = Some (FileNode f) /\ sha1_hex (f_data f) = sha1_hex jar.
Proof.
  intros x. assert (x.1 = Ret "/tmp/artifact") as Hx by (vm_compute; reflexivity).
  apply (download_verifies lab_ctx (app +:+ "/1.0/app-1.0.jar") "/tmp" "app.jar" (sha1_hex jar) lab_client (lab_world lab_fs)).
  rewrite <- Hx. apply surjective_pairing.
Defined.

Definition lab_resolver (v : string) : ResolverState :=
  mkResolverState (lab_world lab_fs)
    (mkMavenResolver (mkMavenArtifactType "com.acme" v "app" "jar" "") "https://repo.test/maven" "com/acme/app" "" "" "" "").

Lemma resolution_result_witness :
  let x := Resolve lab_ctx lab_client (lab_resolver "RELEASE") in normal (ResolvedFilename (rs_Resolver x.2)).
Proof.
  intros x. assert (x.1 = Ret tt) as Hx by (vm_compute; reflexivity).
  apply (resolution_result lab_ctx lab_client (lab_resolver "RELEASE") x.2).
  rewrite <- Hx. apply surjective_pairing.
Defined.

Lemma fixed_version_resolves_witness :
  exists s', Resolve lab_ctx lab_client (lab_resolver "1.0") = (Ret tt, s') /\ ResolvedVersion (rs_Resolver s') = "1.0".
Proof.
  destruct (fixed_version_resolves lab_ctx lab_client (lab_resolver "1.0")) as (s' & H & _ & Hv).
  - vm_compute. repeat split; try reflexivity; discriminate.
  - discriminate.
  - discriminate.
  - vm_compute. reflexivity.
  - exists s'. split; [exact H|exact Hv].
Defined.

Lemma admission_result_witness :
  admitted (maven_resource "1.0" "creds") = Some (maven_resource "1.0" "creds") /\
  valid_spec (Spec (maven_resource "1.0" "creds")).
Proof.
  assert (admitted (maven_resource "1.0" "creds") = Some (maven_resource "1.0" "creds")) as Ha by (vm_compute; reflexivity).
  split; [exact Ha|]. by apply (admission_result (maven_resource "1.0" "creds")).
Defined.

Lemma server_confined_witness :
  (artifact_handler (New ":8082" "/srv") "" (lab_world cached_fs)).1 = Ret (Listing ["artifact-root"]).
Proof.
  destruct (server_confined (New ":8082" "/srv") "" (lab_world cached_fs)) as [_ H].
  rewrite H; [vm_compute; reflexivity|done|apply cached_wf|vm_compute; reflexivity|vm_compute; reflexivity].
Defined.

Definition lab_login (user pass : string) : HttpRequest :=
  mkHttpRequest {["Authorization" := [basicAuth user pass]]}
    (mkRequest "GET" (mkURL "https" "registry.test" "/v2/") None None).

(** A registry that counts the requests it gets. *)
Definition counting_registry : AuthHandler nat :=
  mkAuthHandler "admin" "s3:cret" (fun _ c => (Ret tt, mkConn (S (c_registry c)) (c_written c ++ [WriteHeader 200]))).

Lemma auth_registry_exact_witness :
  ServeHTTP counting_registry (lab_login "admin" "s3:cret") (mkConn 0%nat []) = (Ret tt, mkConn 1%nat [WriteHeader 200]) /\
  exists ops, ServeHTTP counting_registry (lab_login "admin" "guess") (mkConn 0%nat []) = (Ret tt, mkConn 0%nat ops) /\
    reply_status ops = Some 403.
Proof.
  split.
  - destruct (auth_registry_exact counting_registry (lab_login "admin" "s3:cret") (mkConn 0%nat [])) as (H & _ & G).
    rewrite H; [reflexivity|]. by apply (G "admin" "s3:cret").
  - destruct (auth_registry_exact counting_registry (lab_login "admin" "guess") (mkConn 0%nat [])) as (_ & H & G).
    destruct H as (ops & Ho & Hs); [|exists ops; split; [exact Ho|exact Hs]].
    intros Hg. by apply (G "admin" "guess") in Hg as [_ Hp].
Defined.

Lemma published_is_served_witness :
  exists d, (artifact_handler (New ":8082" "./artifact-root") "/mavenartifact/ns/app/app.tar.gz" (lab_world served_fs)).1
    = Ret (Content d) /\ sha1_hex served_tgz = sha1_hex d.
Proof.
  apply (published_is_served "host" "./artifact-root" ":8082" (lab_info "1.0") served_resource (lab_world served_fs)
    served_artifact).
  - done.
  - apply served_wf.
  - apply lab_meta_ok.
  - apply served_published.
  - done.
  - vm_compute. reflexivity.
  - vm_compute. reflexivity.
Defined.

(** The set-up of the second controller is refused. *)
Definition refusing_manager : Manager := {|
  manager_answers c := match c with SetupWithManager (mkController MavenArtifactKind _ _ _ _) =>
    Some (foreign_Error "manager" "refused") | _ => None end
|}.

Lemma program_wiring_witness :
  (program default_flags []).1 = Fail (foreign_Error "manager" "stopped") /\
  List.length (program default_flags []).2 = 10%nat /\
  (@program refusing_manager default_flags []).1 = Fail (foreign_Error "manager" "refused") /\
  List.length (@program refusing_manager default_flags []).2 = 5%nat.
Proof.
  destruct (program_wiring default_flags) as [H _]. destruct H as [H1 H2]; [repeat constructor|].
  destruct (@program_wiring refusing_manager default_flags) as (_ & H & _).
  destruct (H [AddToScheme "client-go"; AddToScheme Group; NewManager (manager_options default_flags);
               SetupWithManager (mkController ImageRepositoryKind syncPeriod "./artifact-root" "localhost:8082"
                                   (certs default_flags))]
              (SetupWithManager (mkController MavenArtifactKind syncPeriod "./artifact-root" "localhost:8082"
                                   (certs default_flags)))
              [NewWebhookManagedBy MavenArtifactKind; AddHealthzCheck "healthz"; AddReadyzCheck "readyz"]
              (foreign_Error "manager" "refused")) as [H3 H4]; [reflexivity|repeat constructor|reflexivity|].
  split_and!; [exact H1|unfold program; rewrite H2; reflexivity|exact H3|unfold program; rewrite H4; reflexivity].
Defined.
