(* ===== verification/ImageProperties.v ===== *)
(** * Properties of the ImageRepository controller *)

From stdpp Require Import sorting.
From S2P Require Import Prelude GoStrings GoPath GoErrors Effects World GoOS GoOSFacts Sha1.
From S2P Require Import Runtime ApiTypes MavenMetadata Http Transport Stashes ArtifactFiles.
From S2P Require Import ArtifactFilesFacts TarFacts Reconcile Frames Steps MavenArtifactController.
From S2P Require Import ImageRepositoryController MavenFacts MavenPublish ImageFacts PanicFacts Composition.
From S2P Require Import ImageReconcileFacts PullSecrets ReconcileDisk Laboratory.

Section Reconcile.
Context {C : Type} `{CM : ConditionManager C, CL : !ConditionLaws C}.
Context {Sh : Type} `{ST : Stash Sh stash_value, SL : !StashLaws Sh stash_value}.
Context `{E : Env} `{T : TarGz} `{CK : Clock} `{RG : Registry} `{GL : !RegistryLaws}.
Context `{RC : Reconcilers} `{RL : !ReconcilerLaws}.
Abbreviation RS := (Reconcile (ImageRepository C) Sh).

(** C28: when no system call fails and the reconcile of a live resource
    returns without an error, the resource is as it was or marked
    unresolved, or the image of its spec was pinned to a digest and pulled:
    then the failure is recorded, or the file of that digest was already
    the one of the status, or it was published, and the status names a file
    on disk with the stated checksum and the resource is ready. *)
Theorem image_reconcile_outcome host certs (s : RS) r s' :
  (forall t, env_fault t = None) -> stash s = empty_stash -> meta_ok (ir_Meta (parent s)) ->
  apart (image_own s) -> flat (w_fs (world s)) (image_own s) -> image_being_deleted s = false ->
  ImageRepositoryReconciler host certs s = (Ret r, s') ->
  image_result host (httpRootDir s) (parent s) (parent s') (w_fs (world s)) (w_fs (world s')).
Proof. intros Hf Hst Hm Ha Hfl Hd H. apply image_live_Ret in H; [|done]. by eapply image_syncs_Ret. Qed.

(** C29: whatever the outcome of a reconcile, the entries on disk outside
    the resource's own directory stay as they are, but for directories
    created on the way to it and new entries below the temporary
    directory; and the tree stays well formed. *)
Theorem image_reconcile_isolation host certs (s : RS) :
  fs_wf (w_fs (world s)) -> meta_ok (ir_Meta (parent s)) ->
  isolated (at_or_below (image_own s)) (on_path_to (image_own s))
    (w_fs (world s)) (w_fs (world (ImageRepositoryReconciler host certs s).2)) /\
  fs_wf (w_fs (world (ImageRepositoryReconciler host certs s).2)).
Proof. apply image_frame. Qed.

(** C30: a reconcile does not panic as long as a status with a URL has an
    artifact. *)
Theorem image_reconcile_no_panic host certs (s : RS) :
  url_has_artifact (parent s) -> image_being_deleted s = false ->
  is_panic (ImageRepositoryReconciler host certs s).1 = false.
Proof.
  intros Hu Hd. destruct (image_live host certs s Hd) as [[e ->]| ->]; [done|by apply image_syncs_calm].
Qed.

(** C31: a resource that is not being deleted gets its finalizer first, then
    the five syncs run in order and stop at the first error, and on success
    the reconcile asks to run again after the interval of the spec.  For one
    that is being deleted only the finalization of the pull runs, the
    finalizer is cleared once that has succeeded, and nothing is asked for. *)
Theorem image_reconcile_in_order host certs (s : RS) :
  (image_being_deleted s = false ->
   ImageRepositoryReconciler host certs s =
     (_ ← AddFinalizer (Group +:+ "/finalizer");
      _ ← TransportSync certs; _ ← ImagePullSecretsSync; _ ← ImageDigestSync; _ ← PullImageSync host;
      ImageIntervalSync) s /\
   forall r s', ImageRepositoryReconciler host certs s = (Ret r, s') ->
     RequeueAfter r = ir_Interval (ir_Spec (parent s))) /\
  (image_being_deleted s = true ->
   ImageRepositoryReconciler host certs s =
     (_ ← PullImageFinalize; _ ← ClearFinalizer (Group +:+ "/finalizer"); mret zero_result) s).
Proof.
  split; intros Hd; [split; [by apply image_adds|]|by apply image_clears].
  intros r s' H. by apply image_requeue in H as ->.
Qed.

(** C32: the reconcile of a resource being deleted changes nothing outside
    its directory and nothing of the resource, and when it succeeds the
    directory is gone with all below it. *)
Theorem image_deletion host certs (s : RS) o s' :
  image_being_deleted s = true -> fs_wf (w_fs (world s)) -> meta_ok (ir_Meta (parent s)) ->
  ImageRepositoryReconciler host certs s = (o, s') ->
  parent s' = parent s /\ touches (at_or_below (image_own s)) (w_fs (world s)) (w_fs (world s')) /\
  forall r, o = Ret r -> r = zero_result /\
    forall k, w_fs (world s') !! k = if decide (image_own s `prefix_of` k) then None else w_fs (world s) !! k.
Proof.
  intros Hd Hwf Hm. destruct (image_deleted host certs s Hd) as (o' & -> & _ & Ho). intros [= <- <-].
  destruct (PullImageFinalize_run s _ _ Hwf Hm (surjective_pairing _)) as (H1 & H2 & H3).
  split; [done|]. split; [done|]. intros r Hr. destruct (Ho r Hr) as [Hret ->]. split; [done|by apply H3].
Qed.

End Reconcile.

(** ** Instances *)

Abbreviation lab_image i := (start (image_resource i) lab_fs).

Lemma image_reconcile_outcome_witness :
  let s := lab_image "registry.test/app:v1" in
  let x := ImageRepositoryReconciler "host" lab_certs s in
  x.1 = Ret (mkResult 300000000000) /\
  image_result "host" (httpRootDir s) (parent s) (parent x.2) (w_fs (world s)) (w_fs (world x.2)).
Proof.
  intros s x. assert (x.1 = Ret (mkResult 300000000000)) as Hx by (vm_compute; reflexivity).
  split; [exact Hx|]. apply (image_reconcile_outcome "host" lab_certs s (mkResult 300000000000)).
  - done.
  - done.
  - apply lab_meta_ok.
  - apply lab_apart. by vm_compute.
  - apply lab_flat. by vm_compute.
  - done.
  - rewrite <- Hx. apply surjective_pairing.
Defined.

Lemma image_reconcile_isolation_witness :
  let s := lab_image lab_digest in
  isolated (at_or_below (image_own s)) (on_path_to (image_own s))
    (w_fs (world s)) (w_fs (world (ImageRepositoryReconciler "host" lab_certs s).2)).
Proof. apply image_reconcile_isolation; [apply lab_wf|apply lab_meta_ok]. Defined.

Lemma image_reconcile_no_panic_witness :
  is_panic (ImageRepositoryReconciler "host" lab_certs (lab_image lab_digest)).1 = false.
Proof. apply image_reconcile_no_panic; [|done]. intros H. by destruct H. Defined.

Definition deleted_image (p : ImageRepository conditions) : ImageRepository conditions :=
  mkImageRepository (mkObjectMeta (Namespace (ir_Meta p)) (Name (ir_Meta p)) (Some 1)) (ir_Spec p) (ir_Status p).

Lemma image_reconcile_in_order_witness :
  let s := lab_image lab_digest in
  let d := start (deleted_image (image_resource lab_digest)) cached_fs in
  ImageRepositoryReconciler "host" lab_certs s =
    (_ ← AddFinalizer (Group +:+ "/finalizer");
     _ ← TransportSync lab_certs; _ ← ImagePullSecretsSync; _ ← ImageDigestSync; _ ← PullImageSync "host";
     ImageIntervalSync) s /\
  ImageRepositoryReconciler "host" lab_certs d =
    (_ ← PullImageFinalize; _ ← ClearFinalizer (Group +:+ "/finalizer"); mret zero_result) d.
Proof.
  intros s d. split.
  - destruct (image_reconcile_in_order "host" lab_certs s) as [H _]. exact (proj1 (H eq_refl)).
  - destruct (image_reconcile_in_order "host" lab_certs d) as [_ H]. exact (H eq_refl).
Defined.

Lemma image_deletion_witness :
  let s := start (deleted_image (image_resource lab_digest)) cached_fs in
  let x := ImageRepositoryReconciler "host" lab_certs s in
  x.1 = Ret zero_result /\
  w_fs (world x.2) !! ["srv"; "artifact-root"; "mavenartifact"] = Some DirNode.
Proof.
  intros s x. assert (x.1 = Ret zero_result) as Hx by (vm_compute; reflexivity). split; [exact Hx|].
  destruct (image_deletion "host" lab_certs s x.1 x.2) as (_ & _ & H).
  - done.
  - apply cached_wf.
  - apply lab_meta_ok.
  - apply surjective_pairing.
  - destruct (H _ Hx) as [_ Hk]. rewrite Hk. rewrite decide_False; [vm_compute; reflexivity|].
    intros [l Hl]. vm_compute in Hl. discriminate.
Defined.
