(* ===== verification/ClusterProperties.v ===== *)
(** * Properties of the two controllers over many resources *)

From S2P Require Import Prelude GoStrings GoPath GoErrors Effects World GoOS GoOSFacts Sha1.
From S2P Require Import Runtime ApiTypes MavenMetadata Http Transport Stashes ArtifactFiles.
From S2P Require Import ArtifactFilesFacts MavenDownload MavenResolver Reconcile Frames Steps.
From S2P Require Import MavenArtifactController ImageRepositoryController MavenFacts MavenPublish.
From S2P Require Import ImageFacts Composition StashTypes Cluster Laboratory.

Section Cluster.
Context {C : Type} `{CM : ConditionManager C, CL : !ConditionLaws C}.
Context {Sh : Type} `{ST : Stash Sh stash_value, SL : !StashLaws Sh stash_value}.
Context `{E : Env} `{X : Xml} `{T : TarGz} `{ZR : Zip} `{CK : Clock} `{RG : Registry, RGL : !RegistryLaws}.
Context `{RC : Reconcilers, RCL : !ReconcilerLaws}.

(** C35: however often the other resources of the cluster are created,
    changed, reconciled, deleted and removed, in whatever order, and whatever
    fails on the way, what a resource has published stays published: its
    status is as it was, the file it names is on disk with the checksum it
    states, and so is the cache file of a MavenArtifact; and the system stays
    well formed. *)
Theorem published_outlives_others K host certs mine sy sy' :
  system_ok K certs sy -> rtc (others (C := C) (Sh := Sh) host certs mine) sy sy' ->
  system_ok K certs sy' /\
  (forall k p info, mine = maven_key k -> sy_maven sy !! k = Some p -> normal (ResolvedFileName info) ->
     published host (sy_maven_root sy) info p (w_fs (sy_world sy)) ->
     sy_maven sy' !! k = Some p /\ published host (sy_maven_root sy') info p (w_fs (sy_world sy'))) /\
  (forall k p ref, mine = image_key k -> sy_images sy !! k = Some p ->
     image_published host (sy_image_root sy) ref p (w_fs (sy_world sy)) ->
     sy_images sy' !! k = Some p /\ image_published host (sy_image_root sy') ref p (w_fs (sy_world sy'))).
Proof.
  intros Hok Hrtc. destruct (others_keep K host certs mine sy sy' Hok Hrtc) as (Hok' & Hf & Hm & Hi).
  destruct Hok as [_ _ Hmr Hir Hnm Hni], Hok' as [? ? Hmr' Hir' ? ?]. split; [by split|]. split.
  - intros [ns n] p info -> Hp Hfn Hpub. destruct (Hnm _ _ Hp) as [Hk Hmeta]. injection Hk as Hns Hn.
    split; [by rewrite Hm|]. eapply published_keeps; [done|done|by rewrite Hmr, Hmr'| |exact Hpub].
    rewrite at_mavenDir, Hmr, Hns, Hn by done. exact Hf.
  - intros [ns n] p ref -> Hp Hpub. destruct (Hni _ _ Hp) as [Hk Hmeta]. injection Hk as Hns Hn.
    split; [by rewrite Hi|]. eapply image_published_keeps; [done|by rewrite Hir, Hir'| |exact Hpub].
    rewrite at_imageDir, Hir, Hns, Hn by done. exact Hf.
Qed.

(** C34: every key of the stash is for values of one type.  Each sync of
    either controller, and each reconcile as a whole, keeps to that whatever
    happens; and as long as it holds, a retrieval gives the value stashed
    under its key, and nothing only when none was. *)
Theorem stash_well_typed host certs :
  well_typed (empty_stash : Sh) /\
  Forall (fun sync => forall s : Reconcile (MavenArtifact C) Sh, well_typed (stash s) -> well_typed (stash (sync s).2))
    [SecretsSync certs; VersionSync; DownloadSync host] /\
  Forall (fun sync => forall s : Reconcile (ImageRepository C) Sh, well_typed (stash s) -> well_typed (stash (sync s).2))
    [TransportSync certs; ImagePullSecretsSync; ImageDigestSync; PullImageSync host] /\
  (forall s : Reconcile (MavenArtifact C) Sh,
     well_typed (stash s) -> well_typed (stash (MavenArtifactReconciler host certs s).2)) /\
  (forall s : Reconcile (ImageRepository C) Sh,
     well_typed (stash s) -> well_typed (stash (ImageRepositoryReconciler host certs s).2)) /\
  forall s : Sh, well_typed s ->
    retrieved (retrieveHttpClient s) s MavenArtifactHttpClientKey SV_HttpClient /\
    retrieved (retrieveAuthSecret s) s MavenArtifactAuthSecretStashKey SV_Secret /\
    retrieved (retrieveArtifactVersion s) s MavenArtifactVersionStashKey SV_ArtifactDetails /\
    retrieved (RetrieveHttpRoundTripper s) s HttpRoundTripperStashKey SV_RoundTripper /\
    retrieved (RetrieveImagePullSecrets s) s ImagePullSecretsStashKey SV_Secrets /\
    (RetrieveValue s ImageRefStashKey = None \/
     RetrieveValue s ImageRefStashKey = Some (SV_string (RetrieveImageRef s))).
Proof.
  split; [apply well_typed_empty|]. split; [|split; [|split; [|split]]].
  - by repeat constructor; [apply typed_SecretsSync|apply typed_VersionSync|apply typed_DownloadSync].
  - by repeat constructor;
      [apply typed_TransportSync|apply typed_ImagePullSecretsSync|apply typed_ImageDigestSync|apply typed_PullImageSync].
  - apply typed_maven.
  - apply typed_image.
  - apply retrievals.
Qed.
End Cluster.

(** ** Instances *)

(** A published resource, and another one that has not been reconciled. *)
Definition other_resource : MavenArtifact conditions :=
  mkMavenArtifact (mkObjectMeta "ns" "other" None) (maven_spec "1.0" "")
    (mkMavenArtifactStatus (InitializeConditions MavenArtifactCondSet no_conditions) 0 "" None).

Definition lab_system : System :=
  mkSystem (lab_world served_fs) [[raw_cert ""]] "./artifact-root" "./artifact-root"
    {[("ns", "app") := served_resource; ("ns", "other") := other_resource]} {[("ns", "app") := image_resource lab_digest]}.

Lemma lab_system_ok : system_ok (@at_path lab "./artifact-root") lab_certs lab_system.
Proof.
  split; [apply served_wf|apply lab_slice_ok|done|done|simpl..].
  - apply map_Forall_insert_2; [split; [done|apply lab_meta_ok]|].
    apply map_Forall_singleton. split; [done|by vm_compute].
  - apply map_Forall_singleton. split; [done|apply lab_meta_ok].
Defined.

Abbreviation lab_next := (reconcile_maven (Sh := lab_stash) "host" lab_certs ("ns", "other") lab_system).

Lemma published_outlives_others_witness :
  (exists a, sy_maven lab_next !! ("ns", "other") = Some a /\ Status_Artifact (Status a) <> None) /\
  sy_maven lab_next !! ("ns", "app") = Some served_resource /\
  published "host" (sy_maven_root lab_next) (lab_info "1.0") served_resource (w_fs (sy_world lab_next)).
Proof.
  split; [eexists; split; [vm_compute; reflexivity|discriminate]|].
  destruct (published_outlives_others (@at_path lab "./artifact-root") "host" lab_certs (maven_key ("ns", "app"))
              lab_system lab_next lab_system_ok) as (_ & H & _).
  - apply rtc_once. exists (maven_key ("ns", "other")). split; [discriminate|apply step_maven].
  - apply (H ("ns", "app")); [done|done|by vm_compute|apply served_published].
Defined.

Lemma stash_well_typed_witness :
  let s := start (maven_resource "1.0" "creds") lab_fs in
  well_typed (stash (SecretsSync lab_certs s).2) /\
  retrieveAuthSecret (stash (SecretsSync lab_certs s).2) <> None.
Proof.
  intros s. destruct (stash_well_typed (C := conditions) (Sh := lab_stash) "host" lab_certs) as (H0 & H & _).
  split; [|vm_compute; discriminate]. apply Forall_cons in H as [H _]. apply H, H0.
Defined.
